(* ===== verification/_CoqProject ===== *)
-Q . S2P
Prelude.v
Packets.v
IO.v
Logic.v
Simple.v
Stdio.v
Up.v
Dl.v
Ls.v
Crc32.v
Install.v
Cstr.v
Mkrbf.v
Vm.v
BtUnix.v
BtWin.v
Tcp.v
TcpWin.v
Info.v
Tunnel.v
Uf2.v
Uf2Pack.v
Uf2Unpack.v
Uf2Roundtrip.v
Uf2Win.v
Stream.v
Bridge.v
BridgeLoop.v
BridgeRelay.v
Cli.v
Sim.v
Main.v
MainSafe.v
MainSelect.v
MainStream.v
Output.v
OutputSpec.v
Sound.v
SoundSpec.v
Button.v
Timer.v
Lcd.v
LcdFrame.v
LcdImage.v
LcdDraw.v
LcdPaint.v
LcdWindow.v
LcdText.v
LcdFonts.v
LcdCat.v
LcdPrint.v
LcdType.v
LcdShow.v
LcdTest.v
Toy.v
Witnesses.v
StreamWitnesses.v
BrickWitnesses.v
