(* ===== verification/Prelude.v ===== *)
(** * ev3duder: a model of the LEGO EV3 uploader and its correctness

    ev3duder (src/src) is a command line program for a LEGO EV3 brick.  It opens
    the brick by USB, a serial device (Bluetooth) or TCP, runs one command and
    reports its result.  Besides that it packs and unpacks UF2 archives and
    bridges a brick on USB to the network.  src/util/cat is a program that runs
    on the brick and prints its input to the display, with the libraries for the
    display, the timers, the motors, the sound and the buttons of the brick.

    ** How the program is modelled

    - Data.  A byte and an integer of C are numbers of Z; the conversions u8,
      u16, u32, u64, i16 and i32 of Prelude.v stand where C converts.  A packed
      struct is a list of bytes with a layout of named fields (Packets.v, for
      src/src/packets.h and packets.c).
    - Effects.  The commands of src/src are functions in the state monad [M] of
      IO.v.  Its state, [World], holds the device behind the function pointers
      of ev3_io.h, errmsg, errno, the standard streams and what malloc and the
      stack leave in fresh memory.  A run ends in a value ([Done]), in undefined
      behaviour ([Undef]: every access outside of a buffer and every signed
      overflow the model can meet), or never ([Blocked]).
    - Rules.  Logic.v gives weakest preconditions for [M] in three readings:
      total, safe (no undefined behaviour) and partial.
    - The transport (the hidapi submodule, a serial device, a socket) is the
      class [Transport]; the theorems ask it for the laws [TransportOk] (a read
      is no longer than asked for and made of bytes) and, where they speak about
      a brick, for one of the interfaces [FileReceiver] (Up.v), [FileSender]
      (Dl.v), [FirmwareBrick] (Install.v), [PacketSource] (BridgeLoop.v) and [Brick]
      (BridgeRelay.v).  Toy.v has bricks that implement them; Stream.v implements
      [FileReceiver] and [FileSender] by what arrives on a byte stream.
    - The system.  A process holds the modes and descriptors of its terminals
      ([tty] of BtUnix.v) and the list of its calls on sockets ([net_act] of
      Tcp.v, read by [live]); a system call fails where a script says so.

    ** The files

    - Prelude, Packets, IO, Logic, Stdio, Cstr: integers and lists, structs, the
      world, its rules, FILE streams, NUL-terminated strings and sscanf.
    - Simple: rm.c, mkdir.c, closehnd.c, bl_enter.c, bl_exit.c, bl_info.c.
    - Up, Dl, Ls: up.c, dl.c, ls.c.
    - Crc32, Install: crc32.c, bl_install.c.
    - Mkrbf, Vm: mkrbf.c; run.c and vmexec.c.
    - Info, Tunnel: info.c; tunnel.c, listen.c and send.c.
    - BtUnix, BtWin: bt-unix.c and bt-win.c.
    - Tcp, TcpWin: tcp.c and tcp.h; the functions tcp.c defines on Windows.
    - Stream: upload and download against the bytes of a stream.
    - Bridge, BridgeLoop, BridgeRelay: bridge.c; the theorem about the safety of
      its whole loop, and the one about what passes through it.
    - Uf2, Uf2Pack, Uf2Unpack, Uf2Roundtrip: uf2.h, uf2_helper.c, uf2_pack.c and
      uf2_unpack.c, and the theorems about them.  Uf2Win: their Windows branches.
    - Cli, Main: main.c, the switches and the rest.  Sim relates a command on a
      device to the same command behind the handle that main.c selects.  MainSafe,
      MainSelect and MainStream hold the theorems about every run, about the
      transports and about whole runs over a serial device and over TCP.
    - Timer, Lcd, LcdImage, LcdDraw, LcdCat: util/cat/ev3_timer.c, ev3_lcd.c
      (display buffer; image files; lines, rectangles and ellipses; LcdPrintf) and
      cat.c.  LcdFonts: the bitmaps of the .xbm files.  LcdTest: lcdcat.c.
      LcdFrame and LcdPaint hold the theorems about pixels, LcdText those about
      text, bitmaps and icons, LcdWindow those about scrolling and filled rows,
      LcdPrint the one about the layout of LcdPrintf, LcdShow the one about what
      cat.c shows, LcdType the one about the types of the state.
    - Output, Sound, Button: util/cat/ev3_output.c, ev3_sound.c and ev3_button.c;
      OutputSpec and SoundSpec hold the theorems about the first two.
    - Toy, Witnesses, StreamWitnesses, BrickWitnesses: concrete bricks and
      inputs, at which the hypotheses of the theorems hold.

    A definition has the name of the C function it models.  Where a loop or a
    branch of a function is a definition of its own, its comment says which.

    ** What is proved

    - Whole runs of main: `up` and `exec` put the right bytes on the brick in the
      right order ([Main.main_up], [Main.main_exec]); every refusal of `rm` gives
      its exit code ([Main.main_rm]); an upload over a serial device and a
      download over TCP, from the switches to the released terminal and sockets
      ([MainStream.main_up_serial], [MainStream.main_dl_tcp]); the handle is never
      closed twice, nor without having been opened ([MainSafe.main_closes]); once
      it is closed every terminal has its old mode and no socket is open, unless
      the command is bridge, which leaves its own open
      ([MainSelect.main_releases], [StreamWitnesses.bridge_leaves_sockets]); the offline commands touch no device
      ([MainSafe.main_offline]); transports are tried in order
      ([MainSelect.select_first]); the switches mean what they say
      ([Cli.parse_command_line]).
    - File transfer: the packets of an upload are the framed chunks of the file
      ([Up.up_transfers]); a download writes the content without loss at the seams
      ([Dl.dl_delivers]); a listing is printed as far as the first reply carries
      it, and one that is longer, which the stock firmware does not continue, ends
      in an error ([Ls.ls_prints]; [Ls.ls_reassembles] is about a firmware that
      would continue it).
    - Firmware: against every brick in firmware mode the installation ends with
      the padded image in the flash ([Install.install_flashes]); against any
      device the restart is sent only after the image, and after a full answer only
      if it carries its checksum or is the loop-back the code lets pass
      ([Install.install_reboots_checked]); the table of the checksum is the
      polynomial division ([Crc32.crc32_matches_ref]).
    - Archives: numbered, counted blocks ([Uf2Pack.uf2_pack_blocks]); unpacking
      is inverse to packing for members of 1 byte to 64 MiB
      ([Uf2Roundtrip.uf2_roundtrip]) and on no input writes outside of a destination
      of less than 255 characters ([Uf2Unpack.unpack_confined]).  On Windows this
      holds for member names without backslashes ([Uf2Win.win_unpack_confined]) and
      fails with them ([Uf2Win.win_name_escapes]).
    - Streams: bt_read and bt_write keep the packet boundaries; bt_close undoes
      bt_open ([BtUnix.serial_modes_restored]); tcp_open leaves no socket behind
      ([Tcp.tcp_no_leak]).
    - Bridge: it runs without overruns in any order of events
      ([BridgeLoop.bridge_runs]), answers the handshake of tcp.c, and is a relay:
      in any order of iterations the packets of a client reach the brick, and the
      packets of the brick the bt_read of the client, whole and in order
      ([BridgeRelay.bridge_relays]).
    - Windows: what bt_open, bt_read and the conversions of addresses promise
      there, and where they differ ([BtWin.win_open_close],
      [BtWin.win_splits_packet], [TcpWin.address_roundtrip],
      [TcpWin.win_tcp_read_shifts]).
    - Bytecode: the fields of the direct commands read back; a reader of the file
      format and of the operation codes takes the bytecode file for the program
      that starts the command ([Mkrbf.mkrbf_roundtrip]; the same reader accepts a
      program of the repository, [Mkrbf.display_starter]).
    - Line modes: a line is sent as the packet its digits denote
      ([Tunnel.tunnel_sends_lines]).
    - Display: the frame buffer conversion loses no pixel
      ([LcdFrame.frame_buffer_roundtrip]); lines and rectangles paint the
      pixels of their definition ([LcdPaint.line_draws_nearest],
      [LcdPaint.filled_rect_draws]); ellipses end; text and bitmaps show the bits
      of the font and the bitmap, in the byte-wise and in the pixel-wise paths
      ([LcdText.text_draws], [LcdText.picture_draws]); scrolling and filling move
      and set whole rows ([LcdWindow.scroll_shifts], [LcdWindow.window_fills]);
      LcdPrintf fills the cells of a grid ([LcdPrint.printf_prints]); an image file
      reads back as the display, an XBM file if its name is an identifier
      ([LcdImage.display_saved]); what cat reads is, 25
      ticks of the timer later, what the frame buffer shows
      ([LcdShow.cat_shows_text]); every sequence of calls keeps the sizes of the
      buffers and the font ([LcdType.lcd_calls_typed]).
    - Motors, sound, buttons: every motor call writes the command the driver
      decodes to what was asked ([OutputSpec.calls_command_driver]), a rotation
      waits exactly as long as its motors are busy ([OutputSpec.rotation_waits]);
      the samples of a sound file are sent in order to a device that does not
      refuse for ever ([SoundSpec.sound_file_plays], [SoundSpec.silent_device_stalls]), the decoder is the IMA decoder
      ([SoundSpec.adpcm_decodes]); a wait for a button returns the first press
      ([Button.first_press_reported]).

    Theorems that are not of this kind record where the code does something else
    than it says: [Dl.dl_stalls], [Bridge.bridge_split_prefix],
    [BtUnix.bt_read_overruns], [MainStream.main_exit_leaves_raw],
    [MainStream.report_serial_undef], [Uf2Win.win_name_escapes], [BridgeLoop.bridge_read_error_aborts],
    [Vm.run_reply_overflow], [LcdCat.printf_runs_off], [LcdImage.long_name_overflows],
    [LcdPaint.line_x_below], [LcdText.bitmap_above_display], [OutputSpec.default_power_written],
    [SoundSpec.stream_stalls] and others.

    ** Loops

    A loop over data is a structural recursion; where it is not, the definition
    computes the number of its rounds from its arguments: the chunks of a file,
    the blocks of the flash, the bytes of the input, the points of a line, the
    width and height of an ellipse, 23 byte columns.  The theorems show that the
    rounds are enough, since running out is [Blocked] (or [None]), which no
    functional theorem allows.  The loops that wait for a device as long as it
    answers (dl, ls, run, listen) take a number of replies, [hs_fuel] in main;
    their theorems hold for every number that is at least the number of bytes
    transferred.  The waits of util/cat take a number of polls, or end with their
    script of inputs; their theorems say which poll ends them.

    ** What is not modelled

    hidapi (an empty submodule) and the calls of the system are parameters: their
    results are in the device, in the scripted descriptors and terminals of
    BtUnix.v, in the network of Tcp.v and in the host of Main.v.  Bridge.v takes
    what the clock and select report as input.  main is the POSIX build; of the
    Windows build the transports and the unpacking of archives are modelled, not
    the start-up of Winsock.  Of util/cat, the timer signal is delivered between
    two calls of the library, not inside of one, and reads of sound files do not
    fail.  [char] is unsigned there, as on ARM.  cat.c of src/src (not compiled
    in) and the prototypes of funcs.h are left out.  Diagnostics on the standard error
    output are modelled for main, not for the archives. *)

From Stdlib Require Export ZArith Lia.
From stdpp Require Export prelude strings list gmap.
#[global] Open Scope Z_scope.

(** Lemmas that discharge the side conditions of the common cases. *)
Create HintDb ev3.

(** ** Tactics *)

(** Split hypotheses, substitute and discharge arithmetic. *)
Ltac zsimp := simplify_eq; try done; try lia.

(** A decidable statement about values, by evaluation. *)
Ltac dec := apply (bool_decide_unpack _); vm_compute; exact I.

(** Case analysis on the boolean that blocks the goal. *)
Ltac bcase :=
  match goal with
  | |- context [if ?b then _ else _] => let E := fresh "E" in destruct b eqn:E
  end.

(** ** C integers

    A C integer of type uN_t is a [Z] in [0, 2^N); the functions below are the
    conversions to that type. *)
Definition u8 (z : Z) : Z := z mod 2 ^ 8.
Definition u16 (z : Z) : Z := z mod 2 ^ 16.
Definition u32 (z : Z) : Z := z mod 2 ^ 32.
Definition u64 (z : Z) : Z := z mod 2 ^ 64.
(** Conversion to a 32 bit two's complement [int]. *)
Definition i32 (z : Z) : Z := (z + 2 ^ 31) mod 2 ^ 32 - 2 ^ 31.
(** Conversion to a 16 bit two's complement [short]. *)
Definition i16 (z : Z) : Z := (z + 2 ^ 15) mod 2 ^ 16 - 2 ^ 15.

Lemma u8_id z : 0 <= z < 256 -> u8 z = z.
Proof. intros. apply Z.mod_small. lia. Qed.
Lemma u16_id z : 0 <= z < 65536 -> u16 z = z.
Proof. intros. apply Z.mod_small. lia. Qed.
Lemma u32_id z : 0 <= z < 2 ^ 32 -> u32 z = z.
Proof. intros. apply Z.mod_small. lia. Qed.
Lemma i32_id z : - 2 ^ 31 <= z < 2 ^ 31 -> i32 z = z.
Proof. intros. unfold i32. rewrite Z.mod_small; lia. Qed.
Lemma i16_id z : - 2 ^ 15 <= z < 2 ^ 15 -> i16 z = z.
Proof. intros. unfold i16. rewrite Z.mod_small; lia. Qed.
Lemma u16_range z : 0 <= u16 z < 65536.
Proof. apply Z.mod_pos_bound. lia. Qed.
Lemma u32_range z : 0 <= u32 z < 2 ^ 32.
Proof. apply Z.mod_pos_bound. lia. Qed.

(** [if (x < 0) x = 0;] *)
Lemma clamp0 x : (if x <? 0 then 0 else x) = Z.max 0 x.
Proof. destruct (Z.ltb_spec x 0); lia. Qed.

(** The bits of a number below a power of two. *)
Lemma testbit_above a n i : 0 <= a < 2 ^ n -> n <= i -> Z.testbit a i = false.
Proof.
  intros Ha Hi. destruct (decide (a = 0)) as [->|]; [apply Z.bits_0|].
  apply Z.bits_above_log2; [lia|]. apply Z.log2_lt_pow2; [lia|].
  apply (Z.lt_le_trans _ (2 ^ n)); [lia|]. apply Z.pow_le_mono_r; [lia|done].
Qed.

(** ** Bytes *)

Definition byte_ok (b : Z) : Prop := 0 <= b < 256.
#[export] Instance byte_ok_dec b : Decision (byte_ok b).
Proof. unfold byte_ok. apply _. Defined.
Notation bytes_ok := (Forall byte_ok).

(** Length of a byte string as a [Z]. *)
Definition zlen {A} (l : list A) : Z := Z.of_nat (length l).

Lemma zlen_app {A} (l k : list A) : zlen (l ++ k) = zlen l + zlen k.
Proof. unfold zlen. rewrite length_app. lia. Qed.
Lemma zlen_nonneg {A} (l : list A) : 0 <= zlen l.
Proof. unfold zlen. lia. Qed.

(** The bytes of a string literal. *)
Fixpoint str (s : string) : list Z :=
  match s with
  | EmptyString => []
  | String c s' => Z.of_nat (Ascii.nat_of_ascii c) :: str s'
  end.

(** A C string argument: the bytes before the terminating NUL. *)
Definition cstr_ok (s : list Z) : Prop := Forall (fun b => 0 < b < 256) s.

Lemma cstr_bytes_ok s : cstr_ok s -> bytes_ok s.
Proof. intros H. eapply Forall_impl; [exact H|]. unfold byte_ok. intros; lia. Qed.

(** ** Little-endian numbers *)

Fixpoint le_bytes (n : nat) (z : Z) : list Z :=
  match n with
  | O => []
  | S n' => z mod 256 :: le_bytes n' (z / 256)
  end.

Fixpoint le_val (l : list Z) : Z :=
  match l with
  | [] => 0
  | b :: l' => b + 256 * le_val l'
  end.

Lemma length_le_bytes n z : length (le_bytes n z) = n.
Proof. revert z; induction n; simpl; auto. Qed.

Lemma zlen_le_bytes n z : zlen (le_bytes n z) = Z.of_nat n.
Proof. unfold zlen. by rewrite length_le_bytes. Qed.

Lemma le_bytes_ok n z : bytes_ok (le_bytes n z).
Proof.
  revert z; induction n; simpl; constructor; auto.
  apply Z.mod_pos_bound; lia.
Qed.

Lemma le_val_le_bytes n z : le_val (le_bytes n z) = z mod 2 ^ (8 * Z.of_nat n).
Proof.
  revert z; induction n as [|n IH]; intros z; simpl le_bytes; simpl le_val.
  - now rewrite Z.mod_1_r.
  - rewrite IH.
    replace (8 * Z.of_nat (S n)) with (8 + 8 * Z.of_nat n) by lia.
    rewrite Z.pow_add_r by lia. change (2 ^ 8) with 256.
    rewrite Z.rem_mul_r by lia. lia.
Qed.

Lemma le_val_range l : bytes_ok l -> 0 <= le_val l < 2 ^ (8 * Z.of_nat (length l)).
Proof.
  induction 1 as [|b l Hb _ IH]; simpl; [lia|].
  unfold byte_ok in Hb.
  replace (8 * Z.of_nat (S (length l))) with (8 + 8 * Z.of_nat (length l)) by lia.
  rewrite Z.pow_add_r by lia. change (2 ^ 8) with 256. lia.
Qed.

Lemma le_bytes_le_val l : bytes_ok l -> le_bytes (length l) (le_val l) = l.
Proof.
  induction 1 as [|b l Hb _ IH]; simpl; [done|]. unfold byte_ok in Hb.
  rewrite (Z.mul_comm 256), Z.mod_add, Z.div_add by lia.
  rewrite Z.mod_small, Z.div_small by lia. rewrite Z.add_0_l. by rewrite IH.
Qed.

(** ** Memory blocks: sub-ranges of a byte list

    [slice o n l] reads [n] bytes at offset [o]; [splice o new l] overwrites
    [length new] bytes at offset [o] (memcpy, a store through a pointer). *)
Definition slice {A} (o n : nat) (l : list A) : list A := take n (drop o l).
Definition splice {A} (o : nat) (new l : list A) : list A :=
  take o l ++ new ++ drop (o + length new) l.

Lemma length_slice {A} o n (l : list A) :
  (o + n <= length l)%nat -> length (slice o n l) = n.
Proof. intros. unfold slice. rewrite length_take, length_drop. lia. Qed.

Lemma length_splice {A} o (new l : list A) :
  (o + length new <= length l)%nat -> length (splice o new l) = length l.
Proof.
  intros. unfold splice. rewrite !length_app, length_take, length_drop. lia.
Qed.

Lemma zlen_splice {A} o (new l : list A) :
  (o + length new <= length l)%nat -> zlen (splice o new l) = zlen l.
Proof. intros. unfold zlen. by rewrite length_splice. Qed.

(** Overwriting everything. *)
Lemma splice_all {A} (new l : list A) : length new = length l -> splice 0 new l = new.
Proof. intros. unfold splice. simpl. rewrite drop_ge, app_nil_r by lia. done. Qed.

Lemma slice_splice_same {A} o (new l : list A) :
  (o <= length l)%nat -> slice o (length new) (splice o new l) = new.
Proof.
  intros. unfold slice, splice.
  rewrite drop_app_length' by (rewrite length_take; lia).
  by rewrite take_app_length.
Qed.

Lemma slice_splice_other {A} o n o' (new l : list A) :
  (o' + length new <= length l)%nat ->
  (o + n <= o' \/ o' + length new <= o)%nat ->
  slice o n (splice o' new l) = slice o n l.
Proof.
  intros Hl Hd. unfold slice. apply list_eq. intros i.
  destruct (decide (i < n)%nat) as [Hi|Hi].
  2: { rewrite !lookup_take_ge by lia. done. }
  rewrite !lookup_take_lt by lia. rewrite !lookup_drop. unfold splice.
  destruct Hd.
  - rewrite lookup_app_l by (rewrite length_take; lia).
    apply lookup_take_lt; lia.
  - rewrite lookup_app_r by (rewrite length_take; lia).
    rewrite length_take, Nat.min_l by lia.
    rewrite lookup_app_r by lia. rewrite lookup_drop. f_equal; lia.
Qed.

Lemma bytes_ok_splice o new l :
  bytes_ok new -> bytes_ok l -> bytes_ok (splice o new l).
Proof.
  intros. unfold splice. rewrite !Forall_app.
  repeat split; auto using Forall_take, Forall_drop.
Qed.

Lemma nth_byte (l : list Z) i : bytes_ok l -> 0 <= nth i l 0 < 256.
Proof.
  intros H. destruct (nth_in_or_default i l 0) as [Hin| ->]; [|lia].
  rewrite Forall_forall in H. apply H. by apply list_elem_of_In.
Qed.

Lemma bytes_ok_slice o n l : bytes_ok l -> bytes_ok (slice o n l).
Proof. intros. unfold slice. auto using Forall_take, Forall_drop. Qed.

Lemma slice_app_l {A} o n (l k : list A) :
  (o + n <= length l)%nat -> slice o n (l ++ k) = slice o n l.
Proof.
  intros. unfold slice. rewrite drop_app_le by lia.
  rewrite take_app_le; [done|]. rewrite length_drop. lia.
Qed.

Lemma slice_app_r {A} o n (l k : list A) :
  (length l <= o)%nat -> slice o n (l ++ k) = slice (o - length l) n k.
Proof. intros. unfold slice. by rewrite drop_app_ge by lia. Qed.

Lemma slice_0 {A} n (l : list A) : slice 0 n l = take n l.
Proof. unfold slice. by rewrite drop_0. Qed.

#[export] Hint Resolve le_bytes_ok bytes_ok_splice bytes_ok_slice
  Forall_take Forall_drop cstr_bytes_ok : ev3.
