(* ===== verification/Packets.v ===== *)
(** * Packets: the packed structs of [src/packets.h] and their initial values

    A packed struct is a [layout], the ordered list of its field names and
    sizes; a value of it is the list of its bytes, little endian (the header
    refuses to compile on big endian hosts).  [get_field] and [set_field] are
    member access through a pointer to the struct.  A flexible array member
    ([bytes], [fileName], [payload] ...) starts at [sizeof]. *)

From S2P Require Import Prelude.

Definition layout := list (string * nat).

Definition sizeof (l : layout) : nat := sum_list_with snd l.

Fixpoint offsetof (l : layout) (f : string) : nat :=
  match l with
  | [] => 0
  | (g, n) :: l' => if String.eqb f g then 0%nat else (n + offsetof l' f)%nat
  end.

Fixpoint widthof (l : layout) (f : string) : nat :=
  match l with
  | [] => 0
  | (g, n) :: l' => if String.eqb f g then n else widthof l' f
  end.

(** [p->f] for a struct at the start of the bytes [b]. *)
Definition get_field (l : layout) (f : string) (b : list Z) : Z :=
  le_val (slice (offsetof l f) (widthof l f) b).

(** [p->f = v], with the implicit conversion to the width of the field. *)
Definition set_field (l : layout) (f : string) (v : Z) (b : list Z) : list Z :=
  splice (offsetof l f) (le_bytes (widthof l f) v) b.

(** A designated initialiser: the members not named are zero. *)
Definition init_struct (l : layout) (inits : list (string * Z)) : list Z :=
  fold_left (fun b fv => set_field l fv.1 fv.2 b) inits (replicate (sizeof l) 0).

(** ** The structs *)

Definition HID_LAYER : layout := [("hidLayer", 1%nat)].
Definition EV3_PACKET_FIELDS : layout := [("packetLen", 2%nat); ("msgCount", 2%nat)].
Definition EV3_COMMAND_FIELDS : layout :=
  HID_LAYER ++ EV3_PACKET_FIELDS ++ [("replyType", 1%nat); ("cmd", 1%nat)].
Definition EV3_REPLY_FIELDS : layout :=
  EV3_PACKET_FIELDS ++ [("type", 1%nat); ("cmd", 1%nat); ("ret", 1%nat)].

(** Bytes of a packet that packetLen does not count. *)
Definition PREFIX_SIZE : Z := 3.

Definition SYSTEM_CMD : layout := EV3_COMMAND_FIELDS.
Definition SYSTEM_REPLY : layout := EV3_REPLY_FIELDS.
Definition BEGIN_DOWNLOAD : layout := EV3_COMMAND_FIELDS ++ [("fileSize", 4%nat)].
Definition BEGIN_DOWNLOAD_REPLY : layout := EV3_REPLY_FIELDS ++ [("fileHandle", 1%nat)].
Definition CONTINUE_DOWNLOAD : layout := EV3_COMMAND_FIELDS ++ [("fileHandle", 1%nat)].
Definition CONTINUE_DOWNLOAD_REPLY : layout := BEGIN_DOWNLOAD_REPLY.
Definition BEGIN_UPLOAD : layout := EV3_COMMAND_FIELDS ++ [("maxBytes", 2%nat)].
Definition BEGIN_UPLOAD_REPLY : layout :=
  EV3_REPLY_FIELDS ++ [("fileSize", 4%nat); ("fileHandle", 1%nat)].
Definition CONTINUE_UPLOAD : layout :=
  EV3_COMMAND_FIELDS ++ [("fileHandle", 1%nat); ("maxBytes", 2%nat)].
Definition CONTINUE_UPLOAD_REPLY : layout := EV3_REPLY_FIELDS ++ [("fileHandle", 1%nat)].
Definition LIST_FILES : layout := EV3_COMMAND_FIELDS ++ [("maxBytes", 2%nat)].
Definition BEGIN_GETFILE : layout := LIST_FILES.
Definition LIST_FILES_REPLY : layout :=
  EV3_REPLY_FIELDS ++ [("listSize", 4%nat); ("handle", 1%nat)].
Definition CONTINUE_LIST_FILES : layout :=
  EV3_COMMAND_FIELDS ++ [("handle", 1%nat); ("listSize", 4%nat)].
Definition CONTINUE_LIST_FILES_REPLY : layout := EV3_REPLY_FIELDS ++ [("handle", 1%nat)].
Definition CREATE_DIR : layout := EV3_COMMAND_FIELDS.
Definition CREATE_DIR_REPLY : layout := SYSTEM_REPLY.
Definition DELETE_FILE : layout := EV3_COMMAND_FIELDS.
Definition DELETE_FILE_REPLY : layout := SYSTEM_REPLY.
Definition CLOSE_HANDLE : layout := EV3_COMMAND_FIELDS ++ [("handle", 1%nat)].
Definition CLOSE_HANDLE_REPLY : layout := EV3_REPLY_FIELDS ++ [("handle", 1%nat)].
Definition BLUETOOTHPIN : layout := SYSTEM_CMD.
Definition ENTERFWUPDATE : layout := SYSTEM_CMD.
Definition FW_GETVERSION : layout := SYSTEM_CMD.
Definition FW_GETVERSION_REPLY : layout :=
  EV3_REPLY_FIELDS ++ [("hardwareVersion", 4%nat); ("eepromVersion", 4%nat)].
Definition FW_GETCRC32 : layout :=
  EV3_COMMAND_FIELDS ++ [("flashStart", 4%nat); ("flashLength", 4%nat)].
Definition FW_GETCRC32_REPLY : layout := EV3_REPLY_FIELDS ++ [("crc32", 4%nat)].
Definition FW_STARTAPP : layout := SYSTEM_CMD.
Definition FW_STARTAPP_REPLY : layout := SYSTEM_REPLY.
Definition FW_ERASEFLASH : layout := SYSTEM_CMD.
Definition FW_ERASEFLASH_REPLY : layout := SYSTEM_REPLY.
Definition FW_START_DOWNLOAD_WITH_ERASE : layout :=
  EV3_COMMAND_FIELDS ++ [("flashStart", 4%nat); ("flashLength", 4%nat)].
Definition FW_START_DOWNLOAD : layout :=
  EV3_COMMAND_FIELDS ++ [("flashStart", 4%nat); ("flashLength", 4%nat)].
Definition FW_START_DOWNLOAD_REPLY : layout := SYSTEM_REPLY.
Definition FW_DOWNLOAD_DATA : layout := EV3_COMMAND_FIELDS.
Definition FW_DOWNLOAD_DATA_REPLY : layout := SYSTEM_REPLY.
Definition EV3_VM_COMMAND_FIELDS : layout :=
  HID_LAYER ++ EV3_PACKET_FIELDS ++ [("replyType", 1%nat); ("alloc", 2%nat)].
Definition VM_CMD : layout := EV3_VM_COMMAND_FIELDS.
Definition EXECUTE_FILE : layout := VM_CMD.
Definition VM_REPLY : layout := EV3_PACKET_FIELDS ++ [("replyType", 1%nat)].

(** ** The initial values of [src/packets.c] *)

Definition BEGIN_DOWNLOAD_INIT : list Z :=
  init_struct BEGIN_DOWNLOAD [("hidLayer", 0x00); ("replyType", 0x01); ("cmd", 0x92)].
Definition CONTINUE_DOWNLOAD_INIT : list Z :=
  init_struct CONTINUE_DOWNLOAD [("hidLayer", 0x00); ("replyType", 0x01); ("cmd", 0x93)].
Definition CONTINUE_DOWNLOAD_REPLY_SUCCESS : list Z :=
  init_struct CONTINUE_DOWNLOAD_REPLY
    [("packetLen", 6); ("type", 0x03); ("cmd", 0x93); ("ret", 0x08)].
Definition BEGIN_UPLOAD_INIT : list Z :=
  init_struct BEGIN_UPLOAD [("hidLayer", 0x00); ("replyType", 0x01); ("cmd", 0x94)].
Definition CONTINUE_UPLOAD_INIT : list Z :=
  init_struct CONTINUE_UPLOAD
    [("hidLayer", 0x00); ("packetLen", Z.of_nat (sizeof CONTINUE_UPLOAD) - PREFIX_SIZE);
     ("replyType", 0x01); ("cmd", 0x95)].
Definition LIST_FILES_INIT : list Z :=
  init_struct LIST_FILES [("hidLayer", 0x00); ("replyType", 0x01); ("cmd", 0x99)].
Definition CONTINUE_LIST_FILES_INIT : list Z :=
  init_struct CONTINUE_LIST_FILES
    [("hidLayer", 0x00); ("packetLen", 7); ("replyType", 0x01); ("cmd", 0x9A)].
Definition BEGIN_GETFILE_INIT : list Z :=
  init_struct BEGIN_GETFILE [("hidLayer", 0x00); ("replyType", 0x01); ("cmd", 0x96)].
Definition CREATE_DIR_INIT : list Z :=
  init_struct CREATE_DIR [("hidLayer", 0x00); ("replyType", 0x01); ("cmd", 0x9B)].
Definition DELETE_FILE_INIT : list Z :=
  init_struct DELETE_FILE [("hidLayer", 0x00); ("replyType", 0x01); ("cmd", 0x9C)].
Definition CLOSE_HANDLE_INIT : list Z :=
  init_struct CLOSE_HANDLE [("hidLayer", 0x00); ("replyType", 0x01); ("cmd", 0x98)].
Definition BLUETOOTHPIN_INIT : list Z :=
  init_struct BLUETOOTHPIN [("hidLayer", 0x00); ("replyType", 0x01); ("cmd", 0x9F)].
Definition ENTERFWUPDATE_INIT : list Z :=
  init_struct ENTERFWUPDATE [("hidLayer", 0x00); ("replyType", 0x81); ("cmd", 0xA0)].
Definition FW_GETVERSION_INIT : list Z :=
  init_struct FW_GETVERSION [("hidLayer", 0x00); ("replyType", 0x01); ("cmd", 0xF6)].
Definition FW_GETCRC32_INIT : list Z :=
  init_struct FW_GETCRC32 [("hidLayer", 0x00); ("replyType", 0x01); ("cmd", 0xF5)].
Definition FW_STARTAPP_INIT : list Z :=
  init_struct FW_STARTAPP [("hidLayer", 0x00); ("replyType", 0x01); ("cmd", 0xF4)].
Definition FW_ERASEFLASH_INIT : list Z :=
  init_struct FW_ERASEFLASH [("hidLayer", 0x00); ("replyType", 0x01); ("cmd", 0xF3)].
Definition FW_START_DOWNLOAD_WITH_ERASE_INIT : list Z :=
  init_struct FW_START_DOWNLOAD_WITH_ERASE
    [("hidLayer", 0x00); ("replyType", 0x01); ("cmd", 0xF0)].
Definition FW_START_DOWNLOAD_INIT : list Z :=
  init_struct FW_START_DOWNLOAD [("hidLayer", 0x00); ("replyType", 0x01); ("cmd", 0xF1)].
Definition FW_DOWNLOAD_DATA_INIT : list Z :=
  init_struct FW_DOWNLOAD_DATA [("hidLayer", 0x00); ("replyType", 0x01); ("cmd", 0xF2)].
Definition EXECUTE_FILE_INIT : list Z :=
  init_struct EXECUTE_FILE [("hidLayer", 0x00); ("replyType", 0x00); ("alloc", 0x0800)].
Definition EXECUTE_FILE_REPLY_SUCCESS : list Z :=
  init_struct VM_REPLY [("packetLen", 3); ("replyType", 0x02)].

(** ** packet_alloc

    [junk] is the content of the block malloc returned behind the struct; the
    macro's result is [None] (NULL) when the packet does not fit a u16 length. *)
Definition packet_alloc (ty : layout) (init junk : list Z) : option (list Z) :=
  if Z.of_nat (sizeof ty) + zlen junk <? 65535 then
    Some (set_field SYSTEM_CMD "packetLen"
            (u16 (Z.of_nat (sizeof ty) + zlen junk - PREFIX_SIZE))
            (splice 0 init (replicate (sizeof ty) 0 ++ junk)))
  else None.

(** A packet is framed when its length field describes exactly its bytes. *)
Definition framed (p : list Z) : Prop :=
  zlen p = get_field SYSTEM_CMD "packetLen" p + PREFIX_SIZE.

(** ** Field access lemmas *)

Lemma offset_width_le l f : (offsetof l f + widthof l f <= sizeof l)%nat.
Proof.
  unfold sizeof. induction l as [|[g n] l IH]; simpl; [lia|].
  destruct (String.eqb f g); simpl; lia.
Qed.

Lemma fields_disjoint l f g :
  f <> g ->
  (offsetof l f + widthof l f <= offsetof l g \/
   offsetof l g + widthof l g <= offsetof l f)%nat.
Proof.
  intros Hfg. induction l as [|[h n] l IH]; simpl; [lia|].
  destruct (String.eqb_spec f h), (String.eqb_spec g h); subst; simpl; try lia; done.
Qed.

Lemma length_set_field l f v b :
  (sizeof l <= length b)%nat -> length (set_field l f v b) = length b.
Proof.
  intros. unfold set_field. apply length_splice.
  rewrite length_le_bytes. pose proof (offset_width_le l f). lia.
Qed.

Lemma bytes_ok_set_field l f v b : bytes_ok b -> bytes_ok (set_field l f v b).
Proof. intros. unfold set_field. auto with ev3. Qed.

Lemma get_set_same l f v b :
  (sizeof l <= length b)%nat ->
  get_field l f (set_field l f v b) = v mod 2 ^ (8 * Z.of_nat (widthof l f)).
Proof.
  intros. unfold get_field, set_field.
  pose proof (offset_width_le l f).
  rewrite <- (length_le_bytes (widthof l f) v) at 1.
  rewrite slice_splice_same by lia. apply le_val_le_bytes.
Qed.

Lemma get_set_other l f g v b :
  f <> g -> (sizeof l <= length b)%nat ->
  get_field l g (set_field l f v b) = get_field l g b.
Proof.
  intros Hfg Hl. unfold get_field, set_field.
  pose proof (offset_width_le l f). pose proof (fields_disjoint l f g Hfg).
  rewrite slice_splice_other; [done|..]; rewrite ?length_le_bytes; lia.
Qed.

Lemma get_field_range l f b :
  bytes_ok b -> 0 <= get_field l f b < 2 ^ (8 * Z.of_nat (widthof l f)).
Proof.
  intros Hb. unfold get_field.
  pose proof (le_val_range (slice (offsetof l f) (widthof l f) b)) as H.
  assert (length (slice (offsetof l f) (widthof l f) b) <= widthof l f)%nat.
  { unfold slice. rewrite length_take. lia. }
  specialize (H ltac:(auto with ev3)).
  assert (2 ^ (8 * Z.of_nat (length (slice (offsetof l f) (widthof l f) b)))
          <= 2 ^ (8 * Z.of_nat (widthof l f))) by (apply Z.pow_le_mono_r; lia).
  lia.
Qed.

(** The first bytes of the packet decide its fields. *)
Lemma get_field_app l f b k :
  (sizeof l <= length b)%nat -> get_field l f (b ++ k) = get_field l f b.
Proof.
  intros. unfold get_field. pose proof (offset_width_le l f).
  by rewrite slice_app_l by lia.
Qed.

Lemma length_init_struct l inits : length (init_struct l inits) = sizeof l.
Proof.
  unfold init_struct.
  assert (forall b, length b = sizeof l ->
    length (fold_left (fun b fv => set_field l fv.1 fv.2 b) inits b) = sizeof l) as H.
  { induction inits as [|[f v] inits IH]; simpl; intros b Hb; [done|].
    apply IH. rewrite length_set_field; lia. }
  apply H. by rewrite length_replicate.
Qed.

Lemma bytes_ok_init_struct l inits : bytes_ok (init_struct l inits).
Proof.
  unfold init_struct.
  assert (forall b, bytes_ok b ->
    bytes_ok (fold_left (fun b fv => set_field l fv.1 fv.2 b) inits b)) as H.
  { induction inits as [|[f v] inits IH]; simpl; intros b Hb; [done|].
    apply IH. by apply bytes_ok_set_field. }
  apply H. apply Forall_replicate. unfold byte_ok; lia.
Qed.

#[export] Hint Resolve bytes_ok_set_field bytes_ok_init_struct : ev3.
#[export] Hint Rewrite length_init_struct @length_app @length_replicate
  length_le_bytes : ev3.

(** ** What packet_alloc returns *)

(** The bytes of an allocated packet: the initial value with the length filled
    in, then the uninitialised tail. *)
Lemma packet_alloc_eq ty init junk :
  length init = sizeof ty -> (sizeof SYSTEM_CMD <= sizeof ty)%nat ->
  Z.of_nat (sizeof ty) + zlen junk < 65535 ->
  packet_alloc ty init junk =
    Some (set_field SYSTEM_CMD "packetLen" (Z.of_nat (sizeof ty) + zlen junk - 3)
            init ++ junk).
Proof.
  intros Hi Hs Hb. unfold packet_alloc, PREFIX_SIZE.
  rewrite (proj2 (Z.ltb_lt _ _)) by lia. f_equal.
  pose proof (zlen_nonneg junk). change (sizeof SYSTEM_CMD) with 7%nat in Hs.
  rewrite u16_id by lia.
  replace (splice 0 init (replicate (sizeof ty) 0 ++ junk)) with (init ++ junk).
  2: { unfold splice. simpl. rewrite Hi.
       by rewrite drop_app_length' by (by rewrite length_replicate). }
  unfold set_field, splice.
  change (offsetof SYSTEM_CMD "packetLen") with 1%nat.
  rewrite !length_le_bytes. change (widthof SYSTEM_CMD "packetLen") with 2%nat.
  rewrite take_app_le by lia. rewrite drop_app_le by lia.
  by rewrite <- !app_assoc.
Qed.

(** The length field of a packet header followed by anything. *)
Lemma framed_header init v tail :
  (sizeof SYSTEM_CMD <= length init)%nat -> 0 <= v < 65536 ->
  v + PREFIX_SIZE = zlen init + zlen tail ->
  framed (set_field SYSTEM_CMD "packetLen" v init ++ tail).
Proof.
  intros Hl Hv Hs. unfold framed.
  assert (length (set_field SYSTEM_CMD "packetLen" v init) = length init) as Hlen
    by (by apply length_set_field).
  rewrite get_field_app by lia.
  rewrite get_set_same by done.
  change (2 ^ (8 * Z.of_nat (widthof SYSTEM_CMD "packetLen"))) with 65536.
  rewrite Z.mod_small by lia.
  rewrite zlen_app. unfold zlen in *. lia.
Qed.

(** A second store to the same member wins. *)
Lemma set_set_same l f v v' b :
  (sizeof l <= length b)%nat ->
  set_field l f v (set_field l f v' b) = set_field l f v b.
Proof.
  intros Hl. pose proof (offset_width_le l f). unfold set_field, splice.
  rewrite !length_le_bytes.
  rewrite take_app_length' by (rewrite length_take; lia).
  f_equal. f_equal. rewrite drop_app_ge by (rewrite length_take; lia).
  rewrite length_take, Nat.min_l by lia.
  rewrite drop_app_ge by (rewrite length_le_bytes; lia).
  rewrite length_le_bytes, drop_drop. f_equal. lia.
Qed.

(** ** Requests that end in a path

    Every file command sends its struct followed by the NUL terminated path. *)
Definition path_request (ty : layout) (init path : list Z) : list Z :=
  set_field SYSTEM_CMD "packetLen" (Z.of_nat (sizeof ty) + zlen path + 1 - 3) init
  ++ path ++ [0].

Lemma framed_path_request ty init path :
  length init = sizeof ty -> (sizeof SYSTEM_CMD <= sizeof ty)%nat ->
  Z.of_nat (sizeof ty) + zlen path + 1 < 65535 ->
  framed (path_request ty init path).
Proof.
  intros Hi Hs Hb. pose proof (zlen_nonneg path). change (sizeof SYSTEM_CMD) with 7%nat in Hs.
  apply framed_header; [by rewrite Hi|lia|].
  rewrite zlen_app. change (zlen [0]) with 1. unfold zlen at 2.
  rewrite Hi. unfold PREFIX_SIZE. lia.
Qed.

(** Storing the tail of a freshly allocated packet. *)
Lemma splice_front {A} (hd new tl : list A) n :
  length hd = n -> splice n new (hd ++ tl) = hd ++ new ++ drop (length new) tl.
Proof.
  intros <-. unfold splice. rewrite take_app_length, drop_app_ge by lia.
  do 3 f_equal. lia.
Qed.

Lemma splice_tail {A} (hd junk new : list A) n :
  length hd = n -> length junk = length new -> splice n new (hd ++ junk) = hd ++ new.
Proof.
  intros Hh Hj. unfold splice. rewrite take_app_length' by done.
  rewrite drop_ge; [by rewrite app_nil_r|]. rewrite length_app. lia.
Qed.

(** A member store in a block longer than the struct. *)
Lemma set_field_app l f v b k :
  (sizeof l <= length b)%nat -> set_field l f v (b ++ k) = set_field l f v b ++ k.
Proof.
  intros Hl. pose proof (offset_width_le l f). unfold set_field, splice.
  rewrite length_le_bytes, take_app_le, drop_app_le by lia.
  by rewrite <- !app_assoc.
Qed.

(** A buffer overwritten from the start by [data] shows the fields of [data]. *)
Lemma get_field_splice l f (data buf : list Z) :
  (sizeof l <= length data)%nat -> get_field l f (splice 0 data buf) = get_field l f data.
Proof. intros. unfold splice. simpl. by apply get_field_app. Qed.
