(* ===== verification/IO.v ===== *)
(** * IO: the world the commands run in

    The state shared by all commands: the device behind the function pointers
    of [src/ev3_io.h], the globals [errmsg] and [errno], the standard streams,
    and the contents malloc and the stack give to uninitialised memory.  The
    commands are functions in the state monad [M], whose outcomes are a
    result, undefined behaviour of C, or a call that never returns. *)

From S2P Require Import Prelude Packets.

(** ** Result codes of [src/error.h] *)

Definition ERR_UNK : Z := 0.
Definition ERR_ARG : Z := 1.
Definition ERR_IO : Z := 2.
Definition ERR_FTOOBIG : Z := 3.
Definition ERR_NOMEM : Z := 4.
Definition ERR_COMM : Z := 5.
Definition ERR_VM : Z := 6.
Definition ERR_SYS : Z := 7.
Definition ERR_USBLOOP : Z := 8.
Definition ERR_END : Z := 9.

Definition VM_SYS_RQ : Z := 0x01.
Definition VM_DIRECT_OK : Z := 0x02.
Definition VM_OK : Z := 0x03.
Definition VM_DIRECT_ERROR : Z := 0x04.
Definition VM_ERROR : Z := 0x05.

Definition TIMEOUT : Z := 2000.

(** ** The device interface

    [tr_write bytes d]: the value [ev3_write] returns and the device after it.
    [tr_read count ms d]: the value [ev3_read_timeout] returns, the bytes it
    stored from the start of the buffer, and the device after it. *)
Class Transport (D : Type) := {
  tr_write : list Z -> D -> Z * D;
  tr_read : Z -> Z -> D -> Z * list Z * D;
}.

(** The contract of a transport that reads whole packets: what is stored is
    what is announced, never more than was asked for, and made of bytes. *)
Class TransportOk (D : Type) `{Transport D} := {
  tr_read_fits : forall n ms d res data d',
    tr_read n ms d = (res, data, d') -> zlen data <= Z.max 0 n /\ bytes_ok data;
  tr_read_len : forall n ms d res data d',
    tr_read n ms d = (res, data, d') -> 0 < res -> zlen data = res;
}.

(** What went over the interface. *)
Inductive io_event :=
| Wrote (pkt : list Z) (res : Z)
| GotReply (count ms res : Z) (data : list Z).

(** The packets handed to the transport, and what it stored for each read. *)
Definition packets (evs : list io_event) : list (list Z) :=
  omap (fun e => match e with Wrote p _ => Some p | GotReply _ _ _ _ => None end) evs.
Definition replies (evs : list io_event) : list (list Z) :=
  omap (fun e => match e with Wrote _ _ => None | GotReply _ _ _ d => Some d end) evs.

Lemma packets_app a b : packets (a ++ b) = packets a ++ packets b.
Proof. apply omap_app. Qed.
Lemma replies_app a b : replies (a ++ b) = replies a ++ replies b.
Proof. apply omap_app. Qed.

(** ** The world *)

Record World (D : Type) := MkWorld {
  w_dev : D;
  w_trace : list io_event;     (* oldest first *)
  w_out : list Z;              (* stdout *)
  w_err : list Z;              (* stderr *)
  w_errmsg : option string;
  w_errno : Z;
  w_junk : nat -> nat -> Z;    (* contents of the n-th fresh block *)
  w_blocks : nat;              (* fresh blocks so far *)
}.
Arguments MkWorld {D}.
Arguments w_dev {D}. Arguments w_trace {D}. Arguments w_out {D}.
Arguments w_err {D}. Arguments w_errmsg {D}. Arguments w_errno {D}.
Arguments w_junk {D}. Arguments w_blocks {D}.

Inductive outcome (W A : Type) :=
| Done (a : A) (w : W)
| Undef (why : string)
| Blocked.
Arguments Done {W A}. Arguments Undef {W A}. Arguments Blocked {W A}.

Definition M (D A : Type) : Type := World D -> outcome (World D) A.

#[export] Instance M_ret D : MRet (M D) := fun A a w => Done a w.
#[export] Instance M_bind D : MBind (M D) := fun A B k m w =>
  match m w with
  | Done a w' => k a w'
  | Undef s => Undef s
  | Blocked => Blocked
  end.

(** ** Operations *)

Section ops.
Context {D : Type} `{!Transport D}.

Definition undef {A} (why : string) : M D A := fun _ => Undef why.
Definition blocked {A} : M D A := fun _ => Blocked.

Definition get_world : M D (World D) := fun w => Done w w.

Definition set_errmsg (s : string) : M D unit := fun w =>
  Done tt (MkWorld (w_dev w) (w_trace w) (w_out w) (w_err w) (Some s)
             (w_errno w) (w_junk w) (w_blocks w)).
Definition set_errno (e : Z) : M D unit := fun w =>
  Done tt (MkWorld (w_dev w) (w_trace w) (w_out w) (w_err w) (w_errmsg w)
             e (w_junk w) (w_blocks w)).
Definition put_out (b : list Z) : M D unit := fun w =>
  Done tt (MkWorld (w_dev w) (w_trace w) (w_out w ++ b) (w_err w) (w_errmsg w)
             (w_errno w) (w_junk w) (w_blocks w)).
Definition put_err (b : list Z) : M D unit := fun w =>
  Done tt (MkWorld (w_dev w) (w_trace w) (w_out w) (w_err w ++ b) (w_errmsg w)
             (w_errno w) (w_junk w) (w_blocks w)).

(** [n] bytes of uninitialised memory. *)
Definition fresh (n : nat) : M D (list Z) := fun w =>
  Done (map (fun i => u8 (w_junk w (w_blocks w) i)) (seq 0 n))
    (MkWorld (w_dev w) (w_trace w) (w_out w) (w_err w) (w_errmsg w)
       (w_errno w) (w_junk w) (S (w_blocks w))).

(** Dereferencing the result of an allocation. *)
Definition deref {A} (p : option A) : M D A :=
  match p with Some a => mret a | None => undef "NULL pointer" end.

(** [packet_alloc(type, extra)] on the heap. *)
Definition alloc (ty : layout) (init : list Z) (extra : nat) : M D (option (list Z)) :=
  junk ← fresh extra; mret (packet_alloc ty init junk).

(** [ev3_write(handle, p, n)]. *)
Definition ev3_write (p : list Z) (n : Z) : M D Z := fun w =>
  if zlen p <? n then Undef "write: reads past the end of the packet" else
  let pkt := take (Z.to_nat n) p in
  let '(res, d) := tr_write pkt (w_dev w) in
  Done res (MkWorld d (w_trace w ++ [Wrote pkt res]) (w_out w) (w_err w)
              (w_errmsg w) (w_errno w) (w_junk w) (w_blocks w)).

(** [ev3_write(handle, p, p->packetLen + PREFIX_SIZE)]. *)
Definition ev3_write_pkt (p : list Z) : M D Z :=
  ev3_write p (get_field SYSTEM_CMD "packetLen" p + PREFIX_SIZE).

(** [ev3_read_timeout(handle, buf, count, ms)]: the result and the buffer after
    the call. *)
Definition ev3_read_timeout (buf : list Z) (count ms : Z) : M D (Z * list Z) := fun w =>
  let '(res, data, d) := tr_read count ms (w_dev w) in
  if zlen buf <? zlen data then Undef "read: writes past the end of the buffer" else
  Done (res, splice 0 data buf)
    (MkWorld d (w_trace w ++ [GotReply count ms res data]) (w_out w) (w_err w)
       (w_errmsg w) (w_errno w) (w_junk w) (w_blocks w)).

(** ** printf conversions *)

Fixpoint digits_aux (fuel : nat) (base n : Z) (acc : list Z) : list Z :=
  match fuel with
  | O => acc
  | S fuel' =>
      let d := n mod base in
      let acc' := (if d <? 10 then 48 + d else 87 + d) :: acc in
      if n / base =? 0 then acc' else digits_aux fuel' base (n / base) acc'
  end.
Definition digits (base n : Z) : list Z := digits_aux 64 base n [].
Definition pad (c : Z) (width : nat) (s : list Z) : list Z :=
  replicate (width - length s) c ++ s.
(** "%d", "%3d" and "%02x" (the values printed are not negative). *)
Definition fmt_d (n : Z) : list Z := if n <? 0 then 45 :: digits 10 (- n) else digits 10 n.
Definition fmt_3d (n : Z) : list Z := pad 32 3 (fmt_d n).
Definition fmt_02x (n : Z) : list Z := pad 48 2 (digits 16 n).

(** [print_bytes(buf, len)] of [src/defs.h]. *)
Definition print_bytes (buf : list Z) (len : Z) : M D unit :=
  if zlen buf <? len then undef "print_bytes: reads past the end of the buffer" else
  put_err (concat (map (fun b => fmt_02x b ++ [32]) (take (Z.to_nat len) buf)) ++ [10]).

Definition puts (s : string) : M D unit := put_out (str s ++ [10]).
Definition fputs_err (s : string) : M D unit := put_err (str s).

End ops.

(** The newline character in string literals. *)
Definition nl : string := String (Ascii.ascii_of_nat 10) EmptyString.

Example fmt_3d_5 : fmt_3d 5 = str "  5". Proof. reflexivity. Qed.
Example fmt_02x_a : fmt_02x 10 = str "0a". Proof. reflexivity. Qed.
Example fmt_d_neg : fmt_d (-12) = str "-12". Proof. reflexivity. Qed.
