(* ===== verification/Logic.v ===== *)
(** * Logic: weakest preconditions for the commands

    [wp_ U B m Q w]: running [m] in the world [w] ends in a result that
    satisfies [Q]; [U] is what is claimed when it runs into undefined
    behaviour and [B] when it never returns.  The three uses are [wp] (total:
    neither happens), [safe] (no undefined behaviour; may block) and [wlp]
    (partial correctness). *)

From S2P Require Import Prelude Packets IO.

Definition wp_ (U B : Prop) {D A} (m : M D A) (Q : A -> World D -> Prop)
    (w : World D) : Prop :=
  match m w with
  | Done a w' => Q a w'
  | Undef _ => U
  | Blocked => B
  end.
Notation wp := (wp_ False False).
Notation safe := (wp_ False True).
Notation wlp := (wp_ True True).

Section wp_rules.
Context {U B : Prop} {D : Type} `{!Transport D}.

Lemma wp_bind {A C} (m : M D A) (k : A -> M D C) Q w :
  wp_ U B m (fun a w' => wp_ U B (k a) Q w') w -> wp_ U B (m ≫= k) Q w.
Proof. unfold wp_, mbind, M_bind. by destruct (m w). Qed.

Lemma wp_bind_inv {A C} (m : M D A) (k : A -> M D C) Q w :
  wp_ U B (m ≫= k) Q w -> wp_ U B m (fun a w' => wp_ U B (k a) Q w') w.
Proof. unfold wp_, mbind, M_bind. by destruct (m w). Qed.

Lemma wp_ret {A} (a : A) (Q : A -> World D -> Prop) w :
  Q a w -> wp_ U B (mret a) Q w.
Proof. done. Qed.

Lemma wp_mono {A} (m : M D A) (P Q : A -> World D -> Prop) w :
  wp_ U B m P w -> (forall a w', P a w' -> Q a w') -> wp_ U B m Q w.
Proof. unfold wp_. destruct (m w); eauto. Qed.

(** A total triple holds whatever is claimed of the other outcomes. *)
Lemma wp_weaken {A} (m : M D A) (Q : A -> World D -> Prop) w :
  wp_ False False m Q w -> wp_ U B m Q w.
Proof. unfold wp_. by destruct (m w). Qed.

Lemma wp_deref_Some {A} (a : A) (Q : A -> World D -> Prop) w :
  Q a w -> wp_ U B (deref (Some a)) Q w.
Proof. done. Qed.

Lemma wp_deref_None {A} (Q : A -> World D -> Prop) w :
  U -> wp_ U B (deref None) Q w.
Proof. done. Qed.

(** The rules for the primitive operations only change one component of the
    world; they hold by computation. *)
Lemma wp_set_errmsg s (Q : unit -> World D -> Prop) w :
  Q tt (MkWorld (w_dev w) (w_trace w) (w_out w) (w_err w) (Some s)
          (w_errno w) (w_junk w) (w_blocks w)) ->
  wp_ U B (set_errmsg s) Q w.
Proof. done. Qed.

Lemma wp_set_errno e (Q : unit -> World D -> Prop) w :
  Q tt (MkWorld (w_dev w) (w_trace w) (w_out w) (w_err w) (w_errmsg w)
          e (w_junk w) (w_blocks w)) ->
  wp_ U B (set_errno e) Q w.
Proof. done. Qed.

Lemma wp_put_out b (Q : unit -> World D -> Prop) w :
  Q tt (MkWorld (w_dev w) (w_trace w) (w_out w ++ b) (w_err w) (w_errmsg w)
          (w_errno w) (w_junk w) (w_blocks w)) ->
  wp_ U B (put_out b) Q w.
Proof. done. Qed.

Lemma wp_put_err b (Q : unit -> World D -> Prop) w :
  Q tt (MkWorld (w_dev w) (w_trace w) (w_out w) (w_err w ++ b) (w_errmsg w)
          (w_errno w) (w_junk w) (w_blocks w)) ->
  wp_ U B (put_err b) Q w.
Proof. done. Qed.

Lemma wp_fresh n (Q : list Z -> World D -> Prop) w :
  (forall junk, length junk = n -> bytes_ok junk ->
    Q junk (MkWorld (w_dev w) (w_trace w) (w_out w) (w_err w) (w_errmsg w)
              (w_errno w) (w_junk w) (S (w_blocks w)))) ->
  wp_ U B (fresh n) Q w.
Proof.
  intros H. apply H.
  - by rewrite length_map, length_seq.
  - apply Forall_map, Forall_true. intros i. apply Z.mod_pos_bound. lia.
Qed.

Lemma wp_write p n (Q : Z -> World D -> Prop) w :
  n <= zlen p ->
  (forall res d, tr_write (take (Z.to_nat n) p) (w_dev w) = (res, d) ->
    Q res (MkWorld d (w_trace w ++ [Wrote (take (Z.to_nat n) p) res])
             (w_out w) (w_err w) (w_errmsg w) (w_errno w) (w_junk w) (w_blocks w))) ->
  wp_ U B (ev3_write p n) Q w.
Proof.
  intros Hn H. unfold wp_, ev3_write. rewrite (proj2 (Z.ltb_ge _ _)) by lia.
  destruct (tr_write _ _) eqn:E. by apply H.
Qed.

(** A framed packet is written whole. *)
Lemma wp_write_framed p (Q : Z -> World D -> Prop) w :
  framed p ->
  (forall res d, tr_write p (w_dev w) = (res, d) ->
    Q res (MkWorld d (w_trace w ++ [Wrote p res])
             (w_out w) (w_err w) (w_errmsg w) (w_errno w) (w_junk w) (w_blocks w))) ->
  wp_ U B (ev3_write_pkt p) Q w.
Proof.
  intros Hf H. unfold ev3_write_pkt. rewrite <- Hf. apply wp_write; [lia|].
  unfold zlen. rewrite Nat2Z.id, take_ge by lia. done.
Qed.

(** Any transport: the buffer either overflows or is overwritten. *)
Lemma wp_read buf n ms (Q : Z * list Z -> World D -> Prop) w :
  (forall res data d, tr_read n ms (w_dev w) = (res, data, d) ->
    if zlen buf <? zlen data then U else
    Q (res, splice 0 data buf)
      (MkWorld d (w_trace w ++ [GotReply n ms res data])
         (w_out w) (w_err w) (w_errmsg w) (w_errno w) (w_junk w) (w_blocks w))) ->
  wp_ U B (ev3_read_timeout buf n ms) Q w.
Proof.
  intros H. unfold wp_, ev3_read_timeout.
  destruct (tr_read _ _ _) as [[res data] d] eqn:E. specialize (H _ _ _ eq_refl).
  by destruct (zlen buf <? zlen data).
Qed.

(** A transport that keeps its contract cannot overflow a buffer of the
    announced size. *)
Lemma wp_read_ok `{!TransportOk D} buf n ms (Q : Z * list Z -> World D -> Prop) w :
  n <= zlen buf ->
  (forall res data d, tr_read n ms (w_dev w) = (res, data, d) ->
    zlen data <= Z.max 0 n -> bytes_ok data -> (0 < res -> zlen data = res) ->
    Q (res, splice 0 data buf)
      (MkWorld d (w_trace w ++ [GotReply n ms res data])
         (w_out w) (w_err w) (w_errmsg w) (w_errno w) (w_junk w) (w_blocks w))) ->
  wp_ U B (ev3_read_timeout buf n ms) Q w.
Proof.
  intros Hn H. apply wp_read. intros res data d Hr.
  pose proof (tr_read_fits _ _ _ _ _ _ Hr) as [??].
  pose proof (zlen_nonneg buf). rewrite (proj2 (Z.ltb_ge _ _)) by lia. apply H; auto.
  intros. by eapply tr_read_len.
Qed.

(** packet_alloc: the packet with its length filled in, or NULL. *)
Lemma wp_alloc ty init extra (Q : option (list Z) -> World D -> Prop) w :
  length init = sizeof ty -> (sizeof SYSTEM_CMD <= sizeof ty)%nat ->
  Z.of_nat (sizeof ty) + Z.of_nat extra < 65535 ->
  (forall junk, length junk = extra -> bytes_ok junk ->
    Q (Some (set_field SYSTEM_CMD "packetLen"
               (Z.of_nat (sizeof ty) + Z.of_nat extra - 3) init ++ junk))
      (MkWorld (w_dev w) (w_trace w) (w_out w) (w_err w) (w_errmsg w)
         (w_errno w) (w_junk w) (S (w_blocks w)))) ->
  wp_ U B (alloc ty init extra) Q w.
Proof.
  intros Hi Hs Hb H. apply wp_bind, wp_fresh. intros junk Hj Ho. apply wp_ret.
  assert (zlen junk = Z.of_nat extra) as Hz by (unfold zlen; lia).
  rewrite packet_alloc_eq by lia. rewrite Hz. by apply H.
Qed.

Lemma wp_alloc_null ty init extra (Q : option (list Z) -> World D -> Prop) w :
  65535 <= Z.of_nat (sizeof ty) + Z.of_nat extra ->
  Q None (MkWorld (w_dev w) (w_trace w) (w_out w) (w_err w) (w_errmsg w)
            (w_errno w) (w_junk w) (S (w_blocks w))) ->
  wp_ U B (alloc ty init extra) Q w.
Proof.
  intros Hb H. apply wp_bind, wp_fresh. intros junk Hj Ho. apply wp_ret.
  unfold packet_alloc. rewrite (proj2 (Z.ltb_ge _ _)); [done|]. unfold zlen. lia.
Qed.

Lemma wp_print_bytes buf n (Q : unit -> World D -> Prop) w :
  (zlen buf < n -> U) ->
  (n <= zlen buf -> forall text,
    Q tt (MkWorld (w_dev w) (w_trace w) (w_out w) (w_err w ++ text) (w_errmsg w)
            (w_errno w) (w_junk w) (w_blocks w))) ->
  wp_ U B (print_bytes buf n) Q w.
Proof.
  intros HU H. unfold print_bytes. destruct (zlen buf <? n) eqn:E.
  - apply HU. lia.
  - apply wp_put_err, H. lia.
Qed.

End wp_rules.

(** A framed packet at the front of a larger buffer is what is written. *)
Lemma write_prefix {U B : Prop} {D} `{!Transport D} (p rest : list Z)
    (Q : Z -> World D -> Prop) w :
  framed p -> (sizeof SYSTEM_CMD <= length p)%nat ->
  (forall res d, tr_write p (w_dev w) = (res, d) ->
    Q res (MkWorld d (w_trace w ++ [Wrote p res])
             (w_out w) (w_err w) (w_errmsg w) (w_errno w) (w_junk w) (w_blocks w))) ->
  wp_ U B (ev3_write_pkt (p ++ rest)) Q w.
Proof.
  intros Hf Hl H. unfold ev3_write_pkt. rewrite get_field_app by done. rewrite <- Hf.
  pose proof (zlen_nonneg rest).
  apply wp_write; [rewrite zlen_app; lia|].
  unfold zlen at 1 2. rewrite Nat2Z.id, take_app_length. done.
Qed.

(** ** Exchanges with the brick *)

(** A reply carries [piece] behind a header of layout [l] when its length field
    covers exactly that. *)
Definition carries (l : layout) (piece rep : list Z) : Prop :=
  rep = take (sizeof l) rep ++ piece /\ (sizeof l <= length rep)%nat
  /\ get_field l "packetLen" rep + 2 = zlen rep.

(** The size arithmetic on a reply that carries [piece]. *)
Lemma carries_len l piece rep :
  carries l piece rep -> zlen rep = Z.of_nat (sizeof l) + zlen piece.
Proof.
  intros (He & Hl & _). rewrite He, zlen_app. unfold zlen at 1.
  rewrite length_take. lia.
Qed.

(** The bytes behind the header of a buffer that holds such a reply. *)
Lemma slice_carried l piece rep buf :
  carries l piece rep ->
  slice (sizeof l) (Z.to_nat (zlen piece)) (splice 0 rep buf) = piece.
Proof.
  intros Hc. pose proof (carries_len _ _ _ Hc) as Hz. destruct Hc as (He & Hl & _).
  unfold splice. simpl. rewrite slice_app_l by (unfold zlen in *; lia).
  rewrite He. unfold slice. rewrite drop_app_length' by (rewrite length_take; lia).
  unfold zlen. by rewrite Nat2Z.id, take_ge.
Qed.

(** One successful exchange: the request is written, the reply read whole. *)
Definition exchange_in {D} `{!Transport D} (ms : Z) (pkt : list Z) (n : Z) (rep : list Z)
    (d d2 : D) : Prop :=
  exists r1 d1 r2, tr_write pkt d = (r1, d1) /\ 0 <= r1
    /\ tr_read n ms d1 = (r2, rep, d2) /\ 0 < r2.
Definition exchange {D} `{!Transport D} := exchange_in (D := D) TIMEOUT.

(** [w'] is [w] after the events [evs], with the device in the state [d]. *)
Definition after {D} (w : World D) (evs : list io_event) (d : D) (w' : World D) : Prop :=
  w_trace w' = w_trace w ++ evs /\ w_dev w' = d.

(** Sending [pkt] and reading a reply of [n] bytes into a fresh buffer: what has
    to hold when the transport fails ([Qcomm]), and of the buffer after a read
    ([Qrep]). *)
Definition wp_request {D} `{!Transport D} (pkt : list Z) (n ms : Z) (w : World D)
    (Qcomm : World D -> Prop) (Qrep : list Z -> World D -> Prop) : Prop :=
  forall r1 d1, tr_write pkt (w_dev w) = (r1, d1) ->
  if r1 <? 0 then forall w', after w [Wrote pkt r1] d1 w' -> Qcomm w'
  else forall r2 rep d2, tr_read n ms d1 = (r2, rep, d2) ->
    forall w', after w [Wrote pkt r1; GotReply n ms r2 rep] d2 w' ->
    if r2 <=? 0 then Qcomm w' else
    forall buf, zlen buf = n -> (zlen rep = n -> buf = rep) -> Qrep buf w'.

Lemma wp_request_exchange {D} `{!Transport D} pkt n ms rep d2 w (Qcomm : World D -> Prop) Qrep :
  exchange_in ms pkt n rep (w_dev w) d2 -> zlen rep = n ->
  (forall w', w_dev w' = d2 -> Qrep rep w') -> wp_request pkt n ms w Qcomm Qrep.
Proof.
  intros (r1 & d1 & r2 & Hw & H1 & Hr & H2) Hn H r1' d1'. rewrite Hw. intros [= <- <-].
  rewrite (proj2 (Z.ltb_ge _ _)) by lia. rewrite Hr. intros ? ? ? [= <- <- <-] w' [_ Hd].
  rewrite (proj2 (Z.leb_gt _ _)) by lia. intros buf _ ->; [by apply H|done].
Qed.

(** Whatever the transport does, only [pkt] is sent. *)
Lemma wp_request_sends {D} `{!Transport D} pkt n ms w (Qcomm : World D -> Prop) Qrep :
  (forall w' evs, w_trace w' = w_trace w ++ evs -> packets evs = [pkt] -> Qcomm w') ->
  (forall w' r1 r2 rep buf,
    w_trace w' = w_trace w ++ [Wrote pkt r1; GotReply n ms r2 rep] ->
    (zlen rep = n -> buf = rep) -> Qrep buf w') ->
  wp_request pkt n ms w Qcomm Qrep.
Proof.
  intros Hc Hq r1 d1 _. destruct (r1 <? 0); [intros w' [Ht _]; by eapply Hc|].
  intros r2 rep d2 _ w' [Ht _]. destruct (r2 <=? 0); [by eapply Hc|].
  intros buf _ Hb. by eapply Hq.
Qed.

(** Bridges between the logic and the outcome of a run. *)
Lemma wlp_done {D A} (m : M D A) Q w a w' :
  wlp m Q w -> m w = Done a w' -> Q a w'.
Proof. unfold wp_. intros H E. by rewrite E in H. Qed.

Lemma wp_done {D A} (m : M D A) Q (w : World D) :
  wp m Q w -> exists a w', m w = Done a w' /\ Q a w'.
Proof. unfold wp_. destruct (m w); [eauto|done..]. Qed.

(** Symbolic execution: one rule per step of the program, then the projections
    of the new world are computed. *)
Ltac wsimpl :=
  cbn [w_dev w_trace w_out w_err w_errmsg w_errno w_junk w_blocks fst snd].
Ltac wstep :=
  match goal with
  | |- wp_ _ _ (_ ≫= _) _ _ => apply wp_bind
  | |- wp_ _ _ (mret _) _ _ => apply wp_ret
  | |- wp_ _ _ (deref (Some _)) _ _ => apply wp_deref_Some
  | |- wp_ _ _ (set_errmsg _) _ _ => apply wp_set_errmsg
  | |- wp_ _ _ (set_errno _) _ _ => apply wp_set_errno
  | |- wp_ _ _ (put_out _) _ _ => apply wp_put_out
  | |- wp_ _ _ (put_err _) _ _ => apply wp_put_err
  | |- wp_ _ _ (fputs_err _) _ _ => apply wp_put_err
  | |- wp_ _ _ (puts _) _ _ => apply wp_put_out
  | |- wp_ _ _ (fresh _) _ _ =>
      let b := fresh "block" in let Hb := fresh "Hblock" in
      apply wp_fresh; intros b Hb ?
  end; cbv zeta; wsimpl.
Ltac wsteps := repeat wstep.

(** Side conditions of [wp_alloc] for a concrete struct. *)
Ltac walloc :=
  apply wp_bind, wp_alloc;
  [reflexivity|by apply Nat.leb_le|try (vm_compute; reflexivity)|
   let junk := fresh "junk" in intros junk ? ?; wsimpl].

(** The same for a struct without a tail. *)
Ltac walloc0 :=
  apply wp_bind, wp_alloc;
  [reflexivity|by apply Nat.leb_le|try (vm_compute; reflexivity)|
   intros ? ->%nil_length_inv _; rewrite app_nil_r; wsimpl].

(** Side condition of [wp_read_ok]: the buffer was allocated with the size that
    is read. *)
Ltac wread_side :=
  unfold zlen;
  match goal with H : length ?b = _ |- _ <= Z.of_nat (length ?b) => rewrite H end;
  reflexivity || lia.

(** The command at hand writes its request and reads the reply into a fresh
    block; the goal becomes the one of [wp_request]'s hypothesis [H]. *)
Ltac wrequest H :=
  let r1 := fresh "r1" in let d1 := fresh "d1" in let Hw := fresh "Hw" in
  let r2 := fresh "r2" in let rep := fresh "rep" in let d2 := fresh "d2" in
  let Hr := fresh "Hr" in let Hfit := fresh "Hfit" in
  apply wp_write_framed; [reflexivity|]; wsimpl; intros r1 d1 Hw;
  specialize (H r1 d1 Hw); destruct (r1 <? 0); [wsteps; by apply H|];
  wsteps; apply wp_read_ok; [wread_side|]; wsimpl;
  intros r2 rep d2 Hr Hfit _ _; specialize (H r2 rep d2 Hr); cbn beta iota;
  rewrite <- app_assoc; cbn [app];
  destruct (r2 <=? 0); [wsteps; by apply H|];
  match goal with Hb : length ?blk = _ |- context [splice 0 rep ?blk] =>
    let buf := fresh "buf" in let Hlen := fresh "Hlen" in let Hfull := fresh "Hfull" in
    set (buf := splice 0 rep blk) in *;
    assert (Hlen : zlen buf = Z.of_nat (length blk))
      by (unfold buf; rewrite zlen_splice; [done|rewrite Hb; unfold zlen in Hfit; lia]);
    assert (Hfull : zlen rep = Z.of_nat (length blk) -> buf = rep)
      by (intros ?; apply splice_all; unfold zlen in *; lia);
    rewrite Hb in Hlen, Hfull
  end.
