(* ===== verification/Simple.v ===== *)
(** * Simple: the commands that send one request and read one reply

    [rm] (src/rm.c), [mkdir_] (src/mkdir.c), [closehnd] (src/closehnd.c) and the
    bootloader commands [bootloader_enter], [bootloader_exit] and
    [bootloader_info] (src/bl_enter.c, src/bl_exit.c, src/bl_info.c). *)

From Stdlib Require Import SpecFloat.
From S2P Require Import Prelude Packets IO Logic.

(** [v / 10.0f]: the u32 is converted to IEEE binary32, then divided. *)
Definition float_of_u32 (v : Z) : spec_float := binary_normalize 24 128 v 0 false.
Definition version_float (v : Z) : spec_float :=
  SFdiv 24 128 (float_of_u32 v) (float_of_u32 10).

(** Division rounding to nearest, ties to even. *)
Definition div_nearest (a b : Z) : Z :=
  let q := a / b in
  match Z.compare (2 * (a mod b)) b with
  | Lt => q
  | Gt => q + 1
  | Eq => if Z.even q then q else q + 1
  end.

(** "%4.2f" of a float that is not negative. *)
Definition fmt_4_2f (f : spec_float) : list Z :=
  let hundredths :=
    match f with
    | S754_finite _ m e =>
        if 0 <=? e then Z.pos m * 2 ^ e * 100 else div_nearest (Z.pos m * 100) (2 ^ (- e))
    | _ => 0
    end in
  pad 32 4 (fmt_d (hundredths / 100) ++ [46] ++ pad 48 2 (fmt_d (hundredths mod 100))).

Definition fmt_version (v : Z) : list Z := fmt_4_2f (version_float v).

Example fmt_version_6 : fmt_version 6 = str "0.60". Proof. vm_compute. reflexivity. Qed.
Example fmt_version_big : fmt_version 2000001 = str "200000.09".
Proof. vm_compute. reflexivity. Qed.

Section commands.
Context {D : Type} `{!Transport D}.

Definition rm (path : list Z) : M D Z :=
  let path_sz := S (length path) in
  p ← alloc DELETE_FILE DELETE_FILE_INIT path_sz;
  rm_cmd ← deref p;
  let rm_cmd := splice (sizeof DELETE_FILE) (path ++ [0]) rm_cmd in
  res ← ev3_write_pkt rm_cmd;
  if res <? 0 then
    set_errmsg "Unable to write DELETE_FILE." ;; mret ERR_COMM
  else
  fputs_err ("Checking reply: " +:+ nl) ;;
  rmrep ← fresh (sizeof CREATE_DIR_REPLY);
  '(res, rmrep) ← ev3_read_timeout rmrep (Z.of_nat (sizeof CREATE_DIR_REPLY)) TIMEOUT;
  if res <=? 0 then
    set_errmsg "Unable to read DELETE_FILE" ;; mret ERR_COMM
  else
  if get_field CREATE_DIR_REPLY "type" rmrep =? VM_ERROR then
    set_errno (get_field CREATE_DIR_REPLY "ret" rmrep) ;;
    fputs_err ("Operation failed." +:+ nl +:+ "last_reply=") ;;
    print_bytes rmrep (get_field CREATE_DIR_REPLY "packetLen" rmrep) ;;
    set_errmsg "`DELETE_FILE` was denied." ;; mret ERR_VM
  else
  set_errmsg "`DELETE_FILE` was successful." ;; mret ERR_UNK.

Definition mkdir_ (path : list Z) : M D Z :=
  let path_sz := S (length path) in
  p ← alloc CREATE_DIR CREATE_DIR_INIT path_sz;
  mk ← deref p;
  let mk := splice (sizeof CREATE_DIR) (path ++ [0]) mk in
  res ← ev3_write_pkt mk;
  if res <? 0 then
    set_errmsg "Unable to write CREATE_DIR." ;; mret ERR_COMM
  else
  fputs_err ("Checking reply: " +:+ nl) ;;
  mkrep ← fresh (sizeof CREATE_DIR_REPLY);
  '(res, mkrep) ← ev3_read_timeout mkrep (Z.of_nat (sizeof CREATE_DIR_REPLY)) TIMEOUT;
  if res <=? 0 then
    set_errmsg "Unable to read CREATE_DIR_REPLY" ;; mret ERR_COMM
  else
  if get_field CREATE_DIR_REPLY "type" mkrep =? VM_ERROR then
    set_errno (get_field CREATE_DIR_REPLY "ret" mkrep) ;;
    fputs_err ("Operation failed." +:+ nl +:+ "last_reply=") ;;
    print_bytes mkrep (get_field CREATE_DIR_REPLY "packetLen" mkrep) ;;
    set_errmsg "`CREATE_DIR` was denied." ;; mret ERR_VM
  else
  set_errmsg "`CREATE_DIR` was successful." ;; mret ERR_UNK.

(** The loop of [closehnd]: [n] handles left, starting at [hnd]; [count]
    handles done.  The result is [Some code] when the body returns. *)
Fixpoint closehnd_loop (n : nat) (hnd count : Z) (request reply : list Z)
    : M D (option Z) :=
  match n with
  | O => mret None
  | S n' =>
      let request := set_field CLOSE_HANDLE "handle" hnd request in
      res ← ev3_write_pkt request;
      if res <? 0 then
        set_errmsg "Unable to write CLOSE_HANDLE." ;; mret (Some ERR_COMM)
      else
      '(res, reply) ← ev3_read_timeout reply (Z.of_nat (sizeof CLOSE_HANDLE_REPLY)) TIMEOUT;
      if res <=? 0 then
        set_errmsg "Unable to read CLOSE_HANDLE" ;; mret (Some ERR_COMM)
      else
      let count := count + 1 in
      (if get_field CLOSE_HANDLE_REPLY "type" reply =? VM_OK
       then put_out (str "*") else put_out (str "_")) ;;
      (if Z.rem count 16 =? 0 then put_out [10] else mret tt) ;;
      closehnd_loop n' (hnd + 1) count request reply
  end.

Definition closehnd (start stop : Z) : M D Z :=
  p ← alloc CLOSE_HANDLE CLOSE_HANDLE_INIT 0;
  reply ← fresh (sizeof CLOSE_HANDLE_REPLY);
  let start := if start <? 0 then 0 else start in
  let stop := if 256 <? stop then 256 else stop in
  puts "Handle map:" ;;
  request ← deref p;
  r ← closehnd_loop (Z.to_nat (stop - start)) start 0 request reply;
  match r with
  | Some code => mret code
  | None => set_errmsg "`closehnd` was successful." ;; mret ERR_UNK
  end.

Definition bootloader_enter : M D Z :=
  p ← alloc ENTERFWUPDATE ENTERFWUPDATE_INIT 0;
  reboot ← deref p;
  res ← ev3_write_pkt reboot;
  if res <? 0 then
    set_errmsg "Unable to write ENTERFWUPDATE." ;; mret ERR_COMM
  else
  set_errmsg "`ENTERFWUPDATE` was successful." ;; mret ERR_UNK.

Definition bootloader_exit : M D Z :=
  p ← alloc FW_STARTAPP FW_STARTAPP_INIT 0;
  reboot ← deref p;
  res ← ev3_write_pkt reboot;
  if res <? 0 then
    set_errmsg "Unable to write FW_STARTAPP." ;; mret ERR_COMM
  else
  reply ← fresh (sizeof FW_STARTAPP_REPLY);
  '(res, reply) ← ev3_read_timeout reply (Z.of_nat (sizeof FW_STARTAPP_REPLY)) TIMEOUT;
  if res <=? 0 then
    set_errmsg "Unable to read FW_STARTAPP" ;; mret ERR_COMM
  else
  let ty := get_field FW_STARTAPP_REPLY "type" reply in
  if negb (ty =? VM_OK) && negb (ty =? VM_SYS_RQ) then
    set_errno (get_field FW_STARTAPP_REPLY "ret" reply) ;;
    fputs_err ("Operation failed." +:+ nl +:+ "last_reply=") ;;
    print_bytes reply (get_field FW_STARTAPP_REPLY "packetLen" reply) ;;
    set_errmsg "`FW_STARTAPP` was denied." ;; mret ERR_VM
  else
  puts (nl +:+ "Note: if your EV3 isn't detected as a USB device now, try restarting the brick from its menu." +:+ nl) ;;
  set_errmsg "Update mode was exited successfully." ;; mret ERR_UNK.

(** [hw_names] of src/bl_info.c. *)
Definition hw_names : list string :=
  ["unknown"; "ONE2ONE prototype"; "FINAL prototype"; "FINALB/EP1 prototype";
   "EP2 prototype"; "EP3 prototype"; "mass produced hardware"].

Definition hw_name_idx (hw : Z) : Z := if (1 <=? hw) && (hw <=? 6) then hw else 0.

Definition bootloader_info : M D Z :=
  p ← alloc FW_GETVERSION FW_GETVERSION_INIT 0;
  reboot ← deref p;
  res ← ev3_write_pkt reboot;
  if res <? 0 then
    set_errmsg "Unable to write FW_GETVERSION." ;; mret ERR_COMM
  else
  reply ← fresh (sizeof FW_GETVERSION_REPLY);
  '(res, reply) ← ev3_read_timeout reply (Z.of_nat (sizeof FW_GETVERSION_REPLY)) TIMEOUT;
  if res <=? 0 then
    set_errmsg "Unable to read FW_GETVERSION" ;; mret ERR_COMM
  else
  let ty := get_field FW_GETVERSION_REPLY "type" reply in
  if ty =? VM_SYS_RQ then mret ERR_USBLOOP
  else if negb (ty =? VM_OK) then
    set_errno (get_field FW_GETVERSION_REPLY "ret" reply) ;;
    fputs_err ("Operation failed." +:+ nl +:+ "last_reply=") ;;
    print_bytes reply (get_field FW_GETVERSION_REPLY "packetLen" reply) ;;
    set_errmsg "`FW_GETVERSION` was denied." ;; mret ERR_VM
  else
  let hw := get_field FW_GETVERSION_REPLY "hardwareVersion" reply in
  let ee := get_field FW_GETVERSION_REPLY "eepromVersion" reply in
  put_out (str "Hardware version : V" ++ fmt_version hw ++ str " ("
           ++ str (nth (Z.to_nat (hw_name_idx hw)) hw_names EmptyString) ++ str (")" +:+ nl)) ;;
  put_out (str "EEPROM version   : V" ++ fmt_version ee ++ str nl) ;;
  set_errmsg "`FW_GETVERSION` was successful." ;; mret ERR_UNK.

End commands.

(** ** Specifications *)

(** The verdict on an acknowledged request: [r1] and [r2] are what the write
    and the read returned, [ty] is the reply type. *)
Definition ack_code (r1 r2 ty : Z) : Z :=
  if r1 <? 0 then ERR_COMM else if r2 <=? 0 then ERR_COMM
  else if ty =? VM_ERROR then ERR_VM else ERR_UNK.

Definition rm_request (path : list Z) : list Z :=
  path_request DELETE_FILE DELETE_FILE_INIT path.
Definition mkdir_request (path : list Z) : list Z :=
  path_request CREATE_DIR CREATE_DIR_INIT path.
Definition close_request (hnd : Z) : list Z :=
  set_field CLOSE_HANDLE "handle" hnd
    (set_field SYSTEM_CMD "packetLen" 5 CLOSE_HANDLE_INIT).

Lemma close_request_eq hnd : close_request hnd = [0; 5; 0; 0; 0; 1; 0x98; hnd mod 256].
Proof. reflexivity. Qed.
Lemma framed_close_request hnd : framed (close_request hnd).
Proof. reflexivity. Qed.

(** The text [closehnd] prints for the replies' verdicts, [count] done before. *)
Fixpoint handle_map (count : Z) (opened : list bool) : list Z :=
  match opened with
  | [] => []
  | b :: rest =>
      (if b then str "*" else str "_")
      ++ (if Z.rem (count + 1) 16 =? 0 then [10] else [])
      ++ handle_map (count + 1) rest
  end.
Definition reply_ok (data : list Z) : bool :=
  get_field SYSTEM_REPLY "type" data =? VM_OK.

Section theorems.
Context {D : Type} `{!Transport D}.

Lemma wp_alloc_path U B ty init path (Q : option (list Z) -> World D -> Prop) w :
  length init = sizeof ty -> (sizeof SYSTEM_CMD <= sizeof ty)%nat ->
  Z.of_nat (sizeof ty) + zlen path + 1 < 65535 ->
  (forall p, splice (sizeof ty) (path ++ [0]) p = path_request ty init path ->
    Q (Some p)
      (MkWorld (w_dev w) (w_trace w) (w_out w) (w_err w) (w_errmsg w)
         (w_errno w) (w_junk w) (S (w_blocks w)))) ->
  wp_ U B (alloc ty init (S (length path))) Q w.
Proof.
  intros Hi Hs Hb H. unfold zlen in Hb. apply wp_alloc; [done|done|lia|].
  intros junk Hj _. apply H.
  rewrite splice_tail; [|by rewrite length_set_field; [|rewrite Hi]|].
  2: { rewrite length_app. simpl. lia. }
  unfold path_request, zlen.
  by replace (Z.of_nat (sizeof ty) + Z.of_nat (S (length path)) - 3)
    with (Z.of_nat (sizeof ty) + Z.of_nat (length path) + 1 - 3) by lia.
Qed.

(** Both path commands run the same protocol; this is its symbolic execution. *)
Ltac path_command Hb Hw Hr Hfit Hd :=
  apply wp_bind, wp_alloc_path; [reflexivity|by apply Nat.leb_le|
    change (Z.of_nat (sizeof _)) with 7; lia|];
  let p := fresh "p" in let Hp := fresh "Hp" in
  intros p Hp; wsteps; rewrite Hp; apply wp_write_framed;
  [ apply framed_path_request; [reflexivity|by apply Nat.leb_le|];
    change (Z.of_nat (sizeof _)) with 7; lia |];
  wsimpl; rewrite Hw; intros ? ? [= <- <-];
  unfold ack_code; destruct (_ <? 0);
  [ wsteps; by rewrite packets_app |];
  wsteps; apply wp_read;
  change (Z.of_nat (sizeof CREATE_DIR_REPLY)) with 7; wsimpl; rewrite Hr;
  intros ? ? ? [= <- <- <-];
  match goal with Hk : length ?b = _ |- context [zlen ?b <? _] =>
    rewrite (proj2 (Z.ltb_ge (zlen b) _))
      by (unfold zlen; rewrite Hk; change (Z.of_nat (sizeof CREATE_DIR_REPLY)) with 7;
          unfold zlen in Hfit; lia) end;
  cbn beta iota;
  let E := fresh "E" in destruct (_ <=? 0) eqn:E;
  [ wsteps; by rewrite !packets_app, app_nil_r |];
  let Hd7 := fresh "Hd7" in let Hl := fresh "Hl" in
  destruct Hd as [Hd7 Hl]; [lia|];
  rewrite splice_all by
    (match goal with H : length ?b = _ |- _ = length ?b => rewrite H end;
     change (sizeof CREATE_DIR_REPLY) with 7%nat; unfold zlen in Hd7; lia);
  change (get_field CREATE_DIR_REPLY) with (get_field SYSTEM_REPLY);
  destruct (_ =? VM_ERROR); wsteps; rewrite ?packets_app, ?app_nil_r; [|done];
  apply wp_print_bytes; [lia|]; intros _ text; wsteps;
  by rewrite !packets_app, app_nil_r.

Lemma rm_spec path (w : World D) r1 d1 r2 data d2 :
  zlen path + 8 < 65535 ->
  tr_write (rm_request path) (w_dev w) = (r1, d1) ->
  tr_read 7 TIMEOUT d1 = (r2, data, d2) -> zlen data <= 7 ->
  (0 < r2 -> zlen data = 7 /\ get_field SYSTEM_REPLY "packetLen" data <= 7) ->
  wp (rm path) (fun code w' =>
    code = ack_code r1 r2 (get_field SYSTEM_REPLY "type" data)
    /\ w_dev w' = (if r1 <? 0 then d1 else d2)
    /\ packets (w_trace w') = packets (w_trace w) ++ [rm_request path]
    /\ w_out w' = w_out w
    /\ (code = ERR_VM -> w_errno w' = get_field SYSTEM_REPLY "ret" data
          /\ w_errmsg w' = Some "`DELETE_FILE` was denied."%string)) w.
Proof.
  unfold rm_request. intros Hb Hw Hr Hfit Hd. unfold rm. path_command Hb Hw Hr Hfit Hd.
Qed.

(** `mkdir_` sends one CREATE_DIR with the path, and its result is the one the transport and
    the status byte of the reply call for; a refusal leaves the status in errno. *)
Theorem mkdir_spec path (w : World D) r1 d1 r2 data d2 :
  zlen path + 8 < 65535 ->
  tr_write (mkdir_request path) (w_dev w) = (r1, d1) ->
  tr_read 7 TIMEOUT d1 = (r2, data, d2) -> zlen data <= 7 ->
  (0 < r2 -> zlen data = 7 /\ get_field SYSTEM_REPLY "packetLen" data <= 7) ->
  wp (mkdir_ path) (fun code w' =>
    code = ack_code r1 r2 (get_field SYSTEM_REPLY "type" data)
    /\ w_dev w' = (if r1 <? 0 then d1 else d2)
    /\ packets (w_trace w') = packets (w_trace w) ++ [mkdir_request path]
    /\ (code = ERR_VM -> w_errno w' = get_field SYSTEM_REPLY "ret" data)) w.
Proof.
  unfold mkdir_request. intros Hb Hw Hr Hfit Hd. unfold mkdir_. path_command Hb Hw Hr Hfit Hd.
Qed.

Context `{!TransportOk D}.

(** A refusal that announces more bytes than the reply has makes `rm` read past the end of
    its buffer when it prints the reply. *)
Theorem rm_denied_overread path (w : World D) r1 d1 r2 data d2 :
  zlen path + 8 < 65535 ->
  tr_write (rm_request path) (w_dev w) = (r1, d1) -> 0 <= r1 ->
  tr_read 7 TIMEOUT d1 = (r2, data, d2) -> 0 < r2 ->
  zlen data = 7 -> get_field SYSTEM_REPLY "type" data = VM_ERROR ->
  7 < get_field SYSTEM_REPLY "packetLen" data ->
  exists why, rm path w = Undef why.
Proof.
  intros Hb Hw H1 Hr H2 Hd Ht Hp.
  cut (wp_ True False (rm path) (fun _ _ => False) w).
  { unfold wp_. destruct (rm path w); eauto; done. }
  unfold rm.
  apply wp_bind, wp_alloc_path; [reflexivity|by apply Nat.leb_le|
    change (Z.of_nat (sizeof _)) with 7; lia|].
  intros p Hsp. wsteps. rewrite Hsp. apply wp_write_framed.
  { apply framed_path_request; [reflexivity|by apply Nat.leb_le|].
    change (Z.of_nat (sizeof _)) with 7; lia. }
  unfold rm_request in Hw. wsimpl. rewrite Hw. intros ? ? [= <- <-].
  rewrite (proj2 (Z.ltb_ge _ _)) by lia. wsteps.
  apply wp_read_ok; [wread_side|].
  change (Z.of_nat (sizeof CREATE_DIR_REPLY)) with 7. wsimpl. rewrite Hr.
  intros ? ? ? [= <- <- <-] _ _ _. cbn beta iota.
  rewrite (proj2 (Z.leb_gt _ _)) by lia.
  rewrite splice_all.
  2: { rewrite Hblock. change (sizeof CREATE_DIR_REPLY) with 7%nat. unfold zlen in Hd. lia. }
  change (get_field CREATE_DIR_REPLY) with (get_field SYSTEM_REPLY).
  rewrite Ht. change (VM_ERROR =? VM_ERROR) with true. cbn match. wsteps.
  apply wp_print_bytes; [done|]. intros. lia.
Qed.

(** *** closehnd *)

Lemma closehnd_loop_spec n hnd count request reply (w : World D) :
  (forall h, set_field CLOSE_HANDLE "handle" h request = close_request h) ->
  length reply = 8%nat ->
  wp (closehnd_loop n hnd count request reply) (fun r w' =>
    exists k evs,
      (k <= n)%nat /\ w_trace w' = w_trace w ++ evs
      /\ packets evs = map close_request (seqZ hnd (Z.of_nat k))
      /\ match r with
         | None =>
             k = n /\ length (replies evs) = n
             /\ (Forall (fun d => zlen d = 8) (replies evs) ->
                 w_out w' = w_out w ++ handle_map count (map reply_ok (replies evs)))
         | Some code => code = ERR_COMM
         end) w.
Proof.
  revert hnd count request reply w.
  induction n as [|n IH]; intros hnd count request reply w Hreq Hrep; simpl.
  { wsteps. exists 0%nat, []. rewrite !app_nil_r. by repeat split. }
  rewrite Hreq. wsteps. apply wp_write_framed; [apply framed_close_request|].
  intros r1 d1 Hw. destruct (r1 <? 0) eqn:E1.
  { wsteps. exists 1%nat, [Wrote (close_request hnd) r1]. repeat split; lia. }
  wsteps. apply wp_read_ok; [by unfold zlen; rewrite Hrep|].
  change (Z.of_nat (sizeof CLOSE_HANDLE_REPLY)) with 8.
  intros r2 data d2 Hr Hfit Hok Hlen. cbn beta iota.
  destruct (r2 <=? 0) eqn:E2.
  { wsteps. exists 1%nat, [Wrote (close_request hnd) r1; GotReply 8 TIMEOUT r2 data].
    rewrite <- app_assoc. repeat split; lia. }
  set (buf := splice 0 data reply).
  assert (length buf = 8%nat) as Hbuf.
  { unfold buf. rewrite length_splice; [done|]. unfold zlen in Hfit. lia. }
  wsteps.
  assert (forall b, zlen data = 8 ->
    (get_field CLOSE_HANDLE_REPLY "type" buf =? VM_OK) = b -> reply_ok data = b) as Hty.
  { intros b Hd <-. unfold buf. rewrite splice_all; [done|].
    unfold zlen in Hd. lia. }
  assert (forall (w1 : World D) txt, w_trace w1 =
      (w_trace w ++ [Wrote (close_request hnd) r1]) ++ [GotReply 8 TIMEOUT r2 data] ->
    w_out w1 = w_out w ++ txt ++ (if Z.rem (count + 1) 16 =? 0 then [10] else []) ->
    (zlen data = 8 -> txt = if reply_ok data then str "*" else str "_") ->
    wp (closehnd_loop n (hnd + 1) (count + 1) (close_request hnd) buf) (fun r w' =>
      exists k evs,
        (k <= S n)%nat /\ w_trace w' = w_trace w ++ evs
        /\ packets evs = map close_request (seqZ hnd (Z.of_nat k))
        /\ match r with
           | None =>
               k = S n /\ length (replies evs) = S n
               /\ (Forall (fun d => zlen d = 8) (replies evs) ->
                   w_out w' = w_out w ++ handle_map count (map reply_ok (replies evs)))
           | Some code => code = ERR_COMM
           end) w1) as Hcont.
  { intros w1 txt Htr Hout Htxt.
    eapply wp_mono; [apply IH; [|done]|].
    { intros h. unfold close_request. by rewrite set_set_same by reflexivity. }
    intros r w' (k & evs & Hk & Htr' & Hpk & Hres). exists (S k), 
      (Wrote (close_request hnd) r1 :: GotReply 8 TIMEOUT r2 data :: evs).
    rewrite Htr', Htr, <- !app_assoc. repeat split; [lia|..].
    - rewrite seqZ_cons by lia. simpl. rewrite Hpk. repeat f_equal; lia.
    - destruct r as [code|]; [done|]. destruct Hres as (-> & Hlenr & Hfull).
      repeat split; [simpl; lia|]. intros Hall. simpl in Hall.
      apply Forall_cons in Hall as [Hd8 Hall].
      rewrite Hfull by done. rewrite Hout, Htxt by done. simpl.
      by rewrite <- !app_assoc. }
  destruct (get_field CLOSE_HANDLE_REPLY "type" buf =? VM_OK) eqn:Et; wsteps;
    (destruct (Z.rem (count + 1) 16 =? 0); wsteps;
     [eapply Hcont; [done|wsimpl; by rewrite <- app_assoc|]
     |eapply Hcont; [done|wsimpl; by rewrite app_nil_r|]]);
    intros Hd; by rewrite (Hty _ Hd eq_refl).
Qed.

(** `closehnd` asks the brick to close exactly the handles of the range clipped to 0..255,
    in order, stops at a transport error, and otherwise prints the map of the handles that
    were open. *)
Theorem closehnd_range start stop (w : World D) :
  let lo := Z.max 0 start in
  let n := Z.min 256 stop - lo in
  wp (closehnd start stop) (fun code w' =>
    exists k evs,
      w_trace w' = w_trace w ++ evs /\ k <= Z.max 0 n
      /\ packets evs = map close_request (seqZ lo k)
      /\ (code = ERR_COMM \/
          code = ERR_UNK /\ k = Z.max 0 n
          /\ (Forall (fun d => zlen d = 8) (replies evs) ->
              w_out w' = w_out w ++ str ("Handle map:" +:+ nl)
                         ++ handle_map 0 (map reply_ok (replies evs))))) w.
Proof.
  intros lo n. unfold closehnd. walloc. wsteps.
  assert ((if start <? 0 then 0 else start) = lo) as -> by (destruct (start <? 0) eqn:?; lia).
  assert ((if 256 <? stop then 256 else stop) = Z.min 256 stop) as ->
    by (destruct (256 <? stop) eqn:?; lia).
  eapply wp_mono; [apply closehnd_loop_spec; [|done]|].
  { intros h. by destruct junk. }
  intros r w' (k & evs & Hk & Htr & Hpk & Hres). cbn in Htr.
  destruct r as [code|].
  - wsteps. fold n in Hk. exists (Z.of_nat k), evs. subst code.
    repeat split; [done|lia|done|by left].
  - destruct Hres as (-> & _ & Hout). wsteps. fold n.
    exists (Z.of_nat (Z.to_nat n)), evs. repeat split; [done|lia|done|].
    right. repeat split; [lia|]. intros Hall. rewrite Hout by done. cbn.
    by rewrite <- app_assoc.
Qed.
End theorems.
