(* ===== verification/Stdio.v ===== *)
(** * Stdio: the C streams the commands read and write

    A [FILE] is its contents, the position, whether it can be repositioned (a
    pipe cannot), the end-of-file indicator and, for a stream on a full or
    limited disk, the size at which writing stops short. *)

From S2P Require Import Prelude.

Record FILE := MkFILE {
  f_data : list Z;
  f_pos : nat;
  f_seekable : bool;
  f_eof : bool;
  f_room : option nat;
}.

(** A stream [fopen] returns for reading the file contents [data], and for
    writing a new file. *)
Definition fopen_rb (data : list Z) : FILE := MkFILE data 0 true false None.
Definition fopen_wb : FILE := MkFILE [] 0 true false None.

(** [fread(buf, 1, n, fp)]: the bytes stored in the buffer, at most [n]. *)
Definition fread (n : nat) (fp : FILE) : list Z * FILE :=
  let got := slice (f_pos fp) n (f_data fp) in
  (got, MkFILE (f_data fp) (f_pos fp + length got) (f_seekable fp)
          (f_eof fp || (length got <? n)%nat) (f_room fp)).

Definition feof (fp : FILE) : bool := f_eof fp.

(** [fwrite(bytes, 1, length bytes, fp)]: the number of bytes written. *)
Definition fwrite (bytes : list Z) (fp : FILE) : nat * FILE :=
  let n := match f_room fp with
           | None => length bytes
           | Some lim => Nat.min (length bytes) (lim - f_pos fp)
           end in
  let old := f_data fp ++ replicate (f_pos fp - length (f_data fp)) 0 in
  (n, MkFILE (splice (f_pos fp) (take n bytes) old) (f_pos fp + n)
        (f_seekable fp) (f_eof fp) (f_room fp)).

(** [fseek(fp, off, SEEK_SET)] and [fseek(fp, 0, SEEK_END)]; [None] is -1. *)
Definition fseek_set (off : Z) (fp : FILE) : option FILE :=
  if f_seekable fp && (0 <=? off) then
    Some (MkFILE (f_data fp) (Z.to_nat off) true false (f_room fp))
  else None.
Definition fseek_end (fp : FILE) : option FILE :=
  if f_seekable fp then
    Some (MkFILE (f_data fp) (length (f_data fp)) true false (f_room fp))
  else None.

(** [ftell(fp)], -1 when the stream has no position. *)
Definition ftell (fp : FILE) : Z :=
  if f_seekable fp then Z.of_nat (f_pos fp) else -1.

(** A call whose failure the caller ignores. *)
Definition ignore_fail (r : option FILE) (fp : FILE) : FILE := default fp r.

(** ** Reading a file from its start to its end *)

(** [k] pieces of [sz] bytes. *)
Fixpoint chunks_of (k sz : nat) (l : list Z) : list (list Z) :=
  match k with
  | O => []
  | S k' => take sz l :: chunks_of k' sz (drop sz l)
  end.

Lemma concat_chunks_of k sz l : concat (chunks_of k sz l) = take (k * sz) l.
Proof.
  revert l; induction k as [|k IH]; intros l; simpl; [done|].
  by rewrite IH, take_take_drop.
Qed.

Lemma length_chunks_of k sz l : length (chunks_of k sz l) = k.
Proof. revert l; induction k; simpl; auto. Qed.

Lemma take_chunks_of j k sz l :
  (j <= k)%nat -> take j (chunks_of k sz l) = chunks_of j sz l.
Proof.
  revert j l; induction k as [|k IH]; intros [|j] l Hj; simpl; [done|lia|done|].
  by rewrite IH by lia.
Qed.

(** Enough pieces reassemble the whole. *)
Lemma concat_chunks_all k sz l :
  (length l <= k * sz)%nat -> concat (chunks_of k sz l) = l.
Proof. intros. rewrite concat_chunks_of. by apply take_ge. Qed.

Lemma fwrite_all bytes fp :
  f_room fp = None ->
  fwrite bytes fp =
    (length bytes,
     MkFILE (splice (f_pos fp) bytes
               (f_data fp ++ replicate (f_pos fp - length (f_data fp)) 0))
       (f_pos fp + length bytes) (f_seekable fp) (f_eof fp) (f_room fp)).
Proof. intros H. unfold fwrite. rewrite H. by rewrite take_ge. Qed.

(** Appending: the stream is at the end of what it holds. *)
Lemma fwrite_append bytes fp :
  f_room fp = None -> f_pos fp = length (f_data fp) ->
  fwrite bytes fp =
    (length bytes,
     MkFILE (f_data fp ++ bytes) (length (f_data fp ++ bytes)) (f_seekable fp)
       (f_eof fp) None).
Proof.
  intros H Hp. rewrite fwrite_all, H, Hp by done. f_equal.
  rewrite Nat.sub_diag. simpl. rewrite app_nil_r. unfold splice.
  rewrite take_ge, drop_ge, app_nil_r by lia. by rewrite length_app.
Qed.

(** A stream that is being appended to without a limit. *)
Definition appending (fp : FILE) : Prop :=
  f_room fp = None /\ f_pos fp = length (f_data fp).

Lemma appending_fopen_wb : appending fopen_wb.
Proof. done. Qed.

Lemma fwrite_appending bytes fp :
  appending fp ->
  exists fp', fwrite bytes fp = (length bytes, fp') /\ f_data fp' = f_data fp ++ bytes
    /\ appending fp' /\ f_seekable fp' = f_seekable fp.
Proof. intros [Hr Hp]. eexists. by rewrite fwrite_append. Qed.
