(* ===== verification/Up.v ===== *)
(** * Up: uploading a file to the brick (src/up.c) *)

From S2P Require Import Prelude Packets IO Logic Stdio.

Definition CHUNK_SIZE : Z := 1000.

Section up.
Context {D : Type} `{!Transport D}.

(** One iteration per remaining chunk: [i] counts up to [chunks].  The body
    returns [inl code] or the last reply. *)
Fixpoint up_loop (n : nat) (i chunks final_chunk_sz : Z) (fp : FILE)
    (cd bdrep : list Z) : M D (Z + list Z) :=
  match n with
  | O => mret (inr bdrep)
  | S n' =>
      let cd := set_field CONTINUE_DOWNLOAD "fileHandle"
                  (get_field BEGIN_DOWNLOAD_REPLY "fileHandle" bdrep) cd in
      let cd := if i =? chunks - 1 then
                  set_field CONTINUE_DOWNLOAD "packetLen"
                    (Z.of_nat (sizeof CONTINUE_DOWNLOAD) + final_chunk_sz - PREFIX_SIZE) cd
                else cd in
      let '(got, fp) :=
        fread (Z.to_nat (if i =? chunks - 1 then final_chunk_sz else CHUNK_SIZE)) fp in
      let cd := splice (sizeof CONTINUE_DOWNLOAD) got cd in
      res ← ev3_write_pkt cd;
      if res <? 0 then
        set_errmsg "Unable to write CONTINUE_DOWNLOAD." ;; mret (inl ERR_COMM)
      else
      '(res, bdrep) ←
        ev3_read_timeout bdrep (Z.of_nat (sizeof BEGIN_DOWNLOAD_REPLY)) TIMEOUT;
      if res <=? 0 then
        set_errmsg "Unable to read CONTINUE_DOWNLOAD" ;; mret (inl ERR_COMM)
      else up_loop n' (i + 1) chunks final_chunk_sz fp cd bdrep
  end.

(** The end of [up], after the loop: a code the loop returned, or the verdict on
    the last reply. *)
Definition up_verdict (r : Z + list Z) : M D Z :=
  match r with
  | inl code => mret code
  | inr bdrep =>
      if get_field BEGIN_DOWNLOAD_REPLY "type" bdrep =? VM_ERROR then
        set_errno (get_field BEGIN_DOWNLOAD_REPLY "ret" bdrep) ;;
        fputs_err ("Transfer failed." +:+ nl +:+ "last_reply=") ;;
        print_bytes bdrep (get_field BEGIN_DOWNLOAD_REPLY "packetLen" bdrep) ;;
        set_errmsg "CONTINUE_DOWNLOAD was denied." ;; mret ERR_VM
      else
        set_errmsg "`upload` was successful." ;; mret ERR_UNK
  end.

Definition up (fp : FILE) (dst : list Z) : M D Z :=
  let fp := ignore_fail (fseek_end fp) fp in
  let fsize := ftell fp in
  let fp := ignore_fail (fseek_set 0 fp) fp in
  if 2 ^ 32 - 1 <? u64 fsize then mret ERR_FTOOBIG else
  let final_chunk_sz := Z.rem fsize CHUNK_SIZE in
  let chunks := Z.quot fsize CHUNK_SIZE in
  let '(final_chunk_sz, chunks) :=
    if final_chunk_sz =? 0 then (CHUNK_SIZE, chunks) else (final_chunk_sz, chunks + 1) in
  let dst_len := S (length dst) in
  p ← alloc BEGIN_DOWNLOAD BEGIN_DOWNLOAD_INIT dst_len;
  bd ← deref p;
  let bd := set_field BEGIN_DOWNLOAD "fileSize" (u32 fsize) bd in
  let bd := splice (sizeof BEGIN_DOWNLOAD) (dst ++ [0]) bd in
  res ← ev3_write_pkt bd;
  if res <? 0 then
    set_errmsg "Unable to write BEGIN_DOWNLOAD." ;; mret ERR_COMM
  else
  bdrep ← fresh (sizeof BEGIN_DOWNLOAD_REPLY);
  '(res, bdrep) ←
    ev3_read_timeout bdrep (Z.of_nat (sizeof BEGIN_DOWNLOAD_REPLY)) TIMEOUT;
  if res <=? 0 then
    set_errmsg "Unable to read BEGIN_DOWNLOAD" ;; mret ERR_COMM
  else
  if get_field BEGIN_DOWNLOAD_REPLY "type" bdrep =? VM_ERROR then
    set_errno (get_field BEGIN_DOWNLOAD_REPLY "ret" bdrep) ;;
    set_errmsg "BEGIN_DOWNLOAD was denied." ;; mret ERR_VM
  else
  p ← alloc CONTINUE_DOWNLOAD CONTINUE_DOWNLOAD_INIT (Z.to_nat CHUNK_SIZE);
  cd ← deref p;
  r ← up_loop (Z.to_nat chunks) 0 chunks final_chunk_sz fp cd bdrep;
  up_verdict r.

End up.

(** ** What goes over the wire *)

(** BEGIN_DOWNLOAD for a file of [size] bytes to the path [dst]. *)
Definition begin_download_request (size : Z) (dst : list Z) : list Z :=
  set_field BEGIN_DOWNLOAD "fileSize" size
    (set_field SYSTEM_CMD "packetLen" (11 + zlen dst + 1 - 3) BEGIN_DOWNLOAD_INIT)
  ++ dst ++ [0].

Definition chunk_header (h n : Z) : list Z :=
  set_field SYSTEM_CMD "packetLen" (8 + n - 3)
    (set_field CONTINUE_DOWNLOAD "fileHandle" h CONTINUE_DOWNLOAD_INIT).

(** CONTINUE_DOWNLOAD of [chunk] to the handle [h]. *)
Definition chunk_packet (h : Z) (chunk : list Z) : list Z :=
  chunk_header h (zlen chunk) ++ chunk.

(** The handle a BEGIN_DOWNLOAD or CONTINUE_DOWNLOAD reply names. *)
Definition reply_handle (rep : list Z) : Z :=
  get_field BEGIN_DOWNLOAD_REPLY "fileHandle" rep.
Definition reply_type (rep : list Z) : Z :=
  get_field BEGIN_DOWNLOAD_REPLY "type" rep.

(** The number of chunks of a file of [n] bytes. *)
Definition num_chunks (n : Z) : nat := Z.to_nat ((n + 999) / 1000).

Lemma chunk_header_eq h n :
  chunk_header h n =
    [0; (8 + n - 3) mod 256; ((8 + n - 3) / 256) mod 256; 0; 0; 1; 0x93; h mod 256].
Proof. reflexivity. Qed.

Lemma framed_begin_download size dst :
  zlen dst + 12 < 65535 -> framed (begin_download_request size dst).
Proof.
  intros H. pose proof (zlen_nonneg dst). unfold begin_download_request.
  change (set_field BEGIN_DOWNLOAD "fileSize" size
    (set_field SYSTEM_CMD "packetLen" (11 + zlen dst + 1 - 3) BEGIN_DOWNLOAD_INIT))
    with (set_field SYSTEM_CMD "packetLen" (11 + zlen dst + 1 - 3)
      (set_field BEGIN_DOWNLOAD "fileSize" size BEGIN_DOWNLOAD_INIT)).
  apply framed_header; [by apply Nat.leb_le|lia|].
  rewrite zlen_app. change (zlen [0]) with 1.
  change (zlen (set_field BEGIN_DOWNLOAD "fileSize" size BEGIN_DOWNLOAD_INIT)) with 11.
  unfold PREFIX_SIZE. lia.
Qed.

Lemma framed_chunk h chunk : zlen chunk <= 1000 -> framed (chunk_packet h chunk).
Proof.
  intros H. pose proof (zlen_nonneg chunk). unfold chunk_packet, chunk_header.
  apply framed_header; [by apply Nat.leb_le|lia|].
  change (zlen (set_field CONTINUE_DOWNLOAD "fileHandle" h CONTINUE_DOWNLOAD_INIT)) with 8.
  unfold PREFIX_SIZE. lia.
Qed.

Section spec.
Context {D : Type} `{!Transport D}.

(** The packet buffer when the iteration writes it: with the next chunk at the
    file position, its front is that chunk's packet; unless it was the final
    one, the buffer is ready for the next iteration. *)
Definition filled_cd (fin : bool) (final h : Z) (chunk cd : list Z) : list Z :=
  splice (sizeof CONTINUE_DOWNLOAD) chunk
    (if fin then
       set_field CONTINUE_DOWNLOAD "packetLen"
         (Z.of_nat (sizeof CONTINUE_DOWNLOAD) + final - PREFIX_SIZE)
         (set_field CONTINUE_DOWNLOAD "fileHandle" h cd)
     else set_field CONTINUE_DOWNLOAD "fileHandle" h cd).

Definition cd_ready (cd body : list Z) : Prop :=
  length body = 1000%nat /\
  forall h, set_field CONTINUE_DOWNLOAD "fileHandle" h cd = chunk_header h 1000 ++ body.

Lemma filled_cd_packet h cd body chunk (fin : bool) final :
  cd_ready cd body -> 0 < zlen chunk <= 1000 ->
  zlen chunk = (if fin then final else 1000) ->
  exists rest, filled_cd fin final h chunk cd = chunk_packet h chunk ++ rest
  /\ (fin = false -> cd_ready (filled_cd fin final h chunk cd) chunk).
Proof.
  intros [Hb Hcd] Hc Hf. exists (drop (length chunk) body). unfold filled_cd.
  rewrite Hcd. unfold zlen in Hc, Hf.
  assert (forall hd : list Z, length hd = 8%nat ->
    splice (sizeof CONTINUE_DOWNLOAD) chunk (hd ++ body)
    = (hd ++ chunk) ++ drop (length chunk) body) as Hsp.
  { intros hd Hhd. unfold splice. change (sizeof CONTINUE_DOWNLOAD) with 8%nat.
    rewrite take_app_length' by done. rewrite drop_app_ge by lia.
    rewrite Hhd. replace (8 + length chunk - 8)%nat with (length chunk) by lia.
    by rewrite app_assoc. }
  destruct fin.
  - rewrite set_field_app by (by apply Nat.leb_le). split; [|done].
    rewrite Hsp by done. unfold chunk_packet, zlen. by rewrite Hf.
  - rewrite Hsp by done. rewrite drop_ge, app_nil_r by lia.
    split; [unfold chunk_packet, zlen; by rewrite Hf, app_nil_r|].
    intros _. split; [lia|]. intros h'.
    by rewrite set_field_app by (by apply Nat.leb_le).
Qed.

(** What is left of the file and how it is cut. *)
Definition left_in (fp : FILE) : list Z := drop (f_pos fp) (f_data fp).

Lemma fread_left n fp :
  (n <= length (left_in fp))%nat ->
  (fread n fp).1 = take n (left_in fp) /\
  left_in (fread n fp).2 = drop n (left_in fp).
Proof.
  intros Hn. unfold fread, left_in, slice in *. simpl. split; [done|].
  rewrite drop_drop. f_equal. rewrite length_take. lia.
Qed.

(** The state in which an iteration starts: [n] chunks left, the last of
    [final] bytes; [cd] is the packet buffer and [body] its payload area. *)
Record loop_state (n : nat) (i chunks final : Z) (fp : FILE) (cd body bdrep : list Z)
    : Prop := {
  ls_n : Z.of_nat n = chunks - i;
  ls_final : 1 <= final <= 1000;
  ls_left : (0 < n)%nat ->
    Z.of_nat (length (left_in fp)) = (Z.of_nat n - 1) * 1000 + final;
  ls_cd : (0 < n)%nat -> cd_ready cd body;
  ls_bdrep : length bdrep = 8%nat;
}.

(** What one iteration reads from the file. *)
Lemma loop_state_fread n i chunks final fp cd body bdrep :
  loop_state (S n) i chunks final fp cd body bdrep ->
  let fin := i =? chunks - 1 in
  let chunk := take 1000 (left_in fp) in
  let r := fread (Z.to_nat (if fin then final else CHUNK_SIZE)) fp in
  r.1 = chunk /\ left_in r.2 = drop 1000 (left_in fp)
  /\ zlen chunk = (if fin then final else 1000) /\ 0 < zlen chunk <= 1000
  /\ (fin = true -> n = 0%nat).
Proof.
  intros [Hn Hf Hl _ _] fin chunk r. specialize (Hl ltac:(lia)).
  set (m := Z.to_nat (if fin then final else CHUNK_SIZE)) in *.
  assert ((m <= 1000)%nat /\ (m <= length (left_in fp))%nat
    /\ (m = 1000%nat \/ m = length (left_in fp))
    /\ Z.of_nat m = if fin then final else 1000) as (? & ? & Hm & Hmf).
  { unfold m, fin, CHUNK_SIZE. destruct (i =? chunks - 1) eqn:E; lia. }
  destruct (fread_left m fp) as [H1 H2]; [done|]. fold r in H1, H2.
  assert (chunk = take m (left_in fp)) as Hchunk
    by (unfold chunk; destruct Hm as [->| ->]; [done|rewrite !take_ge by lia; done]).
  assert (zlen chunk = Z.of_nat m) as Hz
    by (rewrite Hchunk; unfold zlen; rewrite length_take; lia).
  rewrite H1, H2, Hz, Hmf, <- Hchunk. repeat split; try done; [|lia|lia|].
  - destruct Hm as [->| ->]; [done|]. by rewrite !drop_ge by lia.
  - unfold fin. intros ?%Z.eqb_eq. lia.
Qed.

(** One iteration: the packet written, and the state of the next iteration. *)
Lemma up_loop_step U B n i chunks final fp cd body bdrep
    (Q : Z + list Z -> World D -> Prop) (w : World D) :
  loop_state (S n) i chunks final fp cd body bdrep ->
  let chunk := take 1000 (left_in fp) in
  let pkt := chunk_packet (reply_handle bdrep) chunk in
  (forall r1 d1, tr_write pkt (w_dev w) = (r1, d1) ->
    if r1 <? 0 then
      Q (inl ERR_COMM) (MkWorld d1 (w_trace w ++ [Wrote pkt r1]) (w_out w) (w_err w)
         (Some "Unable to write CONTINUE_DOWNLOAD."%string) (w_errno w) (w_junk w) (w_blocks w))
    else
    wp_ U B (ev3_read_timeout bdrep 8 TIMEOUT) (fun a w2 =>
      if a.1 <=? 0 then
        Q (inl ERR_COMM) (MkWorld (w_dev w2) (w_trace w2) (w_out w2) (w_err w2)
           (Some "Unable to read CONTINUE_DOWNLOAD"%string) (w_errno w2) (w_junk w2) (w_blocks w2))
      else forall fp' cd' body',
        left_in fp' = drop 1000 (left_in fp) ->
        (length a.2 = 8%nat -> loop_state n (i + 1) chunks final fp' cd' body' a.2) ->
        wp_ U B (up_loop n (i + 1) chunks final fp' cd' a.2) Q w2)
     (MkWorld d1 (w_trace w ++ [Wrote pkt r1]) (w_out w) (w_err w)
                (w_errmsg w) (w_errno w) (w_junk w) (w_blocks w))) ->
  wp_ U B (up_loop (S n) i chunks final fp cd bdrep) Q w.
Proof.
  intros Hls chunk pkt H.
  destruct (loop_state_fread _ _ _ _ _ _ _ _ Hls) as (Hg & Hleft & Hz & Hc & Hfin).
  destruct Hls as [Hn Hf Hl Hcd Hr]. cbn [up_loop].
  destruct (fread _ fp) as [got fp'] eqn:Efr. cbn [fst snd] in *. subst got.
  destruct (filled_cd_packet (reply_handle bdrep) cd body chunk _ final (Hcd ltac:(lia)) Hc Hz)
    as (rest & Hpkt & Hnext).
  match goal with |- context [ev3_write_pkt ?b] =>
    change b with (filled_cd (i =? chunks - 1) final (reply_handle bdrep) chunk cd) end.
  wsteps. rewrite Hpkt at 1.
  apply write_prefix; [apply framed_chunk, Hc| |].
  { unfold chunk_packet. rewrite length_app. change (length (chunk_header _ _)) with 8%nat.
    change (sizeof SYSTEM_CMD) with 7%nat. lia. }
  intros r1 d1 Hw. specialize (H r1 d1 Hw). fold pkt in H |- *.
  destruct (r1 <? 0); [by wsteps|]. wsteps.
  change (Z.of_nat (sizeof BEGIN_DOWNLOAD_REPLY)) with 8.
  eapply wp_mono; [exact H|]. intros [r2 rep] w2 H2. cbn [fst snd] in H2.
  destruct (r2 <=? 0); [by wsteps|].
  apply (H2 fp' _ chunk Hleft). intros Hrep. split; try done; try lia.
  - intros Hn0. rewrite Hleft, length_drop. lia.
  - intros Hn0. apply Hnext. destruct (i =? chunks - 1); [|done]. lia.
Qed.

(** ** Any transport: what is sent *)

(** A complete reply to the upload requests. *)
Definition full_reply (rep : list Z) : Prop := zlen rep = 8.

Context `{!TransportOk D}.

Lemma up_loop_sends n i chunks final fp cd body bdrep (w : World D) :
  loop_state n i chunks final fp cd body bdrep ->
  wp (up_loop n i chunks final fp cd bdrep) (fun r w' =>
    exists k evs hs,
      w_trace w' = w_trace w ++ evs /\ (k <= n)%nat /\ length hs = k
      /\ packets evs = zip_with chunk_packet hs (chunks_of k 1000 (left_in fp))
      /\ match r with
         | inl code => code = ERR_COMM
         | inr rep =>
             k = n /\ length rep = 8%nat /\
             (Forall full_reply (replies evs) ->
               bdrep :: replies evs = (removelast (bdrep :: replies evs)) ++ [rep]
               /\ hs = map reply_handle (removelast (bdrep :: replies evs)))
         end) w.
Proof.
  revert i fp cd body bdrep w.
  induction n as [|n IH]; intros i fp cd body bdrep w Hls.
  { cbn [up_loop]. wsteps. exists 0%nat, [], []. rewrite app_nil_r.
    destruct Hls. by repeat split. }
  eapply up_loop_step; [exact Hls|]. intros r1 d1 Hw.
  set (pkt := chunk_packet _ _) in *.
  destruct (r1 <? 0).
  { exists 1%nat, [Wrote pkt r1], [reply_handle bdrep]. repeat split; lia. }
  apply wp_read_ok; [by unfold zlen; rewrite (ls_bdrep _ _ _ _ _ _ _ _ Hls)|].
  intros r2 data d2 Hr Hfit _ _. wsimpl.
  destruct (r2 <=? 0).
  { exists 1%nat, [Wrote pkt r1; GotReply 8 TIMEOUT r2 data], [reply_handle bdrep].
    wsimpl. rewrite <- app_assoc. repeat split; lia. }
  intros fp' cd' body' Hleft Hnext.
  assert (length (splice 0 data bdrep) = 8%nat) as H8.
  { rewrite length_splice; rewrite (ls_bdrep _ _ _ _ _ _ _ _ Hls); [done|].
    unfold zlen in Hfit. lia. }
  eapply wp_mono; [eapply IH, Hnext, H8|].
  intros r w' (k & evs & hs & Htr & Hk & Hhs & Hpk & Hres).
  exists (S k), (Wrote pkt r1 :: GotReply 8 TIMEOUT r2 data :: evs), (reply_handle bdrep :: hs).
  rewrite Htr. wsimpl. rewrite <- !app_assoc. repeat split; [lia|simpl; lia| |].
  { simpl. by rewrite Hpk, Hleft. }
  destruct r as [code|rep]; [done|]. destruct Hres as (-> & Hrep & Hfull).
  split; [done|]. split; [done|]. intros Hall. simpl in Hall.
  apply Forall_cons in Hall as [Hd Hall]. destruct (Hfull Hall) as [Hlast Hh].
  assert (splice 0 data bdrep = data) as Heq.
  { unfold splice. simpl. rewrite drop_ge, app_nil_r; [done|].
    rewrite (ls_bdrep _ _ _ _ _ _ _ _ Hls). unfold full_reply, zlen in Hd. lia. }
  rewrite Heq in Hlast, Hh. cbn [replies omap list_omap].
  change (removelast (bdrep :: data :: replies evs))
    with (bdrep :: removelast (data :: replies evs)).
  split; [simpl; by f_equal|by rewrite Hh].
Qed.

(** The chunk arithmetic at the top of [up]. *)
Definition chunking (fsize : Z) : Z * Z :=
  let final := Z.rem fsize CHUNK_SIZE in
  let chunks := Z.quot fsize CHUNK_SIZE in
  if final =? 0 then (CHUNK_SIZE, chunks) else (final, chunks + 1).

Lemma chunking_spec n :
  0 <= n ->
  let '(final, chunks) := chunking n in
  0 <= chunks /\ Z.to_nat chunks = num_chunks n /\ 1 <= final <= 1000
  /\ (0 < chunks -> n = (chunks - 1) * 1000 + final) /\ (chunks = 0 -> n = 0).
Proof.
  intros Hn. unfold chunking, num_chunks, CHUNK_SIZE.
  rewrite Z.rem_mod_nonneg, Z.quot_div_nonneg by lia.
  pose proof (Z.div_mod n 1000 ltac:(lia)). pose proof (Z.mod_pos_bound n 1000 ltac:(lia)).
  destruct (n mod 1000 =? 0) eqn:E.
  - assert ((n + 999) / 1000 = n / 1000) as -> by (Z.div_mod_to_equations; lia).
    repeat split; lia.
  - assert ((n + 999) / 1000 = n / 1000 + 1) as -> by (Z.div_mod_to_equations; lia).
    repeat split; lia.
Qed.

Lemma chunks_sizes n (l : list Z) :
  (n <= num_chunks (zlen l))%nat ->
  Forall (fun piece => 0 < zlen piece <= CHUNK_SIZE) (chunks_of n 1000 l)
  /\ Forall (fun piece => zlen piece = CHUNK_SIZE) (removelast (chunks_of n 1000 l)).
Proof.
  unfold num_chunks, zlen, CHUNK_SIZE.
  assert (n <= Z.to_nat ((Z.of_nat (length l) + 999) / 1000) ->
    n = 0%nat \/ (n - 1) * 1000 < length l)%nat as H by (Z.div_mod_to_equations; lia).
  intros Hn%H. clear H. revert l Hn. induction n as [|n IH]; intros l Hn; [by split; constructor|].
  destruct (IH (drop 1000 l)) as [IH1 IH2]; [rewrite length_drop; lia|].
  cbn [chunks_of]. split; [constructor; [rewrite length_take; lia|done]|].
  destruct n as [|n]; [constructor|]. cbn [chunks_of] in IH2 |- *.
  constructor; [rewrite length_take; lia|exact IH2].
Qed.

Lemma num_chunks_enough (l : list Z) : (length l <= num_chunks (zlen l) * 1000)%nat.
Proof. unfold num_chunks, zlen. Z.div_mod_to_equations. lia. Qed.

(** Measuring and rewinding a stream that can be repositioned. *)
Lemma ftell_end fp :
  f_seekable fp = true -> ftell (ignore_fail (fseek_end fp) fp) = zlen (f_data fp).
Proof. intros H. unfold fseek_end, ftell. by rewrite H. Qed.

Lemma left_in_rewound fp :
  f_seekable fp = true ->
  left_in (ignore_fail (fseek_set 0 (ignore_fail (fseek_end fp) fp))
             (ignore_fail (fseek_end fp) fp)) = f_data fp.
Proof. intros H. unfold fseek_end. rewrite H. done. Qed.

(** The opening exchange of [up]: the request, its reply, and the state in
    which the chunk loop starts. *)
Lemma up_begin U B fp dst (Q : Z -> World D -> Prop) (w : World D) :
  f_seekable fp = true -> zlen (f_data fp) < 2 ^ 32 -> zlen dst + 12 < 65535 ->
  let size := zlen (f_data fp) in
  let pkt := begin_download_request size dst in
  (forall r1 d1, tr_write pkt (w_dev w) = (r1, d1) ->
    if r1 <? 0 then forall w', w_trace w' = w_trace w ++ [Wrote pkt r1] -> w_dev w' = d1 ->
      Q ERR_COMM w'
    else forall r2 data d2, tr_read 8 TIMEOUT d1 = (r2, data, d2) ->
      if 8 <? zlen data then U else
      forall w', w_trace w' = w_trace w ++ [Wrote pkt r1; GotReply 8 TIMEOUT r2 data] ->
        w_dev w' = d2 ->
      if r2 <=? 0 then Q ERR_COMM w' else
      forall bdrep, length bdrep = 8%nat -> (zlen data = 8 -> bdrep = data) ->
      if reply_type bdrep =? VM_ERROR then
        w_errno w' = get_field BEGIN_DOWNLOAD_REPLY "ret" bdrep -> Q ERR_VM w'
      else forall i chunks final fp' cd body,
        loop_state (num_chunks size) i chunks final fp' cd body bdrep ->
        left_in fp' = f_data fp ->
        wp_ U B (up_loop (num_chunks size) i chunks final fp' cd bdrep)
          (fun r => wp_ U B (up_verdict r) Q) w') ->
  wp_ U B (up fp dst) Q w.
Proof.
  intros Hseek Hsize Hdst size pkt H. pose proof (zlen_nonneg (f_data fp)).
  unfold up. rewrite ftell_end by done. fold size.
  assert (u64 size = size) as -> by (apply Z.mod_small; unfold size; lia).
  rewrite (proj2 (Z.ltb_ge _ _)) by (unfold size; lia).
  change (if Z.rem size CHUNK_SIZE =? 0 then _ else _) with (chunking size).
  pose proof (chunking_spec size ltac:(unfold size; lia)) as Hch.
  destruct (chunking size) as [final chunks]. destruct Hch as (Hc0 & Hnum & Hfin & Hsz & Hsz0).
  set (fp0 := ignore_fail (fseek_set 0 _) _).
  assert (left_in fp0 = f_data fp) as Hleft by (by apply left_in_rewound).
  apply wp_bind, wp_alloc; [reflexivity|by apply Nat.leb_le|
    change (Z.of_nat (sizeof _)) with 11; unfold zlen in *; lia|].
  intros junk Hj _. wsteps.
  rewrite set_field_app by (by apply Nat.leb_le).
  rewrite splice_tail; [|reflexivity|rewrite length_app; simpl; lia].
  rewrite (u32_id size) by (unfold size; lia).
  replace (Z.of_nat (sizeof BEGIN_DOWNLOAD) + Z.of_nat (S (length dst)) - 3)
    with (11 + zlen dst + 1 - 3)
    by (change (Z.of_nat (sizeof BEGIN_DOWNLOAD)) with 11; unfold zlen; lia).
  fold (begin_download_request size dst). fold pkt.
  apply wp_write_framed; [by apply framed_begin_download|]. wsimpl.
  intros r1 d1 Hw. specialize (H r1 d1 Hw).
  destruct (r1 <? 0); [wsteps; by apply H|]. wsteps.
  apply wp_read. change (Z.of_nat (sizeof BEGIN_DOWNLOAD_REPLY)) with 8. wsimpl.
  intros r2 data d2 Hr. specialize (H r2 data d2 Hr).
  assert (zlen block = 8) as -> by (unfold zlen; by rewrite Hblock).
  destruct (8 <? zlen data) eqn:Hfit; [done|]. apply Z.ltb_ge in Hfit.
  rewrite <- app_assoc. cbn [app].
  destruct (r2 <=? 0); [wsteps; by apply H|].
  set (bdrep := splice 0 data block).
  assert (length bdrep = 8%nat) as Hlen.
  { unfold bdrep. rewrite length_splice; rewrite Hblock; [done|].
    change (sizeof BEGIN_DOWNLOAD_REPLY) with 8%nat. unfold zlen in Hfit. lia. }
  assert (zlen data = 8 -> bdrep = data) as Hfull.
  { intros Hd. unfold bdrep, splice. simpl. rewrite drop_ge, app_nil_r; [done|].
    rewrite Hblock. change (sizeof BEGIN_DOWNLOAD_REPLY) with 8%nat. unfold zlen in Hd. lia. }
  change (get_field BEGIN_DOWNLOAD_REPLY "type" bdrep) with (reply_type bdrep).
  destruct (reply_type bdrep =? VM_ERROR) eqn:Et.
  - wsteps. match goal with |- Q ERR_VM ?x => specialize (H x eq_refl eq_refl bdrep Hlen Hfull) end.
    rewrite Et in H. by apply H.
  - apply wp_bind, wp_alloc; [reflexivity|by apply Nat.leb_le|done|].
    intros body Hbody _. wsteps. rewrite Hnum.
    match goal with |- wp_ _ _ _ _ ?x => specialize (H x eq_refl eq_refl bdrep Hlen Hfull) end.
    rewrite Et in H. apply H with body; [|done]. split; try done; try lia.
    intros Hn0. rewrite Hleft. fold (zlen (f_data fp)). fold size. lia.
Qed.

Lemma wp_up_verdict U B r (Q : Z -> World D -> Prop) (w : World D) :
  match r with
  | inl code => Q code w
  | inr rep =>
      length rep = 8%nat /\
      if reply_type rep =? VM_ERROR then
        if 8 <? get_field BEGIN_DOWNLOAD_REPLY "packetLen" rep then U
        else forall w', w_trace w' = w_trace w -> w_dev w' = w_dev w ->
          w_errno w' = get_field BEGIN_DOWNLOAD_REPLY "ret" rep -> Q ERR_VM w'
      else forall w', w_trace w' = w_trace w -> w_dev w' = w_dev w ->
        w_errmsg w' = Some "`upload` was successful."%string -> Q ERR_UNK w'
  end ->
  wp_ U B (up_verdict r) Q w.
Proof.
  destruct r as [code|rep]; [done|]. intros [Hlen H]. unfold up_verdict.
  fold (reply_type rep). destruct (reply_type rep =? VM_ERROR); wsteps; [|by apply H].
  apply wp_print_bytes; unfold zlen; rewrite Hlen.
  - intros Hp. by rewrite (proj2 (Z.ltb_lt _ _)) in H by lia.
  - intros Hp text. rewrite (proj2 (Z.ltb_ge _ _)) in H by lia. wsteps. by apply H.
Qed.

(** Between [w] and [w'] the whole file went over the wire: BEGIN_DOWNLOAD with
    its size and path, then its pieces in order, the last reply was not an
    error, and each piece names the handle of the reply before it (what is known of
    replies of other lengths is only that the buffer keeps bytes of earlier ones).
    All pieces but the last are of 1000 bytes, and none is empty. *)
Definition upload_sent (fp : FILE) (dst : list Z) (w w' : World D) : Prop :=
  exists evs pieces hs,
    w_trace w' = w_trace w ++ evs
    /\ packets evs = begin_download_request (zlen (f_data fp)) dst
                     :: zip_with chunk_packet hs pieces
    /\ length hs = length pieces /\ concat pieces = f_data fp
    /\ length pieces = num_chunks (zlen (f_data fp))
    /\ Forall (fun piece => 0 < zlen piece <= CHUNK_SIZE) pieces
    /\ Forall (fun piece => zlen piece = CHUNK_SIZE) (removelast pieces)
    /\ (Forall full_reply (replies evs) ->
        hs = map reply_handle (removelast (replies evs))
        /\ exists rep, last (replies evs) = Some rep /\ reply_type rep <> VM_ERROR).

Lemma up_wlp fp dst (w : World D) :
  f_seekable fp = true -> zlen (f_data fp) < 2 ^ 32 -> zlen dst + 12 < 65535 ->
  wlp (up fp dst) (fun code w' => code = ERR_UNK -> upload_sent fp dst w w') w.
Proof.
  intros Hseek Hsize Hdst. set (n := num_chunks (zlen (f_data fp))).
  apply up_begin; [done..|]. intros r1 d1 _.
  destruct (r1 <? 0); [done|]. intros r2 data d2 _. destruct (8 <? zlen data); [done|].
  intros w0 Htr0 _.
  destruct (r2 <=? 0); [done|]. intros bdrep Hlen Hfull.
  destruct (reply_type bdrep =? VM_ERROR) eqn:Et; [done|].
  intros i chunks final fp' cd body Hls Hleft.
  eapply wp_mono; [apply wp_weaken, (up_loop_sends _ _ _ _ _ _ _ _ _ Hls)|].
  intros r w1 (k & evs & hs & Htr & Hk & Hhs & Hpk & Hres). apply wp_up_verdict.
  destruct r as [code|rep]; [by subst code|]. destruct Hres as (-> & Hrep & Hf).
  split; [done|]. destruct (reply_type rep =? VM_ERROR) eqn:Et'.
  { destruct (8 <? _); [done|]. intros; done. }
  intros w2 Htr2 _ _ _.
  exists ([Wrote (begin_download_request (zlen (f_data fp)) dst) r1;
           GotReply 8 TIMEOUT r2 data] ++ evs), (chunks_of n 1000 (f_data fp)), hs.
  repeat split.
  - rewrite Htr2, Htr, Htr0. by rewrite <- app_assoc.
  - rewrite packets_app, Hpk, Hleft. done.
  - rewrite length_chunks_of. done.
  - apply concat_chunks_all. apply num_chunks_enough.
  - apply length_chunks_of.
  - by apply chunks_sizes.
  - by apply chunks_sizes.
  - rewrite replies_app in *. cbn in H |- *. apply Forall_cons in H as [Hd Hall].
    rewrite <- (Hfull Hd). apply Hf, Hall.
  - rewrite replies_app in *. cbn in H |- *. apply Forall_cons in H as [Hd Hall].
    rewrite <- (Hfull Hd). destruct (Hf Hall) as [-> _]. exists rep. rewrite last_snoc.
    split; [done|]. intros Ht. change (reply_type rep = VM_ERROR) in Ht.
    by rewrite Ht in Et'.
Qed.

(** C10: Whenever `up` returns success on a seekable file of less than 4 GiB, the packets it
    sent are one BEGIN_DOWNLOAD with the length and name of the file, then
    CONTINUE_DOWNLOADs whose payloads make up the file in order, each of them 1000 bytes but
    the last, which has between 1 and 1000, and each framed with its own length; if every
    reply had its 8 bytes, each CONTINUE_DOWNLOAD names the handle of the reply before it,
    and the last reply reported no error. The remote name fits the 16-bit length of a
    packet. *)
Theorem up_transfers fp dst (w w' : World D) :
  f_seekable fp = true -> zlen (f_data fp) < 2 ^ 32 -> zlen dst + 12 < 65535 ->
  up fp dst w = Done ERR_UNK w' -> upload_sent fp dst w w'.
Proof. intros ??? Hrun. by apply (wlp_done _ _ _ _ _ (up_wlp fp dst w ltac:(done) ltac:(done) ltac:(done)) Hrun). Qed.
End spec.

(** ** A brick that stores files

    What [up] relies on: a brick that is ready for a file of that path and size
    accepts BEGIN_DOWNLOAD with a handle, and then, for that handle, full chunks
    and the last one, while the announced size is not exceeded.
    [receiving dst size h acc d] says that the brick [d] has [acc] of that file
    so far. *)
Class FileReceiver (D : Type) `{Transport D} := {
  rcv_ready : list Z -> Z -> D -> Prop;
  receiving : list Z -> Z -> Z -> list Z -> D -> Prop;
  rcv_begin : forall d dst size,
    rcv_ready dst size d -> cstr_ok dst -> 0 <= size < 2 ^ 32 ->
    exists r1 d1 r2 rep d2,
      tr_write (begin_download_request size dst) d = (r1, d1) /\ 0 <= r1
      /\ tr_read 8 TIMEOUT d1 = (r2, rep, d2) /\ 0 < r2 /\ zlen rep = 8
      /\ reply_type rep <> VM_ERROR
      /\ receiving dst size (reply_handle rep) [] d2;
  rcv_chunk : forall d dst size h acc chunk,
    receiving dst size h acc d -> 0 < zlen chunk <= CHUNK_SIZE ->
    zlen acc + zlen chunk <= size ->
    zlen chunk = CHUNK_SIZE \/ zlen acc + zlen chunk = size ->
    exists r1 d1 r2 rep d2,
      tr_write (chunk_packet h chunk) d = (r1, d1) /\ 0 <= r1
      /\ tr_read 8 TIMEOUT d1 = (r2, rep, d2) /\ 0 < r2 /\ zlen rep = 8
      /\ reply_type rep <> VM_ERROR /\ reply_handle rep = h
      /\ receiving dst size h (acc ++ chunk) d2;
}.

Section delivery.
Context {D : Type} `{!Transport D} `{!FileReceiver D}.

Lemma take_or_all (l acc : list Z) size :
  zlen acc + zlen l = size ->
  zlen (take 1000 l) = CHUNK_SIZE \/ zlen acc + zlen (take 1000 l) = size.
Proof. unfold zlen, CHUNK_SIZE. rewrite length_take. lia. Qed.

Lemma up_loop_delivers n i chunks final fp cd body bdrep dst h acc size (w : World D) :
  loop_state n i chunks final fp cd body bdrep ->
  (length (left_in fp) <= n * 1000)%nat -> zlen acc + zlen (left_in fp) = size ->
  receiving dst size h acc (w_dev w) -> reply_handle bdrep = h ->
  reply_type bdrep <> VM_ERROR ->
  wp (up_loop n i chunks final fp cd bdrep) (fun r w' =>
    exists rep, r = inr rep /\ length rep = 8%nat /\ reply_type rep <> VM_ERROR
      /\ receiving dst size h (acc ++ left_in fp) (w_dev w')) w.
Proof.
  revert i fp cd body bdrep acc w.
  induction n as [|n IH]; intros i fp cd body bdrep acc w Hls Hen Hsz Hrcv Hh Hty.
  { cbn [up_loop]. wsteps. exists bdrep. destruct (left_in fp); [|simpl in Hen; lia].
    rewrite app_nil_r. repeat split; try done. apply Hls. }
  destruct (loop_state_fread _ _ _ _ _ _ _ _ Hls) as (_ & _ & _ & Hc & _).
  assert (zlen (left_in fp) = zlen (take 1000 (left_in fp)) + zlen (drop 1000 (left_in fp)))
    as Hcut by (by rewrite <- zlen_app, take_drop).
  pose proof (zlen_nonneg (drop 1000 (left_in fp))).
  destruct (rcv_chunk _ _ _ _ _ (take 1000 (left_in fp)) Hrcv) as
    (r1 & d1 & r2 & rep & d2 & Hw & Hr1 & Hr & Hr2 & Hrep & Hty' & Hh' & Hrcv');
    [by unfold CHUNK_SIZE|lia|by apply take_or_all|].
  eapply up_loop_step; [exact Hls|]. rewrite Hh. intros ? ?. rewrite Hw. intros [= <- <-].
  rewrite (proj2 (Z.ltb_ge _ _)) by lia.
  apply wp_read. wsimpl. rewrite Hr. intros ? ? ? [= <- <- <-].
  rewrite (proj2 (Z.ltb_ge _ _)) by
    (unfold zlen in *; rewrite (ls_bdrep _ _ _ _ _ _ _ _ Hls); lia).
  rewrite (proj2 (Z.leb_gt _ _)) by lia.
  rewrite splice_all by (rewrite (ls_bdrep _ _ _ _ _ _ _ _ Hls); unfold zlen in Hrep; lia).
  intros fp' cd' body' Hleft Hnext.
  eapply wp_mono; [eapply IH; [apply Hnext; unfold zlen in Hrep; lia|..]|]; try done.
  - rewrite Hleft, length_drop. lia.
  - rewrite Hleft, zlen_app. lia.
  - intros r w' (rep' & -> & Hlen & Ht & Hrcv''). exists rep'. repeat split; try done.
    by rewrite Hleft, <- app_assoc, take_drop in Hrcv''.
Qed.

Lemma up_stores fp dst (w : World D) :
  f_seekable fp = true -> zlen (f_data fp) < 2 ^ 32 ->
  cstr_ok dst -> zlen dst + 12 < 65535 ->
  rcv_ready dst (zlen (f_data fp)) (w_dev w) ->
  wp (up fp dst) (fun code w' =>
    code = ERR_UNK /\ w_errmsg w' = Some "`upload` was successful."%string
    /\ exists h, receiving dst (zlen (f_data fp)) h (f_data fp) (w_dev w')) w.
Proof.
  intros Hseek Hsize Hdst Hlen Hready. pose proof (zlen_nonneg (f_data fp)).
  destruct (rcv_begin _ dst (zlen (f_data fp)) Hready Hdst) as
    (r1 & d1 & r2 & rep & d2 & Hw & Hr1 & Hr & Hr2 & Hrep & Hty & Hrcv); [lia|].
  apply up_begin; [done..|]. rewrite Hw. intros ? ? [= <- <-].
  rewrite (proj2 (Z.ltb_ge _ _)) by lia. rewrite Hr. intros ? ? ? [= <- <- <-].
  rewrite (proj2 (Z.ltb_ge _ _)) by lia. intros w0 _ Hd0.
  rewrite (proj2 (Z.leb_gt _ _)) by lia. intros bdrep Hlb Hb. rewrite (Hb Hrep) in *.
  rewrite (proj2 (Z.eqb_neq _ _)) by done. intros i chunks final fp' cd body Hls Hleft.
  eapply wp_mono; [eapply (up_loop_delivers _ _ _ _ _ _ _ _ dst (reply_handle rep) [] _ _ Hls)|].
  - rewrite Hleft. apply num_chunks_enough.
  - rewrite Hleft. done.
  - by rewrite Hd0.
  - done.
  - done.
  - intros r w1 (rep' & -> & Hl' & Ht' & Hrcv'). apply wp_up_verdict. split; [done|].
    rewrite (proj2 (Z.eqb_neq _ _)) by done. intros w' _ Hd Hm.
    repeat split; [done|]. exists (reply_handle rep). rewrite Hd.
    by rewrite Hleft in Hrcv'.
Qed.

(** Against a brick that receives uploads, `up` succeeds and the brick has the file. *)
Theorem up_delivers fp dst (w : World D) :
  f_seekable fp = true -> zlen (f_data fp) < 2 ^ 32 ->
  cstr_ok dst -> zlen dst + 12 < 65535 ->
  rcv_ready dst (zlen (f_data fp)) (w_dev w) ->
  wp (up fp dst) (fun code w' =>
    code = ERR_UNK /\ w_errmsg w' = Some "`upload` was successful."%string
    /\ exists h, receiving dst (zlen (f_data fp)) h (f_data fp) (w_dev w')) w.
Proof. apply up_stores. Qed.

End delivery.
