(* ===== verification/Dl.v ===== *)
(** * Dl: downloading a file from the brick (src/dl.c)

    The local stream is threaded through and returned with the code. *)

From S2P Require Import Prelude Packets IO Logic Stdio.

Definition CHUNK_SIZE : Z := 1000.

Section dl.
Context {D : Type} `{!Transport D}.

(** [fwrite(buf + off, n, 1, fp)] of a block in memory; the result is ignored
    by the callers. *)
Definition fwrite_from (buf : list Z) (off : nat) (n : Z) (fp : FILE) : M D FILE :=
  if zlen buf <? Z.of_nat off + n then undef "fwrite: reads past the end of the buffer"
  else mret (fwrite (slice off (Z.to_nat n) buf) fp).2.

(** The loop, [fuel] iterations at most.  [buf] is the reply buffer. *)
Fixpoint dl_loop (fuel : nat) (read_so_far total : Z) (cu buf : list Z) (fp : FILE)
    : M D (option Z * FILE) :=
  if negb (read_so_far <? total) then mret (None, fp) else
  match fuel with
  | O => blocked
  | S fuel =>
      res ← ev3_write cu (Z.of_nat (sizeof CONTINUE_UPLOAD));
      if res <? 0 then
        set_errmsg "Unable to write CONTINUE_UPLOAD" ;; mret (Some ERR_COMM, fp)
      else
      '(res, buf) ← ev3_read_timeout buf (zlen buf) TIMEOUT;
      if res <=? 0 then
        set_errmsg "Unable to read CONTINUE_UPLOAD_REPLY" ;; mret (Some ERR_COMM, fp)
      else
      if get_field CONTINUE_UPLOAD_REPLY "type" buf =? VM_ERROR then
        set_errno (get_field CONTINUE_UPLOAD_REPLY "ret" buf) ;;
        fputs_err ("Operation failed." +:+ nl +:+ "last_reply=") ;;
        print_bytes buf (get_field CONTINUE_UPLOAD_REPLY "packetLen" buf) ;;
        set_errmsg "`CONTINUE_UPLOAD` was denied." ;; mret (Some ERR_VM, fp)
      else
      let read_this_time :=
        u64 (get_field CONTINUE_UPLOAD_REPLY "packetLen" buf + 2
             - Z.of_nat (sizeof CONTINUE_UPLOAD_REPLY)) in
      fp ← fwrite_from buf (sizeof CONTINUE_UPLOAD_REPLY) read_this_time fp;
      let cu := set_field CONTINUE_UPLOAD "fileHandle"
                  (get_field CONTINUE_UPLOAD_REPLY "fileHandle" buf) cu in
      dl_loop fuel (u32 (read_so_far + read_this_time)) total cu buf fp
  end.

Definition dl (fuel : nat) (path : list Z) (fp : FILE) : M D (Z * FILE) :=
  let path_sz := S (length path) in
  p ← alloc BEGIN_UPLOAD BEGIN_UPLOAD_INIT path_sz;
  bu ← deref p;
  let bu := splice (sizeof BEGIN_UPLOAD) (path ++ [0]) bu in
  let bu := set_field BEGIN_UPLOAD "maxBytes" CHUNK_SIZE bu in
  res ← ev3_write_pkt bu;
  if res <? 0 then
    set_errmsg "Unable to write BEGIN_UPLOAD." ;; mret (ERR_COMM, fp)
  else
  let file_chunksz :=
    Z.of_nat (sizeof BEGIN_UPLOAD_REPLY) + get_field BEGIN_UPLOAD "maxBytes" bu in
  file_chunk ← fresh (Z.to_nat file_chunksz);
  '(res, burep) ← ev3_read_timeout file_chunk file_chunksz TIMEOUT;
  if res <=? 0 then
    set_errmsg "Unable to read BEGIN_UPLOAD" ;; mret (ERR_COMM, fp)
  else
  if get_field BEGIN_UPLOAD_REPLY "type" burep =? VM_ERROR then
    set_errno (get_field BEGIN_UPLOAD_REPLY "ret" burep) ;;
    fputs_err ("Operation failed." +:+ nl +:+ "last_reply=") ;;
    print_bytes burep (get_field BEGIN_UPLOAD_REPLY "packetLen" burep) ;;
    set_errmsg "`BEGIN_UPLOAD` was denied." ;; mret (ERR_VM, fp)
  else
  let read_so_far :=
    u32 (get_field BEGIN_UPLOAD_REPLY "packetLen" burep + 2
         - Z.of_nat (sizeof BEGIN_UPLOAD_REPLY)) in
  fp ← fwrite_from burep (sizeof BEGIN_UPLOAD_REPLY) read_so_far fp;
  let total := get_field BEGIN_UPLOAD_REPLY "fileSize" burep in
  let cu := set_field CONTINUE_UPLOAD "fileHandle"
              (get_field BEGIN_UPLOAD_REPLY "fileHandle" burep) CONTINUE_UPLOAD_INIT in
  let cu := set_field CONTINUE_UPLOAD "maxBytes"
              (CHUNK_SIZE + Z.of_nat (sizeof BEGIN_UPLOAD_REPLY)
               - Z.of_nat (sizeof CONTINUE_UPLOAD_REPLY)) cu in
  '(r, fp) ← dl_loop fuel read_so_far total cu burep fp;
  match r with
  | Some code => mret (code, fp)
  | None => set_errmsg "`BEGIN_UPLOAD` was successful." ;; mret (ERR_UNK, fp)
  end.

End dl.

(** ** What goes over the wire *)

Definition begin_upload_request (path : list Z) : list Z :=
  set_field BEGIN_UPLOAD "maxBytes" 1000
    (set_field SYSTEM_CMD "packetLen" (9 + zlen path + 1 - 3) BEGIN_UPLOAD_INIT)
  ++ path ++ [0].

Definition continue_upload_request (h : Z) : list Z :=
  set_field CONTINUE_UPLOAD "maxBytes" 1004
    (set_field CONTINUE_UPLOAD "fileHandle" h CONTINUE_UPLOAD_INIT).

Lemma continue_upload_request_eq h :
  continue_upload_request h = [0; 7; 0; 0; 0; 1; 0x95; h mod 256; 0xEC; 3].
Proof. reflexivity. Qed.
Lemma framed_continue_upload h : framed (continue_upload_request h).
Proof. reflexivity. Qed.

Lemma framed_begin_upload path :
  zlen path + 10 < 65535 -> framed (begin_upload_request path).
Proof.
  intros H. pose proof (zlen_nonneg path). unfold begin_upload_request.
  change (set_field BEGIN_UPLOAD "maxBytes" 1000
    (set_field SYSTEM_CMD "packetLen" (9 + zlen path + 1 - 3) BEGIN_UPLOAD_INIT))
    with (set_field SYSTEM_CMD "packetLen" (9 + zlen path + 1 - 3)
      (set_field BEGIN_UPLOAD "maxBytes" 1000 BEGIN_UPLOAD_INIT)).
  apply framed_header; [by apply Nat.leb_le|lia|].
  rewrite zlen_app. change (zlen [0]) with 1.
  change (zlen (set_field BEGIN_UPLOAD "maxBytes" 1000 BEGIN_UPLOAD_INIT)) with 9.
  unfold PREFIX_SIZE. lia.
Qed.

(** ** A brick that sends files

    [snd_has path content d]: the brick [d] is ready and has that file;
    [sending h rest d]: it has [rest] left to send for the handle [h].  Each
    reply carries at most what was asked for and at least a byte. *)
Class FileSender (D : Type) `{Transport D} := {
  snd_has : list Z -> list Z -> D -> Prop;
  sending : Z -> list Z -> D -> Prop;
  snd_begin : forall d path content,
    snd_has path content d ->
    exists r1 d1 r2 rep d2 piece rest,
      tr_write (begin_upload_request path) d = (r1, d1) /\ 0 <= r1
      /\ tr_read 1012 TIMEOUT d1 = (r2, rep, d2) /\ 0 < r2
      /\ carries BEGIN_UPLOAD_REPLY piece rep /\ zlen piece <= 1000
      /\ get_field BEGIN_UPLOAD_REPLY "type" rep <> VM_ERROR
      /\ get_field BEGIN_UPLOAD_REPLY "fileSize" rep = zlen content
      /\ content = piece ++ rest
      /\ sending (get_field BEGIN_UPLOAD_REPLY "fileHandle" rep) rest d2;
  snd_next : forall d h rest,
    sending h rest d -> rest <> [] ->
    exists r1 d1 r2 rep d2 piece rest',
      tr_write (continue_upload_request h) d = (r1, d1) /\ 0 <= r1
      /\ tr_read 1012 TIMEOUT d1 = (r2, rep, d2) /\ 0 < r2
      /\ carries CONTINUE_UPLOAD_REPLY piece rep /\ 0 < zlen piece <= 1004
      /\ get_field CONTINUE_UPLOAD_REPLY "type" rep <> VM_ERROR
      /\ rest = piece ++ rest'
      /\ sending (get_field CONTINUE_UPLOAD_REPLY "fileHandle" rep) rest' d2;
}.

Section spec.
Context {D : Type} `{!Transport D}.

Lemma wp_fwrite_carried U B l piece rep buf fp (Q : FILE -> World D -> Prop) w :
  carries l piece rep -> (length rep <= length buf)%nat -> appending fp ->
  (forall fp', f_data fp' = f_data fp ++ piece -> appending fp' -> Q fp' w) ->
  wp_ U B (fwrite_from (splice 0 rep buf) (sizeof l) (zlen piece) fp) Q w.
Proof.
  intros Hc Hlen [Hroom Hpos] H. pose proof (carries_len _ _ _ Hc) as Hz.
  pose proof (zlen_nonneg piece). unfold fwrite_from.
  rewrite (proj2 (Z.ltb_ge _ _)).
  2: { rewrite zlen_splice by lia. unfold zlen in *. lia. }
  rewrite (slice_carried _ _ _ _ Hc).
  apply wp_ret. rewrite fwrite_append by done. by apply H.
Qed.

(** One iteration whose reply carries [piece]. *)
Lemma dl_loop_step U B fuel so_far total h h' piece rep d2 buf fp
    (Q : option Z * FILE -> World D -> Prop) (w : World D) :
  so_far < total -> length buf = 1012%nat -> appending fp -> zlen piece <= 1004 ->
  exchange (continue_upload_request h) 1012 rep (w_dev w) d2 ->
  carries CONTINUE_UPLOAD_REPLY piece rep ->
  get_field CONTINUE_UPLOAD_REPLY "type" rep <> VM_ERROR ->
  get_field CONTINUE_UPLOAD_REPLY "fileHandle" rep = h' ->
  (forall buf' fp' w', length buf' = 1012%nat -> f_data fp' = f_data fp ++ piece ->
    appending fp' -> w_dev w' = d2 ->
    wp_ U B (dl_loop fuel (u32 (so_far + zlen piece)) total
               (continue_upload_request h') buf' fp') Q w') ->
  wp_ U B (dl_loop (S fuel) so_far total (continue_upload_request h) buf fp) Q w.
Proof.
  intros Hlt Hbuf Hfp Hp (r1 & d1 & r2 & Hw & Hr1 & Hr & Hr2) Hc Hty <- H.
  pose proof (carries_len _ _ _ Hc) as Hz. change (sizeof CONTINUE_UPLOAD_REPLY) with 8%nat in Hz.
  pose proof (zlen_nonneg piece).
  cbn [dl_loop]. rewrite (proj2 (Z.ltb_lt _ _)) by lia. cbn [negb]. wsteps.
  apply wp_write; [done|]. change (take _ _) with (continue_upload_request h).
  rewrite Hw. intros ? ? [= <- <-]. rewrite (proj2 (Z.ltb_ge _ _)) by lia. wsteps.
  assert (zlen buf = 1012) as Hzb by (unfold zlen; lia). rewrite Hzb.
  apply wp_read. wsimpl. rewrite Hr. intros ? ? ? [= <- <- <-].
  rewrite (proj2 (Z.ltb_ge _ _)) by lia. cbn beta iota.
  rewrite (proj2 (Z.leb_gt _ _)) by lia.
  rewrite !get_field_splice by apply Hc.
  rewrite (proj2 (Z.eqb_neq _ _)) by done. wsteps.
  pose proof Hc as (_ & _ & Hlen). rewrite Hlen, Hz.
  change (Z.of_nat (sizeof CONTINUE_UPLOAD_REPLY)) with 8.
  replace (Z.of_nat 8 + zlen piece - 8) with (zlen piece) by lia.
  assert (u64 (zlen piece) = zlen piece) as -> by (apply Z.mod_small; lia).
  apply wp_fwrite_carried; [done|unfold zlen in *; lia|done|]. intros fp' Hfp' Happ.
  apply H; try done. rewrite length_splice; [done|]. unfold zlen in *. lia.
Qed.

Lemma dl_loop_done U B fuel so_far total cu buf fp
    (Q : option Z * FILE -> World D -> Prop) (w : World D) :
  total <= so_far -> Q (None, fp) w -> wp_ U B (dl_loop fuel so_far total cu buf fp) Q w.
Proof. intros. destruct fuel; simpl; by rewrite (proj2 (Z.ltb_ge _ _)) by lia. Qed.

(** The opening exchange: the first piece is in the file when the loop starts. *)
Lemma dl_begin U B fuel path piece rep d2 fp
    (Q : Z * FILE -> World D -> Prop) (w : World D) :
  zlen path + 10 < 65535 -> appending fp -> zlen piece <= 1000 ->
  exchange (begin_upload_request path) 1012 rep (w_dev w) d2 ->
  carries BEGIN_UPLOAD_REPLY piece rep ->
  get_field BEGIN_UPLOAD_REPLY "type" rep <> VM_ERROR ->
  (forall buf fp' w', length buf = 1012%nat -> f_data fp' = f_data fp ++ piece ->
    appending fp' -> w_dev w' = d2 ->
    wp_ U B
      (dl_loop fuel (zlen piece) (get_field BEGIN_UPLOAD_REPLY "fileSize" rep)
        (continue_upload_request (get_field BEGIN_UPLOAD_REPLY "fileHandle" rep)) buf fp')
      (fun r w2 => match r.1 with
       | Some code => Q (code, r.2) w2
       | None => forall w3, w_dev w3 = w_dev w2 ->
           w_errmsg w3 = Some "`BEGIN_UPLOAD` was successful."%string -> Q (ERR_UNK, r.2) w3
       end) w') ->
  wp_ U B (dl fuel path fp) Q w.
Proof.
  intros Hpath Hfp Hp (r1 & d1 & r2 & Hw & Hr1 & Hr & Hr2) Hc Hty H.
  pose proof (carries_len _ _ _ Hc) as Hz. change (sizeof BEGIN_UPLOAD_REPLY) with 12%nat in Hz.
  pose proof (zlen_nonneg piece).
  unfold dl. apply wp_bind, wp_alloc; [reflexivity|by apply Nat.leb_le|
    change (Z.of_nat (sizeof _)) with 9; unfold zlen in *; lia|].
  intros junk Hj _. wsteps. rewrite splice_tail;
    [|reflexivity|rewrite length_app; simpl; lia].
  rewrite set_field_app by (by apply Nat.leb_le).
  replace (Z.of_nat (sizeof BEGIN_UPLOAD) + Z.of_nat (S (length path)) - 3)
    with (9 + zlen path + 1 - 3)
    by (change (Z.of_nat (sizeof BEGIN_UPLOAD)) with 9; unfold zlen; lia).
  change CHUNK_SIZE with 1000. fold (begin_upload_request path).
  apply wp_write_framed; [by apply framed_begin_upload|]. wsimpl.
  rewrite Hw. intros ? ? [= <- <-]. rewrite (proj2 (Z.ltb_ge _ _)) by lia. wsteps.
  assert (Z.of_nat (sizeof BEGIN_UPLOAD_REPLY)
          + get_field BEGIN_UPLOAD "maxBytes" (begin_upload_request path) = 1012) as Hcs.
  { unfold begin_upload_request. by rewrite get_field_app by (by apply Nat.leb_le). }
  rewrite Hcs in *.
  assert (length rep <= length block)%nat as Hrep by (rewrite Hblock; unfold zlen in Hz, Hp; lia).
  apply wp_read. wsimpl. rewrite Hr. intros ? ? ? [= <- <- <-].
  rewrite (proj2 (Z.ltb_ge _ _)) by (unfold zlen; lia). cbn beta iota.
  rewrite (proj2 (Z.leb_gt _ _)) by lia.
  rewrite !get_field_splice by apply Hc.
  rewrite (proj2 (Z.eqb_neq _ _)) by done. wsteps.
  pose proof Hc as (_ & _ & Hlen). rewrite Hlen, Hz.
  change (Z.of_nat (sizeof BEGIN_UPLOAD_REPLY)) with 12.
  replace (Z.of_nat 12 + zlen piece - 12) with (zlen piece) by lia.
  rewrite u32_id by lia. apply wp_fwrite_carried; [done..|]. intros fp' Hfp' Happ. wsteps.
  change (1000 + 12 - Z.of_nat (sizeof CONTINUE_UPLOAD_REPLY)) with 1004.
  fold (continue_upload_request (get_field BEGIN_UPLOAD_REPLY "fileHandle" rep)).
  eapply wp_mono; [apply (H _ fp'); try done|].
  - rewrite length_splice by lia. rewrite Hblock. lia.
  - intros [[code|] fp''] w2 HQ; simpl in HQ; wsteps; [done|by apply HQ].
Qed.

Section delivery.
Context `{!FileSender D}.

Lemma dl_loop_delivers fuel so_far total h rest buf fp (w : World D) :
  length buf = 1012%nat -> appending fp -> sending h rest (w_dev w) ->
  0 <= so_far -> so_far + zlen rest = total -> total < 2 ^ 32 ->
  (length rest <= fuel)%nat ->
  wp (dl_loop fuel so_far total (continue_upload_request h) buf fp) (fun r w' =>
    r.1 = None /\ f_data r.2 = f_data fp ++ rest /\ exists h', sending h' [] (w_dev w')) w.
Proof.
  revert so_far h rest buf fp w.
  induction fuel as [|fuel IH]; intros so_far h rest buf fp w Hbuf Hfp Hs H0 Htot Hmax Hfuel;
    (destruct (decide (rest = [])) as [->|Hne];
     [change (zlen (@nil Z)) with 0 in Htot; apply dl_loop_done; [lia|by rewrite app_nil_r; eauto]|]).
  { destruct rest; [done|simpl in Hfuel; lia]. }
  destruct (snd_next _ _ _ Hs Hne) as
    (r1 & d1 & r2 & rep & d2 & piece & rest' & Hw & Hr1 & Hr & Hr2 & Hc & Hp & Hty & -> & Hs').
  rewrite zlen_app in Htot. pose proof (zlen_nonneg rest').
  eapply (dl_loop_step _ _ _ _ _ _ _ piece rep d2); try done; [lia|lia|by repeat eexists|].
  intros buf' fp' w' Hb' Hd' Hfp' Hw'. rewrite u32_id by lia.
  eapply wp_mono; [eapply (IH _ _ rest')|]; try done; try lia.
  - by rewrite Hw'.
  - rewrite length_app in Hfuel. unfold zlen in Hp. lia.
  - intros r w2 (Hr0 & Hd & Hend). split; [done|]. by rewrite Hd, Hd', <- app_assoc.
Qed.

Lemma dl_receives fuel path content fp (w : World D) :
  zlen path + 10 < 65535 -> zlen content < 2 ^ 32 -> (length content <= fuel)%nat ->
  appending fp -> snd_has path content (w_dev w) ->
  wp (dl fuel path fp) (fun r w' =>
    r.1 = ERR_UNK /\ f_data r.2 = f_data fp ++ content
    /\ w_errmsg w' = Some "`BEGIN_UPLOAD` was successful."%string
    /\ exists h, sending h [] (w_dev w')) w.
Proof.
  intros Hpath Hmax Hfuel Hfp Hhas.
  destruct (snd_begin _ _ _ Hhas) as (r1 & d1 & r2 & rep & d2 & piece & rest &
    Hw & Hr1 & Hr & Hr2 & Hc & Hp & Hty & Hsize & -> & Hs).
  rewrite zlen_app in Hmax. pose proof (zlen_nonneg piece). pose proof (zlen_nonneg rest).
  apply (dl_begin _ _ _ _ piece rep d2); try done; [by repeat eexists|].
  intros buf fp' w' Hb Hd Hfp' Hw'. rewrite Hsize, zlen_app.
  eapply wp_mono; [eapply (dl_loop_delivers _ _ _ _ rest)|]; try done; try lia.
  - by rewrite Hw'.
  - rewrite length_app in Hfuel. lia.
  - intros [r fp''] w2 (Hr0 & Hd2 & Hend). simpl in *. subst r. intros w3 Hd3 Hm.
    rewrite Hd3. split; [done|]. split; [|done]. simpl. by rewrite Hd2, Hd, <- app_assoc.
Qed.

(** C11: Against a brick that serves the content of the file in pieces of its own choice,
    `dl` terminates, appends exactly that content to the local stream and returns success:
    no byte is lost or repeated at the seams between the replies. *)
Theorem dl_delivers fuel path content fp (w : World D) :
  zlen path + 10 < 65535 -> zlen content < 2 ^ 32 -> (length content <= fuel)%nat ->
  appending fp -> snd_has path content (w_dev w) ->
  wp (dl fuel path fp) (fun r w' =>
    r.1 = ERR_UNK /\ f_data r.2 = f_data fp ++ content
    /\ w_errmsg w' = Some "`BEGIN_UPLOAD` was successful."%string
    /\ exists h, sending h [] (w_dev w')) w.
Proof. apply dl_receives. Qed.
End delivery.

(** ** A brick that stops sending

    [stalled d]: every further CONTINUE_UPLOAD is acknowledged with no data. *)
Class StallingSender := {
  stl_ready : D -> Prop;
  stalled : D -> Prop;
  stl_begin : forall d path,
    stl_ready d ->
    exists rep d2 piece,
      exchange (begin_upload_request path) 1012 rep d d2
      /\ carries BEGIN_UPLOAD_REPLY piece rep /\ zlen piece <= 1000
      /\ get_field BEGIN_UPLOAD_REPLY "type" rep <> VM_ERROR
      /\ zlen piece < get_field BEGIN_UPLOAD_REPLY "fileSize" rep < 2 ^ 32
      /\ stalled d2;
  stl_next : forall d h,
    stalled d ->
    exists rep d2,
      exchange (continue_upload_request h) 1012 rep d d2
      /\ carries CONTINUE_UPLOAD_REPLY [] rep
      /\ get_field CONTINUE_UPLOAD_REPLY "type" rep <> VM_ERROR
      /\ stalled d2;
}.

Section stall.
Context `{!StallingSender}.

Lemma dl_loop_stalls fuel so_far total h buf fp (w : World D) :
  length buf = 1012%nat -> appending fp -> stalled (w_dev w) ->
  0 <= so_far < total -> total < 2 ^ 32 ->
  safe (dl_loop fuel so_far total (continue_upload_request h) buf fp) (fun _ _ => False) w.
Proof.
  revert h buf fp w. induction fuel as [|fuel IH]; intros h buf fp w Hbuf Hfp Hs Hlt Hmax.
  { unfold wp_. simpl. by rewrite (proj2 (Z.ltb_lt _ _)) by lia. }
  destruct (stl_next _ h Hs) as (rep & d2 & Hx & Hc & Hty & Hs').
  eapply (dl_loop_step _ _ _ _ _ _ _ [] rep d2); try done; [lia|].
  intros buf' fp' w' Hb' _ Hfp' Hw'. change (zlen (@nil Z)) with 0.
  rewrite Z.add_0_r, u32_id by lia. apply IH; try done. by rewrite Hw'.
Qed.

(** Against a brick that answers every continuation with no bytes, `dl` never returns. *)
Theorem dl_stalls fuel path fp (w : World D) :
  zlen path + 10 < 65535 -> appending fp -> stl_ready (w_dev w) ->
  dl fuel path fp w = Blocked.
Proof.
  intros Hpath Hfp Hready.
  destruct (stl_begin _ path Hready) as (rep & d2 & piece & Hx & Hc & Hp & Hty & Hsz & Hs).
  cut (safe (dl fuel path fp) (fun _ _ => False) w).
  { unfold wp_. by destruct (dl fuel path fp w). }
  apply (dl_begin _ _ _ _ piece rep d2); try done.
  intros buf fp' w' Hb _ Hfp' Hw'. pose proof (zlen_nonneg piece).
  eapply wp_mono; [apply dl_loop_stalls; try done; [by rewrite Hw'|lia|lia]|].
  intros r w2 [].
Qed.
End stall.
End spec.
