(* ===== verification/Ls.v ===== *)
(** * Ls: listing a directory of the brick (src/ls.c) *)

From S2P Require Import Prelude Packets IO Logic.

Section ls.
Context {D : Type} `{!Transport D}.

(** [fwrite(buf + off, n, 1, stdout)]. *)
Definition put_from (buf : list Z) (off : nat) (n : Z) : M D unit :=
  if zlen buf <? Z.of_nat off + n then undef "fwrite: reads past the end of the buffer"
  else put_out (slice off (Z.to_nat n) buf).

Fixpoint ls_loop (fuel : nat) (read_so_far total : Z) (listcon buf : list Z)
    : M D (option Z) :=
  if negb (read_so_far <? total) then mret None else
  match fuel with
  | O => blocked
  | S fuel =>
      res ← ev3_write listcon (Z.of_nat (sizeof CONTINUE_LIST_FILES));
      if res <? 0 then
        set_errmsg "Unable to write CONTINUE_LIST_FILES" ;; mret (Some ERR_COMM)
      else
      '(res, buf) ← ev3_read_timeout buf (zlen buf) TIMEOUT;
      if res <=? 0 then
        set_errmsg "Unable to read CONTINUE_LIST_FILES_REPLY" ;; mret (Some ERR_COMM)
      else
      if get_field CONTINUE_LIST_FILES_REPLY "type" buf =? VM_ERROR then
        set_errno (get_field CONTINUE_LIST_FILES_REPLY "ret" buf) ;;
        fputs_err ("Operation failed." +:+ nl +:+ "last_reply=") ;;
        print_bytes buf (get_field CONTINUE_LIST_FILES_REPLY "packetLen" buf) ;;
        set_errmsg "`CONTINUE_LIST_FILES` was denied." ;; mret (Some ERR_VM)
      else
      let read_this_time :=
        u64 (get_field CONTINUE_LIST_FILES_REPLY "packetLen" buf + 2
             - Z.of_nat (sizeof CONTINUE_LIST_FILES_REPLY)) in
      put_from buf (sizeof CONTINUE_LIST_FILES_REPLY) read_this_time ;;
      let listcon := set_field CONTINUE_LIST_FILES "handle"
                       (get_field CONTINUE_LIST_FILES_REPLY "handle" buf) listcon in
      ls_loop fuel (u32 (read_so_far + read_this_time)) total listcon buf
  end.

(** The request [ls] prepares for the loop. *)
Definition ls_continuation (file_chunksz handle : Z) : list Z :=
  set_field CONTINUE_LIST_FILES "listSize"
    (file_chunksz - Z.of_nat (sizeof CONTINUE_LIST_FILES_REPLY))
    (set_field CONTINUE_LIST_FILES "handle" handle CONTINUE_LIST_FILES_INIT).

Definition ls (fuel : nat) (path : list Z) : M D Z :=
  let path_sz := S (length path) in
  p ← alloc LIST_FILES LIST_FILES_INIT path_sz;
  lst ← deref p;
  let lst := splice (sizeof LIST_FILES) (path ++ [0]) lst in
  let lst := set_field LIST_FILES "maxBytes"
               (1024 - Z.of_nat (sizeof LIST_FILES_REPLY)) lst in
  res ← ev3_write_pkt lst;
  if res <? 0 then
    set_errmsg "Unable to write LIST_FILES." ;; mret ERR_COMM
  else
  let file_chunksz := 1024 in
  file_chunk ← fresh (Z.to_nat file_chunksz);
  '(res, listrep) ← ev3_read_timeout file_chunk file_chunksz TIMEOUT;
  if res <=? 0 then
    set_errmsg "Unable to read LIST_FILES" ;; mret ERR_COMM
  else
  if get_field LIST_FILES_REPLY "type" listrep =? VM_ERROR then
    set_errno (get_field LIST_FILES_REPLY "ret" listrep) ;;
    fputs_err ("Operation failed." +:+ nl +:+ "last_reply=") ;;
    print_bytes listrep (get_field LIST_FILES_REPLY "packetLen" listrep) ;;
    set_errmsg "`LIST_FILES` was denied." ;; mret ERR_VM
  else
  let read_so_far :=
    u32 (get_field LIST_FILES_REPLY "packetLen" listrep + 2
         - Z.of_nat (sizeof LIST_FILES_REPLY)) in
  put_from listrep (sizeof LIST_FILES_REPLY) read_so_far ;;
  let total := get_field LIST_FILES_REPLY "listSize" listrep in
  let listcon := ls_continuation file_chunksz (get_field LIST_FILES_REPLY "handle" listrep) in
  r ← ls_loop fuel read_so_far total listcon listrep;
  match r with
  | Some code => mret code
  | None => set_errmsg "`LIST_FILES` was successful." ;; mret ERR_UNK
  end.

End ls.

Definition list_request (path : list Z) : list Z :=
  set_field LIST_FILES "maxBytes" 1012
    (set_field SYSTEM_CMD "packetLen" (9 + zlen path + 1 - 3) LIST_FILES_INIT)
  ++ path ++ [0].

Lemma framed_list_request path :
  zlen path + 10 < 65535 -> framed (list_request path).
Proof.
  intros H. pose proof (zlen_nonneg path). unfold list_request.
  change (set_field LIST_FILES "maxBytes" 1012
    (set_field SYSTEM_CMD "packetLen" (9 + zlen path + 1 - 3) LIST_FILES_INIT))
    with (set_field SYSTEM_CMD "packetLen" (9 + zlen path + 1 - 3)
      (set_field LIST_FILES "maxBytes" 1012 LIST_FILES_INIT)).
  apply framed_header; [by apply Nat.leb_le|lia|].
  rewrite zlen_app. change (zlen [0]) with 1.
  change (zlen (set_field LIST_FILES "maxBytes" 1012 LIST_FILES_INIT)) with 9.
  unfold PREFIX_SIZE. lia.
Qed.

(** ** What is printed *)

Section spec.
Context {D : Type} `{!Transport D}.

(** The packet that continues a listing announces two bytes less than it has. *)
Theorem ls_continuation_misframed handle :
  zlen (ls_continuation 1024 handle) =
    get_field SYSTEM_CMD "packetLen" (ls_continuation 1024 handle) + PREFIX_SIZE + 2.
Proof. reflexivity. Qed.

Lemma wp_put_carried U B l piece rep buf (Q : unit -> World D -> Prop) w :
  carries l piece rep -> (length rep <= length buf)%nat ->
  Q tt (MkWorld (w_dev w) (w_trace w) (w_out w ++ piece) (w_err w) (w_errmsg w)
          (w_errno w) (w_junk w) (w_blocks w)) ->
  wp_ U B (put_from (splice 0 rep buf) (sizeof l) (zlen piece)) Q w.
Proof.
  intros Hc Hlen H. pose proof (carries_len _ _ _ Hc) as Hz.
  pose proof (zlen_nonneg piece). unfold put_from.
  rewrite (proj2 (Z.ltb_ge _ _)).
  2: { rewrite zlen_splice by lia. unfold zlen in *. lia. }
  rewrite (slice_carried _ _ _ _ Hc). by apply wp_put_out.
Qed.

(** The opening exchange: the first piece is printed when the loop starts. *)
Lemma ls_begin U B fuel path piece rep d2 (Q : Z -> World D -> Prop) (w : World D) :
  zlen path + 10 < 65535 -> zlen piece <= 1012 ->
  exchange (list_request path) 1024 rep (w_dev w) d2 ->
  carries LIST_FILES_REPLY piece rep ->
  get_field LIST_FILES_REPLY "type" rep <> VM_ERROR ->
  (forall buf w', length buf = 1024%nat -> w_dev w' = d2 -> w_out w' = w_out w ++ piece ->
    packets (w_trace w') = packets (w_trace w) ++ [list_request path] ->
    wp_ U B
      (ls_loop fuel (zlen piece) (get_field LIST_FILES_REPLY "listSize" rep)
        (ls_continuation 1024 (get_field LIST_FILES_REPLY "handle" rep)) buf)
      (fun r w2 => match r with
       | Some code => Q code w2
       | None => forall w3, w_dev w3 = w_dev w2 -> w_out w3 = w_out w2 -> w_trace w3 = w_trace w2 ->
           Q ERR_UNK w3
       end) w') ->
  wp_ U B (ls fuel path) Q w.
Proof.
  intros Hpath Hp (r1 & d1 & r2 & Hw & Hr1 & Hr & Hr2) Hc Hty H.
  pose proof (carries_len _ _ _ Hc) as Hz. change (sizeof LIST_FILES_REPLY) with 12%nat in Hz.
  pose proof (zlen_nonneg piece).
  unfold ls. apply wp_bind, wp_alloc; [reflexivity|by apply Nat.leb_le|
    change (Z.of_nat (sizeof _)) with 9; unfold zlen in *; lia|].
  intros junk Hj _. wsteps. rewrite splice_tail;
    [|reflexivity|rewrite length_app; simpl; lia].
  rewrite set_field_app by (by apply Nat.leb_le).
  replace (Z.of_nat (sizeof LIST_FILES) + Z.of_nat (S (length path)) - 3)
    with (9 + zlen path + 1 - 3)
    by (change (Z.of_nat (sizeof LIST_FILES)) with 9; unfold zlen; lia).
  change (1024 - Z.of_nat (sizeof LIST_FILES_REPLY)) with 1012. fold (list_request path).
  apply wp_write_framed; [by apply framed_list_request|]. wsimpl.
  rewrite Hw. intros ? ? [= <- <-]. rewrite (proj2 (Z.ltb_ge _ _)) by lia. wsteps.
  assert (length rep <= length block)%nat as Hrep by (rewrite Hblock; unfold zlen in Hz, Hp; lia).
  apply wp_read. wsimpl. rewrite Hr. intros ? ? ? [= <- <- <-].
  rewrite (proj2 (Z.ltb_ge _ _)) by (unfold zlen; lia). cbn beta iota.
  rewrite (proj2 (Z.leb_gt _ _)) by lia.
  rewrite !get_field_splice by apply Hc.
  rewrite (proj2 (Z.eqb_neq _ _)) by done. wsteps.
  pose proof Hc as (_ & _ & Hlen). rewrite Hlen, Hz.
  change (Z.of_nat (sizeof LIST_FILES_REPLY)) with 12.
  replace (Z.of_nat 12 + zlen piece - 12) with (zlen piece) by lia.
  rewrite u32_id by lia.
  apply wp_put_carried; [done..|]. wsteps.
  eapply wp_mono; [apply H|].
  - rewrite length_splice by lia. rewrite Hblock. done.
  - done.
  - done.
  - cbn. by rewrite !packets_app, app_nil_r.
  - intros [code|] w2 HQ; wsteps; [done|by apply HQ].
Qed.

Lemma ls_loop_done U B fuel so_far total cu buf (Q : option Z -> World D -> Prop) (w : World D) :
  total <= so_far -> Q None w -> wp_ U B (ls_loop fuel so_far total cu buf) Q w.
Proof. intros. destruct fuel; simpl; by rewrite (proj2 (Z.ltb_ge _ _)) by lia. Qed.

(** How a brick that does not continue listings answers the request for more: the packet
    cannot be written, no reply comes, or one that reports an error; and what [ls] makes of
    it. *)
Inductive refuses (h : Z) (d : D) : Z -> Prop :=
| refuses_packet r1 d1 :
    tr_write (ls_continuation 1024 h) d = (r1, d1) -> r1 < 0 -> refuses h d ERR_COMM
| refuses_reply r1 d1 r2 rep d2 :
    tr_write (ls_continuation 1024 h) d = (r1, d1) -> 0 <= r1 ->
    tr_read 1024 TIMEOUT d1 = (r2, rep, d2) -> r2 <= 0 -> zlen rep <= 1024 -> refuses h d ERR_COMM
| reports_error rep d2 :
    exchange (ls_continuation 1024 h) 1024 rep d d2 -> 7 <= zlen rep <= 1024 ->
    get_field CONTINUE_LIST_FILES_REPLY "type" rep = VM_ERROR ->
    get_field CONTINUE_LIST_FILES_REPLY "packetLen" rep <= 1024 -> refuses h d ERR_VM.

Lemma ls_loop_refused U B fuel so_far total h code buf (Q : option Z -> World D -> Prop) (w : World D) :
  so_far < total -> length buf = 1024%nat -> refuses h (w_dev w) code ->
  (forall w', w_out w' = w_out w ->
    packets (w_trace w') = packets (w_trace w) ++ [ls_continuation 1024 h] -> Q (Some code) w') ->
  wp_ U B (ls_loop (S fuel) so_far total (ls_continuation 1024 h) buf) Q w.
Proof.
  intros Hlt Hbuf Href H. assert (zlen buf = 1024) as Hzb by (unfold zlen; lia).
  cbn [ls_loop]. rewrite (proj2 (Z.ltb_lt _ _)) by lia. cbn [negb]. wsteps.
  apply wp_write; [done|]. change (take _ _) with (ls_continuation 1024 h).
  destruct Href as [r1 d1 Hw Hr1|r1 d1 r2 rep d2 Hw Hr1 Hr Hr2 Hz|rep d2 (r1 & d1 & r2 & Hw & Hr1 & Hr & Hr2) Hz Hty Hlen];
    rewrite Hw; intros ? ? [= <- <-].
  - rewrite (proj2 (Z.ltb_lt _ _)) by lia. wsteps. apply H; [done|]. cbn. by rewrite packets_app.
  - rewrite (proj2 (Z.ltb_ge _ _)) by lia. wsteps. rewrite Hzb. apply wp_read. wsimpl. rewrite Hr.
    intros ? ? ? [= <- <- <-]. rewrite (proj2 (Z.ltb_ge _ _)) by lia. cbn beta iota.
    rewrite (proj2 (Z.leb_le _ _)) by lia. wsteps. apply H; [done|]. cbn.
    by rewrite !packets_app, app_nil_r.
  - rewrite (proj2 (Z.ltb_ge _ _)) by lia. wsteps. rewrite Hzb. apply wp_read. wsimpl. rewrite Hr.
    intros ? ? ? [= <- <- <-]. rewrite (proj2 (Z.ltb_ge _ _)) by lia. cbn beta iota.
    rewrite (proj2 (Z.leb_gt _ _)) by lia.
    assert (forall f, (offsetof CONTINUE_LIST_FILES_REPLY f + widthof CONTINUE_LIST_FILES_REPLY f
      <= 7)%nat -> get_field CONTINUE_LIST_FILES_REPLY f (splice 0 rep buf)
      = get_field CONTINUE_LIST_FILES_REPLY f rep) as Hf.
    { intros f Hf. unfold get_field, splice. rewrite take_0, app_nil_l, slice_app_l; [done|].
      etransitivity; [exact Hf|]. unfold zlen in Hz. clear -Hz. lia. }
    rewrite (Hf "type"), Hty by (by apply Nat.leb_le). rewrite Z.eqb_refl. wsteps.
    apply wp_print_bytes; rewrite (Hf "packetLen") by (by apply Nat.leb_le);
      rewrite zlen_splice by (unfold zlen in *; lia); [intros; lia|]. intros _ text. wsteps.
    apply H; [done|]. cbn. by rewrite !packets_app, app_nil_r.
Qed.

(** C37: `ls` prints the part of a listing that the first reply of the brick carries, whole
    and once. It succeeds, having sent only the request, exactly if that is the whole
    listing; otherwise it asks for more once, with the handle of the reply, and when the
    brick does not serve that (it cannot be written to, does not answer or reports an error,
    as the stock firmware, which does not implement CONTINUE_LIST_FILES), it ends with the
    code of that failure and never with success. The path fits a packet. *)
Theorem ls_prints fuel path piece rep code d2 (w : World D) :
  let total := get_field LIST_FILES_REPLY "listSize" rep in
  let handle := get_field LIST_FILES_REPLY "handle" rep in
  zlen path + 10 < 65535 -> zlen piece <= 1012 ->
  exchange (list_request path) 1024 rep (w_dev w) d2 ->
  carries LIST_FILES_REPLY piece rep ->
  get_field LIST_FILES_REPLY "type" rep <> VM_ERROR ->
  (zlen piece < total -> refuses handle d2 code) ->
  wp (ls (S fuel) path) (fun ret w' =>
    w_out w' = w_out w ++ piece
    /\ if total <=? zlen piece then
         ret = ERR_UNK /\ packets (w_trace w') = packets (w_trace w) ++ [list_request path]
       else
         ret = code /\ ret <> ERR_UNK
         /\ packets (w_trace w')
            = packets (w_trace w) ++ [list_request path; ls_continuation 1024 handle]) w.
Proof.
  intros total handle Hpath Hl Hx Hc Hty Hcut.
  apply (ls_begin _ _ _ _ piece rep d2); try done.
  intros buf w' Hbuf Hd Ho Ht. fold total handle.
  destruct (Z.leb_spec total (zlen piece)) as [Hle|Hgt].
  - apply ls_loop_done; [done|]. intros w3 _ -> ->. done.
  - specialize (Hcut Hgt). apply (ls_loop_refused _ _ _ _ _ _ code); [done|done|by rewrite Hd|].
    intros w2 Ho2 Ht2. rewrite Ho2, Ho, Ht2, Ht, <- app_assoc. split; [done|]. split; [done|].
    split; [by destruct Hcut|done].
Qed.

(** One iteration whose reply carries [piece]. *)
Lemma ls_loop_step U B fuel so_far total h piece rep d2 buf
    (Q : option Z -> World D -> Prop) (w : World D) :
  so_far < total -> length buf = 1024%nat -> zlen piece <= 1016 ->
  exchange (ls_continuation 1024 h) 1024 rep (w_dev w) d2 ->
  carries CONTINUE_LIST_FILES_REPLY piece rep ->
  get_field CONTINUE_LIST_FILES_REPLY "type" rep <> VM_ERROR ->
  (forall buf' w', length buf' = 1024%nat -> w_out w' = w_out w ++ piece -> w_dev w' = d2 ->
    packets (w_trace w') = packets (w_trace w) ++ [ls_continuation 1024 h] ->
    wp_ U B (ls_loop fuel (u32 (so_far + zlen piece)) total
               (ls_continuation 1024 (get_field CONTINUE_LIST_FILES_REPLY "handle" rep)) buf') Q w') ->
  wp_ U B (ls_loop (S fuel) so_far total (ls_continuation 1024 h) buf) Q w.
Proof.
  intros Hlt Hbuf Hp (r1 & d1 & r2 & Hw & Hr1 & Hr & Hr2) Hc Hty H.
  pose proof (carries_len _ _ _ Hc) as Hz. change (sizeof CONTINUE_LIST_FILES_REPLY) with 8%nat in Hz.
  pose proof (zlen_nonneg piece).
  cbn [ls_loop]. rewrite (proj2 (Z.ltb_lt _ _)) by lia. cbn [negb]. wsteps.
  apply wp_write; [done|]. change (take _ _) with (ls_continuation 1024 h).
  rewrite Hw. intros ? ? [= <- <-]. rewrite (proj2 (Z.ltb_ge _ _)) by lia. wsteps.
  assert (zlen buf = 1024) as Hzb by (unfold zlen; lia). rewrite Hzb.
  apply wp_read. wsimpl. rewrite Hr. intros ? ? ? [= <- <- <-].
  rewrite (proj2 (Z.ltb_ge _ _)) by lia. cbn beta iota.
  rewrite (proj2 (Z.leb_gt _ _)) by lia.
  rewrite !get_field_splice by apply Hc.
  rewrite (proj2 (Z.eqb_neq _ _)) by done. wsteps.
  pose proof Hc as (_ & _ & Hlen). rewrite Hlen, Hz.
  change (Z.of_nat (sizeof CONTINUE_LIST_FILES_REPLY)) with 8.
  replace (Z.of_nat 8 + zlen piece - 8) with (zlen piece) by lia.
  assert (u64 (zlen piece) = zlen piece) as -> by (apply Z.mod_small; lia).
  apply wp_put_carried; [done|unfold zlen in *; lia|]. wsteps.
  apply H; try done.
  - rewrite length_splice; [done|]. unfold zlen in *. lia.
  - cbn. by rewrite !packets_app, app_nil_r.
Qed.

(** *** A firmware that continues listings

    The exchanges with a brick that takes the request for more, whatever length the packet
    announces, and sends [pieces], each with the handle for the next. *)
Inductive continued : Z -> D -> list (list Z) -> D -> Prop :=
| continued_nil h d : continued h d [] d
| continued_cons h d rep d2 piece pieces d' :
    exchange (ls_continuation 1024 h) 1024 rep d d2 ->
    carries CONTINUE_LIST_FILES_REPLY piece rep -> zlen piece <= 1016 ->
    get_field CONTINUE_LIST_FILES_REPLY "type" rep <> VM_ERROR ->
    continued (get_field CONTINUE_LIST_FILES_REPLY "handle" rep) d2 pieces d' ->
    continued h d (piece :: pieces) d'.

Lemma ls_loop_prints so_far total h pieces buf (w : World D) d' :
  continued h (w_dev w) pieces d' -> length buf = 1024%nat ->
  Forall (fun piece => piece <> []) pieces ->
  0 <= so_far -> so_far + zlen (concat pieces) = total -> total < 2 ^ 32 ->
  wp (ls_loop (length pieces) so_far total (ls_continuation 1024 h) buf) (fun r w' =>
    r = None /\ w_out w' = w_out w ++ concat pieces /\ w_dev w' = d') w.
Proof.
  intros Hs. remember (w_dev w) as d eqn:Ed. revert so_far buf w Ed.
  induction Hs as [h d|h d rep d2 piece pieces d' Hx Hc Hp Hty _ IH];
    intros so_far buf w Ed Hbuf Hne H0 Htot Hmax.
  { change (zlen (concat [])) with 0 in Htot. apply ls_loop_done; [lia|].
    cbn [concat]. by rewrite app_nil_r. }
  cbn [concat length] in *. rewrite zlen_app in Htot. pose proof (zlen_nonneg (concat pieces)).
  inversion Hne as [|? ? Hp0 Hne']; subst.
  assert (0 < zlen piece) by (destruct piece; [done|unfold zlen; simpl; lia]).
  eapply (ls_loop_step _ _ _ _ _ _ piece rep d2); try done; [lia|].
  intros buf' w' Hb' Ho' Hw' _. rewrite u32_id by lia.
  eapply wp_mono; [apply (IH _ buf' w'); try done; lia|].
  intros r w2 (Hr & Ho & Hd). split; [done|]. split; [|done]. by rewrite Ho, Ho', <- app_assoc.
Qed.

(** With a firmware that takes the request for more, whatever length the packet announces, a
    listing in any non-empty pieces is printed whole: no entry is cut, lost or repeated at
    the seams. *)
Theorem ls_reassembles path piece pieces rep d2 d3 (w : World D) :
  zlen path + 10 < 65535 -> zlen piece <= 1012 ->
  exchange (list_request path) 1024 rep (w_dev w) d2 ->
  carries LIST_FILES_REPLY piece rep ->
  get_field LIST_FILES_REPLY "type" rep <> VM_ERROR ->
  continued (get_field LIST_FILES_REPLY "handle" rep) d2 pieces d3 ->
  Forall (fun piece => piece <> []) pieces ->
  get_field LIST_FILES_REPLY "listSize" rep = zlen (piece ++ concat pieces) ->
  zlen (piece ++ concat pieces) < 2 ^ 32 ->
  wp (ls (length pieces) path) (fun code w' =>
    code = ERR_UNK /\ w_out w' = w_out w ++ piece ++ concat pieces) w.
Proof.
  intros Hpath Hl Hx Hc Hty Hs Hne Hsize Hmax. rewrite zlen_app in Hsize, Hmax.
  apply (ls_begin _ _ _ _ piece rep d2); try done.
  intros buf w' Hb Hd Ho _. rewrite <- Hd in Hs. pose proof (zlen_nonneg piece).
  eapply wp_mono; [eapply (ls_loop_prints _ _ _ pieces); try done; lia|].
  intros r w2 (-> & Ho2 & _) w3 _ -> _. split; [done|]. by rewrite Ho2, Ho, <- app_assoc.
Qed.
End spec.
