(* ===== verification/Crc32.v ===== *)
(** * Crc32: the checksum of a firmware image (src/crc32.c) *)

From S2P Require Import Prelude.

Definition crc32_tab : list Z :=
  [
   0x00000000; 0x77073096; 0xee0e612c; 0x990951ba; 0x076dc419; 0x706af48f;
   0xe963a535; 0x9e6495a3; 0x0edb8832; 0x79dcb8a4; 0xe0d5e91e; 0x97d2d988;
   0x09b64c2b; 0x7eb17cbd; 0xe7b82d07; 0x90bf1d91; 0x1db71064; 0x6ab020f2;
   0xf3b97148; 0x84be41de; 0x1adad47d; 0x6ddde4eb; 0xf4d4b551; 0x83d385c7;
   0x136c9856; 0x646ba8c0; 0xfd62f97a; 0x8a65c9ec; 0x14015c4f; 0x63066cd9;
   0xfa0f3d63; 0x8d080df5; 0x3b6e20c8; 0x4c69105e; 0xd56041e4; 0xa2677172;
   0x3c03e4d1; 0x4b04d447; 0xd20d85fd; 0xa50ab56b; 0x35b5a8fa; 0x42b2986c;
   0xdbbbc9d6; 0xacbcf940; 0x32d86ce3; 0x45df5c75; 0xdcd60dcf; 0xabd13d59;
   0x26d930ac; 0x51de003a; 0xc8d75180; 0xbfd06116; 0x21b4f4b5; 0x56b3c423;
   0xcfba9599; 0xb8bda50f; 0x2802b89e; 0x5f058808; 0xc60cd9b2; 0xb10be924;
   0x2f6f7c87; 0x58684c11; 0xc1611dab; 0xb6662d3d; 0x76dc4190; 0x01db7106;
   0x98d220bc; 0xefd5102a; 0x71b18589; 0x06b6b51f; 0x9fbfe4a5; 0xe8b8d433;
   0x7807c9a2; 0x0f00f934; 0x9609a88e; 0xe10e9818; 0x7f6a0dbb; 0x086d3d2d;
   0x91646c97; 0xe6635c01; 0x6b6b51f4; 0x1c6c6162; 0x856530d8; 0xf262004e;
   0x6c0695ed; 0x1b01a57b; 0x8208f4c1; 0xf50fc457; 0x65b0d9c6; 0x12b7e950;
   0x8bbeb8ea; 0xfcb9887c; 0x62dd1ddf; 0x15da2d49; 0x8cd37cf3; 0xfbd44c65;
   0x4db26158; 0x3ab551ce; 0xa3bc0074; 0xd4bb30e2; 0x4adfa541; 0x3dd895d7;
   0xa4d1c46d; 0xd3d6f4fb; 0x4369e96a; 0x346ed9fc; 0xad678846; 0xda60b8d0;
   0x44042d73; 0x33031de5; 0xaa0a4c5f; 0xdd0d7cc9; 0x5005713c; 0x270241aa;
   0xbe0b1010; 0xc90c2086; 0x5768b525; 0x206f85b3; 0xb966d409; 0xce61e49f;
   0x5edef90e; 0x29d9c998; 0xb0d09822; 0xc7d7a8b4; 0x59b33d17; 0x2eb40d81;
   0xb7bd5c3b; 0xc0ba6cad; 0xedb88320; 0x9abfb3b6; 0x03b6e20c; 0x74b1d29a;
   0xead54739; 0x9dd277af; 0x04db2615; 0x73dc1683; 0xe3630b12; 0x94643b84;
   0x0d6d6a3e; 0x7a6a5aa8; 0xe40ecf0b; 0x9309ff9d; 0x0a00ae27; 0x7d079eb1;
   0xf00f9344; 0x8708a3d2; 0x1e01f268; 0x6906c2fe; 0xf762575d; 0x806567cb;
   0x196c3671; 0x6e6b06e7; 0xfed41b76; 0x89d32be0; 0x10da7a5a; 0x67dd4acc;
   0xf9b9df6f; 0x8ebeeff9; 0x17b7be43; 0x60b08ed5; 0xd6d6a3e8; 0xa1d1937e;
   0x38d8c2c4; 0x4fdff252; 0xd1bb67f1; 0xa6bc5767; 0x3fb506dd; 0x48b2364b;
   0xd80d2bda; 0xaf0a1b4c; 0x36034af6; 0x41047a60; 0xdf60efc3; 0xa867df55;
   0x316e8eef; 0x4669be79; 0xcb61b38c; 0xbc66831a; 0x256fd2a0; 0x5268e236;
   0xcc0c7795; 0xbb0b4703; 0x220216b9; 0x5505262f; 0xc5ba3bbe; 0xb2bd0b28;
   0x2bb45a92; 0x5cb36a04; 0xc2d7ffa7; 0xb5d0cf31; 0x2cd99e8b; 0x5bdeae1d;
   0x9b64c2b0; 0xec63f226; 0x756aa39c; 0x026d930a; 0x9c0906a9; 0xeb0e363f;
   0x72076785; 0x05005713; 0x95bf4a82; 0xe2b87a14; 0x7bb12bae; 0x0cb61b38;
   0x92d28e9b; 0xe5d5be0d; 0x7cdcefb7; 0x0bdbdf21; 0x86d3d2d4; 0xf1d4e242;
   0x68ddb3f8; 0x1fda836e; 0x81be16cd; 0xf6b9265b; 0x6fb077e1; 0x18b74777;
   0x88085ae6; 0xff0f6a70; 0x66063bca; 0x11010b5c; 0x8f659eff; 0xf862ae69;
   0x616bffd3; 0x166ccf45; 0xa00ae278; 0xd70dd2ee; 0x4e048354; 0x3903b3c2;
   0xa7672661; 0xd06016f7; 0x4969474d; 0x3e6e77db; 0xaed16a4a; 0xd9d65adc;
   0x40df0b66; 0x37d83bf0; 0xa9bcae53; 0xdebb9ec5; 0x47b2cf7f; 0x30b5ffe9;
   0xbdbdf21c; 0xcabac28a; 0x53b39330; 0x24b4a3a6; 0xbad03605; 0xcdd70693;
   0x54de5729; 0x23d967bf; 0xb3667a2e; 0xc4614ab8; 0x5d681b02; 0x2a6f2b94;
   0xb40bbe37; 0xc30c8ea1; 0x5a05df1b; 0x2d02ef8d].

(** The loop body; the index is masked to a byte. *)
Definition crc32_step (crc b : Z) : Z :=
  Z.lxor (nth (Z.to_nat (Z.land (Z.lxor crc b) 0xFF)) crc32_tab 0) (Z.shiftr crc 8).

Definition crc32 (crc : Z) (buf : list Z) : Z :=
  let crc := Z.lxor crc 0xFFFFFFFF in
  Z.lxor (fold_left crc32_step buf crc) 0xFFFFFFFF.

(** ** The reference: division by the reflected polynomial, bit by bit *)

Definition POLY : Z := 0xEDB88320.

(** One step of the shift register. *)
Definition lfsr (r : Z) : Z :=
  if Z.odd r then Z.lxor (Z.shiftr r 1) POLY else Z.shiftr r 1.

Definition lfsr8 (r : Z) : Z := Nat.iter 8 lfsr r.

(** A byte enters at the low end and is shifted through. *)
Definition crc32_ref (crc : Z) (buf : list Z) : Z :=
  Z.lxor (fold_left (fun r b => lfsr8 (Z.lxor r b)) buf (Z.lxor crc 0xFFFFFFFF)) 0xFFFFFFFF.

(** The check value of the CRC-32 catalogue. *)
Example crc32_check : crc32 0 (str "123456789") = 0xCBF43926.
Proof. reflexivity. Qed.

(** ** The table *)

Lemma lfsr_alt r :
  lfsr r = Z.lxor (Z.shiftr r 1) (if Z.testbit r 0 then POLY else 0).
Proof. unfold lfsr. rewrite Z.bit0_odd. destruct (Z.odd r); [done|by rewrite Z.lxor_0_r]. Qed.

(** The shift register is linear. *)
Lemma lfsr_lxor a b : lfsr (Z.lxor a b) = Z.lxor (lfsr a) (lfsr b).
Proof.
  rewrite !lfsr_alt, Z.lxor_spec, Z.shiftr_lxor.
  apply Z.bits_inj'. intros n _. rewrite !Z.lxor_spec.
  destruct (Z.testbit a 0), (Z.testbit b 0); simpl xorb;
    rewrite ?Z.bits_0; destruct (Z.testbit (Z.shiftr a 1) n),
    (Z.testbit (Z.shiftr b 1) n), (Z.testbit POLY n); done.
Qed.

Lemma iter_lfsr_lxor k a b :
  Nat.iter k lfsr (Z.lxor a b) = Z.lxor (Nat.iter k lfsr a) (Nat.iter k lfsr b).
Proof. induction k as [|k IH]; simpl; [done|]. by rewrite IH, lfsr_lxor. Qed.

(** Low zeros are only shifted out. *)
Lemma iter_lfsr_high k r :
  Nat.iter k lfsr (Z.shiftl r (Z.of_nat k)) = r.
Proof.
  revert r. induction k as [|k IH]; intros r; [by rewrite Z.shiftl_0_r|].
  rewrite Nat.iter_succ_r.
  replace (lfsr (Z.shiftl r (Z.of_nat (S k)))) with (Z.shiftl r (Z.of_nat k)); [apply IH|].
  rewrite lfsr_alt. rewrite Z.shiftl_spec by lia.
  rewrite Z.testbit_neg_r by lia. rewrite Z.lxor_0_r, Z.shiftr_shiftl_l by lia.
  f_equal. lia.
Qed.

(** The table holds the register after eight steps from each byte. *)
Lemma crc32_tab_correct : map lfsr8 (seqZ 0 256) = crc32_tab.
Proof. vm_compute. reflexivity. Qed.

Lemma crc32_tab_nth b : byte_ok b -> nth (Z.to_nat b) crc32_tab 0 = lfsr8 b.
Proof.
  intros Hb. unfold byte_ok in Hb. rewrite <- crc32_tab_correct.
  rewrite (nth_indep _ _ (lfsr8 0)) by (rewrite length_map, length_seqZ; lia).
  rewrite map_nth. f_equal. erewrite nth_lookup_Some; [|apply lookup_seqZ_lt; lia]. lia.
Qed.

Lemma split_byte x : x = Z.lxor (Z.shiftl (Z.shiftr x 8) 8) (Z.land x 0xFF).
Proof.
  apply Z.bits_inj'. intros n Hn. change 0xFF with (Z.ones 8).
  rewrite Z.lxor_spec, Z.land_spec, Z.shiftl_spec by lia.
  destruct (Z.ltb_spec n 8).
  - rewrite Z.ones_spec_low by lia. rewrite (Z.testbit_neg_r _ (n - 8)) by lia.
    by rewrite andb_true_r.
  - rewrite Z.ones_spec_high by lia. rewrite Z.shiftr_spec by lia.
    rewrite andb_false_r, xorb_false_r. f_equal. lia.
Qed.

Lemma land_FF_byte x : byte_ok (Z.land x 0xFF).
Proof. change 0xFF with (Z.ones 8). rewrite Z.land_ones by lia. apply Z.mod_pos_bound. lia. Qed.

Lemma shiftr_lxor_byte crc b : byte_ok b -> Z.shiftr (Z.lxor crc b) 8 = Z.shiftr crc 8.
Proof.
  intros Hb. rewrite Z.shiftr_lxor.
  assert (Z.shiftr b 8 = 0) as ->; [|by rewrite Z.lxor_0_r].
  rewrite Z.shiftr_div_pow2 by lia. apply Z.div_small. unfold byte_ok in Hb. lia.
Qed.

(** One table step is eight bit steps. *)
Lemma crc32_step_ref crc b : byte_ok b -> crc32_step crc b = lfsr8 (Z.lxor crc b).
Proof.
  intros Hb. unfold crc32_step. rewrite crc32_tab_nth by apply land_FF_byte.
  rewrite (split_byte (Z.lxor crc b)) at 2. unfold lfsr8 at 2.
  rewrite iter_lfsr_lxor. pose proof (iter_lfsr_high 8 (Z.shiftr (Z.lxor crc b) 8)) as H.
  change (Z.of_nat 8) with 8 in H. rewrite H, shiftr_lxor_byte by done. apply Z.lxor_comm.
Qed.

(** ** Results *)

(** C20: The table-driven `crc32` computes the bit-by-bit CRC-32 with the reflected
    polynomial 0xEDB88320, for every start value and every buffer. *)
Theorem crc32_matches_ref crc buf : bytes_ok buf -> crc32 crc buf = crc32_ref crc buf.
Proof.
  intros Hb. unfold crc32, crc32_ref. f_equal. revert Hb.
  generalize (Z.lxor crc 4294967295). induction buf as [|b buf IH]; intros r Hb; [done|].
  apply Forall_cons in Hb as [Hb Hbs]. simpl. rewrite crc32_step_ref by done. by apply IH.
Qed.

(** The value left by one call is the start of the next: hashing in blocks. *)
Lemma crc32_app crc a b : crc32 crc (a ++ b) = crc32 (crc32 crc a) b.
Proof.
  unfold crc32. rewrite fold_left_app. do 2 f_equal.
  by rewrite Z.lxor_assoc, Z.lxor_nilpotent, Z.lxor_0_r.
Qed.

Lemma crc32_nil crc : crc32 crc [] = crc.
Proof. unfold crc32. simpl. by rewrite Z.lxor_assoc, Z.lxor_nilpotent, Z.lxor_0_r. Qed.

(** Bitwise operations stay within 32 bits. *)
Lemma lxor_u32 a b : 0 <= a < 2 ^ 32 -> 0 <= b < 2 ^ 32 -> 0 <= Z.lxor a b < 2 ^ 32.
Proof.
  intros Ha Hb. split; [apply Z.lxor_nonneg; lia|].
  assert (Z.lxor a b = Z.lxor a b mod 2 ^ 32) as ->; [|apply Z.mod_pos_bound; lia].
  symmetry. rewrite <- Z.land_ones by lia. apply Z.bits_inj'. intros n Hn.
  rewrite Z.land_spec, Z.lxor_spec. destruct (Z.ltb_spec n 32).
  - rewrite Z.ones_spec_low by lia. apply andb_true_r.
  - rewrite Z.ones_spec_high, andb_false_r by lia.
    rewrite <- (Z.mod_small a (2 ^ 32)), <- (Z.mod_small b (2 ^ 32)) by done.
    by rewrite !Z.mod_pow2_bits_high by lia.
Qed.

Lemma crc32_step_u32 crc b : 0 <= crc < 2 ^ 32 -> 0 <= crc32_step crc b < 2 ^ 32.
Proof.
  intros Hc. unfold crc32_step. apply lxor_u32.
  - assert (forallb (fun x => (0 <=? x) && (x <? 2 ^ 32)) crc32_tab = true) as Ht by done.
    rewrite forallb_forall in Ht. pose proof (land_FF_byte (Z.lxor crc b)) as H.
    unfold byte_ok in H. specialize (Ht (nth (Z.to_nat (Z.land (Z.lxor crc b) 0xFF)) crc32_tab 0)).
    enough (0 <= nth (Z.to_nat (Z.land (Z.lxor crc b) 0xFF)) crc32_tab 0
            /\ nth (Z.to_nat (Z.land (Z.lxor crc b) 0xFF)) crc32_tab 0 < 2 ^ 32) by done.
    rewrite <- Z.leb_le, <- Z.ltb_lt. apply andb_prop, Ht, nth_In.
    change (length crc32_tab) with 256%nat. lia.
  - rewrite Z.shiftr_div_pow2 by lia. split; [apply Z.div_pos; lia|].
    apply Z.div_lt_upper_bound; lia.
Qed.

(** The checksum stays a 32 bit number. *)
Lemma crc32_u32 crc buf : 0 <= crc < 2 ^ 32 -> 0 <= crc32 crc buf < 2 ^ 32.
Proof.
  intros Hc. unfold crc32. apply lxor_u32; [|lia].
  assert (0 <= Z.lxor crc 0xFFFFFFFF < 2 ^ 32) as H by (apply lxor_u32; lia).
  revert H. generalize (Z.lxor crc 0xFFFFFFFF).
  induction buf as [|b buf IH]; intros r Hr; [done|]. simpl. by apply IH, crc32_step_u32.
Qed.
