(* ===== verification/Install.v ===== *)
(** * Install: flashing a firmware image (src/bl_install.c) *)

From S2P Require Import Prelude Packets IO Logic Stdio Crc32 Simple.

Definition FLASH_START : Z := 0x00000000.
Definition FLASH_SIZE : Z := 16 * 1000 * 1024.

(** Payload bytes of one FW_DOWNLOAD_DATA packet. *)
Definition max_payload : Z := 1024 - (Z.of_nat (sizeof FW_DOWNLOAD_DATA) - PREFIX_SIZE + 2).

Section install.
Context {D : Type} `{!Transport D}.

(** The refusal branch the bootloader commands share. *)
Definition refused (reply : list Z) (msg : string) : M D Z :=
  set_errno (get_field SYSTEM_REPLY "ret" reply) ;;
  fputs_err ("Operation failed." +:+ nl +:+ "last_reply=") ;;
  print_bytes reply (get_field SYSTEM_REPLY "packetLen" reply + 2) ;;
  set_errmsg msg ;; mret ERR_VM.

Definition accepted (reply : list Z) : bool :=
  let ty := get_field SYSTEM_REPLY "type" reply in
  negb (negb (ty =? VM_OK) && negb (ty =? VM_SYS_RQ)).

Definition bootloader_erase : M D Z :=
  p ← alloc FW_ERASEFLASH FW_ERASEFLASH_INIT 0;
  request ← deref p;
  res ← ev3_write_pkt request;
  if res <? 0 then
    set_errmsg "Unable to write FW_ERASEFLASH." ;; mret ERR_COMM
  else
  reply ← fresh (sizeof FW_ERASEFLASH_REPLY);
  '(res, reply) ← ev3_read_timeout reply (Z.of_nat (sizeof FW_ERASEFLASH_REPLY)) (-1);
  if res <=? 0 then
    set_errmsg "Unable to read FW_ERASEFLASH" ;; mret ERR_COMM
  else
  if negb (accepted reply) then refused reply "`FW_ERASEFLASH` was denied."
  else mret ERR_UNK.

Definition bootloader_start (offset length : Z) : M D Z :=
  p ← alloc FW_START_DOWNLOAD FW_START_DOWNLOAD_INIT 0;
  request ← deref p;
  let request := set_field FW_START_DOWNLOAD "flashStart" offset request in
  let request := set_field FW_START_DOWNLOAD "flashLength" length request in
  res ← ev3_write_pkt request;
  if res <? 0 then
    set_errmsg "Unable to write FW_START_DOWNLOAD." ;; mret ERR_COMM
  else
  reply ← fresh (sizeof FW_START_DOWNLOAD_REPLY);
  '(res, reply) ← ev3_read_timeout reply (Z.of_nat (sizeof FW_START_DOWNLOAD_REPLY)) (-1);
  if res <=? 0 then
    set_errmsg "Unable to read FW_START_DOWNLOAD" ;; mret ERR_COMM
  else
  if negb (accepted reply) then refused reply "`FW_START_DOWNLOAD` was denied."
  else mret ERR_UNK.

(** The payload of the next block: from the file, zero filled behind its end. *)
Definition fill_payload (this_block : Z) (file_ended : bool) (fp : FILE) (request : list Z)
    : list Z * bool * FILE :=
  let at_payload := sizeof FW_DOWNLOAD_DATA in
  if negb file_ended then
    let '(got, fp) := fread (Z.to_nat this_block) fp in
    let request := splice at_payload got request in
    let real := zlen got in
    if real <? this_block then
      (splice (at_payload + Z.to_nat real)%nat
         (replicate (Z.to_nat (this_block - real)) 0) request, true, fp)
    else (request, false, fp)
  else (splice at_payload (replicate (Z.to_nat this_block) 0) request, true, fp).

(** The progress report after a block; the product is an [int]. *)
Definition show_progress (sent_so_far total last_percent : Z) : M D Z :=
  if 2 ^ 31 <=? sent_so_far * 100 then undef "signed overflow" else
  let new_percent := Z.quot (sent_so_far * 100) total in
  if last_percent + 5 <=? new_percent then
    let last_percent := last_percent + Z.quot (new_percent - last_percent) 5 * 5 in
    put_out (str "Progress: " ++ fmt_3d last_percent ++ str (" %" +:+ nl)) ;;
    mret last_percent
  else mret last_percent.

Fixpoint send_loop (fuel : nat) (sent_so_far total last_percent crc : Z)
    (file_ended : bool) (fp : FILE) (request reply : list Z) : M D (Z * Z) :=
  if negb (sent_so_far <? total) then mret (ERR_UNK, crc) else
  match fuel with
  | O => blocked
  | S fuel =>
      let remaining := total - sent_so_far in
      let this_block := if remaining <=? max_payload then remaining else max_payload in
      let '(request, file_ended, fp) := fill_payload this_block file_ended fp request in
      let crc := crc32 crc (slice (sizeof FW_DOWNLOAD_DATA) (Z.to_nat this_block) request) in
      let request := set_field FW_DOWNLOAD_DATA "packetLen"
                       (Z.of_nat (sizeof FW_DOWNLOAD_DATA) - PREFIX_SIZE + this_block) request in
      res ← ev3_write_pkt request;
      if res <? 0 then
        set_errmsg "Unable to write FW_DOWNLOAD_DATA." ;; mret (ERR_COMM, 0)
      else
      '(res, reply) ← ev3_read_timeout reply (Z.of_nat (sizeof FW_DOWNLOAD_DATA_REPLY)) (-1);
      if res <=? 0 then
        set_errmsg "Unable to read FW_DOWNLOAD_DATA" ;; mret (ERR_COMM, 0)
      else
      if negb (accepted reply) then
        code ← refused reply "`FW_DOWNLOAD_DATA` was denied."; mret (code, 0)
      else
      let sent_so_far := sent_so_far + this_block in
      last_percent ← show_progress sent_so_far total last_percent;
      send_loop fuel sent_so_far total last_percent crc file_ended fp request reply
  end.

(** The result is the code and [*pCrc32]. One iteration per block suffices. *)
Definition bootloader_send (fp : FILE) (length : Z) : M D (Z * Z) :=
  p ← alloc FW_DOWNLOAD_DATA FW_DOWNLOAD_DATA_INIT (Z.to_nat max_payload);
  reply ← fresh (sizeof FW_DOWNLOAD_DATA_REPLY);
  put_out (str "Progress: " ++ fmt_3d 0 ++ str (" %" +:+ nl)) ;;
  request ← deref p;
  send_loop (Z.to_nat ((length + max_payload - 1) / max_payload))
    0 length 0 0 false fp request reply.

Definition bootloader_checksum (offset length : Z) : M D (Z * Z) :=
  p ← alloc FW_GETCRC32 FW_GETCRC32_INIT 0;
  request ← deref p;
  let request := set_field FW_GETCRC32 "flashStart" offset request in
  let request := set_field FW_GETCRC32 "flashLength" length request in
  res ← ev3_write_pkt request;
  if res <? 0 then
    set_errmsg "Unable to write FW_GETCRC32." ;; mret (ERR_COMM, 0)
  else
  reply ← fresh (sizeof FW_GETCRC32_REPLY);
  '(res, reply) ← ev3_read_timeout reply (Z.of_nat (sizeof FW_GETCRC32_REPLY)) (-1);
  if res <=? 0 then
    set_errmsg "Unable to read FW_GETCRC32" ;; mret (ERR_COMM, 0)
  else
  if get_field FW_GETCRC32_REPLY "type" reply =? VM_SYS_RQ then mret (ERR_USBLOOP, 0)
  else if negb (get_field FW_GETCRC32_REPLY "type" reply =? VM_OK) then
    code ← refused reply "`FW_GETCRC32` was denied."; mret (code, 0)
  else mret (ERR_UNK, get_field FW_GETCRC32_REPLY "crc32" reply).

Definition fmt_08X (n : Z) : list Z :=
  pad 48 8 (map (fun c => if 97 <=? c then c - 32 else c) (digits 16 n)).

(** The end of the update: what the two checksums decide. *)
Definition install_verdict (err local_crc32 remote_crc32 : Z) : M D Z :=
  if err =? ERR_USBLOOP then
    puts "Checksum not checked, assuming update was OK. Rebooting." ;; bootloader_exit
  else if err =? ERR_UNK then
    if negb (local_crc32 =? remote_crc32) then
      put_err (str "error: checksums do not match: remote " ++ fmt_08X remote_crc32
               ++ str " != local " ++ fmt_08X local_crc32 ++ [10]) ;;
      mret ERR_IO
    else
      puts "Success! Local and remote checksums match. Rebooting." ;; bootloader_exit
  else mret err.

Definition bootloader_install (fp : FILE) : M D Z :=
  puts "Erasing flash... (takes 1 minute 48 seconds)" ;;
  err ← bootloader_erase;
  if negb (err =? ERR_UNK) then mret err else
  puts "Downloading..." ;;
  err ← bootloader_start FLASH_START FLASH_SIZE;
  if negb (err =? ERR_UNK) then mret err else
  '(err, local_crc32) ← bootloader_send fp FLASH_SIZE;
  if negb (err =? ERR_UNK) then mret err else
  puts "Calculating flash checksum... (takes 17 seconds)" ;;
  '(err, remote_crc32) ← bootloader_checksum FLASH_START FLASH_SIZE;
  install_verdict err local_crc32 remote_crc32.

End install.

(** ** The image that is flashed *)

(** [n] bytes: the file, cut at [n] or filled up with zeros. *)
Definition image (n : nat) (data : list Z) : list Z :=
  take n data ++ replicate (n - length data) 0.

Lemma length_image n data : length (image n data) = n.
Proof. unfold image. rewrite length_app, length_take, length_replicate. lia. Qed.

Lemma lookup_image n data i :
  (i < n)%nat -> image n data !! i = Some (default 0 (data !! i)).
Proof.
  intros Hi. unfold image. destruct (decide (i < length data)%nat) as [H|H].
  - rewrite lookup_app_l by (rewrite length_take; lia). rewrite lookup_take_lt by lia.
    by destruct (lookup_lt_is_Some_2 data i H) as [x ->].
  - rewrite lookup_app_r by (rewrite length_take; lia).
    rewrite lookup_replicate_2 by (rewrite length_take; lia).
    by rewrite lookup_ge_None_2 by lia.
Qed.

(** A block of the image is what is left in the file, filled with zeros. *)
Lemma slice_image n data s b :
  (s + b <= n)%nat ->
  slice s b (image n data) =
    slice s b data ++ replicate (b - length (slice s b data)) 0.
Proof.
  intros Hn. apply list_eq. intros i. destruct (decide (i < b)%nat) as [Hi|Hi].
  2: { unfold slice. rewrite lookup_take_ge by lia. rewrite lookup_ge_None_2; [done|].
       rewrite length_app, length_replicate, length_take. lia. }
  unfold slice at 1. rewrite lookup_take_lt, lookup_drop, lookup_image by lia.
  destruct (decide (i < length (slice s b data))%nat) as [Hl|Hl].
  - rewrite lookup_app_l by done. unfold slice in Hl |- *.
    rewrite lookup_take_lt, lookup_drop by lia.
    rewrite length_take, length_drop in Hl.
    by destruct (lookup_lt_is_Some_2 data (s + i) ltac:(lia)) as [x ->].
  - rewrite lookup_app_r by lia. rewrite lookup_replicate_2 by lia.
    rewrite lookup_ge_None_2; [done|]. unfold slice in Hl.
    rewrite length_take, length_drop in Hl. lia.
Qed.

Definition data_header (n : Z) : list Z :=
  set_field SYSTEM_CMD "packetLen" (4 + n) FW_DOWNLOAD_DATA_INIT.
Definition data_packet (block : list Z) : list Z := data_header (zlen block) ++ block.

Lemma framed_data_packet block : zlen block <= 1018 -> framed (data_packet block).
Proof.
  intros H. pose proof (zlen_nonneg block). apply framed_header; [by apply Nat.leb_le|lia|].
  change (zlen FW_DOWNLOAD_DATA_INIT) with 7. unfold PREFIX_SIZE. lia.
Qed.

(** Where the file is after [s] bytes of the image. *)
Definition file_at (data : list Z) (s : nat) (file_ended : bool) (fp : FILE) : Prop :=
  if file_ended then (length data <= s)%nat else f_data fp = data /\ f_pos fp = s.

Lemma splice_behind {A} (hd mid new tl : list A) n :
  n = (length hd + length mid)%nat -> (length new <= length tl)%nat ->
  splice n new (hd ++ mid ++ tl) = hd ++ mid ++ new ++ drop (length new) tl.
Proof.
  intros -> Hl. unfold splice. rewrite (app_assoc hd mid tl).
  rewrite take_app_length' by (by rewrite length_app).
  rewrite drop_app_ge by (rewrite length_app; lia). rewrite length_app, <- app_assoc.
  do 4 f_equal. lia.
Qed.

(** The payload area receives the next block of the image. *)
Lemma fill_payload_image n data s b file_ended fp hd body :
  length hd = 7%nat -> (b <= length body)%nat -> (s + b <= n)%nat ->
  file_at data s file_ended fp ->
  exists ended' fp',
    fill_payload (Z.of_nat b) file_ended fp (hd ++ body) =
      (hd ++ slice s b (image n data) ++ drop b body, ended', fp')
    /\ file_at data (s + b) ended' fp'.
Proof.
  intros Hhd Hb Hn Hat. unfold fill_payload.
  change (sizeof FW_DOWNLOAD_DATA) with 7%nat. rewrite slice_image by done.
  destruct file_ended; cbn [negb].
  - simpl in Hat. exists true, fp. rewrite Nat2Z.id. split; [|simpl; lia].
    assert (slice s b data = []) as -> by (unfold slice; by rewrite drop_ge, take_nil by lia).
    rewrite (splice_behind hd [] _ body) by (simpl; rewrite ?length_replicate; lia).
    rewrite length_replicate. simpl. by rewrite Nat.sub_0_r.
  - destruct Hat as [Hd Hp]. unfold fread. rewrite Hd, Hp, Nat2Z.id.
    set (got := slice s b data).
    assert (length got <= b)%nat as Hgot by (unfold got, slice; rewrite length_take; lia).
    rewrite (splice_behind hd [] got body) by (simpl; lia). cbn [app].
    destruct (zlen got <? Z.of_nat b) eqn:E; unfold zlen in *.
    + eexists true, _. rewrite <- Nat2Z.inj_sub, !Nat2Z.id by lia. split.
      * rewrite (splice_behind hd got _ (drop (length got) body))
          by (rewrite ?length_replicate, ?length_drop, ?Hhd; lia).
        rewrite length_replicate, drop_drop, !app_assoc.
        by replace (length got + (b - length got))%nat with b by lia.
      * simpl. unfold got, slice in E. rewrite length_take, length_drop in E.
        apply Z.ltb_lt in E. lia.
    + assert (length got = b) as Hb' by (apply Z.ltb_ge in E; lia).
      exists false. eexists. split.
      * by rewrite Hb', Nat.sub_diag, app_nil_r.
      * unfold file_at. cbn [f_data f_pos]. split; [done|]. lia.
Qed.

Section spec.
Context {D : Type} `{!Transport D}.

Lemma wp_refused U B reply msg (Q : Z -> World D -> Prop) (w : World D) :
  (if zlen reply <? get_field SYSTEM_REPLY "packetLen" reply + 2 then U
   else forall w', w_trace w' = w_trace w -> w_dev w' = w_dev w ->
     w_errno w' = get_field SYSTEM_REPLY "ret" reply -> w_errmsg w' = Some msg ->
     Q ERR_VM w') ->
  wp_ U B (refused reply msg) Q w.
Proof.
  intros H. unfold refused. wsteps. apply wp_print_bytes.
  - intros Hlt. by rewrite (proj2 (Z.ltb_lt _ _)) in H.
  - intros Hge text. rewrite (proj2 (Z.ltb_ge _ _)) in H by done. wsteps. by apply H.
Qed.

Lemma wp_show_progress U B sent total last (Q : Z -> World D -> Prop) (w : World D) :
  sent * 100 < 2 ^ 31 ->
  (forall last' w', w_trace w' = w_trace w -> w_dev w' = w_dev w -> Q last' w') ->
  wp_ U B (show_progress sent total last) Q w.
Proof.
  intros Hs H. unfold show_progress. rewrite (proj2 (Z.leb_gt _ _)) by done.
  cbv zeta. destruct (_ <=? _); wsteps; by apply H.
Qed.

(** The state in which an iteration starts: [s] bytes of the image of [n] sent. *)
Record send_state (n s : nat) (data : list Z) (ended : bool) (fp : FILE)
    (request reply : list Z) : Prop := {
  ss_file : file_at data s ended fp;
  ss_request : exists hd body, request = hd ++ body /\ length hd = 7%nat
    /\ length body = 1018%nat
    /\ forall v, set_field FW_DOWNLOAD_DATA "packetLen" (4 + v) hd = data_header v;
  ss_reply : length reply = 7%nat;
}.

Definition next_block (n s : nat) (data : list Z) : list Z :=
  take 1018 (drop s (image n data)).

Lemma next_block_slice n s data b :
  (b = Nat.min 1018 (n - s)) -> next_block n s data = slice s b (image n data).
Proof.
  intros ->. unfold next_block, slice.
  destruct (decide (1018 <= n - s)%nat) as [H|H]; [by rewrite Nat.min_l by lia|].
  rewrite Nat.min_r by lia. rewrite !take_ge; [done|..]; rewrite length_drop, length_image; lia.
Qed.

Lemma length_next_block n s data : length (next_block n s data) = Nat.min 1018 (n - s).
Proof. unfold next_block. rewrite length_take, length_drop, length_image. done. Qed.

(** The packet buffer after the payload and the length are stored. *)
Lemma send_request n s data ended fp request reply :
  (s < n)%nat -> send_state n s data ended fp request reply ->
  let block := next_block n s data in
  let b := zlen block in
  exists ended' fp' rest hd,
    length hd = 7%nat /\
    (forall v, set_field FW_DOWNLOAD_DATA "packetLen" (4 + v) hd = data_header v) /\
    fill_payload b ended fp request = (hd ++ block ++ rest, ended', fp')
    /\ file_at data (s + length block) ended' fp' /\ (length block + length rest = 1018)%nat.
Proof.
  intros Hs [Hf (hd & body & -> & Hhd & Hbody & Hv) _] block b.
  pose proof (length_next_block n s data) as Hlen. fold block in Hlen.
  destruct (fill_payload_image n data s (length block) ended fp hd body)
    as (ended' & fp' & Hfill & Hat); [done|lia|lia|done|].
  exists ended', fp', (drop (length block) body), hd.
  rewrite <- (next_block_slice n s data _ Hlen) in Hfill. fold block in Hfill.
  split; [done|]. split; [done|]. split; [exact Hfill|]. split; [done|].
  rewrite length_drop. lia.
Qed.

Context `{!TransportOk D}.

(** One iteration of the transfer. *)
Lemma send_loop_step U B fuel n s data last crc ended fp request reply
    (Q : Z * Z -> World D -> Prop) (w : World D) :
  (s < n)%nat -> Z.of_nat n * 100 < 2 ^ 31 ->
  send_state n s data ended fp request reply ->
  let block := next_block n s data in
  let pkt := data_packet block in
  (forall r1 d1, tr_write pkt (w_dev w) = (r1, d1) ->
    if r1 <? 0 then forall w', after w [Wrote pkt r1] d1 w' -> Q (ERR_COMM, 0) w'
    else forall r2 rep d2, tr_read 7 (-1) d1 = (r2, rep, d2) ->
      forall w', after w [Wrote pkt r1; GotReply 7 (-1) r2 rep] d2 w' ->
      if r2 <=? 0 then Q (ERR_COMM, 0) w' else
      forall reply', length reply' = 7%nat -> (zlen rep = 7 -> reply' = rep) ->
      if accepted reply' then
        forall last' ended' fp' request',
          send_state n (s + length block) data ended' fp' request' reply' ->
          wp_ U B (send_loop fuel (Z.of_nat (s + length block)) (Z.of_nat n) last'
                     (crc32 crc block) ended' fp' request' reply') Q w'
      else if 7 <? get_field SYSTEM_REPLY "packetLen" reply' + 2 then U
      else Q (ERR_VM, 0) w') ->
  wp_ U B (send_loop (S fuel) (Z.of_nat s) (Z.of_nat n) last crc ended fp request reply) Q w.
Proof.
  intros Hs Hmax Hst block pkt H.
  pose proof (length_next_block n s data) as Hlen. fold block in Hlen.
  destruct (send_request _ _ _ _ _ _ _ Hs Hst) as
    (ended' & fp' & rest & hd & Hhd & Hv & Hfill & Hat & Hrest). fold block in Hfill, Hat, Hrest.
  cbn [send_loop]. rewrite (proj2 (Z.ltb_lt _ _)) by lia. cbn [negb].
  change max_payload with 1018.
  assert ((if Z.of_nat n - Z.of_nat s <=? 1018 then Z.of_nat n - Z.of_nat s else 1018)
          = zlen block) as -> by (unfold zlen; destruct (_ <=? _) eqn:?; lia).
  rewrite Hfill. change (sizeof FW_DOWNLOAD_DATA) with 7%nat.
  assert (slice 7 (Z.to_nat (zlen block)) (hd ++ block ++ rest) = block) as ->.
  { unfold slice, zlen. rewrite Nat2Z.id, drop_app_length' by done. apply take_app_length. }
  change (sizeof FW_DOWNLOAD_DATA) with 7%nat in *.
  change (Z.of_nat 7 - PREFIX_SIZE) with 4.
  rewrite set_field_app by (change (sizeof FW_DOWNLOAD_DATA) with 7%nat; lia). rewrite Hv.
  rewrite app_assoc. fold (data_packet block). fold pkt. wsteps.
  apply write_prefix.
  { apply framed_data_packet. unfold zlen. lia. }
  { unfold pkt, data_packet. rewrite length_app. change (length (data_header _)) with 7%nat.
    change (sizeof SYSTEM_CMD) with 7%nat. lia. }
  intros r1 d1 Hw. specialize (H r1 d1 Hw).
  destruct (r1 <? 0); [wsteps; by apply H|]. wsteps.
  change (Z.of_nat (sizeof FW_DOWNLOAD_DATA_REPLY)) with 7.
  apply wp_read_ok; [unfold zlen; rewrite (ss_reply _ _ _ _ _ _ _ Hst); lia|]. wsimpl.
  intros r2 rep d2 Hr Hfit _ _. specialize (H r2 rep d2 Hr). cbn beta iota.
  rewrite <- app_assoc. cbn [app].
  destruct (r2 <=? 0); [wsteps; by apply H|].
  set (reply' := splice 0 rep reply).
  assert (length reply' = 7%nat) as Hl7.
  { unfold reply'. rewrite length_splice; rewrite (ss_reply _ _ _ _ _ _ _ Hst); [done|].
    unfold zlen in Hfit. lia. }
  assert (zlen rep = 7 -> reply' = rep) as Hfull.
  { intros Hz. apply splice_all. rewrite (ss_reply _ _ _ _ _ _ _ Hst). unfold zlen in Hz. lia. }
  destruct (accepted reply') eqn:Eacc; cbn [negb].
  - apply wp_bind, wp_show_progress; [unfold zlen; lia|]. intros last' w' Htr Hd.
    replace (Z.of_nat s + zlen block) with (Z.of_nat (s + length block)) by (unfold zlen; lia).
    specialize (H w' (conj Htr Hd) reply' Hl7 Hfull). rewrite Eacc in H. apply H.
    split; [done| |done]. exists (data_header (zlen block)), (block ++ rest).
    split; [symmetry; apply app_assoc|]. split; [done|].
    split; [rewrite length_app; lia|done].
  - apply wp_bind, wp_refused. assert (zlen reply' = 7) as -> by (unfold zlen; lia).
    destruct (7 <? _) eqn:E7.
    + specialize (H (MkWorld d2 (w_trace w ++ [Wrote pkt r1; GotReply 7 (-1) r2 rep])
        [] [] None 0 (w_junk w) 0%nat) (conj eq_refl eq_refl) reply' Hl7 Hfull).
      by rewrite Eacc, E7 in H.
    + intros w' Htr Hd _ _. wsteps.
      specialize (H w' (conj Htr Hd) reply' Hl7 Hfull). by rewrite Eacc, E7 in H.
Qed.

(** ** The single exchanges *)

Definition erase_request : list Z := set_field SYSTEM_CMD "packetLen" 4 FW_ERASEFLASH_INIT.
Definition start_request (offset len : Z) : list Z :=
  set_field FW_START_DOWNLOAD "flashLength" len
    (set_field FW_START_DOWNLOAD "flashStart" offset
      (set_field SYSTEM_CMD "packetLen" 12 FW_START_DOWNLOAD_INIT)).
Definition checksum_request (offset len : Z) : list Z :=
  set_field FW_GETCRC32 "flashLength" len
    (set_field FW_GETCRC32 "flashStart" offset
      (set_field SYSTEM_CMD "packetLen" 12 FW_GETCRC32_INIT)).
Definition startapp_request : list Z := set_field SYSTEM_CMD "packetLen" 4 FW_STARTAPP_INIT.

(** What follows from a reply that must be acknowledged. *)
Definition wp_ack (U : Prop) (buf : list Z) (ok refusal : World D -> Prop) (w : World D) : Prop :=
  if accepted buf then ok w
  else if zlen buf <? get_field SYSTEM_REPLY "packetLen" buf + 2 then U
  else forall w', w_trace w' = w_trace w -> w_dev w' = w_dev w -> refusal w'.

(** Instantiate what is known of the reply with the current world. *)
Ltac wreply H :=
  match goal with
  | Hlen : zlen ?buf = _, Hfull : _ -> ?buf = _ |- wp_ _ _ _ _ ?x =>
      specialize (H x (conj eq_refl eq_refl) buf Hlen Hfull)
  end.

(** The end of an exchange whose reply must be acknowledged. *)
Ltac wack H :=
  wreply H; unfold wp_ack in H;
  match goal with buf : list Z |- _ => destruct (accepted buf); cbn [negb]; [by wsteps|] end;
  apply wp_refused; destruct (_ <? _); [done|]; intros w' ? ? _ _; by apply H.

Lemma wp_erase U B (Q : Z -> World D -> Prop) (w : World D) :
  wp_request erase_request 7 (-1) w (Q ERR_COMM)
    (fun buf => wp_ack U buf (Q ERR_UNK) (Q ERR_VM)) ->
  wp_ U B bootloader_erase Q w.
Proof.
  intros H. unfold bootloader_erase. walloc0. wsteps.
  change (set_field SYSTEM_CMD "packetLen" _ _) with erase_request.
  wrequest H. wack H.
Qed.

Lemma framed_start_request offset len : framed (start_request offset len).
Proof. reflexivity. Qed.

Lemma wp_start U B offset len (Q : Z -> World D -> Prop) (w : World D) :
  wp_request (start_request offset len) 7 (-1) w (Q ERR_COMM)
    (fun buf => wp_ack U buf (Q ERR_UNK) (Q ERR_VM)) ->
  wp_ U B (bootloader_start offset len) Q w.
Proof.
  intros H. unfold bootloader_start. walloc0. wsteps.
  change (Z.of_nat (sizeof FW_START_DOWNLOAD) + Z.of_nat 0 - 3) with 12.
  fold (start_request offset len).
  wrequest H. wack H.
Qed.
Lemma framed_checksum_request offset len : framed (checksum_request offset len).
Proof. reflexivity. Qed.

(** A checksum request: the loopback reply, a refusal, or the brick's value. *)
Lemma wp_checksum U B offset len (Q : Z * Z -> World D -> Prop) (w : World D) :
  wp_request (checksum_request offset len) 11 (-1) w (Q (ERR_COMM, 0))
    (fun buf w' =>
      if get_field SYSTEM_REPLY "type" buf =? VM_SYS_RQ then Q (ERR_USBLOOP, 0) w' else
      wp_ack U buf (Q (ERR_UNK, get_field FW_GETCRC32_REPLY "crc32" buf)) (Q (ERR_VM, 0)) w') ->
  wp_ U B (bootloader_checksum offset len) Q w.
Proof.
  intros H. unfold bootloader_checksum. walloc0. wsteps.
  change (Z.of_nat (sizeof FW_GETCRC32) + Z.of_nat 0 - 3) with 12.
  fold (checksum_request offset len). wrequest H. wreply H.
  change (get_field FW_GETCRC32_REPLY "type" buf) with (get_field SYSTEM_REPLY "type" buf).
  unfold wp_ack, accepted in H. destruct (_ =? VM_SYS_RQ); [by wsteps|].
  rewrite andb_true_r in H. destruct (_ =? VM_OK); cbn [negb] in H |- *; [by wsteps|].
  apply wp_bind, wp_refused. destruct (_ <? _); [done|]. intros w' ? ? _ _. wsteps. by apply H.
Qed.

Lemma wp_exit U B (Q : Z -> World D -> Prop) (w : World D) :
  wp_request startapp_request 7 TIMEOUT w (Q ERR_COMM)
    (fun buf w' =>
      if accepted buf then forall w2, w_trace w2 = w_trace w' -> w_dev w2 = w_dev w' ->
        Q ERR_UNK w2
      else if 7 <? get_field SYSTEM_REPLY "packetLen" buf then U
      else forall w2, w_trace w2 = w_trace w' -> w_dev w2 = w_dev w' -> Q ERR_VM w2) ->
  wp_ U B bootloader_exit Q w.
Proof.
  intros H. unfold bootloader_exit. walloc0. wsteps.
  change (set_field SYSTEM_CMD "packetLen" _ _) with startapp_request.
  wrequest H. wreply H. unfold accepted in H.
  change (get_field FW_STARTAPP_REPLY) with (get_field SYSTEM_REPLY).
  destruct (_ && _); cbn [negb] in H; [|wsteps; by apply H]. wsteps.
  apply wp_print_bytes.
  - change (Z.of_nat (sizeof FW_STARTAPP_REPLY)) with 7 in Hlen. intros Hlt. rewrite Hlen in Hlt.
    by rewrite (proj2 (Z.ltb_lt _ _)) in H.
  - change (Z.of_nat (sizeof FW_STARTAPP_REPLY)) with 7 in Hlen. intros Hge text. rewrite Hlen in Hge.
    rewrite (proj2 (Z.ltb_ge _ _)) in H by done. wsteps. by apply H.
Qed.

(** ** The transfer *)

(** Data packets for [m] bytes. *)
Definition num_blocks (m : nat) : nat := Z.to_nat ((Z.of_nat m + 1017) / 1018).

Lemma num_blocks_enough m : (m <= num_blocks m * 1018)%nat.
Proof. unfold num_blocks. Z.div_mod_to_equations. lia. Qed.

Lemma num_blocks_S s n : (s < n)%nat ->
  num_blocks (n - s) = S (num_blocks (n - (s + Nat.min 1018 (n - s)))).
Proof.
  intros. unfold num_blocks. destruct (decide (n - s <= 1018)%nat).
  - rewrite Nat.min_r by lia. replace (n - (s + (n - s)))%nat with 0%nat by lia.
    change (Z.of_nat 0) with 0. Z.div_mod_to_equations. lia.
  - rewrite Nat.min_l by lia. Z.div_mod_to_equations. lia.
Qed.

(** Splitting the rest of the image after the next block. *)
Lemma next_block_rest n s data :
  next_block n s data ++ drop (s + length (next_block n s data)) (image n data)
  = drop s (image n data).
Proof.
  rewrite <- drop_drop. unfold next_block. rewrite length_take.
  generalize (drop s (image n data)). intros l. destruct (decide (1018 <= length l)%nat).
  - rewrite Nat.min_l by done. apply take_drop.
  - rewrite Nat.min_r, take_ge, drop_ge, app_nil_r by lia. done.
Qed.

Lemma take_next_block n s data :
  take (s + length (next_block n s data)) (image n data) =
  take s (image n data) ++ next_block n s data.
Proof.
  rewrite <- (take_take_drop _ s). f_equal. unfold next_block. rewrite length_take.
  generalize (drop s (image n data)). intros l. destruct (decide (1018 <= length l)%nat).
  - by rewrite Nat.min_l by done.
  - by rewrite Nat.min_r, !take_ge by lia.
Qed.

Lemma chunks_next_block k n s data :
  chunks_of (S k) 1018 (drop s (image n data)) =
  next_block n s data ::
    chunks_of k 1018 (drop (s + length (next_block n s data)) (image n data)).
Proof.
  cbn [chunks_of]. f_equal. f_equal. rewrite <- drop_drop. unfold next_block.
  rewrite length_take. generalize (drop s (image n data)). intros l.
  destruct (decide (1018 <= length l)%nat).
  - by rewrite Nat.min_l by done.
  - rewrite Nat.min_r by lia. by rewrite !drop_ge by lia.
Qed.

Lemma send_loop_sends fuel n s data last crc ended fp request reply (w : World D) :
  (n - s <= fuel * 1018)%nat -> (s <= n)%nat -> Z.of_nat n * 100 < 2 ^ 31 ->
  send_state n s data ended fp request reply ->
  wp_ True False
    (send_loop fuel (Z.of_nat s) (Z.of_nat n) last crc ended fp request reply) (fun r w' =>
    exists evs k, w_trace w' = w_trace w ++ evs
      /\ packets evs = map data_packet (chunks_of k 1018 (drop s (image n data)))
      /\ (k <= num_blocks (n - s))%nat
      /\ (r.1 = ERR_UNK -> k = num_blocks (n - s)
          /\ r.2 = crc32 crc (drop s (image n data)))) w.
Proof.
  revert s last crc ended fp request reply w.
  induction fuel as [|fuel IH]; intros s last crc ended fp request reply w Hfuel Hs Hmax Hst;
    (destruct (decide (s = n)) as [->|Hne]; [|try lia]).
  1,2: cbn [send_loop]; rewrite Z.ltb_irrefl; cbn [negb]; wsteps;
    exists [], 0%nat; rewrite app_nil_r, Nat.sub_diag, drop_ge, crc32_nil
      by (rewrite length_image; lia); by repeat split; try lia.
  pose proof (length_next_block n s data) as Hlen.
  rewrite (num_blocks_S s n) by lia. rewrite <- Hlen.
  apply (send_loop_step _ _ _ _ _ data); [lia|done|done|].
  set (pkt := data_packet _).
  assert (forall evs, packets evs = [pkt] ->
    packets evs = map data_packet (chunks_of 1 1018 (drop s (image n data)))) as Hone
    by (intros evs ->; by rewrite chunks_next_block).
  intros r1 d1 _. destruct (r1 <? 0).
  { intros w' [Htr _]. eexists _, 1%nat. split; [exact Htr|]. by split; [apply Hone|split; [lia|]]. }
  intros r2 rep d2 _ w' [Htr _]. destruct (r2 <=? 0).
  { eexists _, 1%nat. split; [exact Htr|]. by split; [apply Hone|split; [lia|]]. }
  intros reply' Hr7 _. destruct (accepted reply').
  - intros last' ended' fp' request' Hst'.
    eapply wp_mono; [apply IH; [lia|lia|done|exact Hst']|].
    intros r w2 (evs & k & Htr' & Hpk & Hk & Hdone). rewrite Htr', Htr, <- app_assoc.
    eexists _, (S k). split; [done|]. rewrite chunks_next_block, packets_app, Hpk.
    split; [done|]. split; [lia|]. intros Hr. destruct (Hdone Hr) as [-> ->]. split; [done|].
    by rewrite <- crc32_app, next_block_rest.
  - destruct (_ <? _); [done|]. eexists _, 1%nat. split; [exact Htr|].
    by split; [apply Hone|split; [lia|]].
Qed.
Lemma wp_bootloader_send U B n data fp (Q : Z * Z -> World D -> Prop) (w : World D) :
  f_data fp = data -> f_pos fp = 0%nat ->
  (forall w1 request reply, w_trace w1 = w_trace w -> w_dev w1 = w_dev w ->
    send_state n 0 data false fp request reply ->
    wp_ U B (send_loop (num_blocks n) (Z.of_nat 0) (Z.of_nat n) 0 0 false fp request reply) Q w1) ->
  wp_ U B (bootloader_send fp (Z.of_nat n)) Q w.
Proof.
  intros Hd Hp H. unfold bootloader_send. change (Z.to_nat max_payload) with 1018%nat.
  walloc. wsteps. change max_payload with 1018.
  replace (Z.to_nat ((Z.of_nat n + 1018 - 1) / 1018)) with (num_blocks n)
    by (unfold num_blocks; do 2 f_equal; lia).
  apply H; [done|done|]. split; [done| |by rewrite Hblock].
  exists (set_field SYSTEM_CMD "packetLen" 1022 FW_DOWNLOAD_DATA_INIT), junk.
  split; [done|]. split; [done|]. split; [done|].
  intros v. unfold data_header. by apply set_set_same.
Qed.

(** ** The whole update *)

Definition flash_bytes : nat := Z.to_nat FLASH_SIZE.

Lemma flash_bytes_eq : Z.of_nat flash_bytes = FLASH_SIZE.
Proof. unfold flash_bytes. rewrite Z2Nat.id; [done|]. unfold FLASH_SIZE. lia. Qed.
Opaque flash_bytes.

(** What has to be on the wire before the brick may be rebooted. *)
Definition before_reboot (data : list Z) : list (list Z) :=
  [erase_request; start_request FLASH_START FLASH_SIZE]
  ++ map data_packet (chunks_of (num_blocks flash_bytes) 1018 (image flash_bytes data))
  ++ [checksum_request FLASH_START FLASH_SIZE].

(** The reply that lets the update succeed: the brick's checksum of the image, or
    the request looped back. *)
Definition checksum_passes (data rep : list Z) : Prop :=
  get_field SYSTEM_REPLY "type" rep = VM_SYS_RQ \/
  get_field SYSTEM_REPLY "type" rep = VM_OK
  /\ get_field FW_GETCRC32_REPLY "crc32" rep = crc32 0 (image flash_bytes data).

Lemma startapp_not_before data : startapp_request ∉ before_reboot data.
Proof.
  assert (Forall (fun p => nth 6 p 0 <> 0xF4) (before_reboot data)) as H.
  { unfold before_reboot. apply Forall_app. split; [repeat constructor; discriminate|].
    apply Forall_app. split; [|repeat constructor; discriminate].
    apply Forall_map, Forall_true. intros block. discriminate. }
  intros Hin. rewrite Forall_forall in H. by apply (H _ Hin).
Qed.

(** Packets of a run that stopped before the reboot. *)
Lemma stopped_before data evs :
  packets evs `prefix_of` before_reboot data -> startapp_request ∉ packets evs.
Proof.
  intros [k Hk] Hin. apply (startapp_not_before data). rewrite Hk. apply elem_of_app. by left.
Qed.

(** What may be on the wire when an update ends with [code]. *)
Definition update_guarded (data : list Z) (w : World D) (code : Z) (w' : World D) : Prop :=
  exists evs, w_trace w' = w_trace w ++ evs
  /\ packets evs `prefix_of` before_reboot data ++ [startapp_request]
  /\ (code = ERR_UNK -> startapp_request ∈ packets evs)
  /\ (startapp_request ∈ packets evs ->
      exists evs1 r rep evs2, evs = evs1 ++ GotReply 11 (-1) r rep :: evs2
        /\ packets evs1 = before_reboot data
        /\ (zlen rep = 11 -> checksum_passes data rep)).

Lemma guarded_stopped data (w : World D) code w' evs :
  w_trace w' = w_trace w ++ evs -> packets evs `prefix_of` before_reboot data ->
  code <> ERR_UNK -> update_guarded data w code w'.
Proof.
  intros Htr Hpre Hcode. exists evs. split; [done|]. split; [by apply prefix_app_r|].
  split; [done|]. intros Hin. exfalso. by apply (stopped_before data) in Hin.
Qed.

(** An acknowledged request, on any transport. *)
Lemma wp_ack_stage (m : M D Z) pkt (Q : Z -> World D -> Prop) (w : World D) :
  (forall (Q' : Z -> World D -> Prop),
    wp_request pkt 7 (-1) w (Q' ERR_COMM)
      (fun buf => wp_ack True buf (Q' ERR_UNK) (Q' ERR_VM)) -> wp_ True False m Q' w) ->
  (forall code w' evs, w_trace w' = w_trace w ++ evs -> packets evs = [pkt] -> Q code w') ->
  wp_ True False m Q w.
Proof.
  intros Hm H. apply Hm, wp_request_sends; [intros; by eapply H|].
  intros w' r1 r2 rep buf Htr _. unfold wp_ack. destruct (accepted buf); [by eapply H|].
  destruct (_ <? _); [done|]. intros w2 Htr2 _. eapply H; [by rewrite Htr2, Htr|done].
Qed.

Lemma guarded_exit data (w w1 : World D) evs r rep :
  w_trace w1 = w_trace w ++ evs ++ [GotReply 11 (-1) r rep] ->
  packets evs = before_reboot data ->
  (zlen rep = 11 -> checksum_passes data rep) ->
  wp_ True False bootloader_exit (update_guarded data w) w1.
Proof.
  intros Htr Hpk Hpass.
  assert (forall code w' evs2, w_trace w' = w_trace w1 ++ evs2 ->
    packets evs2 = [startapp_request] -> update_guarded data w code w') as H.
  { intros code w' evs2 Htr' Hpk2. exists (evs ++ GotReply 11 (-1) r rep :: evs2).
    rewrite Htr', Htr, <- !app_assoc. split; [done|].
    rewrite packets_app. change (packets (GotReply 11 (-1) r rep :: evs2)) with (packets evs2).
    rewrite Hpk, Hpk2. split; [done|]. split; [intros _; apply elem_of_app; right; by left|].
    intros _. exists evs, r, rep, evs2. split; [reflexivity|]. by split; [exact Hpk|]. }
  apply wp_exit, wp_request_sends; [intros; by eapply H|].
  intros w' r1 r2 rep' buf Htr' _. destruct (accepted buf).
  { intros w2 Htr2 _. eapply H; [by rewrite Htr2, Htr'|done]. }
  destruct (_ <? _); [done|]. intros w2 Htr2 _. eapply H; [by rewrite Htr2, Htr'|done].
Qed.

(** The checksum stage and the decision to reboot. *)
Lemma guarded_verdict data local (w w1 : World D) evs :
  w_trace w1 = w_trace w ++ evs ->
  packets evs ++ [checksum_request FLASH_START FLASH_SIZE] = before_reboot data ->
  local = crc32 0 (image flash_bytes data) ->
  wp_ True False (bootloader_checksum FLASH_START FLASH_SIZE) (fun a w2 =>
    wp_ True False (let '(err, remote_crc32) := a in install_verdict err local remote_crc32)
      (update_guarded data w) w2) w1.
Proof.
  intros Htr Hpk ->. set (pkt := checksum_request FLASH_START FLASH_SIZE) in *.
  apply wp_checksum. fold pkt.
  assert (forall evs2, packets evs2 = [pkt] -> packets (evs ++ evs2) = before_reboot data) as Hall
    by (intros evs2 H2; by rewrite packets_app, H2).
  apply wp_request_sends.
  { intros w' evs2 Htr' Hpk2. unfold install_verdict. cbn. wsteps.
    eapply guarded_stopped; [by rewrite Htr', Htr, <- app_assoc| |done]. by rewrite Hall. }
  intros w' r1 r2 rep buf Htr' Hbuf.
  assert (w_trace w' = w_trace w ++ (evs ++ [Wrote pkt r1]) ++ [GotReply 11 (-1) r2 rep]) as Htr2
    by (rewrite Htr', Htr, <- !app_assoc; done).
  unfold install_verdict, wp_ack, accepted.
  destruct (get_field SYSTEM_REPLY "type" buf =? VM_SYS_RQ) eqn:E1.
  { change (ERR_USBLOOP =? ERR_USBLOOP) with true. cbn match. wsteps.
    eapply guarded_exit; [exact Htr2|by apply Hall|].
    intros Hz. left. rewrite <- Hbuf by done. lia. }
  rewrite andb_true_r. destruct (_ =? VM_OK) eqn:E2; cbn [negb].
  - change (ERR_UNK =? ERR_USBLOOP) with false. change (ERR_UNK =? ERR_UNK) with true. cbn match.
    destruct (crc32 _ _ =? _) eqn:E3; cbn [negb]; wsteps.
    + eapply guarded_exit; [exact Htr2|by apply Hall|]. intros Hz. right.
      rewrite <- Hbuf by done. split; [by apply Z.eqb_eq|symmetry; by apply Z.eqb_eq].
    + eapply (guarded_stopped _ _ _ _ (evs ++ [Wrote pkt r1; GotReply 11 (-1) r2 rep]));
        [wsimpl; by rewrite Htr', Htr, <- app_assoc| |done]. by rewrite Hall.
  - destruct (_ <? _); [done|]. intros w2 Htr3 _. cbn. wsteps.
    eapply (guarded_stopped _ _ _ _ (evs ++ [Wrote pkt r1; GotReply 11 (-1) r2 rep]));
      [by rewrite Htr3, Htr', Htr, <- app_assoc| |done]. by rewrite Hall.
Qed.

(** C5: Whatever the brick answers, `bootloader_install` never hangs on its own loops, and,
    short of undefined behaviour, the packets it sends are a prefix of erase, start, data,
    checksum request and restart, and it succeeds only if it has sent the restart. The
    restart is sent only after the whole image and the request for its checksum have been
    sent and an answer to that request has been read. If this answer has its 11 bytes, it
    either carries the checksum of the image that was sent, or is of type VM_SYS_RQ (a USB
    loop-back, behind which the code compares nothing and restarts as well); nothing is said
    about shorter answers. *)
Theorem install_reboots_checked fp data (w : World D) :
  f_data fp = data -> f_pos fp = 0%nat ->
  wp_ True False (bootloader_install fp) (update_guarded data w) w.
Proof.
  intros Hd Hp. unfold bootloader_install. wsteps.
  apply wp_ack_stage with (pkt := erase_request); [intros; by apply wp_erase|].
  intros c1 w1 evs1 Htr1 Hpk1. cbn in Htr1. destruct (c1 =? ERR_UNK) eqn:E1; cbn [negb]; wsteps.
  2: { eapply guarded_stopped; [exact Htr1| |lia]. rewrite Hpk1. apply prefix_cons, prefix_nil. }
  apply wp_ack_stage with (pkt := start_request FLASH_START FLASH_SIZE);
    [intros; by apply wp_start|].
  intros c2 w2 evs2 Htr2 Hpk2. cbn in Htr2. rewrite Htr1, <- app_assoc in Htr2.
  destruct (c2 =? ERR_UNK) eqn:E2; cbn [negb]; wsteps.
  2: { eapply guarded_stopped; [exact Htr2| |lia]. rewrite packets_app, Hpk1, Hpk2. apply prefix_cons, prefix_cons, prefix_nil. }
  rewrite <- flash_bytes_eq at 1. apply (wp_bootloader_send _ _ _ data); [done|done|].
  intros w3 request reply Htr3 _ Hst.
  eapply wp_mono; [apply (send_loop_sends _ _ _ data); [|lia| |exact Hst]|].
  { rewrite Nat.sub_0_r. apply num_blocks_enough. }
  { rewrite flash_bytes_eq. by vm_compute. }
  intros [c3 crc] w4 (evs3 & k & Htr4 & Hpk3 & Hk & Hdone). cbn [fst snd] in Hdone.
  rewrite Htr3 in Htr4. cbn in Htr4. rewrite Htr2, <- !app_assoc in Htr4.
  rewrite drop_0 in Hpk3, Hdone. rewrite Nat.sub_0_r in Hk, Hdone.
  destruct (c3 =? ERR_UNK) eqn:E3; cbn [negb]; wsteps.
  - destruct (Hdone ltac:(lia)) as [-> ->].
    eapply (guarded_verdict data _ _ _ (evs1 ++ evs2 ++ evs3)); [exact Htr4| |reflexivity].
    rewrite !packets_app, Hpk1, Hpk2, Hpk3, <- !app_assoc. reflexivity.
  - eapply guarded_stopped; [exact Htr4| |lia]. rewrite !packets_app, Hpk1, Hpk2, Hpk3.
    unfold before_reboot. apply prefix_cons, prefix_cons, prefix_app_r.
    rewrite <- (take_chunks_of k (num_blocks flash_bytes)) by done.
    rewrite <- firstn_map. apply prefix_take.
Qed.

(** *** A brick in firmware update mode *)

Definition acked (ms : Z) (pkt rep : list Z) (d d2 : D) : Prop :=
  exchange_in ms pkt 7 rep d d2 /\ zlen rep = 7 /\ accepted rep = true.

(** What the bootloader promises: it erases, takes the image block by block,
    reports its checksum and starts it. *)
Class FirmwareBrick := {
  fb_idle : D -> Prop;
  fb_erased : D -> Prop;
  fb_loading : list Z -> D -> Prop;
  fb_running : list Z -> D -> Prop;
  fb_erase : forall d, fb_idle d -> exists rep d2,
    acked (-1) erase_request rep d d2 /\ fb_erased d2;
  fb_start : forall d, fb_erased d -> exists rep d2,
    acked (-1) (start_request FLASH_START FLASH_SIZE) rep d d2 /\ fb_loading [] d2;
  fb_data : forall d got block, fb_loading got d ->
    0 < zlen block <= 1018 -> zlen got + zlen block <= FLASH_SIZE -> exists rep d2,
    acked (-1) (data_packet block) rep d d2 /\ fb_loading (got ++ block) d2;
  fb_crc : forall d img, fb_loading img d -> zlen img = FLASH_SIZE -> exists rep d2,
    exchange_in (-1) (checksum_request FLASH_START FLASH_SIZE) 11 rep d d2 /\ zlen rep = 11
    /\ get_field SYSTEM_REPLY "type" rep = VM_OK
    /\ get_field FW_GETCRC32_REPLY "crc32" rep = crc32 0 img
    /\ fb_loading img d2;
  fb_exit : forall d img, fb_loading img d -> zlen img = FLASH_SIZE -> exists rep d2,
    acked TIMEOUT startapp_request rep d d2 /\ fb_running img d2;
}.

Lemma acked_request ms pkt rep d2 (w : World D) (Qcomm ok refusal : World D -> Prop) :
  acked ms pkt rep (w_dev w) d2 -> (forall w', w_dev w' = d2 -> ok w') ->
  wp_request pkt 7 ms w Qcomm (fun buf => wp_ack False buf ok refusal).
Proof.
  intros (Hx & Hz & Hacc) H. eapply wp_request_exchange; [exact Hx|exact Hz|].
  intros w' Hd. unfold wp_ack. rewrite Hacc. by apply H.
Qed.

Context `{!FirmwareBrick}.

Lemma send_loop_loads fuel n s data last crc ended fp request reply (w : World D) :
  (n - s <= fuel * 1018)%nat -> (s <= n)%nat ->
  Z.of_nat n * 100 < 2 ^ 31 -> Z.of_nat n <= FLASH_SIZE ->
  send_state n s data ended fp request reply ->
  fb_loading (take s (image n data)) (w_dev w) ->
  wp (send_loop fuel (Z.of_nat s) (Z.of_nat n) last crc ended fp request reply) (fun r w' =>
    r = (ERR_UNK, crc32 crc (drop s (image n data)))
    /\ fb_loading (image n data) (w_dev w')) w.
Proof.
  revert s last crc ended fp request reply w.
  induction fuel as [|fuel IH];
    intros s last crc ended fp request reply w Hfuel Hs Hmax Hfl Hst Hload;
    (destruct (decide (s = n)) as [->|Hne]; [|try lia]).
  1,2: cbn [send_loop]; rewrite Z.ltb_irrefl; cbn [negb]; wsteps;
    rewrite take_ge in Hload by (rewrite length_image; lia);
    rewrite drop_ge, crc32_nil by (rewrite length_image; lia); done.
  pose proof (length_next_block n s data) as Hlen.
  assert (zlen (take s (image n data)) = Z.of_nat s) as Hzs
    by (unfold zlen; rewrite length_take, length_image; lia).
  destruct (fb_data _ _ (next_block n s data) Hload)
    as (rep & d2 & (Hx & Hz & Hacc) & Hload2); [unfold zlen; lia|unfold zlen in *; lia|].
  apply (send_loop_step _ _ _ _ _ data); [lia|done|done|].
  intros r1 d1 Hw. destruct Hx as (r1' & d1' & r2 & Hw' & Hr1 & Hr & Hr2).
  rewrite Hw in Hw'. simplify_eq. rewrite (proj2 (Z.ltb_ge _ _)) by lia.
  rewrite Hr. intros ? ? ? [= <- <- <-] w' [_ Hd]. rewrite (proj2 (Z.leb_gt _ _)) by lia.
  intros reply' _ Hrep. rewrite (Hrep Hz), Hacc. intros last' ended' fp' request' Hst'.
  eapply wp_mono; [apply IH; [lia|lia|done|done|exact Hst'|]|].
  - rewrite Hd. replace (take _ _) with (take s (image n data) ++ next_block n s data); [done|].
    symmetry. apply take_next_block.
  - intros r w2 [-> Hl]. split; [|done]. by rewrite <- crc32_app, next_block_rest.
Qed.

(** The code path after a stage that succeeded. *)
Ltac wcode :=
  change (ERR_UNK =? ERR_UNK) with true; cbn [negb]; wsteps.

(** C4: `bootloader_install` refines the flash procedure of a brick in firmware mode: for
    every firmware stream it erases the flash, writes the image padded to the flash size
    block by block, compares the checksum and restarts the brick, which then runs exactly
    the image. *)
Theorem install_flashes fp data (w : World D) :
  f_data fp = data -> f_pos fp = 0%nat -> fb_idle (w_dev w) ->
  wp (bootloader_install fp) (fun code w' =>
    code = ERR_UNK /\ fb_running (image flash_bytes data) (w_dev w')) w.
Proof.
  intros Hd Hp Hidle. unfold bootloader_install. wsteps.
  destruct (fb_erase _ Hidle) as (rep1 & d1 & Ha1 & H1).
  apply wp_erase. eapply acked_request; [exact Ha1|]. intros w1 Hd1. wcode.
  rewrite <- Hd1 in H1. destruct (fb_start _ H1) as (rep2 & d2 & Ha2 & H2).
  apply wp_start. eapply acked_request; [exact Ha2|]. intros w2 Hd2. wcode.
  rewrite <- flash_bytes_eq at 1. apply (wp_bootloader_send _ _ _ data); [done|done|].
  intros w3 request reply _ Hd3 Hst. rewrite <- Hd2 in H2.
  eapply wp_mono; [apply (send_loop_loads _ _ _ data); [|lia| | |exact Hst|by rewrite Hd3]|].
  { rewrite Nat.sub_0_r. apply num_blocks_enough. }
  { rewrite flash_bytes_eq. by vm_compute. }
  { rewrite flash_bytes_eq. reflexivity. }
  intros a w4 [-> H4]. wcode.
  destruct (fb_crc _ _ H4) as (rep5 & d5 & Hx & Hz & Hty & Hcrc & H5).
  { unfold zlen. rewrite length_image. apply flash_bytes_eq. }
  apply wp_checksum. eapply wp_request_exchange; [exact Hx|exact Hz|]. intros w5 Hd5.
  unfold wp_ack, accepted. rewrite Hty, Hcrc.
  change (VM_OK =? VM_SYS_RQ) with false. change (VM_OK =? VM_OK) with true. cbn [negb andb].
  unfold install_verdict. change (ERR_UNK =? ERR_USBLOOP) with false. wcode.
  rewrite drop_0, Z.eqb_refl. cbn [negb]. wsteps.
  rewrite <- Hd5 in H5. destruct (fb_exit _ _ H5) as (rep6 & d6 & (Hx6 & Hz6 & Ha6) & H6).
  { unfold zlen. rewrite length_image. apply flash_bytes_eq. }
  apply wp_exit. eapply wp_request_exchange; [exact Hx6|exact Hz6|]. intros w6 Hd6.
  rewrite Ha6. intros w7 _ Hd7. split; [reflexivity|]. by rewrite Hd7, Hd6.
Qed.
End spec.
