(* ===== verification/Cstr.v ===== *)
(** * Cstr: strings in buffers, and the pieces of sscanf *)

From S2P Require Import Prelude IO.

(** The bytes up to the first NUL. *)
Fixpoint cstr_of (l : list Z) : option (list Z) :=
  match l with
  | [] => None
  | 0 :: _ => Some []
  | b :: l' => cons b <$> cstr_of l'
  end.

Lemma cstr_of_some a b : is_Some (cstr_of ([] ++ a ++ [0] ++ b)).
Proof.
  cbn [app]. induction a as [|x a IH]; [by eexists|]. cbn [app cstr_of].
  destruct x; [by eexists|..]; by apply fmap_is_Some.
Qed.

(** The string in a buffer, which may fill it. *)
Fixpoint upto_nul (l : list Z) : list Z :=
  match l with
  | [] => []
  | 0 :: _ => []
  | b :: l' => b :: upto_nul l'
  end.
(** ** Character classes (the C locale) *)

Definition isspace (b : Z) : bool := (b =? 32) || ((9 <=? b) && (b <=? 13)).
Definition hex_digit (b : Z) : option Z :=
  if (48 <=? b) && (b <=? 57) then Some (b - 48)
  else if (97 <=? b) && (b <=? 102) then Some (b - 87)
  else if (65 <=? b) && (b <=? 70) then Some (b - 55)
  else None.

Fixpoint skip_space (l : list Z) : list Z :=
  match l with
  | b :: l' => if isspace b then skip_space l' else l
  | [] => []
  end.

Definition isgraph (b : Z) : bool := (33 <=? b) && (b <=? 126).
Definition isdigit (b : Z) : bool := (48 <=? b) && (b <=? 57).

(** A maximal run of characters that are not white space, and the rest. *)
Fixpoint scan_word (l : list Z) : list Z * list Z :=
  match l with
  | b :: l' => if isspace b then ([], l) else let '(w, r) := scan_word l' in (b :: w, r)
  | [] => ([], [])
  end.

(** A literal of the format string: the rest when it matches. *)
Fixpoint match_lit (lit l : list Z) : option (list Z) :=
  match lit, l with
  | [], _ => Some l
  | c :: lit', b :: l' => if c =? b then match_lit lit' l' else None
  | _ :: _, [] => None
  end.

(** Decimal digits: their value and the rest, [None] without a digit. *)
Fixpoint scan_dec (acc : option Z) (l : list Z) : option Z * list Z :=
  match l with
  | b :: l' => if isdigit b then scan_dec (Some (10 * default 0 acc + (b - 48))) l' else (acc, l)
  | [] => (acc, [])
  end.

(** [strstr(s, needle) != NULL]. *)
Fixpoint contains (needle s : list Z) : bool :=
  match match_lit needle s with
  | Some _ => true
  | None => match s with [] => false | _ :: s' => contains needle s' end
  end.

(** ** Lemmas *)

Lemma cstr_of_app s tail : cstr_ok s -> cstr_of (s ++ 0 :: tail) = Some s.
Proof.
  induction 1 as [|b s Hb _ IH]; simpl; [done|].
  rewrite IH. destruct b; [lia|done|lia].
Qed.

Lemma match_lit_app lit l : match_lit lit (lit ++ l) = Some l.
Proof. induction lit as [|c lit IH]; simpl; [done|]. by rewrite Z.eqb_refl. Qed.

Lemma contains_app needle a l : match_lit needle l <> None -> contains needle (a ++ l) = true.
Proof.
  intros H. induction a as [|x a IH]; cbn [app].
  - destruct l as [|y l]; cbn [contains]; destruct (match_lit needle _); congruence.
  - cbn [contains]. rewrite IH. by case (match_lit needle (x :: a ++ l)).
Qed.

Definition word_ok (w : list Z) : Prop := w <> [] /\ Forall (fun b => isspace b = false) w.

Lemma scan_word_app w l :
  Forall (fun b => isspace b = false) w ->
  (match l with [] => true | b :: _ => isspace b end = true) -> scan_word (w ++ l) = (w, l).
Proof.
  intros Hw Hl. induction Hw as [|b w Hb _ IH]; simpl.
  - destruct l; [done|]. simpl. by rewrite Hl.
  - by rewrite Hb, IH.
Qed.

Lemma skip_space_word w l : word_ok w -> skip_space (w ++ l) = w ++ l.
Proof. intros [Hne Hw]. destruct Hw as [|b w Hb _]; [done|]. simpl. by rewrite Hb. Qed.

(** ** Decimal numbers: printing and scanning *)

Definition dec_value (v : Z) (ds : list Z) : Z := fold_left (fun v d => 10 * v + (d - 48)) ds v.

Lemma digits_aux_dec fuel n acc :
  (0 < fuel)%nat -> 0 <= n < 10 ^ Z.of_nat fuel ->
  exists ds, digits_aux fuel 10 n acc = ds ++ acc /\ ds <> []
    /\ Forall (fun b => isdigit b = true) ds /\ dec_value 0 ds = n.
Proof.
  revert n acc. induction fuel as [|fuel IH]; intros n acc Hf Hn; [lia|].
  cbn [digits_aux]. pose proof (Z.mod_pos_bound n 10 ltac:(lia)) as Hm.
  rewrite (proj2 (Z.ltb_lt _ _)) by lia.
  assert (isdigit (48 + n mod 10) = true) as Hd by (unfold isdigit; lia).
  destruct (n / 10 =? 0) eqn:E.
  - exists [48 + n mod 10]. repeat split; [done|by constructor|].
    unfold dec_value. simpl. Z.div_mod_to_equations. lia.
  - assert (0 < fuel)%nat.
    { destruct fuel; [|lia]. change (10 ^ Z.of_nat 1) with 10 in Hn. Z.div_mod_to_equations. lia. }
    replace (Z.of_nat (S fuel)) with (Z.of_nat fuel + 1) in Hn by lia.
    rewrite Z.pow_add_r in Hn by lia. change (10 ^ 1) with 10 in Hn.
    destruct (IH (n / 10) ((48 + n mod 10) :: acc)) as (ds & Hds & Hne & Hall & Hv); [done| |].
    { split; [apply Z.div_pos; lia|]. apply Z.div_lt_upper_bound; lia. }
    exists (ds ++ [48 + n mod 10]). rewrite Hds, <- app_assoc. split; [done|].
    split; [by destruct ds|]. split; [apply Forall_app; by repeat constructor|].
    unfold dec_value in *. rewrite fold_left_app, Hv. simpl. Z.div_mod_to_equations. lia.
Qed.

Lemma scan_dec_digits acc ds l :
  Forall (fun b => isdigit b = true) ds -> ds <> [] \/ acc <> None ->
  (match l with [] => true | b :: _ => negb (isdigit b) end = true) ->
  scan_dec acc (ds ++ l) = (Some (dec_value (default 0 acc) ds), l).
Proof.
  intros Hds Hne Hl. revert acc Hne. induction Hds as [|b ds Hb _ IH]; intros acc Hne; simpl.
  - destruct Hne as [|Hne]; [done|]. destruct acc; [|done].
    destruct l as [|c l]; [done|]. simpl. by destruct (isdigit c).
  - rewrite Hb. rewrite IH; [done|by right].
Qed.

Lemma digits_word n : 0 <= n < 10 ^ 64 ->
  digits 10 n <> [] /\ Forall (fun b => isdigit b = true) (digits 10 n).
Proof.
  intros Hn. destruct (digits_aux_dec 64 n []) as (ds & Hds & Hne & Hall & _); [lia|done|].
  unfold digits. by rewrite Hds, app_nil_r.
Qed.

Lemma scan_dec_fmt n l :
  0 <= n < 10 ^ 64 ->
  (match l with [] => true | b :: _ => negb (isdigit b) end = true) ->
  scan_dec None (digits 10 n ++ l) = (Some n, l).
Proof.
  intros Hn Hl. destruct (digits_aux_dec 64 n []) as (ds & Hds & Hne & Hall & Hv); [lia|done|].
  unfold digits. rewrite Hds, app_nil_r, scan_dec_digits by auto. simpl. by rewrite Hv.
Qed.
