(* ===== verification/Mkrbf.v ===== *)
(** * Mkrbf: the bytecode file that starts a program (src/mkrbf.c) *)

From S2P Require Import Prelude Cstr.

Definition magic : list Z := str "LEGO".
Definition before : list Z :=
  [0x68; 0x00; 0x01; 0x00; 0x00; 0x00; 0x00; 0x00; 0x1C; 0x00; 0x00; 0x00;
   0x00; 0x00; 0x00; 0x00; 0x08; 0x00; 0x00; 0x00; 0x60; 0x80].
Definition after : list Z := [0x44; 0x85; 0x82; 0xE8; 0x03; 0x40; 0x86; 0x40; 0x0A].

(** [sizeof x - 1] of the string constants is their length. *)
Definition static_sz (cmd : list Z) : Z :=
  u32 (zlen magic + 4 + zlen before + zlen cmd + 1 + zlen after).

(** The buffer, [None] when the copies run past the block malloc returned; the
    function returns [static_sz cmd]. *)
Definition mkrbf (cmd : list Z) : option (list Z) :=
  let image := magic ++ le_bytes 4 (static_sz cmd) ++ before ++ (cmd ++ [0]) ++ after in
  if zlen image <=? static_sz cmd then Some image else None.

(** ** A reader of bytecode files

    The format of the VM, apart from the templates: an image header with the size of the
    file and one object header, both of little-endian fields, and the instructions of the
    object, each an opcode with encoded parameters, up to the end of the object. *)

(** A constant, a text, or a variable of the object or of the program. *)
Inductive param := Const (v : Z) | Text (s : list Z) | Local (i : Z) | Global (i : Z).
Inductive opcode := opOBJECT_END | opSYSTEM | opTIMER_WAIT | opTIMER_READY.
#[export] Instance param_eq_dec : EqDecision param.
Proof. solve_decision. Defined.
#[export] Instance opcode_eq_dec : EqDecision opcode.
Proof. solve_decision. Defined.
Definition instruction : Type := opcode * list param.

(** The opcodes that start programs, and how many parameters they take. *)
Definition opcode_of (b : Z) : option (opcode * nat) :=
  match b with
  | 0x0A => Some (opOBJECT_END, 0%nat)
  | 0x60 => Some (opSYSTEM, 2%nat)
  | 0x85 => Some (opTIMER_WAIT, 2%nat)
  | 0x86 => Some (opTIMER_READY, 1%nat)
  | _ => None
  end.

(** A short parameter has its type in bits 5 and 6 and its value in the rest; behind a long
    one (bit 7), here a text or a constant, follow the bytes of the value. *)
Definition read_param (l : list Z) : option (param * list Z) :=
  match l with
  | [] => None
  | b :: l =>
      if b <? 0x40 then Some (Const (if b <? 0x20 then b else b - 0x40), l)
      else if b <? 0x60 then Some (Local (b - 0x40), l)
      else if b <? 0x80 then Some (Global (b - 0x60), l)
      else if b =? 0x80 then s ← cstr_of l; Some (Text s, drop (S (length s)) l)
      else if b =? 0x82 then
        if (length l <? 2)%nat then None else Some (Const (i16 (le_val (take 2 l))), drop 2 l)
      else None
  end.
Fixpoint read_params (n : nat) (l : list Z) : option (list param * list Z) :=
  match n with
  | O => Some ([], l)
  | S n => '(p, l) ← read_param l; '(ps, l) ← read_params n l; Some (p :: ps, l)
  end.

(** The instructions up to the end of the object, which ends the file. *)
Fixpoint read_code (n : nat) (l : list Z) : option (list instruction) :=
  match n, l with
  | S n, b :: l =>
      '(op, k) ← opcode_of b;
      '(ps, l) ← read_params k l;
      if decide (op = opOBJECT_END) then if decide (l = []) then Some [(op, ps)] else None
      else instrs ← read_code n l; Some ((op, ps) :: instrs)
  | _, _ => None
  end.

Record program := MkProgram {
  pr_version : Z;
  pr_globals : Z;                 (* bytes of the variables of the program *)
  pr_locals : Z;                  (* bytes of the variables of its object *)
  pr_code : list instruction;
}.

(** Sign, size, version, number of objects and global bytes; where the code of the object
    is, its owner, its trigger count (both 0 for a thread) and its local bytes. *)
Definition parse_program (image : list Z) : option program :=
  let field off n := le_val (slice off n image) in
  if decide (take 4 image = str "LEGO" /\ field 4%nat 4%nat = zlen image
             /\ field 10%nat 2%nat = 1 /\ field 20%nat 2%nat = 0 /\ field 22%nat 2%nat = 0
             /\ 28 <= field 16%nat 4%nat)
  then
    let code := drop (Z.to_nat (field 16%nat 4%nat)) image in
    instrs ← read_code (length code) code;
    Some (MkProgram (field 8%nat 2%nat) (field 12%nat 4%nat) (field 24%nat 4%nat) instrs)
  else None.

(** The command of a program that runs one, waits for a second and ends. *)
Definition launcher (cmd : list Z) : program :=
  MkProgram 104 0 8
    [(opSYSTEM, [Text cmd; Local 4]); (opTIMER_WAIT, [Const 1000; Local 0]);
     (opTIMER_READY, [Local 0]); (opOBJECT_END, [])].

(** The file src/test/myapps/DisplayStarter.rbf. *)
Example display_starter :
  parse_program (str "LEGO;" ++ [0; 0; 0] ++ str "h" ++ [0; 1] ++ replicate 5 0 ++ [28] ++ replicate 7 0
    ++ [8; 0; 0; 0] ++ str "`" ++ [0x80] ++ str "/media/card/Display" ++ [0] ++ str "D"
    ++ [0x85; 0x82; 0xE8; 3] ++ str "@" ++ [0x86] ++ str "@" ++ [10])
  = Some (launcher (str "/media/card/Display")).
Proof. by vm_compute. Qed.

Lemma static_sz_eq cmd : zlen cmd + 40 < 2 ^ 32 -> static_sz cmd = zlen cmd + 40.
Proof.
  intros H. pose proof (zlen_nonneg cmd). unfold static_sz.
  change (zlen magic) with 4. change (zlen before) with 22. change (zlen after) with 9.
  rewrite u32_id; lia.
Qed.

Lemma mkrbf_image cmd :
  cstr_ok cmd -> zlen cmd + 40 < 2 ^ 32 ->
  exists image, mkrbf cmd = Some image
    /\ zlen image = static_sz cmd /\ bytes_ok image
    /\ parse_program image = Some (launcher cmd).
Proof.
  intros Hc Hz. pose proof (static_sz_eq cmd Hz) as Hs. pose proof (zlen_nonneg cmd) as Hp.
  set (image := magic ++ le_bytes 4 (static_sz cmd) ++ before ++ (cmd ++ [0]) ++ after).
  assert (zlen image = static_sz cmd) as Hi.
  { rewrite Hs. unfold image. rewrite !zlen_app. change (zlen magic) with 4.
    change (zlen before) with 22. change (zlen after) with 9. change (zlen [0]) with 1.
    rewrite zlen_le_bytes. lia. }
  exists image. unfold mkrbf. fold image. rewrite (proj2 (Z.leb_le _ _)) by lia.
  split; [done|]. split; [done|]. split.
  { unfold image. rewrite !Forall_app. repeat split; try apply le_bytes_ok;
      try (by apply cstr_bytes_ok); repeat constructor; unfold byte_ok; lia. }
  unfold parse_program.
  assert (slice 4 4 image = le_bytes 4 (static_sz cmd)) as E4 by done.
  assert (le_val (slice 4 4 image) = zlen image) as Hsz
    by (rewrite Hi, E4, le_val_le_bytes, Z.mod_small; lia).
  assert (forall o n, (8 <= o)%nat -> (o + n <= 30)%nat -> slice o n image = slice (o - 8) n before) as Hf.
  { intros o n Ho Hn. unfold image. rewrite slice_app_r by (change (length magic) with 4%nat; lia).
    change (length magic) with 4%nat. rewrite slice_app_r by (rewrite length_le_bytes; lia).
    rewrite length_le_bytes. replace (o - 4 - 4)%nat with (o - 8)%nat by lia. apply slice_app_l.
    change (length before) with 22%nat. lia. }
  cbv zeta. rewrite Hsz, !Hf by (apply Nat.leb_le; done).
  rewrite decide_True by (split_and!; done).
  change (Z.to_nat (le_val (slice (16 - 8) 4 before))) with 28%nat.
  set (code := drop 28 image).
  assert (code = 0x60 :: 0x80 :: (cmd ++ [0]) ++ after) as -> by done.
  assert (length (0x60 :: 0x80 :: (cmd ++ [0]) ++ after) = S (S (S (S (length cmd + 8))))) as ->.
  { cbn [length]. rewrite !length_app. cbn [length after]. lia. }
  cbn [read_code opcode_of mbind option_bind read_params read_param Z.ltb Z.eqb Z.compare
    Pos.compare Pos.compare_cont Pos.eqb].
  rewrite <- (app_assoc cmd [0] after). change ([0] ++ after) with (0 :: after).
  rewrite cstr_of_app by done. cbn [mbind option_bind].
  assert (drop (S (length cmd)) (cmd ++ 0 :: after) = after) as ->.
  { change (0 :: after) with ([0] ++ after). rewrite (app_assoc cmd).
    apply drop_app_length'. rewrite length_app. simpl. lia. }
  reflexivity.
Qed.

(** C40: `mkrbf` succeeds on every command of less than 4 GiB minus 40 bytes, gives as many
    bytes as it announces, and an independent reading of the bytecode file, by its header
    and the operation codes and parameters of its instructions, gives the program that
    starts exactly that command. *)
Theorem mkrbf_roundtrip cmd :
  cstr_ok cmd -> zlen cmd + 40 < 2 ^ 32 ->
  exists image, mkrbf cmd = Some image
    /\ zlen image = static_sz cmd /\ bytes_ok image
    /\ parse_program image = Some (launcher cmd).
Proof. apply mkrbf_image. Qed.

(** A command of 4 GiB wraps the size computation and overflows the block. *)
Lemma mkrbf_overflow cmd :
  2 ^ 32 <= zlen cmd + 40 < 2 ^ 33 -> mkrbf cmd = None.
Proof.
  intros H. unfold mkrbf.
  assert (static_sz cmd = zlen cmd + 40 - 2 ^ 32) as ->.
  { unfold static_sz, u32. change (zlen magic) with 4. change (zlen before) with 22.
    change (zlen after) with 9. Z.div_mod_to_equations. lia. }
  rewrite (proj2 (Z.leb_gt _ _)); [done|].
  rewrite !zlen_app. change (zlen magic) with 4. change (zlen before) with 22.
  change (zlen after) with 9. change (zlen [0]) with 1.
  rewrite zlen_le_bytes. lia.
Qed.
