(* ===== verification/Vm.v ===== *)
(** * Vm: direct commands (src/run.c, src/vmexec.c) *)

From S2P Require Import Prelude Packets IO Logic Stdio Cstr.

Definition run1 : list Z := [0xC0; 0x08; 0x82; 0x01; 0x00; 0x84].
Definition run2 : list Z := [0x60; 0x64; 0x03; 0x01; 0x60; 0x64; 0x00].

(** ** [sscanf(s, "\t%08x\n", &len)] on the bytes of a buffer *)

Inductive scan_result :=
| ScanOk (v : Z)        (* 1 conversion *)
| ScanFail              (* 0 *)
| ScanEof               (* EOF: the string ends before the number *)
| ScanOver.             (* no end of string in the buffer *)

(** Up to [w] hexadecimal digits. *)
Fixpoint scan_digits (w : nat) (acc : option Z) (l : list Z) : option (option Z) :=
  match w, l with
  | O, _ => Some acc
  | S _, [] => None
  | S w', b :: l' =>
      match hex_digit b with
      | Some d => scan_digits w' (Some (16 * default 0 acc + d)) l'
      | None => Some acc
      end
  end.

Definition scan_number (w : nat) (neg : bool) (l : list Z) : scan_result :=
  let '(w, l) :=
    match l with
    | 48 :: x :: l' =>
        if ((x =? 120) || (x =? 88)) && (2 <=? w)%nat then ((w - 2)%nat, l') else (w, l)
    | _ => (w, l)
    end in
  match scan_digits w None l with
  | None => ScanOver
  | Some None => ScanFail
  | Some (Some v) => ScanOk (u32 (if neg then - v else v))
  end.

Definition scan_08x (buf : list Z) : scan_result :=
  match skip_space buf with
  | [] => ScanOver
  | 0 :: _ => ScanEof
  | 43 :: l => scan_number 7 false l
  | 45 :: l => scan_number 7 true l
  | l => scan_number 8 false l
  end.

Example scan_tab : scan_08x (str "	0000001a" ++ [10; 0]) = ScanOk 26.
Proof. reflexivity. Qed.
Example scan_words : scan_08x (str "hello" ++ [0]) = ScanFail.
Proof. reflexivity. Qed.

(** "%.*s" of the string at offset [off] of the buffer. *)
Definition fmt_prec_s (prec : Z) (off : nat) (buf : list Z) : list Z :=
  upto_nul (slice off (Z.to_nat prec) buf).

Section run.
Context {D : Type} `{!Transport D}.

(** [memcmp(&reply.packet, &EXECUTE_FILE_REPLY_SUCCESS, sizeof reply.packet) == 0]. *)
Definition run_succeeded (reply : list Z) : bool :=
  bool_decide (take (sizeof VM_REPLY) reply = EXECUTE_FILE_REPLY_SUCCESS).

(** The output of the program, behind its length; on the HID transport
    [ev3_read_timeout] is [hid_read_timeout].  The result is [res]. *)
Fixpoint run_output (fuel : nat) (len : Z) (reply : list Z) : M D Z :=
  match fuel with
  | O => blocked
  | S fuel =>
      '(res, reply) ← ev3_read_timeout reply 1026 100;
      if 0 <? res then
        put_out (fmt_prec_s (if 1000 <? len then 1000 else len) 0 reply) ;;
        run_output fuel (u32 (len - 1000)) reply
      else mret res
  end.

Definition run_status_unknown : M D Z :=
  set_errmsg "`exec` status unknown." ;; mret ERR_UNK.

(** [sscanf] returns EOF as a true value: [len] stays uninitialised then. *)
Definition run_print (fuel : nat) (reply : list Z) : M D Z :=
  let print len :=
    let len := u32 (len + 10) in
    put_out (fmt_prec_s (if 1000 <? len then 1000 else len) 10 reply) ;;
    res ← run_output fuel (u32 (len - 1000)) reply;
    if negb (res =? 0) then mret ERR_COMM else run_status_unknown in
  match scan_08x reply with
  | ScanOk len => print len
  | ScanEof => junk ← fresh 4; print (le_val junk)
  | ScanFail => run_status_unknown
  | ScanOver => undef "sscanf: unterminated string"
  end.

(** What follows the read of the reply. *)
Definition run_verdict (is_hid : bool) (fuel : nat) (res : Z) (reply : list Z) : M D Z :=
  if res <? 0 then mret ERR_COMM
  else if (res =? 0) || run_succeeded reply then
    set_errmsg "`exec` has been successful." ;; mret ERR_UNK
  else if is_hid then run_print fuel reply
  else run_status_unknown.

(** [is_hid] is [ev3_close == hid_close]. *)
Definition run (is_hid : bool) (fuel : nat) (exec : list Z) (timeout : Z) : M D Z :=
  let timeout := if timeout =? 0 then TIMEOUT else timeout in
  let exec_sz := S (length exec) in
  reply ← fresh 1024;
  p ← alloc EXECUTE_FILE EXECUTE_FILE_INIT (length run1 + exec_sz + length run2);
  run ← deref p;
  let run := splice (sizeof EXECUTE_FILE) (run1 ++ (exec ++ [0]) ++ run2) run in
  res ← ev3_write_pkt run;
  if res <? 0 then mret ERR_COMM else
  '(res, reply) ← ev3_read_timeout reply 1026 (i32 timeout);
  run_verdict is_hid fuel res reply.

End run.

Section vmexec.
Context {D : Type} `{!Transport D}.

(** Where the globals go: nowhere, to stdout, or to a file. *)
Inductive sink := NoOut | ToStdout | ToFile (fp : FILE).

Definition max_bytecodes : Z := 1024 - (Z.of_nat (sizeof VM_CMD) - PREFIX_SIZE + 2).

(** [fwrite(bytes, 1, n, out)]. *)
Definition write_sink (bytes : list Z) (out : sink) : M D sink :=
  match out with
  | NoOut => mret NoOut
  | ToStdout => put_out bytes ;; mret ToStdout
  | ToFile fp => mret (ToFile (fwrite bytes fp).2)
  end.

(** The reply: its verdict, and the globals it carries. *)
Definition vmexec_reply (out : sink) (globals res : Z) (reply : list Z) : M D (Z * sink) :=
  if res <=? 0 then
    set_errmsg "Unable to read VM_REPLY" ;; mret (ERR_COMM, out)
  else if negb (get_field VM_REPLY "replyType" reply =? VM_DIRECT_OK) then
    fputs_err ("Operation failed." +:+ nl +:+ "last_reply=") ;;
    print_bytes reply (get_field VM_REPLY "packetLen" reply + 2) ;;
    set_errno (get_field VM_REPLY "replyType" reply) ;;
    set_errmsg "`vmexec` failed." ;; mret (ERR_VM, out)
  else
  out ← write_sink (slice (sizeof VM_REPLY) (Z.to_nat globals) reply) out;
  match out with
  | ToStdout => mret tt
  | NoOut | ToFile _ => set_errmsg "`vmexec` was successful."
  end ;;
  mret (ERR_UNK, out).

Definition vmexec (inp : FILE) (out : sink) (locals globals : Z) (use_reply : bool)
    : M D (Z * sink) :=
  let max_locals := Z.shiftl 1 6 - 1 in
  let max_globals := Z.shiftl 1 10 - 1 in
  let max_globals := if use_reply then 1024 - Z.of_nat (sizeof VM_REPLY) else max_globals in
  let locals := if locals <? 0 then 0 else locals in
  let globals := if globals <? 0 then 0 else globals in
  if max_locals <? locals then
    put_err (str "<" ++ fmt_d locals ++ str ("> is too many local variables" +:+ nl)) ;;
    mret (ERR_ARG, out)
  else if max_globals <? globals then
    put_err (str "<" ++ fmt_d globals ++ str ("> is too many global variables" +:+ nl)) ;;
    mret (ERR_ARG, out)
  else
  p ← alloc EXECUTE_FILE EXECUTE_FILE_INIT (Z.to_nat max_bytecodes);
  request ← deref p;
  let '(got, inp) := fread (Z.to_nat max_bytecodes) inp in
  let request := splice (sizeof EXECUTE_FILE) got request in
  let real := zlen got in
  if negb (feof inp) then
    fputs_err ("input bytecode is too long" +:+ nl) ;; mret (ERR_IO, out)
  else if real =? 0 then
    fputs_err ("input bytecode is too short" +:+ nl) ;; mret (ERR_IO, out)
  else
  let request := set_field EXECUTE_FILE "replyType" (if use_reply then 0x00 else 0x80) request in
  let request := set_field EXECUTE_FILE "alloc"
                   (Z.lor (Z.shiftl (u16 locals) 10) (u16 globals)) request in
  let request := set_field EXECUTE_FILE "packetLen"
                   (real + Z.of_nat (sizeof VM_CMD) - PREFIX_SIZE) request in
  res ← ev3_write_pkt request;
  if res <? 0 then
    set_errmsg "Unable to write VM_CMD." ;; mret (ERR_COMM, out)
  else if negb use_reply then
    set_errmsg "`vmexec` was successful." ;; mret (ERR_UNK, out)
  else
  let reply_size := Z.of_nat (sizeof VM_REPLY) + globals in
  reply ← fresh (Z.to_nat reply_size);
  '(res, reply) ← ev3_read_timeout reply reply_size TIMEOUT;
  vmexec_reply out globals res reply.

End vmexec.

(** ** What is sent *)

Definition run_request (exec : list Z) : list Z :=
  set_field SYSTEM_CMD "packetLen" (19 + zlen exec) EXECUTE_FILE_INIT
  ++ run1 ++ (exec ++ [0]) ++ run2.

Lemma framed_run_request exec : zlen exec + 22 < 65535 -> framed (run_request exec).
Proof.
  intros H. pose proof (zlen_nonneg exec). apply framed_header; [by apply Nat.leb_le|lia|].
  rewrite !zlen_app. change (zlen run1) with 6. change (zlen run2) with 7.
  change (zlen EXECUTE_FILE_INIT) with 8. change (zlen [0]) with 1. unfold PREFIX_SIZE. lia.
Qed.

Definition vm_header (use_reply : bool) (locals globals n : Z) : list Z :=
  set_field EXECUTE_FILE "packetLen" (n + 5)
    (set_field EXECUTE_FILE "alloc" (locals * 1024 + globals)
      (set_field EXECUTE_FILE "replyType" (if use_reply then 0x00 else 0x80)
         EXECUTE_FILE_INIT)).

Lemma vm_header_eq (use_reply : bool) locals globals n v :
  set_field EXECUTE_FILE "packetLen" (n + 5)
    (set_field EXECUTE_FILE "alloc" (locals * 1024 + globals)
      (set_field EXECUTE_FILE "replyType" (if use_reply then 0x00 else 0x80)
        (set_field SYSTEM_CMD "packetLen" v EXECUTE_FILE_INIT)))
  = vm_header use_reply locals globals n.
Proof. reflexivity. Qed.
Definition vm_request (use_reply : bool) (locals globals : Z) (code : list Z) : list Z :=
  vm_header use_reply locals globals (zlen code) ++ code.

Lemma framed_vm_request use_reply locals globals code :
  zlen code <= 1017 -> framed (vm_request use_reply locals globals code).
Proof.
  intros H. pose proof (zlen_nonneg code). unfold vm_request, vm_header.
  change (set_field EXECUTE_FILE "packetLen") with (set_field SYSTEM_CMD "packetLen").
  apply framed_header; [by apply Nat.leb_le|lia|].
  change (zlen (set_field EXECUTE_FILE "alloc" _ _)) with 8. unfold PREFIX_SIZE. lia.
Qed.

(** The two sizes share one 16 bit field without interfering. *)
Lemma vm_alloc_lor locals globals :
  0 <= locals <= 63 -> 0 <= globals <= 1023 ->
  Z.lor (Z.shiftl (u16 locals) 10) (u16 globals) = locals * 1024 + globals.
Proof.
  intros Hl Hg. rewrite !u16_id by lia.
  assert (Z.land (Z.shiftl locals 10) globals = 0) as Hland.
  { rewrite Z.shiftl_mul_pow2 by lia. apply Z.bits_inj'. intros i Hi.
    rewrite Z.land_spec, Z.bits_0. destruct (decide (i < 10)).
    - by rewrite Z.mul_pow2_bits_low by lia.
    - rewrite (testbit_above globals 10) by lia. apply andb_false_r. }
  rewrite <- Z.lxor_lor, <- Z.add_nocarry_lxor, Z.shiftl_mul_pow2 by (done || lia). lia.
Qed.

Section spec.
Context {D : Type} `{!Transport D} `{!TransportOk D}.

(** The verdict of [run] on the bytes of the reply. *)
Definition run_message (r2 : Z) (data : list Z) : string :=
  if (r2 =? 0) || bool_decide (take 5 data = EXECUTE_FILE_REPLY_SUCCESS)
  then "`exec` has been successful." else "`exec` status unknown.".

Lemma wp_run_sent U B is_hid fuel exec timeout (Q : Z -> World D -> Prop) (w : World D) :
  zlen exec + 22 < 65535 ->
  (forall r1 d1 reply w1, tr_write (run_request exec) (w_dev w) = (r1, d1) ->
    w_trace w1 = w_trace w ++ [Wrote (run_request exec) r1] -> w_dev w1 = d1 ->
    length reply = 1024%nat ->
    if r1 <? 0 then Q ERR_COMM w1 else
    wp_ U B (ev3_read_timeout reply 1026 (i32 (if timeout =? 0 then TIMEOUT else timeout)))
      (fun a w2 => wp_ U B (run_verdict is_hid fuel a.1 a.2) Q w2) w1) ->
  wp_ U B (run is_hid fuel exec timeout) Q w.
Proof.
  intros Hz H. unfold run. wsteps. apply wp_bind, wp_alloc; [reflexivity|by apply Nat.leb_le|
    change (Z.of_nat (sizeof _)) with 8; change (length run1) with 6%nat;
    change (length run2) with 7%nat; unfold zlen in Hz; lia|].
  intros junk Hj _. wsteps. rewrite splice_tail; [|reflexivity|].
  2: { rewrite !length_app. rewrite Hj. simpl. lia. }
  replace (Z.of_nat (sizeof EXECUTE_FILE)
    + Z.of_nat (length run1 + S (length exec) + length run2) - 3) with (19 + zlen exec)
    by (change (Z.of_nat (sizeof _)) with 8; change (length run1) with 6%nat;
        change (length run2) with 7%nat; unfold zlen; lia).
  fold (run_request exec). apply wp_write_framed; [by apply framed_run_request|]. wsimpl.
  intros r1 d1 Hw.
  match goal with |- wp_ _ _ _ _ ?w1 => specialize (H r1 d1 block w1 Hw eq_refl eq_refl Hblock) end.
  destruct (r1 <? 0); [by wsteps|]. apply wp_bind.
  eapply wp_mono; [exact H|]. by intros [r2 rep] w2.
Qed.

(** Whatever it prints, the verdict sends nothing. *)
Lemma run_output_quiet fuel len reply (w : World D) :
  wlp (run_output fuel len reply) (fun _ w' => packets (w_trace w') = packets (w_trace w)) w.
Proof.
  revert len reply w. induction fuel as [|fuel IH]; intros len reply w; cbn [run_output]; [done|].
  wsteps. apply wp_read. intros res data d _. destruct (_ <? _); [done|]. cbn beta iota.
  destruct (0 <? res); wsteps; [eapply wp_mono; [apply IH|]; cbn beta; wsimpl; intros ? w' ->|];
    by rewrite packets_app, app_nil_r.
Qed.

Lemma run_verdict_quiet is_hid fuel res reply (w : World D) :
  wlp (run_verdict is_hid fuel res reply)
    (fun _ w' => packets (w_trace w') = packets (w_trace w)) w.
Proof.
  unfold run_verdict. destruct (res <? 0); [by wsteps|].
  destruct (_ || _); [by wsteps|]. destruct is_hid; [|unfold run_status_unknown; by wsteps].
  unfold run_print, run_status_unknown. destruct (scan_08x reply); cbv zeta; wsteps; try done.
  all: eapply wp_mono; [apply run_output_quiet|]; cbn beta; wsimpl; intros r w' E;
    destruct (negb (r =? 0)); by wsteps.
Qed.

Lemma run_sends is_hid fuel exec timeout (w : World D) :
  zlen exec + 22 < 65535 ->
  wlp (run is_hid fuel exec timeout)
    (fun _ w' => packets (w_trace w') = packets (w_trace w) ++ [run_request exec]) w.
Proof.
  intros Hz. apply wp_run_sent; [done|]. intros r1 d1 reply w1 _ Htr _ _.
  destruct (r1 <? 0); [by rewrite Htr, packets_app|].
  apply wp_read. intros res data d _. destruct (_ <? _); [done|]. cbn beta iota.
  eapply wp_mono; [apply run_verdict_quiet|]. cbn beta. wsimpl. intros _ w' ->.
  by rewrite Htr, !packets_app, app_nil_r.
Qed.

(** On a transport other than USB, `run` sends one request naming the program; the exit code
    is ERR_COMM exactly on a transport error, and the message says whether the virtual
    machine accepted the program. *)
Theorem run_spec exec timeout fuel (w : World D) r1 d1 r2 data d2 :
  zlen exec + 22 < 65535 ->
  tr_write (run_request exec) (w_dev w) = (r1, d1) ->
  tr_read 1026 (i32 (if timeout =? 0 then TIMEOUT else timeout)) d1 = (r2, data, d2) ->
  5 <= zlen data <= 1024 ->
  wp (run false fuel exec timeout) (fun code w' =>
    packets (w_trace w') = packets (w_trace w) ++ [run_request exec]
    /\ (if (r1 <? 0) || (r2 <? 0) then code = ERR_COMM
        else code = ERR_UNK /\ w_errmsg w' = Some (run_message r2 data))) w.
Proof.
  intros Hz Hw Hr Hd. apply wp_run_sent; [done|]. intros r1' d1' reply w1.
  rewrite Hw. intros [= <- <-] Htr Hdev Hlen. destruct (r1 <? 0).
  { by rewrite Htr, packets_app. }
  apply wp_read. rewrite Hdev, Hr. intros ? ? ? [= <- <- <-].
  rewrite (proj2 (Z.ltb_ge _ _)) by (unfold zlen in *; lia). cbn [orb fst snd].
  unfold run_verdict.
  assert (run_succeeded (splice 0 data reply)
          = bool_decide (take 5 data = EXECUTE_FILE_REPLY_SUCCESS)) as ->.
  { unfold run_succeeded, splice. rewrite take_0, app_nil_l. change (sizeof VM_REPLY) with 5%nat.
    by rewrite take_app_le by (unfold zlen in Hd; lia). }
  unfold run_status_unknown, run_message.
  destruct (r2 <? 0); [wsteps; by rewrite Htr, !packets_app, app_nil_r|].
  destruct (_ || _); wsteps; by rewrite Htr, !packets_app, app_nil_r.
Qed.

(** A reply to `run` longer than 1024 bytes overflows the buffer: the count passed is the
    size of the buffer and two more. *)
Theorem run_reply_overflow is_hid exec timeout fuel (w : World D) r1 d1 r2 data d2 :
  zlen exec + 22 < 65535 ->
  tr_write (run_request exec) (w_dev w) = (r1, d1) -> 0 <= r1 ->
  tr_read 1026 (i32 (if timeout =? 0 then TIMEOUT else timeout)) d1 = (r2, data, d2) ->
  1024 < zlen data ->
  exists why, run is_hid fuel exec timeout w = Undef why.
Proof.
  intros Hz Hw H1 Hr Hd.
  cut (wp_ True False (run is_hid fuel exec timeout) (fun _ _ => False) w).
  { unfold wp_. destruct (run _ _ _ _ w); eauto; done. }
  apply wp_run_sent; [done|]. intros r1' d1' reply w1.
  rewrite Hw. intros [= <- <-] Htr Hdev Hlen. rewrite (proj2 (Z.ltb_ge _ _)) by lia.
  apply wp_read. rewrite Hdev, Hr. intros ? ? ? [= <- <- <-].
  by rewrite (proj2 (Z.ltb_lt _ _)) by (unfold zlen in *; lia).
Qed.

(** *** vmexec *)

(** The arguments and the bytecode are within the limits of one packet. *)
Definition vm_fits (use_reply : bool) (locals globals : Z) (code : list Z) : Prop :=
  locals <= 63 /\ globals <= (if use_reply then 1019 else 1023) /\ 0 < zlen code < 1017.

(** The direct command that `vmexec` builds is framed, and its allocation field, reply type
    and code are read back as the given numbers of locals and globals, reply mode and
    bytecode. *)
Theorem vm_request_fields use_reply locals globals code :
  0 <= locals <= 63 -> 0 <= globals <= 1023 -> zlen code <= 1017 ->
  let p := vm_request use_reply locals globals code in
  framed p
  /\ get_field EXECUTE_FILE "alloc" p / 1024 = locals
  /\ get_field EXECUTE_FILE "alloc" p mod 1024 = globals
  /\ get_field EXECUTE_FILE "replyType" p = (if use_reply then 0x00 else 0x80)
  /\ drop (sizeof EXECUTE_FILE) p = code.
Proof.
  intros Hl Hg Hc p. split; [by apply framed_vm_request|].
  assert (get_field EXECUTE_FILE "alloc" p = locals * 1024 + globals) as ->.
  { unfold p, vm_request. rewrite get_field_app by (by apply Nat.leb_le).
    unfold vm_header. rewrite get_set_other, get_set_same by (done || by apply Nat.leb_le).
    change (2 ^ (8 * Z.of_nat (widthof EXECUTE_FILE "alloc"))) with 65536.
    apply Z.mod_small. lia. }
  split; [|split; [|split; [by destruct use_reply|done]]]; Z.div_mod_to_equations; lia.
Qed.

Lemma wp_vmexec_sent U B inp out locals globals use_reply code
    (Q : Z * sink -> World D -> Prop) (w : World D) :
  f_data inp = code -> f_pos inp = 0%nat -> f_eof inp = false ->
  vm_fits use_reply locals globals code ->
  let l := Z.max 0 locals in
  let g := Z.max 0 globals in
  let pkt := vm_request use_reply l g code in
  (forall r1 d1 w1, tr_write pkt (w_dev w) = (r1, d1) -> w_dev w1 = d1 ->
    w_trace w1 = w_trace w ++ [Wrote pkt r1] -> w_out w1 = w_out w ->
    if r1 <? 0 then Q (ERR_COMM, out) w1
    else if negb use_reply then Q (ERR_UNK, out) w1
    else forall reply w2, length reply = Z.to_nat (5 + g) ->
      w_dev w2 = d1 -> w_trace w2 = w_trace w1 -> w_out w2 = w_out w ->
      wp_ U B (ev3_read_timeout reply (5 + g) TIMEOUT)
       (fun a w3 => wp_ U B (vmexec_reply out g a.1 a.2) Q w3) w2) ->
  wp_ U B (vmexec inp out locals globals use_reply) Q w.
Proof.
  intros Hd Hp He (Hl & Hg & Hc) l g pkt H. unfold vmexec.
  change (Z.shiftl 1 6 - 1) with 63. change (Z.shiftl 1 10 - 1) with 1023.
  change (1024 - Z.of_nat (sizeof VM_REPLY)) with 1019.
  rewrite !clamp0. fold l g.
  rewrite (proj2 (Z.ltb_ge 63 l)) by lia.
  rewrite (proj2 (Z.ltb_ge _ g)) by (destruct use_reply; lia).
  change max_bytecodes with 1017. change (Z.to_nat 1017) with 1017%nat.
  walloc. wsteps. unfold fread. rewrite Hd, Hp, He. change (slice 0 1017 code) with (take 1017 code).
  unfold zlen in Hc. rewrite take_ge by lia. unfold feof. cbn [f_eof orb].
  rewrite (proj2 (Nat.ltb_lt _ _)) by lia. cbn [negb].
  rewrite (proj2 (Z.eqb_neq _ _)) by (unfold zlen; lia).
  set (buf := set_field EXECUTE_FILE "packetLen" _ _).
  assert (exists rest, buf = pkt ++ rest) as [rest Hbuf].
  { exists (drop (length code) junk). unfold buf, pkt, vm_request, vm_header.
    rewrite splice_front by done.
    rewrite <- app_assoc. rewrite !set_field_app by (by apply Nat.leb_le).
    rewrite vm_alloc_lor by (destruct use_reply; lia).
    change (Z.of_nat (sizeof VM_CMD)) with 8. unfold PREFIX_SIZE.
    replace (zlen code + 8 - 3) with (zlen code + 5) by lia. by rewrite vm_header_eq. }
  rewrite Hbuf. wsteps. apply write_prefix; [apply framed_vm_request; unfold zlen; lia| |].
  { unfold pkt, vm_request. rewrite length_app. change (length (vm_header _ _ _ _)) with 8%nat.
    change (sizeof SYSTEM_CMD) with 7%nat. lia. }
  wsimpl. intros r1 d1 Hw. destruct (r1 <? 0) eqn:E1.
  { wsteps. match goal with |- Q _ ?x => specialize (H r1 d1 x Hw) end.
    rewrite E1 in H. by apply H. }
  destruct use_reply; cbn [negb].
  - wsteps. match goal with |- wp_ _ _ _ _ (MkWorld _ ?t ?o ?e ?m ?n ?j ?b) =>
      specialize (H r1 d1 (MkWorld d1 t o e m n j b) Hw eq_refl eq_refl eq_refl) end.
    rewrite E1 in H. cbn [negb] in H. change (Z.of_nat (sizeof VM_REPLY)) with 5 in *.
    eapply wp_mono; [by apply H|]. by intros [r2 rep] w3.
  - wsteps. match goal with |- Q _ ?x => specialize (H r1 d1 x Hw) end.
    rewrite E1 in H. by apply H.
Qed.

(** C38: `vmexec` sends the bytecode with the variable counts packed into one field and
    writes exactly the global variables of the reply to the chosen output. *)
Theorem vmexec_runs inp out locals globals code rep d2 (w : World D) :
  f_data inp = code -> f_pos inp = 0%nat -> f_eof inp = false ->
  vm_fits true locals globals code ->
  let g := Z.max 0 globals in
  exchange (vm_request true (Z.max 0 locals) g code) (5 + g) rep (w_dev w) d2 ->
  zlen rep = 5 + g -> get_field VM_REPLY "replyType" rep = VM_DIRECT_OK ->
  wp (vmexec inp out locals globals true) (fun r w' =>
    r.1 = ERR_UNK /\ w_dev w' = d2
    /\ packets (w_trace w') =
         packets (w_trace w) ++ [vm_request true (Z.max 0 locals) g code]
    /\ match out with
       | NoOut => r.2 = NoOut /\ w_out w' = w_out w
       | ToStdout => r.2 = ToStdout /\ w_out w' = w_out w ++ drop 5 rep
       | ToFile fp => r.2 = ToFile (fwrite (drop 5 rep) fp).2 /\ w_out w' = w_out w
       end) w.
Proof.
  intros Hd Hp He Hfit g (r1 & d1 & r2 & Hw & H1 & Hr & H2) Hz Hty.
  apply (wp_vmexec_sent _ _ _ _ _ _ _ code); [done..|]. fold g.
  intros r1' d1' w1. rewrite Hw. intros [= <- <-] Hdev Htr Hout.
  rewrite (proj2 (Z.ltb_ge _ _)) by lia. cbn [negb]. intros reply w2 Hl Hdev2 Htr2 Hout2.
  apply wp_read. rewrite Hdev2, Hr. intros ? ? ? [= <- <- <-].
  assert (length rep = length reply) as Hlen by (unfold zlen in Hz; lia).
  rewrite (proj2 (Z.ltb_ge _ _)) by (unfold zlen; lia). rewrite splice_all by done.
  cbn [fst snd]. unfold vmexec_reply. rewrite (proj2 (Z.leb_gt _ _)) by lia.
  rewrite Hty, Z.eqb_refl. cbn [negb]. change (sizeof VM_REPLY) with 5%nat.
  assert (slice 5 (Z.to_nat g) rep = drop 5 rep) as ->.
  { unfold slice. apply take_ge. rewrite length_drop. unfold zlen in Hz. lia. }
  destruct out; cbn [write_sink]; wsteps;
    rewrite Htr2, Htr, !packets_app, app_nil_r; repeat split; by rewrite ?Hout2.
Qed.

(** When the counts or the bytecode do not fit a packet, `vmexec` fails without sending
    anything and leaves the output untouched. *)
Theorem vmexec_rejects inp out locals globals use_reply code (w : World D) :
  f_data inp = code -> f_pos inp = 0%nat -> f_eof inp = false ->
  ~ vm_fits use_reply locals globals code ->
  wp (vmexec inp out locals globals use_reply) (fun r w' =>
    (r.1 = ERR_ARG \/ r.1 = ERR_IO) /\ r.2 = out /\ w_trace w' = w_trace w) w.
Proof.
  intros Hd Hp He Hbad. unfold vmexec.
  change (Z.shiftl 1 6 - 1) with 63. change (Z.shiftl 1 10 - 1) with 1023.
  change (1024 - Z.of_nat (sizeof VM_REPLY)) with 1019.
  rewrite !clamp0. destruct (63 <? _) eqn:E1; [wsteps; auto|].
  destruct ((if use_reply then 1019 else 1023) <? _) eqn:E2; [wsteps; auto|].
  apply Z.ltb_ge in E1, E2.
  walloc. wsteps. unfold fread, feof. rewrite Hd, Hp, He. cbn [f_eof orb].
  change (Z.to_nat max_bytecodes) with 1017%nat. change (slice 0 1017 code) with (take 1017 code).
  rewrite length_take. destruct (_ <? 1017)%nat eqn:E3; cbn [negb]; [|wsteps; auto].
  apply Nat.ltb_lt in E3. rewrite take_ge by lia.
  destruct (zlen code =? 0) eqn:E4; [wsteps; auto|]. exfalso. apply Hbad.
  unfold vm_fits, zlen in *. destruct use_reply; lia.
Qed.
End spec.
