(* ===== verification/BtUnix.v ===== *)
(** * BtUnix: packets over a byte stream (src/bt-unix.c)

    A file descriptor is what will still arrive on it and how it will take what
    is written; at the end of the script the peer has closed the connection.
    [bt_read] cuts the stream into packets, [bt_write] sends a packet without
    its HID byte.  The TCP connection uses the same two functions
    (src/tcp.c:287-289). *)

From S2P Require Import Prelude IO Cstr.

(** ** File descriptors *)

(** [RdDelay]: nothing arrives for longer than any finite timeout. *)
Inductive rd_event := RdBytes (bs : list Z) | RdErr | RdDelay.
(** [WrSome k]: a write takes [k] bytes (at least one, at most all);
    at the end of the script everything is taken. *)
Inductive wr_event := WrSome (k : nat) | WrErr.

Record fd_state := MkFd {
  fd_in : list rd_event;
  fd_wr : list wr_event;
  fd_sent : list Z;
}.

Definition fd_with_in (evs : list rd_event) (s : fd_state) : fd_state :=
  MkFd evs (fd_wr s) (fd_sent s).

(** [read(fd, buf, n)]: the result, the bytes stored, what is left. *)
Fixpoint read_events (n : nat) (evs : list rd_event) : Z * list Z * list rd_event :=
  match evs with
  | [] => (0, [], [])
  | RdErr :: t => (-1, [], t)
  | RdDelay :: t => read_events n t
  | RdBytes [] :: t => read_events n t
  | RdBytes bs :: t =>
      (zlen (take n bs), take n bs,
       if (length bs <=? n)%nat then t else RdBytes (drop n bs) :: t)
  end.
Definition fd_read (n : nat) (s : fd_state) : Z * list Z * fd_state :=
  let '(ret, bs, evs) := read_events n (fd_in s) in (ret, bs, fd_with_in evs s).

(** [select] on the descriptor with a finite timeout. *)
Fixpoint select_events (evs : list rd_event) : bool * list rd_event :=
  match evs with
  | RdDelay :: t => (false, t)
  | RdBytes [] :: t => select_events t
  | _ => (true, evs)
  end.

(** [write(fd, buf, n)] for [n > 0]. *)
Definition fd_write (bs : list Z) (s : fd_state) : Z * fd_state :=
  match fd_wr s with
  | [] => (zlen bs, MkFd (fd_in s) [] (fd_sent s ++ bs))
  | WrErr :: t => (-1, MkFd (fd_in s) t (fd_sent s))
  | WrSome k :: t =>
      let n := Nat.max 1 (Nat.min k (length bs)) in
      (Z.of_nat n, MkFd (fd_in s) t (fd_sent s ++ take n bs))
  end.

(** ** bt_write *)

(** The loop; every round sends at least one byte. *)
Fixpoint bt_write_loop (fuel : nat) (sent : nat) (buf : list Z) (s : fd_state)
    : nat * fd_state :=
  match fuel with
  | O => (sent, s)
  | S fuel =>
      if (sent <? length buf)%nat then
        let '(ret, s) := fd_write (drop sent buf) s in
        if ret =? -1 then (sent, s)
        else bt_write_loop fuel (sent + Z.to_nat ret)%nat buf s
      else (sent, s)
  end.

(** [buf] has at least the HID byte. *)
Definition bt_write (buf : list Z) (s : fd_state) : Z * fd_state :=
  let buf := tail buf in
  let '(sent, s) := bt_write_loop (length buf) 0 buf s in
  (Z.of_nat sent, s).

(** ** bt_read *)

(** The two length bytes: [None] when a read fails or meets the end. *)
Fixpoint bt_read_header (fuel : nat) (got : list Z) (s : fd_state)
    : option (list Z) * fd_state :=
  match fuel with
  | O => (Some got, s)
  | S fuel =>
      let '(ret, bs, s) := fd_read (2 - length got) s in
      if ret <=? 0 then (None, s)
      else
        let got := got ++ bs in
        if (length got =? 2)%nat then (Some got, s) else bt_read_header fuel got s
  end.

(** The rest of the packet: the bytes so far, and whether a read failed. *)
Fixpoint bt_read_body (fuel packet_len : nat) (got : list Z) (s : fd_state)
    : bool * list Z * fd_state :=
  match fuel with
  | O => (true, got, s)
  | S fuel =>
      if (length got <? packet_len)%nat then
        let '(ret, bs, s) := fd_read (packet_len - length got) s in
        if ret =? 0 then (true, got, s)
        else if ret =? -1 then (false, got, s)
        else bt_read_body fuel packet_len (got ++ bs) s
      else (true, got, s)
  end.

(** The result and the bytes stored from the start of the buffer.  The text that perror
    prints after a failed read is left out. *)
Definition bt_read (count milliseconds : Z) (s : fd_state) : Z * list Z * fd_state :=
  let '(ready, s) :=
    if 0 <=? milliseconds then
      let '(ready, evs) := select_events (fd_in s) in (ready, fd_with_in evs s)
    else (true, s) in
  if negb ready then (0, [], s) else
  match bt_read_header 2 [] s with
  | (None, s) => (-1, [], s)
  | (Some hdr, s) =>
      let packet_len := 2 + Z.lor (nth 0 hdr 0) (Z.shiftl (nth 1 hdr 0) 8) in
      if 2 * count <? packet_len then (-1, hdr, s) else
      let '(ok, got, s) := bt_read_body (Z.to_nat packet_len) (Z.to_nat packet_len) hdr s in
      if ok then (zlen got, got, s) else (-1, got, s)
  end.

#[export] Instance bt_transport : Transport fd_state :=
  { tr_write := bt_write; tr_read := bt_read }.

(** ** Terminals

    The flags have their values on Linux.  A device is named by its path; only
    terminals have a mode.  A system call that changes a terminal may fail:
    [tty_fails] says so for the calls to come, and at its end they succeed. *)

Definition IGNBRK : Z := 0x1.
Definition BRKINT : Z := 0x2.
Definition IGNPAR : Z := 0x4.
Definition PARMRK : Z := 0x8.
Definition INPCK : Z := 0x10.
Definition ISTRIP : Z := 0x20.
Definition INLCR : Z := 0x40.
Definition IGNCR : Z := 0x80.
Definition ICRNL : Z := 0x100.
Definition IXON : Z := 0x400.
Definition IXOFF : Z := 0x1000.
Definition OPOST : Z := 0x1.
Definition CREAD : Z := 0x80.
Definition CS8 : Z := 0x30.
Definition ISIG : Z := 0x1.
Definition ICANON : Z := 0x2.
Definition ECHO : Z := 0x8.
Definition IEXTEN : Z := 0x8000.
Definition VTIME : nat := 5.
Definition VMIN : nat := 6.

Record termios := MkTermios {
  c_iflag : Z;
  c_oflag : Z;
  c_cflag : Z;
  c_lflag : Z;
  c_cc : list Z;
  c_rest : list Z;      (* line discipline and speeds *)
}.

Record tty := MkTty {
  tty_modes : gmap (list Z) termios;
  tty_fds : gmap Z (list Z);              (* open descriptors, with the device *)
  tty_next : Z;                           (* the next descriptor *)
  tty_fails : list bool;
}.

Definition tty_call (t : tty) : bool * tty :=
  match tty_fails t with
  | [] => (true, t)
  | bad :: bs => (negb bad, MkTty (tty_modes t) (tty_fds t) (tty_next t) bs)
  end.
Definition tcgetattr (fd : Z) (t : tty) : option termios * tty :=
  let '(ok, t) := tty_call t in
  (if (ok : bool) then tty_fds t !! fd ≫= (tty_modes t !!.) else None, t).
Definition tcsetattr (fd : Z) (m : termios) (t : tty) : bool * tty :=
  let '(ok, t) := tty_call t in
  match tty_fds t !! fd with
  | Some dev =>
      if ok && bool_decide (is_Some (tty_modes t !! dev)) then
        (true, MkTty (<[dev := m]> (tty_modes t)) (tty_fds t) (tty_next t) (tty_fails t))
      else (false, t)
  | None => (false, t)
  end.
Definition tty_close (fd : Z) (t : tty) : tty :=
  MkTty (tty_modes t) (delete fd (tty_fds t)) (tty_next t) (tty_fails t).

(** The mode of [set_termios]. *)
Definition raw_mode (m : termios) : termios :=
  MkTermios
    (Z.land (c_iflag m) (Z.lnot (foldr Z.lor 0
       [BRKINT; ICRNL; IGNBRK; IGNCR; IGNPAR; INLCR; INPCK; ISTRIP; IXOFF; IXON; PARMRK])))
    (Z.land (c_oflag m) (Z.lnot OPOST))
    (Z.lor (c_cflag m) (Z.lor CREAD CS8))
    (Z.land (c_lflag m) (Z.lnot (foldr Z.lor 0 [ECHO; ICANON; ISIG; IEXTEN])))
    (<[VTIME := 0]> (<[VMIN := 1]> (c_cc m)))
    (c_rest m).

(** [set_termios]: the mode that was there; [None] is a negative result.  With it
    the messages of [perror]. *)
Definition set_termios (fd : Z) (t : tty) : option termios * list string * tty :=
  match tcgetattr fd t with
  | (None, t) => (None, ["cannot get tty attributes"%string], t)
  | (Some old, t) =>
      match tcsetattr fd (raw_mode old) t with
      | (false, t) => (None, ["cannot set tty attributes"%string], t)
      | (true, t) => (Some old, [], t)
      end
  end.

(** ** bt_open and bt_close *)

Inductive open_mode := O_RDONLY | O_WRONLY | O_RDWR.

Record bt_handle := MkBtHandle {
  read_fd : Z;
  write_fd : Z;
  old_read_mode : termios;
  old_write_mode : termios;
}.

(** The end of [bt_open], with both descriptors. *)
Definition bt_attach (read_fd write_fd : Z) (t : tty) : option bt_handle * list string * tty :=
  match set_termios read_fd t with
  | (None, msgs, t) => (None, msgs, t)
  | (Some old_read, _, t) =>
      match set_termios write_fd t with
      | (None, msgs, t) => (None, msgs, t)
      | (Some old_write, _, t) => (Some (MkBtHandle read_fd write_fd old_read old_write), [], t)
      end
  end.

Section bt_open.
(** Whether [open(2)] succeeds; it gives a descriptor that is not in use. *)
Variable os_open : list Z -> open_mode -> bool.

Definition tty_open (path : list Z) (mode : open_mode) (t : tty) : Z * tty :=
  if os_open path mode then
    (tty_next t,
     MkTty (tty_modes t) (<[tty_next t := path]> (tty_fds t)) (tty_next t + 1) (tty_fails t))
  else (-1, t).

Definition BT : list Z := str "/dev/cu.EV3-SerialPort".

Definition bt_open (file file2 : option (list Z)) (t : tty)
    : option bt_handle * list string * tty :=
  let '(read_fd, write_fd, t) :=
    match file2 with
    | Some _ =>
        let '(r, t) := tty_open (default BT file) O_RDONLY t in
        let '(w, t) := tty_open (default BT file) O_WRONLY t in (r, w, t)
    | None => let '(fd, t) := tty_open (default BT file) O_RDWR t in (fd, fd, t)
    end in
  if (write_fd =? -1) || (read_fd =? -1) then (None, [], t)
  else bt_attach read_fd write_fd t.
End bt_open.

(** [bt_close]. *)
Definition bt_close (cb : bt_handle) (t : tty) : list string * tty :=
  let '(ok1, t) := tcsetattr (write_fd cb) (old_write_mode cb) t in
  let '(ok2, t) := tcsetattr (read_fd cb) (old_read_mode cb) t in
  let failed (ok : bool) := if ok then [] else ["cannot revert tty attributes"%string] in
  (failed ok1 ++ failed ok2, tty_close (read_fd cb) (tty_close (write_fd cb) t)).

(** [bt_error]: [mbstowcs] stores as many wide characters as the message has, and
    no terminating one, into a block of exactly that many; a text that is not
    valid in the locale gives the other string.  [None]: the block that is
    returned has no end. *)
Definition bt_error (mbstowcs : list Z -> option (list Z)) (errstr : list Z) : option (list Z) :=
  match mbstowcs errstr with
  | Some ws =>
      cstr_of (take (length errstr) (ws ++ [0]))
  | None => Some (str "Error in printing error")
  end.

(** ** What arrives

    [delivers evs l t]: reading [evs] yields the bytes [l], however they are
    cut into segments and delayed, and leaves [t]. *)
Inductive delivers : list rd_event -> list Z -> list rd_event -> Prop :=
| delivers_nil t : delivers t [] t
| delivers_delay evs l t : delivers evs l t -> delivers (RdDelay :: evs) l t
| delivers_bytes bs evs l t : delivers evs l t -> delivers (RdBytes bs :: evs) (bs ++ l) t
| delivers_split a b evs : b <> [] -> delivers (RdBytes (a ++ b) :: evs) a (RdBytes b :: evs).

Lemma delivers_app evs a b t u :
  delivers evs a t -> delivers t b u -> delivers evs (a ++ b) u.
Proof.
  intros H. revert b u.
  induction H as [t|evs l t H IH|bs evs l t H IH|a b evs Hb]; intros b' u Hu; simpl;
    auto using delivers.
  - rewrite <- app_assoc. auto using delivers.
  - inversion Hu as [| |bs evs' l t H|c d evs' Hd]; subst.
    + rewrite app_nil_r. by constructor.
    + rewrite app_assoc. by constructor.
    + rewrite app_assoc. by constructor.
Qed.

(** One read takes a part of what arrives. *)
Lemma read_events_delivers n evs l t :
  delivers evs l t -> (0 < n <= length l)%nat ->
  exists k evs', read_events n evs = (Z.of_nat k, take k l, evs')
    /\ (0 < k <= n)%nat /\ delivers evs' (drop k l) t.
Proof.
  intros H. induction H as [t|evs l t H IH|bs evs l t H IH|a b evs Hb]; intros Hn.
  - simpl in Hn. lia.
  - simpl. auto.
  - destruct bs as [|b bs]; [simpl; auto|]. cbn [read_events].
    set (bs' := b :: bs) in *. exists (Nat.min n (length bs')).
    assert (0 < length bs')%nat by (unfold bs'; simpl; lia).
    unfold zlen. rewrite length_take. destruct (length bs' <=? n)%nat eqn:E.
    + apply Nat.leb_le in E. rewrite Nat.min_r, take_ge, take_app_length, drop_app_length by lia.
      eexists. by split; [|split; [lia|]].
    + apply Nat.leb_gt in E. rewrite Nat.min_l, take_app_le, drop_app_le by lia.
      eexists. split; [done|]. split; [lia|]. by constructor.
  - assert (take n (a ++ b) = take n a) as Htk by (apply take_app_le; lia).
    assert (length (a ++ b) <=? n = false)%nat as E.
    { apply Nat.leb_gt. rewrite length_app. destruct b; [done|simpl; lia]. }
    exists n. destruct (a ++ b) as [|x xs] eqn:Hab; [simpl in E; lia|].
    cbn [read_events]. rewrite <- Hab in *. rewrite E, Htk. unfold zlen.
    rewrite length_take, Nat.min_l by lia. eexists. split; [done|]. split; [lia|].
    rewrite drop_app_le by lia. by constructor.
Qed.

Lemma fd_read_delivers n s l t :
  delivers (fd_in s) l t -> (0 < n <= length l)%nat ->
  exists k evs', fd_read n s = (Z.of_nat k, take k l, fd_with_in evs' s)
    /\ (0 < k <= n)%nat /\ delivers evs' (drop k l) t.
Proof.
  intros H Hn. destruct (read_events_delivers _ _ _ _ H Hn) as (k & evs' & Hr & Hk & Hd).
  exists k, evs'. unfold fd_read. by rewrite Hr.
Qed.

(** A packet of the protocol: its first two bytes count the rest. *)
Definition stream_packet (p : list Z) : Prop :=
  bytes_ok p /\ (2 <= length p)%nat /\ zlen p = 2 + le_val (take 2 p).

Lemma bt_read_header_delivers fuel got s l t :
  delivers (fd_in s) l t -> (length got < 2)%nat -> (2 <= length got + fuel)%nat ->
  (2 <= length got + length l)%nat ->
  exists evs', bt_read_header fuel got s = (Some (take 2 (got ++ l)), fd_with_in evs' s)
    /\ delivers evs' (drop (2 - length got) l) t.
Proof.
  revert got s l. induction fuel as [|fuel IH]; intros got s l Hd Hg Hf Hl; [lia|].
  cbn [bt_read_header].
  destruct (fd_read_delivers (2 - length got) s l t Hd) as (k & evs' & -> & Hk & Hd'); [lia|].
  rewrite (proj2 (Z.leb_gt _ _)) by lia.
  assert (length (take k l) = k) as Hlk by (rewrite length_take; lia).
  rewrite length_app, Hlk. destruct (_ =? 2)%nat eqn:E.
  - apply Nat.eqb_eq in E. assert (k = 2 - length got)%nat as -> by lia.
    exists evs'. split; [|done]. do 2 f_equal. rewrite take_app.
    by rewrite (take_ge got) by lia.
  - apply Nat.eqb_neq in E.
    destruct (IH (got ++ take k l) (fd_with_in evs' s) (drop k l)) as (evs2 & Hr & Hd2);
      [done|rewrite length_app; lia..|rewrite length_app, length_drop; lia|].
    exists evs2. rewrite Hr, <- app_assoc, take_drop. split; [done|].
    rewrite length_app, Hlk, drop_drop in Hd2.
    by replace (k + (2 - (length got + k)))%nat with (2 - length got)%nat in Hd2 by lia.
Qed.

Lemma bt_read_body_delivers fuel n got s l t :
  delivers (fd_in s) l t -> (n = length got + length l)%nat -> (length l <= fuel)%nat ->
  exists evs', bt_read_body fuel n got s = (true, got ++ l, fd_with_in evs' s)
    /\ delivers evs' [] t.
Proof.
  revert got s l. induction fuel as [|fuel IH]; intros got s l Hd Hn Hf.
  { destruct l; [|simpl in Hf; lia]. exists (fd_in s). rewrite app_nil_r. by destruct s. }
  cbn [bt_read_body]. destruct (length got <? n)%nat eqn:E.
  - apply Nat.ltb_lt in E.
    destruct (fd_read_delivers (n - length got) s l t Hd) as (k & evs' & -> & Hk & Hd'); [lia|].
    rewrite (proj2 (Z.eqb_neq _ 0)), (proj2 (Z.eqb_neq _ (-1))) by lia.
    destruct (IH (got ++ take k l) (fd_with_in evs' s) (drop k l)) as (evs2 & Hr & Hd2);
      [done|rewrite length_app, length_take, length_drop; lia|rewrite length_drop; lia|].
    exists evs2. by rewrite Hr, <- app_assoc, take_drop.
  - apply Nat.ltb_ge in E. destruct l; [|simpl in Hn; lia].
    exists (fd_in s). rewrite app_nil_r. by destruct s.
Qed.

(** The length the code computes from the two header bytes. *)
Lemma header_length p :
  stream_packet p ->
  2 + Z.lor (nth 0 (take 2 p) 0) (Z.shiftl (nth 1 (take 2 p) 0) 8) = zlen p.
Proof.
  intros (Hok & Hl & ->). destruct p as [|a [|b p]]; try (simpl in Hl; lia).
  apply Forall_cons in Hok as [Ha Hok]. apply Forall_cons in Hok as [Hb _].
  unfold byte_ok in *. cbn [take nth le_val]. rewrite Z.mul_0_r, Z.add_0_r.
  assert (Z.land a (Z.shiftl b 8) = 0) as Hland.
  { rewrite Z.shiftl_mul_pow2 by lia. apply Z.bits_inj'. intros i Hi.
    rewrite Z.land_spec, Z.bits_0. destruct (decide (i < 8)).
    - by rewrite Z.mul_pow2_bits_low, andb_false_r by lia.
    - by rewrite (testbit_above a 8) by lia. }
  rewrite <- Z.lxor_lor, <- Z.add_nocarry_lxor, Z.shiftl_mul_pow2 by (done || lia). lia.
Qed.

Lemma bt_read_arrived count ms s p t :
  (if 0 <=? ms then exists s', select_events (fd_in s) = (true, s') /\ delivers s' p t
   else delivers (fd_in s) p t) ->
  stream_packet p -> zlen p <= 2 * count ->
  exists evs', bt_read count ms s = (zlen p, p, fd_with_in evs' s) /\ delivers evs' [] t.
Proof.
  intros Hd Hp Hc. unfold bt_read. pose proof Hp as (_ & Hl & _).
  assert (exists evs0, (if 0 <=? ms then
      let '(ready, evs) := select_events (fd_in s) in (ready, fd_with_in evs s)
      else (true, s)) = (true, fd_with_in evs0 s) /\ delivers evs0 p t) as (evs0 & -> & Hd0).
  { destruct (0 <=? ms); [destruct Hd as (evs0 & -> & ?); eauto|].
    exists (fd_in s). by destruct s. }
  cbn [negb].
  destruct (bt_read_header_delivers 2 [] (fd_with_in evs0 s) p t Hd0) as (evs1 & -> & Hd1);
    [simpl; lia..|]. cbn [app]. rewrite (header_length p Hp).
  rewrite (proj2 (Z.ltb_ge _ _)) by lia. unfold zlen at 1 2. rewrite Nat2Z.id.
  destruct (bt_read_body_delivers (length p) (length p) (take 2 p)
    (fd_with_in evs1 (fd_with_in evs0 s)) (drop 2 p) t Hd1) as (evs2 & -> & Hd2).
  { rewrite length_take, length_drop. lia. }
  { rewrite length_drop. lia. }
  exists evs2. by rewrite take_drop.
Qed.

Lemma select_delivers evs evs' l t :
  select_events evs = (true, evs') -> delivers evs l t -> l <> [] -> delivers evs' l t.
Proof.
  intros Hs H. revert evs' Hs.
  induction H as [t|evs l t H IH|bs evs l t H IH|a b evs Hb]; intros evs' Hs Hl; [done|done|..].
  - destruct bs; simplify_eq/=; [by apply IH|]. by apply (delivers_bytes (_ :: _)).
  - destruct (a ++ b) eqn:Hab.
    { apply app_eq_nil in Hab as [-> ->]. done. }
    simplify_eq/=. rewrite <- Hab. by constructor.
Qed.

(** Something is there when the call polls, or it waits without limit. *)
Definition arrives_in_time (ms : Z) (s : fd_state) : Prop :=
  ms < 0 \/ (select_events (fd_in s)).1 = true.

Lemma bt_read_one count ms s p t :
  delivers (fd_in s) p t -> arrives_in_time ms s -> stream_packet p -> zlen p <= 2 * count ->
  exists evs', bt_read count ms s = (zlen p, p, fd_with_in evs' s) /\ delivers evs' [] t.
Proof.
  intros Hd Hms Hp Hc. apply bt_read_arrived; [|done..].
  destruct (Z.leb_spec 0 ms); [|done]. destruct Hms as [|Hs]; [lia|].
  destruct (select_events (fd_in s)) as [b s'] eqn:E. simpl in Hs. subst b.
  exists s'. split; [done|]. eapply select_delivers; [exact E|done|].
  destruct Hp as (_ & Hl & _). destruct p; [simpl in Hl; lia|done].
Qed.

(** One call of `bt_read` returns one packet of the stream. *)
Theorem bt_read_packet count ms s p t :
  delivers (fd_in s) p t -> arrives_in_time ms s -> stream_packet p -> zlen p <= 2 * count ->
  exists evs', bt_read count ms s = (zlen p, p, fd_with_in evs' s) /\ delivers evs' [] t.
Proof. apply bt_read_one. Qed.

(** Splitting what arrives. *)
Lemma delivers_app_inv evs a b t :
  delivers evs (a ++ b) t -> exists u, delivers evs a u /\ delivers u b t.
Proof.
  intros H. remember (a ++ b) as l eqn:Hl. revert a b Hl.
  induction H as [t|evs l t H IH|bs evs l t H IH|c d evs Hd]; intros a b Hl.
  - symmetry in Hl. apply app_eq_nil in Hl as [-> ->]. eauto using delivers.
  - destruct (IH a b Hl) as (u & ? & ?). eauto using delivers.
  - apply app_eq_inv in Hl as [(k & -> & ->)|(k & -> & ->)].
    + destruct k as [|x k].
      * exists evs. rewrite !app_nil_r. split; [|done].
        rewrite <- (app_nil_r a) at 2. constructor. constructor.
      * exists (RdBytes (x :: k) :: evs). split; by constructor.
    + destruct (IH k b eq_refl) as (u & ? & ?). exists u. split; [by constructor|done].
  - subst c. destruct b as [|x b].
    + exists (RdBytes d :: evs). rewrite app_nil_r. split; by constructor.
    + rewrite <- app_assoc. exists (RdBytes ((x :: b) ++ d) :: evs). split; by constructor.
Qed.

(** [n] reads that wait without limit. *)
Fixpoint bt_reads (n : nat) (count : Z) (s : fd_state) : list (Z * list Z) * fd_state :=
  match n with
  | O => ([], s)
  | S n =>
      let '(ret, data, s) := bt_read count (-1) s in
      let '(rest, s) := bt_reads n count s in ((ret, data) :: rest, s)
  end.

Lemma bt_reads_all count ps s t :
  Forall (fun p => stream_packet p /\ zlen p <= 2 * count) ps ->
  delivers (fd_in s) (concat ps) t ->
  exists evs', bt_reads (length ps) count s = (map (fun p => (zlen p, p)) ps, fd_with_in evs' s)
    /\ delivers evs' [] t.
Proof.
  intros Hps. revert s. induction Hps as [|p ps [Hp Hc] _ IH]; intros s Hd.
  { exists (fd_in s). by destruct s. }
  apply delivers_app_inv in Hd as (u & Hd1 & Hd2).
  destruct (bt_read_one count (-1) s p u Hd1) as (evs1 & Hr & Hu); [by left; lia|done..|].
  destruct (IH (fd_with_in evs1 s)) as (evs2 & Hrs & Ht).
  { by apply (delivers_app evs1 [] (concat ps) u). }
  exists evs2. cbn [length bt_reads]. by rewrite Hr, Hrs.
Qed.

(** C12: Successive `bt_read` calls on a byte stream return the packets that were written
    into it, one per call with its two length bytes, however the stream is cut into reads.
    *)
Theorem bt_reads_packets count ps s t :
  Forall (fun p => stream_packet p /\ zlen p <= 2 * count) ps ->
  delivers (fd_in s) (concat ps) t ->
  exists evs', bt_reads (length ps) count s = (map (fun p => (zlen p, p)) ps, fd_with_in evs' s)
    /\ delivers evs' [] t.
Proof. apply bt_reads_all. Qed.

(** A packet longer than the count but at most twice as long is written past the end of the
    buffer of the caller. *)
Theorem bt_read_overruns count s p t (w : World fd_state) buf :
  w_dev w = s -> zlen buf = count ->
  delivers (fd_in s) p t -> stream_packet p -> count < zlen p <= 2 * count ->
  ev3_read_timeout buf count (-1) w = Undef "read: writes past the end of the buffer".
Proof.
  intros Hw Hb Hd Hp Hc.
  destruct (bt_read_one count (-1) s p t Hd) as (evs' & Hr & _); [by left; lia|done|lia|].
  unfold ev3_read_timeout. rewrite Hw. cbn [tr_read bt_transport]. rewrite Hr.
  by rewrite (proj2 (Z.ltb_lt _ _)) by lia.
Qed.

(** *** Writing *)

Lemma bt_write_loop_spec fuel sent buf s :
  (sent <= length buf)%nat -> (length buf <= sent + fuel)%nat ->
  exists n s', bt_write_loop fuel sent buf s = (n, s') /\ (sent <= n <= length buf)%nat
    /\ fd_in s' = fd_in s /\ fd_sent s' = fd_sent s ++ slice sent (n - sent) buf
    /\ (WrErr ∉ fd_wr s -> n = length buf).
Proof.
  revert sent s. induction fuel as [|fuel IH]; intros sent s Hs Hf.
  { exists sent, s. rewrite Nat.sub_diag. unfold slice. rewrite take_0, app_nil_r.
    repeat split; try done; lia. }
  cbn [bt_write_loop]. destruct (sent <? length buf)%nat eqn:E.
  2: { apply Nat.ltb_ge in E. exists sent, s. rewrite Nat.sub_diag. unfold slice.
       rewrite take_0, app_nil_r. repeat split; try done; lia. }
  apply Nat.ltb_lt in E. unfold fd_write.
  pose proof (length_drop buf sent) as Hld.
  assert (forall k t, (0 < k <= length buf - sent)%nat ->
    let s1 := MkFd (fd_in s) t (fd_sent s ++ take k (drop sent buf)) in
    (WrErr ∉ fd_wr s -> WrErr ∉ t) ->
    exists n s', bt_write_loop fuel (sent + k) buf s1 = (n, s') /\ (sent <= n <= length buf)%nat
      /\ fd_in s' = fd_in s /\ fd_sent s' = fd_sent s ++ slice sent (n - sent) buf
      /\ (WrErr ∉ fd_wr s -> n = length buf)) as Hgo.
  { intros k t Hk s1 Ht. destruct (IH (sent + k)%nat s1) as (n & s' & Hr & Hn & Hin & Hse & Hok);
      [lia..|]. exists n, s'. split; [done|]. split; [lia|]. split; [done|].
    split; [|by auto]. rewrite Hse. cbn [fd_sent s1]. rewrite <- app_assoc. f_equal.
    unfold slice. rewrite <- drop_drop, take_take_drop. f_equal. lia. }
  destruct (fd_wr s) as [|[k|] t] eqn:Hwr.
  - rewrite (proj2 (Z.eqb_neq _ _)) by (unfold zlen; lia). unfold zlen. rewrite Nat2Z.id.
    destruct (Hgo (length (drop sent buf)) []) as (n & s' & Hr & H); [lia|by intros; apply not_elem_of_nil|].
    rewrite take_ge in Hr by lia. eauto.
  - rewrite (proj2 (Z.eqb_neq _ _)) by lia. rewrite Nat2Z.id. apply Hgo; [lia|].
    intros Hnin Hin. apply Hnin. by right.
  - exists sent, (MkFd (fd_in s) t (fd_sent s)). rewrite Nat.sub_diag. unfold slice.
    rewrite take_0, app_nil_r. repeat split; try done; try lia.
    intros Hnin. destruct Hnin. by left.
Qed.

Lemma bt_write_out buf s :
  exists n s', bt_write buf s = (Z.of_nat n, s') /\ (n <= length (tail buf))%nat
    /\ fd_sent s' = fd_sent s ++ take n (tail buf) /\ fd_in s' = fd_in s
    /\ (WrErr ∉ fd_wr s -> n = length (tail buf)).
Proof.
  destruct (bt_write_loop_spec (length (tail buf)) 0 (tail buf) s)
    as (n & s' & Hr & Hn & Hin & Hs & Hok); [lia..|].
  exists n, s'. unfold bt_write. rewrite Hr. rewrite Nat.sub_0_r, slice_0 in Hs.
  repeat split; auto; lia.
Qed.

(** `bt_write` sends the packet without its HID byte, retrying after short writes: the bytes
    it reports are the prefix of the packet that went out, and it is the whole packet when
    no write fails. *)
Theorem bt_write_sends buf s :
  exists n s', bt_write buf s = (Z.of_nat n, s') /\ (n <= length (tail buf))%nat
    /\ fd_sent s' = fd_sent s ++ take n (tail buf) /\ fd_in s' = fd_in s
    /\ (WrErr ∉ fd_wr s -> n = length (tail buf)).
Proof. apply bt_write_out. Qed.

(** ** The mode of the terminal *)

(** The descriptors of [t] are older than the next one. *)
Definition tty_ok (t : tty) : Prop := 0 <= tty_next t /\ map_Forall (fun fd _ => fd < tty_next t) (tty_fds t).

Lemma tty_ok_fresh t n : tty_ok t -> tty_next t <= n -> tty_fds t !! n = None.
Proof.
  intros [_ Hok] Hn. destruct (tty_fds t !! n) as [d|] eqn:E; [|done].
  apply Hok in E. lia.
Qed.

Lemma tcsetattr_works fd dev m t :
  tty_fails t = [] -> tty_fds t !! fd = Some dev -> is_Some (tty_modes t !! dev) ->
  tcsetattr fd m t = (true, MkTty (<[dev := m]> (tty_modes t)) (tty_fds t) (tty_next t) []).
Proof.
  intros Hf Hd Hm. unfold tcsetattr, tty_call. rewrite Hf, Hd. cbn [andb].
  by rewrite bool_decide_true, Hf.
Qed.

Lemma set_termios_works fd dev m t :
  tty_fails t = [] -> tty_fds t !! fd = Some dev -> tty_modes t !! dev = Some m ->
  set_termios fd t =
    (Some m, [], MkTty (<[dev := raw_mode m]> (tty_modes t)) (tty_fds t) (tty_next t) []).
Proof.
  intros Hf Hd Hm. unfold set_termios, tcgetattr, tty_call. rewrite Hf, Hd. cbn. rewrite Hm.
  by rewrite (tcsetattr_works _ dev) by eauto.
Qed.

(** No descriptor is opened on a device that is not a terminal without [None]. *)
Lemma set_termios_not_tty fd dev t :
  tty_fails t = [] -> tty_fds t !! fd = Some dev -> tty_modes t !! dev = None ->
  set_termios fd t = (None, ["cannot get tty attributes"%string], t).
Proof.
  intros Hf Hd Hm. unfold set_termios, tcgetattr, tty_call. rewrite Hf, Hd. cbn. by rewrite Hm.
Qed.

(** The terminals are those of [t] again, and no descriptor is left open. *)
Definition released (t t' : tty) : Prop :=
  tty_modes t' = tty_modes t /\ tty_fds t' = tty_fds t.

(** Terminals in raw mode stay as they are. *)
Lemma raw_mode_idem m : raw_mode (raw_mode m) = raw_mode m.
Proof.
  unfold raw_mode. cbn [c_iflag c_oflag c_cflag c_lflag c_cc c_rest]. f_equal.
  - by rewrite <- Z.land_assoc, Z.land_diag.
  - by rewrite <- Z.land_assoc, Z.land_diag.
  - by rewrite <- Z.lor_assoc, Z.lor_diag.
  - by rewrite <- Z.land_assoc, Z.land_diag.
  - rewrite (list_insert_insert_ne _ VMIN VTIME), list_insert_insert_eq by done.
    by rewrite list_insert_insert_eq.
Qed.

(** Two descriptors of the same terminal, or one twice: the mode that was there
    before the first was opened is written last. *)
Lemma bt_attach_close r w dev t fds res msgs t1 :
  tty_fails t = [] -> tty_fds t !! r = Some dev -> tty_fds t !! w = Some dev ->
  delete r (delete w (tty_fds t)) = fds ->
  bt_attach r w t = (res, msgs, t1) ->
  match res with
  | Some cb =>
      (exists m, tty_modes t !! dev = Some m
         /\ tty_modes t1 = <[dev := raw_mode m]> (tty_modes t))
      /\ tty_fails t1 = [] /\ (bt_close cb t1).1 = []
      /\ tty_modes (bt_close cb t1).2 = tty_modes t /\ tty_fds (bt_close cb t1).2 = fds
  | None => tty_modes t1 = tty_modes t
  end.
Proof.
  intros Hf Hr Hw Hd. unfold bt_attach. destruct (tty_modes t !! dev) as [m|] eqn:Hm.
  2: { rewrite (set_termios_not_tty r dev) by done. by intros [= <- <- <-]. }
  rewrite (set_termios_works r dev m) by done.
  rewrite (set_termios_works w dev (raw_mode m)) by (done || by cbn; rewrite lookup_insert_eq).
  intros [= <- <- <-]. cbn [tty_next tty_modes tty_fds tty_fails].
  rewrite insert_insert_eq, raw_mode_idem. split; [by eauto|]. split; [done|].
  unfold bt_close. cbn [write_fd read_fd old_read_mode old_write_mode].
  do 2 rewrite (tcsetattr_works _ dev) by (done || (cbn; rewrite lookup_insert_eq; eauto)).
  cbn. split; [done|]. by rewrite !insert_insert_eq, insert_id.
Qed.

Lemma set_termios_keeps fd t r msgs t1 :
  tty_fails t = [] -> set_termios fd t = (r, msgs, t1) ->
  tty_fds t1 = tty_fds t /\ tty_next t1 = tty_next t /\ tty_fails t1 = [].
Proof.
  intros Hf. unfold set_termios, tcgetattr, tcsetattr, tty_call. rewrite Hf.
  destruct (tty_fds t !! fd) as [dev|] eqn:Hd; cbn; [|by intros [= <- <- <-]].
  destruct (tty_modes t !! dev) as [m|] eqn:Hm; cbn; [|by intros [= <- <- <-]].
  rewrite Hf, Hd, Hm. cbn. by intros [= <- <- <-].
Qed.

Lemma tty_open_keeps os_open path mode t fd t1 :
  tty_ok t -> tty_open os_open path mode t = (fd, t1) -> tty_ok t1 /\ tty_fails t1 = tty_fails t.
Proof.
  intros [Hn Hok]. unfold tty_open. destruct (os_open path mode); intros [= <- <-]; [|done].
  split; [|done]. split; cbn; [lia|]. apply map_Forall_insert_2; [lia|].
  eapply map_Forall_impl; [exact Hok|]. cbn. lia.
Qed.

Lemma bt_attach_keeps r w t res msgs t1 :
  tty_ok t -> tty_fails t = [] -> bt_attach r w t = (res, msgs, t1) -> tty_ok t1 /\ tty_fails t1 = [].
Proof.
  intros [Hn Hok] Hf. unfold bt_attach, tty_ok.
  destruct (set_termios r t) as [[[m|] msgs1] t2] eqn:E1; apply set_termios_keeps in E1 as (F1 & N1 & Hf1);
    try done; [|intros [= <- <- <-]; by rewrite F1, N1].
  destruct (set_termios w t2) as [[[m'|] msgs2] t3] eqn:E2;
    apply set_termios_keeps in E2 as (F2 & N2 & Hf2); try done;
    intros [= <- <- <-]; by rewrite F2, N2, F1, N1.
Qed.

Lemma bt_open_keeps os_open file file2 t r msgs t1 :
  tty_ok t -> tty_fails t = [] -> bt_open os_open file file2 t = (r, msgs, t1) ->
  tty_ok t1 /\ tty_fails t1 = [].
Proof.
  intros Hok Hf. unfold bt_open. destruct file2 as [f2|].
  - destruct (tty_open _ _ O_RDONLY t) as [fd t2] eqn:E1.
    destruct (tty_open _ _ O_WRONLY t2) as [fd' t3] eqn:E2.
    apply tty_open_keeps in E1 as [Hok1 Hf1]; [|done].
    apply tty_open_keeps in E2 as [Hok2 Hf2]; [|done]. rewrite Hf1, Hf in Hf2.
    destruct (_ || _); [by intros [= <- <- <-]|]. by apply bt_attach_keeps.
  - destruct (tty_open _ _ O_RDWR t) as [fd t2] eqn:E1.
    apply tty_open_keeps in E1 as [Hok1 Hf1]; [|done]. rewrite Hf in Hf1.
    destruct (_ || _); [by intros [= <- <- <-]|]. by apply bt_attach_keeps.
Qed.

Lemma bt_open_close os_open file file2 t r msgs t1 :
  tty_ok t -> tty_fails t = [] -> bt_open os_open file file2 t = (r, msgs, t1) ->
  match r with
  | Some cb =>
      (exists m, tty_modes t !! default BT file = Some m
         /\ tty_modes t1 = <[default BT file := raw_mode m]> (tty_modes t))
      /\ tty_fails t1 = [] /\ (bt_close cb t1).1 = [] /\ released t (bt_close cb t1).2
  | None => tty_modes t1 = tty_modes t
  end.
Proof.
  intros Hok Hf. unfold bt_open, tty_open. set (dev := default BT file). pose proof Hok as [Hn _].
  assert (forall n, tty_next t <= n -> n =? -1 = false) as Hpos by (intros; lia).
  pose proof (tty_ok_fresh t (tty_next t) Hok) as H0.
  pose proof (tty_ok_fresh t (tty_next t + 1) Hok) as H1.
  destruct file2 as [f2|].
  - destruct (os_open dev O_RDONLY).
    2: { destruct (os_open dev O_WRONLY); rewrite orb_true_r; by intros [= <- <- <-]. }
    cbn [tty_next tty_modes tty_fds tty_fails].
    destruct (os_open dev O_WRONLY); [|by intros [= <- <- <-]].
    rewrite !Hpos by lia. cbn [orb].
    refine (bt_attach_close _ _ dev (MkTty _ _ _ _) (tty_fds t) r msgs t1 _ _ _ _);
      cbn [tty_fails tty_fds]; [done|..].
    + rewrite lookup_insert_ne by lia. by rewrite lookup_insert_eq.
    + by rewrite lookup_insert_eq.
    + rewrite delete_insert_id by (rewrite lookup_insert_ne by lia; apply H1; lia).
      apply delete_insert_id, H0. lia.
  - destruct (os_open dev O_RDWR); [|by intros [= <- <- <-]].
    rewrite !Hpos by lia. cbn [orb].
    refine (bt_attach_close _ _ dev (MkTty _ _ _ _) (tty_fds t) r msgs t1 _ _ _ _);
      cbn [tty_fails tty_fds]; [done|..].
    + by rewrite lookup_insert_eq.
    + by rewrite lookup_insert_eq.
    + rewrite delete_delete_eq. apply delete_insert_id, H0. lia.
Qed.

(** While no call on a terminal fails, opening a serial device puts it into raw mode, and
    `bt_close` gives every terminal the mode it had before and leaves no descriptor open,
    although the mode saved second is already the raw one; a failing `bt_open` changes no
    mode. *)
Theorem serial_modes_restored os_open file file2 t r msgs t1 :
  tty_ok t -> tty_fails t = [] -> bt_open os_open file file2 t = (r, msgs, t1) ->
  match r with
  | Some cb =>
      (exists m, tty_modes t !! default BT file = Some m
         /\ tty_modes t1 = <[default BT file := raw_mode m]> (tty_modes t))
      /\ tty_fails t1 = [] /\ (bt_close cb t1).1 = [] /\ released t (bt_close cb t1).2
  | None => tty_modes t1 = tty_modes t
  end.
Proof. apply bt_open_close. Qed.

(** When the second descriptor cannot be set up, `bt_open` fails and leaves the terminal in
    raw mode, with both descriptors open. *)
Theorem bt_open_leaves_raw os_open file file2 t m :
  tty_modes t !! default BT file = Some m -> tty_fails t = [false; false; true] ->
  os_open (default BT file) O_RDONLY = true -> os_open (default BT file) O_WRONLY = true ->
  0 <= tty_next t ->
  exists t1, bt_open os_open file (Some file2) t = (None, ["cannot get tty attributes"%string], t1)
    /\ tty_modes t1 !! default BT file = Some (raw_mode m)
    /\ tty_fds t1 !! tty_next t = Some (default BT file).
Proof.
  intros Hm Hf H1 H2 Hn. unfold bt_open, tty_open. rewrite H1. cbn [tty_next tty_modes].
  rewrite H2. cbn [tty_next tty_modes tty_fds tty_fails].
  rewrite !(proj2 (Z.eqb_neq _ _)) by lia. cbn [orb].
  unfold bt_attach, set_termios, tcgetattr, tcsetattr, tty_call. rewrite Hf.
  cbn [tty_next tty_modes tty_fds tty_fails negb].
  rewrite lookup_insert_ne, lookup_insert_eq by lia. cbn [mbind option_bind]. rewrite Hm.
  cbn [tty_next tty_modes tty_fds tty_fails negb andb].
  rewrite bool_decide_true by eauto.
  cbn [tty_next tty_modes tty_fds tty_fails negb].
  eexists. split; [done|]. cbn [tty_modes tty_fds]. rewrite lookup_insert_eq.
  split; [done|]. by rewrite lookup_insert_ne, lookup_insert_eq by lia.
Qed.

Lemma bt_error_open mbstowcs errstr :
  mbstowcs errstr = Some errstr -> cstr_ok errstr -> bt_error mbstowcs errstr = None.
Proof.
  intros Hm Hok. unfold bt_error. rewrite Hm, take_app_length. clear Hm.
  induction Hok as [|b l Hb _ IH]; [done|]. cbn [cstr_of]. destruct b; [lia|by rewrite IH|lia].
Qed.

(** In the C locale, where a text has as many wide characters as bytes, the string that
    `bt_error` returns has no terminating zero. *)
Theorem bt_error_unterminated mbstowcs errstr :
  mbstowcs errstr = Some errstr -> cstr_ok errstr -> bt_error mbstowcs errstr = None.
Proof. apply bt_error_open. Qed.

(** `bt_open` opens its first file twice: which second file is given makes no difference. *)
Theorem bt_open_ignores_second os_open file f g t :
  bt_open os_open file (Some f) t = bt_open os_open file (Some g) t.
Proof. done. Qed.
