(* ===== verification/BtWin.v ===== *)
(** * BtWin: the serial transport of Windows (src/bt-win.c)

    The same functions as in BtUnix.v over a COM port.  A port is what the calls
    of the system report: bytes arrive in bursts, and [ReadFile] ends at a pause
    of [ReadIntervalTimeout] milliseconds. *)

From S2P Require Import Prelude IO BtUnix.

Definition BT : list Z := str "COM1".

(** [interval] is the pause that ends a read.  In [bursts], bytes that follow
    each other without such a pause; [None] is a call that fails.  [accepts] is
    how much of its bytes a [WriteFile] sends, [None] for a failing one. *)
Record port := MkPort {
  interval : Z;
  bursts : list (option (list Z));
  accepts : list (option nat);
  sent : list Z;
}.

(** The system: ports by name, the calls on timeouts, and the open handles. *)
Record windows := MkWindows {
  ports : gmap (list Z) port;
  get_timeouts : bool;
  set_timeouts : bool;
  handles : list (list Z);
}.

Definition with_handles (hs : list (list Z)) (w : windows) : windows :=
  MkWindows (ports w) (get_timeouts w) (set_timeouts w) hs.
Definition with_port (name : list Z) (p : port) (w : windows) : windows :=
  MkWindows (<[name := p]> (ports w)) (get_timeouts w) (set_timeouts w) (handles w).

(** [CreateFileA] for exclusive access, and [CloseHandle]. *)
Definition CreateFileA (name : list Z) (w : windows) : bool * windows :=
  match ports w !! name with
  | Some _ =>
      if decide (name ∈ handles w) then (false, w) else (true, with_handles (name :: handles w) w)
  | None => (false, w)
  end.
Definition CloseHandle (name : list Z) (w : windows) : windows :=
  with_handles (filter (fun n => n <> name) (handles w)) w.

(** The handle is the name of its port. *)
Definition bt_open (device unused : option (list Z)) (w : windows) : option (list Z) * windows :=
  let name := default BT device in
  let '(ok, w) := CreateFileA name w in
  if negb ok then (None, w) else
  if negb (get_timeouts w) then (None, CloseHandle name w) else
  if negb (set_timeouts w) then (None, CloseHandle name w) else
  match ports w !! name with
  | Some p => (Some name, with_port name (MkPort 100 (bursts p) (accepts p) (sent p)) w)
  | None => (None, w)
  end.

Definition bt_write (buf : list Z) (p : port) : Z * port :=
  let buf := tail buf in
  match accepts p with
  | [] => (zlen buf, MkPort (interval p) (bursts p) [] (sent p ++ buf))
  | None :: t => (-1, MkPort (interval p) (bursts p) t (sent p))
  | Some k :: t =>
      (zlen (take k buf), MkPort (interval p) (bursts p) t (sent p ++ take k buf))
  end.

(** [None]: nothing arrives, and the call never returns: no total timeout is
    set, and [milliseconds] is ignored. *)
Definition bt_read (count milliseconds : Z) (p : port) : option (Z * list Z * port) :=
  match bursts p with
  | [] => None
  | None :: t => Some (-1, [], MkPort (interval p) t (accepts p) (sent p))
  | Some bs :: t =>
      let n := Z.to_nat count in
      Some (zlen (take n bs), take n bs,
            MkPort (interval p) (if (length bs <=? n)%nat then t else Some (drop n bs) :: t)
              (accepts p) (sent p))
  end.

Definition bt_close (name : list Z) (w : windows) : windows := CloseHandle name w.

(** [FormatMessageW] stores the address of its text in [buf], which [bt_error]
    takes for the address of that address: the first characters of the text are
    used as a pointer ([None]). *)
Definition bt_error (message : option (list Z)) : option (list Z) :=
  match message with
  | None => Some (str "Error in printing error")
  | Some _ => None
  end.

(** ** What they promise *)

Lemma close_fresh name w : name ∉ handles w ->
  CloseHandle name (with_handles (name :: handles w) w) = w.
Proof.
  intros Hn. destruct w as [ps g s hs]. unfold CloseHandle, with_handles.
  cbn [handles ports get_timeouts set_timeouts] in *. f_equal.
  rewrite filter_cons_False by (intros Hne; by apply Hne).
  induction hs as [|h hs IH]; [done|]. apply not_elem_of_cons in Hn as [Hne Hn].
  rewrite filter_cons_True by done. by rewrite IH.
Qed.

(** On Windows, `bt_open` that fails leaves no handle open and every port as it was; one that
    succeeds opens the named port, or COM1, and `bt_close` gives it back. *)
Theorem win_open_close device unused w r w' :
  bt_open device unused w = (r, w') ->
  match r with
  | Some name => name = default BT device /\ handles (bt_close name w') = handles w
      /\ (exists p, ports w !! name = Some p
           /\ ports w' = <[name := MkPort 100 (bursts p) (accepts p) (sent p)]> (ports w))
  | None => w' = w
  end.
Proof.
  unfold bt_open, CreateFileA. set (name := default BT device).
  destruct (ports w !! name) as [p|] eqn:Hp; [|by intros [= <- <-]].
  destruct (decide (name ∈ handles w)) as [|Hn]; [by intros [= <- <-]|]. cbn [negb].
  destruct (get_timeouts _); cbn [negb]; [|intros [= <- <-]; by apply close_fresh].
  destruct (set_timeouts _); cbn [negb]; [|intros [= <- <-]; by apply close_fresh].
  cbn [with_handles ports]. rewrite Hp. intros [= <- <-]. split; [done|].
  split; [|by exists p]. unfold bt_close.
  change (handles (CloseHandle name (with_handles (name :: handles w) w)) = handles w).
  by rewrite close_fresh.
Qed.

(** A reply that arrives in one burst is read whole. *)
Theorem win_reads_burst count ms bs t p :
  bursts p = Some bs :: t -> zlen bs <= count ->
  bt_read count ms p = Some (zlen bs, bs, MkPort (interval p) t (accepts p) (sent p)).
Proof.
  intros Hb Hc. unfold bt_read. rewrite Hb. unfold zlen in *.
  rewrite (proj2 (Nat.leb_le _ _)), take_ge by lia. done.
Qed.

(** On Windows the two halves of a packet that the network separates by a pause are read as
    two packets, where the read of Unix puts them together. *)
Theorem win_splits_packet count ms a b t p :
  bursts p = Some a :: Some b :: t -> zlen a <= count ->
  exists p', bt_read count ms p = Some (zlen a, a, p') /\ bursts p' = Some b :: t.
Proof.
  intros Hb Hc. rewrite (win_reads_burst _ _ _ _ _ Hb Hc). by eexists.
Qed.
