(* ===== verification/Tcp.v ===== *)
(** * Tcp: finding a brick on the network and opening a connection (src/tcp.c)

    The network is a record of what the socket calls return; the result is the
    connection and the list of what was done on the sockets. *)

From S2P Require Import Prelude IO Cstr.

Definition UDP_PORT : Z := 3015.
Definition TCP_PORT : Z := 5555.
Definition UDP_RECV_TIMEOUT : Z := 6.
Definition TCP_CONNECT_TIMEOUT : Z := 1.

(** [struct tcp_handle]; the arrays have the sizes 15, 48, 96 and 8. *)
Record tcp_handle := MkTcp {
  h_serial : list Z;
  h_ip : list Z;
  h_tcp_port : Z;
  h_name : list Z;
  h_protocol : list Z;
}.
(** The arrays of a handle. *)
Definition tcp_handle_ok (h : tcp_handle) : Prop :=
  length (h_serial h) = 15%nat /\ length (h_ip h) = 48%nat
  /\ length (h_name h) = 96%nat /\ length (h_protocol h) = 8%nat.

(** [strncpy(dst, src, sizeof dst)]. *)
Definition strncpy (src dst : list Z) : list Z :=
  let n := length dst in take n src ++ replicate (n - length src) 0.

(** "%s" into an array: [None] when it does not fit. *)
Definition store_word (w dst : list Z) : option (list Z) :=
  if (length w <? length dst)%nat then Some (splice 0 (w ++ [0]) dst) else None.

(** The value of "%u". *)
Definition scan_u (l : list Z) : option (Z * list Z) :=
  let '(neg, l) := match l with 43 :: l => (false, l) | 45 :: l => (true, l) | _ => (false, l) end in
  match scan_dec None l with
  | (Some v, r) => let v := Z.min v (2 ^ 64 - 1) in Some (u32 (if neg : bool then - v else v), r)
  | (None, _) => None
  end.

(** The rest of the broadcast behind "Name:". *)
Definition scan_protocol (l : list Z) (h : tcp_handle) : option tcp_handle :=
  match match_lit (str "Protocol:") l with
  | None => Some h
  | Some l =>
      match scan_word (skip_space l) with
      | ([], _) => Some h
      | (w, _) =>
          p ← store_word w (h_protocol h);
          Some (MkTcp (h_serial h) (h_ip h) (h_tcp_port h) (h_name h) p)
      end
  end.
Definition scan_name (l : list Z) (h : tcp_handle) : option tcp_handle :=
  match match_lit (str "Name:") l with
  | None => Some h
  | Some l =>
      match scan_word (skip_space l) with
      | ([], _) => Some h
      | (w, l) =>
          n ← store_word w (h_name h);
          scan_protocol (skip_space l)
            (MkTcp (h_serial h) (h_ip h) (h_tcp_port h) n (h_protocol h))
      end
  end.
Definition scan_port (l : list Z) (h : tcp_handle) : option tcp_handle :=
  match match_lit (str "Port:") l with
  | None => Some h
  | Some l =>
      match scan_u (skip_space l) with
      | None => Some h
      | Some (v, l) =>
          scan_name (skip_space l) (MkTcp (h_serial h) (h_ip h) v (h_name h) (h_protocol h))
      end
  end.

(** [sscanf(buffer, "Serial-Number: %s\r\nPort: %u\r\nName: %s\r\nProtocol: %s\r\n", ...)];
    [None]: a word overflows its array. *)
Definition scan_broadcast (l : list Z) (h : tcp_handle) : option tcp_handle :=
  match match_lit (str "Serial-Number:") l with
  | None => Some h
  | Some l =>
      match scan_word (skip_space l) with
      | ([], _) => Some h
      | (w, l) =>
          s ← store_word w (h_serial h);
          scan_port (skip_space l) (MkTcp s (h_ip h) (h_tcp_port h) (h_name h) (h_protocol h))
      end
  end.

(** ** The network *)

(** An IPv4 address as its four bytes, and a port. *)
Definition addr : Type := list Z * Z.

Record net := MkNet {
  n_udp_socket : bool;                  (* socket() for the broadcasts succeeds *)
  n_bind : bool;
  n_broadcasts : list (list Z * addr);  (* what arrives; then recvfrom times out *)
  n_hello : bool;                       (* sendto() to the brick succeeds *)
  n_tcp_socket : bool;                  (* socket() for the connection succeeds *)
  n_connect : Z;
  n_select : Z;
  n_so_error : Z;
  n_request : bool;                     (* sendto() of the GET request succeeds *)
  n_confirm : option (list Z);          (* the reply to it, or an error *)
}.

(** Those of `tcp_open`, and the two of a server: for its beacons and the one it listens on. *)
Inductive sock := Udp | Tcp | Beacons | Listener.
#[export] Instance sock_eq_dec : EqDecision sock.
Proof. solve_decision. Defined.

Inductive net_act :=
| Socket (s : sock)
| Close (s : sock)
| Shutdown (s : sock)
| Bind (port : Z)
| Recv (secs : Z)
| Hello (to : addr)
| Connect (to : addr)
| Select (secs : Z)
| Request (bytes : list Z).

(** What is reported on a failure: by [bailout], or a text. *)
Inductive tcp_failure := Bailout (msg : string) | Report (text : list Z).

Inductive tcp_result :=
| TcpOpen (h : tcp_handle)
| TcpNull (why : tcp_failure)
| TcpUndef.

(** ** Discovery *)

Inductive found := Found (h : tcp_handle) (from : addr) | NotFound | FoundUndef.

(** The receive loop: [recvfrom] cuts a datagram at the buffer of 128 bytes, and
    the terminating zero is stored behind what was received. *)
Fixpoint discover (serial : option (list Z)) (ds : list (list Z * addr)) (h : tcp_handle)
    : found :=
  match ds with
  | [] => NotFound
  | (d, from) :: ds =>
      let d := take 128 d in
      if (length d =? 128)%nat then FoundUndef else
      match scan_broadcast (upto_nul d) h with
      | None => FoundUndef
      | Some h =>
          match serial with
          | None => Found h from
          | Some s =>
              match cstr_of (h_serial h) with
              | None => FoundUndef
              | Some s' => if decide (s = s') then Found h from else discover serial ds h
              end
          end
      end
  end.

(** "GET /target?sn=%s VMTP1.0\nProtocol: %s". *)
Definition target_request (serial protocol : list Z) : list Z :=
  str "GET /target?sn=" ++ serial ++ str " VMTP1.0" ++ [10] ++ str "Protocol: " ++ protocol.

Section tcp_open.
(** [inet_pton(AF_INET, ...)]: 1 and the address, or 0 or -1. *)
Variable inet_pton : list Z -> Z * list Z.
(** [inet_ntop(AF_INET, ...)]. *)
Variable inet_ntop : list Z -> list Z.

(** From the TCP socket on.  Whether there is one is not checked before its
    descriptor goes into an [fd_set]. *)
Definition tcp_connect (w : net) (timeout : Z) (to : addr) (h : tcp_handle)
    : tcp_result * list net_act :=
  if negb (n_tcp_socket w) then (TcpUndef, []) else
  let tv := if timeout =? 0 then TCP_CONNECT_TIMEOUT else timeout in
  let acts := [Socket Tcp; Connect to; Select tv] in
  let n := if (n_select w =? 1) && (n_so_error w =? 0) then 0 else n_connect w in
  if n =? -1 then (TcpNull (Bailout "Failed to initiate TCP connection"), acts ++ [Close Tcp]) else
  match cstr_of (h_serial h), cstr_of (h_protocol h) with
  | Some serial, Some protocol =>
      let req := target_request serial protocol in
      if (128 <? length req)%nat then (TcpUndef, acts) else
      let acts := acts ++ [Request (if (length req <? 128)%nat then req
                                    else take 127 req ++ [0])] in
      if negb (n_request w) then (TcpNull (Bailout "Failed to handshake over TCP"), acts ++ [Close Tcp]) else
      match n_confirm w with
      | None => (TcpNull (Bailout "Failed to recieve TCP-connection confirmation"), acts ++ [Close Tcp])
      | Some r => if (128 <=? length r)%nat then (TcpUndef, acts) else (TcpOpen h, acts)
      end
  | _, _ => (TcpUndef, acts)
  end.

(** The broadcast search. *)
Definition tcp_search (serial : option (list Z)) (timeout : Z) (w : net) (h : tcp_handle)
    : tcp_result * list net_act :=
  if negb (n_udp_socket w) then (TcpNull (Bailout "Failed to create socket"), []) else
  let acts := [Socket Udp; Bind UDP_PORT] in
  if negb (n_bind w) then (TcpNull (Bailout "Failed to bind"), acts ++ [Close Udp]) else
  let acts := acts ++ [Recv (if timeout =? 0 then UDP_RECV_TIMEOUT else timeout)] in
  match discover serial (n_broadcasts w) h with
  | NotFound => (TcpNull (Bailout "Failed to recieve broadcast"), acts ++ [Close Udp])
  | FoundUndef => (TcpUndef, acts)
  | Found h from =>
      let acts := acts ++ [Hello from; Close Udp] in
      if negb (n_hello w) then (TcpNull (Bailout "Failed to initiate handshake"), acts) else
      let h := MkTcp (h_serial h) (splice 0 (inet_ntop from.1 ++ [0]) (h_ip h))
                 (h_tcp_port h) (h_name h) (h_protocol h) in
      let '(res, acts') := tcp_connect w timeout (from.1, u16 (h_tcp_port h)) h in
      (res, acts ++ acts')
  end.

(** [h] is the block malloc returned. *)
Definition tcp_open (serial : option (list Z)) (timeout : Z) (w : net) (h : tcp_handle)
    : tcp_result * list net_act :=
  match serial with
  | Some ip =>
      if existsb (Z.eqb 46) ip then
        let '(ret, ip_addr) := inet_pton ip in
        if ret =? 0 then (TcpNull (Report (str "Invalid IP specified '" ++ ip ++ str "'" ++ [10])), [])
        else if ret =? -1 then (TcpNull (Bailout "Parsing IP failed"), [])
        else
          tcp_connect w timeout (ip_addr, TCP_PORT)
            (MkTcp (strncpy (str "[n/a]") (h_serial h)) (strncpy ip (h_ip h)) TCP_PORT
               (strncpy (str "[n/a]") (h_name h)) (strncpy (str "[n/a]") (h_protocol h)))
      else tcp_search serial timeout w h
  | None => tcp_search serial timeout w h
  end.
End tcp_open.

(** [tcp_close]. *)
Definition tcp_close : list net_act := [Shutdown Tcp; Close Tcp].

(** [tcp_error]. *)
Definition tcp_error : list Z := str "Errors not implemented yet".

(** The sockets that are open after some calls; [None] when a call is on a socket
    that is not open, or opens one that is. *)
Fixpoint live (acts : list net_act) (opened : list sock) : option (list sock) :=
  match acts with
  | [] => Some opened
  | Socket s :: acts => if decide (s ∈ opened) then None else live acts (s :: opened)
  | Close s :: acts =>
      if decide (s ∈ opened) then live acts (filter (fun s' => s' <> s) opened) else None
  | (Bind _ | Recv _ | Hello _) :: acts => if decide (Udp ∈ opened) then live acts opened else None
  | (Shutdown Tcp | Connect _ | Select _ | Request _) :: acts =>
      if decide (Tcp ∈ opened) then live acts opened else None
  | Shutdown _ :: _ => None
  end.

(** ** Broadcasts *)

(** The datagram a brick sends. *)
Definition broadcast (serial : list Z) (port : Z) (name protocol : list Z) : list Z :=
  str "Serial-Number: " ++ serial ++ [13; 10] ++ str "Port: " ++ digits 10 port ++ [13; 10]
  ++ str "Name: " ++ name ++ [13; 10] ++ str "Protocol: " ++ protocol ++ [13; 10].

Record brick := MkBrick {
  b_serial : list Z;
  b_port : Z;
  b_name : list Z;
  b_protocol : list Z;
  b_from : addr;
}.
Definition datagram (b : brick) : list Z * addr :=
  (broadcast (b_serial b) (b_port b) (b_name b) (b_protocol b), b_from b).

Definition field_ok (n : nat) (w : list Z) : Prop :=
  word_ok w /\ cstr_ok w /\ (length w < n)%nat.
Record brick_ok (b : brick) : Prop := {
  bo_serial : field_ok 15 (b_serial b);
  bo_port : 0 <= b_port b < 65536;
  bo_name : field_ok 96 (b_name b);
  bo_protocol : field_ok 8 (b_protocol b);
  bo_size : (length (datagram b).1 < 128)%nat;
}.

Lemma store_word_ok n w dst :
  field_ok n w -> length dst = n ->
  store_word w dst = Some (splice 0 (w ++ [0]) dst)
  /\ length (splice 0 (w ++ [0]) dst) = n /\ cstr_of (splice 0 (w ++ [0]) dst) = Some w.
Proof.
  intros (Hw & Hc & Hl) <-. unfold store_word. rewrite (proj2 (Nat.ltb_lt _ _)) by done.
  split; [done|]. rewrite length_splice by (rewrite length_app; simpl; lia). split; [done|].
  unfold splice. rewrite take_0. simpl. rewrite <- app_assoc. by apply cstr_of_app.
Qed.

Lemma isspace_digit b : isdigit b = true -> isspace b = false /\ 0 < b < 256.
Proof. unfold isdigit, isspace. lia. Qed.

Lemma digits_field n : 0 <= n < 10 ^ 64 -> word_ok (digits 10 n) /\ cstr_ok (digits 10 n).
Proof.
  intros Hn. destruct (digits_word n Hn) as [Hne Hall]. split; [split; [done|]|];
    eapply Forall_impl; try exact Hall; intros b Hb; by destruct (isspace_digit b Hb).
Qed.

Lemma scan_u_digits n l :
  0 <= n < 2 ^ 32 -> (match l with [] => true | b :: _ => negb (isdigit b) end = true) ->
  scan_u (digits 10 n ++ l) = Some (n, l).
Proof.
  intros Hn Hl. assert (0 <= n < 10 ^ 64) as Hn' by lia.
  destruct (digits_word n Hn') as [Hne Hall]. pose proof (scan_dec_fmt n l Hn' Hl) as Hs.
  unfold scan_u. destruct Hall as [|b ds Hb Hall]; [done|]. cbn [app] in *.
  assert (b <> 43 /\ b <> 45) as [H1 H2] by (unfold isdigit in Hb; lia).
  assert ((match b :: ds ++ l with 43 :: l0 => (false, l0) | 45 :: l0 => (true, l0)
    | _ => (false, b :: ds ++ l) end) = (false, b :: ds ++ l)) as ->.
  { destruct b as [|[]|]; try done; repeat (destruct p; try done). }
  rewrite Hs. rewrite Z.min_l, u32_id by lia. done.
Qed.

(** Scanning a word that the format's white space follows. *)
Lemma scan_field n w l :
  field_ok n w -> scan_word (skip_space (32 :: w ++ 13 :: 10 :: l)) = (w, 13 :: 10 :: l).
Proof.
  intros (Hw & _ & _). cbn [skip_space]. change (isspace 32) with true. cbn match.
  rewrite skip_space_word by done. apply scan_word_app; [apply Hw|done].
Qed.

(** What the search stores for a broadcast. *)
Record holds (h : tcp_handle) (b : brick) : Prop := {
  hd_ok : tcp_handle_ok h;
  hd_serial : cstr_of (h_serial h) = Some (b_serial b);
  hd_port : h_tcp_port h = b_port b;
  hd_name : cstr_of (h_name h) = Some (b_name b);
  hd_protocol : cstr_of (h_protocol h) = Some (b_protocol b);
}.

Lemma scan_broadcast_ok b h :
  brick_ok b -> tcp_handle_ok h ->
  exists h', scan_broadcast (datagram b).1 h = Some h' /\ holds h' b.
Proof.
  intros [Hs Hp Hn Hpr _] (H1 & H2 & H3 & H4).
  destruct (store_word_ok _ _ _ Hs H1) as (Es & Ls & Cs).
  destruct (store_word_ok _ _ _ Hn H3) as (En & Ln & Cn).
  destruct (store_word_ok _ _ _ Hpr H4) as (Ep & Lp & Cp).
  unfold datagram, broadcast. cbn [fst].
  set (tail4 := str "Protocol: " ++ b_protocol b ++ [13; 10]).
  set (tail3 := str "Name: " ++ b_name b ++ [13; 10] ++ tail4).
  set (tail2 := str "Port: " ++ digits 10 (b_port b) ++ [13; 10] ++ tail3).
  unfold scan_broadcast.
  change (str "Serial-Number: " ++ b_serial b ++ [13; 10] ++ tail2)
    with (str "Serial-Number:" ++ 32 :: b_serial b ++ 13 :: 10 :: tail2).
  rewrite match_lit_app, (scan_field _ _ _ Hs), Es.
  destruct (b_serial b) as [|c cs] eqn:Ebs; [by destruct Hs as [[? _] _]|]. rewrite <- Ebs in *.
  change (skip_space (13 :: 10 :: tail2)) with tail2. cbn [mbind option_bind].
  unfold scan_port. change tail2 with
    (str "Port:" ++ 32 :: digits 10 (b_port b) ++ 13 :: 10 :: tail3) at 1.
  rewrite match_lit_app. cbn [skip_space]. change (isspace 32) with true. cbn match.
  rewrite skip_space_word by (apply digits_field; lia). rewrite scan_u_digits by (lia || done).
  change (skip_space (13 :: 10 :: tail3)) with tail3.
  unfold scan_name. change tail3 with (str "Name:" ++ 32 :: b_name b ++ 13 :: 10 :: tail4) at 1.
  rewrite match_lit_app, (scan_field _ _ _ Hn). cbn [h_name h_serial h_ip h_tcp_port h_protocol].
  rewrite En.
  destruct (b_name b) as [|c2 cs2] eqn:Ebn; [by destruct Hn as [[? _] _]|]. rewrite <- Ebn in *.
  change (skip_space (13 :: 10 :: tail4)) with tail4. cbn [mbind option_bind].
  unfold scan_protocol.
  change tail4 with (str "Protocol:" ++ 32 :: b_protocol b ++ 13 :: 10 :: []).
  rewrite match_lit_app, (scan_field _ _ _ Hpr).
  cbn [h_name h_serial h_ip h_tcp_port h_protocol]. rewrite Ep.
  destruct (b_protocol b) as [|c3 cs3] eqn:Ebp; [by destruct Hpr as [[? _] _]|].
  rewrite <- Ebp in *. cbn [mbind option_bind]. eexists. split; [done|]. by split.
Qed.

(** A broadcast holds no NUL. *)
Lemma upto_nul_id l : cstr_ok l -> upto_nul l = l.
Proof. induction 1 as [|b l Hb _ IH]; simpl; [done|]. destruct b; try lia. by rewrite IH. Qed.

Lemma broadcast_cstr b : brick_ok b -> cstr_ok (datagram b).1.
Proof.
  intros [(_ & Hs & _) Hp (_ & Hn & _) (_ & Hpr & _) _].
  assert (cstr_ok (digits 10 (b_port b))) as Hd by (apply digits_field; lia).
  unfold datagram, broadcast, cstr_ok in *. cbn [fst]. rewrite !Forall_app.
  repeat split; try done; repeat constructor; lia.
Qed.

Lemma discover_step serial b ds h :
  brick_ok b -> tcp_handle_ok h ->
  exists h', holds h' b /\ discover serial (datagram b :: ds) h =
    match serial with
    | None => Found h' (b_from b)
    | Some s => if decide (s = b_serial b) then Found h' (b_from b) else discover serial ds h'
    end.
Proof.
  intros Hb Hh. destruct (scan_broadcast_ok b h Hb Hh) as (h' & Hscan & Hh').
  exists h'. split; [done|]. pose proof (bo_size b Hb) as Hsz.
  cbn [discover]. destruct (datagram b) as [d from] eqn:Ed.
  assert (d = (datagram b).1) as Hd by (by rewrite Ed).
  assert (from = b_from b) as -> by (unfold datagram in Ed; by simplify_eq).
  cbn [fst] in *. rewrite take_ge by lia. rewrite (proj2 (Nat.eqb_neq _ _)) by lia.
  rewrite upto_nul_id by (rewrite Hd; by apply broadcast_cstr). rewrite Hscan.
  destruct serial as [s|]; [|done]. by rewrite (hd_serial _ _ Hh').
Qed.

(** The search passes over the other bricks. *)
Lemma discover_skips s others b ds h :
  Forall (fun o => brick_ok o /\ b_serial o <> s) others -> brick_ok b -> b_serial b = s ->
  tcp_handle_ok h ->
  exists h', discover (Some s) (map datagram others ++ datagram b :: ds) h = Found h' (b_from b)
    /\ holds h' b.
Proof.
  intros Ho Hb Hs. revert h. induction Ho as [|o others [Hok Hne] _ IH]; intros h Hh; cbn [map app].
  - destruct (discover_step (Some s) b ds h Hb Hh) as (h' & Hh' & ->). exists h'.
    by rewrite decide_True.
  - destruct (discover_step (Some s) o (map datagram others ++ datagram b :: ds) h Hok Hh)
      as (h' & Hh' & ->). rewrite decide_False by done. apply IH, Hh'.
Qed.

Definition secs (timeout deflt : Z) : Z := if timeout =? 0 then deflt else timeout.

(** The socket does not block while it is connected, so that [connect] hardly ever returns 0:
    it returns -1 (EINPROGRESS), and the connection is there when [select] then reports the
    socket writable, within the time allowed, and SO_ERROR is 0. *)
Definition connects (w : net) : Prop :=
  n_connect w = 0 \/ (n_connect w = -1 /\ n_select w = 1 /\ n_so_error w = 0).

(** The network lets the connection through. *)
Record net_works (w : net) : Prop := {
  nw_socket : n_udp_socket w = true;
  nw_bind : n_bind w = true;
  nw_hello : n_hello w = true;
  nw_tcp_socket : n_tcp_socket w = true;
  nw_connect : connects w;
  nw_request : n_request w = true;
  nw_confirm : exists r, n_confirm w = Some r /\ (length r < 128)%nat;
}.

Lemma tcp_connect_ok w timeout to h serial protocol :
  net_works w -> cstr_of (h_serial h) = Some serial -> cstr_of (h_protocol h) = Some protocol ->
  (length (target_request serial protocol) < 128)%nat ->
  tcp_connect w timeout to h =
    (TcpOpen h, [Socket Tcp; Connect to; Select (secs timeout TCP_CONNECT_TIMEOUT);
                 Request (target_request serial protocol)]).
Proof.
  intros [_ _ _ Ht Hc Hr (r & Hcf & Hl)] Hs Hp Hlen. unfold tcp_connect.
  rewrite Ht, Hs, Hp, Hr, Hcf. cbn [negb].
  assert ((if (n_select w =? 1) && (n_so_error w =? 0) then 0 else n_connect w) = 0) as ->.
  { destruct Hc as [Hc|(_ & -> & ->)]; [rewrite Hc; by destruct (_ && _)|done]. }
  change (0 =? -1) with false. cbn match.
  rewrite (proj2 (Nat.ltb_ge 128 _)), (proj2 (Nat.ltb_lt _ 128)) by lia. cbn [negb].
  by rewrite (proj2 (Nat.leb_gt _ _)) by lia.
Qed.

Lemma target_request_short serial protocol :
  (length serial < 15)%nat -> (length protocol < 8)%nat ->
  (length (target_request serial protocol) < 128)%nat.
Proof. intros. unfold target_request. rewrite !length_app. simpl. lia. Qed.

Section theorems.
Variable inet_pton : list Z -> Z * list Z.
Variable inet_ntop : list Z -> list Z.

Lemma tcp_open_finds s others b ds timeout w h :
  existsb (Z.eqb 46) s = false ->
  n_broadcasts w = map datagram others ++ datagram b :: ds -> net_works w ->
  Forall (fun o => brick_ok o /\ b_serial o <> s) others -> brick_ok b -> b_serial b = s ->
  tcp_handle_ok h ->
  exists h', tcp_open inet_pton inet_ntop (Some s) timeout w h =
      (TcpOpen h', [Socket Udp; Bind UDP_PORT; Recv (secs timeout UDP_RECV_TIMEOUT);
                    Hello (b_from b); Close Udp;
                    Socket Tcp; Connect ((b_from b).1, b_port b);
                    Select (secs timeout TCP_CONNECT_TIMEOUT);
                    Request (target_request s (b_protocol b))])
    /\ cstr_of (h_serial h') = Some s /\ cstr_of (h_name h') = Some (b_name b)
    /\ is_Some (cstr_of (h_ip h')) /\ h_tcp_port h' = b_port b.
Proof.
  intros Hdot Hds Hw Ho Hb Hs Hh. unfold tcp_open. rewrite Hdot. unfold tcp_search.
  rewrite (nw_socket _ Hw), (nw_bind _ Hw), Hds. cbn [negb].
  destruct (discover_skips s others b ds h Ho Hb Hs Hh) as (h1 & -> & Hh1).
  rewrite (nw_hello _ Hw). cbn [negb].
  set (h' := MkTcp _ _ _ _ _).
  assert (u16 (h_tcp_port h') = b_port b) as Hport.
  { unfold h'. cbn [h_tcp_port]. rewrite (hd_port _ _ Hh1). apply u16_id, (bo_port b Hb). }
  rewrite Hport. rewrite (tcp_connect_ok w timeout _ h' s (b_protocol b)).
  - exists h'. split; [done|]. unfold h'. cbn [h_serial h_name h_tcp_port].
    split; [rewrite <- Hs; apply Hh1|]. split; [apply Hh1|]. split; [|apply Hh1].
    unfold splice. rewrite take_0, <- app_assoc. apply cstr_of_some.
  - done.
  - unfold h'. cbn [h_serial]. rewrite <- Hs. apply Hh1.
  - apply Hh1.
  - apply target_request_short; [rewrite <- Hs; apply (bo_serial b Hb)|apply (bo_protocol b Hb)].
Qed.

(** `tcp_open` with a serial number listens for beacons, skips the bricks with other serial
    numbers, greets the matching one, connects to its address and port and requests it by
    its serial number and protocol. *)
Theorem tcp_finds_brick s others b ds timeout w h :
  existsb (Z.eqb 46) s = false ->
  n_broadcasts w = map datagram others ++ datagram b :: ds -> net_works w ->
  Forall (fun o => brick_ok o /\ b_serial o <> s) others -> brick_ok b -> b_serial b = s ->
  tcp_handle_ok h ->
  exists h', tcp_open inet_pton inet_ntop (Some s) timeout w h =
      (TcpOpen h', [Socket Udp; Bind UDP_PORT; Recv (secs timeout UDP_RECV_TIMEOUT);
                    Hello (b_from b); Close Udp;
                    Socket Tcp; Connect ((b_from b).1, b_port b);
                    Select (secs timeout TCP_CONNECT_TIMEOUT);
                    Request (target_request s (b_protocol b))])
    /\ cstr_of (h_serial h') = Some s /\ cstr_of (h_name h') = Some (b_name b)
    /\ is_Some (cstr_of (h_ip h')) /\ h_tcp_port h' = b_port b.
Proof. apply tcp_open_finds. Qed.

(** `tcp_open` with an address connects to it on port 5555 without listening for beacons. *)
Theorem tcp_direct_address ip a timeout w h :
  existsb (Z.eqb 46) ip = true -> inet_pton ip = (1, a) -> net_works w -> tcp_handle_ok h ->
  exists h', tcp_open inet_pton inet_ntop (Some ip) timeout w h =
      (TcpOpen h', [Socket Tcp; Connect (a, 5555); Select (secs timeout TCP_CONNECT_TIMEOUT);
                    Request (target_request (str "[n/a]") (str "[n/a]"))])
    /\ (cstr_ok ip -> (length ip < 48)%nat -> cstr_of (h_ip h') = Some ip).
Proof.
  intros Hdot Ha Hw (H1 & H2 & H3 & H4). unfold tcp_open. rewrite Hdot, Ha.
  change (1 =? 0) with false. change (1 =? -1) with false. cbn match.
  assert (forall s dst, cstr_ok s -> (length s < length dst)%nat ->
    cstr_of (strncpy s dst) = Some s) as Hstr.
  { intros s dst Hs Hl. unfold strncpy. rewrite take_ge by lia.
    destruct (length dst - length s)%nat as [|n] eqn:E; [lia|]. by apply cstr_of_app. }
  assert (cstr_ok (str "[n/a]")) as Hna by (by repeat constructor).
  eexists. rewrite (tcp_connect_ok w timeout _ _ (str "[n/a]") (str "[n/a]")); [|done|..].
  - split; [done|]. intros Hc Hl. apply Hstr; [done|lia].
  - apply Hstr; [done|]. rewrite H1. simpl. lia.
  - apply Hstr; [done|]. rewrite H4. simpl. lia.
  - apply target_request_short; simpl; lia.
Qed.

Lemma live_app a b o : live (a ++ b) o = o' ← live a o; live b o'.
Proof.
  revert o. induction a as [|x a IH]; intros o; [done|].
  destruct x as [k|k|[]|?|?|?|?|?|?]; cbn [app live]; try done; destruct (decide _); done.
Qed.

(** What [live] should be after a result. *)
Definition sockets_left (r : tcp_result) : list sock :=
  match r with TcpOpen _ => [Tcp] | _ => [] end.

Lemma tcp_connect_sockets w timeout to h res acts :
  tcp_connect w timeout to h = (res, acts) -> res <> TcpUndef ->
  live acts [] = Some (sockets_left res).
Proof.
  unfold tcp_connect. destruct (n_tcp_socket w); [|by intros [= <- <-]]. cbn [negb].
  set (n := if _ && _ then _ else _). destruct (n =? -1); [by intros [= <- <-]|].
  destruct (cstr_of (h_serial h)), (cstr_of (h_protocol h)); try by intros [= <- <-].
  cbv zeta. destruct (128 <? _)%nat; [by intros [= <- <-]|].
  destruct (n_request w); [|by intros [= <- <-]]. cbn [negb].
  destruct (n_confirm w); [|by intros [= <- <-]].
  destruct (128 <=? _)%nat; by intros [= <- <-].
Qed.

Lemma tcp_open_sockets serial timeout w h res acts :
  tcp_open inet_pton inet_ntop serial timeout w h = (res, acts) -> res <> TcpUndef ->
  live acts [] = Some (sockets_left res).
Proof.
  intros Hrun Hres.
  assert (tcp_search inet_ntop serial timeout w h = (res, acts) ->
    live acts [] = Some (sockets_left res)) as Hsearch.
  { unfold tcp_search. destruct (n_udp_socket w); [|by intros [= <- <-]]. cbn [negb].
    destruct (n_bind w); [|by intros [= <- <-]]. cbn [negb].
    destruct (discover _ _ _) as [h1 from| |]; [|by intros [= <- <-]|by intros [= <- <-]].
    destruct (n_hello w); [|by intros [= <- <-]]. cbn [negb]. cbv zeta.
    destruct (tcp_connect _ _ _ _) as [res' acts'] eqn:E. intros [= <- <-].
    by apply tcp_connect_sockets in E. }
  unfold tcp_open in Hrun. destruct serial as [ip|]; [|by apply Hsearch].
  destruct (existsb _ ip); [|by apply Hsearch]. destruct (inet_pton ip) as [ret a].
  destruct (ret =? 0); [by simplify_eq|]. destruct (ret =? -1); [by simplify_eq|].
  by apply tcp_connect_sockets in Hrun.
Qed.

(** Every call of `tcp_open` is on a socket that is open; a failure leaves none open, a
    success the connection, which `tcp_close` closes. *)
Theorem tcp_no_leak serial timeout w h res acts :
  tcp_open inet_pton inet_ntop serial timeout w h = (res, acts) -> res <> TcpUndef ->
  live acts [] = Some (sockets_left res)
  /\ (forall t, res = TcpOpen t -> live (acts ++ tcp_close) [] = Some []).
Proof.
  intros Hrun Hres. pose proof (tcp_open_sockets _ _ _ _ _ _ Hrun Hres) as Hl.
  split; [done|]. intros t ->. by rewrite live_app, Hl.
Qed.

(** A beacon of 128 bytes or more leaves the receive buffer without its NUL: `tcp_open` is
    undefined. *)
Theorem tcp_broadcast_overflow serial d from ds timeout w h :
  n_udp_socket w = true -> n_bind w = true -> n_broadcasts w = (d, from) :: ds ->
  (128 <= length d)%nat ->
  (match serial with Some s => existsb (Z.eqb 46) s = false | None => True end) ->
  (tcp_open inet_pton inet_ntop serial timeout w h).1 = TcpUndef.
Proof.
  intros Hs Hb Hd Hl Hser.
  assert ((tcp_search inet_ntop serial timeout w h).1 = TcpUndef) as H.
  { unfold tcp_search. rewrite Hs, Hb, Hd. cbn [negb discover].
    rewrite length_take, Nat.min_l by lia. done. }
  unfold tcp_open. destruct serial as [s|]; [by rewrite Hser|done].
Qed.
End theorems.
