(* ===== verification/TcpWin.v ===== *)
(** * TcpWin: what src/tcp.c defines itself on Windows

    The reads and writes of a connection, and the conversions of addresses that
    Unix has in its library. *)

From S2P Require Import Prelude Packets IO Cstr BtUnix Tcp.

(** ** The connection *)

(** [send] and [recv] on a socket are the reads and writes of BtUnix.v. *)
Definition tcp_write (buf : list Z) (s : fd_state) : Z * fd_state := fd_write (tail buf) s.

(** The reply goes behind the first byte of the buffer, where the reads of the
    other transports start with it. *)
Definition tcp_read (buf : list Z) (count milliseconds : Z) (s : fd_state) : Z * list Z * fd_state :=
  let '(ret, bs, s) := fd_read (Z.to_nat (count - 1)) s in (ret, splice 1 bs buf, s).

(** ** Addresses *)

(** An [in_addr] as its four bytes. *)
Definition inet_ntop (src : list Z) : list Z :=
  match src with
  | [a; b; c; d] =>
      digits 10 a ++ str "." ++ digits 10 b ++ str "." ++ digits 10 c ++ str "." ++ digits 10 d
  | _ => []
  end.

(** "%hhu". *)
Definition scan_hhu (l : list Z) : option (Z * list Z) :=
  '(v, l) ← scan_u (skip_space l); Some (u8 v, l).

(** "%hhu." *)
Definition scan_dotted (l : list Z) : option (Z * list Z) :=
  '(v, l) ← scan_hhu l; l ← match_lit (str ".") l; Some (v, l).

(** [sscanf(src, "%hhu.%hhu.%hhu.%hhu", ...)] converts four numbers, or not. *)
Definition inet_pton (src : list Z) : Z * list Z :=
  match
    ('(a, l) ← scan_dotted src; '(b, l) ← scan_dotted l; '(c, l) ← scan_dotted l;
     '(d, l) ← scan_hhu l; Some [a; b; c; d])
  with
  | Some ip => (1, ip)
  | None => (0, [])
  end.

Lemma scan_hhu_digits n l :
  byte_ok n -> (match l with [] => true | b :: _ => negb (isdigit b) end = true) ->
  scan_hhu (digits 10 n ++ l) = Some (n, l).
Proof.
  intros Hn Hl. unfold byte_ok in Hn. unfold scan_hhu.
  rewrite skip_space_word by (apply digits_field; lia). rewrite scan_u_digits by (done || lia).
  cbn [mbind option_bind]. by rewrite u8_id.
Qed.

Lemma scan_dotted_digits n l : byte_ok n -> scan_dotted (digits 10 n ++ str "." ++ l) = Some (n, l).
Proof.
  intros Hn. unfold scan_dotted. rewrite scan_hhu_digits by done. cbn [mbind option_bind].
  by rewrite match_lit_app.
Qed.

Lemma inet_pton_four src a b c d l1 l2 l3 l4 :
  scan_dotted src = Some (a, l1) -> scan_dotted l1 = Some (b, l2) -> scan_dotted l2 = Some (c, l3) ->
  scan_hhu l3 = Some (d, l4) -> inet_pton src = (1, [a; b; c; d]).
Proof. intros E1 E2 E3 E4. unfold inet_pton. rewrite E1. cbn. rewrite E2. cbn. rewrite E3. cbn. by rewrite E4. Qed.

Lemma dotted a b : existsb (Z.eqb 46) (a ++ str "." ++ b) = true.
Proof. rewrite existsb_app. apply orb_true_r. Qed.

(** On Windows, the address that is printed for an address is read as that address. *)
Theorem address_roundtrip a b c d tl :
  bytes_ok [a; b; c; d] -> (match tl with [] => true | x :: _ => negb (isdigit x) end = true) ->
  inet_pton (inet_ntop [a; b; c; d] ++ tl) = (1, [a; b; c; d])
  /\ existsb (Z.eqb 46) (inet_ntop [a; b; c; d]) = true.
Proof.
  intros Hb Htl. apply Forall_cons in Hb as [Ha Hb]. apply Forall_cons in Hb as [Hb Hc].
  apply Forall_cons in Hc as [Hc Hd]. apply Forall_cons in Hd as [Hd _].
  unfold inet_ntop. split; [|by apply dotted].
  rewrite <- !app_assoc.
  eapply inet_pton_four; [by apply scan_dotted_digits..|by apply scan_hhu_digits].
Qed.

(** Numbers above 255 are cut to a byte: they name another address. *)
Example address_wraps : inet_pton (str "300.1.1.1") = (1, [44; 1; 1; 1]).
Proof. reflexivity. Qed.

(** On Windows, a reply over TCP is stored one byte behind the start of the buffer: every
    field is read from the byte before it, and the first is what was in the buffer. *)
Theorem win_tcp_read_shifts buf count ms rep t s :
  fd_in s = RdBytes rep :: t -> rep <> [] -> zlen rep < count -> count <= zlen buf ->
  exists s', tcp_read buf count ms s = (zlen rep, splice 1 rep buf, s')
    /\ forall i, (i < length rep)%nat ->
         nth (S i) (splice 1 rep buf) 0 = nth i rep 0
         /\ nth 0 (splice 1 rep buf) 0 = nth 0 buf 0.
Proof.
  intros Hin Hne Hc Hb. unfold tcp_read, fd_read. rewrite Hin. destruct rep as [|r rep]; [done|].
  set (l := r :: rep) in *. cbn [read_events].
  rewrite take_ge by (unfold zlen in *; lia). eexists. split; [done|].
  intros i Hi. destruct buf as [|b0 buf]; [unfold zlen in *; simpl in *; lia|].
  unfold splice. cbn [take app nth]. rewrite take_0. cbn [app]. split; [|done].
  by rewrite app_nth1.
Qed.
