(* ===== verification/Info.v ===== *)
(** * Info: the beep and the connection information (src/info.c) *)

From S2P Require Import Prelude Packets IO Logic Cstr Tcp.

(** The transport behind the function pointers: which [ev3_close] is set. *)
Inductive conn :=
| ConnHid
| ConnBt
| ConnTcp (h : tcp_handle).

(** The full HID packet for a beep; [sizeof tone - 1] bytes are sent. *)
Definition tone : list Z :=
  [0x00; 0x0F; 0x00; 0; 0; 0x80; 0x00; 0x00; 0x94; 0x01; 0x81; 0x02; 0x82; 0xE8; 0x03;
   0x82; 0xE8; 0x03].

(** What the HID library and the host report. *)
Record hid_strings := MkHidStrings {
  hid_manufacturer : list Z;
  hid_product : list Z;
  hid_serial : list Z;
  uname_release : list Z;
}.

(** [strcmp(a, b) < 0]. *)
Fixpoint strcmp_lt (a b : list Z) : bool :=
  match a, b with
  | _, [] => false
  | [], _ :: _ => true
  | x :: a', y :: b' => (x <? y) || ((x =? y) && strcmp_lt a' b')
  end.

Section info.
Context {D : Type} `{!Transport D}.

(** "%s" of an array of a struct; running past its end is undefined. *)
Definition print_field (a : list Z) : M D unit := s ← deref (cstr_of a); put_out s.

Definition info_hid (hs : hid_strings) : M D unit :=
  let is_old := strcmp_lt (uname_release hs) (str "2.6.24") in
  put_out (str "SUBSYSTEM==" ++ [34] ++ (if is_old then str "usb_device" else str "usb")
           ++ [34] ++ str ", ATTRS{idVendor}==" ++ [34] ++ str "0694" ++ [34]
           ++ str ", ATTRS{idProduct}==" ++ [34] ++ str "0005" ++ [7] ++ str ", MODE="
           ++ [34] ++ str "0666" ++ [34; 10]) ;;
  put_out (str "Manufacturer String: " ++ hid_manufacturer hs ++ [10]) ;;
  put_out (str "Product String: " ++ hid_product hs ++ [10]) ;;
  put_out (str "Serial Number String: " ++ hid_serial hs ++ [10]).

Definition info_tcp (h : tcp_handle) : M D unit :=
  put_out (str "Serial: ") ;; print_field (h_serial h) ;;
  put_out ([10] ++ str "Server:" ++ [9]) ;; print_field (h_ip h) ;;
  put_out (str ":" ++ digits 10 (h_tcp_port h) ++ [10] ++ str "Name: ") ;;
  print_field (h_name h) ;;
  put_out ([10] ++ str "Protocol: ") ;; print_field (h_protocol h) ;;
  put_out [10].

Definition info (c : conn) (hs : hid_strings) (arg : option (list Z)) : M D Z :=
  match arg with
  | Some arg =>
      match c with
      | ConnHid =>
          if decide (arg = str "serial") then put_out (hid_serial hs) ;; mret ERR_UNK
          else mret ERR_ARG
      | ConnTcp h =>
          if decide (arg = str "ip") then print_field (h_ip h) ;; mret ERR_UNK
          else mret ERR_ARG
      | ConnBt => mret ERR_ARG
      end
  | None =>
      res ← ev3_write tone (zlen tone);
      if res <? 0 then mret ERR_COMM else
      set_errmsg (nl +:+ "Attempting beep..") ;;
      match c with
      | ConnHid => info_hid hs
      | ConnTcp h => info_tcp h
      | ConnBt => mret tt
      end ;;
      mret ERR_UNK
  end.

(** The beep is one framed packet: a direct command without reply. *)
Lemma framed_tone : framed tone.
Proof. reflexivity. Qed.

(** `info` without argument sends the beep and nothing else and reports a transport error;
    with an argument it sends nothing and fails unless the argument is the one the transport
    knows. *)
Theorem info_spec c hs arg (w : World D) :
  (match c with ConnTcp h => tcp_handle_ok h /\ is_Some (cstr_of (h_serial h))
     /\ is_Some (cstr_of (h_ip h)) /\ is_Some (cstr_of (h_name h))
     /\ is_Some (cstr_of (h_protocol h))
   | _ => True end) ->
  wp (info c hs arg) (fun code w' =>
    match arg with
    | None => packets (w_trace w') = packets (w_trace w) ++ [tone]
        /\ code = (if (tr_write tone (w_dev w)).1 <? 0 then ERR_COMM else ERR_UNK)
    | Some a => w_trace w' = w_trace w /\ code =
        (match c with
         | ConnHid => if decide (a = str "serial") then ERR_UNK else ERR_ARG
         | ConnTcp _ => if decide (a = str "ip") then ERR_UNK else ERR_ARG
         | ConnBt => ERR_ARG
         end)
    end) w.
Proof.
  assert (forall (a : list Z) (Q : unit -> World D -> Prop) (w : World D), is_Some (cstr_of a) ->
    (forall w', w_trace w' = w_trace w -> Q tt w') -> wp (print_field a) Q w) as Hpf.
  { intros a Q w0 [s Hs] HQ. unfold print_field. rewrite Hs. wsteps. by apply HQ. }
  intros Hc. unfold info. destruct arg as [arg|].
  - destruct c as [| |h]; [destruct (decide _); wsteps; done|by wsteps|].
    destruct (decide _); [|by wsteps]. wsteps. apply Hpf; [apply Hc|]. intros w' Htr. by wsteps.
  - wsteps. apply wp_write_framed; [done|]. intros r d Hw. rewrite Hw. cbn [fst].
    destruct (r <? 0); [wsteps; by rewrite packets_app|]. wsteps.
    destruct c as [| |h]; [unfold info_hid; wsteps; by rewrite packets_app|
      wsteps; by rewrite packets_app|].
    destruct Hc as (_ & H1 & H2 & H3 & H4). unfold info_tcp. wsteps.
    apply Hpf; [done|]. intros w1 E1. wsteps. apply Hpf; [done|]. intros w2 E2. wsteps.
    apply Hpf; [done|]. intros w3 E3. wsteps. apply Hpf; [done|]. intros w4 E4. wsteps.
    rewrite E4. cbn. rewrite E3. cbn. rewrite E2. cbn. rewrite E1. cbn. by rewrite packets_app.
Qed.
End info.
