(* ===== verification/Tunnel.v ===== *)
(** * Tunnel: stdio to the brick (src/tunnel.c, src/listen.c, src/send.c) *)

From S2P Require Import Prelude Packets IO Logic Cstr.

(** ** [fgets(buf, n, stdin)]: the line and the rest of the input *)

Fixpoint take_line (n : nat) (inp : list Z) : list Z * list Z :=
  match n, inp with
  | O, _ => ([], inp)
  | S _, [] => ([], [])
  | S n', b :: inp' =>
      if b =? 10 then ([b], inp')
      else let '(l, r) := take_line n' inp' in (b :: l, r)
  end.
Definition fgets (n : nat) (inp : list Z) : option (list Z * list Z) :=
  match inp with
  | [] => None
  | _ => Some (take_line (n - 1) inp)
  end.

(** ** The packet a line describes *)

Definition hex2nib (hex : Z) : Z :=
  if (97 <=? hex) && (hex <=? 102) then hex - 97 + 0x0a
  else if (65 <=? hex) && (hex <=? 70) then hex - 65 + 0x0a
  else if (48 <=? hex) && (hex <=? 57) then hex - 48
  else if isspace hex || negb (isgraph hex) then -1
  else 0.

(** The first loop over the line: leading characters that are no digits. *)
Fixpoint count_prefix (prefix_len : Z) (hp : list Z) : Z :=
  match hp with
  | [] => prefix_len
  | c :: hp =>
      let tmp := hex2nib c in
      if tmp =? -1 then count_prefix prefix_len hp
      else if (tmp =? 0) && negb (c =? 48) then
        let prefix_len := prefix_len + 1 in
        if prefix_len =? 4 then prefix_len else count_prefix prefix_len hp
      else prefix_len
  end.

(** The second loop: [byte] and [nibble] are the pending half; the result is what
    [bp] wrote, [None] when it runs past the 1280 bytes of [binbuf]. *)
Fixpoint read_nibbles (room : nat) (byte nibble : Z) (hp : list Z) : option (list Z) :=
  match hp with
  | [] => Some []
  | c :: hp =>
      let tmp := hex2nib c in
      if tmp =? -1 then read_nibbles room byte nibble hp
      else if nibble =? 1 then
        match room with
        | O => None
        | S room => cons (u8 (byte + tmp)) <$> read_nibbles room byte 0 hp
        end
      else read_nibbles room (u8 (Z.shiftl (u8 tmp) 4)) 1 hp
  end.

Section tunnel.
Context {D : Type} `{!Transport D}.

Fixpoint tunnel_loop (fuel : nat) (binbuf inp : list Z) : M D Z :=
  match fuel with
  | O => blocked
  | S fuel =>
      match fgets 2560 inp with
      | None => mret ERR_UNK
      | Some (line, inp) =>
          let hexbuf := upto_nul line in
          let prefix_len := count_prefix 0 hexbuf in
          match read_nibbles 1279 0 0 hexbuf with
          | None => undef "writes past the end of binbuf"
          | Some bytes =>
              let binbuf := splice 1 bytes binbuf in
              let len := zlen bytes + 2 in
              let binbuf := if prefix_len =? 4 then splice 1 (le_bytes 2 (len - 2)) binbuf
                            else binbuf in
              put_out (str "prefix_len=" ++ fmt_d prefix_len ++ str ", len=" ++ fmt_d len ++ [10]) ;;
              print_bytes binbuf (len - 1) ;;
              res ← ev3_write binbuf (len - 1);
              tunnel_loop fuel binbuf inp
          end
      end
  end.

(** Every line is at least one byte of the input. *)
Definition tunnel_mode (inp : list Z) : M D Z :=
  binbuf ← fresh 1280;
  let binbuf := splice 0 [0x00] binbuf in
  tunnel_loop (S (length inp)) binbuf inp.

(** *** listen_mode: [hid_read] waits without limit *)
Fixpoint listen_loop (fuel : nat) (buffer : list Z) : M D Z :=
  match fuel with
  | O => blocked
  | S fuel =>
      '(read, buffer) ← ev3_read_timeout buffer 1280 (-1);
      if 0 <? read then
        put_out (fmt_d read ++ str (" bytes read." +:+ nl)) ;;
        s ← deref (cstr_of buffer);
        put_out (str "[" ++ s ++ str ("]" +:+ nl)) ;;
        listen_loop fuel (replicate 1280 0)
      else mret 0
  end.
Definition listen_mode (fuel : nat) : M D Z := listen_loop fuel (replicate 1280 0).

(** *** sendout *)
Fixpoint sendout_loop (fuel : nat) (inp : list Z) : M D Z :=
  match fuel with
  | O => blocked
  | S fuel =>
      match fgets 1022 inp with
      | None => mret 0
      | Some (line, inp) =>
          let text := upto_nul line in
          written ← ev3_write (0 :: text) (zlen text + 1);
          put_out (fmt_d written ++ str (" bytes read." +:+ nl)) ;;
          sendout_loop fuel inp
      end
  end.
Definition sendout (inp : list Z) : M D Z := sendout_loop (S (length inp)) inp.

End tunnel.

(** ** What lines mean *)

(** The nibbles of a line and the bytes they make. *)
Definition nibbles (line : list Z) : list Z :=
  filter (fun n => n <> -1) (map hex2nib line).
Fixpoint pairs (ns : list Z) : list Z :=
  match ns with
  | a :: b :: ns => (16 * a + b) :: pairs ns
  | _ => []
  end.

(** The packet written for a line, behind the report byte. *)
Definition line_packet (line : list Z) : list Z :=
  let bytes := pairs (nibbles line) in
  if count_prefix 0 line =? 4 then le_bytes 2 (zlen bytes) ++ drop 2 bytes else bytes.

Lemma hex2nib_range c : -1 <= hex2nib c <= 15.
Proof. unfold hex2nib. repeat bcase; lia. Qed.

Lemma nibbles_cons c l :
  nibbles (c :: l) = if hex2nib c =? -1 then nibbles l else hex2nib c :: nibbles l.
Proof.
  unfold nibbles. cbn [map]. rewrite filter_cons.
  destruct (Z.eqb_spec (hex2nib c) (-1)); [by rewrite decide_False by tauto|by rewrite decide_True].
Qed.

Lemma nibbles_range l : Forall (fun n => 0 <= n <= 15) (nibbles l).
Proof.
  induction l as [|c l IH]; [constructor|]. rewrite nibbles_cons.
  pose proof (hex2nib_range c). destruct (Z.eqb_spec (hex2nib c) (-1)); [done|].
  constructor; [lia|done].
Qed.

Lemma length_pairs ns : length (pairs ns) = (length ns / 2)%nat.
Proof.
  enough (forall n ns, (length ns <= n)%nat -> length (pairs ns) = (length ns / 2)%nat) by eauto.
  clear ns. induction n as [|n IH]; intros [|a [|b ns]] Hl; simpl in Hl; try done; try lia.
  cbn [pairs length]. rewrite IH by lia. replace (S (S (length ns))) with (length ns + 1 * 2)%nat by lia.
  rewrite Nat.div_add by lia. lia.
Qed.

(** The loop computes the pairs of nibbles, with [a] pending or not. *)
Lemma read_nibbles_eq room line :
  (forall byte, (length (pairs (nibbles line)) <= room)%nat ->
    read_nibbles room byte 0 line = Some (pairs (nibbles line))) /\
  (forall a, 0 <= a <= 15 -> (length (pairs (a :: nibbles line)) <= room)%nat ->
    read_nibbles room (16 * a) 1 line = Some (pairs (a :: nibbles line))).
Proof.
  revert room. induction line as [|c line IH]; intros room; [done|].
  rewrite nibbles_cons. pose proof (hex2nib_range c). cbn [read_nibbles].
  destruct (Z.eqb_spec (hex2nib c) (-1)); [apply IH|]. split.
  - intros byte Hl. change (0 =? 1) with false. cbn match.
    replace (u8 (Z.shiftl (u8 (hex2nib c)) 4)) with (16 * hex2nib c).
    + apply IH; [lia|done].
    + rewrite (u8_id (hex2nib c)) by lia. rewrite Z.shiftl_mul_pow2 by lia.
      rewrite u8_id by lia. lia.
  - intros a Ha Hl. change (1 =? 1) with true. cbn match. cbn [pairs length] in Hl |- *.
    destruct room as [|room]; [lia|]. rewrite (proj1 (IH room)) by lia. simpl.
    by rewrite u8_id by lia.
Qed.

Lemma length_nibbles l : (length (nibbles l) <= length l)%nat.
Proof. unfold nibbles. rewrite length_filter. by rewrite length_map. Qed.

(** No line [fgets] returns overruns the buffer. *)
Lemma read_nibbles_fits byte line :
  (length line <= 2559)%nat -> read_nibbles 1279 byte 0 line = Some (pairs (nibbles line)).
Proof.
  intros Hl. apply read_nibbles_eq. rewrite length_pairs.
  pose proof (length_nibbles line).
  change 1279%nat with (2559 / 2)%nat. apply Nat.Div0.div_le_mono. lia.
Qed.

Lemma count_prefix_nibbles p line :
  0 <= p < 4 -> count_prefix p line = 4 -> 4 - p <= zlen (nibbles line).
Proof.
  revert p. induction line as [|c line IH]; intros p Hp H; simpl in H; [lia|].
  rewrite nibbles_cons. pose proof (hex2nib_range c).
  destruct (Z.eqb_spec (hex2nib c) (-1)); [by apply IH|].
  unfold zlen in *. cbn [length]. destruct (_ && _); [|lia].
  destruct (Z.eqb_spec (p + 1) 4); [lia|]. specialize (IH (p + 1) ltac:(lia) H). lia.
Qed.

Lemma line_packet_length line : length (line_packet line) = length (pairs (nibbles line)).
Proof.
  unfold line_packet. destruct (Z.eqb_spec (count_prefix 0 line) 4) as [E|]; [|done].
  apply count_prefix_nibbles in E; [|lia]. unfold zlen in E.
  rewrite length_app, length_le_bytes, length_drop, length_pairs.
  assert (2 <= length (nibbles line) / 2)%nat by (apply Nat.div_le_lower_bound; lia). lia.
Qed.

(** The packet as it lies in [binbuf]. *)
Lemma binbuf_packet line rest :
  let bytes := pairs (nibbles line) in
  (length bytes <= length rest)%nat ->
  let b := splice 1 bytes (0 :: rest) in
  exists rest', (if count_prefix 0 line =? 4 then splice 1 (le_bytes 2 (zlen bytes)) b else b)
    = 0 :: line_packet line ++ rest' /\ length (line_packet line ++ rest') = length rest.
Proof.
  intros bytes Hl b. pose proof (line_packet_length line) as Hlp. fold bytes in Hlp.
  exists (drop (length bytes) rest).
  assert (b = [0] ++ bytes ++ drop (length bytes) rest) as -> by (by apply (splice_front [0])).
  split; [|rewrite length_app, length_drop; lia].
  unfold line_packet. fold bytes. destruct (Z.eqb_spec (count_prefix 0 line) 4) as [E|]; [|done].
  apply count_prefix_nibbles in E; [|lia]. unfold zlen in E.
  assert (2 <= length bytes)%nat.
  { unfold bytes. rewrite length_pairs. apply Nat.div_le_lower_bound; lia. }
  rewrite (splice_front [0]) by done. rewrite length_le_bytes, drop_app_le by done.
  by rewrite <- app_assoc.
Qed.

(** *** The same, as the comment of tunnel.c has it

    Characters without a glyph are ignored, hexadecimal digits are nibbles and any other
    character is a nibble 0; if the first four characters are no digits, the packet starts
    with its length. *)
Definition graphic (line : list Z) : list Z := filter (fun c => isgraph c = true) line.
Definition nibble_of (c : Z) : Z := default 0 (hex_digit c).
Definition asks_for_length (line : list Z) : bool :=
  let first := take 4 (graphic line) in
  (length first =? 4)%nat && forallb (fun c => bool_decide (hex_digit c = None)) first.
Definition packet_of (line : list Z) : list Z :=
  let bytes := pairs (map nibble_of (graphic line)) in
  if asks_for_length line then le_bytes 2 (zlen bytes) ++ drop 2 bytes else bytes.

Lemma hex2nib_spec c :
  if isgraph c then hex2nib c = nibble_of c /\ hex2nib c <> -1
    /\ (hex2nib c =? 0) && negb (c =? 48) = bool_decide (hex_digit c = None)
  else hex2nib c = -1.
Proof.
  unfold hex2nib, nibble_of, hex_digit, isgraph, isspace.
  repeat bcase; try (split_and!; cbn; lia); try lia; cbn [default];
    split_and!; try (cbn; lia); destruct (bool_decide_reflect (_ = None)); try done; cbn; lia.
Qed.

Lemma graphic_cons c l : graphic (c :: l) = if isgraph c then c :: graphic l else graphic l.
Proof. unfold graphic. rewrite filter_cons. by destruct (isgraph c). Qed.

Lemma nibbles_graphic line : nibbles line = map nibble_of (graphic line).
Proof.
  induction line as [|c line IH]; [done|]. rewrite nibbles_cons, graphic_cons.
  pose proof (hex2nib_spec c) as H. destruct (isgraph c).
  - destruct H as (E & Hne & _). rewrite (proj2 (Z.eqb_neq _ _)) by done. cbn [map]. by rewrite IH, E.
  - by rewrite H.
Qed.

Lemma count_prefix_asks k line :
  (0 < k <= 4)%nat ->
  (count_prefix (4 - Z.of_nat k) line =? 4)
  = (length (take k (graphic line)) =? k)%nat
    && forallb (fun c => bool_decide (hex_digit c = None)) (take k (graphic line)).
Proof.
  revert k. induction line as [|c line IH]; intros k Hk.
  - cbn. destruct k as [|k]; [lia|]. apply Z.eqb_neq. lia.
  - cbn [count_prefix]. rewrite graphic_cons. pose proof (hex2nib_spec c) as H. destruct (isgraph c).
    2: { rewrite H. change (-1 =? -1) with true. cbv iota. by apply IH. }
    destruct H as (_ & Hne & Hd). rewrite (proj2 (Z.eqb_neq (hex2nib c) (-1)) Hne). rewrite Hd.
    destruct k as [|k]; [lia|]. cbn [firstn length forallb Nat.eqb].
    replace (4 - Z.of_nat (S k) + 1) with (4 - Z.of_nat k) by lia.
    destruct (bool_decide (hex_digit c = None)); cbn [andb].
    2: { rewrite andb_false_r. apply Z.eqb_neq. lia. }
    destruct (Z.eqb_spec (4 - Z.of_nat k) 4) as [E|E].
    + replace k with 0%nat by lia. done.
    + apply IH. lia.
Qed.

Lemma line_packet_of line : line_packet line = packet_of line.
Proof.
  unfold line_packet, packet_of, asks_for_length. rewrite nibbles_graphic.
  pose proof (count_prefix_asks 4 line ltac:(lia)) as H. change (4 - Z.of_nat 4) with 0 in H.
  by rewrite H.
Qed.

(** Input lines without the newline. *)
Definition line_ok (max : nat) (l : list Z) : Prop :=
  Forall (fun b => 0 < b < 256 /\ b <> 10) l /\ (length l <= max)%nat.
Definition input_of (lines : list (list Z)) : list Z := concat (map (fun l => l ++ [10]) lines).

Lemma take_line_ok n l rest :
  Forall (fun b => 0 < b < 256 /\ b <> 10) l -> (length l < n)%nat ->
  take_line n (l ++ 10 :: rest) = (l ++ [10], rest).
Proof.
  intros Hl. revert n. induction Hl as [|b l [_ Hb] _ IH]; intros [|n] Hn; simpl in Hn; try lia.
  - done.
  - cbn [app take_line]. rewrite (proj2 (Z.eqb_neq _ _)) by done. by rewrite IH by lia.
Qed.

Lemma fgets_line n l lines :
  line_ok n l -> fgets (S (S n)) (input_of (l :: lines)) = Some (l ++ [10], input_of lines).
Proof.
  intros [Hl Hn]. unfold input_of. cbn [map concat]. rewrite <- app_assoc. cbn [app].
  unfold fgets. rewrite Nat.sub_succ, Nat.sub_0_r, take_line_ok by (done || lia).
  by destruct l.
Qed.

Lemma line_upto_nul n l : line_ok n l -> upto_nul (l ++ [10]) = l ++ [10].
Proof.
  intros [Hl _]. induction Hl as [|b l [Hb _] _ IH]; simpl; [done|].
  destruct b; try lia. by rewrite IH.
Qed.

Lemma nibbles_newline l : nibbles (l ++ [10]) = nibbles l.
Proof. unfold nibbles. rewrite map_app, filter_app. by rewrite app_nil_r. Qed.

Lemma count_prefix_newline p l : count_prefix p (l ++ [10]) = count_prefix p l.
Proof.
  revert p. induction l as [|c l IH]; intros p; [done|]. cbn [app count_prefix].
  destruct (_ =? -1); [done|]. destruct (_ && _); [|done]. by destruct (_ =? 4).
Qed.

Lemma input_of_length lines : (length lines <= length (input_of lines))%nat.
Proof.
  induction lines as [|l lines IH]; [done|]. unfold input_of in *. cbn [map concat length].
  rewrite !length_app. simpl. lia.
Qed.

Section spec.
Context {D : Type} `{!Transport D}.

Lemma tunnel_loop_sends fuel lines rest (w : World D) :
  Forall (line_ok 2558) lines -> (length lines < fuel)%nat -> length rest = 1279%nat ->
  wp (tunnel_loop fuel (0 :: rest) (input_of lines)) (fun code w' =>
    code = ERR_UNK /\
    packets (w_trace w') = packets (w_trace w) ++ map (fun l => 0 :: line_packet l) lines) w.
Proof.
  intros Hl. revert fuel rest w.
  induction Hl as [|l lines Hl _ IH]; intros [|fuel] rest w Hf Hrest; simpl in Hf; try lia.
  { cbn. by rewrite app_nil_r. }
  cbn [tunnel_loop]. rewrite (fgets_line 2558) by done.
  rewrite (line_upto_nul 2558 l Hl). rewrite count_prefix_newline.
  rewrite read_nibbles_fits by (destruct Hl; rewrite length_app; simpl; lia).
  rewrite nibbles_newline. set (bytes := pairs (nibbles l)).
  assert (length bytes <= 1279)%nat as Hb.
  { unfold bytes. rewrite length_pairs. pose proof (length_nibbles l). destruct Hl as [_ Hl].
    change 1279%nat with (2559 / 2)%nat. apply Nat.Div0.div_le_mono. lia. }
  replace (zlen bytes + 2 - 2) with (zlen bytes) by lia.
  replace (zlen bytes + 2 - 1) with (zlen (0 :: line_packet l)).
  2: { unfold zlen. cbn [length]. rewrite line_packet_length. fold bytes. lia. }
  destruct (binbuf_packet l rest) as (rest' & Hbuf & Hlen); [fold bytes; lia|]. fold bytes in Hbuf.
  rewrite Hbuf. wsteps. change (0 :: line_packet l ++ rest') with ((0 :: line_packet l) ++ rest').
  apply wp_print_bytes; [rewrite zlen_app; pose proof (zlen_nonneg rest'); lia|].
  intros _ text. wsteps.
  apply wp_write; [rewrite zlen_app; pose proof (zlen_nonneg rest'); lia|].
  intros res d _. unfold zlen. rewrite Nat2Z.id, take_app_length. wsimpl.
  eapply wp_mono; [apply IH; [lia|exact (eq_trans Hlen Hrest)]|].
  intros code w' [-> Hp]. split; [done|]. rewrite Hp. wsimpl.
  by rewrite packets_app, <- app_assoc.
Qed.


Lemma sendout_loop_sends fuel lines (w : World D) :
  Forall (line_ok 1020) lines -> (length lines < fuel)%nat ->
  wp (sendout_loop fuel (input_of lines)) (fun code w' =>
    code = 0 /\
    packets (w_trace w') = packets (w_trace w) ++ map (fun l => 0 :: l ++ [10]) lines) w.
Proof.
  intros Hl. revert fuel w.
  induction Hl as [|l lines Hl _ IH]; intros [|fuel] w Hf; simpl in Hf; try lia.
  { cbn. by rewrite app_nil_r. }
  cbn [sendout_loop]. rewrite (fgets_line 1020) by done. rewrite (line_upto_nul 1020 l Hl). wsteps.
  set (pkt := 0 :: l ++ [10]).
  replace (zlen (l ++ [10]) + 1) with (zlen pkt) by (unfold pkt, zlen; cbn [length]; lia).
  apply wp_write; [lia|]. intros res d _. unfold zlen. rewrite Nat2Z.id, firstn_all. wsteps.
  eapply wp_mono; [apply IH; lia|]. intros code w' [-> Hp]. split; [done|]. rewrite Hp. wsimpl.
  by rewrite packets_app, <- app_assoc.
Qed.

(** `sendout` sends one packet per input line, with the line feed, and succeeds at the end
    of the input. *)
Theorem sendout_sends_lines lines (w : World D) :
  Forall (line_ok 1020) lines ->
  wp (sendout (input_of lines)) (fun code w' =>
    code = 0 /\
    packets (w_trace w') = packets (w_trace w) ++ map (fun l => 0 :: l ++ [10]) lines) w.
Proof.
  intros Hl. apply sendout_loop_sends; [done|]. pose proof (input_of_length lines). lia.
Qed.
End spec.

(** *** The text of a packet *)

Definition hex_text (bs : list Z) : list Z := concat (map fmt_02x bs).

Lemma nibbles_app a b : nibbles (a ++ b) = nibbles a ++ nibbles b.
Proof. unfold nibbles. by rewrite map_app, filter_app. Qed.

Definition hex_byte_ok (b : Z) : bool :=
  bool_decide (nibbles (fmt_02x b) = [b / 16; b mod 16])
  && match fmt_02x b with c :: _ => negb (hex2nib c =? -1) && negb ((hex2nib c =? 0) && negb (c =? 48)) | [] => false end.
Lemma hex_bytes_ok : forallb hex_byte_ok (seqZ 0 256) = true.
Proof. by vm_compute. Qed.

Lemma fmt_02x_ok b : byte_ok b -> hex_byte_ok b = true.
Proof.
  intros Hb. pose proof hex_bytes_ok as H. rewrite forallb_forall in H. apply H.
  apply list_elem_of_In, elem_of_seqZ. unfold byte_ok in Hb. lia.
Qed.

(** The packet that `tunnel_mode` makes of the hexadecimal text of bytes is these bytes. *)
Theorem tunnel_hex_roundtrip bs : bytes_ok bs -> line_packet (hex_text bs) = bs.
Proof.
  intros Hbs.
  assert (pairs (nibbles (hex_text bs)) = bs) as Hp.
  { induction Hbs as [|b bs Hb _ IH]; [done|]. unfold hex_text. cbn [map concat].
    rewrite nibbles_app. pose proof (fmt_02x_ok b Hb) as Hok. unfold hex_byte_ok in Hok.
    apply andb_prop in Hok as [Hok _]. apply bool_decide_eq_true in Hok. rewrite Hok.
    cbn [app pairs]. fold (hex_text bs). rewrite IH. f_equal. Z.div_mod_to_equations. lia. }
  unfold line_packet. rewrite Hp.
  assert (count_prefix 0 (hex_text bs) = 0) as ->; [|done].
  destruct Hbs as [|b bs Hb _]; [done|]. pose proof (fmt_02x_ok b Hb) as Hok.
  unfold hex_byte_ok in Hok. apply andb_prop in Hok as [_ Hok]. unfold hex_text. cbn [map concat].
  destruct (fmt_02x b) as [|c cs]; [done|]. apply andb_prop in Hok as [H1 H2].
  cbn [app count_prefix]. apply negb_true_iff in H1, H2. by rewrite H1, H2.
Qed.

(** The length that `tunnel_mode` fills in counts the two bytes of the length field too, so
    it is two more than what follows. *)
Theorem tunnel_prefix_counts_itself line :
  count_prefix 0 line = 4 -> (length line <= 2559)%nat ->
  let p := 0 :: line_packet line in
  get_field SYSTEM_CMD "packetLen" p + PREFIX_SIZE = zlen p + 2.
Proof.
  intros Hc Hl p. pose proof (line_packet_length line) as Hlen.
  pose proof (length_pairs (nibbles line)) as Hps. pose proof (length_nibbles line) as Hn.
  assert (length (pairs (nibbles line)) <= 1279)%nat as Hb.
  { rewrite Hps. change 1279%nat with (2559 / 2)%nat. apply Nat.Div0.div_le_mono. lia. }
  assert (zlen p = zlen (pairs (nibbles line)) + 1) as ->
    by (unfold p, zlen; cbn [length]; rewrite Hlen; lia).
  unfold p, line_packet. rewrite Hc. change (4 =? 4) with true. cbn match.
  set (k := zlen (pairs (nibbles line))).
  change (get_field SYSTEM_CMD "packetLen" _) with (le_val (le_bytes 2 k)).
  rewrite le_val_le_bytes, Z.mod_small by (unfold k, zlen; lia). unfold PREFIX_SIZE. lia.
Qed.
