(* ===== verification/Uf2.v ===== *)
(** * Uf2: the archive format (src/uf2.h, src/uf2_helper.c, src/uf2_pack.c,
    src/uf2_unpack.c)

    Paths are byte strings.  The file system under the destination is a record
    of directories and files, on which the POSIX branch of the helpers acts;
    two spellings of a path are two paths. *)

From S2P Require Import Prelude Packets IO Stdio Cstr.

Definition UF2_MAGIC_1 : Z := 0x0A324655.
Definition UF2_MAGIC_2 : Z := 0x9E5D5157.
Definition UF2_MAGIC_3 : Z := 0x0AB16F30.
Definition UF2_FLAG_IGNORE : Z := 0x00000001.
Definition UF2_FLAG_FILE : Z := 0x00001000.
Definition UF2_FILENAME_MAX : Z := 150.
Definition UF2_PAYLOAD_MAX : Z := 466.
Definition UF2_FILE_MAX : Z := 64 * 1024 * 1024.

Definition uf2_block_t : layout :=
  [("magic1", 4%nat); ("magic2", 4%nat); ("flags", 4%nat); ("file_offset", 4%nat);
   ("data_bytes", 4%nat); ("block_number", 4%nat); ("block_count", 4%nat);
   ("file_size", 4%nat); ("data", 476%nat); ("magic3", 4%nat)].
Definition DATA_AT : nat := offsetof uf2_block_t "data".
Definition DATA_SIZE : Z := Z.of_nat (widthof uf2_block_t "data").

(** ** src/uf2_helper.c *)

Notation path := (list Z).
Definition slash : Z := 47.
Definition backslash : Z := 92.

(** The scan backwards from the terminating NUL: [pos] characters are left.
    The result is where the last component starts. *)
Fixpoint basename_pos (fullname : path) (backslash_trigger : bool) (pos : nat) : nat :=
  match pos with
  | O => 0
  | S pos' =>
      let c := nth pos' fullname 0 in
      if (c =? slash) || (backslash_trigger && (c =? backslash)) then pos
      else basename_pos fullname backslash_trigger pos'
  end.
Definition uf2_basename (fullname : path) (backslash_trigger : bool) : path :=
  drop (basename_pos fullname backslash_trigger (length fullname)) fullname.

Record fs := MkFs {
  fs_dirs : gset path;
  fs_files : gmap path (list Z);
  fs_denied : path -> bool;        (* no permission *)
}.

(** The directory part of a path without the slashes that end it. *)
Fixpoint strip_slashes (p : path) : path :=   (* of a reversed path *)
  match p with
  | c :: p' => if c =? slash then strip_slashes p' else p
  | [] => []
  end.
Definition parent (p : path) : path :=
  rev (strip_slashes (rev (take (basename_pos p false (length p)) p))).
Definition has_parent (p : path) (f : fs) : bool :=
  bool_decide (parent p = [] \/ parent p ∈ fs_dirs f).

(** [mkdir(path) < 0 && errno != EEXIST] is the boolean; what exists is left. *)
Definition mkdir (p : path) (f : fs) : bool * fs :=
  if bool_decide (p ∈ fs_dirs f) || bool_decide (is_Some (fs_files f !! p)) then (false, f)
  else if fs_denied f p || negb (has_parent p f) then (true, f)
  else (false, MkFs ({[p]} ∪ fs_dirs f) (fs_files f) (fs_denied f)).

(** The end of a run of characters that are ([b = true]) or are not slashes. *)
Fixpoint skip_run (b : bool) (i : nat) (rest : path) : nat :=
  match rest with
  | c :: rest' => if Bool.eqb (c =? slash) b then skip_run b (S i) rest' else i
  | [] => i
  end.

(** [uf2_mkdir_impl(path, path + start)]: whether it succeeds. *)
Fixpoint uf2_mkdir_impl (fuel : nat) (p : path) (start : nat) (f : fs) : bool * fs :=
  match fuel with
  | O => (true, f)
  | S fuel =>
      let next := skip_run true start (drop start p) in
      let next := skip_run false next (drop next p) in
      if (length p <=? next)%nat then (true, f) else
      let '(failed, f) := mkdir (take next p) f in
      if failed then (false, f) else uf2_mkdir_impl fuel p (S next) f
  end.
Definition uf2_mkdir_for (p : path) (f : fs) : bool * fs :=
  uf2_mkdir_impl (S (length p)) p 0 f.

(** Bytes written at an offset, behind zeros where there was nothing. *)
Definition pwrite (off : nat) (bytes old : list Z) : list Z :=
  splice off bytes (old ++ replicate (off - length old) 0).
Definition ftruncate (size : nat) (old : list Z) : list Z :=
  take size old ++ replicate (size - length old) 0.

Definition dot : Z := 46.

(** A path that ends in a slash, in "." or in ".." can only be a directory. *)
Definition names_directory (p : path) : bool :=
  bool_decide (uf2_basename p false ∈ [[]; [dot]; [dot; dot]]).

(** [open(O_WRONLY | O_CREAT)] needs the directory and refuses to open one; the
    writes succeed then. *)
Definition uf2_write_into (realname : path) (data : list Z) (file_offset file_size : Z) (f : fs)
    : option fs :=
  if fs_denied f realname || bool_decide (realname ∈ fs_dirs f)
     || negb (has_parent realname f) || names_directory realname
  then None
  else
    let old := default [] (fs_files f !! realname) in
    let new := pwrite (Z.to_nat file_offset) data (ftruncate (Z.to_nat file_size) old) in
    Some (MkFs (fs_dirs f) (<[realname := new]> (fs_files f)) (fs_denied f)).

(** ** src/uf2_pack.c *)

(** One iteration of the loop of [uf2_write_file] fills the block. *)
Definition fill_block (filename got block : list Z) (name_chars done req number : Z)
    : list Z :=
  let data_len := length got in
  let block := splice DATA_AT got block in
  let block := splice (DATA_AT + data_len)%nat (take (Z.to_nat name_chars) filename) block in
  let block := splice (DATA_AT + data_len + Z.to_nat name_chars)%nat
    (replicate (Z.to_nat (DATA_SIZE - Z.of_nat data_len - name_chars)) 0) block in
  let block := set_field uf2_block_t "file_offset" done block in
  let block := set_field uf2_block_t "data_bytes" req block in
  set_field uf2_block_t "block_number" number block.

(** [None]: a short read or write (-ERR_IO). *)
Fixpoint write_file_loop (fuel : nat) (dst src : FILE) (filename block : list Z)
    (name_chars max_payload start_block file_bytes blks done : Z) : option (Z * FILE) :=
  if negb (done <? file_bytes) then Some (blks, dst) else
  match fuel with
  | O => None
  | S fuel =>
      let remain := i32 (file_bytes - done) in
      let req := if remain <=? max_payload then remain else max_payload in
      let '(got, src) := fread (Z.to_nat req) src in
      if negb (zlen got =? req) then None else
      let block := fill_block filename got block name_chars done req (start_block + blks) in
      let '(n, dst) := fwrite block dst in
      if negb (n =? length block)%nat then None else
      write_file_loop fuel dst src filename block name_chars max_payload start_block
        file_bytes (blks + 1) (done + req)
  end.

Definition uf2_initial_block (file_bytes : Z) : list Z :=
  init_struct uf2_block_t
    [("magic1", UF2_MAGIC_1); ("magic2", UF2_MAGIC_2); ("flags", UF2_FLAG_FILE);
     ("file_size", file_bytes); ("magic3", UF2_MAGIC_3)].

(** Every block carries at least one byte. *)
Definition uf2_write_file (dst src : FILE) (filename : path) (start_block file_bytes : Z)
    : option (Z * FILE) :=
  let name_chars := Z.min (zlen filename) UF2_FILENAME_MAX in
  let max_payload := Z.min (DATA_SIZE - name_chars - 1) UF2_PAYLOAD_MAX in
  write_file_loop (Z.to_nat file_bytes) dst src filename (uf2_initial_block file_bytes)
    name_chars max_payload start_block file_bytes 0 0.

(** The second pass over the block headers. *)
Fixpoint fixup_loop (n : nat) (blk : Z) (start : Z) (blks : Z) (dst : FILE) : option FILE :=
  match n with
  | O => Some dst
  | S n =>
      match fseek_set (start + u32 (512 * blk) + 24) dst with
      | None => None
      | Some dst =>
          let '(k, dst) := fwrite (le_bytes 4 blks) dst in
          if negb (k =? 4)%nat then None else fixup_loop n (blk + 1) start blks dst
      end
  end.
Definition uf2_fixup_block_count (dst : FILE) (start blocks : Z) : option (Z * FILE) :=
  let blks := u32 blocks in
  dst ← fixup_loop (Z.to_nat blks) 0 start blks dst; Some (blocks, dst).

Section pack.
(** [fopen(name, "rb")]: the contents of the local files. *)
Variable local_file : path -> option FILE.
(** [BACKSLASH]: 1 in the Windows build. *)
Variable BACKSLASH : bool.

(** "%s/%s", cut at [UF2_FILENAME_MAX]. *)
Definition uf2_name (destdir file : path) : path :=
  take (Z.to_nat UF2_FILENAME_MAX) (destdir ++ [slash] ++ uf2_basename file BACKSLASH).

Fixpoint write_all_loop (dst : FILE) (destdir : path) (file_array : list path) (blks : Z)
    : option (Z * FILE) :=
  match file_array with
  | [] => Some (blks, dst)
  | file :: file_array =>
      src ← local_file file;
      let p0 := ftell src in
      if p0 <? 0 then None else
      src ← fseek_end src;
      let p1 := ftell src in
      if p1 <? 0 then None else
      src ← fseek_set p0 src;
      '(ret, dst) ← uf2_write_file dst src (uf2_name destdir file) blks (p1 - p0);
      write_all_loop dst destdir file_array (blks + ret)
  end.

Definition uf2_write_all (dst : FILE) (destdir : path) (file_array : list path)
    : option (Z * FILE) :=
  let start := ftell dst in
  if start <? 0 then None else
  '(blks, dst) ← write_all_loop dst destdir file_array 0;
  uf2_fixup_block_count dst start blks.

(** The result code and the archive; every failure is -ERR_IO. *)
Definition uf2_pack (dst : FILE) (brickdir : path) (file_array : list path) : Z * option FILE :=
  let brickdir := if zlen brickdir =? 0 then str "Projects" else brickdir in
  match uf2_write_all dst brickdir file_array with
  | None => (ERR_IO, None)
  | Some (_, dst) => (ERR_UNK, Some dst)
  end.
End pack.

(** ** src/uf2_unpack.c *)

(** Up to the first slash. *)
Fixpoint before_slash (p : path) : path :=
  match p with
  | c :: p' => if c =? slash then [] else c :: before_slash p'
  | [] => []
  end.

(** The path a member is extracted to, cut at the 255 characters of [realname]. *)
Definition uf2_map (dstdir filename : path) (use_paths : bool) : path :=
  let basename := uf2_basename filename false in
  let foldername :=
    if use_paths then
      let foldername := before_slash filename in
      if decide (foldername = [dot; dot]) then [dot] else foldername
    else [dot] in
  take 255 (dstdir ++ [slash] ++ foldername ++ [slash] ++ basename).

(** What a block asks for: nothing, or to write bytes of a member. *)
Inductive block_action :=
| SkipBlock
| WriteBlock (name : path) (data : list Z) (file_offset file_size : Z)
| BlockUndef.

(** The guards of the loop; [block.data[475] = 0] ends the name. *)
Definition parse_block (block : list Z) : block_action :=
  let fld f := get_field uf2_block_t f block in
  if negb (fld "magic1" =? UF2_MAGIC_1) || negb (fld "magic2" =? UF2_MAGIC_2)
     || negb (fld "magic3" =? UF2_MAGIC_3) then SkipBlock else
  if negb (Z.land (fld "flags") UF2_FLAG_IGNORE =? 0)
     || (Z.land (fld "flags") UF2_FLAG_FILE =? 0) then SkipBlock else
  if (UF2_PAYLOAD_MAX <? fld "data_bytes") || (UF2_FILE_MAX <? fld "file_size")
     || (fld "file_size" <=? fld "file_offset") then SkipBlock else
  let block := splice (DATA_AT + 475)%nat [0] block in
  match cstr_of (drop (DATA_AT + Z.to_nat (fld "data_bytes")) block) with
  | None => BlockUndef
  | Some name =>
      if UF2_FILENAME_MAX <? zlen name then SkipBlock
      else WriteBlock name (slice DATA_AT (Z.to_nat (fld "data_bytes")) block)
             (fld "file_offset") (fld "file_size")
  end.

(** [UnpackLoops]: more iterations than there are bytes in the archive. *)
Inductive unpack_result := Unpacked (retval : Z) (f : fs) | UnpackUndef | UnpackLoops.

Fixpoint unpack_loop (fuel : nat) (fp : FILE) (dstdir : path) (use_paths : bool) (f : fs)
    : unpack_result :=
  match fuel with
  | O => UnpackLoops
  | S fuel =>
      let '(block, fp) := fread (sizeof uf2_block_t) fp in
      if negb (length block =? sizeof uf2_block_t)%nat then Unpacked ERR_UNK f else
      match parse_block block with
      | SkipBlock => unpack_loop fuel fp dstdir use_paths f
      | BlockUndef => UnpackUndef
      | WriteBlock name data file_offset file_size =>
          let realname := uf2_map dstdir name use_paths in
          let '(made, f) := uf2_mkdir_for realname f in
          if negb made then Unpacked ERR_IO f else
          match uf2_write_into realname data file_offset file_size f with
          | None => Unpacked ERR_IO f
          | Some f => unpack_loop fuel fp dstdir use_paths f
          end
      end
  end.

(** The loop ends with the file. *)
Definition uf2_unpack (fp : FILE) (dstdir : path) (use_paths : bool) (f : fs) : unpack_result :=
  unpack_loop (S (length (f_data fp))) fp dstdir use_paths f.
