(* ===== verification/Uf2Pack.v ===== *)
(** * Uf2Pack: the archive [uf2_pack] writes *)

From S2P Require Import Prelude Packets IO Stdio Cstr Uf2.

(** ** Blocks *)

Definition block_header (off db num cnt size : Z) : list Z :=
  le_bytes 4 UF2_MAGIC_1 ++ le_bytes 4 UF2_MAGIC_2 ++ le_bytes 4 UF2_FLAG_FILE
  ++ le_bytes 4 off ++ le_bytes 4 db ++ le_bytes 4 num ++ le_bytes 4 cnt ++ le_bytes 4 size.

Definition block_area (name got : list Z) : list Z :=
  got ++ name ++ replicate (476 - length got - length name) 0.

(** The block of a member [name] of [size] bytes that carries [got] at [off]. *)
Definition mk_block (name got : list Z) (off num cnt size : Z) : list Z :=
  block_header off (zlen got) num cnt size ++ block_area name got ++ le_bytes 4 UF2_MAGIC_3.

Lemma length_block_area name got :
  (length got + length name <= 475)%nat -> length (block_area name got) = 476%nat.
Proof. intros. unfold block_area. rewrite !length_app, length_replicate. lia. Qed.

Lemma length_mk_block name got off num cnt size :
  (length got + length name <= 475)%nat -> length (mk_block name got off num cnt size) = 512%nat.
Proof.
  intros. unfold mk_block. rewrite !length_app, length_block_area, length_le_bytes by done. done.
Qed.

(** A block before an iteration: any data area. *)
Definition raw_block (off db num size : Z) (area : list Z) : list Z :=
  block_header off db num 0 size ++ area ++ le_bytes 4 UF2_MAGIC_3.

Lemma fill_block_eq name got off db num size area done number :
  length area = 476%nat -> (length got + length name <= 475)%nat ->
  fill_block name got (raw_block off db num size area) (zlen name) done (zlen got) number
  = mk_block name got done number 0 size.
Proof.
  intros Ha Hl. unfold fill_block, raw_block. change DATA_AT with 32%nat. change DATA_SIZE with 476.
  unfold zlen. rewrite Nat2Z.id, take_ge by lia.
  replace (Z.to_nat (476 - Z.of_nat (length got) - Z.of_nat (length name)))
    with (476 - length got - length name)%nat by lia.
  set (hd := block_header off db num 0 size).
  assert (length hd = 32%nat) as Hhd by done.
  set (m3 := le_bytes 4 UF2_MAGIC_3).
  rewrite (splice_front hd) by done.
  rewrite (app_assoc hd got). rewrite (splice_front (hd ++ got)) by (rewrite length_app; lia).
  rewrite (app_assoc (hd ++ got) name).
  rewrite (splice_front ((hd ++ got) ++ name)) by (rewrite !length_app; lia).
  rewrite length_replicate, !drop_drop, drop_app_length' by lia. rewrite <- !app_assoc.
  unfold mk_block, block_area. rewrite <- !app_assoc. reflexivity.
Qed.

(** The file in blocks of [mp] bytes. *)
Definition block_at (name content : list Z) (mp : nat) (start cnt : Z) (i : nat) : list Z :=
  mk_block name (slice (i * mp) mp content) (Z.of_nat (i * mp)) (start + Z.of_nat i) cnt
    (zlen content).
Definition block_count (mp n : nat) : nat := ((n + mp - 1) / mp)%nat.
Definition file_blocks (name content : list Z) (mp : nat) (start cnt : Z) : list (list Z) :=
  map (block_at name content mp start cnt) (seq 0 (block_count mp (length content))).

Lemma block_count_spec mp n i :
  (0 < mp)%nat -> (i * mp < n <-> i < block_count mp n)%nat.
Proof.
  intros Hmp. unfold block_count. split; intros H.
  - apply Nat.div_le_lower_bound; [lia|]. nia.
  - assert (mp * ((n + mp - 1) / mp) <= n + mp - 1)%nat by (apply Nat.Div0.mul_div_le). nia.
Qed.

(** The payload of a block leaves room for the name and its NUL. *)
Definition payload_of (name : list Z) : nat := Nat.min (475 - length name) 466.

Lemma write_file_loop_ok fuel i name content start dst src block :
  let mp := payload_of name in
  let k := block_count mp (length content) in
  (length name <= 150)%nat -> Z.of_nat (length content) < 2 ^ 31 ->
  (i <= k)%nat -> (k - i <= fuel)%nat ->
  appending dst -> f_data src = content -> f_pos src = Nat.min (i * mp) (length content) ->
  (exists off db num area, block = raw_block off db num (zlen content) area
     /\ length area = 476%nat) ->
  exists dst', write_file_loop fuel dst src name block (zlen name) (Z.of_nat mp) start
      (zlen content) (Z.of_nat i) (Z.min (Z.of_nat (i * mp)) (zlen content))
    = Some (Z.of_nat k, dst')
    /\ f_data dst' = f_data dst ++ concat (map (block_at name content mp start 0) (seq i (k - i)))
    /\ appending dst' /\ f_seekable dst' = f_seekable dst.
Proof.
  intros mp k Hname Hmax. assert (0 < mp /\ mp <= 466 /\ mp + length name <= 475)%nat as (Hmp & Hmp2 & Hmp3)
    by (unfold mp, payload_of; lia).
  revert i dst src block. induction fuel as [|fuel IH]; intros i dst src block Hi Hf Hdst Hd Hp Hb.
  - assert (i = k) as -> by lia. pose proof (block_count_spec mp (length content) k Hmp) as Hk.
    fold k in Hk. assert (length content <= k * mp)%nat by lia.
    rewrite Nat.sub_diag. cbn [write_file_loop seq map concat].
    rewrite (proj2 (Z.ltb_ge _ _)) by (unfold zlen; lia). cbn [negb].
    exists dst. by rewrite app_nil_r.
  - pose proof (block_count_spec mp (length content) i Hmp) as Hk. fold k in Hk.
    cbn [write_file_loop]. destruct (decide (i = k)) as [->|Hne].
    { rewrite (proj2 (Z.ltb_ge _ _)) by (unfold zlen; lia). cbn [negb].
      rewrite Nat.sub_diag. exists dst. by rewrite app_nil_r. }
    assert (i * mp < length content)%nat as Hlt by lia. clear Hk.
    assert (Z.min (Z.of_nat (i * mp)) (zlen content) = Z.of_nat (i * mp)) as ->
      by (unfold zlen; lia).
    rewrite (proj2 (Z.ltb_lt _ _)) by (unfold zlen; lia). cbn [negb].
    rewrite i32_id by (unfold zlen in *; lia).
    set (got := slice (i * mp) mp content).
    assert (length got = Nat.min mp (length content - i * mp))%nat as Hgot
      by (unfold got, slice; rewrite length_take, length_drop; lia).
    set (req := if _ <=? _ then _ else _).
    assert (req = zlen got) as Hreq by (unfold req, zlen in *; case Z.leb_spec; intros; lia).
    rewrite Hreq. unfold fread. rewrite Hd, Hp, Nat.min_l by lia.
    replace (Z.to_nat (zlen got)) with (length got) by (unfold zlen; lia).
    assert (slice (i * mp) (length got) content = got) as Hs.
    { unfold got, slice. rewrite length_take, length_drop.
      destruct (decide (mp <= length content - i * mp)%nat); [by rewrite Nat.min_l by lia|].
      rewrite Nat.min_r by lia. rewrite !take_ge; [done|..]; rewrite length_drop; lia. }
    rewrite Hs. rewrite Z.eqb_refl. cbn [negb].
    destruct Hb as (off & db & num & area & -> & Harea).
    rewrite fill_block_eq by lia.
    change (mk_block name got _ _ 0 _) with (block_at name content mp start 0 i).
    destruct (fwrite_appending (block_at name content mp start 0 i) dst Hdst)
      as (dst' & -> & Hdata & Hdst' & Hseek).
    rewrite Nat.eqb_refl. cbn [negb].
    replace (Z.of_nat i + 1) with (Z.of_nat (S i)) by lia.
    replace (Z.of_nat (i * mp) + zlen got) with (Z.min (Z.of_nat (S i * mp)) (zlen content))
      by (unfold zlen; rewrite Hgot; lia).
    destruct (IH (S i) dst' (MkFILE content (i * mp + length got) (f_seekable src)
      (f_eof src || (length got <? length got)%nat) (f_room src)) (block_at name content mp start 0 i))
      as (dst2 & Hr & Hdata2 & Hdst2 & Hseek2); [lia|lia|done|done|cbn [f_pos]; lia| |].
    { eexists _, _, _, (block_area name got). split; [reflexivity|].
      apply length_block_area. lia. }
    exists dst2. rewrite Hr, Hdata2, Hdata, <- app_assoc. split; [done|].
    split; [|by rewrite Hseek2]. f_equal.
    replace (k - i)%nat with (S (k - S i)) by lia. done.
Qed.

Lemma block_count_le mp n : (0 < mp)%nat -> (block_count mp n <= n)%nat.
Proof.
  intros Hmp. destruct (block_count mp n) as [|k] eqn:E; [lia|].
  assert (k * mp < n)%nat by (apply block_count_spec; lia). nia.
Qed.

Lemma uf2_write_file_ok name content start dst src :
  (length name <= 150)%nat -> Z.of_nat (length content) < 2 ^ 31 ->
  appending dst -> f_data src = content -> f_pos src = 0%nat ->
  let bs := file_blocks name content (payload_of name) start 0 in
  exists dst', uf2_write_file dst src name start (zlen content) = Some (zlen bs, dst')
    /\ f_data dst' = f_data dst ++ concat bs
    /\ appending dst' /\ f_seekable dst' = f_seekable dst.
Proof.
  intros Hname Hmax Hdst Hd Hp bs. unfold uf2_write_file.
  change UF2_FILENAME_MAX with 150. change DATA_SIZE with 476. change UF2_PAYLOAD_MAX with 466.
  rewrite Z.min_l by (unfold zlen; lia).
  replace (Z.min (476 - zlen name - 1) 466) with (Z.of_nat (payload_of name))
    by (unfold zlen, payload_of; lia).
  pose proof (block_count_le (payload_of name) (length content)
    ltac:(unfold payload_of; lia)) as Hle.
  replace (Z.to_nat (zlen content)) with (length content) by (unfold zlen; lia).
  destruct (write_file_loop_ok (length content) 0 name content start dst src
    (uf2_initial_block (zlen content))) as (dst' & Hr & H);
    [done|done|lia|lia|done|done|by rewrite Hp| |].
  { exists 0, 0, 0, (replicate 476 0). by split. }
  exists dst'. rewrite Nat.sub_0_r in H. split; [|exact H].
  change (Z.of_nat (0 * _)) with 0 in Hr. change (Z.of_nat 0) with 0 in Hr.
  replace (Z.min 0 (zlen content)) with 0 in Hr by (unfold zlen; lia).
  rewrite Hr. do 2 f_equal. unfold bs, file_blocks, zlen. by rewrite length_map, length_seq.
Qed.

(** *** The second pass *)

Definition set_count (v : Z) (b : list Z) : list Z := splice 24 (le_bytes 4 v) b.

Lemma set_count_block v name got off num cnt size :
  set_count v (mk_block name got off num cnt size) = mk_block name got off num v size.
Proof. reflexivity. Qed.

Definition is_block (b : list Z) : Prop := length b = 512%nat.

Lemma length_concat_blocks bs : Forall is_block bs -> length (concat bs) = (512 * length bs)%nat.
Proof.
  induction 1 as [|b bs Hb _ IH]; [done|]. cbn [concat length]. rewrite length_app, IH, Hb. lia.
Qed.

Lemma set_count_length v b : is_block b -> is_block (set_count v b).
Proof.
  unfold is_block, set_count. intros H. rewrite length_splice; [done|].
  rewrite length_le_bytes. lia.
Qed.

(** Storing the count into one block of the archive. *)
Lemma splice_block v done b todo :
  Forall is_block done -> is_block b ->
  splice (512 * length done + 24) (le_bytes 4 v) (concat (done ++ b :: todo))
  = concat (done ++ set_count v b :: todo).
Proof.
  intros Hd Hb. rewrite !concat_app. cbn [concat]. pose proof (length_concat_blocks done Hd) as Hl.
  unfold splice, set_count, splice. rewrite length_le_bytes.
  rewrite take_app_ge, drop_app_ge by lia. rewrite Hl.
  replace (512 * length done + 24 - 512 * length done)%nat with 24%nat by lia.
  replace (512 * length done + 24 + 4 - 512 * length done)%nat with 28%nat by lia.
  unfold is_block in Hb. rewrite take_app_le, drop_app_le by lia. by rewrite <- !app_assoc.
Qed.

Lemma fixup_loop_ok v done todo dst :
  Forall is_block done -> Forall is_block todo ->
  512 * Z.of_nat (length done + length todo) < 2 ^ 32 ->
  f_room dst = None -> f_seekable dst = true -> f_data dst = concat (done ++ todo) ->
  exists dst', fixup_loop (length todo) (Z.of_nat (length done)) 0 v dst = Some dst'
    /\ f_data dst' = concat (done ++ map (set_count v) todo).
Proof.
  intros Hd Ht. revert done dst Hd.
  induction Ht as [|b todo Hb Ht IH]; intros done dst Hd Hmax Hroom Hseek Hdata.
  { exists dst. by rewrite app_nil_r in *. }
  cbn [length fixup_loop map] in *. unfold fseek_set. rewrite Hseek.
  rewrite u32_id by lia. rewrite (proj2 (Z.leb_le _ _)) by lia. cbn [andb].
  set (pos := Z.to_nat (0 + 512 * Z.of_nat (length done) + 24)).
  assert (pos = 512 * length done + 24)%nat as Hpos by (unfold pos; lia).
  assert (length (f_data dst) = 512 * (length done + S (length todo)))%nat as Hlen.
  { rewrite Hdata, length_concat_blocks; [rewrite length_app; simpl; lia|].
    apply Forall_app. split; [done|by constructor]. }
  rewrite fwrite_all by done. cbn [f_data f_pos]. rewrite length_le_bytes.
  rewrite Nat.eqb_refl. cbn [negb].
  replace (pos - length (f_data dst))%nat with 0%nat by lia. cbn [replicate].
  rewrite app_nil_r, Hdata, Hpos, splice_block by done.
  replace (Z.of_nat (length done) + 1) with (Z.of_nat (length (done ++ [set_count v b])))
    by (rewrite length_app; simpl; lia).
  destruct (IH (done ++ [set_count v b]) (MkFILE (concat (done ++ set_count v b :: todo))
    (512 * length done + 24 + 4) true false (f_room dst))) as (dst' & Hr & Hdata').
  - apply Forall_app. split; [done|]. constructor; [by apply set_count_length|done].
  - rewrite length_app. simpl. lia.
  - done.
  - done.
  - by rewrite <- app_assoc.
  - exists dst'. by rewrite <- app_assoc in Hdata'.
Qed.

(** *** The archive *)

Section archive.
Variable BACKSLASH : bool.

(** The blocks of the members, numbered from [start], with the count [cnt]. *)
Fixpoint archive_blocks (d : path) (cnt start : Z) (members : list (path * list Z))
    : list (list Z) :=
  match members with
  | [] => []
  | (file, content) :: members =>
      let name := uf2_name BACKSLASH d file in
      let bs := file_blocks name content (payload_of name) start cnt in
      bs ++ archive_blocks d cnt (start + zlen bs) members
  end.

Lemma length_file_blocks name content mp start cnt :
  length (file_blocks name content mp start cnt) = block_count mp (length content).
Proof. unfold file_blocks. by rewrite length_map, length_seq. Qed.

Lemma archive_set_count d v start members :
  map (set_count v) (archive_blocks d 0 start members) = archive_blocks d v start members.
Proof.
  revert start. induction members as [|[file content] members IH]; intros start; [done|].
  cbn [archive_blocks]. rewrite map_app, IH. f_equal.
  - unfold file_blocks. rewrite map_map. apply map_ext. intros i. apply set_count_block.
  - unfold zlen. by rewrite !length_file_blocks.
Qed.

Lemma length_uf2_name d file : (length (uf2_name BACKSLASH d file) <= 150)%nat.
Proof. unfold uf2_name. rewrite length_take. change (Z.to_nat UF2_FILENAME_MAX) with 150%nat. lia. Qed.

Lemma archive_is_blocks d cnt start members :
  Forall is_block (archive_blocks d cnt start members).
Proof.
  revert start. induction members as [|[file content] members IH]; intros start; [constructor|].
  cbn [archive_blocks]. apply Forall_app. split; [|done].
  apply Forall_map, Forall_true. intros i. apply length_mk_block.
  pose proof (length_uf2_name d file). unfold slice, payload_of.
  rewrite length_take, length_drop. lia.
Qed.

Variable local_file : path -> option FILE.

(** The local files exist and can be repositioned. *)
Definition readable (m : path * list Z) : Prop :=
  local_file m.1 = Some (fopen_rb m.2) /\ zlen m.2 < 2 ^ 31.

Lemma write_all_ok d members start dst :
  Forall readable members -> appending dst ->
  let bs := archive_blocks d 0 start members in
  exists dst', write_all_loop local_file BACKSLASH dst d (map fst members) start
      = Some (start + zlen bs, dst')
    /\ f_data dst' = f_data dst ++ concat bs /\ appending dst' /\ f_seekable dst' = f_seekable dst.
Proof.
  intros Hm. revert start dst.
  induction Hm as [|[file content] members [Hfile Hsz] _ IH]; intros start dst Hdst bs.
  { exists dst. unfold bs. cbn [map write_all_loop archive_blocks concat].
    rewrite Z.add_0_r, app_nil_r. done. }
  cbn [fst snd] in *. cbn [map write_all_loop fst]. rewrite Hfile. cbn [mbind option_bind].
  unfold ftell, fseek_end, fseek_set, fopen_rb. cbn [f_seekable f_pos f_data f_room mbind option_bind].
  change (Z.of_nat 0 <? 0) with false. cbn match.
  rewrite (proj2 (Z.ltb_ge (Z.of_nat _) 0)) by lia. change (0 <=? Z.of_nat 0) with true. cbn [andb].
  rewrite Z.sub_0_r. fold (zlen content). change (Z.to_nat (Z.of_nat 0)) with 0%nat.
  set (name := uf2_name BACKSLASH d file). cbn [mbind option_bind].
  destruct (uf2_write_file_ok name content start dst (MkFILE content 0 true false None))
    as (dst1 & -> & Hdata1 & Hdst1 & Hseek1); try done; [apply length_uf2_name|].
  cbn [mbind option_bind].
  destruct (IH (start + zlen (file_blocks name content (payload_of name) start 0)) dst1 Hdst1)
    as (dst2 & -> & Hdata2 & Hdst2 & Hseek2).
  exists dst2. unfold bs. cbn [archive_blocks]. fold name.
  rewrite zlen_app, Z.add_assoc, Hdata2, Hdata1, <- app_assoc, concat_app.
  split; [done|]. split; [done|]. by rewrite Hseek2.
Qed.

Lemma uf2_pack_ok d members :
  d <> [] -> Forall readable members ->
  let bs := archive_blocks d 0 0 members in
  512 * zlen bs < 2 ^ 32 ->
  exists dst, uf2_pack local_file BACKSLASH fopen_wb d (map fst members) = (ERR_UNK, Some dst)
    /\ f_data dst = concat (archive_blocks d (zlen bs) 0 members).
Proof.
  intros Hd Hm bs Hmax. unfold uf2_pack.
  rewrite (proj2 (Z.eqb_neq (zlen d) 0)) by (destruct d; [done|unfold zlen; simpl; lia]).
  unfold uf2_write_all. change (ftell fopen_wb) with 0. change (0 <? 0) with false. cbn match.
  destruct (write_all_ok d members 0 fopen_wb Hm appending_fopen_wb)
    as (dst & -> & Hdata & [Hroom Hpos] & Hseek). fold bs in Hdata |- *.
  cbn [mbind option_bind]. unfold uf2_fixup_block_count. rewrite Z.add_0_l.
  pose proof (zlen_nonneg bs). rewrite u32_id by lia.
  replace (Z.to_nat (zlen bs)) with (length bs) by (unfold zlen; lia).
  destruct (fixup_loop_ok (zlen bs) [] bs dst) as (dst' & Hr & Hdata'); try done.
  - apply archive_is_blocks.
  - change (Z.of_nat (length [])) with 0 in Hr. rewrite Hr. cbn [mbind option_bind]. exists dst'. split; [done|].
    rewrite Hdata'. cbn [app]. unfold bs. by rewrite archive_set_count.
Qed.

(** C8: The archive `uf2_pack` writes for readable members is the concatenation of 512-byte
    blocks, numbered from 0, whose total count has been fixed up in every one of them after
    the last was written, and which carry the members in order, each in payloads of the
    smaller of 466 bytes and 475 less the length of its name in the archive (the last one
    may be shorter); an empty member has no block. The directory name is not empty, each
    member is below 2 GiB and the archive below 4 GiB. *)
Theorem uf2_pack_blocks d members :
  d <> [] -> Forall readable members ->
  let n := zlen (archive_blocks d 0 0 members) in
  512 * n < 2 ^ 32 ->
  exists dst, uf2_pack local_file BACKSLASH fopen_wb d (map fst members) = (ERR_UNK, Some dst)
    /\ f_data dst = concat (archive_blocks d n 0 members) /\ zlen (f_data dst) = 512 * n.
Proof.
  intros Hd Hm n Hn. destruct (uf2_pack_ok d members Hd Hm Hn) as (dst & Hp & Hdata).
  exists dst. split; [done|]. split; [done|]. rewrite Hdata. unfold zlen.
  rewrite length_concat_blocks by apply archive_is_blocks.
  unfold n, zlen. rewrite <- (archive_set_count d _ 0 members), length_map. lia.
Qed.
End archive.
