(* ===== verification/Uf2Unpack.v ===== *)
(** * Uf2Unpack: where [uf2_unpack] writes *)

From S2P Require Import Prelude Packets IO Stdio Cstr Uf2 Uf2Pack.

(** ** Path components *)

Definition ends_dir (q : path) : Prop := q = [] \/ last q = Some slash.

Lemma basename_pos_le p bt n : (basename_pos p bt n <= n)%nat.
Proof. induction n; simpl; [lia|]. destruct (_ || _); lia. Qed.

Lemma basename_pos_app q w bt :
  slash ∉ w -> (bt = true -> backslash ∉ w) ->
  basename_pos (q ++ w) bt (length (q ++ w)) = basename_pos (q ++ w) bt (length q).
Proof.
  intros Hw Hb. rewrite length_app. induction w as [|c w IH] using rev_ind; [by rewrite Nat.add_0_r|].
  apply not_elem_of_app in Hw as [Hw Hc]. apply not_elem_of_cons in Hc as [Hc _].
  rewrite length_app. cbn [length]. replace (length q + (length w + 1))%nat
    with (S (length q + length w)) by lia. cbn [basename_pos].
  rewrite app_assoc, app_nth2 by (rewrite length_app; lia).
  rewrite length_app, Nat.sub_diag. cbn [nth].
  rewrite (proj2 (Z.eqb_neq _ _)) by done.
  assert (bt && (c =? backslash) = false) as ->.
  { destruct bt; [|done]. apply Z.eqb_neq. intros ->. apply (Hb eq_refl), elem_of_app.
    right. by left. }
  cbn [orb].
  assert (forall n k x, (k <= n)%nat -> (n <= length (q ++ w))%nat ->
    basename_pos ((q ++ w) ++ [x]) bt k = basename_pos (q ++ w) bt k) as Hx.
  { intros n k x. revert n. induction k as [|k IHk]; intros n Hk Hn; [done|]. simpl.
    rewrite app_nth1 by lia. rewrite (IHk k) by lia. done. }
  rewrite (Hx (length q + length w)%nat) by (rewrite ?length_app; lia).
  rewrite (Hx (length q + length w)%nat (length q)) by (rewrite ?length_app; lia).
  apply IH; [done|]. intros Hbt. specialize (Hb Hbt). by apply not_elem_of_app in Hb as [? _].
Qed.

Lemma basename_pos_dir q w bt : ends_dir q -> basename_pos (q ++ w) bt (length q) = length q.
Proof.
  intros [->|Hq]; [done|]. apply last_Some in Hq as [q' ->]. rewrite length_app. cbn [length].
  rewrite Nat.add_1_r. cbn [basename_pos].
  rewrite app_nth1 by (rewrite length_app; simpl; lia).
  rewrite app_nth2, Nat.sub_diag by lia. done.
Qed.

(** The last component of a path, and what is before it. *)
Lemma uf2_basename_app q w bt :
  ends_dir q -> slash ∉ w -> (bt = true -> backslash ∉ w) -> uf2_basename (q ++ w) bt = w.
Proof.
  intros Hq Hw Hb. unfold uf2_basename.
  rewrite basename_pos_app, basename_pos_dir by done. apply drop_app_length.
Qed.

Lemma split_basename p :
  exists q w, p = q ++ w /\ ends_dir q /\ slash ∉ w.
Proof.
  induction p as [|c p (q & w & -> & Hq & Hw)] using rev_ind.
  { exists [], []. split; [done|]. split; [by left|apply not_elem_of_nil]. }
  destruct (decide (c = slash)) as [->|Hc].
  - exists ((q ++ w) ++ [slash]), []. rewrite app_nil_r. split; [done|].
    split; [right; apply last_snoc|apply not_elem_of_nil].
  - exists q, (w ++ [c]). rewrite app_assoc. split; [done|]. split; [done|].
    intros [Hin|Hin]%elem_of_app; [done|]. apply list_elem_of_singleton in Hin. by destruct Hc.
Qed.

Lemma uf2_basename_no_slash p : slash ∉ uf2_basename p false.
Proof.
  destruct (split_basename p) as (q & w & -> & Hq & Hw). by rewrite uf2_basename_app.
Qed.

Lemma before_slash_no_slash p : slash ∉ before_slash p.
Proof.
  induction p as [|c p IH]; simpl; [apply not_elem_of_nil|].
  destruct (Z.eqb_spec c slash); [apply not_elem_of_nil|].
  by apply not_elem_of_cons.
Qed.

(** The name of a file, in a directory that it does not leave. *)
Record file_name (b : path) : Prop := {
  fn_slash : slash ∉ b;
  fn_ne : b <> [];
  fn_here : b <> [dot];
  fn_up : b <> [dot; dot];
}.

Lemma names_directory_base dir base :
  slash ∉ base -> names_directory (dir ++ [slash] ++ base) = bool_decide (base ∈ [[]; [dot]; [dot; dot]]).
Proof.
  intros Hb. unfold names_directory. rewrite app_assoc.
  rewrite uf2_basename_app by (done || (right; apply last_snoc)). done.
Qed.

Lemma file_name_opens dir base :
  file_name base -> names_directory (dir ++ [slash] ++ base) = false.
Proof.
  intros [Hs H1 H2 H3]. rewrite names_directory_base by done. apply bool_decide_eq_false_2.
  by rewrite !elem_of_cons, elem_of_nil; intros [|[|[|]]].
Qed.

Lemma opens_file_name dir base :
  slash ∉ base -> names_directory (dir ++ [slash] ++ base) = false -> file_name base.
Proof.
  intros Hs. rewrite names_directory_base by done. intros Hn%bool_decide_eq_false_1.
  rewrite !elem_of_cons, elem_of_nil in Hn. split; [done|..]; intros ->; apply Hn; tauto.
Qed.

(** A folder below the destination: one name, and not the way up.  (The names "" and "."
    are the destination itself.) *)
Definition folder_name (folder : path) : Prop := slash ∉ folder /\ folder <> [dot; dot].

(** Where files may be written: in [dstdir] and in its folders. *)
Definition confined (dstdir p : path) : Prop :=
  (exists base, p = dstdir ++ [slash] ++ base /\ file_name base)
  \/ (exists folder base, p = (dstdir ++ [slash] ++ folder) ++ [slash] ++ base
       /\ folder_name folder /\ file_name base).

(** Which directories may be made: those on the way to [dstdir], and its folders. *)
Definition on_the_way (dstdir q : path) : Prop :=
  q `prefix_of` dstdir \/ exists folder, q = dstdir ++ [slash] ++ folder /\ folder_name folder.

(** A path as [uf2_map] makes it, cut where [realname] ends. *)
Definition mapped (dstdir p : path) : Prop :=
  (exists base, p = dstdir ++ [slash] ++ base /\ slash ∉ base)
  \/ (exists folder base, p = (dstdir ++ [slash] ++ folder) ++ [slash] ++ base
       /\ folder_name folder /\ slash ∉ base).

Lemma take_not_elem n (l : path) : slash ∉ l -> slash ∉ take n l.
Proof. intros Hl Hin. apply Hl. rewrite <- (take_drop n l). apply elem_of_app. by left. Qed.

Lemma uf2_map_mapped dstdir name use_paths :
  (length dstdir < 255)%nat -> mapped dstdir (uf2_map dstdir name use_paths).
Proof.
  intros Hd. unfold uf2_map.
  set (folder := if use_paths then _ else _). set (base := uf2_basename name false).
  assert (folder_name folder) as [Hf Hup].
  { assert (slash ∉ [dot]) as Hdot by (by apply not_elem_of_cons; split; [|apply not_elem_of_nil]).
    unfold folder. destruct use_paths; [|by split]. destruct (decide _); [by split|].
    split; [apply before_slash_no_slash|done]. }
  assert (slash ∉ base) as Hb by apply uf2_basename_no_slash.
  rewrite take_app, (take_ge dstdir) by lia.
  destruct (255 - length dstdir)%nat as [|k] eqn:Ek; [lia|]. cbn [app firstn].
  rewrite take_app. destruct (k - length folder)%nat as [|m] eqn:Em.
  - left. exists (take k folder). rewrite take_0, app_nil_r. split; [done|]. by apply take_not_elem.
  - right. exists folder, (take m base). rewrite (take_ge folder) by lia. cbn [app firstn].
    rewrite <- app_assoc. split; [done|]. split; [by split|]. by apply take_not_elem.
Qed.

(** ** Parsing never leaves the block *)

Lemma cstr_of_nul l : 0 ∈ l -> is_Some (cstr_of l).
Proof.
  induction l as [|b l IH]; intros H; [by apply not_elem_of_nil in H|].
  destruct (decide (b = 0)) as [->|Hb]; [by eexists|].
  apply elem_of_cons in H as [H|H]; [done|]. destruct (IH H) as [s Hs].
  simpl. rewrite Hs. destruct b; [done|..]; by eexists.
Qed.

Lemma parse_block_defined block :
  bytes_ok block -> length block = 512%nat -> parse_block block <> BlockUndef.
Proof.
  intros Hok Hl. unfold parse_block. cbv zeta.
  destruct (_ || _); [done|]. destruct (_ || _); [done|].
  destruct (_ || _ || _) eqn:E; [done|]. apply orb_false_iff in E as [E _].
  apply orb_false_iff in E as [E _]. change UF2_PAYLOAD_MAX with 466 in E. apply Z.ltb_ge in E.
  set (db := get_field uf2_block_t "data_bytes" block) in *.
  change DATA_AT with 32%nat.
  destruct (cstr_of_nul (drop (32 + Z.to_nat db) (splice (32 + 475) [0] block))) as [s ->].
  - apply list_elem_of_lookup. exists (475 - Z.to_nat db)%nat. rewrite lookup_drop.
    unfold splice. rewrite lookup_app_r by (rewrite length_take; lia).
    rewrite length_take. replace (_ - _)%nat with 0%nat by lia. done.
  - by destruct (_ <? _).
Qed.

(** ** Every write is confined *)

Lemma mkdir_files p f : fs_files (mkdir p f).2 = fs_files f.
Proof. unfold mkdir. destruct (_ || _); [done|]. by destruct (_ || _). Qed.

Lemma uf2_mkdir_impl_files fuel p start f : fs_files (uf2_mkdir_impl fuel p start f).2 = fs_files f.
Proof.
  revert start f. induction fuel as [|fuel IH]; intros start f; [done|]. cbn [uf2_mkdir_impl].
  destruct (_ <=? _)%nat; [done|]. destruct (mkdir _ f) as [b f'] eqn:E.
  assert (fs_files f' = fs_files f) as <- by (by rewrite <- (mkdir_files (take
    (skip_run false (skip_run true start (drop start p))
      (drop (skip_run true start (drop start p)) p)) p) f), E).
  by destruct b.
Qed.

Lemma skip_run_spec b i (rest : list Z) :
  exists k, skip_run b i rest = (i + k)%nat /\ (k <= length rest)%nat
    /\ Forall (fun c => (c =? slash) = b) (take k rest)
    /\ (forall c, rest !! k = Some c -> (c =? slash) = negb b).
Proof.
  revert i. induction rest as [|c rest IH]; intros i; cbn [skip_run].
  { exists 0%nat. repeat split; [lia|lia|constructor|done]. }
  destruct (Bool.eqb (c =? slash) b) eqn:E.
  - destruct (IH (S i)) as (k & -> & Hk & Hall & Hnext). exists (S k).
    split; [lia|]. split; [simpl; lia|]. split; [|done].
    cbn [take]. constructor; [|done]. by apply Bool.eqb_prop.
  - exists 0%nat. split; [lia|]. split; [lia|]. split; [constructor|].
    intros c' [= <-]. apply Bool.eqb_false_iff in E. by destruct (c =? slash), b.
Qed.

(** The run of [skip_run] by positions of the whole path. *)
Lemma skip_run_at b s (p : list Z) :
  (s <= length p)%nat ->
  exists x, skip_run b s (drop s p) = x /\ (s <= x <= length p)%nat
    /\ (forall j c, (s <= j < x)%nat -> p !! j = Some c -> (c =? slash) = b)
    /\ (forall c, p !! x = Some c -> (c =? slash) = negb b).
Proof.
  intros Hs. destruct (skip_run_spec b s (drop s p)) as (k & Hk & Hkl & Hall & Hnext).
  rewrite length_drop in Hkl. exists (s + k)%nat. split; [done|]. split; [lia|]. split.
  - intros j c Hj Hc. rewrite Forall_lookup in Hall. apply (Hall (j - s)%nat).
    rewrite lookup_take_lt, lookup_drop by lia. by replace (s + (j - s))%nat with j by lia.
  - intros c Hc. apply (Hnext c). rewrite lookup_drop. exact Hc.
Qed.

(** What is created ends before a slash of the path. *)
Lemma uf2_mkdir_impl_dirs fuel p start f q :
  q ∈ fs_dirs (uf2_mkdir_impl fuel p start f).2 ->
  q ∈ fs_dirs f \/ exists n, q = take n p /\ p !! n = Some slash.
Proof.
  revert start f. induction fuel as [|fuel IH]; intros start f; [by left|]. cbn [uf2_mkdir_impl].
  set (x1 := skip_run true start (drop start p)).
  destruct (skip_run_spec false x1 (drop x1 p)) as (k & Hk & _ & _ & Hnext).
  set (x2 := skip_run false x1 (drop x1 p)) in *.
  destruct (Nat.leb_spec (length p) x2) as [|Hlt]; [by left|].
  assert (p !! x2 = Some slash) as Hx2.
  { destruct (lookup_lt_is_Some_2 p x2 Hlt) as [c Hc]. rewrite Hc. f_equal.
    apply Z.eqb_eq, (Hnext c). by rewrite lookup_drop, <- Hk. }
  unfold mkdir. destruct (_ || _); [apply IH|]. destruct (_ || _); [by left|].
  intros [Hin|Hin]%IH; [|by right]. cbn [fs_dirs] in Hin.
  apply elem_of_union in Hin as [Hin%elem_of_singleton|Hin]; [right; by exists x2|by left].
Qed.

(** Which of them lie on the way. *)
Lemma mapped_dir dstdir p n : mapped dstdir p -> p !! n = Some slash -> on_the_way dstdir (take n p).
Proof.
  intros Hp Hn. destruct (decide (n <= length dstdir)%nat) as [Hle|Hgt].
  { left. exists (drop n dstdir). rewrite <- (take_drop n dstdir) at 1. f_equal.
    destruct Hp as [(? & -> & _)|(? & ? & -> & _)]; rewrite <- ?app_assoc; by rewrite take_app_le. }
  right. destruct Hp as [(base & -> & Hb)|(folder & base & -> & Hf & Hb)].
  - destruct Hb. rewrite app_assoc, lookup_app_r in Hn by (rewrite length_app; simpl; lia).
    by apply list_elem_of_lookup_2 in Hn.
  - exists folder. split; [|done]. set (d := dstdir ++ [slash] ++ folder) in *.
    assert (n = length d) as ->; [|apply take_app_length].
    destruct (decide (n < length d)%nat) as [Hlt|Hge].
    + destruct (proj1 Hf). rewrite lookup_app_l in Hn by done. unfold d in Hn.
      rewrite app_assoc, lookup_app_r in Hn by (rewrite length_app; simpl; lia).
      by apply list_elem_of_lookup_2 in Hn.
    + destruct (decide (n = length d)) as [|Hne]; [done|]. destruct Hb.
      rewrite app_assoc, lookup_app_r in Hn by (rewrite length_app; simpl; lia).
      by apply list_elem_of_lookup_2 in Hn.
Qed.

(** The files of [f'] are those of [f] except below [dstdir], and so are its directories
    except on the way there. *)
Definition changes_only_below (dstdir : path) (f f' : fs) : Prop :=
  (forall p, fs_files f' !! p <> fs_files f !! p -> confined dstdir p)
  /\ (forall q, q ∈ fs_dirs f' -> q ∈ fs_dirs f \/ on_the_way dstdir q).

Lemma changes_refl dstdir f : changes_only_below dstdir f f.
Proof. split; [done|]. intros q Hq. by left. Qed.

Lemma changes_trans dstdir f g h :
  changes_only_below dstdir f g -> changes_only_below dstdir g h -> changes_only_below dstdir f h.
Proof.
  intros [H1 D1] [H2 D2]. split.
  - intros p Hp. destruct (decide (fs_files h !! p = fs_files g !! p)) as [E|E]; [|by apply H2].
    apply H1. congruence.
  - intros q [Hq|Hq]%D2; [|by right]. by apply D1.
Qed.

Lemma mkdir_changes dstdir p f :
  mapped dstdir p -> changes_only_below dstdir f (uf2_mkdir_for p f).2.
Proof.
  intros Hp. unfold uf2_mkdir_for. split.
  - intros q. by rewrite uf2_mkdir_impl_files.
  - intros q [Hq|(n & -> & Hn)]%uf2_mkdir_impl_dirs; [by left|right]. by eapply mapped_dir.
Qed.

Lemma write_into_changes dstdir p data off size f f' :
  mapped dstdir p -> uf2_write_into p data off size f = Some f' ->
  changes_only_below dstdir f f'.
Proof.
  intros Hp H. unfold uf2_write_into in H. destruct (_ || _) eqn:E; [done|].
  apply orb_false_iff in E as [_ E]. simplify_eq. split; [|by left].
  intros q Hq. cbn [fs_files] in Hq. destruct (decide (q = p)) as [->|Hne];
    [|by rewrite lookup_insert_ne in Hq].
  destruct Hp as [(base & -> & Hb)|(folder & base & -> & Hf & Hb)].
  - left. exists base. split; [done|]. by eapply opens_file_name.
  - right. exists folder, base. split; [done|]. split; [done|]. by eapply opens_file_name.
Qed.

(** C7: On POSIX, for a destination of less than 255 characters, `uf2_unpack` on any bytes,
    with or without paths, is defined, ends with a result, and changes files only directly
    in the destination or in a folder directly in it, under names of files and folders
    without slashes that are not `..`; the only directories it makes are such folders and
    those on the way to the destination. No archive, whatever its member names are, makes it
    write elsewhere (paths are compared as they are spelled; symbolic links are not
    followed). *)
Theorem unpack_confined fp dstdir use_paths f :
  bytes_ok (f_data fp) -> (length dstdir < 255)%nat ->
  exists ret f', uf2_unpack fp dstdir use_paths f = Unpacked ret f'
    /\ changes_only_below dstdir f f'.
Proof.
  unfold uf2_unpack. intros Hok Hdst.
  assert (length (f_data fp) - f_pos fp < S (length (f_data fp)))%nat as Hfuel by lia.
  revert Hfuel. generalize (S (length (f_data fp))). intros fuel.
  revert fp f Hok. induction fuel as [|fuel IH]; intros fp f Hok Hfuel; [lia|].
  cbn [unpack_loop]. unfold fread. change (sizeof uf2_block_t) with 512%nat.
  set (block := slice (f_pos fp) 512 (f_data fp)). set (fp' := MkFILE _ _ _ _ _). cbv beta iota.
  pose proof (changes_refl dstdir f) as Hrefl.
  destruct (Nat.eqb_spec (length block) 512) as [El|_]; cbn [negb]; [|by eexists _, _].
  assert (bytes_ok block) as Hblk by (by apply bytes_ok_slice).
  assert (forall g, exists ret f', unpack_loop fuel fp' dstdir use_paths g = Unpacked ret f'
    /\ changes_only_below dstdir g f') as Hnext.
  { intros g. apply IH; [done|]. unfold fp'. cbn [f_data f_pos].
    pose proof El as El'. unfold block, slice in El'. rewrite length_take, length_drop in El'. lia. }
  pose proof (parse_block_defined block Hblk El) as Hdef.
  destruct (parse_block block) as [|name data off size|]; [apply Hnext|clear Hdef|done].
  pose proof (uf2_map_mapped dstdir name use_paths Hdst) as Hp.
  set (p := uf2_map dstdir name use_paths) in *.
  pose proof (mkdir_changes dstdir p f Hp) as Hm. destruct (uf2_mkdir_for p f) as [made f1].
  destruct made; cbn [negb]; [|by eexists _, _].
  destruct (uf2_write_into p data off size f1) as [f2|] eqn:Ew; [|by eexists _, _].
  destruct (Hnext f2) as (ret & f' & Hr & Hch). exists ret, f'. split; [done|].
  eapply changes_trans; [exact Hm|]. eapply changes_trans; [by eapply write_into_changes|done].
Qed.
