(* ===== verification/Uf2Roundtrip.v ===== *)
(** * Uf2Roundtrip: unpacking an archive restores the packed files *)

From S2P Require Import Prelude Packets IO Stdio Cstr Uf2 Uf2Pack Uf2Unpack.

(** ** A block is parsed back *)

Lemma splice_one_id (l : list Z) n x : l !! n = Some x -> splice n [x] l = l.
Proof.
  intros H. unfold splice. cbn [app length]. rewrite Nat.add_1_r. by apply take_drop_middle.
Qed.

Lemma parse_mk_block name got off num cnt size :
  cstr_ok name -> (length got <= 466)%nat -> (length got + length name <= 475)%nat ->
  (length name <= 150)%nat -> 0 <= off < size -> size <= UF2_FILE_MAX ->
  parse_block (mk_block name got off num cnt size) = WriteBlock name got off size.
Proof.
  intros Hc Hg Hgn Hn Ho Hs. change UF2_FILE_MAX with 67108864 in Hs.
  set (block := mk_block name got off num cnt size).
  assert (forall f, (offsetof uf2_block_t f + widthof uf2_block_t f <= 32)%nat ->
    get_field uf2_block_t f block
    = get_field uf2_block_t f (block_header off (zlen got) num cnt size)) as Hf.
  { intros f Hw. unfold get_field, block, mk_block. rewrite slice_app_l; [done|]. exact Hw. }
  assert (forall v, 0 <= v < 2 ^ 32 -> le_val (le_bytes 4 v) = v) as Hle
    by (intros v Hv; rewrite le_val_le_bytes; apply Z.mod_small; exact Hv).
  assert (get_field uf2_block_t "data_bytes" block = zlen got) as Edb.
  { rewrite Hf by (by apply Nat.leb_le). apply Hle. unfold zlen. lia. }
  assert (get_field uf2_block_t "file_size" block = size) as Esz.
  { rewrite Hf by (by apply Nat.leb_le). apply Hle. lia. }
  assert (get_field uf2_block_t "file_offset" block = off) as Eoff.
  { rewrite Hf by (by apply Nat.leb_le). apply Hle. lia. }
  assert (get_field uf2_block_t "magic3" block = UF2_MAGIC_3) as Em3.
  { unfold get_field, block, mk_block. change (offsetof uf2_block_t "magic3") with 508%nat.
    rewrite app_assoc. rewrite slice_app_r by (rewrite length_app, length_block_area by done; simpl; lia).
    rewrite length_app, length_block_area by done. done. }
  unfold parse_block. rewrite Em3, Edb, Esz, Eoff.
  rewrite (Hf "magic1"), (Hf "magic2"), (Hf "flags") by (by apply Nat.leb_le).
  change (get_field uf2_block_t "magic1" _) with UF2_MAGIC_1.
  change (get_field uf2_block_t "magic2" _) with UF2_MAGIC_2.
  change (get_field uf2_block_t "flags" _) with UF2_FLAG_FILE.
  cbn [Z.eqb Pos.eqb negb orb Z.land Pos.land]. change UF2_PAYLOAD_MAX with 466.
  change UF2_FILE_MAX with 67108864.
  rewrite (proj2 (Z.ltb_ge 466 _)) by (unfold zlen; lia).
  rewrite (proj2 (Z.ltb_ge _ size)) by lia. rewrite (proj2 (Z.leb_gt _ _)) by lia. cbn [orb].
  change DATA_AT with 32%nat. unfold zlen. rewrite Nat2Z.id.
  set (zs := replicate (476 - length got - length name) 0).
  assert (block = block_header off (zlen got) num cnt size
    ++ got ++ name ++ zs ++ le_bytes 4 UF2_MAGIC_3) as Hblock.
  { unfold block, mk_block, block_area. by rewrite <- !app_assoc. }
  assert (length (block_header off (zlen got) num cnt size) = 32%nat) as Hhd by done.
  rewrite splice_one_id.
  2: { rewrite Hblock. rewrite !lookup_app_r by lia. rewrite lookup_app_l
         by (unfold zs; rewrite length_replicate; lia).
       unfold zs. apply lookup_replicate_2. lia. }
  rewrite Hblock. rewrite <- drop_drop, (drop_app_length' _ _ 32) by done.
  rewrite drop_app_length. unfold zs.
  destruct (476 - length got - length name)%nat as [|n] eqn:En; [lia|].
  cbn [replicate app]. rewrite cstr_of_app by done.
  rewrite (proj2 (Z.ltb_ge _ _)) by (change UF2_FILENAME_MAX with 150; unfold zlen; lia).
  f_equal. unfold slice. rewrite (drop_app_length' _ _ 32) by done. apply take_app_length.
Qed.

(** ** Directories are made *)

Lemma strip_slashes_app sl a :
  Forall (fun c => (c =? slash) = true) sl ->
  (match a with [] => True | c :: _ => (c =? slash) = false end) ->
  strip_slashes (sl ++ a) = a.
Proof.
  intros Hsl Ha. induction Hsl as [|c sl Hc _ IH]; simpl.
  - destruct a as [|c a]; [done|]. simpl. by rewrite Ha.
  - by rewrite Hc.
Qed.

Lemma parent_app a sl w :
  Forall (fun c => (c =? slash) = true) sl -> slash ∉ w -> (sl <> [] \/ a = []) ->
  last a <> Some slash -> parent (a ++ sl ++ w) = a.
Proof.
  intros Hsl Hw Hne Ha. unfold parent.
  assert (ends_dir (a ++ sl)) as Hd.
  { destruct sl as [|c sl] using rev_ind.
    - destruct Hne as [| ->]; [done|by left].
    - right. rewrite app_assoc, last_snoc. apply Forall_app in Hsl as [_ Hc].
      inversion Hc as [|? ? Hc' _]. f_equal. by apply Z.eqb_eq. }
  rewrite app_assoc. rewrite basename_pos_app, basename_pos_dir by done.
  rewrite take_app_length, rev_app_distr, strip_slashes_app; [apply rev_involutive| |].
  - apply Forall_forall. intros c Hc. rewrite Forall_forall in Hsl. apply Hsl.
    apply list_elem_of_In. apply in_rev. by apply list_elem_of_In in Hc.
  - destruct a as [|c a] using rev_ind; [done|]. rewrite rev_app_distr. simpl.
    rewrite last_snoc in Ha. apply Z.eqb_neq. congruence.
Qed.

(** A destination directory in which members can be created. *)
Record ready (dir : list Z) (f : fs) : Prop := {
  rd_allowed : forall p, fs_denied f p = false;
  rd_no_file : forall k, dir !! k = Some slash \/ k = length dir ->
    fs_files f !! take k dir = None;
  rd_no_dir : forall base, dir ++ [slash] ++ base ∉ fs_dirs f;
}.

(** The parent of what the iteration at [start] creates exists. *)
Definition made_upto (p : list Z) (start : nat) (f : fs) : Prop :=
  start = 0%nat \/
  exists m, start = S m /\ p !! m = Some slash /\ take m p <> [] /\ last (take m p) <> Some slash
    /\ take m p ∈ fs_dirs f.

Lemma mkdir_ready dir q f :
  ready dir f -> fs_files f !! q = None -> has_parent q f = true ->
  (length q <= length dir)%nat ->
  exists f', mkdir q f = (false, f') /\ ready dir f' /\ fs_files f' = fs_files f
    /\ q ∈ fs_dirs f'.
Proof.
  intros Hrd Hq Hpar Hlen. unfold mkdir. destruct (decide (q ∈ fs_dirs f)) as [Hin|Hin].
  { rewrite bool_decide_true by done. cbn [orb]. eauto. }
  rewrite bool_decide_false by done. rewrite Hq, bool_decide_false by (by intros [? ?]).
  rewrite (rd_allowed _ _ Hrd), Hpar. cbn [orb negb]. eexists. split; [done|].
  split; [|split; [done|cbn [fs_dirs]; set_solver]].
  destruct Hrd as [H1 H2 H3]. split; [done|done|]. intros base [Hb|Hb]%elem_of_union.
  - apply elem_of_singleton in Hb. subst q. rewrite !length_app in Hlen. simpl in Hlen. lia.
  - by apply (H3 base).
Qed.

(** What an iteration creates has its parent already. *)
Lemma has_parent_next (p : list Z) start x1 x2 f :
  made_upto p start f -> (start <= x1 < x2)%nat -> (x2 <= length p)%nat ->
  (forall j c, (start <= j < x1)%nat -> p !! j = Some c -> (c =? slash) = true) ->
  (forall j c, (x1 <= j < x2)%nat -> p !! j = Some c -> (c =? slash) = false) ->
  has_parent (take x2 p) f = true.
Proof.
  intros Hup Hx Hx2 Hsl Hw. unfold has_parent. apply bool_decide_eq_true.
  set (sl := take (x1 - start) (drop start p)). set (w := take (x2 - x1) (drop x1 p)).
  assert (take x2 p = take start p ++ sl ++ w) as Hq.
  { unfold sl, w. replace (drop x1 p) with (drop (x1 - start) (drop start p))
      by (rewrite drop_drop; f_equal; lia).
    rewrite !take_take_drop. f_equal. lia. }
  assert (Forall (fun c => (c =? slash) = true) sl) as Hslf.
  { apply Forall_lookup. intros i c Hi. unfold sl in Hi.
    apply lookup_take_Some in Hi as [Hi Hlt]. rewrite lookup_drop in Hi.
    apply (Hsl (start + i)%nat); [lia|done]. }
  assert (slash ∉ w) as Hwf.
  { intros Hin. apply list_elem_of_lookup in Hin as [i Hi]. unfold w in Hi.
    apply lookup_take_Some in Hi as [Hi Hlt]. rewrite lookup_drop in Hi.
    by specialize (Hw (x1 + i)%nat slash ltac:(lia) Hi). }
  rewrite Hq. destruct Hup as [->|(m & -> & Hm & Hne & Hlast & Hin)].
  - left. rewrite take_0. apply (parent_app []); [done|done|by right|done].
  - right. erewrite take_S_r by done. rewrite <- app_assoc.
    change ([slash] ++ sl ++ w) with ((slash :: sl) ++ w).
    rewrite parent_app; [done| |done|by left|done]. by constructor.
Qed.

Lemma last_not_slash (dir : list Z) :
  dir <> [] -> last dir <> Some slash ->
  exists c, dir !! (length dir - 1)%nat = Some c /\ (c =? slash) = false
    /\ (0 < length dir)%nat.
Proof.
  intros Hne Hl. rewrite last_lookup in Hl. assert (0 < length dir)%nat by (destruct dir; [done|simpl; lia]).
  destruct (lookup_lt_is_Some_2 dir (length dir - 1) ltac:(lia)) as [c Hc]. exists c.
  split; [done|]. split; [|done]. apply Z.eqb_neq. intros ->. apply Hl.
  by replace (pred (length dir)) with (length dir - 1)%nat by lia.
Qed.

Lemma uf2_mkdir_impl_ok (dir base : list Z) fuel start f :
  let p := dir ++ [slash] ++ base in
  base <> [] -> slash ∉ base -> last dir <> Some slash -> dir <> [] ->
  ready dir f -> made_upto p start f -> (start <= S (length dir))%nat ->
  (length p < start + fuel)%nat ->
  exists f', uf2_mkdir_impl fuel p start f = (true, f') /\ ready dir f'
    /\ fs_files f' = fs_files f /\ dir ∈ fs_dirs f'.
Proof.
  intros p Hbase Hnb Hdir Hdne. set (n := length dir).
  assert (length p = n + 1 + length base)%nat as Hlp
    by (unfold p; rewrite !length_app; simpl; lia).
  assert (0 < length base)%nat by (destruct base; [done|simpl; lia]).
  assert (p !! n = Some slash) as Hpn.
  { unfold p, n. rewrite lookup_app_r, Nat.sub_diag by lia. done. }
  assert (forall x, (x <= n)%nat -> take x p = take x dir) as Htk
    by (intros x Hx; unfold p; by apply take_app_le).
  revert start f. induction fuel as [|fuel IH]; intros start f Hrd Hup Hst Hfuel; [lia|].
  cbn [uf2_mkdir_impl].
  destruct (skip_run_at true start p) as (x1 & -> & Hx1 & Hsl & Hn1); [lia|].
  destruct (skip_run_at false x1 p) as (x2 & -> & Hx2 & Hw & Hn2); [lia|].
  destruct (decide (start = S n)) as [->|Hne].
  - assert (x2 = length p) as ->.
    { destruct (decide (x2 < length p)%nat) as [Hlt|]; [|lia].
      destruct (lookup_lt_is_Some_2 p x2 Hlt) as [c Hc]. pose proof (Hn2 c Hc) as Hcs.
      apply Z.eqb_eq in Hcs. subst c. unfold p, n in *. rewrite lookup_app_r in Hc by lia.
      rewrite lookup_app_r in Hc by (simpl; lia). apply list_elem_of_lookup_2 in Hc. done. }
    rewrite Nat.leb_refl. exists f. split; [done|]. split; [done|]. split; [done|].
    destruct Hup as [|(m & [= <-] & _ & _ & _ & Hin)]; [done|].
    rewrite Htk in Hin by lia. by rewrite take_ge in Hin by (unfold n; lia).
  - destruct (last_not_slash dir Hdne Hdir) as (c & Hc & Hcs & Hn0). fold n in Hc, Hn0.
    assert (p !! (n - 1)%nat = Some c) as Hc' by (unfold p; by rewrite lookup_app_l by (fold n; lia)).
    clear Hc. rename Hc' into Hc.
    assert (start <= n - 1)%nat as Hst2.
    { destruct Hup as [->|(m & -> & Hm & _)]; [lia|].
      destruct (decide (m = n - 1)%nat) as [->|]; [|lia]. rewrite Hc in Hm. by simplify_eq. }
    assert (x1 <= n - 1)%nat as Hx1n.
    { destruct (decide (n - 1 < x1)%nat) as [Hlt|]; [|lia].
      specialize (Hsl _ _ ltac:(split; [exact Hst2|exact Hlt]) Hc). congruence. }
    assert (x2 <= n)%nat as Hx2n.
    { destruct (decide (n < x2)%nat) as [Hlt|]; [|lia].
      by specialize (Hw n slash ltac:(lia) Hpn). }
    assert (p !! x2 = Some slash) as Hpx2.
    { destruct (lookup_lt_is_Some_2 p x2 ltac:(lia)) as [c2 Hc2]. rewrite Hc2. f_equal.
      apply Z.eqb_eq, (Hn2 _ Hc2). }
    assert (x1 < x2)%nat as Hlt12.
    { destruct (decide (x1 = x2)) as [->|]; [|lia]. specialize (Hn1 _ Hpx2). done. }
    rewrite (proj2 (Nat.leb_gt _ _)) by lia.
    destruct (mkdir_ready dir (take x2 p) f Hrd) as (f1 & -> & Hrd1 & Hf1 & Hin1).
    + rewrite Htk by done. apply (rd_no_file _ _ Hrd).
      destruct (decide (x2 = n)) as [->|]; [by right|left].
      unfold p in Hpx2. by rewrite lookup_app_l in Hpx2 by (unfold n in *; lia).
    + apply (has_parent_next p start x1 x2); [exact Hup|lia|lia|done|done].
    + rewrite length_take. fold n. lia.
    + destruct (IH (S x2) f1) as (f' & Hr & Hrd' & Hf' & Hin'); [done| |lia|lia|].
      2: { exists f'. rewrite Hr, Hf'. done. }
      right. exists x2. split; [done|]. split; [done|].
      assert (take x2 p = take (x2 - 1) p ++ [default 0 (p !! (x2 - 1)%nat)]) as Htl.
      { destruct (lookup_lt_is_Some_2 p (x2 - 1) ltac:(lia)) as [e He]. rewrite He. simpl.
        rewrite <- (take_S_r _ _ _ He). f_equal. lia. }
      split; [rewrite Htl; by destruct (take (x2 - 1) p)|]. split; [|done].
      rewrite Htl, last_snoc. intros [= He].
      destruct (lookup_lt_is_Some_2 p (x2 - 1) ltac:(lia)) as [e He'].
      rewrite He' in He. simpl in He. subst e.
      by specialize (Hw (x2 - 1)%nat slash ltac:(lia) He').
Qed.

(** ** Members are restored *)

Definition target (dir : list Z) (base : list Z) : list Z := dir ++ [slash] ++ base.

Lemma before_slash_app d rest : slash ∉ d -> before_slash (d ++ slash :: rest) = d.
Proof.
  intros Hd. induction d as [|c d IH]; simpl; [done|].
  apply not_elem_of_cons in Hd as [Hc Hd]. rewrite (proj2 (Z.eqb_neq _ _)) by done.
  by rewrite IH.
Qed.

Lemma uf2_map_target dstdir d base :
  slash ∉ d -> d <> [dot; dot] -> slash ∉ base ->
  (length (target (dstdir ++ [slash] ++ d) base) <= 255)%nat ->
  uf2_map dstdir (d ++ [slash] ++ base) true = target (dstdir ++ [slash] ++ d) base.
Proof.
  intros Hd Hdd Hb Hl. unfold uf2_map.
  rewrite (app_assoc d [slash] base).
  rewrite uf2_basename_app by (done || (right; apply last_snoc)).
  rewrite <- (app_assoc d [slash] base). cbn [app]. rewrite before_slash_app, decide_False by done.
  unfold target in *. rewrite <- !app_assoc in Hl |- *. cbn [app] in *. by rewrite take_ge.
Qed.

(** What is on disk of a member: its first [m] bytes are right. *)
Definition restored_upto (p : list Z) (content : list Z) (m : nat) (f : fs) : Prop :=
  take m (ftruncate (length content) (default [] (fs_files f !! p))) = take m content.

Definition written (p : list Z) (content : list Z) (m : nat) (f : fs) : Prop :=
  exists c, fs_files f !! p = Some c /\ length c = length content /\ take m c = take m content.

Lemma length_ftruncate n l : length (ftruncate n l) = n.
Proof. unfold ftruncate. rewrite length_app, length_take, length_replicate. lia. Qed.
Lemma ftruncate_id l : ftruncate (length l) l = l.
Proof. unfold ftruncate. by rewrite Nat.sub_diag, app_nil_r, take_ge. Qed.

Lemma written_restored p content m f : written p content m f -> restored_upto p content m f.
Proof.
  intros (c & Hc & Hl & Ht). unfold restored_upto. rewrite Hc. cbn [default from_option id].
  by rewrite <- Hl, ftruncate_id.
Qed.

Lemma written_all p content f :
  written p content (length content) f -> fs_files f !! p = Some content.
Proof.
  intros (c & Hc & Hl & Ht). rewrite Hc. f_equal. rewrite <- Hl in Ht at 1.
  by rewrite !firstn_all in Ht.
Qed.

Lemma write_restores dir base content off bytes f :
  let p := target dir base in
  file_name base -> last dir <> Some slash -> dir <> [] ->
  ready dir f -> dir ∈ fs_dirs f ->
  bytes = slice off (length bytes) content -> (off + length bytes <= length content)%nat ->
  restored_upto p content off f ->
  exists f', uf2_write_into p bytes (Z.of_nat off) (zlen content) f = Some f'
    /\ ready dir f' /\ written p content (off + length bytes) f'
    /\ (forall q, q <> p -> fs_files f' !! q = fs_files f !! q).
Proof.
  intros p Hb Hdl Hdne Hrd Hdir Hbytes Hlen Hup. pose proof (fn_slash _ Hb) as Hnb.
  unfold uf2_write_into.
  rewrite (rd_allowed _ _ Hrd), bool_decide_false by apply (rd_no_dir _ _ Hrd).
  assert (has_parent p f = true) as ->.
  { apply bool_decide_eq_true. right. unfold p, target.
    rewrite parent_app; [done|by repeat constructor|done|by left|done]. }
  unfold p, target. rewrite file_name_opens by done. fold (target dir base). fold p.
  cbn [orb negb]. unfold zlen. rewrite !Nat2Z.id. eexists. split; [done|].
  set (old := ftruncate (length content) (default [] (fs_files f !! p))).
  assert (length old = length content) as Hold by apply length_ftruncate.
  assert (pwrite off bytes old = splice off bytes old) as Hpw.
  { unfold pwrite. replace (off - length old)%nat with 0%nat by lia. by rewrite app_nil_r. }
  split; [|split].
  - destruct Hrd as [H1 H2 H3]. split; [done| |done]. intros k Hk. cbn [fs_files].
    rewrite lookup_insert_ne; [by apply H2|]. intros He. apply (f_equal length) in He.
    unfold p, target in He. rewrite length_take, !length_app in He. simpl in He. lia.
  - unfold written. cbn [fs_files]. rewrite lookup_insert_eq. fold old. rewrite Hpw.
    eexists. split; [done|]. split; [rewrite length_splice; lia|]. unfold splice.
    rewrite app_assoc, take_app_length' by (rewrite length_app, length_take; lia).
    rewrite <- take_take_drop. unfold slice in Hbytes. rewrite <- Hbytes. f_equal. exact Hup.
  - intros q Hq. cbn [fs_files]. by rewrite lookup_insert_ne.
Qed.

(** The blocks left in the archive. *)
Definition at_block (fp : FILE) (done todo : list (list Z)) : Prop :=
  f_data fp = concat (done ++ todo) /\ f_pos fp = (512 * length done)%nat
  /\ Forall is_block done /\ Forall is_block todo.

Lemma fread_block fp done b todo :
  at_block fp done (b :: todo) ->
  exists fp', fread 512 fp = (b, fp') /\ at_block fp' (done ++ [b]) todo.
Proof.
  intros (Hd & Hp & Hdone & Htodo). apply Forall_cons in Htodo as [Hb Htodo].
  pose proof (length_concat_blocks done Hdone) as Hl. unfold is_block in Hb.
  unfold fread. rewrite Hd, Hp, concat_app. cbn [concat].
  assert (slice (512 * length done) 512 (concat done ++ b ++ concat todo) = b) as ->.
  { unfold slice. rewrite drop_app_length' by done. by apply take_app_length'. }
  eexists. split; [done|]. split; [|split; [|split; [|done]]].
  - cbn [f_data]. by rewrite !concat_app, <- app_assoc; cbn [concat]; rewrite app_nil_r.
  - cbn [f_pos]. rewrite Hb, length_app. simpl. lia.
  - apply Forall_app. by split; [|constructor].
Qed.

Section unpack.
Variables dstdir d : list Z.
Let dir : list Z := dstdir ++ [slash] ++ d.

(** The names in the archive. *)
Record folder_ok : Prop := {
  fo_cstr : cstr_ok d;
  fo_slash : slash ∉ d;
  fo_ne : d <> [];
  fo_up : d <> [dot; dot];
}.
Record member_ok (base content : list Z) : Prop := {
  mo_cstr : cstr_ok base;
  mo_file : file_name base;
  mo_name : (length (d ++ [slash] ++ base) <= 150)%nat;
  mo_path : (length (target dir base) <= 255)%nat;
  mo_content : content <> [];
  mo_size : zlen content <= UF2_FILE_MAX;
}.
Hypothesis Hfolder : folder_ok.

Lemma dir_facts : dir <> [] /\ last dir <> Some slash.
Proof.
  destruct Hfolder as [_ Hs Hne _]. unfold dir. split; [by destruct dstdir|].
  rewrite app_assoc, last_app. destruct (last d) as [c|] eqn:E; [|by apply last_None in E].
  intros [= ->]. apply last_Some in E as [d' ->]. apply Hs, elem_of_app. right. by left.
Qed.

(** One block of a member is extracted. *)
Lemma unpack_block fuel fp done todo base content start cnt i f :
  let name := d ++ [slash] ++ base in
  let mp := payload_of name in
  let p := target dir base in
  member_ok base content -> (i * mp < length content)%nat ->
  at_block fp done (block_at name content mp start cnt i :: todo) ->
  ready dir f -> restored_upto p content (i * mp) f ->
  exists fp' f', unpack_loop (S fuel) fp dstdir true f = unpack_loop fuel fp' dstdir true f'
    /\ at_block fp' (done ++ [block_at name content mp start cnt i]) todo /\ ready dir f'
    /\ written p content (Nat.min (S i * mp) (length content)) f'
    /\ (forall q, q <> p -> fs_files f' !! q = fs_files f !! q).
Proof.
  intros name mp p Hm Hi Hat Hrd Hup. destruct Hm as [Hc Hfn Hn Hp _ Hsz].
  pose proof Hfn as [Hs Hne _ _].
  destruct dir_facts as [Hdne Hdl]. pose proof Hfolder as [Hdc Hds _ Hup2].
  set (got := slice (i * mp) mp content).
  assert (length got = Nat.min mp (length content - i * mp))%nat as Hgot
    by (unfold got, slice; rewrite length_take, length_drop; lia).
  assert (mp <= 466 /\ mp + length name <= 475)%nat as [Hmp1 Hmp2]
    by (unfold mp, payload_of; fold name in Hn; lia).
  destruct (fread_block fp done _ todo Hat) as (fp' & Hr & Hat').
  cbn [unpack_loop]. change (sizeof uf2_block_t) with 512%nat. rewrite Hr.
  assert (length (block_at name content mp start cnt i) = 512%nat) as ->
    by (apply length_mk_block; fold got; lia).
  cbn [Nat.eqb negb]. unfold block_at at 1. fold got.
  rewrite parse_mk_block; [|by repeat apply Forall_app_2; [..|by repeat constructor|]|
    lia|lia|exact Hn|unfold zlen; lia|done].
  unfold name. rewrite (uf2_map_target dstdir d base) by done. fold dir. fold p.
  destruct (uf2_mkdir_impl_ok dir base (S (length p)) 0 f) as (f1 & Hmk & Hrd1 & Hf1 & Hin1);
    [done|done|done|done|done|by left|lia|unfold p, target; lia|].
  unfold uf2_mkdir_for. change (dir ++ [slash] ++ base) with p in Hmk. rewrite Hmk. cbn [negb].
  destruct (write_restores dir base content (i * mp) got f1) as (f2 & Hw & Hrd2 & Hup3 & Hoth);
    try done.
  - unfold got, slice. rewrite length_take, length_drop. symmetry.
    destruct (decide (mp <= length content - i * mp)%nat); [by rewrite Nat.min_l by lia|].
    rewrite Nat.min_r by lia. rewrite !take_ge; [done|..]; rewrite length_drop; lia.
  - lia.
  - unfold restored_upto in *. by rewrite Hf1.
  - fold p in Hw. rewrite Hw. exists fp', f2. split; [done|]. split; [exact Hat'|].
    split; [done|]. split.
    + replace (Nat.min (S i * mp) (length content)) with (i * mp + length got)%nat by lia. done.
    + intros q Hq. rewrite Hoth by done. by rewrite Hf1.
Qed.

(** All blocks of a member from the [i]th on. *)
Lemma unpack_blocks k fuel fp done todo base content start cnt i f :
  let name := d ++ [slash] ++ base in
  let mp := payload_of name in
  let p := target dir base in
  let blocks := map (block_at name content mp start cnt) (seq i k) in
  member_ok base content -> (i + k = block_count mp (length content))%nat ->
  at_block fp done (blocks ++ todo) -> ready dir f ->
  restored_upto p content (Nat.min (i * mp) (length content)) f ->
  exists fp' f', unpack_loop (k + fuel) fp dstdir true f = unpack_loop fuel fp' dstdir true f'
    /\ at_block fp' (done ++ blocks) todo /\ ready dir f'
    /\ (written p content (Nat.min (i * mp) (length content)) f \/ (0 < k)%nat ->
        written p content (length content) f')
    /\ (forall q, q <> p -> fs_files f' !! q = fs_files f !! q).
Proof.
  intros name mp p. assert (forall base content, member_ok base content ->
    0 < payload_of (d ++ [slash] ++ base))%nat as Hmp.
  { intros b c Hm. pose proof (mo_name _ _ Hm). unfold payload_of. lia. }
  revert i fp done f. induction k as [|k IH]; intros i fp done f blocks Hm Hk Hat Hrd Hup.
  - exists fp, f. split; [done|]. unfold blocks. cbn [seq map]. rewrite app_nil_r.
    split; [exact Hat|]. split; [done|]. split; [|done].
    pose proof (block_count_spec mp (length content) i (Hmp _ _ Hm)) as Hs.
    rewrite Nat.min_r by lia. intros [|]; [done|lia].
  - pose proof (block_count_spec mp (length content) i (Hmp _ _ Hm)) as Hs.
    assert (i * mp < length content)%nat as Hi by (apply Hs; lia).
    rewrite Nat.min_l in Hup by lia. unfold blocks in Hat. cbn [seq map app] in Hat.
    destruct (unpack_block (k + fuel) fp done _ base content start cnt i f Hm Hi Hat Hrd Hup)
      as (fp1 & f1 & Hr1 & Hat1 & Hrd1 & Hup1 & Ho1).
    destruct (IH (S i) fp1 _ f1 Hm ltac:(lia) Hat1 Hrd1 (written_restored _ _ _ _ Hup1))
      as (fp2 & f2 & Hr2 & Hat2 & Hrd2 & Hup2 & Ho2).
    exists fp2, f2. cbn [Nat.add]. rewrite Hr1, Hr2. split; [done|].
    rewrite <- app_assoc in Hat2. split; [exact Hat2|]. split; [done|].
    split; [intros _; apply Hup2; by left|]. intros q Hq. by rewrite Ho2, Ho1.
Qed.


Variable BACKSLASH : bool.

Definition base_of (m : list Z * list Z) : list Z := uf2_basename m.1 BACKSLASH.
Definition target_of (m : list Z * list Z) : list Z := target dir (base_of m).

Lemma uf2_name_full m content :
  member_ok (base_of m) content -> uf2_name BACKSLASH d m.1 = d ++ [slash] ++ base_of m.
Proof.
  intros Hm. unfold uf2_name. change (Z.to_nat UF2_FILENAME_MAX) with 150%nat.
  apply take_ge. apply Hm.
Qed.

Lemma target_inj a b : target dir a = target dir b -> a = b.
Proof. unfold target. intros H. by apply app_inv_head, app_inv_head in H. Qed.

Lemma unpack_archive members fuel fp done cnt start f :
  let blocks := archive_blocks BACKSLASH d cnt start members in
  Forall (fun m => member_ok (base_of m) m.2) members -> NoDup (map base_of members) ->
  at_block fp done blocks -> ready dir f ->
  exists fp' f',
    unpack_loop (length blocks + fuel) fp dstdir true f = unpack_loop fuel fp' dstdir true f'
    /\ at_block fp' (done ++ blocks) []
    /\ (forall m, m ∈ members -> fs_files f' !! target_of m = Some m.2)
    /\ (forall q, q ∉ map target_of members -> fs_files f' !! q = fs_files f !! q).
Proof.
  intros blocks Hms Hnd. unfold blocks. clear blocks. revert fp done start f Hnd.
  induction Hms as [|m members Hm _ IH]; intros fp done start f Hnd Hat Hrd.
  { exists fp, f. cbn [archive_blocks]. rewrite app_nil_r. split; [done|]. split; [done|].
    split; [|done]. intros m Hin. by apply not_elem_of_nil in Hin. }
  cbn [map] in Hnd. apply NoDup_cons in Hnd as [Hnew Hnd].
  destruct m as [file content]. cbn [archive_blocks] in Hat |- *.
  pose proof (uf2_name_full (file, content) content Hm) as Hname. cbn [fst] in Hname.
  rewrite Hname in Hat |- *. set (base := base_of (file, content)) in *. cbn [snd] in Hm.
  set (name := d ++ [slash] ++ base) in *.
  set (bs := file_blocks name content (payload_of name) start cnt) in *.
  set (rest := archive_blocks BACKSLASH d cnt (start + zlen bs) members) in *.
  assert (length bs = block_count (payload_of name) (length content)) as Hbs
    by apply length_file_blocks.
  rewrite length_app, <- Nat.add_assoc, Hbs.
  destruct (unpack_blocks (block_count (payload_of name) (length content)) (length rest + fuel)
    fp done rest base content start cnt 0 f Hm eq_refl Hat Hrd) as
    (fp1 & f1 & -> & Hat1 & Hrd1 & Hw & Ho1); [done|].
  destruct (IH fp1 (done ++ bs) (start + zlen bs) f1 Hnd Hat1 Hrd1)
    as (fp2 & f2 & Hr2 & Hat2 & Hall & Ho2).
  exists fp2, f2. split; [exact Hr2|]. split; [by rewrite <- app_assoc in Hat2|]. split.
  - intros m [->|Hin]%elem_of_cons; [|by apply Hall].
    rewrite Ho2.
    + apply written_all, Hw. right. apply block_count_spec;
        [pose proof (mo_name _ _ Hm); unfold payload_of; unfold name; lia|].
      pose proof (mo_content _ _ Hm). destruct content; [done|simpl; lia].
    + intros Hin. apply Hnew. apply list_elem_of_fmap in Hin as (m' & He & Hin').
      apply target_inj in He. fold base in He. rewrite He. by apply list_elem_of_fmap_2.
  - intros q Hq. cbn [map] in Hq. apply not_elem_of_cons in Hq as [Hq1 Hq2].
    rewrite Ho2 by done. by apply Ho1.
Qed.

Variable local_file : list Z -> option FILE.

(** C6: Unpacking with paths, on POSIX, what `uf2_pack` wrote succeeds, restores every
    member with its content under the destination directory, and changes no other file. The
    members are readable files with distinct base names, none empty and none above
    UF2_FILE_MAX (64 MiB; a larger one is packed, but skipped on unpacking); their base
    names are names of files (not `.` or `..`); the directory of the archive has a name
    without slashes, neither empty nor `..`; the names in the archive have at most 150
    characters and the paths on the disk at most 255; the archive is below 4 GiB; and
    nothing in the destination denies or blocks the files. *)
Theorem uf2_roundtrip members f :
  Forall (readable local_file) members ->
  Forall (fun m => member_ok (base_of m) m.2) members -> NoDup (map base_of members) ->
  512 * zlen (archive_blocks BACKSLASH d 0 0 members) < 2 ^ 32 -> ready dir f ->
  exists dst f',
    uf2_pack local_file BACKSLASH fopen_wb d (map fst members) = (ERR_UNK, Some dst)
    /\ uf2_unpack (fopen_rb (f_data dst)) dstdir true f = Unpacked ERR_UNK f'
    /\ (forall m, m ∈ members -> fs_files f' !! target_of m = Some m.2)
    /\ (forall q, q ∉ map target_of members -> fs_files f' !! q = fs_files f !! q).
Proof.
  intros Hread Hms Hnd Hsz Hrd.
  destruct (uf2_pack_ok BACKSLASH local_file d members) as (dst & Hpack & Hdata);
    [apply Hfolder|done|done|].
  set (n := zlen (archive_blocks BACKSLASH d 0 0 members)) in *.
  set (blocks := archive_blocks BACKSLASH d n 0 members) in *.
  assert (Forall is_block blocks) as Hblk by apply archive_is_blocks.
  destruct (unpack_archive members (S (length (f_data dst)) - length blocks)
    (fopen_rb (f_data dst)) [] n 0 f Hms Hnd) as (fp' & f' & Hr & Hat & Hall & Hoth).
  { split; [done|]. split; [done|]. by split; [constructor|]. }
  { done. }
  exists dst, f'. split; [done|]. split; [|done]. unfold uf2_unpack. cbn [f_data fopen_rb].
  pose proof (length_concat_blocks blocks Hblk) as Hl. rewrite <- Hdata in Hl.
  fold blocks in Hr.
  replace (length blocks + (S (length (f_data dst)) - length blocks))%nat
    with (S (length (f_data dst))) in Hr by lia.
  rewrite Hr. destruct (S (length (f_data dst)) - length blocks)%nat as [|k] eqn:E; [lia|].
  cbn [unpack_loop]. destruct Hat as (Hd' & Hp' & _ & _). unfold fread.
  rewrite app_nil_r in Hd'. cbn [app] in Hd', Hp'. fold blocks in Hd', Hp'.
  rewrite Hd', Hp'. unfold slice. rewrite drop_ge by (rewrite <- Hdata, Hl; lia). done.
Qed.
End unpack.

(** An empty file leaves nothing in the archive: it is not restored. *)
Lemma empty_member_lost BACKSLASH d cnt start file members :
  archive_blocks BACKSLASH d cnt start ((file, []) :: members)
  = archive_blocks BACKSLASH d cnt start members.
Proof.
  cbn [archive_blocks]. pose proof (length_uf2_name BACKSLASH d file).
  set (name := uf2_name BACKSLASH d file) in *.
  assert (file_blocks name [] (payload_of name) start cnt = []) as ->.
  { unfold file_blocks. replace (block_count (payload_of name) (length [])) with 0%nat; [done|].
    unfold block_count. cbn [length]. symmetry. apply Nat.div_small. unfold payload_of. lia. }
  cbn [app]. change (zlen []) with 0. by rewrite Z.add_0_r.
Qed.
