(* ===== verification/Uf2Win.v ===== *)
(** * Uf2Win: unpacking archives on Windows (src/uf2_helper.c, src/uf2_unpack.c)

    The branches of the archive functions that the Windows build compiles.  Both
    slashes separate the components of a path there, and the system resolves "."
    and ".." before it looks at a directory; a file is named by its components,
    the last one first, down to the drive. *)

From S2P Require Import Prelude Packets IO Stdio Cstr Uf2 Uf2Unpack Uf2Roundtrip.

(** ** Paths and files *)

Definition is_sep (c : Z) : bool := (c =? slash) || (c =? backslash).

Fixpoint components (p : path) : list path :=
  match p with
  | [] => [[]]
  | c :: p =>
      if is_sep c then [] :: components p
      else match components p with h :: t => (c :: h) :: t | [] => [] end
  end.

(** "C:". *)
Definition is_drive (c : path) : bool := bool_decide (length c = 2%nat /\ c !! 1%nat = Some 58).

(** The directory above; a drive has none. *)
Definition above (q : list path) : list path :=
  match q with
  | [] | [_] => q
  | _ :: q => q
  end.
Definition enter (q : list path) (c : path) : list path :=
  if decide (c = [] \/ c = [dot]) then q
  else if decide (c = [dot; dot]) then above q
  else c :: q.

Record winfs := MkWinFs {
  w_dirs : gset (list path);
  w_files : gmap (list path) (list Z);
  w_no_access : list path -> bool;
  w_cwd : list path;                   (* the current directory *)
}.

(** Where a path starts: at its drive, at the root of the current one, or in
    the current directory.  (Paths like "C:x", relative to the directory of a
    drive, are not resolved.) *)
Definition origin (p : path) (w : winfs) : list path :=
  match p with
  | c :: _ =>
      if is_drive (default [] (head (components p))) then []
      else if is_sep c then drop (length (w_cwd w) - 1) (w_cwd w) else w_cwd w
  | [] => w_cwd w
  end.
Definition canonical (p : path) (w : winfs) : list path := foldl enter (origin p w) (components p).

Definition set_file (q : list path) (bytes : list Z) (w : winfs) : winfs :=
  MkWinFs (w_dirs w) (<[q := bytes]> (w_files w)) (w_no_access w) (w_cwd w).
Definition refused (q : list path) (w : winfs) : bool :=
  w_no_access w q || negb (bool_decide (above q ∈ w_dirs w)).

(** [!CreateDirectoryA(path, NULL) && GetLastError() != ERROR_ALREADY_EXISTS] is
    the boolean. *)
Definition CreateDirectoryA (p : path) (w : winfs) : bool * winfs :=
  let q := canonical p w in
  if bool_decide (q ∈ w_dirs w) || bool_decide (is_Some (w_files w !! q)) then (false, w)
  else if refused q w then (true, w)
  else (false, MkWinFs ({[q]} ∪ w_dirs w) (w_files w) (w_no_access w) (w_cwd w)).

(** ** src/uf2_helper.c *)

(** The end of a run of characters that are ([b = true]) or are not separators. *)
Fixpoint skip_seps (b : bool) (i : nat) (rest : path) : nat :=
  match rest with
  | c :: rest' => if Bool.eqb (is_sep c) b then skip_seps b (S i) rest' else i
  | [] => i
  end.

(** [uf2_mkdir_impl(path, path + start)]: whether it succeeds.  The separators of
    the directories that were created become slashes. *)
Fixpoint uf2_mkdir_impl (fuel : nat) (p : path) (start : nat) (w : winfs) : bool * winfs :=
  match fuel with
  | O => (true, w)
  | S fuel =>
      let next := skip_seps true start (drop start p) in
      let next := skip_seps false next (drop next p) in
      if (length p <=? next)%nat then (true, w) else
      if (next =? 2)%nat && bool_decide (p !! 1%nat = Some 58) then uf2_mkdir_impl fuel p (S next) w
      else
        let '(failed, w) := CreateDirectoryA (take next p) w in
        if failed then (false, w) else uf2_mkdir_impl fuel (<[next := slash]> p) (S next) w
  end.
Definition uf2_mkdir_for (p : path) (w : winfs) : bool * winfs :=
  uf2_mkdir_impl (S (length p)) p 0 w.

(** [SetFilePointer] takes a signed distance: from 2^31 on it is negative and the
    call fails.  The file has been created then. *)
Definition uf2_write_into (realname : path) (data : list Z) (file_offset file_size : Z) (w : winfs)
    : bool * winfs :=
  let q := canonical realname w in
  if refused q w || bool_decide (q ∈ w_dirs w) then (false, w) else
  let old := default [] (w_files w !! q) in
  if i32 file_size <? 0 then (false, set_file q old w) else
  let new := ftruncate (Z.to_nat file_size) old in
  if i32 file_offset <? 0 then (false, set_file q new w) else
  (true, set_file q (pwrite (Z.to_nat file_offset) data new) w).

(** ** src/uf2_unpack.c *)

(** The path a member is extracted to; [realname] has 256 bytes. *)
Definition uf2_map (dstdir filename : path) (use_paths : bool) : path :=
  let basename := uf2_basename filename false in
  let foldername :=
    if use_paths then
      let foldername := before_slash filename in
      if decide (foldername = [dot; dot]) then [dot] else foldername
    else [dot] in
  take 255 (dstdir ++ [backslash] ++ foldername ++ [backslash] ++ basename).

(** The result; [None] for undefined behaviour and for more iterations than there are
    bytes in the archive. *)
Fixpoint unpack_loop (fuel : nat) (fp : FILE) (dstdir : path) (use_paths : bool) (w : winfs)
    : option (Z * winfs) :=
  match fuel with
  | O => None
  | S fuel =>
      let '(block, fp) := fread (sizeof uf2_block_t) fp in
      if negb (length block =? sizeof uf2_block_t)%nat then Some (ERR_UNK, w) else
      match parse_block block with
      | SkipBlock => unpack_loop fuel fp dstdir use_paths w
      | BlockUndef => None
      | WriteBlock name data file_offset file_size =>
          let realname := uf2_map dstdir name use_paths in
          let '(made, w) := uf2_mkdir_for realname w in
          if negb made then Some (ERR_IO, w) else
          let '(written, w) := uf2_write_into realname data file_offset file_size w in
          if negb written then Some (ERR_IO, w) else unpack_loop fuel fp dstdir use_paths w
      end
  end.
Definition uf2_unpack (fp : FILE) (dstdir : path) (use_paths : bool) (w : winfs)
    : option (Z * winfs) :=
  unpack_loop (S (length (f_data fp))) fp dstdir use_paths w.

(** ** Where a member goes *)

Lemma components_head p : exists h t, components p = h :: t.
Proof.
  induction p as [|c p (h & t & IH)]; cbn [components]; [by eexists _, _|].
  destruct (is_sep c); [by eexists _, _|]. rewrite IH. by eexists _, _.
Qed.

Lemma components_app p s q :
  is_sep s = true -> components (p ++ s :: q) = components p ++ components q.
Proof.
  intros Hs. induction p as [|c p IH]; cbn [components app]; [by rewrite Hs|].
  destruct (is_sep c); [by rewrite IH|]. rewrite IH. by destruct (components_head p) as (h & t & ->).
Qed.

Lemma components_one c : Forall (fun b => is_sep b = false) c -> components c = [c].
Proof.
  induction 1 as [|b c Hb _ IH]; [done|]. cbn [components]. by rewrite Hb, IH.
Qed.

(** What follows a directory is resolved from there. *)
Lemma canonical_app dstdir s rest w :
  dstdir <> [] -> is_sep s = true ->
  canonical (dstdir ++ s :: rest) w = foldl enter (canonical dstdir w) (components rest).
Proof.
  intros Hne Hs. unfold canonical. rewrite components_app by done. rewrite foldl_app.
  replace (origin (dstdir ++ s :: rest) w) with (origin dstdir w); [done|].
  destruct dstdir as [|c p]; [done|]. unfold origin. cbn [app].
  change (c :: p ++ s :: rest) with ((c :: p) ++ s :: rest). rewrite components_app by done.
  by destruct (components_head (c :: p)) as (h & t & ->).
Qed.

(** A component that names a file or a directory. *)
Definition plain (c : path) : Prop :=
  c <> [] /\ c <> [dot] /\ c <> [dot; dot] /\ Forall (fun b => is_sep b = false) c.

Lemma enter_plain q c : plain c -> enter q c = c :: q.
Proof.
  intros (H1 & H2 & H3 & _). unfold enter. rewrite decide_False by naive_solver.
  by rewrite decide_False.
Qed.

(** A member whose name has no backslash and ends in the name of a file. *)
Definition plain_name (dstdir name : path) : Prop :=
  backslash ∉ name /\ plain (uf2_basename name false) /\ (length dstdir + 2 * length name < 250)%nat.

(** In the directory or one folder below. *)
Definition inside (d q : list path) : Prop :=
  exists base sub, q = base :: sub ++ d /\ (length sub <= 1)%nat.

Lemma not_sep (p : path) : slash ∉ p -> backslash ∉ p -> Forall (fun b => is_sep b = false) p.
Proof.
  intros H1 H2. apply Forall_forall. intros b Hb. unfold is_sep.
  apply orb_false_iff. split; apply Z.eqb_neq; by intros ->.
Qed.

Lemma before_slash_sub p b : b ∈ before_slash p -> b ∈ p.
Proof.
  induction p as [|c p IH]; cbn [before_slash]; [done|]. destruct (c =? slash); [by intros ?%elem_of_nil|].
  intros [->|H]%elem_of_cons; [by left|right; by apply IH].
Qed.
Lemma length_before_slash p : (length (before_slash p) <= length p)%nat.
Proof. induction p as [|c p IH]; cbn [before_slash]; [done|]. destruct (c =? slash); simpl; lia. Qed.

(** [resolve] of a member that keeps to its folder. *)
Lemma map_inside dstdir name use_paths w :
  dstdir <> [] -> plain_name dstdir name ->
  inside (canonical dstdir w) (canonical (uf2_map dstdir name use_paths) w).
Proof.
  intros Hne (Hb & Hp & Hlen). unfold uf2_map.
  set (folder := if use_paths then _ else _).
  assert (Forall (fun b => is_sep b = false) folder /\ folder <> [dot; dot]
    /\ (length folder <= S (length name))%nat) as (Hf & Hnd & Hfl).
  { assert (Forall (fun b => is_sep b = false) [dot] /\ [dot] <> [dot; dot]
      /\ (length [dot] <= S (length name))%nat) as Hdot by (split_and!; [by constructor|done|simpl; lia]).
    unfold folder. destruct use_paths; [|exact Hdot]. destruct (decide _); [exact Hdot|].
    split_and!; [|done|pose proof (length_before_slash name); lia].
    apply not_sep; [apply before_slash_no_slash|]. intros H. by apply Hb, before_slash_sub. }
  clearbody folder. set (base := uf2_basename name false) in *.
  assert (length base <= length name)%nat by (unfold base, uf2_basename; rewrite length_drop; lia).
  rewrite take_ge by (rewrite !length_app; simpl; lia).
  change ([backslash] ++ folder ++ [backslash] ++ base) with (backslash :: (folder ++ backslash :: base)).
  rewrite canonical_app by done. rewrite components_app by done.
  rewrite !components_one by (done || apply Hp). cbn [app foldl].
  rewrite (enter_plain _ base) by done. unfold inside.
  unfold enter. destruct (decide _); [exists base, []; split; [done|simpl; lia]|].
  rewrite decide_False by done. exists base, [folder]. by split.
Qed.

(** On Windows, a member name with backslashes leaves the destination: the part behind the last
    slash is taken for the name of a file, and the system resolves the dots in it. *)
Theorem win_name_escapes dstdir folder base w :
  dstdir <> [] -> canonical dstdir w <> [] -> plain folder -> plain base ->
  (length dstdir + length folder + length base < 240)%nat ->
  canonical (uf2_map dstdir (folder ++ str "/..\..\" ++ base) true) w
  = base :: above (canonical dstdir w).
Proof.
  intros Hne Hc Hf Hb Hlen. unfold uf2_map.
  assert (slash ∉ folder) as Hfs.
  { intros Hin. destruct Hf as (_ & _ & _ & Hf). by apply (proj1 (Forall_forall _ _) Hf) in Hin. }
  assert (slash ∉ str "..\..\" ++ base) as Hbs.
  { intros [Hin|Hin]%elem_of_app; [by vm_compute in Hin; set_solver|].
    destruct Hb as (_ & _ & _ & Hb). by apply (proj1 (Forall_forall _ _) Hb) in Hin. }
  change (str "/..\..\" ++ base) with (slash :: (str "..\..\" ++ base)).
  rewrite before_slash_app by done. rewrite decide_False by apply Hf.
  assert (uf2_basename (folder ++ slash :: str "..\..\" ++ base) false = str "..\..\" ++ base) as ->.
  { change (slash :: str "..\..\" ++ base) with ([slash] ++ (str "..\..\" ++ base)).
    rewrite app_assoc. apply uf2_basename_app; [right; apply last_snoc|done|done]. }
  rewrite take_ge by (rewrite !length_app; simpl; lia).
  change (dstdir ++ [backslash] ++ folder ++ [backslash] ++ str "..\..\" ++ base)
    with (dstdir ++ backslash :: (folder ++ backslash :: ([dot; dot] ++ backslash
            :: ([dot; dot] ++ backslash :: base)))).
  rewrite canonical_app, !components_app by done. rewrite !components_one by apply Hf || apply Hb || by repeat constructor.
  cbn [app foldl]. rewrite (enter_plain _ folder), (enter_plain _ base) by done. f_equal.
  assert (forall q, enter q [dot; dot] = above q) as Hup by done.
  rewrite !Hup. destruct (canonical dstdir w) as [|c q]; [done|]. done.
Qed.

(** ** What unpacking writes *)

Lemma origin_cwd p w w' : w_cwd w' = w_cwd w -> canonical p w' = canonical p w.
Proof. intros E. unfold canonical, origin. by rewrite E. Qed.

(** The files and the current directory stay as they are. *)
Definition same_files (w w' : winfs) : Prop := w_files w' = w_files w /\ w_cwd w' = w_cwd w.

Lemma create_same p w : same_files w (CreateDirectoryA p w).2.
Proof. unfold CreateDirectoryA. destruct (_ || _); [done|]. by destruct (refused _ _). Qed.

Lemma mkdir_same fuel p start w : same_files w (uf2_mkdir_impl fuel p start w).2.
Proof.
  revert p start w. induction fuel as [|fuel IH]; intros p start w; [done|]. cbn [uf2_mkdir_impl].
  destruct (_ <=? _)%nat; [done|]. destruct (_ && _); [apply IH|].
  pose proof (create_same (take (skip_seps false (skip_seps true start (drop start p))
    (drop (skip_seps true start (drop start p)) p)) p) w) as Hc.
  destruct (CreateDirectoryA _ w) as [failed w1]. destruct failed; [done|].
  destruct Hc as [Hc1 Hc2]. cbn [snd] in *. unfold same_files. rewrite <- Hc1, <- Hc2. apply IH.
Qed.

(** Only files in the destination, or one folder below, change. *)
Definition only_inside (dstdir : path) (w w' : winfs) : Prop :=
  w_cwd w' = w_cwd w
  /\ forall q, w_files w' !! q <> w_files w !! q -> inside (canonical dstdir w) q.

Lemma only_same dstdir w w' : same_files w w' -> only_inside dstdir w w'.
Proof. intros [Hf Hc]. split; [done|]. intros q. by rewrite Hf. Qed.
Lemma only_trans dstdir a b c : only_inside dstdir a b -> only_inside dstdir b c -> only_inside dstdir a c.
Proof.
  intros [Hc1 H1] [Hc2 H2]. split; [congruence|]. intros q Hq.
  rewrite <- (origin_cwd dstdir a b Hc1) in *.
  destruct (decide (w_files c !! q = w_files b !! q)) as [E|E]; [|by apply H2].
  apply H1. congruence.
Qed.
Lemma set_file_only dstdir q bytes w :
  inside (canonical dstdir w) q -> only_inside dstdir w (set_file q bytes w).
Proof.
  intros Hq. split; [done|]. intros q' Hne. destruct (decide (q' = q)) as [->|E]; [done|].
  cbn [set_file w_files] in Hne. by rewrite lookup_insert_ne in Hne.
Qed.
Lemma write_into_only dstdir p data off size w :
  inside (canonical dstdir w) (canonical p w) ->
  only_inside dstdir w (uf2_write_into p data off size w).2.
Proof.
  intros Hin. unfold uf2_write_into. destruct (_ || _); [by apply only_same|].
  destruct (_ <? _); [by apply set_file_only|]. destruct (_ <? _); by apply set_file_only.
Qed.

(** Every member of the archive has a name that keeps to its folder. *)
Definition plain_members (dstdir : path) (fp : FILE) : Prop := forall k name data off size,
  parse_block (slice (f_pos fp + 512 * k) 512 (f_data fp)) = WriteBlock name data off size ->
  plain_name dstdir name.

(** On Windows, unpacking an archive whose member names have no backslashes and end in the
    name of a file is defined and ends, and changes files only in the destination or one
    folder below. *)
Theorem win_unpack_confined fp dstdir use_paths w :
  bytes_ok (f_data fp) -> dstdir <> [] -> plain_members dstdir fp ->
  exists ret w', uf2_unpack fp dstdir use_paths w = Some (ret, w') /\ only_inside dstdir w w'.
Proof.
  unfold uf2_unpack. intros Hok Hne.
  assert (length (f_data fp) - f_pos fp < S (length (f_data fp)))%nat as Hfuel by lia.
  revert Hfuel. generalize (S (length (f_data fp))). intros fuel.
  revert fp w Hok. induction fuel as [|fuel IH]; intros fp w Hok Hfuel Hpl; cbn [unpack_loop];
    [lia|].
  unfold fread. change (sizeof uf2_block_t) with 512%nat.
  set (block := slice (f_pos fp) 512 (f_data fp)) in *. cbv beta iota zeta.
  destruct (length block =? 512)%nat eqn:El; cbn [negb];
    [|eexists _, _; split; [done|by apply only_same]].
  apply Nat.eqb_eq in El.
  assert (f_pos fp + 512 <= length (f_data fp))%nat as Hpos
    by (unfold block, slice in El; rewrite length_take, length_drop in El; lia).
  assert (bytes_ok block) as Hblk by (by apply bytes_ok_slice).
  pose proof (parse_block_defined block Hblk El) as Hdef.
  set (fp' := MkFILE _ _ _ _ _).
  assert (plain_members dstdir fp') as Hpl'.
  { intros k name data off size. unfold fp'. cbn [f_pos f_data]. rewrite El.
    replace (f_pos fp + 512 + 512 * k)%nat with (f_pos fp + 512 * S k)%nat by lia. apply Hpl. }
  destruct (parse_block block) as [|name data off size|] eqn:Ep; [|clear Hdef|done].
  { apply IH; [done|unfold fp'; cbn [f_data f_pos]; lia|done]. }
  assert (plain_name dstdir name) as Hname.
  { apply (Hpl 0%nat name data off size). by rewrite Nat.mul_0_r, Nat.add_0_r. }
  set (p := uf2_map dstdir name use_paths).
  pose proof (mkdir_same (S (length p)) p 0 w) as Hm. fold (uf2_mkdir_for p w) in Hm.
  destruct (uf2_mkdir_for p w) as [made w1]. cbn [snd] in Hm.
  destruct made; cbn [negb]; [|eexists _, _; split; [done|by apply only_same]].
  pose proof (write_into_only dstdir p data off size w1 (map_inside _ _ _ _ Hne Hname)) as Hw.
  destruct (uf2_write_into p data off size w1) as [written w2]. cbn [snd] in Hw.
  pose proof (only_trans _ _ _ _ (only_same dstdir _ _ Hm) Hw) as H2.
  destruct written; cbn [negb]; [|by eexists _, _].
  destruct (IH fp' w2) as (ret & w' & Hr & H3);
    [done|unfold fp'; cbn [f_data f_pos]; lia|done|].
  exists ret, w'. split; [done|]. by eapply only_trans.
Qed.

(** The limit of 2^31 is not met by the sizes an archive may have: as on Unix, the file has the
    announced size and the bytes at their offset. *)
Theorem win_write_same p data off size w :
  0 <= off < size -> size <= UF2_FILE_MAX ->
  refused (canonical p w) w = false -> canonical p w ∉ w_dirs w ->
  uf2_write_into p data off size w
  = (true, set_file (canonical p w)
      (pwrite (Z.to_nat off) data
         (ftruncate (Z.to_nat size) (default [] (w_files w !! canonical p w)))) w).
Proof.
  intros Ho Hs Hr Hd. unfold uf2_write_into. unfold UF2_FILE_MAX in Hs.
  rewrite Hr, bool_decide_false by done. cbn [orb]. rewrite !i32_id by lia.
  by rewrite !(proj2 (Z.ltb_ge _ _)) by lia.
Qed.

(** *** An archive that escapes

    The packer of Unix takes a file called "..\..\run.bat" for a member; unpacked
    in the directory "out" on Windows it is written beside that directory. *)
Definition escaping : FILE :=
  fopen_rb (from_option f_data []
    (uf2_pack (fun _ => Some (fopen_rb (str "x"))) false fopen_wb (str "Projects")
       [str "..\..\run.bat"]).2).
Definition home : winfs :=
  MkWinFs {[ [str "C:"]; [str "work"; str "C:"] ]} ∅ (fun _ => false) [str "work"; str "C:"].

Example escape_runs :
  option_map (fun r => (r.1, w_files r.2 !! [str "run.bat"; str "work"; str "C:"]))
    (uf2_unpack escaping (str "out") true home) = Some (ERR_UNK, Some (str "x")).
Proof. vm_compute. reflexivity. Qed.

(** A member that keeps to its folder, at an absolute path with a drive. *)
Example plain_runs :
  option_map (fun r => (r.1, w_files r.2 !! [str "a.rbf"; str "Projects"; str "out"; str "C:"]))
    (uf2_unpack (fopen_rb (from_option f_data []
      (uf2_pack (fun _ => Some (fopen_rb (str "x"))) false fopen_wb (str "Projects")
         [str "a.rbf"]).2)) (str "C:\out") true home) = Some (ERR_UNK, Some (str "x")).
Proof. vm_compute. reflexivity. Qed.

Definition one_member : FILE :=
  fopen_rb (from_option f_data []
    (uf2_pack (fun _ => Some (fopen_rb (str "x"))) false fopen_wb (str "Projects") [str "a.rbf"]).2).

Lemma one_member_plain : plain_members (str "out") one_member.
Proof.
  intros [|k] name data off size Hp.
  - rewrite Nat.mul_0_r in Hp. vm_compute in Hp. injection Hp as <- _ _ _.
    split; [|split].
    + apply (bool_decide_unpack _). by vm_compute.
    + split_and!; [done..|]. by repeat constructor.
    + apply Nat.ltb_lt. by vm_compute.
  - exfalso. replace (slice _ _ _) with (@nil Z) in Hp; [by vm_compute in Hp|].
    symmetry. unfold slice. rewrite drop_ge; [apply take_nil|].
    assert (length (f_data one_member) = 512%nat) as -> by by vm_compute.
    change (f_pos one_member) with 0%nat. lia.
Qed.

Lemma win_unpack_confined_witness : exists w',
  uf2_unpack one_member (str "out") true home = Some (ERR_UNK, w')
  /\ only_inside (str "out") home w'
  /\ w_files w' !! [str "a.rbf"; str "Projects"; str "out"; str "work"; str "C:"] = Some (str "x").
Proof.
  destruct (win_unpack_confined one_member (str "out") true home) as (ret & w' & H1 & H2).
  - apply (bool_decide_unpack _). by vm_compute.
  - done.
  - exact one_member_plain.
  - assert (option_map (fun r => (r.1, w_files r.2 !!
      [str "a.rbf"; str "Projects"; str "out"; str "work"; str "C:"]))
      (uf2_unpack one_member (str "out") true home) = Some (ERR_UNK, Some (str "x"))) as H3
      by (vm_compute; reflexivity).
    rewrite H1 in H3. injection H3 as -> H3. exists w'. split; [exact H1|]. split; [exact H2|exact H3].
Defined.
