(* ===== verification/Stream.v ===== *)
(** * Stream: bricks behind a byte stream

    A serial device or a TCP connection carries the packets of the protocol
    without their HID byte.  The interfaces that the transfers of Up.v and Dl.v
    rely on ([FileReceiver], [FileSender]) are implemented here by such a stream
    (BtUnix.v): on it a brick is the sequence of its replies, which arrive cut
    into any segments, and what was written to it is compared with the packets
    the command had to send. *)

From S2P Require Import Prelude Packets IO Logic Stdio Up Dl BtUnix.

(** The peer always answers in time, and the writes succeed. *)
Definition prompt (s : fd_state) : Prop := RdDelay ∉ fd_in s /\ WrErr ∉ fd_wr s.

(** ** What reads and writes do to a prompt stream *)

Lemma read_events_prompt n evs ret bs evs' :
  read_events n evs = (ret, bs, evs') -> RdDelay ∉ evs -> RdDelay ∉ evs'.
Proof.
  revert ret bs evs'. induction evs as [|[l| |] evs IH]; intros ret bs evs'; cbn [read_events].
  - by intros [= <- <- <-].
  - intros Hr [_ Hin]%not_elem_of_cons. destruct l as [|b l]; [by eapply IH|].
    revert Hr. intros [= _ _ <-]. bcase; [done|]. apply not_elem_of_cons. done.
  - intros [= <- <- <-] [_ Hin]%not_elem_of_cons. done.
  - intros _ [Hn _]%not_elem_of_cons. done.
Qed.

Lemma fd_read_prompt n s ret bs s' :
  fd_read n s = (ret, bs, s') -> prompt s -> prompt s' /\ fd_sent s' = fd_sent s.
Proof.
  unfold fd_read. destruct (read_events n (fd_in s)) as [[ret' bs'] evs] eqn:E.
  intros [= <- <- <-] [Hin Hwr]. split; [|done]. split; [|done].
  by eapply read_events_prompt.
Qed.

Lemma bt_read_header_prompt fuel got s r s' :
  bt_read_header fuel got s = (r, s') -> prompt s -> prompt s' /\ fd_sent s' = fd_sent s.
Proof.
  revert got s. induction fuel as [|fuel IH]; intros got s; cbn [bt_read_header].
  { by intros [= <- <-]. }
  destruct (fd_read _ s) as [[ret bs] s1] eqn:E. intros Hr Hs.
  apply fd_read_prompt in E as [Hs1 Hse]; [|done].
  destruct (ret <=? 0); [by simplify_eq|]. cbv zeta in Hr.
  destruct (_ =? 2)%nat; [by simplify_eq|]. apply IH in Hr as [Hp Hq]; [|done].
  split; [done|]. by rewrite Hq.
Qed.

Lemma bt_read_body_prompt fuel n got s ok got' s' :
  bt_read_body fuel n got s = (ok, got', s') -> prompt s -> prompt s' /\ fd_sent s' = fd_sent s.
Proof.
  revert got s. induction fuel as [|fuel IH]; intros got s; cbn [bt_read_body].
  { by intros [= <- <- <-]. }
  destruct (_ <? n)%nat; [|by intros [= <- <- <-]].
  destruct (fd_read _ s) as [[ret bs] s1] eqn:E. intros Hr Hs.
  apply fd_read_prompt in E as [Hs1 Hse]; [|done].
  destruct (ret =? 0); [by simplify_eq|]. destruct (ret =? -1); [by simplify_eq|].
  apply IH in Hr as [Hp Hq]; [|done]. split; [done|]. by rewrite Hq.
Qed.

Lemma select_prompt evs : RdDelay ∉ evs -> (select_events evs).1 = true
  /\ RdDelay ∉ (select_events evs).2.
Proof.
  induction evs as [|[[|b l]| |] evs IH]; cbn [select_events]; intros Hn; try done.
  - apply IH. by apply not_elem_of_cons in Hn as [_ Hn].
  - by apply not_elem_of_cons in Hn as [Hn _].
Qed.

Lemma bt_read_prompt count ms s ret data s' :
  bt_read count ms s = (ret, data, s') -> prompt s -> prompt s' /\ fd_sent s' = fd_sent s.
Proof.
  intros Hr [Hin Hwr]. unfold bt_read in Hr.
  destruct (select_prompt (fd_in s) Hin) as [Hsel Hin'].
  assert (forall s0, prompt s0 -> fd_sent s0 = fd_sent s ->
    match bt_read_header 2 [] s0 with
    | (None, s) => (-1, [], s)
    | (Some hdr, s) =>
        let packet_len := 2 + Z.lor (nth 0 hdr 0) (Z.shiftl (nth 1 hdr 0) 8) in
        if 2 * count <? packet_len then (-1, hdr, s) else
        let '(ok, got, s) := bt_read_body (Z.to_nat packet_len) (Z.to_nat packet_len) hdr s in
        if ok : bool then (zlen got, got, s) else (-1, got, s)
    end = (ret, data, s') -> prompt s' /\ fd_sent s' = fd_sent s) as Hgo.
  { intros s0 Hs0 Hse. destruct (bt_read_header 2 [] s0) as [[hdr|] s1] eqn:E1;
      apply bt_read_header_prompt in E1 as [Hp1 Hq1]; try done; cbv zeta;
      [|intros [= <- <- <-]; split; [done|congruence]].
    destruct (2 * count <? _); [intros [= <- <- <-]; split; [done|congruence]|].
    destruct (bt_read_body _ _ _ _) as [[ok got] s2] eqn:E2.
    apply bt_read_body_prompt in E2 as [Hp2 Hq2]; [|done].
    destruct ok; intros [= <- <- <-]; (split; [done|congruence]). }
  destruct (0 <=? ms); [|by apply (Hgo s)].
  destruct (select_events (fd_in s)) as [ready evs]. cbn in Hsel, Hin'. subst ready.
  by apply (Hgo (fd_with_in evs s)).
Qed.

Lemma fd_write_prompt bs s ret s' : fd_write bs s = (ret, s') -> prompt s -> prompt s'.
Proof.
  unfold fd_write. intros Hw [Hin Hwr]. destruct (fd_wr s) as [|[k|] t]; simplify_eq/=.
  - done.
  - split; [done|]. by apply not_elem_of_cons in Hwr as [_ ?].
  - by apply not_elem_of_cons in Hwr as [? _].
Qed.
Lemma bt_write_loop_prompt fuel sent buf s n s' :
  bt_write_loop fuel sent buf s = (n, s') -> prompt s -> prompt s'.
Proof.
  revert sent s. induction fuel as [|fuel IH]; intros sent s; cbn [bt_write_loop].
  { by intros [= <- <-]. }
  destruct (_ <? _)%nat; [|by intros [= <- <-]]. destruct (fd_write _ s) as [ret s1] eqn:E.
  intros Hr Hs. apply fd_write_prompt in E; [|done]. destruct (ret =? -1); [by simplify_eq|].
  by eapply IH.
Qed.

(** ** One exchange

    The packet goes out without its HID byte, and the next reply comes in. *)
Lemma stream_exchange n ms pkt rep l t s :
  prompt s -> stream_packet rep -> zlen rep <= 2 * n -> delivers (fd_in s) (rep ++ l) t ->
  exists s', exchange_in ms pkt n rep s s' /\ prompt s' /\ delivers (fd_in s') l t
    /\ fd_sent s' = fd_sent s ++ tail pkt.
Proof.
  intros Hs Hrep Hn Hd. pose proof Hs as [Hin Hwr].
  destruct (bt_write_out pkt s) as (k & s1 & Hw & Hk & Hse & Hin1 & Hall).
  specialize (Hall Hwr). subst k. rewrite firstn_all in Hse.
  assert (prompt s1) as Hs1.
  { pose proof Hw as Hw'. unfold bt_write in Hw'.
    destruct (bt_write_loop _ _ _ _) as [m s1'] eqn:E. injection Hw' as _ <-.
    by eapply bt_write_loop_prompt. }
  apply delivers_app_inv in Hd as (u & Hd1 & Hd2).
  destruct (bt_read_one n ms s1 rep u) as (evs & Hr & Hu); try done.
  { by rewrite Hin1. }
  { right. apply select_prompt, Hs1. }
  pose proof (bt_read_prompt _ _ _ _ _ _ Hr Hs1) as [Hp2 Hq2].
  exists (fd_with_in evs s1). split; [|split; [done|split]].
  - exists (Z.of_nat (length (tail pkt))), s1, (zlen rep). split; [done|]. split; [lia|].
    split; [exact Hr|]. destruct Hrep as (_ & Hl & _). unfold zlen. lia.
  - by apply (delivers_app evs [] l u t).
  - by rewrite Hq2.
Qed.

(** ** A brick that stores a file, as a stream of replies *)

(** Acknowledgements of an upload that name the handle [h]. *)
Definition upload_ack (h : Z) (rep : list Z) : Prop :=
  stream_packet rep /\ zlen rep = 8 /\ reply_type rep <> VM_ERROR /\ reply_handle rep = h.

(** What is written for the first bytes [acc] of a file: each packet without its
    HID byte. *)
Definition upload_stream (dst : list Z) (size h : Z) (acc : list Z) : list Z :=
  concat (map tail (begin_download_request size dst
                    :: map (chunk_packet h) (chunks_of (num_chunks (zlen acc)) 1000 acc))).

(** [left] acknowledgements are still to come, and then [t]. *)
Definition acks_left (h : Z) (left : nat) (t : list rd_event) (s : fd_state) : Prop :=
  exists reps, length reps = left /\ Forall (upload_ack h) reps /\ prompt s
    /\ delivers (fd_in s) (concat reps) t.

Lemma acks_left_exchange h left t s pkt :
  acks_left h (S left) t s ->
  exists rep s', exchange pkt 8 rep s s' /\ upload_ack h rep /\ acks_left h left t s'
    /\ fd_sent s' = fd_sent s ++ tail pkt.
Proof.
  intros (reps & Hl & Hall & Hs & Hd). destruct reps as [|rep reps]; [done|].
  apply Forall_cons in Hall as [Hrep Hall]. pose proof Hrep as (Hp & Hz & _ & _).
  destruct (stream_exchange 8 TIMEOUT pkt rep (concat reps) t s) as (s' & Hx & Hs' & Hd' & Hse);
    [done..|lia|done|].
  exists rep, s'. split; [exact Hx|]. split; [done|]. split; [|done].
  exists reps. simpl in Hl. split; [lia|done].
Qed.

Lemma num_chunks_add n : 0 <= n -> num_chunks (n + 1000) = S (num_chunks n).
Proof.
  intros Hn. unfold num_chunks. replace (n + 1000 + 999) with (n + 999 + 1 * 1000) by lia.
  rewrite Z.div_add by lia. pose proof (Z.div_pos (n + 999) 1000 ltac:(lia) ltac:(lia)). lia.
Qed.

(** Full chunks keep the cut of the file. *)
Lemma chunks_of_snoc (acc chunk : list Z) :
  zlen acc mod 1000 = 0 -> 0 < zlen chunk <= 1000 ->
  chunks_of (num_chunks (zlen (acc ++ chunk))) 1000 (acc ++ chunk)
  = chunks_of (num_chunks (zlen acc)) 1000 acc ++ [chunk].
Proof.
  intros Ha Hc. rewrite zlen_app.
  assert (num_chunks (zlen acc + zlen chunk) = S (num_chunks (zlen acc))) as ->.
  { unfold num_chunks. pose proof (zlen_nonneg acc). Z.div_mod_to_equations. lia. }
  assert (length acc = (num_chunks (zlen acc) * 1000)%nat) as Hl.
  { unfold num_chunks, zlen in *. Z.div_mod_to_equations. lia. }
  revert Hl. generalize (num_chunks (zlen acc)). clear Ha. intros n. revert acc.
  induction n as [|n IH]; intros acc Hl.
  - destruct acc; [|done]. cbn. rewrite take_ge; [done|]. unfold zlen in Hc. lia.
  - cbn [chunks_of] in *. rewrite take_app_le, drop_app_le by lia.
    change (take 1000 acc :: chunks_of n 1000 (drop 1000 acc)) with (chunks_of (S n) 1000 acc).
    cbn [chunks_of app]. f_equal. apply IH. rewrite length_drop. lia.
Qed.

Section receiver.
Variable (h : Z) (base : list Z) (t : list rd_event).

(** The file is announced; its acknowledgements are one more than its chunks. *)
Definition stream_ready (dst : list Z) (size : Z) (s : fd_state) : Prop :=
  acks_left h (S (num_chunks size)) t s /\ fd_sent s = base.

Definition stream_receiving (dst : list Z) (size h' : Z) (acc : list Z) (s : fd_state) : Prop :=
  h' = h /\ (zlen acc mod 1000 = 0 \/ zlen acc = size) /\ zlen acc <= size
  /\ acks_left h (num_chunks (size - zlen acc)) t s
  /\ fd_sent s = base ++ upload_stream dst size h acc.

#[refine] Definition stream_receiver : FileReceiver fd_state :=
  {| rcv_ready := stream_ready; receiving := stream_receiving |}.
Proof.
  - intros s dst size [Hl Hse] _ Hsz.
    destruct (acks_left_exchange _ _ _ _ (begin_download_request size dst) Hl)
      as (rep & s' & (r1 & d1 & r2 & Hw & H1 & Hr & H2) & (_ & Hz & Hty & Hh) & Hl' & Hse').
    exists r1, d1, r2, rep, s'. repeat (split; [done|]). split; [by left|]. change (zlen (@nil Z)) with 0.
    rewrite Z.sub_0_r. split; [lia|]. split; [done|].
    rewrite Hse', Hse. unfold upload_stream. change (num_chunks (zlen [])) with 0%nat.
    cbn [chunks_of map concat]. by rewrite app_nil_r.
  - intros s dst size h' acc chunk (-> & Hm & Hle & Hl & Hse) Hc Hfit Hlast.
    unfold Up.CHUNK_SIZE in *. destruct Hm as [Hm|Hm]; [|lia].
    assert (num_chunks (size - zlen acc) = S (num_chunks (size - (zlen acc + zlen chunk)))) as Hn.
    { destruct Hlast as [He|He].
      - replace (size - zlen acc) with (size - (zlen acc + zlen chunk) + 1000) by lia.
        apply num_chunks_add. lia.
      - replace (size - zlen acc) with (zlen chunk) by lia. rewrite He, Z.sub_diag.
        unfold num_chunks. Z.div_mod_to_equations. lia. }
    rewrite Hn in Hl. destruct (acks_left_exchange _ _ _ _ (chunk_packet h chunk) Hl)
      as (rep & s' & (r1 & d1 & r2 & Hw & H1 & Hr & H2) & (_ & Hz & Hty & Hh) & Hl' & Hse').
    exists r1, d1, r2, rep, s'. repeat (split; [done|]).
    rewrite zlen_app. split; [Z.div_mod_to_equations; lia|]. split; [lia|].
    split; [done|]. rewrite Hse', Hse, <- app_assoc. f_equal. unfold upload_stream.
    rewrite chunks_of_snoc by done. cbn [map concat]. rewrite !map_app, concat_app.
    cbn [map concat]. by rewrite app_nil_r, app_assoc.
Defined.
End receiver.

(** ** A brick that sends a file, as a stream of replies *)

Definition begin_reply (content piece rep : list Z) : Prop :=
  stream_packet rep /\ carries BEGIN_UPLOAD_REPLY piece rep /\ zlen piece <= 1000
  /\ get_field BEGIN_UPLOAD_REPLY "type" rep <> VM_ERROR
  /\ get_field BEGIN_UPLOAD_REPLY "fileSize" rep = zlen content.
Definition continue_reply (piece rep : list Z) : Prop :=
  stream_packet rep /\ carries CONTINUE_UPLOAD_REPLY piece rep /\ 0 < zlen piece <= 1004
  /\ get_field CONTINUE_UPLOAD_REPLY "type" rep <> VM_ERROR.

(** The handles the replies name, each of which the next request repeats. *)
Definition reply_handles (rep : list Z) (reps : list (list Z)) : list Z :=
  get_field BEGIN_UPLOAD_REPLY "fileHandle" rep
  :: map (get_field CONTINUE_UPLOAD_REPLY "fileHandle") reps.
Definition download_stream (path : list Z) (hs : list Z) : list Z :=
  concat (map tail (begin_upload_request path :: map continue_upload_request hs)).

(** The first reply with its piece of the file, and the others with theirs. *)
Definition serves (content : list Z) (rep piece : list Z) (reps pieces : list (list Z)) : Prop :=
  begin_reply content piece rep /\ Forall2 continue_reply pieces reps
  /\ content = piece ++ concat pieces.

Section sender.
Variables (path : list Z) (rep : list Z) (reps pieces : list (list Z)).
Variables (base : list Z) (t : list rd_event).

Definition stream_has (path' content : list Z) (s : fd_state) : Prop :=
  path' = path /\ (exists piece, serves content rep piece reps pieces)
  /\ prompt s /\ delivers (fd_in s) (rep ++ concat reps) t /\ fd_sent s = base.

(** [k] replies after the first have come. *)
Definition stream_sending (h : Z) (rest : list Z) (s : fd_state) : Prop :=
  exists k, Forall2 continue_reply (drop k pieces) (drop k reps) /\ rest = concat (drop k pieces)
    /\ reply_handles rep reps !! k = Some h
    /\ prompt s /\ delivers (fd_in s) (concat (drop k reps)) t
    /\ fd_sent s = base ++ download_stream path (take k (reply_handles rep reps)).

Lemma download_stream_snoc hs h :
  download_stream path (hs ++ [h]) = download_stream path hs ++ tail (continue_upload_request h).
Proof.
  unfold download_stream. cbn [map concat]. rewrite !map_app, concat_app. cbn [map concat].
  by rewrite app_nil_r, app_assoc.
Qed.

#[refine] Definition stream_sender : FileSender fd_state :=
  {| snd_has := stream_has; sending := stream_sending |}.
Proof.
  - intros s path' content (-> & (piece & (Hp & Hc & Hz & Hty & Hsz) & Hall & ->) & Hs & Hd & Hse).
    destruct (stream_exchange 1012 TIMEOUT (begin_upload_request path) rep (concat reps) t s)
      as (s' & (r1 & d1 & r2 & Hw & H1 & Hr & H2) & Hs' & Hd' & Hse'); [done..| |done|].
    { apply carries_len in Hc. change (sizeof BEGIN_UPLOAD_REPLY) with 12%nat in Hc. lia. }
    exists r1, d1, r2, rep, s', piece, (concat pieces). repeat (split; [done|]).
    exists 0%nat. rewrite !drop_0. repeat (split; [done|]). rewrite Hse', Hse.
    unfold download_stream. cbn [take map concat]. by rewrite app_nil_r.
  - intros s h rest (k & Hall & -> & Hh & Hs & Hd & Hse) Hne.
    destruct (drop k pieces) as [|piece ps] eqn:Ep; [done|].
    inversion Hall as [|? rep' ? rs (Hp & Hc & Hz & Hty) Hall' E1 Er]; subst. symmetry in Er.
    rewrite Er in Hd. cbn [concat] in Hd |- *.
    destruct (stream_exchange 1012 TIMEOUT (continue_upload_request h) rep' (concat rs) t s)
      as (s' & (r1 & d1 & r2 & Hw & H1 & Hr & H2) & Hs' & Hd' & Hse'); [done..| |done|].
    { apply carries_len in Hc. change (sizeof CONTINUE_UPLOAD_REPLY) with 8%nat in Hc. lia. }
    assert (reps !! k = Some rep') as Hk.
    { rewrite <- (Nat.add_0_r k), <- lookup_drop, Er. done. }
    assert (drop (S k) pieces = ps /\ drop (S k) reps = rs) as [Eps Ers].
    { split; [rewrite <- Nat.add_1_r, <- drop_drop, Ep|rewrite <- Nat.add_1_r, <- drop_drop, Er]; done. }
    exists r1, d1, r2, rep', s', piece, (concat ps). repeat (split; [done|]).
    exists (S k). rewrite Eps, Ers. repeat (split; [done|]).
    split; [change ((get_field CONTINUE_UPLOAD_REPLY "fileHandle" <$> reps) !! k = Some
      (get_field CONTINUE_UPLOAD_REPLY "fileHandle" rep')); by rewrite list_lookup_fmap, Hk|]. repeat (split; [done|]).
    rewrite (take_S_r _ _ _ Hh), download_stream_snoc, Hse', Hse. by rewrite <- app_assoc.
Defined.

(** When nothing is left, every reply has come and every request was sent. *)
Lemma stream_sent_all h s :
  length pieces = length reps -> stream_sending h [] s ->
  delivers (fd_in s) [] t
  /\ fd_sent s = base ++ download_stream path (removelast (reply_handles rep reps)).
Proof.
  intros Hlen (k & Hall & Hnil & Hh & _ & Hd & Hse).
  destruct (drop k pieces) as [|piece ps] eqn:Ep.
  2: { inversion Hall as [|? ? ? ? (_ & _ & Hz & _)]; subst. cbn in Hnil.
       destruct piece; [unfold zlen in Hz; simpl in Hz; lia|done]. }
  apply Forall2_nil_inv_l in Hall as E. rewrite E in Hd. split; [exact Hd|]. rewrite Hse.
  assert (k = length reps) as ->.
  { assert (length (drop k reps) = 0%nat) as Hl by (by rewrite E).
    rewrite length_drop in Hl. apply lookup_lt_Some in Hh. unfold reply_handles in Hh.
    simpl in Hh. rewrite length_map in Hh. lia. }
  rewrite removelast_firstn_len. unfold reply_handles. cbn [length pred].
  by rewrite length_map.
Qed.
End sender.
