(* ===== verification/Bridge.v ===== *)
(** * Bridge: a brick on USB offered as a brick on the network (src/bridge.c)

    The state of the two connections and their buffers is a record; one
    iteration of the main loop is [bridge_iter], driven by what the clock, the
    sockets and [select] report in it. *)

From S2P Require Import Prelude Packets IO Logic Cstr BtUnix Tcp.

Definition BROADCAST_PORT : Z := 3015.
Definition BEACON_TIME : Z := 1.
Definition BRICK_NAME : list Z := str "USB Bridge".

Inductive NET_STATE := TCP_NOT_CONNECTED | TCP_CONNECTED | CLOSED.
Inductive TCP_CSTATE :=
| TCP_IDLE | TCP_WAIT_ON_START | TCP_WAIT_ON_LENGTH | TCP_WAIT_ON_ONLY_CHUNK.

#[export] Instance NET_STATE_eq_dec : EqDecision NET_STATE.
Proof. solve_decision. Defined.
#[export] Instance TCP_CSTATE_eq_dec : EqDecision TCP_CSTATE.
Proof. solve_decision. Defined.

(** The static variables of the file and the locals of [bridge_mode].  The
    buffers are the 65539 bytes from [ReadBuf + 1] and the 65540 of [WriteBuf]. *)
Record bridge := MkBridge {
  NetConnection : NET_STATE;
  TcpRead : TCP_CSTATE;
  TcpConnectionSocket : option fd_state;     (* None: 0 or -1 *)
  TcpReadBufPointer : Z;
  TcpTotalLength : Z;
  TcpRestLen : Z;
  ReadBuf : list Z;
  WriteBuf : list Z;
  write_len : Z;
  write_pos : Z;
  TCPListenServer : Z;
  start : Z;
}.

Definition set_net (s : NET_STATE) (b : bridge) : bridge :=
  MkBridge s (TcpRead b) (TcpConnectionSocket b) (TcpReadBufPointer b) (TcpTotalLength b)
    (TcpRestLen b) (ReadBuf b) (WriteBuf b) (write_len b) (write_pos b)
    (TCPListenServer b) (start b).
Definition set_read (s : TCP_CSTATE) (b : bridge) : bridge :=
  MkBridge (NetConnection b) s (TcpConnectionSocket b) (TcpReadBufPointer b) (TcpTotalLength b)
    (TcpRestLen b) (ReadBuf b) (WriteBuf b) (write_len b) (write_pos b)
    (TCPListenServer b) (start b).
Definition set_sock (s : option fd_state) (b : bridge) : bridge :=
  MkBridge (NetConnection b) (TcpRead b) s (TcpReadBufPointer b) (TcpTotalLength b)
    (TcpRestLen b) (ReadBuf b) (WriteBuf b) (write_len b) (write_pos b)
    (TCPListenServer b) (start b).
Definition set_counts (ptr total rest : Z) (b : bridge) : bridge :=
  MkBridge (NetConnection b) (TcpRead b) (TcpConnectionSocket b) ptr total rest
    (ReadBuf b) (WriteBuf b) (write_len b) (write_pos b)
    (TCPListenServer b) (start b).
Definition set_readbuf (buf : list Z) (b : bridge) : bridge :=
  MkBridge (NetConnection b) (TcpRead b) (TcpConnectionSocket b) (TcpReadBufPointer b)
    (TcpTotalLength b) (TcpRestLen b) buf (WriteBuf b) (write_len b) (write_pos b)
    (TCPListenServer b) (start b).
Definition set_write (buf : list Z) (len pos : Z) (b : bridge) : bridge :=
  MkBridge (NetConnection b) (TcpRead b) (TcpConnectionSocket b) (TcpReadBufPointer b)
    (TcpTotalLength b) (TcpRestLen b) (ReadBuf b) buf len pos (TCPListenServer b) (start b).

Definition set_listen (fd : Z) (b : bridge) : bridge :=
  MkBridge (NetConnection b) (TcpRead b) (TcpConnectionSocket b) (TcpReadBufPointer b)
    (TcpTotalLength b) (TcpRestLen b) (ReadBuf b) (WriteBuf b) (write_len b) (write_pos b)
    fd (start b).
Definition set_start (t : Z) (b : bridge) : bridge :=
  MkBridge (NetConnection b) (TcpRead b) (TcpConnectionSocket b) (TcpReadBufPointer b)
    (TcpTotalLength b) (TcpRestLen b) (ReadBuf b) (WriteBuf b) (write_len b) (write_pos b)
    (TCPListenServer b) t.

(** [cNetStartTimer] and [cNetCheckTimer]; [now] is what [time] returns. *)
Definition cNetStartTimer (now : Z) (b : bridge) : bridge := set_start now b.
Definition cNetCheckTimer (now : Z) (b : bridge) : Z := u32 (now - start b).

(** [cNetTcpClose]: the connection is reset. *)
Definition cNetTcpClose (b : bridge) : bridge := set_net TCP_NOT_CONNECTED (set_sock None b).

(** [cNetUdpClose]. *)
Definition cNetUdpClose (b : bridge) : bridge := set_net CLOSED b.

(** [cNetWaitForTcpConnection]: [conn] is what [accept] returns. *)
Definition cNetWaitForTcpConnection (conn : option fd_state) (b : bridge) : bool * bridge :=
  match conn with
  | None => (false, set_sock None b)
  | Some s => (true, set_read TCP_WAIT_ON_START (set_sock (Some s) b))
  end.

(** [hexdump] reads [len] bytes; its output is compiled out. *)
Definition hexdump_ok (buf : list Z) (len : Z) : bool := u32 len <=? zlen buf.

(** [cNetWriteTcp], on the [Length] bytes of [bytes]; -1 is [(uint32_t) -1],
    which the caller stores into an [int]. *)
Definition cNetWriteTcp (bytes : list Z) (b : bridge) : Z * bridge :=
  if zlen bytes <? 1 then (0, b) else
  match NetConnection b, TcpConnectionSocket b with
  | TCP_CONNECTED, Some s => let '(ret, s) := fd_write bytes s in (ret, set_sock (Some s) b)
  | _, _ => (0, b)
  end.

Definition ACCEPT : list Z := str "Accept:EV340" ++ [13; 10; 13; 10].

(** [cNetReadTcp(ReadBuf + 1, sizeof ReadBuf - 1)]: the result; [None] is
    undefined behaviour or a failed assertion. *)
Definition cNetReadTcp (b : bridge) : option (Z * bridge) :=
  match TcpConnectionSocket b with
  | None => None
  | Some s =>
      match TcpRead b with
      | TCP_IDLE => Some (0, b)
      | TCP_WAIT_ON_START =>
          let '(ret, bs, s) := fd_read 100 s in
          let b := set_readbuf (splice 0 bs (ReadBuf b)) (set_sock (Some s) b) in
          if negb (hexdump_ok (ReadBuf b) ret) then None
          else if ret =? 0 then Some (0, cNetTcpClose b)
          else
            text ← cstr_of (ReadBuf b);
            if contains (str "ET /target?sn=") text then
              let '(_, b) := cNetWriteTcp ACCEPT b in Some (0, set_read TCP_WAIT_ON_LENGTH b)
            else Some (0, b)
      | TCP_WAIT_ON_LENGTH =>
          let '(ret, bs, s) := fd_read 2 s in
          let b := set_counts 0 (TcpTotalLength b) (TcpRestLen b)
                     (set_readbuf (splice 0 bs (ReadBuf b)) (set_sock (Some s) b)) in
          if ret <? 2 then Some (ret, cNetTcpClose b)
          else
            let rest := u32 (nth 0 (ReadBuf b) 0 + nth 1 (ReadBuf b) 0 * 256) in
            Some (0, set_read TCP_WAIT_ON_ONLY_CHUNK
                       (set_counts (u32 ret) (u32 (rest + 2)) rest b))
      | TCP_WAIT_ON_ONLY_CHUNK =>
          if zlen (ReadBuf b) <? TcpTotalLength b then None else
          let '(ret, bs, s) := fd_read (Z.to_nat (TcpRestLen b)) s in
          if zlen (ReadBuf b) <? TcpReadBufPointer b + zlen bs then None else
          let b := set_readbuf (splice (Z.to_nat (TcpReadBufPointer b)) bs (ReadBuf b))
                     (set_sock (Some s) b) in
          if ret =? 0 then Some (0, cNetTcpClose b)
          else
            let ptr := u32 (TcpReadBufPointer b + ret) in
            let done := TcpRestLen b =? u32 ret in
            let b := if done then set_read TCP_WAIT_ON_LENGTH (set_counts ptr (TcpTotalLength b) (TcpRestLen b) b)
                     else set_counts ptr (TcpTotalLength b) (u32 (TcpRestLen b - ret)) b in
            if negb (hexdump_ok (ReadBuf b) (TcpTotalLength b)) then None
            else Some (if done then TcpTotalLength b else 0, b)
      end
  end.

(** The beacon of [cNetTransmitBeacon]. *)
Definition beacon : list Z :=
  str "Serial-Number: " ++ str "31337" ++ [13; 10] ++ str "Port: " ++ fmt_d TCP_PORT ++ [13; 10]
  ++ str "Name: " ++ BRICK_NAME ++ [13; 10] ++ str "Protocol: EV3" ++ [13; 10].

(** [sent]: sendto() succeeds. *)
Definition cNetTransmitBeacon (now : Z) (sent : bool) (b : bridge) : bridge :=
  if cNetCheckTimer now b <? BEACON_TIME then b
  else cNetStartTimer now (if negb sent then cNetUdpClose b else b).

(** ** Setting up the sockets *)

(** What the calls return: descriptors for [socket], success for the others. *)
Record bridge_net := MkBridgeNet {
  bn_udp_socket : Z;
  bn_broadcast : bool;          (* setsockopt SO_BROADCAST *)
  bn_now : Z;
  bn_beacon_sent : bool;
  bn_tcp_socket : Z;
  bn_bind : bool;
  bn_listen : bool;
}.

Definition cNetInitUdp (n : bridge_net) (b : bridge) : bool * bridge :=
  if bn_udp_socket n <? 0 then (false, b) else
  if negb (bn_broadcast n) then (false, b) else
  (true, set_net TCP_NOT_CONNECTED (cNetTransmitBeacon (bn_now n) (bn_beacon_sent n) b)).

Definition cNetInitTcpServer (n : bridge_net) (b : bridge) : bool * bridge :=
  let b := set_read TCP_IDLE b in
  let listen b := (bn_listen n, b) in
  if TCPListenServer b =? 0 then
    let b := set_listen (bn_tcp_socket n) b in
    if bn_tcp_socket n <? 0 then (false, b) else
    if negb (bn_bind n) then (false, b) else listen b
  else listen b.

(** What the clock and the sockets report in one iteration. *)
Record tick := MkTick {
  t_now : Z;
  t_beacon_sent : bool;
  t_accept : option fd_state;
  t_readable : bool;
  t_writable : bool;
}.

Section bridge.
Context {D : Type} `{!Transport D}.

(** The packet from the brick, when nothing is left to send. *)
Definition fetch (b : bridge) : M D bridge :=
  if write_len b <=? 0 then
    '(len, buf) ← ev3_read_timeout (WriteBuf b) 65540 0;
    if negb (len =? 0) then
      let real_len := nth 0 buf 0 + 256 * nth 1 buf 0 + 2 in
      if len <? real_len then undef "assertion realLen <= write_len failed"
      else mret (set_write buf real_len 0 b)
    else mret (set_write buf len 0 b)
  else mret b.

(** From the PC to the brick. *)
Definition forward (b : bridge) : M D bridge :=
  '(len, b) ← deref (cNetReadTcp b);
  if 0 <? len then
    err ← ev3_write (0 :: ReadBuf b) (len + 1);
    if err <? len + 1 then mret (cNetTcpClose b) else mret b
  else mret b.

(** From the brick to the PC. *)
Definition backward (b : bridge) : M D bridge :=
  let '(written, b) :=
    cNetWriteTcp (slice (Z.to_nat (write_pos b)) (Z.to_nat (write_len b)) (WriteBuf b)) b in
  if 0 <? written then
    mret (set_write (WriteBuf b) (write_len b - written) (write_pos b + written) b)
  else mret b.

(** One iteration of the loop; the write set has the socket only while
    something is left to send, and a closed socket is in no set. *)
Definition bridge_iter (t : tick) (b : bridge) : M D bridge :=
  match NetConnection b with
  | TCP_NOT_CONNECTED =>
      let b := cNetTransmitBeacon (t_now t) (t_beacon_sent t) b in
      let '(connected, b) := cNetWaitForTcpConnection (t_accept t) b in
      mret (if connected then set_net TCP_CONNECTED b else b)
  | TCP_CONNECTED =>
      b ← fetch b;
      let writable := t_writable t && (0 <? write_len b) in
      b ← (if t_readable t then forward b else mret b);
      if writable && bool_decide (is_Some (TcpConnectionSocket b)) then backward b else mret b
  | CLOSED => mret b
  end.

Fixpoint bridge_loop (ticks : list tick) (b : bridge) : M D bridge :=
  match ticks with
  | [] => mret b
  | t :: ticks => b ← bridge_iter t b; bridge_loop ticks b
  end.

(** The static storage of the program. *)
Definition bridge_init : bridge :=
  MkBridge CLOSED TCP_IDLE None 0 0 0
    (replicate (Z.to_nat 65539) 0) (replicate (Z.to_nat 65540) 0) 0 0 0 0.

(** The loop runs as long as the broadcasts can be sent. *)
Definition bridge_mode (n : bridge_net) (ticks : list tick) : M D Z :=
  let '(ok, b) := cNetInitUdp n bridge_init in
  if negb ok then mret ERR_IO else
  let '(ok, b) := cNetInitTcpServer n b in
  if negb ok then mret ERR_IO else
  b ← bridge_loop ticks b;
  match NetConnection b with CLOSED => mret ERR_UNK | _ => blocked end.

End bridge.

(** Projections of an updated record. *)
Ltac bsimpl :=
  cbn [set_listen set_start cNetStartTimer set_read set_counts set_readbuf set_sock set_net set_write cNetTcpClose cNetUdpClose
       NetConnection TcpRead TcpConnectionSocket TcpReadBufPointer TcpTotalLength TcpRestLen
       ReadBuf WriteBuf write_len write_pos TCPListenServer start fst snd].

(** ** The buffers are never overrun *)

(** The invariant of the read side: a packet in progress fits, and the buffer
    ends in a NUL no packet reaches. *)
Record rd_ok (b : bridge) : Prop := {
  ro_size : zlen (ReadBuf b) = 65539;
  ro_bytes : bytes_ok (ReadBuf b);
  ro_last : last (ReadBuf b) = Some 0;
  ro_chunk : TcpRead b = TCP_WAIT_ON_ONLY_CHUNK ->
    2 <= TcpReadBufPointer b /\ 0 <= TcpRestLen b
    /\ TcpReadBufPointer b + TcpRestLen b = TcpTotalLength b /\ TcpTotalLength b <= 65537;
}.

(** The socket reports no errors, and what it delivers are bytes. *)
Definition clean (s : fd_state) : Prop :=
  Forall (fun e => match e with RdBytes bs => bytes_ok bs | RdErr => False | RdDelay => True end)
    (fd_in s).

Lemma read_events_clean n evs :
  Forall (fun e => match e with RdBytes bs => bytes_ok bs | RdErr => False | RdDelay => True end) evs ->
  exists k bs evs', read_events n evs = (Z.of_nat k, bs, evs') /\ length bs = k /\ (k <= n)%nat
    /\ bytes_ok bs
    /\ Forall (fun e => match e with RdBytes bs => bytes_ok bs | RdErr => False | RdDelay => True end) evs'.
Proof.
  induction 1 as [|e evs He Hev IH]; cbn [read_events].
  { exists 0%nat, [], []. repeat split; [lia|constructor|constructor]. }
  destruct e as [bs| |]; [|done|exact IH]. destruct bs as [|b bs]; [exact IH|].
  set (bs' := b :: bs) in *. eexists _, _, _. split; [done|]. split; [done|].
  split; [rewrite length_take; lia|]. split; [by apply Forall_take|].
  destruct (_ <=? _)%nat; [done|]. constructor; [by apply Forall_drop|done].
Qed.

Lemma fd_read_clean n s :
  clean s ->
  exists k bs s', fd_read n s = (Z.of_nat k, bs, s') /\ length bs = k /\ (k <= n)%nat
    /\ bytes_ok bs /\ clean s'.
Proof.
  intros H. destruct (read_events_clean n (fd_in s) H) as (k & bs & evs & Hr & Hl & Hk & Hb & Hc).
  exists k, bs, (fd_with_in evs s). unfold fd_read. by rewrite Hr.
Qed.

Lemma last_splice {A} o (new l : list A) x :
  (o + length new < length l)%nat -> last l = Some x -> last (splice o new l) = Some x.
Proof.
  intros Hl Hx. unfold splice. rewrite app_assoc, last_app.
  assert (last (drop (o + length new) l) = Some x) as ->; [|done].
  rewrite last_lookup in Hx |- *. rewrite length_drop, lookup_drop. rewrite <- Hx. f_equal. lia.
Qed.

Lemma rd_ok_splice b o bs :
  rd_ok b -> bytes_ok bs -> Z.of_nat o + zlen bs <= 65538 ->
  zlen (splice o bs (ReadBuf b)) = 65539 /\ bytes_ok (splice o bs (ReadBuf b))
  /\ last (splice o bs (ReadBuf b)) = Some 0.
Proof.
  intros [Hs Hb Hl _] Hbs Ho. unfold zlen in *.
  rewrite length_splice by lia. split; [done|]. split; [by apply bytes_ok_splice|].
  apply last_splice; [lia|done].
Qed.

Lemma last_has_nul (l : list Z) : last l = Some 0 -> is_Some (cstr_of l).
Proof.
  intros [l' ->]%last_Some. induction l' as [|c l' [s IH]]; [by eexists|].
  cbn [app cstr_of]. rewrite IH. destruct c; by eexists.
Qed.

Definition socket_clean (b : bridge) : Prop :=
  match TcpConnectionSocket b with Some s => clean s | None => True end.

Lemma fd_write_in bs s : fd_in (fd_write bs s).2 = fd_in s.
Proof. unfold fd_write. by destruct (fd_wr s) as [|[]]. Qed.

Lemma cNetWriteTcp_keeps bytes b :
  let b' := (cNetWriteTcp bytes b).2 in
  ReadBuf b' = ReadBuf b /\ TcpRead b' = TcpRead b /\ TcpReadBufPointer b' = TcpReadBufPointer b
  /\ TcpRestLen b' = TcpRestLen b /\ TcpTotalLength b' = TcpTotalLength b
  /\ (socket_clean b -> socket_clean b').
Proof.
  unfold cNetWriteTcp, socket_clean. destruct (_ <? _); [done|].
  destruct (NetConnection b); try done. destruct (TcpConnectionSocket b) as [s|] eqn:E; [|cbn; rewrite ?E; by repeat split].
  pose proof (fd_write_in bytes s) as Hin. destruct (fd_write bytes s) as [r s'] eqn:Ew.
  cbn in *. repeat split; try done. intros Hc. unfold clean in *. by rewrite Hin.
Qed.

Lemma cNetReadTcp_safe b s :
  rd_ok b -> TcpConnectionSocket b = Some s -> clean s ->
  exists r b', cNetReadTcp b = Some (r, b') /\ rd_ok b' /\ socket_clean b'
    /\ 0 <= r <= 65537.
Proof.
  intros Hok Hs Hc. pose proof Hok as [Hsz Hby Hla Hch]. unfold cNetReadTcp. rewrite Hs.
  destruct (TcpRead b) eqn:Erd.
  - exists 0, b. unfold socket_clean. rewrite Hs. by split.
  - destruct (fd_read_clean 100 s Hc) as (k & bs & s' & -> & Hl & Hk & Hbs & Hc').
    destruct (rd_ok_splice b 0 bs Hok Hbs) as (H1 & H2 & H3); [unfold zlen; lia|].
    set (b1 := set_readbuf _ _).
    assert (ReadBuf b1 = splice 0 bs (ReadBuf b)) as Hrb by done.
    assert (rd_ok b1) as Hok1 by (split; [done..|intros He; cbn in He; congruence]).
    unfold hexdump_ok. rewrite u32_id, Hrb, H1 by lia.
    rewrite (proj2 (Z.leb_le _ _)) by lia. cbn [negb].
    destruct (Z.of_nat k =? 0).
    { eexists _, _. split; [done|]. split; [by destruct Hok1|]. split; [done|lia]. }
    destruct (last_has_nul _ H3) as [text ->]. cbn [mbind option_bind].
    destruct (contains _ text); [|eexists _, _; split; [done|]; split; [done|]; split; [done|lia]].
    pose proof (cNetWriteTcp_keeps ACCEPT b1) as (K1 & K2 & K3 & K4 & K5 & K6).
    destruct (cNetWriteTcp ACCEPT b1) as [r b2]. cbn [snd] in *. eexists _, _. split; [done|].
    split; [|split; [by apply K6|lia]]. split; cbn; rewrite ?K1; done.
  - destruct (fd_read_clean 2 s Hc) as (k & bs & s' & -> & Hl & Hk & Hbs & Hc').
    destruct (rd_ok_splice b 0 bs Hok Hbs) as (H1 & H2 & H3); [unfold zlen; lia|].
    destruct (Z.of_nat k <? 2) eqn:E.
    { eexists _, _. split; [done|]. split; [split; [done..|intros He; cbn in He; congruence]|].
      split; [done|lia]. }
    apply Z.ltb_ge in E. eexists _, _. split; [done|]. split; [|split; [done|lia]].
    split; [done..|]. intros _.
    bsimpl. pose proof (nth_byte _ 0 H2). pose proof (nth_byte _ 1 H2).
    rewrite !u32_id by (rewrite ?u32_id; lia). lia.
  - destruct (Hch eq_refl) as (C1 & C2 & C3 & C4). rewrite (proj2 (Z.ltb_ge _ _)) by lia.
    destruct (fd_read_clean (Z.to_nat (TcpRestLen b)) s Hc) as (k & bs & s' & -> & Hl & Hk & Hbs & Hc').
    assert (zlen bs <= TcpRestLen b) as Hzb by (unfold zlen; lia).
    rewrite (proj2 (Z.ltb_ge _ _)) by lia.
    destruct (rd_ok_splice b (Z.to_nat (TcpReadBufPointer b)) bs Hok Hbs) as (H1 & H2 & H3); [lia|].
    destruct (Z.of_nat k =? 0) eqn:E0.
    { eexists _, _. split; [done|]. split; [by split|]. split; [done|lia]. }
    unfold zlen in Hzb. rewrite Hl in Hzb. bsimpl.
    rewrite (u32_id (Z.of_nat k)) by lia. rewrite (u32_id (TcpReadBufPointer b + _)) by lia.
    unfold hexdump_ok.
    destruct (TcpRestLen b =? Z.of_nat k) eqn:E; bsimpl;
      rewrite (u32_id (TcpTotalLength b)) by lia; rewrite (proj2 (Z.leb_le _ _)) by lia;
      cbn [negb]; (eexists _, _; split; [done|]; split; [|split; [done|lia]]);
      split; try done.
    intros _. bsimpl. rewrite u32_id by lia. lia.
Qed.

(** Every call of `cNetReadTcp` on a connection whose reads do not fail keeps the invariant
    that its read position and length stay inside the packet buffer, for any bytes the
    network sends: it never writes past the buffer and reports a length the buffer holds. *)
Theorem bridge_read_safe b s :
  rd_ok b -> TcpConnectionSocket b = Some s -> clean s ->
  exists r b', cNetReadTcp b = Some (r, b') /\ rd_ok b' /\ socket_clean b'
    /\ 0 <= r <= 65537.
Proof. apply cNetReadTcp_safe. Qed.

(** ** From the PC to the brick *)

(** Calls of [cNetReadTcp] until one returns a packet (or closes). *)
Fixpoint read_packet (fuel : nat) (b : bridge) : option (Z * bridge) :=
  match cNetReadTcp b with
  | Some (0, b') => match fuel with O => Some (0, b') | S fuel => read_packet fuel b' end
  | r => r
  end.

(** In the middle of the packet [p]: [k] bytes are in the buffer. *)
Record in_packet (p : list Z) (k : nat) (t : list rd_event) (b : bridge) : Prop := {
  ip_state : TcpRead b = TCP_WAIT_ON_ONLY_CHUNK;
  ip_net : NetConnection b = TCP_CONNECTED;
  ip_counts : TcpReadBufPointer b = Z.of_nat k /\ TcpRestLen b = zlen p - Z.of_nat k
    /\ TcpTotalLength b = zlen p;
  ip_buf : zlen (ReadBuf b) = 65539 /\ take k (ReadBuf b) = take k p;
  ip_k : (k < length p)%nat;
  ip_sock : exists s, TcpConnectionSocket b = Some s /\ delivers (fd_in s) (drop k p) t;
}.

Lemma take_splice_app {A} k (bs l : list A) :
  (k + length bs <= length l)%nat ->
  take (k + length bs) (splice k bs l) = take k l ++ bs.
Proof.
  intros. unfold splice. rewrite app_assoc. apply take_app_length'.
  rewrite length_app, length_take. lia.
Qed.

Lemma read_chunk p k t b :
  zlen p <= 65537 -> in_packet p k t b ->
  exists j b', (0 < j)%nat /\ (k + j <= length p)%nat
    /\ (if (k + j =? length p)%nat then
          cNetReadTcp b = Some (zlen p, b') /\ take (length p) (ReadBuf b') = p
          /\ TcpRead b' = TCP_WAIT_ON_LENGTH /\ NetConnection b' = TCP_CONNECTED
          /\ zlen (ReadBuf b') = 65539
          /\ exists s, TcpConnectionSocket b' = Some s /\ delivers (fd_in s) [] t
        else cNetReadTcp b = Some (0, b') /\ in_packet p (k + j) t b').
Proof.
  intros Hp [Hst Hnet (Hptr & Hrest & Htot) (Hsz & Htk) Hk (s & Hs & Hd)].
  unfold cNetReadTcp. rewrite Hs, Hst, Hptr, Hrest, Htot. unfold zlen in Hp.
  replace (Z.to_nat (zlen p - Z.of_nat k)) with (length p - k)%nat by (unfold zlen; lia).
  destruct (fd_read_delivers (length p - k) s (drop k p) t Hd) as (j & evs & -> & Hj & Hd');
    [rewrite length_drop; lia|].
  assert (length (take j (drop k p)) = j) as Hlj by (rewrite length_take, length_drop; lia).
  exists j.
  rewrite (proj2 (Z.ltb_ge _ _)) by (unfold zlen in *; lia).
  rewrite (proj2 (Z.ltb_ge _ _)) by (unfold zlen in *; rewrite Hlj; lia).
  rewrite (proj2 (Z.eqb_neq _ 0)) by lia. bsimpl. rewrite Hrest, Hptr, Htot, Nat2Z.id.
  rewrite (u32_id (Z.of_nat j)), (u32_id (Z.of_nat k + _)) by lia.
  set (buf := splice k _ _).
  assert (zlen buf = 65539) as Hbuf.
  { unfold buf, zlen in *. rewrite length_splice; [done|]. lia. }
  assert (take (k + j) buf = take (k + j) p) as Htk2.
  { unfold buf. rewrite <- Hlj at 1. rewrite take_splice_app by (unfold zlen in Hsz; lia).
    by rewrite Htk, take_take_drop. }
  unfold hexdump_ok.
  destruct (Nat.eqb_spec (k + j) (length p)) as [Heq|Hne].
  - rewrite (proj2 (Z.eqb_eq _ _)) by (unfold zlen; lia). bsimpl. rewrite u32_id by (unfold zlen; lia).
    rewrite (proj2 (Z.leb_le _ _)) by (unfold zlen in *; lia). cbn [negb]. eexists.
    split; [lia|]. split; [lia|]. split; [done|]. bsimpl.
    split; [rewrite <- Heq, Htk2; apply take_ge; lia|]. split; [done|]. split; [done|].
    split; [done|]. eexists. split; [done|]. cbn [fd_in fd_with_in].
    by rewrite drop_drop, drop_ge in Hd' by lia.
  - rewrite (proj2 (Z.eqb_neq _ _)) by (unfold zlen; lia). bsimpl.
    rewrite (u32_id (zlen p - _ - _)) by (unfold zlen; lia).
    rewrite u32_id by (unfold zlen; lia).
    rewrite (proj2 (Z.leb_le _ _)) by (unfold zlen in *; lia). cbn [negb]. eexists.
    split; [lia|]. split; [lia|]. split; [done|]. split; bsimpl.
    + done.
    + done.
    + split; [lia|]. split; [lia|done].
    + by split.
    + lia.
    + eexists. split; [done|]. cbn [fd_in fd_with_in]. by rewrite drop_drop in Hd'.
Qed.

Lemma read_packet_chunk fuel p k t b :
  zlen p <= 65537 -> in_packet p k t b -> (length p - k <= S fuel)%nat ->
  exists b', read_packet fuel b = Some (zlen p, b') /\ take (length p) (ReadBuf b') = p
    /\ TcpRead b' = TCP_WAIT_ON_LENGTH /\ NetConnection b' = TCP_CONNECTED
    /\ zlen (ReadBuf b') = 65539
    /\ exists s, TcpConnectionSocket b' = Some s /\ delivers (fd_in s) [] t.
Proof.
  intros Hp. revert k b. induction fuel as [|fuel IH]; intros k b Hin Hf;
    destruct (read_chunk p k t b Hp Hin) as (j & b' & Hj & Hkj & Hres);
    destruct (Nat.eqb_spec (k + j) (length p)) as [Heq|Hne].
  1, 3: destruct Hres as (Hr & Hres); exists b'; cbn [read_packet]; rewrite Hr;
    split; [|done]; unfold zlen; destruct (length p); [lia|done].
  - pose proof (ip_k _ _ _ _ Hin). lia.
  - destruct Hres as (Hr & Hin'). cbn [read_packet]. rewrite Hr. apply (IH _ _ Hin'). lia.
Qed.

(** The two length bytes at once. *)
Lemma read_header p t b s :
  stream_packet p -> (2 < length p)%nat ->
  TcpRead b = TCP_WAIT_ON_LENGTH -> NetConnection b = TCP_CONNECTED ->
  zlen (ReadBuf b) = 65539 -> TcpConnectionSocket b = Some s ->
  delivers (fd_in s) p t -> (fd_read 2 s).1.1 = 2 ->
  zlen p <= 65537 /\ exists b1, cNetReadTcp b = Some (0, b1) /\ in_packet p 2 t b1.
Proof.
  intros (Hok & Hl2 & Hlen) Hl Hst Hnet Hsz Hs Hd H2. split.
  { pose proof (le_val_range (take 2 p) ltac:(by apply Forall_take)) as Hr2.
    rewrite length_take, Nat.min_l in Hr2 by lia. change (2 ^ (8 * Z.of_nat 2)) with 65536 in Hr2. lia. }
  destruct (fd_read_delivers 2 s p t Hd) as (k & evs & Hr & Hk & Hd'); [lia|].
  rewrite Hr in H2. cbn [fst] in H2. assert (k = 2%nat) as -> by lia.
  unfold cNetReadTcp. rewrite Hs, Hst, Hr. change (Z.of_nat 2 <? 2) with false. cbn match.
  eexists. split; [done|]. destruct p as [|x [|y p]]; [simpl in Hl; lia|simpl in Hl; lia|].
  apply Forall_cons in Hok as [Hx Hok]. apply Forall_cons in Hok as [Hy _].
  unfold byte_ok in *. cbn [firstn le_val] in Hlen. rewrite take_0 in Hlen. cbn [le_val] in Hlen. bsimpl.
  set (buf := splice 0 _ (ReadBuf b)).
  assert (buf = x :: y :: drop 2 (ReadBuf b)) as Hbuf by done.
  rewrite Hbuf. cbn [nth]. rewrite (u32_id (x + y * 256)) by lia. split; bsimpl.
  - done.
  - done.
  - rewrite !u32_id by lia. split; [done|]; lia.
  - split; [|done]. rewrite <- Hsz. rewrite <- Hbuf. apply zlen_splice.
    unfold zlen in Hsz. simpl. lia.
  - simpl. simpl in Hl. lia.
  - eexists. split; [done|]. exact Hd'.
Qed.

(** A packet that the network delivers in pieces of any size is put together in the read
    buffer by calling `cNetReadTcp` once per piece, provided its two length bytes arrive
    together; the bridge is then ready for the next packet. *)
Theorem bridge_reassembles p t b s :
  stream_packet p -> (2 < length p)%nat ->
  TcpRead b = TCP_WAIT_ON_LENGTH -> NetConnection b = TCP_CONNECTED ->
  zlen (ReadBuf b) = 65539 -> TcpConnectionSocket b = Some s ->
  delivers (fd_in s) p t -> (fd_read 2 s).1.1 = 2 ->
  exists b', read_packet (length p) b = Some (zlen p, b') /\ take (length p) (ReadBuf b') = p
    /\ TcpRead b' = TCP_WAIT_ON_LENGTH /\ NetConnection b' = TCP_CONNECTED
    /\ zlen (ReadBuf b') = 65539
    /\ exists s', TcpConnectionSocket b' = Some s' /\ delivers (fd_in s') [] t.
Proof.
  intros Hp Hl Hst Hnet Hsz Hs Hd H2.
  destruct (read_header p t b s Hp Hl Hst Hnet Hsz Hs Hd H2) as (Hmax & b1 & Hb1 & Hin).
  destruct (length p) as [|n] eqn:En; [lia|]. rewrite <- En.
  destruct (read_packet_chunk n p 2 t b1 Hmax Hin) as (b' & Hr' & Hres); [lia|].
  exists b'. split; [|exact Hres]. rewrite En. cbn [read_packet]. by rewrite Hb1.
Qed.

(** ** Losing the connection *)

Section loss.
Context {D : Type} `{!Transport D}.

(** A packet of the network whose two length bytes arrive in different reads is not put
    together: the bridge forwards the first byte alone and closes the connection when the
    brick does not take it. *)
Theorem bridge_split_prefix b s x s' (w : World D) :
  TcpRead b = TCP_WAIT_ON_LENGTH -> TcpConnectionSocket b = Some s ->
  fd_read 2 s = (1, [x], s') -> ReadBuf b <> [] ->
  wp (forward b) (fun b' w' => NetConnection b' = TCP_NOT_CONNECTED
    /\ packets (w_trace w') = packets (w_trace w) ++ [[0; x]]) w.
Proof.
  intros Hst Hs Hr Hne. unfold forward, cNetReadTcp. rewrite Hs, Hst, Hr.
  change (1 <? 2) with true. cbn match. wsteps. bsimpl.
  destruct (ReadBuf b) as [|y buf]; [done|]. change (0 <? 1) with true. cbn match. wsteps.
  apply wp_write; [unfold zlen; simpl; lia|]. intros res d _.
  change (take (Z.to_nat (1 + 1)) (0 :: splice 0 [x] (y :: buf))) with [0; x]. wsimpl.
  destruct (res <? 1 + 1); wsteps; by rewrite packets_app.
Qed.
End loss.

(** Behind a stream transport, whose write does not count the HID byte, the bridge closes
    the network connection after every packet it forwards. *)
Theorem bridge_over_bt_closes b len b1 (w : World fd_state) :
  cNetReadTcp b = Some (len, b1) -> 0 < len <= zlen (ReadBuf b1) ->
  wp (forward b) (fun b' w' => NetConnection b' = TCP_NOT_CONNECTED) w.
Proof.
  intros Hr Hlen. unfold forward. rewrite Hr. wsteps.
  rewrite (proj2 (Z.ltb_lt _ _)) by lia. wsteps.
  apply wp_write; [unfold zlen in *; cbn [length]; lia|]. intros res d Hw.
  assert (res < len + 1) as Hres.
  { cbn [tr_write bt_transport] in Hw. unfold bt_write in Hw.
    destruct (bt_write_loop_spec (length (tail (take (Z.to_nat (len + 1)) (0 :: ReadBuf b1)))) 0
      (tail (take (Z.to_nat (len + 1)) (0 :: ReadBuf b1))) (w_dev w))
      as (n & s' & Hb & Hn & _); [lia..|].
    rewrite Hb in Hw. simplify_eq. replace (Z.to_nat (len + 1)) with (S (Z.to_nat len)) in Hn by lia.
    cbn [take tail] in Hn. rewrite length_take in Hn. lia. }
  rewrite (proj2 (Z.ltb_lt _ _)) by lia. by wsteps.
Qed.

(** ** The handshake *)

Lemma cstr_of_prefix a rest text :
  cstr_ok a -> cstr_of (a ++ rest) = Some text -> exists tl, text = a ++ tl.
Proof.
  intros Ha. revert text. induction Ha as [|c a Hc _ IH]; intros text H; [by exists text|].
  cbn [app cstr_of] in H. destruct (cstr_of (a ++ rest)) as [t|] eqn:E; [|by destruct c; try lia].
  destruct (IH t eq_refl) as [tl ->]. exists tl. destruct c; try lia. by simplify_eq/=.
Qed.

(** The network takes the answer of the bridge at once. *)
Definition answers (s : fd_state) : Prop :=
  match fd_wr s with [] => True | WrSome k :: _ => (length ACCEPT <= k)%nat | WrErr :: _ => False end.

Lemma accepts_request b s serial protocol rest :
  let req := target_request serial protocol in
  rd_ok b -> NetConnection b = TCP_CONNECTED -> TcpRead b = TCP_WAIT_ON_START ->
  TcpConnectionSocket b = Some s -> fd_in s = RdBytes req :: rest -> answers s ->
  cstr_ok req -> (length req <= 100)%nat ->
  exists buf s', cNetReadTcp b
      = Some (0, set_read TCP_WAIT_ON_LENGTH (set_sock (Some s') (set_readbuf buf b)))
    /\ zlen buf = 65539 /\ fd_in s' = rest /\ fd_sent s' = fd_sent s ++ ACCEPT
    /\ fd_wr s' = tail (fd_wr s).
Proof.
  intros req Hok Hnet Hst Hs Hin Hwr Hc Hl. pose proof Hok as [Hsz Hby Hla _].
  assert (fd_read 100 s = (zlen req, req, fd_with_in rest s)) as Hr.
  { unfold fd_read. rewrite Hin. destruct req as [|c req'] eqn:Ereq; [done|]. rewrite <- Ereq in *.
    cbn [read_events]. rewrite Ereq. rewrite <- Ereq. rewrite take_ge by done.
    by rewrite (proj2 (Nat.leb_le _ _)) by done. }
  unfold cNetReadTcp. rewrite Hs, Hst, Hr. bsimpl.
  destruct (rd_ok_splice b 0 req Hok) as (H1 & H2 & H3);
    [by apply cstr_bytes_ok|unfold zlen; lia|].
  unfold hexdump_ok. rewrite u32_id, H1 by (unfold zlen; lia).
  rewrite (proj2 (Z.leb_le _ _)) by (unfold zlen; lia). cbn [negb].
  assert (0 < length req)%nat by (unfold req, target_request; rewrite length_app; simpl; lia).
  rewrite (proj2 (Z.eqb_neq _ _)) by (unfold zlen; lia).
  destruct (last_has_nul _ H3) as [text Htext]. rewrite Htext. cbn [mbind option_bind].
  assert (exists tl, text = req ++ tl) as [tl Htl].
  { unfold splice in Htext. rewrite take_0 in Htext. cbn [app] in Htext.
    eapply cstr_of_prefix; [exact Hc|exact Htext]. }
  assert (contains (str "ET /target?sn=") text = true) as ->.
  { rewrite Htl. unfold req, target_request. rewrite <- !app_assoc.
    apply (contains_app _ [71]). done. }
  unfold cNetWriteTcp. bsimpl. rewrite Hnet. change (zlen ACCEPT <? 1) with false. cbn match.
  unfold answers in Hwr. unfold fd_write. cbn [fd_wr fd_with_in].
  destruct (fd_wr s) as [|[k|] wr]; [| |done].
  - do 2 eexists. split; [done|]. by split_and!.
  - assert (0 < length ACCEPT)%nat by (apply Nat.ltb_lt; reflexivity).
    rewrite Nat.min_r, Nat.max_r, take_ge by lia. do 2 eexists. split; [done|]. by split_and!.
Qed.

(** The bridge answers the request that `tcp_open` sends with the text the brick would
    answer and starts to read packets: the client of tcp.c and the server of bridge.c agree
    on the handshake. *)
Theorem bridge_accepts_request b s serial protocol rest :
  let req := target_request serial protocol in
  rd_ok b -> NetConnection b = TCP_CONNECTED -> TcpRead b = TCP_WAIT_ON_START ->
  TcpConnectionSocket b = Some s -> fd_in s = RdBytes req :: rest -> fd_wr s = [] ->
  cstr_ok req -> (length req <= 100)%nat ->
  exists b' s', cNetReadTcp b = Some (0, b') /\ TcpRead b' = TCP_WAIT_ON_LENGTH
    /\ TcpConnectionSocket b' = Some s' /\ fd_in s' = rest /\ fd_sent s' = fd_sent s ++ ACCEPT.
Proof.
  intros req Hok Hnet Hst Hs Hin Hwr Hc Hl.
  destruct (accepts_request b s serial protocol rest) as (buf & s' & Hr & _ & H1 & H2 & _);
    [done..|unfold answers; by rewrite Hwr|done|done|]. by eexists _, s'.
Qed.

(** The name in the bridge's beacon has a space: the search scans "USB", and what
    follows is not the literal that introduces the protocol. *)

(** The beacon of the bridge does not scan back to its name: `tcp_open` reads the name up to
    the first space. *)
Theorem beacon_name_splits h :
  tcp_handle_ok h ->
  exists h', scan_broadcast beacon h = Some h' /\ h_protocol h' = h_protocol h
    /\ cstr_of (h_name h') = Some (str "USB").
Proof.
  intros (H1 & H2 & H3 & H4). unfold scan_broadcast.
  change (match_lit (str "Serial-Number:") beacon) with (Some (drop 14 beacon)). cbn match.
  change (scan_word (skip_space (drop 14 beacon))) with ([51; 49; 51; 51; 55], drop 20 beacon).
  assert (forall w dst, (length w < length dst)%nat ->
    store_word w dst = Some (splice 0 (w ++ [0]) dst)) as Hst.
  { intros w dst Hl. unfold store_word. by rewrite (proj2 (Nat.ltb_lt _ _)). }
  cbn match. rewrite Hst by (rewrite H1; simpl; lia). cbn [mbind option_bind]. unfold scan_port.
  change (match_lit (str "Port:") (skip_space (drop 20 beacon))) with (Some (drop 27 beacon)). cbn match.
  change (scan_u (skip_space (drop 27 beacon))) with (Some (5555, drop 32 beacon)). cbn match.
  unfold scan_name. change (match_lit (str "Name:") (skip_space (drop 32 beacon)))
    with (Some (drop 39 beacon)). cbn match.
  change (scan_word (skip_space (drop 39 beacon))) with ([85; 83; 66], drop 43 beacon).
  cbn [h_name h_serial h_ip h_tcp_port h_protocol]. cbn match.
  rewrite Hst by (rewrite H3; simpl; lia). cbn [mbind option_bind].
  change (match_lit (str "Protocol:") (skip_space (drop 43 beacon))) with (@None (list Z)).
  eexists. split; [done|]. split; [done|]. cbn [h_name].
  reflexivity.
Qed.

(** ** From the brick to the PC *)

Section drain.
Context {D : Type} `{!Transport D}.

(** [n] rounds in which the socket is writable. *)
Fixpoint backward_n (n : nat) (b : bridge) : M D bridge :=
  match n with
  | O => mret b
  | S n => b ← backward b; backward_n n b
  end.

Lemma fd_write_some bs s :
  WrErr ∉ fd_wr s -> bs <> [] ->
  exists k s', fd_write bs s = (Z.of_nat k, s') /\ (0 < k <= length bs)%nat
    /\ fd_sent s' = fd_sent s ++ take k bs /\ WrErr ∉ fd_wr s'.
Proof.
  intros Hw Hne. assert (0 < length bs)%nat by (destruct bs; [done|simpl; lia]).
  unfold fd_write. destruct (fd_wr s) as [|[k|] t] eqn:E.
  - exists (length bs). eexists. split; [done|]. split; [lia|].
    split; [by rewrite take_ge|apply not_elem_of_nil].
  - eexists _, _. split; [done|]. split; [lia|]. split; [done|].
    intros Hin. apply Hw. by right.
  - destruct Hw. by left.
Qed.

(** Enough rounds of the write half of the bridge loop send the pending packet of the brick
    to the network completely and in order, whatever pieces the socket accepts. *)
Theorem bridge_drains n b s (w : World D) :
  NetConnection b = TCP_CONNECTED -> TcpConnectionSocket b = Some s -> WrErr ∉ fd_wr s ->
  0 <= write_pos b -> 0 <= write_len b <= Z.of_nat n ->
  write_pos b + write_len b <= zlen (WriteBuf b) ->
  wp (backward_n n b) (fun b' w' => w' = w /\ write_len b' = 0
    /\ exists s', TcpConnectionSocket b' = Some s' /\
         fd_sent s' = fd_sent s
           ++ slice (Z.to_nat (write_pos b)) (Z.to_nat (write_len b)) (WriteBuf b)) w.
Proof.
  revert b s. induction n as [|n IH]; intros b s Hnet Hs Hw Hp Hl Hsz; cbn [backward_n].
  { wsteps. split; [done|]. split; [lia|]. exists s. split; [done|].
    replace (Z.to_nat (write_len b)) with 0%nat by lia. unfold slice.
    by rewrite take_0, app_nil_r. }
  set (bs := slice (Z.to_nat (write_pos b)) (Z.to_nat (write_len b)) (WriteBuf b)).
  assert (zlen bs = write_len b) as Hbs
    by (unfold bs, zlen in *; rewrite length_slice; lia).
  unfold backward. fold bs. wsteps. unfold cNetWriteTcp. rewrite Hnet, Hs, Hbs.
  destruct (write_len b <? 1) eqn:E.
  { apply Z.ltb_lt in E. change (0 <? 0) with false. cbn match. wsteps.
    eapply wp_mono; [apply (IH b s); try done; lia|]. done. }
  apply Z.ltb_ge in E.
  destruct (fd_write_some bs s Hw) as (k & s1 & -> & Hk & Hsent & Hw1).
  { intros Hn. rewrite Hn in Hbs. change (zlen (@nil Z)) with 0 in Hbs. lia. }
  rewrite (proj2 (Z.ltb_lt _ _)) by lia. wsteps. unfold zlen in Hbs.
  eapply wp_mono; [apply (IH _ s1); bsimpl; try done; lia|]. bsimpl.
  intros b' w' (-> & H0 & s' & Hs' & Hsent'). split; [done|]. split; [done|]. exists s'.
  split; [done|]. rewrite Hsent', Hsent, <- app_assoc. f_equal.
  unfold bs, slice. replace (Z.to_nat (write_pos b + Z.of_nat k)) with (Z.to_nat (write_pos b) + k)%nat by lia.
  rewrite <- drop_drop. replace (Z.to_nat (write_len b)) with (k + Z.to_nat (write_len b - Z.of_nat k))%nat by lia.
  rewrite take_take, Nat.min_l by lia. by rewrite take_take_drop.
Qed.
End drain.
