(* ===== verification/BridgeLoop.v ===== *)
(** * BridgeLoop: the main loop of the bridge (src/bridge.c)

    The invariant of [bridge_mode]: whatever the network sends and however the
    calls interleave, the buffers are not overrun and the assertion on the
    packets of the brick holds. *)

From S2P Require Import Prelude Packets IO Logic Cstr BtUnix Tcp Bridge.

(** ** A brick that sends packets

    [ps_ok d]: what the brick [d] sends are packets, each read at once. *)
Class PacketSource (D : Type) `{Transport D} := {
  ps_ok : D -> Prop;
  ps_write : forall p d res d', ps_ok d -> tr_write p d = (res, d') -> ps_ok d';
  ps_read : forall d res data d', ps_ok d -> tr_read 65540 0 d = (res, data, d') ->
    ps_ok d' /\ bytes_ok data /\ zlen data <= 65540 /\ 0 <= res <= 65540
    /\ (res <> 0 -> 2 <= zlen data /\ nth 0 data 0 + 256 * nth 1 data 0 + 2 <= res);
}.

(** ** The invariant *)

Record loop_ok (b : bridge) : Prop := {
  lo_rd : rd_ok b;
  lo_sock : socket_clean b;
  lo_conn : NetConnection b = TCP_CONNECTED -> is_Some (TcpConnectionSocket b);
  lo_size : zlen (WriteBuf b) = 65540;
  lo_pos : 0 <= write_pos b /\ 0 <= write_len b /\ write_pos b + write_len b <= 65540;
}.

(** The writing side, and that only a reset takes the connection away. *)
Definition same_write (b b' : bridge) : Prop :=
  WriteBuf b' = WriteBuf b /\ write_len b' = write_len b /\ write_pos b' = write_pos b
  /\ (NetConnection b' = TCP_CONNECTED -> is_Some (TcpConnectionSocket b')).

Lemma cNetWriteTcp_same bytes b :
  (NetConnection b = TCP_CONNECTED -> is_Some (TcpConnectionSocket b)) ->
  same_write b (cNetWriteTcp bytes b).2.
Proof.
  intros Hc. unfold cNetWriteTcp. destruct (_ <? _); [done|].
  destruct (NetConnection b) eqn:En; [by rewrite <- En in Hc|..|by rewrite <- En in Hc].
  destruct (TcpConnectionSocket b) as [s|] eqn:Es; [by destruct (fd_write bytes s)|].
  destruct (Hc eq_refl) as [? [=]].
Qed.

Lemma cNetReadTcp_same b s r b' :
  TcpConnectionSocket b = Some s -> cNetReadTcp b = Some (r, b') -> same_write b b'.
Proof.
  intros Hs. unfold cNetReadTcp. rewrite Hs. destruct (TcpRead b).
  - intros [= <- <-]. by repeat split.
  - destruct (fd_read 100 s) as [[ret bs] s1]. cbv zeta. destruct (hexdump_ok _ _); [|done].
    cbn [negb]. destruct (ret =? 0); [by intros [= <- <-]|].
    destruct (cstr_of _); [|done]. cbn [mbind option_bind].
    destruct (contains _ _); [|by intros [= <- <-]].
    set (b1 := set_readbuf _ _). pose proof (cNetWriteTcp_same ACCEPT b1) as Hw.
    destruct (cNetWriteTcp ACCEPT b1) as [r2 b2]. intros [= <- <-]. by apply Hw.
  - destruct (fd_read 2 s) as [[ret bs] s1]. cbv zeta. destruct (ret <? 2); by intros [= <- <-].
  - destruct (_ <? TcpTotalLength b); [done|]. destruct (fd_read _ s) as [[ret bs] s1].
    destruct (_ <? _); [done|]. cbv zeta. destruct (ret =? 0); [by intros [= <- <-]|].
    destruct (negb _); [done|]. destruct (_ =? u32 ret); by intros [= <- <-].
Qed.

(** The record operations of the loop. *)
Lemma rd_ok_keep b b' :
  rd_ok b -> ReadBuf b' = ReadBuf b ->
  (TcpRead b' = TCP_WAIT_ON_ONLY_CHUNK -> TcpRead b = TCP_WAIT_ON_ONLY_CHUNK
     /\ TcpReadBufPointer b' = TcpReadBufPointer b /\ TcpRestLen b' = TcpRestLen b
     /\ TcpTotalLength b' = TcpTotalLength b) -> rd_ok b'.
Proof.
  intros [H1 H2 H3 H4] E He. split; rewrite ?E; try done.
  intros Hc. destruct (He Hc) as (Hc' & -> & -> & ->). by apply H4.
Qed.

Lemma loop_ok_close b : loop_ok b -> loop_ok (cNetTcpClose b).
Proof. intros [H1 H2 H3 H4 H5]. split; try done. by apply (rd_ok_keep b). Qed.

Lemma loop_ok_beacon now sent b : loop_ok b -> loop_ok (cNetTransmitBeacon now sent b).
Proof.
  intros [H1 H2 H3 H4 H5]. unfold cNetTransmitBeacon. destruct (_ <? _); [done|].
  destruct sent; split; try done; by apply (rd_ok_keep b).
Qed.

Definition accepts_clean (t : tick) : Prop :=
  match t_accept t with Some s => clean s | None => True end.

Lemma loop_ok_accept conn b :
  loop_ok b -> NetConnection b <> TCP_CONNECTED ->
  match conn with Some s => clean s | None => True end ->
  let '(ok, b') := cNetWaitForTcpConnection conn b in
  loop_ok (if ok : bool then set_net TCP_CONNECTED b' else b').
Proof.
  intros [H1 H2 H3 H4 H5] Hn Hc. unfold cNetWaitForTcpConnection. destruct conn as [s|].
  - split; try done. by apply (rd_ok_keep b).
  - split; try done. by apply (rd_ok_keep b).
Qed.

Section loop.
Context {D : Type} `{!Transport D} `{!PacketSource D}.

Lemma fetch_safe b (w : World D) :
  loop_ok b -> NetConnection b = TCP_CONNECTED -> ps_ok (w_dev w) ->
  safe (fetch b) (fun b' w' => loop_ok b' /\ NetConnection b' = TCP_CONNECTED /\ ps_ok (w_dev w')) w.
Proof.
  intros Hok Hn Hps. pose proof Hok as [H1 H2 H3 H4 H5]. unfold fetch.
  destruct (write_len b <=? 0); [|by wsteps]. wsteps. apply wp_read.
  intros res data d Hr. destruct (ps_read _ _ _ _ Hps Hr) as (Hd & Hb & Hz & Hres & Hpk).
  rewrite (proj2 (Z.ltb_ge _ _)) by lia. cbn beta iota.
  assert (forall len, 0 <= len <= 65540 -> loop_ok (set_write (splice 0 data (WriteBuf b)) len 0 b)) as Hset.
  { intros len Hlen. split; [by apply (rd_ok_keep b)|done|done| |cbn; lia].
    cbn. by rewrite zlen_splice by (unfold zlen in *; lia). }
  destruct (Z.eqb_spec res 0) as [->|Hne]; cbn [negb].
  { wsteps. split; [by apply Hset|done]. }
  destruct (Hpk Hne) as [Hl2 Hreal].
  assert (forall i, (i < 2)%nat -> nth i (splice 0 data (WriteBuf b)) 0 = nth i data 0) as Hnth.
  { intros i Hi. unfold splice. rewrite take_0. cbn [app]. apply app_nth1. unfold zlen in Hl2. lia. }
  rewrite !Hnth by lia. rewrite (proj2 (Z.ltb_ge _ _)) by lia. wsteps.
  split; [|done]. apply Hset. pose proof (nth_byte data 0 Hb). pose proof (nth_byte data 1 Hb). lia.
Qed.

Lemma forward_safe b (w : World D) :
  loop_ok b -> is_Some (TcpConnectionSocket b) -> ps_ok (w_dev w) ->
  safe (forward b) (fun b' w' => loop_ok b' /\ ps_ok (w_dev w')) w.
Proof.
  intros Hok [s Hs] Hps. pose proof Hok as [H1 H2 H3 H4 H5]. unfold forward. wsteps.
  assert (clean s) as Hc by (unfold socket_clean in H2; by rewrite Hs in H2).
  destruct (cNetReadTcp_safe b s H1 Hs Hc) as (r & b' & Hr & Hrd & Hcl & Hrange). rewrite Hr.
  apply wp_deref_Some. cbn beta iota.
  destruct (cNetReadTcp_same _ _ _ _ Hs Hr) as (E1 & E2 & E3 & E4).
  assert (loop_ok b') as Hok' by (split; try done; by rewrite ?E1, ?E2, ?E3).
  destruct (0 <? r); [|by wsteps]. wsteps.
  apply wp_write; [unfold zlen in *; destruct Hrd as [Hsz _ _ _]; unfold zlen in Hsz; simpl; lia|].
  intros err d Hw. wsteps. destruct (err <? r + 1); wsteps;
    (split; [by try apply loop_ok_close|by eapply ps_write]).
Qed.

Lemma backward_safe b (w : World D) :
  loop_ok b -> ps_ok (w_dev w) ->
  safe (backward b) (fun b' w' => loop_ok b' /\ ps_ok (w_dev w')) w.
Proof.
  intros Hok Hps. pose proof Hok as [H1 H2 H3 H4 H5]. unfold backward.
  set (bytes := slice _ _ _).
  assert (zlen bytes <= write_len b) as Hbytes.
  { unfold bytes, zlen, slice. rewrite length_take. lia. }
  pose proof (cNetWriteTcp_keeps bytes b) as (K1 & K2 & K3 & K4 & K5 & K6).
  pose proof (cNetWriteTcp_same bytes b H3) as (E1 & E2 & E3 & E4).
  assert ((cNetWriteTcp bytes b).1 <= zlen bytes) as Hle.
  { unfold cNetWriteTcp. pose proof (zlen_nonneg bytes). destruct (Z.ltb_spec (zlen bytes) 1); [done|].
    destruct (NetConnection b), (TcpConnectionSocket b) as [s|]; try done.
    unfold fd_write. destruct (fd_wr s) as [|[k|] t]; cbn; unfold zlen in *; lia. }
  destruct (cNetWriteTcp bytes b) as [n b']. cbn [fst snd] in *.
  assert (loop_ok b') as Hok'.
  { split; rewrite ?E1, ?E2, ?E3; auto. apply (rd_ok_keep b); [done..|]. by rewrite K2, K3, K4, K5. }
  destruct (Z.ltb_spec 0 n); wsteps; [|done]. split; [|done].
  split; try apply Hok'; cbn; [|rewrite ?E1, ?E2, ?E3; lia].
  apply (rd_ok_keep b'); [apply Hok'|done|done].
Qed.

Lemma bridge_iter_safe t b (w : World D) :
  loop_ok b -> accepts_clean t -> ps_ok (w_dev w) ->
  safe (bridge_iter t b) (fun b' w' => loop_ok b' /\ ps_ok (w_dev w')) w.
Proof.
  intros Hok Ht Hps. unfold bridge_iter. destruct (NetConnection b) eqn:En.
  - pose proof (loop_ok_beacon (t_now t) (t_beacon_sent t) b Hok) as Hb.
    assert (NetConnection (cNetTransmitBeacon (t_now t) (t_beacon_sent t) b) <> TCP_CONNECTED) as Hn.
    { unfold cNetTransmitBeacon. destruct (_ <? _); [by rewrite En|].
      destruct (t_beacon_sent t); cbn; by rewrite ?En. }
    pose proof (loop_ok_accept (t_accept t) _ Hb Hn Ht) as Ha.
    destruct (cNetWaitForTcpConnection _ _) as [ok b']. by wsteps.
  - apply wp_bind. eapply wp_mono; [by apply fetch_safe|]. intros b1 w1 (H1 & Hn1 & Hp1).
    assert (safe (if t_readable t then forward b1 else mret b1)
      (fun b' w' => loop_ok b' /\ ps_ok (w_dev w')) w1) as Hfw.
    { destruct (t_readable t); [|by wsteps]. apply forward_safe; [done| |done].
      by apply (lo_conn b1 H1). }
    apply wp_bind. eapply wp_mono; [exact Hfw|].
    intros b2 w2 [H2 Hp2]. destruct (_ && _); [by apply backward_safe|by wsteps].
  - by wsteps.
Qed.

Lemma bridge_loop_safe ticks b (w : World D) :
  loop_ok b -> Forall accepts_clean ticks -> ps_ok (w_dev w) ->
  safe (bridge_loop ticks b) (fun b' w' => loop_ok b' /\ ps_ok (w_dev w')) w.
Proof.
  intros Hok Ht. revert b w Hok. induction Ht as [|t ticks Ht _ IH]; intros b w Hok Hps;
    cbn [bridge_loop]; [by wsteps|].
  apply wp_bind. eapply wp_mono; [by apply bridge_iter_safe|]. intros b' w' [H1 H2]. by apply IH.
Qed.

Lemma bridge_init_ok : loop_ok bridge_init.
Proof.
  unfold bridge_init. split; cbn [NetConnection TcpConnectionSocket WriteBuf write_pos write_len].
  - split; cbn [ReadBuf TcpRead]; [..|done].
    + unfold zlen. rewrite length_replicate. lia.
    + apply Forall_replicate. unfold byte_ok. lia.
    + rewrite last_lookup, length_replicate. apply lookup_replicate_2. lia.
  - done.
  - done.
  - unfold zlen. rewrite length_replicate. lia.
  - lia.
Qed.

(** Whether the sockets can be set up. *)
Definition net_up (n : bridge_net) : bool :=
  (0 <=? bn_udp_socket n) && bn_broadcast n && (0 <=? bn_tcp_socket n) && bn_bind n && bn_listen n.


(** A failed read of the brick ends the bridge: the assertion compares the length field of
    an old packet with -1. *)
Theorem bridge_read_error_aborts b (w : World D) res data d :
  write_len b <= 0 -> bytes_ok (WriteBuf b) -> zlen (WriteBuf b) = 65540 -> bytes_ok data ->
  tr_read 65540 0 (w_dev w) = (res, data, d) -> res < 0 -> zlen data <= 65540 ->
  exists why, fetch b w = Undef why.
Proof.
  intros Hw Hb Hs Hd Hr Hres Hz. unfold fetch. rewrite (proj2 (Z.leb_le _ _)) by lia.
  unfold mbind, M_bind, ev3_read_timeout. rewrite Hr. rewrite (proj2 (Z.ltb_ge _ _)) by lia.
  rewrite (proj2 (Z.eqb_neq _ _)) by lia. cbn [negb].
  assert (bytes_ok (splice 0 data (WriteBuf b))) as Hby by by apply bytes_ok_splice.
  pose proof (nth_byte _ 0 Hby). pose proof (nth_byte _ 1 Hby).
  rewrite (proj2 (Z.ltb_lt _ _)) by lia. by eexists.
Qed.
End loop.
