(* ===== verification/BridgeRelay.v ===== *)
(** * BridgeRelay: the bridge between a network client and a brick (src/bridge.c)

    What the loop of [bridge_mode] does with a connected client, over any
    sequence of iterations: the packets of the client reach the brick complete
    and in order, and the packets of the brick reach the client as one stream
    of bytes. *)

From S2P Require Import Prelude.
From S2P Require Import Packets.
From S2P Require Import IO.
From S2P Require Import Logic.
From S2P Require Import BtUnix.
From S2P Require Import Cstr.
From S2P Require Import Tcp.
From S2P Require Import Bridge.
From S2P Require Import BridgeLoop.

(** ** The two ends *)

(** A client sends the packets [ps] and closes the connection; the network
    does not part the two length bytes of a packet. *)
Inductive sends : list rd_event -> list (list Z) -> Prop :=
| sends_end evs : delivers evs [] [] -> sends evs []
| sends_packet evs p t ps :
    stream_packet p -> (2 < length p)%nat -> delivers evs p t -> (read_events 2 evs).1.1 = 2 ->
    sends t ps -> sends evs (p :: ps).

(** What counts of the bytes read from the brick. *)
Definition payload (data : list Z) : list Z :=
  take (Z.to_nat (nth 0 data 0 + 256 * nth 1 data 0 + 2)) data.

(** The packets among the reads; a read may find nothing. *)
Definition brick_packets (new : list (list Z)) : list (list Z) :=
  map payload (filter (fun d => d <> []) new).

Lemma brick_packets_app a b : brick_packets (a ++ b) = brick_packets a ++ brick_packets b.
Proof. unfold brick_packets. by rewrite filter_app, map_app. Qed.

(** A brick that takes every packet and sends packets, each read at once and
    possibly padded. *)
Class Brick (D : Type) `{Transport D} := {
  br_ok : D -> Prop;
  br_write : forall p d res d', br_ok d -> tr_write p d = (res, d') -> br_ok d' /\ zlen p <= res;
  br_read : forall d res data d', br_ok d -> tr_read 65540 0 d = (res, data, d') ->
    br_ok d' /\ bytes_ok data /\ zlen data = res /\ res <= 65540
    /\ (data <> [] -> 2 <= zlen data /\ nth 0 data 0 + 256 * nth 1 data 0 + 2 <= zlen data);
}.

(** Such a brick is a source of packets in the sense of BridgeLoop.v. *)
#[export, refine] Instance brick_source {D} `{!Transport D} `{!Brick D} : PacketSource D := {
  ps_ok := br_ok;
}.
Proof.
  - intros p d res d' Hd Hw. by destruct (br_write p d res d' Hd Hw).
  - intros d res data d' Hd Hr. destruct (br_read d res data d' Hd Hr) as (H1 & H2 & H3 & H4 & H5).
    pose proof (zlen_nonneg data). split_and!; [done|done|lia|lia|lia|].
    intros Hne. destruct H5 as [H5 H6]; [|lia]. intros ->. by rewrite <- H3 in Hne.
Defined.

(** What is left to send to the client. *)
Definition pending (b : bridge) : list Z :=
  slice (Z.to_nat (write_pos b)) (Z.to_nat (write_len b)) (WriteBuf b).

(** ** From the client *)

Lemma delivers_nil_read evs t n : delivers evs [] t -> read_events n evs = read_events n t.
Proof.
  remember (@nil Z) as l eqn:El. intros H. revert El.
  induction H as [t|evs l t H IH|bs evs l t H IH|a b evs Hb]; intros El.
  - done.
  - cbn [read_events]. by apply IH.
  - apply app_eq_nil in El as [-> ->]. cbn [read_events]. by apply IH.
  - by subst.
Qed.

Lemma delivers_nil_trans evs t l u : delivers evs [] t -> delivers t l u -> delivers evs l u.
Proof. intros H1 H2. by apply (delivers_app evs [] l t u). Qed.

(** Where the read half is in the packets [todo], and how many of their bytes
    it has. *)
Inductive client_at (b : bridge) : list (list Z) -> nat -> Prop :=
| client_at_length s t todo :
    TcpRead b = TCP_WAIT_ON_LENGTH -> NetConnection b = TCP_CONNECTED ->
    zlen (ReadBuf b) = 65539 -> TcpConnectionSocket b = Some s ->
    delivers (fd_in s) [] t -> sends t todo -> client_at b todo 0
| client_at_chunk p k t todo :
    zlen p <= 65537 -> in_packet p k t b -> sends t todo -> client_at b (p :: todo) k.

Lemma client_at_socket b todo k :
  client_at b todo k -> NetConnection b = TCP_CONNECTED /\ is_Some (TcpConnectionSocket b)
    /\ (TcpRead b = TCP_WAIT_ON_LENGTH \/ TcpRead b = TCP_WAIT_ON_ONLY_CHUNK).
Proof.
  intros [s t todo' H1 H2 H3 H4 _ _|p k' t todo' _ [H1 H2 _ _ _ (s & H4 & _)] _].
  all: rewrite H4; eauto.
Qed.

(** Reading leaves the other side of the socket alone. *)
Definition same_out (b b' : bridge) : Prop :=
  pending b' = pending b /\ WriteBuf b' = WriteBuf b /\ write_len b' = write_len b
  /\ write_pos b' = write_pos b
  /\ forall s, TcpConnectionSocket b = Some s -> match TcpConnectionSocket b' with
       | Some s' => fd_sent s' = fd_sent s /\ fd_wr s' = fd_wr s | None => True end.

Lemma fd_read_out n s ret bs s' :
  fd_read n s = (ret, bs, s') -> fd_sent s' = fd_sent s /\ fd_wr s' = fd_wr s.
Proof. unfold fd_read. destruct (read_events n (fd_in s)) as [[r l] e]. by intros [= <- <- <-]. Qed.

Lemma cNetReadTcp_out b r b' :
  TcpRead b = TCP_WAIT_ON_LENGTH \/ TcpRead b = TCP_WAIT_ON_ONLY_CHUNK ->
  cNetReadTcp b = Some (r, b') -> same_out b b'.
Proof.
  intros Hst. unfold cNetReadTcp. destruct (TcpConnectionSocket b) as [s|] eqn:Es; [|done].
  assert (forall b', WriteBuf b' = WriteBuf b -> write_len b' = write_len b ->
    write_pos b' = write_pos b ->
    match TcpConnectionSocket b' with
    | Some s' => fd_sent s' = fd_sent s /\ fd_wr s' = fd_wr s | None => True end ->
    same_out b b') as Hout.
  { intros b1 H1 H2 H3 H4. split; [unfold pending; by rewrite H1, H2, H3|]. split_and!; try done.
    intros s0. rewrite Es. by intros [= <-]. }
  destruct Hst as [-> | ->].
  - destruct (fd_read 2 s) as [[ret bs] s'] eqn:Er. apply fd_read_out in Er as Ho. cbv zeta.
    destruct (ret <? 2); intros [= <- <-]; by apply Hout.
  - destruct (_ <? TcpTotalLength b); [done|].
    destruct (fd_read _ s) as [[ret bs] s'] eqn:Er. apply fd_read_out in Er as Ho. cbv zeta.
    destruct (_ <? _); [done|]. destruct (ret =? 0); [intros [= <- <-]; by apply Hout|].
    destruct (negb _); [done|]. destruct (_ =? u32 ret); intros [= <- <-]; by apply Hout.
Qed.

(** Bytes of the client that are still to come. *)
Definition bytes_left (todo : list (list Z)) (k : nat) : nat := length (concat todo) - k.

Lemma client_at_bound b p todo k : client_at b (p :: todo) k -> (k < length p)%nat.
Proof.
  intros Hr. inversion Hr as [s t todo' _ _ _ _ _ Hs|p' k' t todo' _ Hin _]; subst.
  - inversion Hs; subst. lia.
  - by apply (ip_k _ _ _ _ Hin).
Qed.

Definition conn_closed (b : bridge) : Prop :=
  NetConnection b = TCP_NOT_CONNECTED /\ TcpConnectionSocket b = None.

(** One call of [cNetReadTcp]: a part of a packet, a whole packet, or the end. *)
Inductive read_result (todo : list (list Z)) (k : nat) : Z -> bridge -> Prop :=
| read_part b' k' : (k < k')%nat -> client_at b' todo k' -> read_result todo k 0 b'
| read_whole p todo' b' :
    todo = p :: todo' -> take (length p) (ReadBuf b') = p -> zlen (ReadBuf b') = 65539 ->
    zlen p <= 65537 -> client_at b' todo' 0 -> read_result todo k (zlen p) b'
| read_end b' : todo = [] -> conn_closed b' -> read_result todo k 0 b'.

Lemma read_step b todo k :
  client_at b todo k ->
  exists r b', cNetReadTcp b = Some (r, b') /\ same_out b b' /\ read_result todo k r b'.
Proof.
  intros Hr. destruct (client_at_socket b todo k Hr) as (Hn & _ & Hst).
  assert (exists r b', cNetReadTcp b = Some (r, b') /\ read_result todo k r b') as (r & b' & Hc & Hres).
  2: { exists r, b'. split; [done|]. split; [by eapply cNetReadTcp_out|done]. }
  destruct Hr as [s t todo H1 H2 H3 H4 Hd Hs|p k t todo Hp Hin Hs].
  - destruct Hs as [evs He|evs p t2 ps Hp Hl He H22 Hs].
    + assert (fd_read 2 s = (0, [], fd_with_in [] s)) as Hfd.
      { unfold fd_read. by rewrite (delivers_nil_read _ _ 2 Hd), (delivers_nil_read _ _ 2 He). }
      exists 0. eexists. unfold cNetReadTcp. rewrite H4, H1, Hfd. split; [done|]. by apply read_end.
    + assert (delivers (fd_in s) p t2) as Hd2 by by eapply delivers_nil_trans.
      destruct (read_header p t2 b s Hp Hl H1 H2 H3 H4 Hd2) as (Hmax & b1 & Hb1 & Hin).
      { unfold fd_read. rewrite (delivers_nil_read _ _ 2 Hd).
        by destruct (read_events 2 evs) as [[??]?]. }
      exists 0, b1. split; [done|]. apply (read_part _ _ b1 2); [lia|]. by eapply client_at_chunk.
  - destruct (read_chunk p k t b Hp Hin) as (j & b' & Hj & Hkj & Hres).
    destruct (Nat.eqb_spec (k + j) (length p)) as [Heq|Hne].
    + destruct Hres as (Hc & Htk & Hst' & Hnet & Hsz & s' & Hs' & Hd').
      exists (zlen p), b'. split; [done|]. eapply read_whole; try done.
      by eapply client_at_length.
    + destruct Hres as (Hc & Hin'). exists 0, b'. split; [done|].
      apply (read_part _ _ b' (k + j)); [lia|]. by eapply client_at_chunk.
Qed.

Section relay.
Context {D : Type} `{!Transport D} `{!Brick D}.

Lemma forward_relays b todo k (w : World D) :
  client_at b todo k -> br_ok (w_dev w) ->
  wp (forward b) (fun b' w' => exists done todo',
    todo = done ++ todo' /\ packets (w_trace w') = packets (w_trace w) ++ map (cons 0) done
    /\ replies (w_trace w') = replies (w_trace w) /\ br_ok (w_dev w') /\ same_out b b'
    /\ ((exists k', client_at b' todo' k' /\ (bytes_left todo' k' < bytes_left todo k)%nat)
        \/ todo' = [] /\ conn_closed b')) w.
Proof.
  intros Hr Hbr. destruct (read_step b todo k Hr) as (r & b' & Hc & Hout & Hres).
  unfold forward. rewrite Hc. wsteps. destruct Hres as [b' k' Hk Hr'|p todo' b' -> Htk Hsz Hp Hr'|b' -> Hcl].
  - change (0 <? 0) with false. cbn match. wsteps. exists [], todo. rewrite app_nil_r.
    split_and!; try done. left. exists k'. split; [done|]. unfold bytes_left.
    destruct todo as [|p todo]; [|apply client_at_bound in Hr'; cbn [concat]; rewrite length_app; lia].
    inversion Hr; subst. inversion Hr'; subst. lia.
  - pose proof (client_at_bound b p todo' k Hr) as Hk.
    rewrite (proj2 (Z.ltb_lt _ _)) by (unfold zlen; lia). wsteps.
    apply wp_write; [unfold zlen in *; cbn [length]; lia|]. intros res d Hw.
    assert (take (Z.to_nat (zlen p + 1)) (0 :: ReadBuf b') = 0 :: p) as Hpkt.
    { replace (Z.to_nat (zlen p + 1)) with (S (length p)) by (unfold zlen; lia).
      cbn [take]. by rewrite Htk. }
    rewrite Hpkt in *. destruct (br_write _ _ _ _ Hbr Hw) as [Hbr' Hle].
    rewrite (proj2 (Z.ltb_ge _ _)) by (unfold zlen in *; cbn [length] in *; lia). wsteps.
    exists [p], todo'. rewrite packets_app, replies_app, app_nil_r. split_and!; try done. left.
    exists 0%nat. split; [done|]. unfold bytes_left. cbn [concat]. rewrite length_app. lia.
  - change (0 <? 0) with false. cbn match. wsteps. exists [], [].
    cbn [map]. rewrite (app_nil_r (packets _)).
    split_and!; try done. by right.
Qed.

(** ** To the client *)

Definition buf_ok (b : bridge) : Prop :=
  zlen (WriteBuf b) = 65540
  /\ 0 <= write_pos b /\ 0 <= write_len b /\ write_pos b + write_len b <= 65540.

(** The socket accepts what is written, in pieces of any size. *)
Record out_ok (b : bridge) (s : fd_state) : Prop := {
  oo_wr : WrErr ∉ fd_wr s;
  oo_buf : buf_ok b;
}.

Lemma slice_cut {A} i m k (l : list A) :
  (k <= m)%nat -> slice i m l = take k (slice i m l) ++ slice (i + k) (m - k) l.
Proof.
  intros Hk. unfold slice. rewrite take_take, Nat.min_l by lia.
  rewrite <- drop_drop. rewrite take_take_drop. f_equal. lia.
Qed.

(** The writing of the bridge leaves what it reads alone. *)
Lemma client_at_write b b' todo k s s' :
  TcpConnectionSocket b = Some s -> TcpConnectionSocket b' = Some s' -> fd_in s' = fd_in s ->
  NetConnection b' = NetConnection b -> TcpRead b' = TcpRead b -> ReadBuf b' = ReadBuf b ->
  TcpReadBufPointer b' = TcpReadBufPointer b -> TcpRestLen b' = TcpRestLen b ->
  TcpTotalLength b' = TcpTotalLength b -> client_at b todo k -> client_at b' todo k.
Proof.
  intros Hs Hs' Hin En Er Eb Ep El Et.
  intros [s0 t todo' H1 H2 H3 H4 H5 H6|p k' t todo' Hp [H1 H2 H3 H4 H5 (s0 & H6 & H7)] H8].
  - rewrite Hs in H4. injection H4 as <-. apply (client_at_length _ s' t); try congruence.
  - rewrite Hs in H6. injection H6 as <-. apply (client_at_chunk _ _ _ t); [done| |done].
    split; rewrite ?Er, ?En, ?Ep, ?El, ?Et, ?Eb; try done. exists s'. by rewrite Hin.
Qed.

Lemma backward_relays b s todo k (w : World D) :
  NetConnection b = TCP_CONNECTED -> TcpConnectionSocket b = Some s -> out_ok b s ->
  client_at b todo k ->
  wp (backward b) (fun b' w' => w' = w /\ client_at b' todo k /\ exists s',
    TcpConnectionSocket b' = Some s' /\ out_ok b' s'
    /\ fd_sent s' ++ pending b' = fd_sent s ++ pending b) w.
Proof.
  intros Hn Hs [Hw [Hsz Hpos]] Hr. unfold backward. fold (pending b).
  assert (zlen (pending b) = write_len b) as Hlen.
  { unfold pending, zlen in *. rewrite length_slice by lia. lia. }
  unfold cNetWriteTcp. rewrite Hlen, Hn, Hs. destruct (Z.ltb_spec (write_len b) 1).
  { change (0 <? 0) with false. cbn match. wsteps. split; [done|]. split; [done|]. by exists s. }
  destruct (fd_write_some (pending b) s Hw) as (n & s' & Hfd & Hnn & Hsent & Hw').
  { intros Hnil. rewrite Hnil in Hlen. change (zlen (@nil Z)) with 0 in Hlen. lia. }
  pose proof (fd_write_in (pending b) s) as Hin. rewrite Hfd in *. cbn [snd] in Hin.
  rewrite (proj2 (Z.ltb_lt _ _)) by lia. wsteps. unfold zlen in Hlen. split; [done|].
  split; [by eapply (client_at_write b _ _ _ s s')|]. exists s'. split; [done|]. bsimpl.
  split; [split; [done|]; split; bsimpl; [done|lia]|].
  rewrite Hsent, <- app_assoc. f_equal. unfold pending at 3. bsimpl.
  rewrite (slice_cut _ (Z.to_nat (write_len b)) n) by lia. fold (pending b). f_equal.
  unfold pending. bsimpl. f_equal; lia.
Qed.

Lemma payload_packet data :
  bytes_ok data -> 2 <= zlen data -> nth 0 data 0 + 256 * nth 1 data 0 + 2 <= zlen data ->
  stream_packet (payload data).
Proof.
  intros Hb H2 Hfit. unfold payload. set (n := nth 0 data 0 + 256 * nth 1 data 0 + 2) in *.
  pose proof (nth_byte data 0 Hb). pose proof (nth_byte data 1 Hb). unfold zlen in *.
  assert (length (take (Z.to_nat n) data) = Z.to_nat n) as Hl by (rewrite length_take; lia).
  split; [by apply Forall_take|]. unfold zlen. rewrite Hl. split; [lia|].
  rewrite take_take, Nat.min_l by lia.
  rewrite Z2Nat.id by lia. destruct data as [|x [|y data]]; [cbn in H2; lia|cbn in H2; lia|].
  unfold n. cbn [nth take le_val]. rewrite take_0. cbn [le_val]. lia.
Qed.

(** A packet of the brick is pending behind what was. *)
Lemma fetch_takes b (w : World D) :
  buf_ok b -> br_ok (w_dev w) ->
  wp (fetch b) (fun b' w' => exists new buf len pos,
    b' = set_write buf len pos b /\ buf_ok b'
    /\ replies (w_trace w') = replies (w_trace w) ++ new /\ packets (w_trace w') = packets (w_trace w)
    /\ br_ok (w_dev w') /\ pending b' = pending b ++ concat (brick_packets new)
    /\ Forall stream_packet (brick_packets new)) w.
Proof.
  intros (Hsz & Hpos) Hbr. unfold fetch. destruct (Z.leb_spec (write_len b) 0) as [H0|H0].
  2: { wsteps. exists [], (WriteBuf b), (write_len b), (write_pos b). rewrite !app_nil_r.
       split; [by destruct b|]. by split_and!. }
  assert (pending b = []) as ->.
  { unfold pending. replace (Z.to_nat (write_len b)) with 0%nat by lia. apply take_0. }
  wsteps. apply wp_read. intros res data d Hrd.
  destruct (br_read _ _ _ _ Hbr Hrd) as (Hbr' & Hby & Hz & Hmax & Hreal).
  rewrite (proj2 (Z.ltb_ge _ _)) by lia. cbn beta iota.
  assert (forall len, 0 <= len <= zlen data ->
    let b' := set_write (splice 0 data (WriteBuf b)) len 0 b in
    buf_ok b' /\ pending b' = take (Z.to_nat len) data) as Hset.
  { intros len Hlen b'. unfold b', buf_ok, pending. bsimpl. split.
    - split; [|lia]. rewrite zlen_splice by (unfold zlen in *; lia). done.
    - rewrite slice_0. unfold splice. rewrite take_0. cbn [app].
      by rewrite take_app_le by (unfold zlen in *; lia). }
  destruct (decide (data = [])) as [->|Hne].
  - change (zlen (@nil Z)) with 0 in Hz. rewrite <- Hz. cbn [negb Z.eqb]. wsteps.
    destruct (Hset 0) as (H1 & H2); [done|]. exists [[]]. do 3 eexists. split; [done|].
    rewrite replies_app, packets_app. cbn [packets replies omap list_omap]. rewrite app_nil_r.
    by split_and!.
  - destruct (Hreal Hne) as [Hl2 Hfit].
    rewrite (proj2 (Z.eqb_neq res 0)) by lia. cbn [negb].
    assert (forall i, (i < 2)%nat -> nth i (splice 0 data (WriteBuf b)) 0 = nth i data 0) as Hnth.
    { intros i Hi. unfold splice. rewrite take_0. cbn [app]. apply app_nth1. unfold zlen in Hl2. lia. }
    rewrite !Hnth by lia. rewrite (proj2 (Z.ltb_ge _ _)) by lia. wsteps.
    destruct (Hset (nth 0 data 0 + 256 * nth 1 data 0 + 2)) as (H1 & H2).
    { pose proof (nth_byte data 0 Hby). pose proof (nth_byte data 1 Hby). lia. }
    exists [data]. do 3 eexists. split; [done|]. rewrite replies_app, packets_app.
    cbn [packets replies omap list_omap]. rewrite app_nil_r.
    change (brick_packets [data]) with (map payload (filter (fun d => d <> []) [data])).
    rewrite filter_cons_True by done. split_and!; try done; cbn [filter list_filter map concat].
    + by rewrite H2, app_nil_r.
    + constructor; [by apply payload_packet|constructor].
Qed.

Lemma fetch_relays b s todo k (w : World D) :
  TcpConnectionSocket b = Some s -> out_ok b s -> client_at b todo k -> br_ok (w_dev w) ->
  wp (fetch b) (fun b' w' => exists new,
    replies (w_trace w') = replies (w_trace w) ++ new /\ packets (w_trace w') = packets (w_trace w)
    /\ br_ok (w_dev w') /\ client_at b' todo k /\ TcpConnectionSocket b' = Some s /\ out_ok b' s
    /\ pending b' = pending b ++ concat (brick_packets new)
    /\ Forall stream_packet (brick_packets new)) w.
Proof.
  intros Hs [Hw Hbuf] Hr Hbr. eapply wp_mono; [by apply fetch_takes|].
  intros b' w' (new & buf & len & pos & -> & Hbuf' & Hrep & Hpk & Hbr' & Hp & Hnew).
  exists new. split_and!; try done. by eapply (client_at_write b _ _ _ s s).
Qed.

(** ** The loop *)

(** What has happened between [w] and [w']: the packets [done] went to the
    brick, the reads gave [new], and of the stream for the client a part was
    sent and the rest is pending. *)
Definition relayed (b : bridge) (s : fd_state) (w : World D) (todo done todo' : list (list Z))
    (new : list (list Z)) (b' : bridge) (w' : World D) : Prop :=
  todo = done ++ todo'
  /\ packets (w_trace w') = packets (w_trace w) ++ map (cons 0) done
  /\ replies (w_trace w') = replies (w_trace w) ++ new
  /\ Forall stream_packet (brick_packets new)
  /\ match TcpConnectionSocket b' with
     | Some s' => fd_sent s' ++ pending b' = fd_sent s ++ pending b ++ concat (brick_packets new)
     | None => todo' = []
     end.

Definition relay_up (b : bridge) (todo : list (list Z)) (k : nat) : Prop :=
  client_at b todo k /\ exists s, TcpConnectionSocket b = Some s /\ out_ok b s.

Definition relay_down (b : bridge) : Prop :=
  NetConnection b <> TCP_CONNECTED /\ TcpConnectionSocket b = None.

Definition ticked (t : tick) : nat := if t_readable t then 1 else 0.

Lemma iter_relays t b s todo k (w : World D) :
  TcpConnectionSocket b = Some s -> out_ok b s -> client_at b todo k -> br_ok (w_dev w) ->
  wp (bridge_iter t b) (fun b' w' => exists done todo' new,
    relayed b s w todo done todo' new b' w' /\ br_ok (w_dev w')
    /\ (relay_down b' \/ exists k', relay_up b' todo' k' /\ (bytes_left todo' k' + ticked t <= bytes_left todo k)%nat)) w.
Proof.
  intros Hs Hout Hr Hbr. destruct (client_at_socket b todo k Hr) as (Hn & _).
  unfold bridge_iter. rewrite Hn. apply wp_bind.
  eapply wp_mono; [by apply (fetch_relays b s todo k)|].
  intros b1 w1 (new & Hrep1 & Hpk1 & Hbr1 & Hr1 & Hs1 & Hout1 & Hp1 & Hnew). clear Hr Hn.
  apply wp_bind.
  assert (wp (if t_readable t then forward b1 else mret b1) (fun b2 w2 => exists done todo',
    todo = done ++ todo' /\ packets (w_trace w2) = packets (w_trace w1) ++ map (cons 0) done
    /\ replies (w_trace w2) = replies (w_trace w1) /\ br_ok (w_dev w2) /\ same_out b1 b2
    /\ ((exists k', client_at b2 todo' k' /\ (bytes_left todo' k' + ticked t <= bytes_left todo k)%nat)
        \/ todo' = [] /\ conn_closed b2)) w1) as Hfw.
  { unfold ticked. destruct (t_readable t).
    - eapply wp_mono; [by apply (forward_relays b1 todo k)|].
      intros b2 w2 (dn & todo' & H1 & H2 & H3 & H4 & H5 & H6). exists dn, todo'.
      split_and!; try done. destruct H6 as [(k' & H6 & H7)|H6]; [left; exists k'; split; [done|lia]|by right].
    - wsteps. exists [], todo. cbn [map]. rewrite app_nil_r. unfold same_out. split_and!; try done.
      + by intros s0 ->.
      + left. exists k. split; [done|lia]. }
  eapply wp_mono; [exact Hfw|]. clear Hfw.
  intros b2 w2 (dn & todo' & -> & Hpk2 & Hrep2 & Hbr2 & (Hp2 & Hwb & Hwl & Hwp & Hso) & Hcase).
  specialize (Hso s Hs1).
  destruct Hcase as [(k' & Hr2 & Hleft)|[-> [Hn2 Hs2]]].
  2: { rewrite Hs2. rewrite andb_false_r. wsteps. exists dn, [], new. unfold relayed, relay_down.
       rewrite Hs2, Hn2, Hpk2, Hpk1, Hrep2, Hrep1. split_and!; try done. by left. }
  destruct (client_at_socket b2 todo' k' Hr2) as (Hn2 & [s2 Hs2] & _). rewrite Hs2 in Hso.
  destruct Hso as [Hsent Hwr].
  assert (out_ok b2 s2) as Hout2.
  { destruct Hout1 as [O1 O2]. split; [by rewrite Hwr|]. unfold buf_ok. by rewrite Hwb, Hwl, Hwp. }
  assert (forall b3 w3, w3 = w2 /\ client_at b3 todo' k' /\ (exists s3,
      TcpConnectionSocket b3 = Some s3 /\ out_ok b3 s3
      /\ fd_sent s3 ++ pending b3 = fd_sent s2 ++ pending b2) ->
    exists done todo'' new, relayed b s w (dn ++ todo') done todo'' new b3 w3 /\ br_ok (w_dev w3)
      /\ (relay_down b3 \/ exists k', relay_up b3 todo'' k'
           /\ (bytes_left todo'' k' + ticked t <= bytes_left (dn ++ todo') k)%nat)) as Hend.
  { intros b3 w3 (-> & Hr3 & s3 & Hs3 & Hout3 & Hsent3). exists dn, todo', new. unfold relayed.
    rewrite Hs3, Hpk2, Hpk1, Hrep2, Hrep1, Hsent3, Hsent, Hp2, Hp1. split_and!; try done.
    right. exists k'. split; [|done]. split; [done|by exists s3]. }
  destruct (_ && _).
  - eapply wp_mono; [by apply (backward_relays b2 s2 todo' k')|]. intros b3 w3 H3. by apply Hend.
  - wsteps. apply Hend. split; [done|]. split; [done|]. by exists s2.
Qed.

Lemma loop_down ticks b (w : World D) :
  relay_down b -> Forall (fun t => t_accept t = None) ticks ->
  wp (bridge_loop ticks b) (fun b' w' => w' = w /\ relay_down b') w.
Proof.
  intros Hb Ht. revert b Hb. induction Ht as [|t ticks Ht _ IH]; intros b [Hn Hs];
    cbn [bridge_loop]; [by wsteps|].
  unfold bridge_iter. destruct (NetConnection b) eqn:En; [|done|].
  - rewrite Ht. cbn [cNetWaitForTcpConnection]. wsteps. apply IH. split; [|done].
    unfold cNetTransmitBeacon. destruct (_ <? _), (t_beacon_sent t); cbn; congruence.
  - wsteps. apply IH. split; [congruence|done].
Qed.

Lemma relayed_trans b s w todo d1 t1 n1 b1 s1 w1 d2 t2 n2 b2 w2 :
  TcpConnectionSocket b1 = Some s1 ->
  relayed b s w todo d1 t1 n1 b1 w1 -> relayed b1 s1 w1 t1 d2 t2 n2 b2 w2 ->
  relayed b s w todo (d1 ++ d2) t2 (n1 ++ n2) b2 w2.
Proof.
  intros Hs1 (-> & Hp1 & Hr1 & Hn1 & Ho1) (-> & Hp2 & Hr2 & Hn2 & Ho2). rewrite Hs1 in Ho1.
  unfold relayed. rewrite Hp2, Hp1, Hr2, Hr1, brick_packets_app, map_app, concat_app, !app_assoc.
  split_and!; try done; [by apply Forall_app|]. destruct (TcpConnectionSocket b2) as [s2|]; [|done].
  by rewrite Ho2, app_assoc, Ho1, <- !app_assoc.
Qed.

Definition readable_ticks (ticks : list tick) : nat := sum_list_with ticked ticks.

Lemma loop_relays ticks b s todo k (w : World D) :
  TcpConnectionSocket b = Some s -> out_ok b s -> client_at b todo k -> br_ok (w_dev w) ->
  Forall (fun t => t_accept t = None) ticks ->
  wp (bridge_loop ticks b) (fun b' w' => exists done todo' new,
    relayed b s w todo done todo' new b' w'
    /\ ((bytes_left todo k <= readable_ticks ticks)%nat -> todo' = [])) w.
Proof.
  intros Hs Hout Hr Hbr Ht. revert b s todo k w Hs Hout Hr Hbr.
  induction Ht as [|t ticks Ht Hts IH]; intros b s todo k w Hs Hout Hr Hbr; cbn [bridge_loop].
  { wsteps. exists [], todo, []. unfold relayed. cbn [map].
    change (concat (brick_packets [])) with (@nil Z). rewrite Hs, !app_nil_r.
    split_and!; try done. destruct todo as [|p todo]; [done|]. intros Hl.
    apply client_at_bound in Hr. unfold bytes_left in Hl. cbn [concat readable_ticks sum_list_with] in Hl.
    rewrite length_app in Hl. lia. }
  apply wp_bind. eapply wp_mono; [by apply (iter_relays t b s todo k)|].
  intros b1 w1 (d1 & t1 & n1 & Hrel1 & Hbr1 & [Hdown|(k1 & [Hr1 (s1 & Hs1 & Hout1)] & Hleft)]).
  - eapply wp_mono; [by apply loop_down|]. intros b2 w2 [-> Hdown2]. exists d1, t1, n1.
    destruct Hrel1 as (H1 & H2 & H3 & H5 & H4). destruct Hdown as [_ Hs1]. rewrite Hs1 in H4.
    destruct Hdown2 as [_ Hs2]. unfold relayed. by rewrite Hs2.
  - eapply wp_mono; [by apply (IH b1 s1 t1 k1)|]. intros b2 w2 (d2 & t2 & n2 & Hrel2 & Hl2).
    exists (d1 ++ d2), t2, (n1 ++ n2). split; [by eapply relayed_trans|].
    intros Hl. apply Hl2. cbn [readable_ticks sum_list_with] in Hl. unfold readable_ticks. lia.
Qed.
End relay.

(** A client to which the bytes [sent] arrive, in pieces of any size, reads the
    packets [ps] with [bt_read]. *)
Definition client_gets (sent : list Z) (ps : list (list Z)) : Prop := forall c t count,
  delivers (fd_in c) sent t -> Forall (fun p => zlen p <= 2 * count) ps ->
  (bt_reads (length ps) count c).1 = map (fun p => (zlen p, p)) ps.

Lemma client_gets_concat ps : Forall stream_packet ps -> client_gets (concat ps) ps.
Proof.
  intros Hps c t count Hd Hc.
  destruct (bt_reads_all count ps c t) as (evs & -> & _); [|done|done].
  apply Forall_and. by split.
Qed.

(** ** A session *)

Section session.
Context {D : Type} `{!Transport D} `{!Brick D}.

(** A connection is accepted. *)
Lemma accept_iter t b s (w : World D) :
  NetConnection b = TCP_NOT_CONNECTED -> t_accept t = Some s -> rd_ok b -> buf_ok b ->
  exists b', bridge_iter (D := D) t b w = Done b' w /\ rd_ok b' /\ buf_ok b' /\ pending b' = pending b
    /\ NetConnection b' = TCP_CONNECTED /\ TcpRead b' = TCP_WAIT_ON_START
    /\ TcpConnectionSocket b' = Some s.
Proof.
  intros Hn Ht Hrd Hbuf. unfold bridge_iter. rewrite Hn, Ht. cbn [cNetWaitForTcpConnection].
  eexists. split; [done|]. split; [by apply (rd_ok_keep b); [done|unfold cNetTransmitBeacon;
    destruct (_ <? _), (t_beacon_sent t)|]|].
  unfold cNetTransmitBeacon. by destruct (_ <? _), (t_beacon_sent t).
Qed.

(** The request is answered, and the write half has its turn. *)
Lemma request_iter t b s serial protocol rest ps (w : World D) :
  rd_ok b -> buf_ok b -> NetConnection b = TCP_CONNECTED -> TcpRead b = TCP_WAIT_ON_START ->
  TcpConnectionSocket b = Some s -> fd_in s = RdBytes (target_request serial protocol) :: rest ->
  answers s -> WrErr ∉ fd_wr s -> cstr_ok (target_request serial protocol) ->
  (length (target_request serial protocol) <= 100)%nat -> sends rest ps ->
  t_readable t = true -> br_ok (w_dev w) ->
  wp (bridge_iter t b) (fun b' w' => exists new s',
    packets (w_trace w') = packets (w_trace w) /\ replies (w_trace w') = replies (w_trace w) ++ new
    /\ Forall stream_packet (brick_packets new) /\ br_ok (w_dev w') /\ client_at b' ps 0
    /\ TcpConnectionSocket b' = Some s' /\ out_ok b' s'
    /\ fd_sent s' ++ pending b' = fd_sent s ++ ACCEPT ++ pending b ++ concat (brick_packets new)) w.
Proof.
  intros Hrd Hbuf Hn Hst Hs Hin Hans Hw Hc Hl Hps Ht Hbr. unfold bridge_iter. rewrite Hn, Ht.
  apply wp_bind. eapply wp_mono; [by apply fetch_takes|].
  intros b1 w1 (new & buf & len & pos & -> & Hbuf1 & Hrep & Hpk & Hbr1 & Hp & Hnew).
  set (b1 := set_write buf len pos b) in *.
  destruct (accepts_request b1 s serial protocol rest) as (rb & s1 & Hr & Hrb & Hin1 & Hsent & Hwr);
    [apply (rd_ok_keep b); [done|done|by cbn; rewrite Hst]|done..|].
  set (b2 := set_read _ _) in Hr.
  assert (client_at b2 ps 0) as Hat by (by apply (client_at_length b2 s1 rest); rewrite ?Hin1; [..|constructor|]).
  assert (out_ok b2 s1) as Hout.
  { split; [|done]. rewrite Hwr. intros Hin'. apply Hw. destruct (fd_wr s); [done|by right]. }
  apply wp_bind. unfold forward. rewrite Hr. wsteps. change (0 <? 0) with false. cbn match. wsteps.
  assert (forall b3 w3, (w3 = w1 /\ client_at b3 ps 0 /\ exists s3, TcpConnectionSocket b3 = Some s3
      /\ out_ok b3 s3 /\ fd_sent s3 ++ pending b3 = fd_sent s1 ++ pending b2) ->
    exists new s', packets (w_trace w3) = packets (w_trace w)
      /\ replies (w_trace w3) = replies (w_trace w) ++ new
      /\ Forall stream_packet (brick_packets new) /\ br_ok (w_dev w3) /\ client_at b3 ps 0
      /\ TcpConnectionSocket b3 = Some s' /\ out_ok b3 s'
      /\ fd_sent s' ++ pending b3
         = fd_sent s ++ ACCEPT ++ pending b ++ concat (brick_packets new)) as Hend.
  { intros b3 w3 (-> & Hat3 & s3 & Hs3 & Hout3 & Hsent3). exists new, s3. split_and!; try done.
    rewrite Hsent3, Hsent, <- app_assoc. do 2 f_equal. exact Hp. }
  destruct (_ && _).
  - eapply wp_mono; [by apply (backward_relays b2 s1 ps 0)|]. apply Hend.
  - wsteps. apply Hend. split; [done|]. split; [done|]. by exists s1.
Qed.
End session.

(** C17: A session of the bridge, from the connection of a client that makes the request of
    `tcp_open`: in any sequence of iterations, whatever is readable and writable in each and
    however the network cuts the two streams, the packets of the client go to the brick,
    each once, whole, in order and behind a HID byte, and all of them once there have been
    as many readable iterations as they have bytes. What is sent to the client, with what is
    pending, is the answer to the request and then the packets the brick has sent, without
    their padding; a client gets exactly these with `bt_read`. The client is dropped only
    after its last packet. The request has to arrive in one piece, and so have the two
    length bytes of each packet. *)
Theorem bridge_relays `{!Transport D} `{!Brick D} t0 t1 ticks b s serial protocol rest ps
    (w : World D) :
  NetConnection b = TCP_NOT_CONNECTED -> rd_ok b -> buf_ok b ->
  t_accept t0 = Some s -> t_readable t1 = true -> Forall (fun t => t_accept t = None) ticks ->
  fd_in s = RdBytes (target_request serial protocol) :: rest -> sends rest ps ->
  cstr_ok (target_request serial protocol) -> (length (target_request serial protocol) <= 100)%nat ->
  answers s -> WrErr ∉ fd_wr s -> br_ok (w_dev w) ->
  wp (bridge_loop (t0 :: t1 :: ticks) b) (fun b' w' => exists done todo new,
    ps = done ++ todo
    /\ packets (w_trace w') = packets (w_trace w) ++ map (cons 0) done
    /\ replies (w_trace w') = replies (w_trace w) ++ new
    /\ ((length (concat ps) <= readable_ticks ticks)%nat -> todo = [])
    /\ match TcpConnectionSocket b' with
       | Some s' =>
           fd_sent s' ++ pending b'
             = fd_sent s ++ ACCEPT ++ pending b ++ concat (brick_packets new)
           /\ (fd_sent s = [] -> pending b = [] -> pending b' = [] ->
               client_gets (drop (length ACCEPT) (fd_sent s')) (brick_packets new))
       | None => todo = []
       end) w.
Proof.
  intros Hn Hrd Hbuf Ha Hr1 Hts Hin Hps Hc Hl Hans Hw Hbr. cbn [bridge_loop].
  destruct (accept_iter t0 b s w Hn Ha Hrd Hbuf) as (b1 & Hi & Hrd1 & Hbuf1 & Hp1 & Hn1 & Hst1 & Hs1).
  apply wp_bind. unfold wp_ at 1. rewrite Hi. apply wp_bind.
  eapply wp_mono; [by apply (request_iter t1 b1 s serial protocol rest ps)|].
  intros b2 w2 (new2 & s2 & Hpk2 & Hrep2 & Hnew2 & Hbr2 & Hat2 & Hs2 & Hout2 & Hsent2).
  eapply wp_mono; [by apply (loop_relays ticks b2 s2 ps 0)|].
  intros b' w' (dn & todo & new & (Hd & Hp & Hrep & Hnew & Ho) & Hleft). unfold bytes_left in Hleft.
  rewrite Nat.sub_0_r in Hleft. exists dn, todo, (new2 ++ new).
  rewrite Hp, Hpk2, Hrep, Hrep2, app_assoc, brick_packets_app, concat_app. split_and!; try done.
  destruct (TcpConnectionSocket b') as [s'|]; [|done].
  rewrite (app_assoc (fd_sent s2)), Hsent2, Hp1, <- !app_assoc in Ho. split; [done|].
  intros H0 H1 H2. rewrite H0, H1, H2, app_nil_r in Ho. cbn [app] in Ho. rewrite Ho.
  rewrite drop_app_length, <- concat_app. apply client_gets_concat. by apply Forall_app.
Qed.
