(* ===== verification/Cli.v ===== *)
(** * Cli: the switches in front of the command (src/main.c, the parameter loop)

    [main] consumes the arguments that start with a dash before it looks at the
    command.  A [--] switch is cut in place with strtok, at the first equals
    sign and then at a comma; [-t] sets the timeout with atoi.  The arguments
    are the strings behind argv[0]. *)

From S2P Require Import Prelude IO Cstr.

(** ** The C library *)

(** [strspn] and [strcspn] as splits. *)
Fixpoint skip_delims (delims s : list Z) : list Z :=
  match s with
  | c :: s' => if existsb (Z.eqb c) delims then skip_delims delims s' else s
  | [] => []
  end.
Fixpoint until_delim (delims s : list Z) : list Z * list Z :=
  match s with
  | c :: s' =>
      if existsb (Z.eqb c) delims then ([], s')
      else let '(tok, rest) := until_delim delims s' in (c :: tok, rest)
  | [] => ([], [])
  end.

(** [strtok(s, delims)]: the token, and what the next call continues with. *)
Definition strtok (s delims : list Z) : option (list Z) * list Z :=
  match skip_delims delims s with
  | [] => (None, [])
  | s' => let '(tok, rest) := until_delim delims s' in (Some tok, rest)
  end.
(** The string [s] after that call: a NUL ends the token in it. *)
Definition strtok_cut (s delims : list Z) : list Z :=
  match skip_delims delims s with
  | [] => s
  | s' => take (length s - length s') s ++ (until_delim delims s').1
  end.

(** [strtol(s, &end, 10)]: the value of type long, and whether [end != s]. *)
Definition strtol (s : list Z) : Z * bool :=
  let s := skip_space s in
  let neg := nth 0 s 0 =? 45 in
  let s := if neg || (nth 0 s 0 =? 43) then drop 1 s else s in
  match scan_dec None s with
  | (None, _) => (0, false)
  | (Some v, _) => (Z.max (- 2 ^ 63) (Z.min (2 ^ 63 - 1) (if neg then - v else v)), true)
  end.
Definition atoi (s : list Z) : Z := i32 (strtol s).1.

(** ** The switches and their parameters *)

Record switches := MkSwitches {
  sw_select : bool;
  sw_hid : bool;
  sw_serial : bool;
  sw_tcp : bool;
}.
Record params := MkParams {
  tcp_id : option (list Z);
  serial_id : option (list Z) * option (list Z);
  usb_id : option (list Z);
  timeout : Z;
}.
Definition no_switches : switches := MkSwitches false false false false.
Definition no_params : params := MkParams None (None, None) None 0.

Definition use_hid (id : option (list Z)) (c : switches * params) : switches * params :=
  (MkSwitches true true (sw_serial c.1) (sw_tcp c.1),
   MkParams (tcp_id c.2) (serial_id c.2) id (timeout c.2)).
Definition use_tcp (id : option (list Z)) (c : switches * params) : switches * params :=
  (MkSwitches true (sw_hid c.1) (sw_serial c.1) true,
   MkParams id (serial_id c.2) (usb_id c.2) (timeout c.2)).
Definition use_serial (id id2 : option (list Z)) (c : switches * params) : switches * params :=
  (MkSwitches true (sw_hid c.1) true (sw_tcp c.1),
   MkParams (tcp_id c.2) (id, id2) (usb_id c.2) (timeout c.2)).
Definition use_timeout (v : Z) (c : switches * params) : switches * params :=
  (c.1, MkParams (tcp_id c.2) (serial_id c.2) (usb_id c.2) (u32 v)).

(** ** The loop *)

Inductive parsed :=
| Parsed (c : switches * params) (rest : list (list Z))   (* the command and its arguments *)
| InvalidSwitch (shown : list Z)
| InvalidParameter (shown : list Z)
| ParseUndef.                                             (* [atoi(NULL)] *)

Fixpoint parse_args (c : switches * params) (argv : list (list Z)) : parsed :=
  match argv with
  | [] => Parsed c []
  | arg :: argv' =>
      if negb (nth 0 arg 0 =? 45) then Parsed c argv
      else if nth 1 arg 0 =? 45 then
        let a := drop 2 arg in
        let save := (strtok a (str "=")).2 in
        let a := strtok_cut a (str "=") in
        let '(device, save) := strtok save (str ",") in
        let '(device2, _) := strtok save [] in
        if decide (a = []) then Parsed c argv'
        else if decide (a = str "usb" \/ a = str "hid") then parse_args (use_hid device c) argv'
        else if decide (a = str "tcp" \/ a = str "inet") then parse_args (use_tcp device c) argv'
        else if decide (a = str "serial" \/ a = str "bt")
        then parse_args (use_serial device device2 c) argv'
        else if decide (a = str "nop") then parse_args c argv'
        else InvalidSwitch (str "--" ++ a)
      else if nth 1 arg 0 =? 116 then
        if nth 2 arg 0 =? 61 then parse_args (use_timeout (atoi (drop 3 arg)) c) argv'
        else
          match argv' with
          | [] => ParseUndef
          | n :: argv'' => parse_args (use_timeout (atoi n) c) argv''
          end
      else InvalidParameter arg
  end.

Example parse_serial :
  parse_args (no_switches, no_params) [str "--serial=/dev/a,/dev/b"; str "-t"; str "5"; str "ls"]
  = Parsed (MkSwitches true false true false,
            MkParams None (Some (str "/dev/a"), Some (str "/dev/b")) None 5) [str "ls"].
Proof. vm_compute. reflexivity. Qed.
Example parse_unknown :
  parse_args (no_switches, no_params) [str "--wifi=x"; str "ls"] = InvalidSwitch (str "--wifi").
Proof. vm_compute. reflexivity. Qed.
Example parse_t_alone : parse_args (no_switches, no_params) [str "-t"] = ParseUndef.
Proof. vm_compute. reflexivity. Qed.

(** ** What the switches mean *)

(** A switch as the user thinks of it; [bool] is which of the two names. *)
Inductive flag :=
| FUsb (alt : bool) (id : option (list Z))
| FTcp (alt : bool) (ip : option (list Z))
| FSerial (alt : bool) (ids : option (list Z * option (list Z)))
| FTimeout (joined : bool) (secs : Z)
| FNop.

Definition with_value (name : string) (v : option (list Z)) : list Z :=
  str "--" ++ str name ++ match v with Some v => [61] ++ v | None => [] end.

Definition render (f : flag) : list (list Z) :=
  match f with
  | FUsb alt id => [with_value (if alt then "hid" else "usb") id]
  | FTcp alt ip => [with_value (if alt then "inet" else "tcp") ip]
  | FSerial alt ids =>
      [with_value (if alt then "bt" else "serial")
         ('(a, b) ← ids; Some (a ++ match b with Some b => [44] ++ b | None => [] end))]
  | FTimeout true n => [str "-t=" ++ digits 10 n]
  | FTimeout false n => [str "-t"; digits 10 n]
  | FNop => [str "--nop"]
  end.

Definition apply_flag (c : switches * params) (f : flag) : switches * params :=
  match f with
  | FUsb _ id => use_hid id c
  | FTcp _ ip => use_tcp ip c
  | FSerial _ ids => use_serial (fst <$> ids) (ids ≫= snd) c
  | FTimeout _ n => use_timeout n c
  | FNop => c
  end.

(** A value that strtok can return: not empty, without the comma. *)
Definition value_ok (v : list Z) : Prop := v <> [] /\ 44 ∉ v.
Definition flag_ok (f : flag) : Prop :=
  match f with
  | FUsb _ (Some v) | FTcp _ (Some v) => value_ok v
  | FSerial _ (Some (a, b)) => value_ok a /\ b <> Some []
  | FTimeout _ n => 0 <= n < 2 ^ 31
  | _ => True
  end.

Lemma existsb_In c (l : list Z) : existsb (Z.eqb c) l = bool_decide (c ∈ l).
Proof.
  induction l as [|x l IH]; [done|]. simpl. rewrite IH. destruct (Z.eqb_spec c x) as [->|Hne].
  - symmetry. apply bool_decide_eq_true. by left.
  - simpl. apply bool_decide_ext. rewrite elem_of_cons. naive_solver.
Qed.

Lemma until_delim_app d s rest c :
  Forall (fun b => b ∉ d) s -> c ∈ d -> until_delim d (s ++ c :: rest) = (s, rest).
Proof.
  intros Hs Hc. induction Hs as [|b s Hb _ IH]; simpl; rewrite existsb_In.
  - by rewrite bool_decide_eq_true_2.
  - rewrite bool_decide_eq_false_2 by done. by rewrite IH.
Qed.
Lemma until_delim_all d s : Forall (fun b => b ∉ d) s -> until_delim d s = (s, []).
Proof.
  induction 1 as [|b s Hb _ IH]; simpl; [done|].
  rewrite existsb_In, bool_decide_eq_false_2 by done. by rewrite IH.
Qed.
Lemma skip_delims_none d b s : b ∉ d -> skip_delims d (b :: s) = b :: s.
Proof. intros. simpl. by rewrite existsb_In, bool_decide_eq_false_2. Qed.

(** A token at the front of the string, with and without what follows. *)
Lemma strtok_front d tok rest c :
  tok <> [] -> Forall (fun b => b ∉ d) tok -> c ∈ d -> strtok (tok ++ c :: rest) d = (Some tok, rest).
Proof.
  intros Hne Ht Hc. destruct Ht as [|b tok Hb Ht]; [done|]. unfold strtok. cbn [app].
  rewrite skip_delims_none by done. change (b :: tok ++ c :: rest) with ((b :: tok) ++ c :: rest).
  by rewrite until_delim_app by (by constructor || done).
Qed.
Lemma strtok_whole d tok :
  tok <> [] -> Forall (fun b => b ∉ d) tok -> strtok tok d = (Some tok, []).
Proof.
  intros Hne Ht. destruct Ht as [|b tok Hb Ht]; [done|]. unfold strtok.
  rewrite skip_delims_none by done. by rewrite until_delim_all by (by constructor).
Qed.
Lemma strtok_cut_front d tok rest c :
  tok <> [] -> Forall (fun b => b ∉ d) tok -> c ∈ d -> strtok_cut (tok ++ c :: rest) d = tok.
Proof.
  intros Hne Ht Hc. destruct Ht as [|b tok Hb Ht]; [done|]. unfold strtok_cut. cbn [app].
  rewrite skip_delims_none by done. change (b :: tok ++ c :: rest) with ((b :: tok) ++ c :: rest).
  rewrite until_delim_app by (by constructor || done). by rewrite Nat.sub_diag.
Qed.
Lemma strtok_cut_whole d tok :
  tok <> [] -> Forall (fun b => b ∉ d) tok -> strtok_cut tok d = tok.
Proof.
  intros Hne Ht. destruct Ht as [|b tok Hb Ht]; [done|]. unfold strtok_cut.
  rewrite skip_delims_none by done. rewrite until_delim_all by (by constructor).
  by rewrite Nat.sub_diag.
Qed.

(** The value of a switch is the device, and what is behind a comma the
    second one. *)
Definition devices (v : option (list Z)) : option (list Z) * option (list Z) :=
  let '(device, save) := strtok (default [] v) (str ",") in (device, (strtok save []).1).

Lemma devices_plain v : (forall v', v = Some v' -> value_ok v') -> devices v = (v, None).
Proof.
  intros Hv. destruct v as [v|]; [|done]. destruct (Hv v eq_refl) as [Hne Hc].
  unfold devices. simpl default. rewrite strtok_whole; [done|done|].
  apply Forall_forall. intros b Hb [->|[]%elem_of_nil]%elem_of_cons. done.
Qed.
Lemma devices_pair a b : value_ok a -> b <> [] -> devices (Some (a ++ [44] ++ b)) = (Some a, Some b).
Proof.
  intros [Hne Hc] Hb. unfold devices. simpl default. cbn [app].
  rewrite strtok_front; [|done| |by left].
  - rewrite strtok_whole; [done|done|]. apply Forall_true. intros ?. apply not_elem_of_nil.
  - apply Forall_forall. intros x Hx [->|[]%elem_of_nil]%elem_of_cons. done.
Qed.

Lemma parse_value name v c argv :
  str name <> [] -> 61 ∉ str name ->
  parse_args c (with_value name v :: argv) =
    let a := str name in
    let '(device, device2) := devices v in
    if decide (a = []) then Parsed c argv
    else if decide (a = str "usb" \/ a = str "hid") then parse_args (use_hid device c) argv
    else if decide (a = str "tcp" \/ a = str "inet") then parse_args (use_tcp device c) argv
    else if decide (a = str "serial" \/ a = str "bt")
    then parse_args (use_serial device device2 c) argv
    else if decide (a = str "nop") then parse_args c argv
    else InvalidSwitch (str "--" ++ a).
Proof.
  intros Hne Heq.
  assert (Forall (fun b => b ∉ str "=") (str name)) as Hall.
  { apply Forall_forall. intros b Hb [->|[]%elem_of_nil]%elem_of_cons. done. }
  cbn [parse_args]. change (negb (nth 0 (with_value name v) 0 =? 45)) with false.
  change (nth 1 (with_value name v) 0 =? 45) with true. cbn match. cbv zeta.
  change (drop 2 (with_value name v))
    with (str name ++ match v with Some v => [61] ++ v | None => [] end).
  assert (strtok (str name ++ match v with Some v => [61] ++ v | None => [] end) (str "=")
          = (Some (str name), default [] v)
          /\ strtok_cut (str name ++ match v with Some v => [61] ++ v | None => [] end) (str "=")
             = str name) as [-> ->].
  { destruct v as [v|].
    - split; [apply strtok_front|apply strtok_cut_front]; try done; by left.
    - rewrite app_nil_r. split; [by apply strtok_whole|by apply strtok_cut_whole]. }
  unfold devices. cbn [snd]. destruct (strtok (default [] v) (str ",")) as [device save].
  by destruct (strtok save []) as [device2 rest].
Qed.

(** Decides the comparisons of concrete names. *)
Ltac decide_names :=
  repeat first [ rewrite decide_True by (cbn; tauto)
               | rewrite decide_False by (cbn; intuition discriminate) ].

(** Numbers survive printing and scanning. *)
Lemma strtol_digits n : 0 <= n < 2 ^ 63 -> strtol (digits 10 n) = (n, true).
Proof.
  intros Hn. assert (0 <= n < 10 ^ 64) as Hb by lia.
  pose proof (scan_dec_fmt n [] Hb eq_refl) as Hs. rewrite app_nil_r in Hs.
  destruct (digits_word n Hb) as [Hne Hd]. unfold strtol.
  destruct (digits 10 n) as [|c l]; [done|]. apply Forall_cons in Hd as [Hc _].
  assert (isspace c = false) as Hsp by (unfold isdigit, isspace in *; lia).
  assert (c =? 45 = false) as E1 by (unfold isdigit in Hc; lia).
  assert (c =? 43 = false) as E2 by (unfold isdigit in Hc; lia).
  cbn [skip_space]. rewrite Hsp. cbn [nth]. rewrite E1, E2. cbn [orb]. rewrite Hs.
  f_equal. lia.
Qed.
Lemma atoi_digits n : 0 <= n < 2 ^ 31 -> atoi (digits 10 n) = n.
Proof. intros. unfold atoi. rewrite strtol_digits by lia. apply i32_id. cbn [fst]. lia. Qed.

Ltac by_names alt :=
  destruct alt; apply (bool_decide_unpack _); vm_compute; exact I.

Lemma parse_flag f c argv :
  flag_ok f -> parse_args c (render f ++ argv) = parse_args (apply_flag c f) argv.
Proof.
  intros Hok. destruct f as [alt id|alt ip|alt ids|joined n|]; cbn [render apply_flag app].
  - rewrite parse_value by (by_names alt).
    rewrite devices_plain by (by intros ? ->). destruct alt; cbv zeta; by decide_names.
  - rewrite parse_value by (by_names alt).
    rewrite devices_plain by (by intros ? ->). destruct alt; cbv zeta; by decide_names.
  - rewrite parse_value by (by_names alt).
    assert (devices ('(a, b) ← ids; Some (a ++ match b with Some b => 44 :: b | None => [] end))
            = (fst <$> ids, ids ≫= snd)) as ->.
    { destruct ids as [[a [b|]]|]; [|simpl|by apply devices_plain]; destruct Hok as [Ha Hb].
      - apply (devices_pair a b); [done|]. by intros ->.
      - rewrite app_nil_r. apply devices_plain. by intros ? [= <-]. }
    destruct alt; cbv zeta; by decide_names.
  - pose proof (atoi_digits n Hok) as Ha.
    destruct joined; cbn [app parse_args].
    + change (drop 3 (str "-t=" ++ digits 10 n)) with (digits 10 n). by rewrite Ha.
    + by rewrite Ha.
  - change (str "--nop") with (with_value "nop" None).
    rewrite parse_value by (by_names tt). cbv zeta. by decide_names.
Qed.

Lemma parse_flags fs c argv :
  Forall flag_ok fs -> parse_args c (concat (map render fs) ++ argv) = parse_args (foldl apply_flag c fs) argv.
Proof.
  intros Hfs. revert c. induction Hfs as [|f fs Hf _ IH]; intros c; [done|].
  cbn [map concat foldl]. rewrite <- app_assoc, parse_flag by done. apply IH.
Qed.

(** A command line starts with a command, or separates it by [--]. *)
Definition command_line (fs : list flag) (sep : bool) (rest : list (list Z)) : list (list Z) :=
  concat (map render fs) ++ (if sep then [str "--"] else []) ++ rest.

(** C21: Parsing a command line rendered from a list of switches gives the settings of these
    switches, later ones overriding earlier ones, and leaves exactly the command and its
    arguments. *)
Theorem parse_command_line fs sep rest :
  Forall flag_ok fs ->
  (sep = false -> match rest with [] => True | cmd :: _ => nth 0 cmd 0 <> 45 end) ->
  parse_args (no_switches, no_params) (command_line fs sep rest)
  = Parsed (foldl apply_flag (no_switches, no_params) fs) rest.
Proof.
  intros Hfs Hsep. unfold command_line. rewrite parse_flags by done.
  generalize (foldl apply_flag (no_switches, no_params) fs). intros c.
  destruct sep; [done|]. specialize (Hsep eq_refl). cbn [app].
  destruct rest as [|cmd rest]; [done|]. cbn [parse_args].
  by rewrite (proj2 (Z.eqb_neq _ _)).
Qed.

