(* ===== verification/Sim.v ===== *)
(** * Sim: transports behind other transports

    The commands call the device through the function pointers of
    src/ev3_io.h.  An embedding is a device that answers like the one inside
    it; a command that runs behind it does what it does on the device itself.
    [sim] is that relation between two runs; its rules follow the primitive
    operations of IO.v, and the commands that use nothing else satisfy it. *)

From S2P Require Import Prelude Packets IO Logic Stdio Simple Up Dl Vm.

Class Embedding {D E} `{!Transport D} `{!Transport E} (emb : D -> E) := {
  emb_write : forall p d, tr_write p (emb d) = (fun r => (r.1, emb r.2)) (tr_write p d);
  emb_read : forall n ms d,
    tr_read n ms (emb d) = (fun r => (r.1, emb r.2)) (tr_read n ms d);
}.

Definition lift_world {D E} (emb : D -> E) (w : World D) : World E :=
  MkWorld (emb (w_dev w)) (w_trace w) (w_out w) (w_err w) (w_errmsg w) (w_errno w)
    (w_junk w) (w_blocks w).
Definition lift_outcome {D E A} (emb : D -> E) (o : outcome (World D) A)
    : outcome (World E) A :=
  match o with
  | Done a w => Done a (lift_world emb w)
  | Undef why => Undef why
  | Blocked => Blocked
  end.

Definition sim {D E A} (emb : D -> E) (m : M D A) (n : M E A) : Prop :=
  forall w, n (lift_world emb w) = lift_outcome emb (m w).

Create HintDb sim.

Section sim.
Context {D E : Type} `{!Transport D} `{!Transport E} (emb : D -> E) `{!Embedding emb}.
Notation sim := (sim emb).

Lemma sim_ret {A} (a : A) : sim (mret a) (mret a).
Proof. done. Qed.
Lemma sim_bind {A B} (m : M D A) n (k : A -> M D B) k' :
  sim m n -> (forall a, sim (k a) (k' a)) -> sim (m ≫= k) (n ≫= k').
Proof.
  intros Hm Hk w. unfold mbind, M_bind. rewrite Hm. destruct (m w); [apply Hk|done..].
Qed.
Lemma sim_if {A} (b : bool) (m1 m2 : M D A) n1 n2 :
  sim m1 n1 -> sim m2 n2 -> sim (if b then m1 else m2) (if b then n1 else n2).
Proof. by destruct b. Qed.
Lemma sim_undef {A} why : sim (@undef D A why) (undef why).
Proof. done. Qed.
Lemma sim_blocked {A} : sim (@blocked D A) blocked.
Proof. done. Qed.
Lemma sim_set_errmsg s : sim (set_errmsg s) (set_errmsg s).
Proof. done. Qed.
Lemma sim_set_errno e : sim (set_errno e) (set_errno e).
Proof. done. Qed.
Lemma sim_put_out b : sim (put_out b) (put_out b).
Proof. done. Qed.
Lemma sim_put_err b : sim (put_err b) (put_err b).
Proof. done. Qed.
Lemma sim_fresh n : sim (fresh n) (fresh n).
Proof. done. Qed.
Lemma sim_deref {A} (p : option A) : sim (deref p) (deref p).
Proof. by destruct p. Qed.
Lemma sim_alloc ty init extra : sim (alloc ty init extra) (alloc ty init extra).
Proof. apply sim_bind; [apply sim_fresh|]. intros ?. apply sim_ret. Qed.
Lemma sim_write p n : sim (ev3_write p n) (ev3_write p n).
Proof.
  intros w. unfold ev3_write. destruct (zlen p <? n); [done|]. cbn [lift_world w_dev].
  rewrite emb_write. by destruct (tr_write _ _).
Qed.
Lemma sim_write_pkt p : sim (ev3_write_pkt p) (ev3_write_pkt p).
Proof. apply sim_write. Qed.
Lemma sim_read buf n ms : sim (ev3_read_timeout buf n ms) (ev3_read_timeout buf n ms).
Proof.
  intros w. unfold ev3_read_timeout. cbn [lift_world w_dev].
  rewrite emb_read. destruct (tr_read _ _ _) as [[res data] d]. cbn [fst snd].
  by destruct (zlen buf <? zlen data).
Qed.
Lemma sim_print_bytes buf n : sim (print_bytes buf n) (print_bytes buf n).
Proof. unfold print_bytes. by destruct (zlen buf <? n). Qed.

(** What holds of the run on the device holds behind the embedding. *)
Lemma wp_sim {A} U B (m : M D A) n Q (w : World D) :
  sim m n -> wp_ U B m (fun a w' => Q a (lift_world emb w')) w ->
  wp_ U B n Q (lift_world emb w).
Proof. intros Hs H. unfold wp_ in *. rewrite Hs. by destruct (m w). Qed.
End sim.

#[export] Hint Resolve sim_ret sim_undef sim_blocked sim_set_errmsg sim_set_errno
  sim_put_out sim_put_err sim_fresh sim_deref sim_alloc sim_write sim_write_pkt sim_read
  sim_print_bytes : sim.

(** One rule per construct of the program. *)
Ltac sim_step :=
  match goal with
  | |- sim _ (_ ≫= _) _ => apply sim_bind; [|intros ?]
  | |- sim _ (if ?b then _ else _) _ => destruct b
  | |- sim _ (let '(_, _) := ?p in _) _ => destruct p
  | |- sim _ (match ?x with _ => _ end) _ => destruct x
  | |- sim _ (puts _) _ => apply sim_put_out
  | |- sim _ (fputs_err _) _ => apply sim_put_err
  end; cbv zeta.
Ltac sim_auto := cbv zeta; repeat first [solve [eauto with sim] | sim_step].

Section commands.
Context {D E : Type} `{!Transport D} `{!Transport E} (emb : D -> E) `{!Embedding emb}.

Lemma sim_rm path : sim emb (rm path) (rm path).
Proof. unfold rm. sim_auto. Qed.
Lemma sim_mkdir path : sim emb (mkdir_ path) (mkdir_ path).
Proof. unfold mkdir_. sim_auto. Qed.
Lemma sim_closehnd_loop n hnd count request reply :
  sim emb (closehnd_loop n hnd count request reply) (closehnd_loop n hnd count request reply).
Proof.
  revert hnd count request reply. induction n as [|n IH]; intros; cbn [closehnd_loop]; sim_auto.
Qed.
Lemma sim_closehnd start stop : sim emb (closehnd start stop) (closehnd start stop).
Proof. unfold closehnd. pose proof sim_closehnd_loop. sim_auto. Qed.

Lemma sim_up_loop n i chunks final fp cd bdrep :
  sim emb (up_loop n i chunks final fp cd bdrep) (up_loop n i chunks final fp cd bdrep).
Proof.
  revert i fp cd bdrep. induction n as [|n IH]; intros; cbn [up_loop]; sim_auto.
Qed.
Lemma sim_up_verdict r : sim emb (up_verdict r) (up_verdict r).
Proof. unfold up_verdict. sim_auto. Qed.
Lemma sim_up fp dst : sim emb (up fp dst) (up fp dst).
Proof. unfold up. pose proof sim_up_loop. pose proof sim_up_verdict. sim_auto. Qed.

Lemma sim_fwrite_from buf off n fp : sim emb (fwrite_from buf off n fp) (fwrite_from buf off n fp).
Proof. unfold fwrite_from. sim_auto. Qed.
Lemma sim_dl_loop fuel so_far total cu buf fp :
  sim emb (dl_loop fuel so_far total cu buf fp) (dl_loop fuel so_far total cu buf fp).
Proof.
  pose proof sim_fwrite_from. revert so_far cu buf fp.
  induction fuel as [|fuel IH]; intros; cbn [dl_loop]; sim_auto.
Qed.
Lemma sim_dl fuel path fp : sim emb (dl fuel path fp) (dl fuel path fp).
Proof. unfold dl. pose proof sim_dl_loop. pose proof sim_fwrite_from. sim_auto. Qed.

Lemma sim_run_output fuel len reply :
  sim emb (run_output fuel len reply) (run_output fuel len reply).
Proof.
  revert len reply. induction fuel as [|fuel IH]; intros; cbn [run_output]; sim_auto.
Qed.
Lemma sim_run_print fuel reply : sim emb (run_print fuel reply) (run_print fuel reply).
Proof. unfold run_print, run_status_unknown. pose proof sim_run_output. sim_auto. Qed.
Lemma sim_run b fuel exec timeout : sim emb (run b fuel exec timeout) (run b fuel exec timeout).
Proof.
  unfold run, run_verdict, run_status_unknown. pose proof sim_run_print. sim_auto.
Qed.
End commands.
#[export] Hint Resolve sim_rm sim_mkdir sim_closehnd sim_up sim_dl sim_run : sim.
