(* ===== verification/Main.v ===== *)
(** * Main: the command line program (src/main.c)

    [main] parses the switches, opens the transport they select, dispatches the
    command and reports its result.  The process state is the handle behind the
    function pointers of src/ev3_io.h, the attempts to open one, and the local
    file system; the commands of the other files run behind the handle. *)

From S2P Require Import Prelude Packets IO Logic Stdio Cstr Simple Up Dl Ls.
From S2P Require Import Install Mkrbf Vm BtUnix Tcp Info Tunnel Uf2 Bridge Cli Sim.

(** ** Tables *)

Definition VendorID : Z := 0x694.
Definition ProductID : Z := 0x005.
Definition ProductID_FW : Z := 0x006.
Definition ExecName : list Z := str "/tmp/Executing shell cmd.rbf".
Definition EXEC_SUFFIX : list Z :=
  str " 2>&1 | awk '" ++ str "BEGIN{" ++ str "RS=" ++ [34] ++ str "\0" ++ [34] ++ str "};"
  ++ str "{" ++ str "printf " ++ [34] ++ str "\t%08x\n%s" ++ [34] ++ str "," ++ str "length($0),$0"
  ++ str "}" ++ str "' | dd bs=1000 of=/dev/lms_usbdev".

Definition lines (ls : list string) : list Z := concat (map (fun l => str l ++ [10]) ls).

(** The Unix build: with BRIDGE_MODE, without WPA2_MODE. *)
Definition usage : list Z := lines
  ["USAGE: ev3duder [ --tcp[=ip] | --usb | --serial[=dev] | --serial[=inp,outp] ] ";
   "                [ up loc rem | dl rem loc | rm rem | ls [rem] |";
   "                  mkdir rem | mkrbf rem loc | run rem | exec cmd |";
   "                  wpa2 SSID [pass] | info | tunnel | bridge | closehnd num ]";
   "";
   "       ev3duder [ --tcp[=ip] | --usb | --serial[=dev] | --serial[=inp,outp] ]";
   "                vmexec <locals> <globals> <infile> <outfile> [noreply]";
   "";
   "       ev3duder flash [ enter | install loc | info | reboot ] ";
   "";
   "       ev3duder uf2 pack   <archive.uf2> <brickdir> <file>...";
   "       ev3duder uf2 unpack <archive.uf2> <outdir> [--with-paths]";
   "";
   "       rem = remote (EV3) path, loc = local path"]%string.

Definition usage_desc : list Z :=
  lines
  ["Info:";
   "--help | -h | /? Show this help";
   "--version       Print version number";
   "--printexits    Print a list of exit codes";
   "";
   "Parameters:";
   "--tcp[=ip]      Connect to the EV3 over TCP. If no ip is specified,";
   "                the auto-detection feature will be used";
   "--usb           Connect to the EV3 over USB";
   "--serial[=dev]  Connect to the EV3 over a serial port";
   "--serial[=i,o]  Connect to the EV3 over a serial port,";
   "                with different files for input and output streams";
   "";
   "Commands:";
   " up             upload local file to remote ev3 brick";
   " dl             download remote file to local system";
   " rm             remove file on ev3 brick";
   " ls             list files. Standard value is '/'";
   " info           attempt a beep and print information about the connection";
   " mkdir          create directory on the remote filesystem. Relative to path of VM.";
   " mkrbf          create rbf (menu entry) file locally. Sensible upload paths are:";
   "                ../prjs/BrkProg_SAVE/   Internal memory";
   "                ../prjs/BrkProg_DL/     Internal memory";
   "                ./apps/                 Internal memory - Applicatios (3rd tab)";
   "                /media/card/myapps/     Memory card";
   "                /media/usb/myappps/     USB stick";
   "run             instruct the VM to run a rbf file";
   "exec            pass cmd to root shell. Handle with caution";
   "vmexec          run given bytecode file as a direct command. Handle with caution"]%string
  ++ str "closehnd        close given ev3 file handle. " ++ [34] ++ str "all" ++ [34]
  ++ str " will close all handles." ++ [10]
  ++ lines
  ["tunnel          connects stdout/stdin to the ev3 VM";
   "bridge          simulates a WiFi-connected device bridged to a real ev3 VM";
   "flash enter     reboot from Linux to firmware update mode";
   "                (alternatively Escape+Enter+Right on the brick)";
   "flash install   install the given firmware file to the EV3";
   "flash info      show hardware and EEPROM versions";
   "flash exit      exit from the firmware update mode without installing new firmware";
   "uf2 pack        pack files into a Microsoft UF2 container";
   "                note: common brickdir options are: ";
   "                'Projects' (internal flash, default), 'SD Card', 'USB Stick',";
   "                'Temporary Logs', 'Permanent Logs'";
   "uf2 unpack      unpack files from a Microsoft UF2 container"]%string.

Inductive ARGS :=
| ARG_info | ARG_up | ARG_dl | ARG_run | ARG_ls | ARG_rm | ARG_mkdir | ARG_closehnd
| ARG_mkrbf | ARG_tunnel | ARG_bridge | ARG_listen | ARG_send | ARG_exec | ARG_vmexec
| ARG_wpa2 | ARG_flash | ARG_uf2 | ARG_nop | ARG_end.
#[export] Instance ARGS_eq_dec : EqDecision ARGS.
Proof. solve_decision. Defined.

(** [args], without the last entry, which the search does not reach. *)
Definition args : list (string * ARGS) :=
  [("info", ARG_info); ("up", ARG_up); ("dl", ARG_dl); ("run", ARG_run); ("ls", ARG_ls);
   ("rm", ARG_rm); ("mkdir", ARG_mkdir); ("closehnd", ARG_closehnd); ("mkrbf", ARG_mkrbf);
   ("tunnel", ARG_tunnel); ("bridge", ARG_bridge); ("listen", ARG_listen); ("send", ARG_send);
   ("exec", ARG_exec); ("vmexec", ARG_vmexec); ("wpa2", ARG_wpa2); ("flash", ARG_flash);
   ("uf2", ARG_uf2); ("nop", ARG_nop)]%string.
Fixpoint find_arg (table : list (string * ARGS)) (cmd : list Z) : ARGS :=
  match table with
  | (name, a) :: table => if decide (cmd = str name) then a else find_arg table cmd
  | [] => ARG_end
  end.
Definition offline_args : list (list Z) := [str "mkrbf"; str "uf2"].

(** [ev3_error_msgs] of src/error.h: [ERRORS_END + 1] entries. *)
Definition ev3_error_msgs : list (option string) :=
  [Some "SUCCESS"; Some "UNKNOWN_HANDLE: Path doesn't exist"; Some "HANDLE_NOT_READY";
   Some "CORRUPT_FILE"; Some "NO_HANDLES_AVAILABLE: Path doesn't resolve to a valid file";
   Some "NO_PERMISSION:  File doesn't exist"; Some "ILLEGAL_PATH"; Some "FILE_EXITS";
   Some "END_OF_FILE"; Some "SIZE_ERROR: Can't write here. Is SD Card properly inserted?";
   Some "UNKNOWN_ERROR: No such directory"; Some "ILLEGAL_FILENAME";
   Some "ILLEGAL_CONNECTION"; None]%string.

(** [my_chrsub(s, old, new)]: the string is changed in place. *)
Definition my_chrsub (s : list Z) (old new : Z) : option (list Z) :=
  match s with
  | [] => None
  | _ => Some (map (fun c => if c =? old then new else c) s)
  end.

(** ** The handle *)

Inductive link (H : Type) :=
| HidLink (h : H)
| BtLink (s : fd_state)
| TcpLink (t : tcp_handle) (s : fd_state).
Arguments HidLink {H}. Arguments BtLink {H}. Arguments TcpLink {H}.

(** The function pointers: [tcp_write] and [tcp_read] are those of
    src/bt-unix.c. *)
#[export] Instance link_transport {H} `{!Transport H} : Transport (link H) := {
  tr_write p l :=
    match l with
    | HidLink h => let '(res, h) := tr_write p h in (res, HidLink h)
    | BtLink s => let '(res, s) := bt_write p s in (res, BtLink s)
    | TcpLink t s => let '(res, s) := bt_write p s in (res, TcpLink t s)
    end;
  tr_read n ms l :=
    match l with
    | HidLink h => let '(res, data, h) := tr_read n ms h in (res, data, HidLink h)
    | BtLink s => let '(res, data, s) := bt_read n ms s in (res, data, BtLink s)
    | TcpLink t s => let '(res, data, s) := bt_read n ms s in (res, data, TcpLink t s)
    end;
}.

(** [ev3_close == hid_close]. *)
Definition is_hid {H} (l : link H) : bool := match l with HidLink _ => true | _ => false end.
Definition conn_of {H} (l : link H) : conn :=
  match l with HidLink _ => ConnHid | BtLink _ => ConnBt | TcpLink t _ => ConnTcp t end.

Inductive attempt :=
| TryHid (product : Z)
| TryBt (file file2 : option (list Z))
| TryTcp (serial : option (list Z)) (timeout : Z).

(** The function pointer [ev3_close], with the handle it will get. *)
Inductive closer := CloseHid | CloseBt (cb : bt_handle) | CloseTcp.

(** What the process holds of the system: the terminals and the calls on sockets
    so far, of tcp_open and of the setup of the bridge. *)
Record sys := MkSys {
  s_close : option closer;
  s_tty : tty;
  s_net : list net_act;
}.

(** The process. *)
Record proc (H : Type) := MkProc {
  p_link : option (link H);        (* handle *)
  p_attempts : list attempt;       (* hid_open, bt_open and tcp_open calls *)
  p_closed : nat;                  (* ev3_close calls *)
  p_fs : fs;
  p_sys : sys;
}.
Arguments MkProc {H}. Arguments p_link {H}. Arguments p_attempts {H}.
Arguments p_closed {H}. Arguments p_fs {H}. Arguments p_sys {H}.

(** What the machine and the libraries answer. *)
Record host (H : Type) := MkHost {
  hs_hid_open : Z -> option H;                          (* by product *)
  hs_hid_strings : hid_strings;
  hs_os_open : list Z -> open_mode -> bool;
  hs_serial : fd_state;                                 (* the open serial device *)
  hs_net : net;
  hs_inet_pton : list Z -> Z * list Z;
  hs_inet_ntop : list Z -> list Z;
  hs_tcp_block : tcp_handle;                            (* from malloc *)
  hs_socket : fd_state;                                 (* the open TCP connection *)
  hs_hid_error : H -> option (list Z);
  hs_strerror : list Z;                                 (* of [errno] *)
  hs_mbstowcs : list Z -> option (list Z);
  hs_stdin : list Z;
  hs_tmpfile : bool;
  hs_bridge_net : bridge_net;
  hs_ticks : list tick;                                 (* of bridge_mode *)
  hs_fuel : nat;                                        (* replies listen, dl, ls and run may get *)
  hs_version : list Z;
  hs_configuration : list Z;
  hs_system : list Z;
}.
Arguments hs_hid_open {H}. Arguments hs_hid_strings {H}. Arguments hs_os_open {H}.
Arguments hs_mbstowcs {H}. Arguments hs_serial {H}. Arguments hs_net {H}.
Arguments hs_inet_pton {H}. Arguments hs_inet_ntop {H}. Arguments hs_tcp_block {H}.
Arguments hs_socket {H}. Arguments hs_hid_error {H}. Arguments hs_strerror {H}.
Arguments hs_stdin {H}. Arguments hs_tmpfile {H}. Arguments hs_bridge_net {H}.
 Arguments hs_ticks {H}. Arguments hs_fuel {H}.
Arguments hs_version {H}. Arguments hs_configuration {H}. Arguments hs_system {H}.

(** A world whose device is another one. *)
Definition with_dev {D E} (e : E) (w : World D) : World E :=
  MkWorld e (w_trace w) (w_out w) (w_err w) (w_errmsg w) (w_errno w) (w_junk w) (w_blocks w).

(** "%s": glibc prints a null pointer in words. *)
Definition fmt_s (s : option (list Z)) : list Z := default (str "(null)") s.

Section main.
Context {H : Type} `{!Transport H} (hs : host H).
Notation P := (M (proc H)).

Definition get_proc : P (proc H) := fun w => Done (w_dev w) w.
Definition set_proc (p : proc H) : P unit := fun w => Done tt (with_dev p w).
Definition set_link (l : link H) (p : proc H) : proc H :=
  MkProc (Some l) (p_attempts p) (p_closed p) (p_fs p) (p_sys p).
Definition set_fs (f : fs) (p : proc H) : proc H :=
  MkProc (p_link p) (p_attempts p) (p_closed p) f (p_sys p).
Definition set_sys (s : sys) (p : proc H) : proc H :=
  MkProc (p_link p) (p_attempts p) (p_closed p) (p_fs p) s.

Definition put_fs (f : fs) : P unit := p ← get_proc; set_proc (set_fs f p).

(** A command behind the function pointers, which are NULL before a handle is
    opened. *)
Definition on_link {A} (m : link H -> M (link H) A) : P A := fun w =>
  match p_link (w_dev w) with
  | None => Undef "call of a NULL function pointer"
  | Some l =>
      match m l (with_dev l w) with
      | Done a w' => Done a (with_dev (set_link (w_dev w') (w_dev w)) w')
      | Undef why => Undef why
      | Blocked => Blocked
      end
  end.

(** [ev3_error(handle)]; [None] is a text without an end. *)
Definition ev3_error (l : link H) : option (option (list Z)) :=
  match l with
  | HidLink h => Some (hs_hid_error hs h)
  | BtLink _ => Some <$> bt_error (hs_mbstowcs hs) (hs_strerror hs)
  | TcpLink _ _ => Some (Some tcp_error)
  end.

(** [ev3_close(handle)]: the messages of [perror], and the system. *)
Definition ev3_close (s : sys) : list string * sys :=
  match s_close s with
  | Some (CloseBt cb) =>
      let '(msgs, t) := bt_close cb (s_tty s) in (msgs, MkSys (s_close s) t (s_net s))
  | Some CloseTcp => ([], MkSys (s_close s) (s_tty s) (s_net s ++ tcp_close))
  | _ => ([], s)
  end.

(** [perror(msg)]. *)
Definition perrors (msgs : list string) : P unit :=
  put_err (concat (map (fun m => str m ++ str ": " ++ hs_strerror hs ++ [10]) msgs)).

(** [if (handle) ev3_close(handle);] *)
Definition close_handle : P unit :=
  p ← get_proc;
  match p_link p with
  | None => mret tt
  | Some _ =>
      let '(msgs, s) := ev3_close (p_sys p) in
      set_proc (MkProc (p_link p) (p_attempts p) (S (p_closed p)) (p_fs p) s) ;; perrors msgs
  end.

(** ** Local files *)

(** [fopen(path, "rb")] and [fopen(path, "wb")]; [store] is what [fclose] or the
    end of the process leaves in the file.  A directory, which Linux opens for reading and
    then refuses to read, is taken for a file that is not there. *)
Definition read_file (f : fs) (path : list Z) : option FILE :=
  if fs_denied f path then None else fopen_rb <$> fs_files f !! path.
Definition open_rb (path : list Z) : P (option FILE) :=
  p ← get_proc; mret (read_file (p_fs p) path).
Definition store (path : list Z) (fp : FILE) : P unit :=
  p ← get_proc;
  let f := p_fs p in
  put_fs (MkFs (fs_dirs f) (<[path := f_data fp]> (fs_files f)) (fs_denied f)).
Definition open_wb (path : list Z) : P (option FILE) :=
  p ← get_proc;
  let f := p_fs p in
  if fs_denied f path || bool_decide (path ∈ fs_dirs f) || negb (has_parent path f)
     || bool_decide (path = [])
  then mret None
  else store path fopen_wb ;; mret (Some fopen_wb).

(** ** Opening the transport *)

Definition attempted (a : attempt) : P unit :=
  p ← get_proc;
  set_proc (MkProc (p_link p) (p_attempts p ++ [a]) (p_closed p) (p_fs p) (p_sys p)).

(** What opening a transport gives: the handle and the system after it. *)
Definition opening : Type := option (link H) * sys.
Definition opened (o : opening) : P bool :=
  p ← get_proc;
  match o with
  | (None, s) => set_proc (set_sys s p) ;; mret false
  | (Some l, s) => set_proc (set_link l (set_sys s p)) ;; mret true
  end.

Definition hid_opening (product : Z) (s : sys) : opening :=
  match hs_hid_open hs product with
  | Some h => (Some (HidLink h), MkSys (Some CloseHid) (s_tty s) (s_net s))
  | None => (None, s)
  end.
Definition bt_opening (file file2 : option (list Z)) (s : sys) : list string * opening :=
  match bt_open (hs_os_open hs) file file2 (s_tty s) with
  | (Some cb, msgs, t) => (msgs, (Some (BtLink (hs_serial hs)), MkSys (Some (CloseBt cb)) t (s_net s)))
  | (None, msgs, t) => (msgs, (None, MkSys (s_close s) t (s_net s)))
  end.
Definition tcp_opening (res : tcp_result) (acts : list net_act) (s : sys) : opening :=
  match res with
  | TcpOpen t => (Some (TcpLink t (hs_socket hs)), MkSys (Some CloseTcp) (s_tty s) (s_net s ++ acts))
  | TcpNull _ => (None, MkSys (s_close s) (s_tty s) (s_net s ++ acts))
  | TcpUndef => (None, s)
  end.

Definition try_hid (product : Z) : P bool :=
  attempted (TryHid product) ;; p ← get_proc; opened (hid_opening product (p_sys p)).

Definition try_bt (c : switches * params) : P bool :=
  let '(file, file2) := serial_id c.2 in
  attempted (TryBt file file2) ;;
  p ← get_proc;
  let '(msgs, o) := bt_opening file file2 (p_sys p) in
  perrors msgs ;; opened o.

Definition try_tcp (c : switches * params) : P bool :=
  attempted (TryTcp (tcp_id c.2) (timeout c.2)) ;;
  p ← get_proc;
  let '(res, acts) := tcp_open (hs_inet_pton hs) (hs_inet_ntop hs) (tcp_id c.2) (timeout c.2)
                        (hs_net hs) (hs_tcp_block hs) in
  match res with
  | TcpUndef => undef "tcp_open"
  | TcpNull (Bailout msg) => perrors [msg]
  | TcpNull (Report text) => put_err text
  | TcpOpen _ => mret tt
  end ;;
  opened (tcp_opening res acts (p_sys p)).

(** Which transport was found, when the user did not select one. *)
Definition announce (c : switches * params) : P unit :=
  if sw_select c.1 then mret tt else
  p ← get_proc;
  match p_link p with
  | Some (HidLink _) => fputs_err ("USB connection established." +:+ nl)
  | Some (BtLink _) =>
      put_err (str "Bluetooth serial connection established ("
               ++ fmt_s (serial_id c.2).1 ++ str (")." +:+ nl))
  | Some (TcpLink t _) =>
      name ← deref (cstr_of (h_name t)); ip ← deref (cstr_of (h_ip t));
      put_err (str "TCP connection established (" ++ name ++ str "@" ++ ip ++ str ":"
               ++ digits 10 (h_tcp_port t) ++ str (")." +:+ nl))
  | None => mret tt
  end.

Definition no_access : P unit :=
  puts "Insufficient access to the usb device might be a reason too, try sudo.".

(** The chain of [else if]. *)
Definition select_transport (c : switches * params) : P bool :=
  let allowed b := b || negb (sw_select c.1) in
  ok ← (if allowed (sw_hid c.1) then try_hid ProductID else mret false : P bool);
  ok ← (if (ok : bool) then mret true else if allowed (sw_serial c.1) then try_bt c else mret false : P bool);
  ok ← (if (ok : bool) then mret true else if allowed (sw_tcp c.1) then try_tcp c else mret false : P bool);
  if (ok : bool) then announce c ;; mret true
  else
    puts ("EV3 not found. Either plug it into the USB port or pair over Bluetooth." +:+ nl) ;;
    no_access ;; mret false.

Definition select_firmware : P bool :=
  ok ← try_hid ProductID_FW;
  if (ok : bool) then fputs_err ("USB connection established." +:+ nl) ;; mret true
  else
    puts ("No updateable EV3 found. Plug it into a USB port and switch it to firmware update mode."
          +:+ nl) ;;
    no_access ;; mret false.

(** [is_fw], and whether the command is in [offline_args]. *)
Definition is_fw (cmd : list Z) (argv : list (list Z)) : bool :=
  bool_decide (cmd = str "flash") && negb (bool_decide (head argv = Some (str "enter"))).
Definition is_offline (cmd : list Z) : bool := bool_decide (cmd ∈ offline_args).

Definition open_transport (c : switches * params) (cmd : list Z) (argv : list (list Z)) : P bool :=
  if is_fw cmd argv then select_firmware
  else if is_offline cmd then mret true
  else select_transport c.

(** ** The commands

    [inl code] is a return or an exit in the middle of [main], [inr ret] goes on
    to the report. *)
Definition stop (code : Z) : P (Z + Z) := mret (inl code).
Definition done_with (ret : Z) : P (Z + Z) := mret (inr ret).
Definition assert_fails : P (Z + Z) := close_handle ;; stop ERR_ARG.
Definition remote (m : link H -> M (link H) Z) :
    P (Z + Z) := ret ← on_link m; done_with ret.

Definition no_such_file (path : list Z) : P unit :=
  put_out (str "File <" ++ path ++ str ("> doesn't exist." +:+ nl)).

Definition cmd_up (argv : list (list Z)) : P (Z + Z) :=
  match argv with
  | [loc; rem] =>
      fp ← open_rb loc;
      match fp with
      | None => no_such_file loc ;; stop ERR_IO
      | Some fp => remote (fun _ => up fp rem)
      end
  | _ => assert_fails
  end.

Definition dl_to (rem buf : list Z) : P (Z + Z) :=
  fp ← open_wb buf;
  match fp with
  | None => put_out (str "File <" ++ buf ++ str ("> couldn't be opened for writing." +:+ nl)) ;;
            stop ERR_IO
  | Some fp =>
      '(ret, fp) ← on_link (fun _ => dl (hs_fuel hs) rem fp);
      store buf fp ;; done_with ret
  end.
(** Without arguments, [argv[1]] is behind the terminating NULL. *)
Definition cmd_dl (argv : list (list Z)) : P (Z + Z) :=
  match argv with
  | [] => undef "argv[1] is behind the end of argv"
  | [rem] => dl_to rem (uf2_basename rem false)
  | [rem; loc] => dl_to rem loc
  | _ => assert_fails
  end.

Definition cmd_closehnd (argv : list (list Z)) : P (Z + Z) :=
  match argv with
  | [] => remote (fun _ => closehnd 0 256)
  | [num] =>
      if decide (num = str "all") then remote (fun _ => closehnd 0 256) else
      let '(v, converted) := strtol num in
      let start := i32 v in
      if start =? 2 ^ 31 - 1 then undef "start + 1 overflows" else
      if negb converted || (255 <? start) || (start <? 0) then
        put_out (str "invalid handle <" ++ num ++ str (">" +:+ nl)) ;; done_with ERR_ARG
      else remote (fun _ => closehnd start (start + 1))
  | _ => assert_fails
  end.

Definition cmd_mkrbf (argv : list (list Z)) : P (Z + Z) :=
  match argv with
  | cmd :: loc :: _ =>
      fp ← open_wb loc;
      match fp with
      | None => stop ERR_IO
      | Some fp =>
          match mkrbf cmd with
          | None => undef "mkrbf: heap overflow"
          | Some image => store loc (fwrite image fp).2 ;; stop ERR_UNK
          end
      end
  | _ => assert_fails
  end.

Definition invalid_arg (arg : list Z) (what : string) : P (Z + Z) :=
  put_err (str "<" ++ arg ++ str ("> is invalid " +:+ what +:+ nl)) ;; done_with ERR_ARG.

(** From the opened output on. *)
Definition vmexec_run (inp : FILE) (outname : list Z) (out : sink) (locals globals : Z)
    (mode : list (list Z)) : P (Z + Z) :=
  match mode with
  | m :: _ =>
      if decide (m = str "noreply") then
        '(ret, out) ← on_link (fun _ => vmexec inp out locals globals false);
        match out with ToFile fp => store outname fp | _ => mret tt end ;; done_with ret
      else invalid_arg m "vmexec parameter"
  | [] =>
      '(ret, out) ← on_link (fun _ => vmexec inp out locals globals true);
      match out with ToFile fp => store outname fp | _ => mret tt end ;; done_with ret
  end.

(** The check after the second [fopen] looks at the first stream: an output
    that cannot be opened is no output. *)
Definition vmexec_out (outname : list Z) : P sink :=
  if decide (outname = str "-") then mret ToStdout
  else if decide (outname = str "none") then mret NoOut
  else fp ← open_wb outname; mret (match fp with Some fp => ToFile fp | None => NoOut end).

Definition cmd_vmexec (argv : list (list Z)) : P (Z + Z) :=
  match argv with
  | l :: g :: inname :: outname :: mode =>
      if (1 <? length mode)%nat then assert_fails else
      let '(locals, ok) := strtol l in
      if negb ok then invalid_arg l "local variable count" else
      let '(globals, ok) := strtol g in
      if negb ok then invalid_arg g "global variable count" else
      inp ← (if decide (inname = str "-")
             then mret (Some (MkFILE (hs_stdin hs) 0 false false None)) else open_rb inname);
      match inp with
      | None =>
          put_err (str "<" ++ inname ++ str ("> cannot be opened for bytecodes" +:+ nl)) ;;
          done_with ERR_IO
      | Some inp =>
          out ← vmexec_out outname;
          vmexec_run inp outname out (i32 locals) (i32 globals) mode
      end
  | _ => assert_fails
  end.

(** The temporary file, rewound. *)
Definition temp_file (image : list Z) : FILE :=
  let fp := (fwrite image fopen_wb).2 in ignore_fail (fseek_set 0 fp) fp.

Definition cmd_exec (tmo : Z) (argv : list (list Z)) : P (Z + Z) :=
  match argv with
  | cmd :: _ =>
      match mkrbf (cmd ++ EXEC_SUFFIX) with
      | None => undef "mkrbf: heap overflow"
      | Some image =>
          if negb (hs_tmpfile hs) then stop ERR_IO else
          ret ← on_link (fun _ => up (temp_file image) ExecName);
          if negb (ret =? ERR_UNK) then done_with ret else
          remote (fun l => run (is_hid l) (hs_fuel hs) ExecName tmo)
      end
  | _ => assert_fails
  end.

Definition cmd_flash (argv : list (list Z)) : P (Z + Z) :=
  match argv with
  | [] => assert_fails
  | sub :: rest =>
      if decide (sub = str "enter") then
        match rest with [] => remote (fun _ => bootloader_enter) | _ => assert_fails end
      else if decide (sub = str "install") then
        match rest with
        | [loc] =>
            fp ← open_rb loc;
            match fp with
            | None => no_such_file loc ;; stop ERR_IO
            | Some fp => remote (fun _ => bootloader_install fp)
            end
        | _ => assert_fails
        end
      else if decide (sub = str "info") then
        match rest with [] => remote (fun _ => bootloader_info) | _ => assert_fails end
      else if decide (sub = str "exit") then
        match rest with [] => remote (fun _ => bootloader_exit) | _ => assert_fails end
      else
        put_out (str "<" ++ sub ++ str ("> is not a known flash command" +:+ nl +:+ ".")) ;;
        done_with ERR_ARG
  end.

(** [uf2_pack] and [uf2_unpack] leave their verdict in [errmsg]; what they print
    to stderr is not modelled, nor is what a failure leaves in the archive. *)
Definition uf2_pack_to (archive dir : list Z) (files : list (list Z)) : P (Z + Z) :=
  fp ← open_wb archive;
  match fp with
  | None => set_errmsg "error: cannot open UF2 file for writing" ;; done_with ERR_IO
  | Some fp =>
      p ← get_proc;
      let '(ret, dst) := uf2_pack (read_file (p_fs p)) false fp dir files in
      match dst with
      | Some dst => store archive dst ;; set_errmsg "`uf2 pack` was successful."
      | None => set_errmsg "`uf2 pack` has failed."
      end ;;
      done_with ret
  end.

Definition uf2_unpack_from (archive dir : list Z) (uf2_paths : bool) : P (Z + Z) :=
  fp ← open_rb archive;
  match fp with
  | None => set_errmsg "error: cannot open UF2 file for reading" ;; done_with ERR_IO
  | Some fp =>
      p ← get_proc;
      match uf2_unpack fp dir uf2_paths (p_fs p) with
      | UnpackUndef => undef "uf2_unpack"
      | UnpackLoops => blocked
      | Unpacked ret f =>
          put_fs f ;;
          set_errmsg (if ret =? ERR_UNK then "`uf2 unpack` was successful."
                      else "`uf2 unpack` has failed.") ;;
          done_with ret
      end
  end.

Definition cmd_uf2 (argv : list (list Z)) : P (Z + Z) :=
  match argv with
  | [] => assert_fails
  | sub :: rest =>
      if decide (sub = str "pack") then
        match rest with
        | archive :: dir :: _ :: _ => uf2_pack_to archive dir (drop 2 rest)
        | _ => assert_fails
        end
      else if decide (sub = str "unpack") then
        match rest with
        | [archive; dir] => uf2_unpack_from archive dir false
        | [archive; dir; opt] =>
            if decide (opt = str "--with-paths") then uf2_unpack_from archive dir true
            else
              put_out (str "<" ++ opt ++ str ("> is not valid for `uf2 unpack`." +:+ nl)) ;;
              done_with ERR_ARG
        | _ => assert_fails
        end
      else
        put_out (str "<uf2 " ++ sub ++ str ("> hasn't been implemented yet." +:+ nl)) ;;
        done_with ERR_ARG
  end.

(** The sockets that the setup of [bridge_mode] opens, until one cannot be had or set up.
    They are not closed when it returns, but for the one of the beacons: once if the first of
    them cannot be sent, and twice if a later one cannot.  The connections that were
    accepted, which are only shut down, are not recorded. *)
Definition bridge_sockets (n : bridge_net) (ret : Z) : list net_act :=
  (if bn_udp_socket n <? 0 then [] else Socket Beacons ::
   if negb (bn_broadcast n) then [] else
     (if (cNetCheckTimer (bn_now n) bridge_init <? BEACON_TIME) || bn_beacon_sent n
      then [] else [Close Beacons])
     ++ (if bn_tcp_socket n <? 0 then [] else [Socket Listener]))
  ++ (if ret =? ERR_UNK then [Close Beacons; Close Beacons] else []).

Definition add_sockets (acts : list net_act) : P unit :=
  p ← get_proc;
  let s := p_sys p in set_proc (set_sys (MkSys (s_close s) (s_tty s) (s_net s ++ acts)) p).

Definition cmd_bridge : P (Z + Z) :=
  ret ← on_link (fun _ => bridge_mode (hs_bridge_net hs) (hs_ticks hs));
  add_sockets (bridge_sockets (hs_bridge_net hs) ret) ;; done_with ret.

(** The switch of [main]. *)
Definition dispatch (tmo : Z) (cmd : ARGS) (argv : list (list Z)) : P (Z + Z) :=
  match cmd with
  | ARG_info => remote (fun l => info (conn_of l) (hs_hid_strings hs) (head argv))
  | ARG_up => cmd_up argv
  | ARG_dl => cmd_dl argv
  | ARG_run =>
      match argv with
      | [rem] => remote (fun l => run (is_hid l) (hs_fuel hs) rem tmo)
      | _ => assert_fails
      end
  | ARG_nop => stop ERR_UNK
  | ARG_end => put_out (usage ++ [10]) ;; stop ERR_ARG
  | ARG_ls =>
      match argv with
      | [] => remote (fun _ => ls (hs_fuel hs) (str "/"))
      | [rem] => remote (fun _ => ls (hs_fuel hs) rem)
      | _ => assert_fails
      end
  | ARG_closehnd => cmd_closehnd argv
  | ARG_tunnel => remote (fun _ => tunnel_mode (hs_stdin hs))
  | ARG_listen =>
      remote (fun l => if is_hid l then listen_mode (hs_fuel hs)
                       else undef "hid_read on a handle of another transport")
  | ARG_bridge => cmd_bridge
  | ARG_send => remote (fun _ => sendout (hs_stdin hs))
  | ARG_mkdir => match argv with [rem] => remote (fun _ => mkdir_ rem) | _ => assert_fails end
  | ARG_mkrbf => cmd_mkrbf argv
  | ARG_vmexec => cmd_vmexec argv
  | ARG_exec => cmd_exec tmo argv
  | ARG_rm => match argv with [rem] => remote (fun _ => rm rem) | _ => assert_fails end
  | ARG_flash => cmd_flash argv
  | ARG_uf2 => cmd_uf2 argv
  | ARG_wpa2 =>
      put_out (str "<" ++ fmt_s (head argv) ++ str ("> hasn't been implemented yet." +:+ nl)) ;;
      done_with ERR_ARG
  end.

(** ** The report *)

Definition msg_or_dash (m : option string) : list Z := str (default "-"%string m).

(** [ev3_error_msgs[errno]], or what stands for it. *)
Definition vm_error_text (errno : Z) : option (list Z) :=
  if errno <? Z.of_nat (length ev3_error_msgs) then
    if errno <? 0 then None
    else msg_or_dash <$> ev3_error_msgs !! Z.to_nat errno
  else Some (str "An unknown error occured").

Definition report (ret : Z) : P unit :=
  let fprintf_out text := if ret =? ERR_UNK then put_err text else put_out text in
  w ← get_world;
  if ret =? ERR_COMM then
    why ← on_link (fun l => deref (ev3_error l));
    fprintf_out (msg_or_dash (w_errmsg w) ++ str " (" ++ default (str "-") why ++ str ")" ++ [10])
  else if ret =? ERR_VM then
    err ← deref (vm_error_text (w_errno w));
    fprintf_out (err ++ str " (" ++ msg_or_dash (w_errmsg w) ++ str ")" ++ [10])
  else if ret =? ERR_USBLOOP then
    put_err (lines ["";
      "Error: ev3duder received its own packet instead of a reply from the brick."; "";
      "If you have plugged the EV3 into a USB 3.0 port (usually red or blue),";
      "try plugging it into a USB 2.0 only port (usually black or white)."]%string)
  else
    match w_errmsg w with Some m => fprintf_out (str m ++ [10]) | None => mret tt end.

(** ** main *)

Definition printexits : list Z :=
  lines ["Exit status:"; "1  ERR_ARG     Wrong argument"; "2  ERR_IO      IO operation failed";
         "3  ERR_FTOOBIG File too big"; "4  ERR_NOMEM   No memory available";
         "5  ERR_COMM    Communication failed"; "6  ERR_VM      EV3 VM returned an error";
         "7  ERR_SYS     System error";
         "8  ERR_USBLOOP Received own message instead of a reply"; "9  ERR_END     "]%string.

Definition help (argv0 : list Z) : P unit :=
  put_out (argv0 ++ str " (" ++ hs_configuration hs ++ str "; " ++ hs_system hs ++ str ") v"
           ++ hs_version hs ++ [10]
           ++ lines ["Copyright (C) 2016 Ahmad Fatoum";
                "This is free software; see the source for copying conditions.   There is NO";
                "warranty; not even for MERCHANTABILITY or FITNESS FOR A PARTICULAR PURPOSE.";
                "Source is available under the GNU GPL v3.0 https://github.com/c4ev3/ev3duder/";
                ""]%string) ;;
  put_out (usage ++ [10]) ;; put_out (usage_desc ++ [10]).

Definition run_command (c : switches * params) (cmd : list Z) (argv : list (list Z)) : P Z :=
  ok ← open_transport c cmd argv;
  if negb ok then mret ERR_COMM else
  r ← dispatch (timeout c.2) (find_arg args cmd) argv;
  match r with
  | inl code => mret code
  | inr ret => report ret ;; close_handle ;; mret ret
  end.

Definition run_main (argv : list (list Z)) : P Z :=
  match parse_args (no_switches, no_params) argv with
  | ParseUndef => undef "atoi(NULL)"
  | InvalidSwitch s => put_err (str "Invalid switch '" ++ s ++ str ("'" +:+ nl)) ;; mret ERR_ARG
  | InvalidParameter s =>
      put_err (str "Invalid parameter '" ++ s ++ str ("'" +:+ nl)) ;; mret ERR_ARG
  | Parsed _ [] => put_out (usage ++ [10]) ;; put_out (usage_desc ++ [10]) ;; mret ERR_ARG
  | Parsed c (cmd :: argv) => run_command c cmd argv
  end.

Definition main (argv0 : list Z) (argv : list (list Z)) : P Z :=
  match argv with
  | [a] =>
      if decide (a = str "-h" \/ a = str "--help" \/ a = str "/?")
      then help argv0 ;; mret ERR_UNK
      else if decide (a = str "--printexits") then put_out printexits ;; mret ERR_UNK
      else if decide (a = str "--version") then put_out (hs_version hs ++ [10]) ;; mret ERR_UNK
      else run_main argv
  | _ => run_main argv
  end.

(** Whether a command line is one of the bridge. *)
Definition runs_bridge (argv : list (list Z)) : bool :=
  match parse_args (no_switches, no_params) argv with
  | Parsed _ (cmd :: _) => bool_decide (find_arg args cmd = ARG_bridge)
  | _ => false
  end.

(** The process before [main]. *)
Definition start (f : fs) (s : sys) : proc H := MkProc None [] 0 f s.

End main.

(** ** Reasoning about the process *)

#[export] Instance hid_embedding {H} `{!Transport H} : Embedding (@HidLink H).
Proof.
  split; intros; cbn [tr_write tr_read link_transport].
  - by destruct (tr_write _ _).
  - by destruct (tr_read _ _ _) as [[? ?] ?].
Qed.
#[export] Instance bt_embedding {H} `{!Transport H} : Embedding (@BtLink H).
Proof.
  split; intros; cbn [tr_write tr_read link_transport bt_transport].
  - by destruct (bt_write _ _).
  - by destruct (bt_read _ _ _) as [[? ?] ?].
Qed.
#[export] Instance tcp_embedding {H} `{!Transport H} t : Embedding (@TcpLink H t).
Proof.
  split; intros; cbn [tr_write tr_read link_transport bt_transport].
  - by destruct (bt_write _ _).
  - by destruct (bt_read _ _ _) as [[? ?] ?].
Qed.

Section process.
Context {H : Type} `{!Transport H} (hs : host H).
Context {U B : Prop}.
Notation wpp := (wp_ U B).

Lemma wp_get_proc (Q : proc H -> World (proc H) -> Prop) w :
  Q (w_dev w) w -> wpp get_proc Q w.
Proof. done. Qed.
Lemma wp_set_proc p (Q : unit -> World (proc H) -> Prop) w :
  Q tt (with_dev p w) -> wpp (set_proc p) Q w.
Proof. done. Qed.

(** A command behind the handle, and the same on the device in it. *)
Lemma wp_on_link {A} (m : link H -> M (link H) A) Q w l :
  p_link (w_dev w) = Some l ->
  wpp (m l) (fun a w' => Q a (with_dev (set_link (w_dev w') (w_dev w)) w')) (with_dev l w) ->
  wpp (on_link m) Q w.
Proof. intros Hl Hm. unfold wp_, on_link in *. rewrite Hl. by destruct (m l _). Qed.

Lemma wp_on_device {D A} `{!Transport D} (emb : D -> link H) `{!Embedding emb}
    (m : link H -> M (link H) A) (m0 : M D A) Q w d :
  p_link (w_dev w) = Some (emb d) -> sim emb m0 (m (emb d)) ->
  wpp m0 (fun a w' => Q a (with_dev (set_link (emb (w_dev w')) (w_dev w)) w')) (with_dev d w) ->
  wpp (on_link m) Q w.
Proof.
  intros Hl Hs Hm. eapply wp_on_link; [done|].
  change (with_dev (emb d) w) with (lift_world emb (with_dev d w)).
  eapply wp_sim; [exact Hs|]. eapply wp_mono; [exact Hm|]. done.
Qed.

(** The end of a process with its handle: the messages go to stderr. *)
Definition close_sys (p : proc H) : sys := if p_link p then (ev3_close (p_sys p)).2 else p_sys p.
Lemma wp_close_handle (Q : unit -> World (proc H) -> Prop) w :
  (forall n w', n = (p_closed (w_dev w) + (if p_link (w_dev w) then 1 else 0))%nat ->
    w_dev w' = MkProc (p_link (w_dev w)) (p_attempts (w_dev w)) n (p_fs (w_dev w))
                 (close_sys (w_dev w)) ->
    w_trace w' = w_trace w -> w_out w' = w_out w -> Q tt w') ->
  wpp (close_handle hs) Q w.
Proof.
  intros HQ. destruct w as [[l att n f s] ? ? ? ? ? ? ?]. unfold close_handle.
  apply wp_bind, wp_get_proc. cbn [w_dev p_link p_sys p_closed p_attempts p_fs] in *.
  destruct l as [l|].
  - destruct (ev3_close s) as [msgs s'] eqn:E. apply wp_bind, wp_set_proc, wp_put_err.
    eapply HQ; [|cbn; by rewrite E|done..]. lia.
  - apply wp_ret. eapply HQ; [|done..]. lia.
Qed.
End process.

Ltac pstep :=
  match goal with
  | |- wp_ _ _ get_proc _ _ => apply wp_get_proc
  | |- wp_ _ _ (set_proc _) _ _ => apply wp_set_proc
  | |- wp_ _ _ (done_with _) _ _ => apply wp_ret
  | |- wp_ _ _ (stop _) _ _ => apply wp_ret
  | |- wp_ _ _ (no_such_file _) _ _ => apply wp_put_out
  end; cbv zeta; cbn [with_dev]; wsimpl.
Ltac psteps := repeat first [wstep | pstep].

Section theorems.
Context {H : Type} `{!Transport H} (hs : host H).

(** What follows the switch of [main]. *)
Definition finish (r : Z + Z) : M (proc H) Z :=
  match r with
  | inl code => mret code
  | inr ret => report hs ret ;; close_handle hs ;; mret ret
  end.

Definition hid_allowed (c : switches * params) : bool := sw_hid c.1 || negb (sw_select c.1).
Definition config (fs : list flag) : switches * params :=
  foldl apply_flag (no_switches, no_params) fs.
(** The process with a handle over USB. *)
Definition usb_sys (s : sys) : sys := MkSys (Some CloseHid) (s_tty s) (s_net s).
Definition usb_proc (h : H) (f : fs) (s : sys) : proc H :=
  MkProc (Some (HidLink h)) [TryHid ProductID] 0 f (usb_sys s).

(** The switches are consumed and the command is run. *)
Lemma main_flags argv0 fs cmd argv :
  Forall flag_ok fs -> nth 0 cmd 0 <> 45 -> argv <> [] ->
  main hs argv0 (concat (map render fs) ++ cmd :: argv) = run_command hs (config fs) cmd argv.
Proof.
  intros Hfs Hc Ha. unfold main.
  assert (forall (l : list (list Z)) {A} (f : list Z -> A) b,
            match l ++ cmd :: argv with [a] => f a | _ => b end = b) as ->.
  { intros l A f b. destruct l as [|x [|y l]]; [by destruct argv|done..]. }
  unfold run_main. rewrite parse_flags by done. cbn [parse_args].
  by rewrite (proj2 (Z.eqb_neq _ _)).
Qed.

Context {U B : Prop}.
Notation wpp := (wp_ U B).

Lemma wp_select_usb c h f s (Q : bool -> World (proc H) -> Prop) w :
  hid_allowed c = true -> hs_hid_open hs ProductID = Some h -> w_dev w = start f s ->
  (forall w', w_dev w' = usb_proc h f s -> w_trace w' = w_trace w -> w_out w' = w_out w ->
    w_errmsg w' = w_errmsg w -> Q true w') ->
  wpp (select_transport hs c) Q w.
Proof.
  unfold hid_allowed. intros Hc Hh Hw HQ. unfold select_transport. cbv zeta. rewrite Hc.
  unfold try_hid, attempted, opened, hid_opening. rewrite Hh.
  psteps. rewrite Hw. cbn. psteps. cbn match. psteps. cbn match. psteps.
  unfold announce. destruct (sw_select c.1); psteps; [by apply HQ|].
  cbn match. psteps. apply wp_put_err. psteps. by apply HQ.
Qed.

(** An online command over USB: what remains is the command itself, behind the
    handle. *)
Lemma wp_main_usb argv0 fs cmd argv h f s (Q : Z -> World (proc H) -> Prop) w :
  Forall flag_ok fs -> hid_allowed (config fs) = true ->
  hs_hid_open hs ProductID = Some h -> w_dev w = start f s ->
  nth 0 cmd 0 <> 45 -> argv <> [] -> is_fw cmd argv = false -> is_offline cmd = false ->
  (forall w', w_dev w' = usb_proc h f s -> w_trace w' = w_trace w -> w_out w' = w_out w ->
    w_errmsg w' = w_errmsg w ->
    wpp (dispatch hs (timeout (config fs).2) (find_arg args cmd) argv)
      (fun r w'' => wpp (finish r) Q w'') w') ->
  wpp (main hs argv0 (concat (map render fs) ++ cmd :: argv)) Q w.
Proof.
  intros Hfs Hc Hh Hw Hd Ha Hf Ho HQ. rewrite main_flags by done. unfold run_command.
  apply wp_bind. unfold open_transport. rewrite Hf, Ho.
  eapply wp_select_usb; [done..|]. intros w' H1 H2 H3 H4. cbn [negb].
  apply wp_bind. eapply wp_mono; [by apply HQ|]. intros [code|ret] w''; done.
Qed.

(** The report of a result, and the end of the process. *)
Lemma wp_finish ret l att f s (Q : Z -> World (proc H) -> Prop) w :
  w_dev w = MkProc (Some l) att 0 f s -> (ret = ERR_VM -> 0 <= w_errno w \/ U) ->
  (ret = ERR_COMM -> is_Some (ev3_error hs l) \/ U) ->
  (forall w', w_dev w' = MkProc (Some l) att 1 f (ev3_close s).2 -> w_trace w' = w_trace w ->
    (ret = ERR_VM -> exists err, vm_error_text (w_errno w) = Some err
       /\ w_out w' = w_out w ++ err ++ str " (" ++ msg_or_dash (w_errmsg w) ++ str ")" ++ [10]) ->
    (ret = ERR_UNK -> w_out w' = w_out w) -> Q ret w') ->
  wpp (finish (inr ret)) Q w.
Proof.
  intros Hw Herr Hcomm HQ. cbn [finish]. apply wp_bind.
  cut (wpp (report hs ret) (fun _ w' => w_dev w' = w_dev w /\ w_trace w' = w_trace w
    /\ (ret = ERR_VM -> exists err, vm_error_text (w_errno w) = Some err
       /\ w_out w' = w_out w ++ err ++ str " (" ++ msg_or_dash (w_errmsg w) ++ str ")" ++ [10])
    /\ (ret = ERR_UNK -> w_out w' = w_out w)) w).
  { intros Hr. eapply wp_mono; [exact Hr|]. intros [] w' (H1 & H2 & H3 & H4).
    apply wp_bind, wp_close_handle. intros n w2 -> Hd Ht Ho. apply wp_ret.
    rewrite H1, Hw in Hd. apply HQ; rewrite ?Ht, ?Ho; done. }
  unfold report. apply wp_bind. unfold get_world, wp_ at 1. cbv zeta.
  destruct (Z.eqb_spec ret ERR_COMM) as [->|Hn1].
  { apply wp_bind. eapply wp_on_link; [by rewrite Hw|].
    destruct (Hcomm eq_refl) as [[e ->]|HU]; cycle 1.
    { destruct (ev3_error hs l); [apply wp_deref_Some|by apply wp_deref_None]; psteps.
      by rewrite Hw. }
    apply wp_deref_Some. cbn match. psteps. rewrite Hw. done. }
  destruct (Z.eqb_spec ret ERR_VM) as [->|Hn2].
  { destruct (vm_error_text (w_errno w)) as [err|] eqn:He; cycle 1.
    { apply wp_bind, wp_deref_None. destruct (Herr eq_refl) as [Hp|]; [exfalso|done].
      unfold vm_error_text in He. destruct (w_errno w <? _) eqn:E; [|done].
      rewrite (proj2 (Z.ltb_ge _ _)) in He by lia. apply fmap_None, lookup_ge_None in He.
      apply Z.ltb_lt in E. lia. } psteps. repeat split; eauto; done. }
  destruct (ret =? ERR_USBLOOP) eqn:E3.
  { psteps. repeat split; intros; try done. }
  destruct (w_errmsg w); [|psteps; repeat split; intros; done].
  destruct (ret =? ERR_UNK) eqn:E4; psteps; repeat split; intros; try done.
  by subst ret.
Qed.

(** A command of the switch, on the device inside of the link. *)
Lemma wp_remote_in {D} `{!Transport D} (emb : D -> link H) `{!Embedding emb}
    (m : link H -> M (link H) Z) (m0 : M D Z) d att f s (Q : Z -> World (proc H) -> Prop) w :
  w_dev w = MkProc (Some (emb d)) att 0 f s -> sim emb m0 (m (emb d)) ->
  wpp m0 (fun ret w0 => forall w', w_dev w' = MkProc (Some (emb (w_dev w0))) att 0 f s ->
    w_trace w' = w_trace w0 -> w_out w' = w_out w0 -> w_errmsg w' = w_errmsg w0 ->
    w_errno w' = w_errno w0 -> wpp (finish (inr ret)) Q w') (with_dev d w) ->
  wpp (remote m) (fun r w' => wpp (finish r) Q w') w.
Proof.
  intros Hw Hs Hm. unfold remote. apply wp_bind.
  eapply (wp_on_device emb); [by rewrite Hw|exact Hs|].
  eapply wp_mono; [exact Hm|]. intros ret w0 HQ. apply wp_ret.
  apply HQ; try done. cbn. by rewrite Hw.
Qed.
End theorems.

Section usb.
Context {H : Type} `{!Transport H} (hs : host H).

(** C25: With a brick that can be opened on USB, `rm path` (for paths below 64 KiB) sends
    one DELETE_FILE with the path; a refusal of the brick becomes exit code ERR_VM and
    prints the text of the status, a transport error ERR_COMM, and success prints nothing on
    the standard output; the handle is closed once. A reply that is read at all has its 7
    bytes and announces no more than them (for a refusal that announces more, print_bytes
    reads past the reply: Simple.rm_denied_overread). *)
Theorem main_rm argv0 fs path h f s (w : World (proc H)) r1 d1 r2 data d2 :
  Forall flag_ok fs -> hid_allowed (config fs) = true ->
  hs_hid_open hs ProductID = Some h -> w_dev w = start f s ->
  zlen path + 8 < 65535 ->
  tr_write (rm_request path) h = (r1, d1) ->
  tr_read 7 TIMEOUT d1 = (r2, data, d2) -> zlen data <= 7 -> bytes_ok data ->
  (0 < r2 -> zlen data = 7 /\ get_field SYSTEM_REPLY "packetLen" data <= 7) ->
  wp (main hs argv0 (concat (map render fs) ++ [str "rm"; path])) (fun code w' =>
    code = ack_code r1 r2 (get_field SYSTEM_REPLY "type" data)
    /\ w_dev w' = MkProc (Some (HidLink (if r1 <? 0 then d1 else d2))) [TryHid ProductID] 1 f (usb_sys s)
    /\ packets (w_trace w') = packets (w_trace w) ++ [rm_request path]
    /\ (code = ERR_UNK -> w_out w' = w_out w)
    /\ (code = ERR_VM -> exists err,
          vm_error_text (get_field SYSTEM_REPLY "ret" data) = Some err
          /\ w_out w' = w_out w ++ err ++ str " (`DELETE_FILE` was denied.)" ++ [10])) w.
Proof.
  intros Hfs Hc Hh Hw Hz H1 H2 Hfit Hb Hd.
  eapply wp_main_usb; [done..|]. intros w1 E1 E2 E3 E4.
  change (find_arg args (str "rm")) with ARG_rm. cbn [dispatch].
  eapply (wp_remote_in _ HidLink); [done|apply sim_rm, _|].
  eapply wp_mono; [eapply rm_spec; done|].
  intros ret w2 (-> & Hdev & Htr & Hout & Hvm) w3 F1 F2 F3 F4 F5.
  pose proof (get_field_range SYSTEM_REPLY "ret" data Hb).
  eapply wp_finish; [exact F1| |by left|].
  { intros HV. left. destruct (Hvm HV) as [He _]. rewrite F5, He. lia. }
  intros w4 G1 G2 G3 G4. cbn [with_dev w_dev w_trace w_out w_errmsg w_errno] in *.
  split; [done|].
  rewrite G1, Hdev, G2, F2, Htr, E2. repeat split; try done.
  - intros HU. by rewrite G4, F3, Hout, E3 by done.
  - intros HV. destruct (Hvm HV) as [He Hm]. destruct (G3 HV) as (err & Herr & Ho).
    exists err. rewrite F5, He in Herr. split; [done|].
    by rewrite Ho, F3, Hout, F4, Hm, E3.
Qed.

Context `{!TransportOk H}.

(** C1: For every command line of well-formed switches that allows USB, and every file of
    less than 4 GiB, `ev3duder [switches] up loc rem` with a brick that receives uploads
    opens the brick by its USB id, leaves the file under the remote name on the brick, exits
    with ERR_UNK (success) and closes the handle once. *)
Theorem main_up `{!FileReceiver H} argv0 fs loc rem data h f s (w : World (proc H)) :
  Forall flag_ok fs -> hid_allowed (config fs) = true ->
  hs_hid_open hs ProductID = Some h -> w_dev w = start f s ->
  rcv_ready rem (zlen data) h ->
  fs_files f !! loc = Some data -> fs_denied f loc = false ->
  zlen data < 2 ^ 32 -> cstr_ok rem -> zlen rem + 12 < 65535 ->
  wp (main hs argv0 (concat (map render fs) ++ [str "up"; loc; rem])) (fun code w' =>
    code = ERR_UNK
    /\ exists h' fd, w_dev w' = MkProc (Some (HidLink h')) [TryHid ProductID] 1 f (usb_sys s)
         /\ receiving rem (zlen data) fd data h') w.
Proof.
  intros Hfs Hc Hh Hw Hr Hdata Hden Hz Hrem Hlen.
  eapply wp_main_usb; [done..|]. intros w1 E1 E2 E3 E4.
  change (find_arg args (str "up")) with ARG_up. cbn [dispatch cmd_up]. unfold open_rb.
  psteps. unfold read_file. rewrite E1. cbn [p_fs usb_proc]. rewrite Hden, Hdata.
  cbn [fmap option_fmap option_map].
  eapply (wp_remote_in _ HidLink); [done|apply sim_up, _|].
  eapply wp_mono; [eapply up_stores; done|]. cbn beta.
  intros ret w2 (-> & _ & fd & Hrcv) w3 F1 F2 F3 F4 F5.
  eapply wp_finish; [exact F1|done|by left|]. intros w4 G1 G2 _ G4.
  cbn [with_dev w_dev w_trace w_out w_errmsg w_errno] in *.
  split; [done|]. eauto.
Qed.

Lemma EXEC_SUFFIX_ok : cstr_ok EXEC_SUFFIX /\ zlen EXEC_SUFFIX = 96.
Proof. split; [apply (bool_decide_unpack _); vm_compute; exact I|reflexivity]. Qed.

Lemma temp_file_eq image : temp_file image = fopen_rb image.
Proof.
  unfold temp_file, fwrite, fopen_wb, fopen_rb, splice. cbn.
  by rewrite firstn_all, drop_nil, app_nil_r.
Qed.

(** C24: On a command line that allows USB, with a brick that can be opened there and a
    temporary file that can be made, a successful `exec cmd` (of a command below 2 GiB) has
    uploaded a bytecode file that an independent reading of the file format and of its
    instructions takes for the program that starts the command with its output suffix, has
    then sent the request to run that file, in this order, and has closed the handle once.
    *)
Theorem main_exec argv0 fs cmd h f s (w w' : World (proc H)) :
  Forall flag_ok fs -> hid_allowed (config fs) = true ->
  hs_hid_open hs ProductID = Some h -> hs_tmpfile hs = true -> w_dev w = start f s ->
  cstr_ok cmd -> zlen cmd < 2 ^ 31 ->
  main hs argv0 (concat (map render fs) ++ [str "exec"; cmd]) w = Done ERR_UNK w' ->
  exists image w1 w2,
    parse_program image = Some (launcher (cmd ++ EXEC_SUFFIX))
    /\ w_dev w1 = h /\ w_trace w1 = w_trace w
    /\ upload_sent (fopen_rb image) ExecName w1 w2
    /\ packets (w_trace w') = packets (w_trace w2) ++ [run_request ExecName]
    /\ p_closed (w_dev w') = 1%nat.
Proof.
  intros Hfs Hc Hh Htmp Hw Hcmd Hz Hrun.
  destruct EXEC_SUFFIX_ok as [Hs Hsl].
  destruct (mkrbf_image (cmd ++ EXEC_SUFFIX)) as (image & Hm & Hi & _ & Hp).
  { by apply Forall_app. }
  { rewrite zlen_app. lia. }
  assert (zlen image < 2 ^ 32) as Hil by (rewrite Hi, static_sz_eq; rewrite zlen_app; lia).
  refine (wlp_done _ (fun code w' => code = ERR_UNK -> exists image w1 w2, _) _ _ _ _ Hrun eq_refl).
  eapply wp_main_usb; [done..|]. intros w1 E1 E2 E3 E4.
  change (find_arg args (str "exec")) with ARG_exec. cbn [dispatch cmd_exec].
  rewrite Hm, Htmp, temp_file_eq. cbn [negb]. apply wp_bind.
  eapply (wp_on_device HidLink); [by rewrite E1|apply sim_up, _|].
  eapply wp_mono; [eapply up_wlp; done|]. cbn beta. intros ret w2 Hup.
  destruct (Z.eqb_spec ret ERR_UNK) as [->|Hne]; cbn [negb].
  2: { psteps. eapply wp_finish; [by rewrite E1|by right|by right|]. done. }
  eapply (wp_remote_in _ HidLink); [by rewrite E1|apply sim_run, _|].
  eapply wp_mono; [by apply run_sends|]. cbn beta.
  intros ret w3 Hpk w4 F1 F2 F3 F4 F5. eapply wp_finish; [exact F1|by right|by right|].
  intros w5 G1 G2 _ _ ->. exists image, (with_dev h w1), w2.
  split; [done|]. split; [done|]. split; [exact E2|]. split; [by apply Hup|].
  rewrite G1, G2, F2. split; [exact Hpk|done].
Qed.
End usb.
