(* ===== verification/MainSafe.v ===== *)
(** * MainSafe: what every run of main keeps (src/main.c)

    Invariants of the process that hold on every command line, whatever the
    transports and the brick do: the handle is closed at most once, and the
    offline commands never touch a device. *)

From S2P Require Import Prelude Packets IO Logic Stdio Cstr Simple Up Dl Ls.
From S2P Require Import Install Mkrbf Vm BtUnix Tcp Info Tunnel Uf2 Bridge Cli Sim Main.

(** ** What the commands do to the process

    [local]: nothing happens to the handle and nothing goes over it; [kept]: a
    handle stays open, and so does what the process holds of the system. *)
Section frame.
Context {H : Type} `{!Transport H} (hs : host H).
Notation P := (M (proc H)).
Notation W := (World (proc H)).

Definition local (w w' : W) : Prop :=
  w_trace w' = w_trace w /\ p_link (w_dev w') = p_link (w_dev w)
  /\ p_attempts (w_dev w') = p_attempts (w_dev w) /\ p_closed (w_dev w') = p_closed (w_dev w)
  /\ p_sys (w_dev w') = p_sys (w_dev w).
Definition kept (w w' : W) : Prop :=
  (is_Some (p_link (w_dev w')) <-> is_Some (p_link (w_dev w)))
  /\ p_attempts (w_dev w') = p_attempts (w_dev w) /\ p_closed (w_dev w') = p_closed (w_dev w)
  /\ p_sys (w_dev w') = p_sys (w_dev w).
(** The handle stays open; the bridge leaves sockets behind. *)
Definition attached (w w' : W) : Prop :=
  (is_Some (p_link (w_dev w')) <-> is_Some (p_link (w_dev w)))
  /\ p_attempts (w_dev w') = p_attempts (w_dev w) /\ p_closed (w_dev w') = p_closed (w_dev w).

Definition within (R : W -> W -> Prop) {A} (m : P A) : Prop := forall w, wlp m (fun _ w' => R w w') w.

#[local] Instance local_preorder : PreOrder local.
Proof. split; [done|]. intros a b c (?&?&?&?&?) (?&?&?&?&?). repeat split; congruence. Qed.
#[local] Instance kept_preorder : PreOrder kept.
Proof. split; [done|]. intros a b c (?&?&?&?) (?&?&?&?). split; [naive_solver|repeat split; congruence]. Qed.

#[local] Instance attached_preorder : PreOrder attached.
Proof. split; [done|]. intros a b c (?&?&?) (?&?&?). split; [naive_solver|split; congruence]. Qed.

Lemma kept_attached w w' : kept w w' -> attached w w'.
Proof. intros (H1 & H2 & H3 & _). by split. Qed.
Lemma local_kept w w' : local w w' -> kept w w'.
Proof. intros (_ & Hl & Ha & Hc & Hs). unfold kept. by rewrite Hl, Ha, Hc, Hs. Qed.

Lemma within_ret R `{!PreOrder R} {A} (a : A) : within R (mret a).
Proof. intros w. apply wp_ret. reflexivity. Qed.
Lemma within_bind R `{!PreOrder R} {A C} (m : P A) (k : A -> P C) :
  within R m -> (forall a, within R (k a)) -> within R (m ≫= k).
Proof.
  intros Hm Hk w. apply wp_bind. eapply wp_mono; [apply Hm|]. intros a w' Hw.
  eapply wp_mono; [apply Hk|]. intros c w'' Hw'. cbv beta in *. etransitivity; eassumption.
Qed.
Lemma within_kept {A} (m : P A) : within local m -> within kept m.
Proof. intros Hm w. eapply wp_mono; [apply Hm|]. intros a w'. apply local_kept. Qed.
Lemma within_undef R {A} why : within R (@undef (proc H) A why).
Proof. done. Qed.
Lemma local_put_out b : within local (put_out b).
Proof. done. Qed.
Lemma local_put_err b : within local (put_err b).
Proof. done. Qed.
Lemma local_set_errmsg s : within local (set_errmsg s).
Proof. done. Qed.
Lemma local_deref {A} (p : option A) : within local (deref p).
Proof. by destruct p. Qed.
Lemma local_get_world : within local get_world.
Proof. done. Qed.
Lemma local_get_proc : within local get_proc.
Proof. done. Qed.
Lemma local_open_rb path : within local (open_rb path).
Proof. done. Qed.
Lemma local_put_fs f : within local (put_fs f).
Proof. done. Qed.
Lemma local_store path fp : within local (store path fp).
Proof. done. Qed.
Lemma local_open_wb path : within local (open_wb path).
Proof. 
  intros w. unfold open_wb. apply wp_bind, wp_get_proc. cbv zeta.
  destruct (_ || _); [by apply wp_ret|]. apply wp_bind. eapply wp_mono; [apply local_store|].
  intros u w' Hl. exact Hl.
Qed.
Lemma kept_on_link {A} (m : link H -> M (link H) A) : within kept (on_link m).
Proof.
  intros w. unfold wp_, on_link. destruct (p_link (w_dev w)) as [l|] eqn:E; [|done].
  destruct (m l _); [|done..]. split; [|done]. cbn. rewrite E. naive_solver.
Qed.

(** A command: the handle is closed at most when it returns early. *)
Definition ends (R : W -> W -> Prop) (m : P (Z + Z)) : Prop := forall w,
  wlp m (fun r w' => exists w0, R w w0 /\ w_trace w' = w_trace w0
    /\ p_link (w_dev w') = p_link (w_dev w0) /\ p_attempts (w_dev w') = p_attempts (w_dev w0)
    /\ match r with
       | inr _ => p_closed (w_dev w') = p_closed (w_dev w0) /\ p_sys (w_dev w') = p_sys (w_dev w0)
       | inl _ =>
           p_closed (w_dev w') = p_closed (w_dev w0) /\ p_sys (w_dev w') = p_sys (w_dev w0) \/
           (is_Some (p_link (w_dev w0)) /\ p_closed (w_dev w') = S (p_closed (w_dev w0))
            /\ p_sys (w_dev w') = (ev3_close (p_sys (w_dev w0))).2)
       end) w.

Lemma ends_attached m : ends kept m -> ends attached m.
Proof.
  intros Hm w. eapply wp_mono; [apply Hm|]. intros r w' (w0 & Hk & Hr). exists w0.
  split; [by apply kept_attached|exact Hr].
Qed.

Lemma ends_bind R `{!PreOrder R} {A} (m : P A) k :
  within R m -> (forall a, ends R (k a)) -> ends R (m ≫= k).
Proof.
  intros Hm Hk w. apply wp_bind. eapply wp_mono; [apply Hm|]. intros a w' Hw.
  eapply wp_mono; [apply Hk|]. intros r w'' (w0 & H0 & Hr). cbv beta in *. exists w0. split; [etransitivity; eassumption|done].
Qed.
Lemma ends_stop R `{!PreOrder R} code : ends R (stop code).
Proof. intros w. apply wp_ret. exists w. split; [reflexivity|]. repeat split. by left. Qed.
Lemma ends_done_with R `{!PreOrder R} code : ends R (done_with code).
Proof. intros w. apply wp_ret. exists w. split; [reflexivity|done]. Qed.
Lemma ends_undef R why : ends R (undef why).
Proof. done. Qed.
Lemma ends_blocked R : ends R blocked.
Proof. done. Qed.
Lemma ends_assert_fails R `{!PreOrder R} : ends R (assert_fails hs).
Proof.
  intros w. unfold assert_fails. apply wp_bind, wp_close_handle. intros n w' -> Hd Ht _.
  apply wp_ret. exists w. split; [reflexivity|]. split; [done|]. rewrite Hd. cbn.
  unfold close_sys. split; [done|]. split; [done|].
  destruct (p_link (w_dev w)) eqn:E; [right|left; split; [lia|done]].
  split; [by eexists|]. split; [lia|done].
Qed.
Lemma ends_remote (m : link H -> M (link H) Z) : ends kept (remote m).
Proof. apply ends_bind; [apply _|apply kept_on_link|]. intros. by apply ends_done_with, _. Qed.
End frame.

#[export] Existing Instances local_preorder kept_preorder attached_preorder.
Create HintDb process.
#[export] Hint Resolve within_ret within_undef local_put_out local_put_err local_set_errmsg
  local_deref local_get_world local_get_proc local_open_rb local_put_fs local_store local_open_wb
  kept_on_link ends_stop ends_done_with ends_undef ends_blocked ends_assert_fails ends_remote
  local_preorder kept_preorder : process.
#[export] Hint Extern 3 (within kept _) => apply within_kept : process.

Ltac ends_step :=
  match goal with
  | |- ends _ (_ ≫= _) => apply ends_bind; [apply _| |intros ?]
  | |- ends _ (if ?b then _ else _) => destruct b
  | |- ends _ (let '(_, _) := ?p in _) => destruct p
  | |- ends _ (match ?x with _ => _ end) => destruct x
  | |- within _ (puts _) => unfold puts
  | |- within _ (_ ≫= _) => apply within_bind; [apply _| |intros ?]
  | |- within _ (if ?b then _ else _) => destruct b
  | |- within _ (match ?x with _ => _ end) => destruct x
  | |- within _ (no_such_file _) => unfold no_such_file
  end; cbv zeta.
Ltac ends_auto := cbv zeta; repeat first [solve [eauto with process] | ends_step].

Section safety.
Context {H : Type} `{!Transport H} (hs : host H).

Lemma bridge_ends : ends attached (cmd_bridge hs).
Proof.
  unfold cmd_bridge. apply ends_bind; [apply _| |intros ret; apply ends_bind; [apply _|done|intros []]].
  - intros w. eapply wp_mono; [apply kept_on_link|]. intros a w'. apply kept_attached.
  - apply ends_done_with, _.
Qed.

Lemma dispatch_ends tmo cmd argv : cmd <> ARG_bridge -> ends kept (dispatch hs tmo cmd argv).
Proof.
  intros Hcmd. destruct cmd; try done; cbn [dispatch]; try (ends_auto; fail).
  - unfold cmd_up. ends_auto.
  - unfold cmd_dl, dl_to. ends_auto.
  - unfold cmd_closehnd. ends_auto.
  - unfold cmd_mkrbf. ends_auto.
  - unfold cmd_exec. ends_auto.
  - unfold cmd_vmexec, vmexec_run, vmexec_out, invalid_arg. ends_auto.
  - unfold cmd_flash. ends_auto.
  - unfold cmd_uf2, uf2_pack_to, uf2_unpack_from. ends_auto.
Qed.

Lemma dispatch_attached tmo cmd argv : ends attached (dispatch hs tmo cmd argv).
Proof.
  destruct (decide (cmd = ARG_bridge)) as [->|Hne]; [apply bridge_ends|].
  by apply ends_attached, dispatch_ends.
Qed.

Definition unclosed (w w' : World (proc H)) : Prop :=
  p_closed (w_dev w') = p_closed (w_dev w).
#[local] Instance unclosed_preorder : PreOrder unclosed.
Proof. split; [done|]. intros a b c ??. unfold unclosed in *. congruence. Qed.

Lemma within_unclosed {A} (m : M (proc H) A) : within local m -> within unclosed m.
Proof. intros Hm w. eapply wp_mono; [apply Hm|]. intros a w' (_ & _ & _ & Hc & _). exact Hc. Qed.
Lemma unclosed_attempted a : within unclosed (attempted a).
Proof. done. Qed.
Lemma unclosed_opened (o : opening) : within unclosed (opened o).
Proof. by destruct o as [[l|] s]. Qed.
Lemma unclosed_perrors msgs : within unclosed (perrors hs msgs).
Proof. done. Qed.
Hint Resolve unclosed_attempted unclosed_opened unclosed_perrors : process.
Hint Extern 3 (within unclosed _) => apply within_unclosed : process.

Lemma open_transport_unclosed c cmd argv : within unclosed (open_transport hs c cmd argv).
Proof.
  unfold open_transport, select_firmware, select_transport, try_hid, try_bt, try_tcp, announce,
    no_access, fputs_err. pose proof unclosed_preorder. destruct (serial_id c.2). ends_auto.
Qed.

Lemma report_kept ret : within kept (report hs ret).
Proof. unfold report. ends_auto. Qed.
Lemma report_offline ret (w : World (proc H)) :
  p_link (w_dev w) = None -> wlp (report hs ret) (fun _ w' => local w w') w.
Proof.
  intros Hl. unfold report. apply wp_bind. unfold get_world, wp_ at 1. cbv zeta.
  destruct (ret =? ERR_COMM).
  { apply wp_bind. unfold wp_ at 1, on_link. by rewrite Hl. }
  destruct (ret =? ERR_VM).
  { apply wp_bind. destruct (vm_error_text _); [|done]. psteps.
    by destruct (ret =? ERR_UNK); psteps. }
  destruct (ret =? ERR_USBLOOP); [by psteps|].
  destruct (w_errmsg w); [by destruct (ret =? ERR_UNK); psteps|by psteps].
Qed.

Lemma ends_unclosed m (w : World (proc H)) :
  ends attached m ->
  wlp m (fun r w' =>
    match r with
    | inr _ => p_closed (w_dev w') = p_closed (w_dev w)
    | inl _ => (p_closed (w_dev w') <= p_closed (w_dev w) + (if p_link (w_dev w') then 1 else 0))%nat
    end) w.
Proof.
  intros Hm. eapply wp_mono; [apply Hm|].
  intros r w' (w0 & (_ & _ & Hc) & _ & Hl & _ & Hr). rewrite Hc in Hr.
  destruct r; [|by destruct Hr]. rewrite Hl. destruct Hr as [[-> _]|([l ->] & -> & _)]; lia.
Qed.

Lemma run_command_closes c cmd argv (w : World (proc H)) :
  p_closed (w_dev w) = 0%nat ->
  wlp (run_command hs c cmd argv) (fun _ w' =>
    (p_closed (w_dev w') <= if p_link (w_dev w') then 1 else 0)%nat) w.
Proof.
  intros H0. unfold run_command. apply wp_bind.
  eapply wp_mono; [apply open_transport_unclosed|]. intros ok w1 H1. cbv beta in H1.
  unfold unclosed in H1. rewrite H0 in H1. destruct ok; cbn [negb]; [|apply wp_ret; lia].
  apply wp_bind. eapply wp_mono; [apply ends_unclosed, dispatch_attached|].
  intros [code|ret] w2 H2; cbv beta iota in H2; [apply wp_ret; lia|].
  apply wp_bind. eapply wp_mono; [apply report_kept|]. intros [] w3 (_ & _ & H3 & _).
  apply wp_bind, wp_close_handle. intros n w4 -> Hd _ _. apply wp_ret. rewrite Hd. cbn.
  rewrite H3. lia.
Qed.

(** What holds of the process before [main] and after every command holds after it. *)
Lemma wlp_main (R : proc H -> Prop) argv0 argv (w : World (proc H)) :
  R (w_dev w) ->
  (forall c cmd rest, parse_args (no_switches, no_params) argv = Parsed c (cmd :: rest) ->
    wlp (run_command hs c cmd rest) (fun _ w' => R (w_dev w')) w) ->
  wlp (main hs argv0 argv) (fun _ w' => R (w_dev w')) w.
Proof.
  intros HR Hrun.
  assert (forall w' : World (proc H), w_dev w' = w_dev w -> R (w_dev w')) as Hsame by by intros ? ->.
  assert (wlp (run_main hs argv) (fun _ w' => R (w_dev w')) w) as Hmain.
  { unfold run_main. destruct (parse_args _ _) as [c [|cmd rest]| | |];
      [psteps; by apply Hsame|by apply Hrun|psteps; by apply Hsame|psteps; by apply Hsame|done]. }
  unfold main. destruct argv as [|a [|b argv]]; try exact Hmain.
  destruct (decide _); [unfold help; psteps; by apply Hsame|].
  destruct (decide _); [psteps; by apply Hsame|].
  destruct (decide _); [psteps; by apply Hsame|exact Hmain].
Qed.

(** At most one [ev3_close], and none without a handle. *)
Definition closed_once (p : proc H) : Prop := (p_closed p <= if p_link p then 1 else 0)%nat.

(** C23: On every command line, `main` never closes the handle twice and never closes one it
    did not open. *)
Theorem main_closes argv0 argv f s (w w' : World (proc H)) code :
  w_dev w = start f s -> main hs argv0 argv w = Done code w' -> closed_once (w_dev w').
Proof.
  intros Hw Hrun. refine (wlp_done _ (fun _ w' => closed_once (w_dev w')) _ _ _ _ Hrun).
  apply wlp_main; [rewrite Hw; unfold closed_once, start; cbn; lia|]. intros. apply run_command_closes. by rewrite Hw.
Qed.

(** *** Commands without a brick *)

Lemma offline_ends tmo cmd argv :
  is_offline cmd = true -> ends local (dispatch hs tmo (find_arg args cmd) argv).
Proof.
  intros Ho. apply bool_decide_eq_true in Ho. unfold offline_args in Ho.
  apply elem_of_cons in Ho as [->|[->|[]%elem_of_nil]%elem_of_cons].
  - change (find_arg args (str "mkrbf")) with ARG_mkrbf. cbn [dispatch]. unfold cmd_mkrbf. ends_auto.
  - change (find_arg args (str "uf2")) with ARG_uf2. cbn [dispatch].
    unfold cmd_uf2, uf2_pack_to, uf2_unpack_from. ends_auto.
Qed.

(** The offline commands (mkrbf, uf2) never try a transport and never touch a device. *)
Theorem main_offline argv0 fs cmd argv f s (w w' : World (proc H)) code :
  Forall flag_ok fs -> is_offline cmd = true -> argv <> [] -> w_dev w = start f s ->
  main hs argv0 (concat (map render fs) ++ cmd :: argv) w = Done code w' ->
  w_trace w' = w_trace w /\ p_link (w_dev w') = None /\ p_attempts (w_dev w') = []
  /\ p_closed (w_dev w') = 0%nat.
Proof.
  intros Hfs Ho Ha Hw Hrun.
  refine (wlp_done _ (fun _ w' => w_trace w' = w_trace w /\ _) _ _ _ _ Hrun).
  assert (nth 0 cmd 0 <> 45 /\ is_fw cmd argv = false) as [Hd Hf].
  { apply bool_decide_eq_true in Ho. unfold offline_args in Ho.
    by apply elem_of_cons in Ho as [->|[->|[]%elem_of_nil]%elem_of_cons]. }
  rewrite main_flags by done. unfold run_command, open_transport. rewrite Hf, Ho.
  apply wp_bind, wp_ret. cbn [negb]. apply wp_bind.
  eapply wp_mono; [by apply offline_ends|].
  intros r w1 (w0 & (T0 & L0 & A0 & C0 & _) & T1 & L1 & A1 & C1). rewrite Hw in *.
  destruct r as [code'|ret].
  - apply wp_ret. rewrite T1, L1, A1, T0, L0, A0. repeat split.
    rewrite L0 in C1. destruct C1 as [[-> _]|[[? ?] _]]; done.
  - apply wp_bind. eapply wp_mono; [apply report_offline; by rewrite L1, L0|].
    intros [] w2 (T2 & L2 & A2 & C2 & _). apply wp_bind, wp_close_handle.
    intros n w3 -> Hdev Ht _. apply wp_ret. rewrite Ht, Hdev. cbn. destruct C1 as [C1 _].
    rewrite T2, L2, A2, C2, C1, C0, T1, L1, A1, T0, L0, A0. done.
Qed.
End safety.

