(* ===== verification/MainSelect.v ===== *)
(** * MainSelect: which transport main uses, and what it gives back (src/main.c)

    The chain of transports that main.c tries, as a list of probes; then what
    the process holds of the system (the mode of the terminal, the sockets) while
    a handle is open and after it is closed. *)

From S2P Require Import Prelude Packets IO Logic Stdio Cstr Simple Up Dl Ls.
From S2P Require Import Install Mkrbf Vm BtUnix Tcp Info Tunnel Uf2 Bridge Cli Sim Main MainSafe.

Section selection.
Context {H : Type} `{!Transport H} (hs : host H).

(** The transports a command line allows, in the order in which they are tried,
    and what opening each of them gives. *)
Definition tcp_run (c : switches * params) : tcp_result * list net_act :=
  tcp_open (hs_inet_pton hs) (hs_inet_ntop hs) (tcp_id c.2) (timeout c.2) (hs_net hs)
    (hs_tcp_block hs).
Definition probes (c : switches * params) : list (attempt * (sys -> opening (H := H))) :=
  let allowed b := b || negb (sw_select c.1) in
  (if allowed (sw_hid c.1) then [(TryHid ProductID, hid_opening hs ProductID)] else [])
  ++ (if allowed (sw_serial c.1)
      then [(TryBt (serial_id c.2).1 (serial_id c.2).2,
             fun s => (bt_opening hs (serial_id c.2).1 (serial_id c.2).2 s).2)]
      else [])
  ++ (if allowed (sw_tcp c.1)
      then [(TryTcp (tcp_id c.2) (timeout c.2), tcp_opening hs (tcp_run c).1 (tcp_run c).2)]
      else []).

(** The attempts up to the first that succeeds, its handle, and the system. *)
Fixpoint first_found (ps : list (attempt * (sys -> opening (H := H)))) (s : sys)
    : list attempt * opening (H := H) :=
  match ps with
  | [] => ([], (None, s))
  | (a, o) :: ps =>
      match o s with
      | (Some l, s) => ([a], (Some l, s))
      | (None, s) => let '(tried, r) := first_found ps s in (a :: tried, r)
      end
  end.

(** The TCP handle can be printed. *)
Definition tcp_printable (r : tcp_result) : Prop :=
  match r with
  | TcpOpen t => is_Some (cstr_of (h_name t)) /\ is_Some (cstr_of (h_ip t))
  | TcpNull _ => True
  | TcpUndef => False
  end.

Context {U B : Prop}.
Notation wpp := (wp_ U B).

(** The state of the chain: the attempts so far, and the last of them. *)
Definition reached (f : fs) (st : list attempt * opening (H := H)) (ok : bool)
    (w : World (proc H)) : Prop :=
  ok = bool_decide (is_Some st.2.1) /\ w_dev w = MkProc st.2.1 st.1 0 f st.2.2.

Definition tries (f : fs) (m : M (proc H) bool) (a : attempt) (o : sys -> opening (H := H)) : Prop :=
  forall tried s (Q : bool -> World (proc H) -> Prop) w, w_dev w = MkProc None tried 0 f s ->
  (forall ok w', reached f (tried ++ [a], o s) ok w' -> Q ok w') -> wpp m Q w.

Lemma wp_attempted a (Q : unit -> World (proc H) -> Prop) w :
  Q tt (with_dev (MkProc (p_link (w_dev w)) (p_attempts (w_dev w) ++ [a]) (p_closed (w_dev w))
                    (p_fs (w_dev w)) (p_sys (w_dev w))) w) -> wpp (attempted a) Q w.
Proof. done. Qed.

Lemma wp_opened f tried s o (Q : bool -> World (proc H) -> Prop) w :
  w_dev w = MkProc None tried 0 f s -> (forall ok w', reached f (tried, o) ok w' -> Q ok w') ->
  wpp (opened o) Q w.
Proof.
  intros Hw HQ. unfold opened. apply wp_bind, wp_get_proc. rewrite Hw.
  destruct o as [[l|] s']; psteps; by apply HQ.
Qed.

Lemma announce_keeps c (w : World (proc H)) :
  (forall t s, p_link (w_dev w) = Some (TcpLink t s) -> tcp_printable (TcpOpen t) \/ U) ->
  wpp (announce c) (fun _ w' => w_dev w' = w_dev w) w.
Proof.
  intros Hp. unfold announce. destruct (sw_select c.1); [by psteps|].
  apply wp_bind, wp_get_proc.
  destruct (p_link (w_dev w)) as [[h|s|t s]|]; [by psteps..| |by psteps].
  destruct (Hp t s eq_refl) as [[[name ->] [ip ->]]|HU]; [by psteps|].
  destruct (cstr_of (h_name t)); [|by apply wp_bind, wp_deref_None]. apply wp_bind, wp_deref_Some.
  destruct (cstr_of (h_ip t)); [|by apply wp_bind, wp_deref_None]. by psteps.
Qed.

Lemma tries_hid f : tries f (try_hid hs ProductID) (TryHid ProductID) (hid_opening hs ProductID).
Proof.
  intros tried s Q w Hw HQ. unfold try_hid. apply wp_bind, wp_attempted, wp_bind, wp_get_proc.
  cbn [with_dev w_dev p_sys]. rewrite Hw. cbn [p_sys].
  eapply wp_opened; [cbn; rewrite ?Hw; reflexivity|exact HQ].
Qed.

Lemma tries_bt f c :
  tries f (try_bt hs c) (TryBt (serial_id c.2).1 (serial_id c.2).2)
    (fun s => (bt_opening hs (serial_id c.2).1 (serial_id c.2).2 s).2).
Proof.
  intros tried s Q w Hw HQ. unfold try_bt. destruct (serial_id c.2) as [a b]. cbn [fst snd] in HQ.
  apply wp_bind, wp_attempted, wp_bind, wp_get_proc. cbn [with_dev w_dev p_sys]. rewrite Hw.
  cbn [p_sys]. destruct (bt_opening hs a b s) as [msgs o]. cbn [snd] in HQ.
  apply wp_bind, wp_put_err. eapply wp_opened; [cbn; rewrite ?Hw; reflexivity|exact HQ].
Qed.

Lemma tries_tcp f c :
  tcp_printable (tcp_run c).1 \/ U ->
  tries f (try_tcp hs c) (TryTcp (tcp_id c.2) (timeout c.2))
    (tcp_opening hs (tcp_run c).1 (tcp_run c).2).
Proof.
  intros Hp tried s Q w Hw HQ. unfold try_tcp. apply wp_bind, wp_attempted, wp_bind, wp_get_proc.
  fold (tcp_run c). destruct (tcp_run c) as [res acts]. cbn [fst snd with_dev w_dev p_sys] in *.
  rewrite Hw. cbn [p_sys]. apply wp_bind.
  destruct res as [t|why|].
  - apply wp_ret. eapply wp_opened; [cbn; rewrite ?Hw; reflexivity|exact HQ].
  - destruct why; apply wp_put_err;
      (eapply wp_opened; [cbn; rewrite ?Hw; reflexivity|exact HQ]).
  - by destruct Hp.
Qed.

(** What the chain has after another link of it. *)
Definition extend (st : list attempt * opening (H := H)) (allowed : bool) (a : attempt)
    (o : sys -> opening (H := H)) : list attempt * opening (H := H) :=
  match st.2.1 with
  | Some _ => st
  | None => if allowed then (st.1 ++ [a], o st.2.2) else st
  end.

Lemma wp_extend f st m (b : bool) a o (k : bool -> M (proc H) bool)
    (Q : bool -> World (proc H) -> Prop) ok w :
  reached f st ok w -> (b = true -> tries f m a o) ->
  (forall ok w', reached f (extend st b a o) ok w' -> wpp (k ok) Q w') ->
  wpp (ok' ← (if ok then mret true else if b then m else mret false); k ok') Q w.
Proof.
  intros [-> Hw] Hm HQ. unfold extend in HQ. apply wp_bind.
  destruct st as [tried [[l0|] s]]; cbn [fst snd] in *.
  - rewrite bool_decide_eq_true_2 by done. apply wp_ret. by apply HQ.
  - rewrite bool_decide_eq_false_2 by (by intros [? ?]).
    destruct b; [|apply wp_ret; by apply HQ]. by eapply (Hm eq_refl).
Qed.

Lemma wp_select_end f st ok (w : World (proc H)) :
  reached f st ok w ->
  (forall t s, st.2.1 = Some (TcpLink t s) -> tcp_printable (TcpOpen t) \/ U) ->
  forall c, wpp (if ok then announce c ;; mret true
      else puts ("EV3 not found. Either plug it into the USB port or pair over Bluetooth." +:+ nl)
           ;; no_access ;; mret false) (fun ok' w' => reached f st ok' w') w.
Proof.
  intros [-> Hd] Ht c. unfold reached. destruct st as [tried [[l|] s]]; cbn [fst snd] in *.
  - rewrite bool_decide_eq_true_2 by done. apply wp_bind.
    eapply wp_mono; [apply announce_keeps; rewrite Hd; intros t s' [= ->]; eauto|].
    intros [] w2 E. apply wp_ret. split; [done|]. by rewrite E.
  - rewrite bool_decide_eq_false_2 by (by intros [? ?]). unfold no_access. by psteps.
Qed.

(** The chain is the search for the first probe that finds something. *)
Lemma extend_first_found b1 a1 o1 b2 a2 o2 b3 a3 o3 s :
  extend (extend (extend ([], (None, s)) b1 a1 o1) b2 a2 o2) b3 a3 o3
  = first_found ((if b1 : bool then [(a1, o1)] else []) ++ (if b2 : bool then [(a2, o2)] else [])
                 ++ (if b3 : bool then [(a3, o3)] else [])) s.
Proof.
  unfold extend. destruct b1, b2, b3; cbn; repeat
    match goal with |- context [?o ?s] =>
      is_var o; lazymatch type of s with sys => destruct (o s) as [[?|] ?]; cbn end end;
    done.
Qed.

Lemma first_found_from ps s l :
  (first_found ps s).2.1 = Some l -> exists a o s0, (a, o) ∈ ps /\ (o s0).1 = Some l.
Proof.
  revert s. induction ps as [|[a o] ps IH]; intros s; cbn; [done|].
  destruct (o s) as [[l0|] s'] eqn:E; cbn.
  - intros [= ->]. exists a, o, s. rewrite E. split; [by left|done].
  - specialize (IH s'). destruct (first_found ps s') as [tried r]. intros Hr.
    destruct (IH Hr) as (a' & o' & s0 & Hin & Ho). exists a', o', s0. split; [by right|done].
Qed.

Lemma found_tcp c s t sk :
  (first_found (probes c) s).2.1 = Some (TcpLink t sk) ->
  sw_tcp c.1 || negb (sw_select c.1) = true /\ (tcp_run c).1 = TcpOpen t.
Proof.
  intros (a & o & s0 & Hin & Ho)%first_found_from. unfold probes in Hin.
  apply elem_of_app in Hin as [Hin|[Hin|Hin]%elem_of_app];
    (destruct (_ || _) eqn:Hb; [|by apply elem_of_nil in Hin]); apply list_elem_of_singleton in Hin;
    simplify_eq.
  - unfold hid_opening in Ho. by destruct (hs_hid_open hs ProductID).
  - unfold bt_opening in Ho. by destruct (bt_open _ _ _ _) as [[[] ?] ?].
  - unfold tcp_opening in Ho. split; [done|]. by destruct (tcp_run c).1; simplify_eq/=.
Qed.

(** Where TCP may be tried, opening it does not run into undefined behaviour. *)
Definition tcp_fine (c : switches * params) : Prop :=
  sw_tcp c.1 || negb (sw_select c.1) = true -> tcp_printable (tcp_run c).1 \/ U.

Lemma wp_select c f s (w : World (proc H)) :
  tcp_fine c -> w_dev w = start f s ->
  wpp (select_transport hs c) (fun ok w' => reached f (first_found (probes c) s) ok w') w.
Proof.
  intros Hp Hw. unfold select_transport. cbv zeta.
  apply (wp_extend f ([], (None, s)) _ _ _ _ _ _ false w (conj eq_refl Hw)
    (fun _ => tries_hid f)).
  intros ok1 w1 H1.
  eapply wp_extend; [exact H1|intros _; apply tries_bt|]. intros ok2 w2 H2.
  eapply wp_extend; [exact H2|intros Hb; by apply tries_tcp, Hp|]. intros ok3 w3 H3.
  rewrite extend_first_found in H3. fold (probes c) in H3.
  eapply wp_select_end; [exact H3|]. intros t sk [Hb Hl]%found_tcp. rewrite <- Hl. by apply Hp.
Qed.
End selection.

(** ** What the process gives back

    [sys_idle t0 s]: no handle is open, the terminals have the modes of [t0] and no
    socket is open.  [sys_held t0 s]: a handle may be open, and closing it leads
    there. *)
Section resources.
Variable t0 : tty.

Definition sys_clean (s : sys) : Prop :=
  tty_modes (s_tty s) = tty_modes t0 /\ live (s_net s) [] = Some [].
Definition sys_idle (s : sys) : Prop :=
  s_close s = None /\ tty_ok (s_tty s) /\ tty_fails (s_tty s) = [] /\ sys_clean s.
Definition sys_held (s : sys) : Prop := sys_clean (ev3_close s).2.

Lemma idle_held s : sys_idle s -> sys_held s.
Proof. intros (Hc & _ & _ & Hs). unfold sys_held, ev3_close. by rewrite Hc. Qed.

Context {H : Type} `{!Transport H} (hs : host H).

Definition good_opening (o : opening (H := H)) : Prop :=
  match o with (Some _, s) => sys_held s | (None, s) => sys_idle s end.

Lemma hid_opening_good product s : sys_idle s -> good_opening (hid_opening hs product s).
Proof. intros Hs. unfold hid_opening. destruct (hs_hid_open hs product); [|done]. apply Hs. Qed.

Lemma bt_opening_good file file2 s : sys_idle s -> good_opening (bt_opening hs file file2 s).2.
Proof.
  intros (Hc & Hok & Hf & Hm & Hl). unfold bt_opening.
  destruct (bt_open _ file file2 (s_tty s)) as [[r msgs] t1] eqn:E.
  pose proof (bt_open_keeps _ _ _ _ _ _ _ Hok Hf E) as [Hok1 Hf1].
  apply bt_open_close in E; [|done..]. destruct r as [cb|]; cbn.
  - destruct E as (_ & _ & _ & Hr & _). unfold sys_held, ev3_close. cbn.
    destruct (bt_close cb t1) as [msgs' t2]. split; [by etransitivity|done].
  - split; [done|]. split; [done|]. split; [done|]. split; [by etransitivity|done].
Qed.

Lemma tcp_opening_good serial tmo s :
  sys_idle s -> let r := tcp_open (hs_inet_pton hs) (hs_inet_ntop hs) serial tmo (hs_net hs) (hs_tcp_block hs) in
  good_opening (tcp_opening hs r.1 r.2 s).
Proof.
  intros (Hc & Hok & Hf & Hm & Hl) r. destruct r as [res acts] eqn:E. unfold r in E.
  pose proof (tcp_open_sockets _ _ _ _ _ _ _ _ E) as Hs. cbn. destruct res as [t|why|]; cbn; [..|done].
  - split; cbn; [done|]. rewrite <- app_assoc, live_app, Hl. cbn [mbind option_bind].
    by rewrite live_app, (Hs ltac:(done)).
  - split; [done|]. split; [done|]. split; [done|]. split; [done|].
    cbn. rewrite live_app, Hl. by apply Hs.
Qed.

Lemma first_found_good ps s :
  Forall (fun p => forall s, sys_idle s -> good_opening (p.2 s)) ps -> sys_idle s ->
  good_opening (first_found ps s).2.
Proof.
  intros Hps. revert s. induction Hps as [|[a o] ps Ho _ IH]; intros s Hs; [done|]. cbn.
  specialize (Ho s Hs). cbn in Ho. destruct (o s) as [[l|] s']; [done|].
  specialize (IH s' Ho). by destruct (first_found ps s') as [tried r].
Qed.

Lemma probes_good c :
  Forall (fun p => forall s, sys_idle s -> good_opening (p.2 s)) (probes hs c).
Proof.
  unfold probes. apply Forall_app; split; [|apply Forall_app; split];
    (destruct (_ || _); [apply Forall_singleton; intros s Hs|constructor]).
  - by apply hid_opening_good.
  - by apply bt_opening_good.
  - by apply tcp_opening_good.
Qed.

(** Before the command: either a handle is open, or nothing is. *)
Definition proc_ready (p : proc H) : Prop :=
  p_closed p = 0%nat /\ match p_link p with Some _ => sys_held (p_sys p) | None => sys_idle (p_sys p) end.

Lemma open_transport_ready c cmd argv f s (w : World (proc H)) :
  w_dev w = start f s -> sys_idle s ->
  wlp (open_transport hs c cmd argv) (fun _ w' => proc_ready (w_dev w')) w.
Proof.
  intros Hw Hs. unfold open_transport. destruct (is_fw cmd argv).
  - unfold select_firmware. apply wp_bind.
    unfold try_hid. apply wp_bind, wp_attempted, wp_bind, wp_get_proc.
    cbn [with_dev w_dev p_sys]. rewrite Hw. cbn [p_sys start].
    eapply wp_opened; [cbn; reflexivity|]. intros ok w1 [-> Hw1].
    pose proof (hid_opening_good ProductID_FW s Hs) as Hg.
    destruct (hid_opening hs ProductID_FW s) as [[l|] s']; cbn [fst snd] in Hw1;
      [rewrite bool_decide_eq_true_2 by done|rewrite bool_decide_eq_false_2 by (by intros [])];
      unfold no_access; psteps; rewrite Hw1; by split.
  - destruct (is_offline cmd); [apply wp_ret; rewrite Hw; by split|].
    eapply wp_mono; [eapply wp_select; [by right|done]|]. intros ok w1 [_ Hw1].
    pose proof (first_found_good _ s (probes_good c) Hs) as Hg. rewrite Hw1.
    destruct (first_found _ s) as [tried [[l|] s']]; by split.
Qed.

(** At the end: closed, or never opened, or left open. *)
Definition proc_finished (p : proc H) : Prop :=
  p_closed p = 1%nat \/ p_link p = None -> sys_clean (p_sys p).

Lemma ready_finished p : proc_ready p -> proc_finished p.
Proof. intros [Hc Hl] [He|He]; [by rewrite Hc in He|]. rewrite He in Hl. apply Hl. Qed.

Lemma ends_finished m (w : World (proc H)) :
  ends kept m -> proc_ready (w_dev w) ->
  wlp m (fun r w' => match r with inl _ => proc_finished (w_dev w') | inr _ => proc_ready (w_dev w') end) w.
Proof.
  intros Hm [Hc Hr]. eapply wp_mono; [apply Hm|].
  intros r w' (w0 & (Hl0 & _ & Hc0 & Hs0) & _ & Hl & _ & Hend).
  assert (proc_ready (w_dev w0)) as Hr0.
  { split; [congruence|]. rewrite Hs0.
    destruct (p_link (w_dev w0)), (p_link (w_dev w)); try done.
    - by destruct Hl0 as [[? ?] _].
    - by destruct Hl0 as [_ [? ?]]. }
  assert (forall w1, p_link (w_dev w1) = p_link (w_dev w0) -> p_closed (w_dev w1) = p_closed (w_dev w0) ->
    p_sys (w_dev w1) = p_sys (w_dev w0) -> proc_ready (w_dev w1)) as Hsame.
  { intros w1 E1 E2 E3. unfold proc_ready. by rewrite E1, E2, E3. }
  destruct r as [code|ret]; [|by destruct Hend; apply Hsame].
  destruct Hend as [[? ?]|([l El] & Hcl & Hsy)]; [by apply ready_finished, Hsame|].
  intros _. rewrite Hsy. destruct Hr0 as [_ Hr0]. by rewrite El in Hr0.
Qed.

Lemma run_command_releases c cmd argv f s (w : World (proc H)) :
  find_arg args cmd <> ARG_bridge -> w_dev w = start f s -> sys_idle s ->
  wlp (run_command hs c cmd argv) (fun _ w' => proc_finished (w_dev w')) w.
Proof.
  intros Hcmd Hw Hs. unfold run_command. apply wp_bind.
  eapply wp_mono; [by eapply open_transport_ready|]. intros ok w1 H1. cbv beta in H1.
  destruct ok; cbn [negb]; [|by apply wp_ret, ready_finished].
  apply wp_bind. eapply wp_mono; [apply ends_finished; [by apply dispatch_ends|exact H1]|].
  intros [code|ret] w2 H2; cbv beta iota in H2; [by apply wp_ret|].
  apply wp_bind. eapply wp_mono; [apply report_kept|]. intros [] w3 (Hl3 & _ & Hc3 & Hs3).
  apply wp_bind, wp_close_handle. intros n w4 -> Hd _ _. apply wp_ret. unfold proc_finished. rewrite Hd.
  cbn. intros _. unfold close_sys. rewrite Hs3. destruct H2 as [_ H2].
  destruct (p_link (w_dev w3)), (p_link (w_dev w2)); try done.
  - by destruct Hl3 as [[? ?] _].
  - by destruct Hl3 as [_ [? ?]].
  - apply H2.
Qed.
End resources.

Section theorems.
Context {H : Type} `{!Transport H} (hs : host H).

(** The transports are tried in the order USB, Bluetooth, TCP, restricted to the selected
    ones, up to the first that opens; the handle is that one, and nothing is tried behind
    it. *)
Theorem select_first c f s (w : World (proc H)) :
  tcp_printable (tcp_run hs c).1 -> w_dev w = start f s ->
  wp (select_transport hs c) (fun ok w' =>
    let '(tried, (l, s')) := first_found (probes hs c) s in
    ok = bool_decide (is_Some l) /\ w_dev w' = MkProc l tried 0 f s') w.
Proof.
  intros Hp Hw. eapply wp_mono; [eapply wp_select; [by left|done]|]. intros ok w' Hr.
  by destruct (first_found (probes hs c) s) as [tried [l s']].
Qed.

(** C9: On every command line but those that run `bridge`, whose server sockets stay open
    (StreamWitnesses.bridge_leaves_sockets): when `main` has closed its handle, or never had
    one, every terminal has the mode it had before and no socket is open, for a start
    without handles and sockets and as long as no call on a terminal fails. *)
Theorem main_releases argv0 argv f s (w w' : World (proc H)) code :
  runs_bridge argv = false ->
  w_dev w = start f s -> sys_idle (s_tty s) s -> main hs argv0 argv w = Done code w' ->
  p_closed (w_dev w') = 1%nat \/ p_link (w_dev w') = None ->
  tty_modes (s_tty (p_sys (w_dev w'))) = tty_modes (s_tty s)
  /\ live (s_net (p_sys (w_dev w'))) [] = Some [].
Proof.
  intros Hb Hw Hs Hrun.
  refine (wlp_done _ (fun _ w' => proc_finished (s_tty s) (w_dev w')) _ _ _ _ Hrun).
  apply wlp_main; [rewrite Hw; by apply ready_finished|].
  intros c cmd rest Hp. eapply run_command_releases; [|done|done].
  unfold runs_bridge in Hb. rewrite Hp in Hb. by apply bool_decide_eq_false in Hb.
Qed.

(** An online command behind the first transport that opens: what remains is the
    command itself. *)
Lemma wp_main_first U B argv0 fs cmd argv f s tried l s' (Q : Z -> World (proc H) -> Prop) w :
  Forall flag_ok fs -> tcp_fine hs (U := U) (config fs) -> w_dev w = start f s ->
  first_found (probes hs (config fs)) s = (tried, (Some l, s')) ->
  nth 0 cmd 0 <> 45 -> argv <> [] -> is_fw cmd argv = false -> is_offline cmd = false ->
  (forall w', w_dev w' = MkProc (Some l) tried 0 f s' ->
    wp_ U B (dispatch hs (timeout (config fs).2) (find_arg args cmd) argv)
      (fun r w'' => wp_ U B (finish hs r) Q w'') w') ->
  wp_ U B (main hs argv0 (concat (map render fs) ++ cmd :: argv)) Q w.
Proof.
  intros Hfs Hp Hw Hl Hd Ha Hf Ho HQ. rewrite main_flags by done. unfold run_command.
  apply wp_bind. unfold open_transport. rewrite Hf, Ho.
  eapply wp_mono; [by eapply wp_select|]. intros ok w' [-> Hw']. rewrite Hl in *.
  cbn [fst snd] in *. rewrite bool_decide_eq_true_2 by done. cbn [negb].
  apply wp_bind. eapply wp_mono; [by apply HQ|]. intros [code|ret] w''; done.
Qed.

End theorems.
