(* ===== verification/MainStream.v ===== *)
(** * MainStream: whole runs of main over a serial device and over TCP

    The transfers of main.c with the transports of bt-unix.c and tcp.c below
    them: from the command line to the bytes on the stream, the local file, the
    mode of the terminal and the sockets at the end. *)

From S2P Require Import Prelude Packets IO Logic Stdio Cstr Simple Up Dl Ls.
From S2P Require Import Install Mkrbf Vm BtUnix Stream Tcp Info Tunnel Uf2 Bridge Cli Sim.
From S2P Require Import Main MainSafe MainSelect.

(** The command line selects exactly one of them. *)
Definition serial_only (c : switches * params) : Prop :=
  sw_select c.1 = true /\ sw_hid c.1 = false /\ sw_serial c.1 = true /\ sw_tcp c.1 = false.
Definition tcp_only (c : switches * params) : Prop :=
  sw_select c.1 = true /\ sw_hid c.1 = false /\ sw_serial c.1 = false /\ sw_tcp c.1 = true.

(** [fopen(path, "wb")] succeeds. *)
Definition writable (path : list Z) (f : fs) : Prop :=
  fs_denied f path || bool_decide (path ∈ fs_dirs f) || negb (has_parent path f)
  || bool_decide (path = []) = false.

Section runs.
Context {H : Type} `{!Transport H} (hs : host H).

(** ** The serial device *)

Definition bt_sys (cb : bt_handle) (t : tty) (s : sys) : sys := MkSys (Some (CloseBt cb)) t (s_net s).
Definition bt_attempt (c : switches * params) : attempt :=
  TryBt (serial_id c.2).1 (serial_id c.2).2.

Lemma serial_fine U c : serial_only c -> tcp_fine hs (U := U) c.
Proof. intros (H1 & _ & _ & H4). unfold tcp_fine. by rewrite H1, H4. Qed.

Lemma found_serial c s cb msgs t1 :
  serial_only c ->
  bt_open (hs_os_open hs) (serial_id c.2).1 (serial_id c.2).2 (s_tty s) = (Some cb, msgs, t1) ->
  first_found (probes hs c) s = ([bt_attempt c], (Some (BtLink (hs_serial hs)), bt_sys cb t1 s)).
Proof.
  intros (H1 & H2 & H3 & H4) Hbt. unfold probes. rewrite H1, H2, H3, H4. cbn.
  unfold bt_opening. by rewrite Hbt.
Qed.

(** What [main] holds of the system once it has closed the serial device. *)
Lemma serial_closed (c : switches * params) s cb msgs t1 :
  tty_ok (s_tty s) -> tty_fails (s_tty s) = [] ->
  bt_open (hs_os_open hs) (serial_id c.2).1 (serial_id c.2).2 (s_tty s) = (Some cb, msgs, t1) ->
  released (s_tty s) (s_tty (ev3_close (bt_sys cb t1 s)).2).
Proof.
  intros Hok Hf Hbt. apply bt_open_close in Hbt; [|done..]. cbn.
  destruct Hbt as (_ & _ & _ & Hr). unfold ev3_close. cbn. by destruct (bt_close cb t1).
Qed.

(** C2: `ev3duder --serial=dev up loc rem` against a brick that acknowledges every packet in
    time writes the packets of the upload to the device, each without its HID byte and
    nothing else, however the acknowledgements are cut into reads, exits with ERR_UNK, and
    leaves the terminal in the mode it had. *)
Theorem main_up_serial argv0 fs loc rem data f s cb msgs t1 h t (w : World (proc H)) :
  Forall flag_ok fs -> serial_only (config fs) ->
  w_dev w = start f s -> tty_ok (s_tty s) -> tty_fails (s_tty s) = [] ->
  bt_open (hs_os_open hs) (serial_id (config fs).2).1 (serial_id (config fs).2).2 (s_tty s)
    = (Some cb, msgs, t1) ->
  fs_files f !! loc = Some data -> fs_denied f loc = false ->
  zlen data < 2 ^ 32 -> cstr_ok rem -> zlen rem + 12 < 65535 ->
  acks_left h (S (num_chunks (zlen data))) t (hs_serial hs) ->
  wp (main hs argv0 (concat (map render fs) ++ [str "up"; loc; rem])) (fun code w' =>
    code = ERR_UNK
    /\ (exists sk, p_link (w_dev w') = Some (BtLink sk)
         /\ fd_sent sk = fd_sent (hs_serial hs) ++ upload_stream rem (zlen data) h data)
    /\ p_attempts (w_dev w') = [bt_attempt (config fs)] /\ p_closed (w_dev w') = 1%nat
    /\ p_fs (w_dev w') = f /\ released (s_tty s) (s_tty (p_sys (w_dev w')))) w.
Proof.
  intros Hfs Hc Hw Hok Hf Hbt Hdata Hden Hz Hrem Hlen Hacks.
  eapply (wp_main_first hs _ _ _ fs); [done|by apply serial_fine|done|by eapply found_serial|done..|].
  intros w1 E1. change (find_arg args (str "up")) with ARG_up. cbn [dispatch cmd_up].
  unfold open_rb. psteps. unfold read_file. rewrite E1. cbn [p_fs]. rewrite Hden, Hdata.
  cbn [fmap option_fmap option_map].
  eapply (wp_remote_in hs BtLink); [by rewrite E1|apply sim_up, _|].
  eapply wp_mono.
  { apply (@up_stores _ _ (stream_receiver h (fd_sent (hs_serial hs)) t)); done. }
  cbn beta. intros ret w2 (-> & _ & fd & Hrcv) w3 F1 _ _ _ _.
  eapply wp_finish; [exact F1|done|done|]. intros w4 G1 _ _ _. rewrite G1. cbn.
  destruct Hrcv as (_ & _ & _ & _ & Hsent). split; [done|]. split; [by eexists|].
  split; [done|]. split; [done|]. split; [done|]. by eapply serial_closed.
Qed.
(** `ev3duder --serial=dev up loc rem` with a local file that cannot be read exits behind the
    report with the device open and its terminal in raw mode: the handle is not closed. *)
Theorem main_exit_leaves_raw argv0 fs loc rem f s cb msgs t1 (w : World (proc H)) :
  Forall flag_ok fs -> serial_only (config fs) ->
  w_dev w = start f s -> tty_ok (s_tty s) -> tty_fails (s_tty s) = [] ->
  bt_open (hs_os_open hs) (serial_id (config fs).2).1 (serial_id (config fs).2).2 (s_tty s)
    = (Some cb, msgs, t1) ->
  fs_files f !! loc = None ->
  wp (main hs argv0 (concat (map render fs) ++ [str "up"; loc; rem])) (fun code w' =>
    code = ERR_IO /\ p_closed (w_dev w') = 0%nat
    /\ (exists m, tty_modes (s_tty s) !! default BT (serial_id (config fs).2).1 = Some m
         /\ tty_modes (s_tty (p_sys (w_dev w')))
            = <[default BT (serial_id (config fs).2).1 := raw_mode m]> (tty_modes (s_tty s)))) w.
Proof.
  intros Hfs Hc Hw Hok Hf Hbt Hdata.
  pose proof (bt_open_close _ _ _ _ _ _ _ Hok Hf Hbt) as (Hraw & _).
  eapply (wp_main_first hs _ _ _ fs); [done|by apply serial_fine|done|by eapply found_serial|done..|].
  intros w1 E1. change (find_arg args (str "up")) with ARG_up. cbn [dispatch cmd_up].
  unfold open_rb. psteps. unfold read_file. rewrite E1. cbn [p_fs].
  assert ((if fs_denied f loc then None else fopen_rb <$> fs_files f !! loc) = None) as ->
    by (rewrite Hdata; by destruct (fs_denied f loc)).
  psteps. cbn [finish]. psteps. rewrite E1. done.
Qed.

(** A command that ends in a communication error over a serial device, in the C locale: the
    report of the error reads behind the end of the text of `bt_error`. *)
Theorem report_serial_undef sk att n f s (w : World (proc H)) :
  w_dev w = MkProc (Some (BtLink sk)) att n f s ->
  hs_mbstowcs hs (hs_strerror hs) = Some (hs_strerror hs) -> cstr_ok (hs_strerror hs) ->
  exists why, report hs ERR_COMM w = Undef why.
Proof.
  intros Hw Hm Hok. unfold report, on_link, deref, ev3_error.
  unfold mbind, M_bind, get_world. change (ERR_COMM =? ERR_COMM) with true. cbv iota beta.
  rewrite Hw. cbn [p_link]. rewrite bt_error_open by done. by eexists.
Qed.

(** ** The network *)

Definition tcp_sys (acts : list net_act) (s : sys) : sys :=
  MkSys (Some CloseTcp) (s_tty s) (s_net s ++ acts).
Definition tcp_attempt (c : switches * params) : attempt := TryTcp (tcp_id c.2) (timeout c.2).

Lemma found_tcp_open c s t acts :
  tcp_only c -> tcp_run hs c = (TcpOpen t, acts) ->
  first_found (probes hs c) s = ([tcp_attempt c], (Some (TcpLink t (hs_socket hs)), tcp_sys acts s)).
Proof.
  intros (H1 & H2 & H3 & H4) Ht. unfold probes. rewrite H1, H2, H3, H4, Ht. done.
Qed.

Lemma wp_open_wb U B path f (Q : option FILE -> World (proc H) -> Prop) w :
  p_fs (w_dev w) = f -> writable path f ->
  (forall w', w_dev w' = set_fs (MkFs (fs_dirs f) (<[path := []]> (fs_files f)) (fs_denied f)) (w_dev w) ->
    Q (Some fopen_wb) w') -> wp_ U B (open_wb path) Q w.
Proof.
  intros Hf Hp HQ. unfold open_wb. apply wp_bind, wp_get_proc. rewrite Hf. cbv zeta.
  rewrite Hp. unfold store, put_fs. psteps. rewrite Hf. by apply HQ.
Qed.

Lemma wp_store U B path fp (Q : unit -> World (proc H) -> Prop) w :
  (forall w', w_dev w' = set_fs (MkFs (fs_dirs (p_fs (w_dev w)))
      (<[path := f_data fp]> (fs_files (p_fs (w_dev w)))) (fs_denied (p_fs (w_dev w)))) (w_dev w) ->
    Q tt w') -> wp_ U B (store path fp) Q w.
Proof. intros HQ. unfold store, put_fs. psteps. by apply HQ. Qed.

(** C3: `ev3duder --tcp=serial dl rem loc` finds the brick of that serial number among the
    beacons of the network, connects to it, at once or, as a socket that does not block
    does, in progress until `select` reports it writable with no error on the socket,
    downloads over the connection exactly the content that the brick serves, however its
    replies are cut into segments, stores it under the local name, exits with ERR_UNK and
    closes every socket. The network lets the request and the replies through in time (the
    confirmation has less than 128 bytes), the beacons have the fields tcp_open scans for,
    the content is below 4 GiB, and the local file can be written. *)
Theorem main_dl_tcp argv0 fs rem loc content serial others b ds f s rep piece reps pieces t
    (w : World (proc H)) :
  let c := config fs in
  Forall flag_ok fs -> tcp_only c -> tcp_id c.2 = Some serial -> existsb (Z.eqb 46) serial = false ->
  n_broadcasts (hs_net hs) = map datagram others ++ datagram b :: ds -> net_works (hs_net hs) ->
  Forall (fun o => brick_ok o /\ b_serial o <> serial) others -> brick_ok b -> b_serial b = serial ->
  tcp_handle_ok (hs_tcp_block hs) ->
  w_dev w = start f s -> live (s_net s) [] = Some [] -> writable loc f ->
  zlen rem + 10 < 65535 -> zlen content < 2 ^ 32 -> (length content <= hs_fuel hs)%nat ->
  serves content rep piece reps pieces ->
  prompt (hs_socket hs) -> delivers (fd_in (hs_socket hs)) (rep ++ concat reps) t ->
  wp (main hs argv0 (concat (map render fs) ++ [str "dl"; rem; loc])) (fun code w' =>
    code = ERR_UNK
    /\ fs_files (p_fs (w_dev w')) = <[loc := content]> (fs_files f)
    /\ (exists h sk, p_link (w_dev w') = Some (TcpLink h sk)
         /\ cstr_of (h_serial h) = Some serial /\ h_tcp_port h = b_port b
         /\ delivers (fd_in sk) [] t
         /\ fd_sent sk = fd_sent (hs_socket hs)
              ++ download_stream rem (removelast (reply_handles rep reps)))
    /\ p_attempts (w_dev w') = [tcp_attempt c] /\ p_closed (w_dev w') = 1%nat
    /\ Request (target_request serial (b_protocol b)) ∈ s_net (p_sys (w_dev w'))
    /\ live (s_net (p_sys (w_dev w'))) [] = Some []) w.
Proof.
  intros c Hfs Hc Hid Hdot Hds Hnet Ho Hb Hs Hh Hw Hlive Hloc Hrem Hz Hfuel Hserve Hp Hd.
  destruct (tcp_open_finds (hs_inet_pton hs) (hs_inet_ntop hs) serial others b ds (timeout c.2)
    (hs_net hs) (hs_tcp_block hs)) as (h & Hrun & Hser & Hname & Hip & Hport); [done..|].
  assert (tcp_run hs c = (TcpOpen h, _)) as Htcp by (unfold tcp_run; rewrite Hid; exact Hrun).
  pose proof (tcp_open_sockets _ _ _ _ _ _ _ _ Hrun ltac:(done)) as Hopen.
  revert Htcp Hopen. match goal with |- tcp_run _ _ = (_, ?a) -> _ => set (acts := a) end.
  intros Htcp Hopen.
  assert (Request (target_request serial (b_protocol b)) ∈ acts) as Hreq
    by (unfold acts; set_solver).
  eapply (wp_main_first hs _ _ _ fs);
    [done| |done|by eapply found_tcp_open|done..|].
  { intros _. left. fold c. rewrite Htcp. cbn. rewrite Hname. by split. }
  intros w1 E1. change (find_arg args (str "dl")) with ARG_dl. cbn [dispatch cmd_dl]. unfold dl_to.
  apply wp_bind. eapply wp_open_wb; [by rewrite E1|done|]. intros w2 E2. rewrite E1 in E2.
  apply wp_bind. eapply (wp_on_device (TcpLink h)); [by rewrite E2|apply sim_dl, _|].
  eapply wp_mono.
  { apply (@dl_receives _ _ (stream_sender rem rep reps pieces (fd_sent (hs_socket hs)) t) _ _ content);
      try done. repeat (split; [by eauto|]). done. }
  cbn beta. intros [ret fp] w3 (Hret & Hfp & _ & h' & Hsend). cbn [fst snd] in *. subst ret.
  apply wp_bind, wp_store. intros w4 E4. apply wp_ret.
  rewrite E2 in E4. cbn in E4. rewrite Hfp in E4. cbn [f_data fopen_wb app] in E4.
  eapply wp_finish; [exact E4|done|done|]. intros w5 G1 _ _ _. rewrite G1. cbn.
  split; [done|]. split; [apply insert_insert_eq|].
  apply stream_sent_all in Hsend as [Hin Hsent]; [|by eapply Forall2_length, Hserve].
  split; [by exists h, (w_dev w3)|]. split; [done|]. split; [done|].
  split.
  - rewrite !elem_of_app. by left; right.
  - by rewrite !live_app, Hlive.
Qed.
End runs.
