(* ===== verification/Output.v ===== *)
(** * Output: the motors of the brick (src/util/cat/ev3_output.c)

    The library writes commands to the PWM device of the kernel, reads the busy
    outputs back from it, and reads the motor positions from shared memory.  How
    the device answers is a function of what happened on it before.  [char] is
    unsigned, as on ARM. *)

From S2P Require Import Prelude Cstr.

(** ** Constants *)

Definition OWNER_NONE : Z := 0x0000.
Definition LAYER_MASTER : Z := 0x00.
Definition LAYER_MASK : Z := 0x70.
Definition OUT_A : Z := 0x01.
Definition OUT_B : Z := 0x02.
Definition OUT_C : Z := 0x04.
Definition OUT_D : Z := 0x08.
Definition OUT_AB : Z := 0x03.
Definition OUT_AC : Z := 0x05.
Definition OUT_AD : Z := 0x09.
Definition OUT_BC : Z := 0x06.
Definition OUT_BD : Z := 0x0a.
Definition OUT_CD : Z := 0x0c.
Definition OUT_ALL : Z := 0x0f.
Definition OUT_MASK : Z := 0x0f.
Definition OUT_FLOAT : Z := 0x00.
Definition OUT_OFF : Z := 0x40.
Definition OUT_ON : Z := 0x80.
Definition OUT_REV : Z := 0x00.
Definition OUT_TOGGLE : Z := 0x40.
Definition OUT_FWD : Z := 0x80.
Definition OUT_POWER_DEFAULT : Z := -127.
Definition OUT_REGMODE_SPEED : Z := 1.
Definition RESET_NONE : Z := 0x00.
Definition RESET_COUNT : Z := 0x08.
Definition RESET_BLOCK_COUNT : Z := 0x20.
Definition RESET_ROTATION_COUNT : Z := 0x40.
Definition RESET_BLOCKANDTACHO : Z := 0x28.
Definition RESET_ALL : Z := 0x68.
Definition NUM_OUTPUTS : Z := 4.
Definition INT_MAX : Z := 2 ^ 31 - 1.

Definition opProgramStop : Z := 0x02.
Definition opProgramStart : Z := 0x03.
Definition opOutputSetType : Z := 0xA1.
Definition opOutputReset : Z := 0xA2.
Definition opOutputStop : Z := 0xA3.
Definition opOutputPower : Z := 0xA4.
Definition opOutputSpeed : Z := 0xA5.
Definition opOutputStart : Z := 0xA6.
Definition opOutputPolarity : Z := 0xA7.
Definition opOutputStepPower : Z := 0xAC.
Definition opOutputTimePower : Z := 0xAD.
Definition opOutputStepSpeed : Z := 0xAE.
Definition opOutputTimeSpeed : Z := 0xAF.
Definition opOutputStepSync : Z := 0xB0.
Definition opOutputTimeSync : Z := 0xB1.
Definition opOutputClearCount : Z := 0xB2.

(** The ramps of [RotateMotorNoWaitEx] have no length. *)
Definition RAMP_UP_PCT : Z := 10.
Definition RAMP_UP_DEGREES : Z := 0.
Definition RAMP_DOWN_PCT : Z := 10.
Definition RAMP_DOWN_DEGREES : Z := 0.

(** ** The state *)

Record MOTORDATA := MkMotor { TachoCounts : Z; Speed : Z; TachoSensor : Z }.

(** [pMotor]: NULL, the array of the process, or the shared memory. *)
Inductive motor_pointer := Null | Own | Shared.

(** What happened on the PWM device, the latest first: a write with its result,
    or a read. *)
Inductive pwm_event := Wrote (bytes : list Z) (result : Z) | Polled.

Record output := MkOutput {
  OutputTypes : list Z;
  Owners : list Z;
  PwmFile : Z;
  MotorFile : Z;
  MotorData : list MOTORDATA;
  SharedData : list MOTORDATA;
  pMotor : motor_pointer;
  pwm_log : list pwm_event;
}.

Definition set_types (l : list Z) (s : output) : output :=
  MkOutput l (Owners s) (PwmFile s) (MotorFile s) (MotorData s) (SharedData s) (pMotor s) (pwm_log s).
Definition set_owners (l : list Z) (s : output) : output :=
  MkOutput (OutputTypes s) l (PwmFile s) (MotorFile s) (MotorData s) (SharedData s) (pMotor s) (pwm_log s).
Definition set_files (pwm motor : Z) (s : output) : output :=
  MkOutput (OutputTypes s) (Owners s) pwm motor (MotorData s) (SharedData s) (pMotor s) (pwm_log s).
Definition set_pmotor (p : motor_pointer) (s : output) : output :=
  MkOutput (OutputTypes s) (Owners s) (PwmFile s) (MotorFile s) (MotorData s) (SharedData s) p (pwm_log s).
Definition log_event (e : pwm_event) (s : output) : output :=
  MkOutput (OutputTypes s) (Owners s) (PwmFile s) (MotorFile s) (MotorData s) (SharedData s) (pMotor s)
    (e :: pwm_log s).

(** The array behind [pMotor]. *)
Definition motors (s : output) : list MOTORDATA :=
  match pMotor s with Null => [] | Own => MotorData s | Shared => SharedData s end.
Definition set_motors (l : list MOTORDATA) (s : output) : output :=
  match pMotor s with
  | Null => s
  | Own => MkOutput (OutputTypes s) (Owners s) (PwmFile s) (MotorFile s) l (SharedData s) (pMotor s) (pwm_log s)
  | Shared => MkOutput (OutputTypes s) (Owners s) (PwmFile s) (MotorFile s) (MotorData s) l (pMotor s) (pwm_log s)
  end.

(** Static storage, with the given shared memory behind the device. *)
Definition output0 (mem : list MOTORDATA) : output :=
  MkOutput (replicate 4 0) (replicate 4 0) 0 0 (replicate 4 (MkMotor 0 0 0)) mem Null [].

(** ** Helpers *)

Definition OutputToMotorNum (Output : Z) : Z :=
  if Output =? OUT_A then 0
  else if Output =? OUT_B then 1
  else if Output =? OUT_C then 2
  else if Output =? OUT_D then 3
  else NUM_OUTPUTS.

(** The outputs and the layer. *)
Definition DecodeOutputs (outputs : Z) : Z * Z :=
  (Z.land outputs OUT_MASK, Z.land outputs LAYER_MASK).

Definition OutputInitialized (s : output) : bool :=
  negb (PwmFile s =? -1) && (match pMotor s with Null => false | _ => true end).

(** [for (i = 0; i < NUM_OUTPUTS; i++) if (Outputs & (0x01 << i)) l[i] = f(l[i]);] *)
Definition for_outputs {A} (Outputs : Z) (f : A -> A) (l : list A) : list A :=
  imap (fun i x => if Z.testbit Outputs (Z.of_nat i) then f x else x) l.

Section device.
(** The result of a write and of a read of 10 bytes, by what happened before. *)
Context (on_write : list pwm_event -> list Z -> Z) (on_read : list pwm_event -> Z * list Z).
(** What the stack leaves in the padding of the structs and in a buffer. *)
Context (pad : nat -> Z) (stack : list Z).

Definition WriteToPWMDevice (bytes : list Z) (s : output) : Z * output :=
  if 0 <=? PwmFile s then
    let result := on_write (pwm_log s) bytes in
    (if 0 <=? result then zlen bytes else result, log_event (Wrote bytes result) s)
  else (-1, s).

(** [WriteToPWMDevice(cmd, cmdLen) == cmdLen]. *)
Definition send (cmd : list Z) (s : output) : bool * output :=
  let '(result, s) := WriteToPWMDevice cmd s in (result =? zlen cmd, s).

(** The frame of the calls: [k] gets the outputs if they are on the master. *)
Definition on_master (Outputs : Z) (k : Z -> output -> bool * output) (s : output) : bool * output :=
  if negb (OutputInitialized s) then (false, s) else
  let '(Outputs, Layer) := DecodeOutputs Outputs in
  if Layer =? LAYER_MASTER then k Outputs s else (false, s).

(** The owner of the outputs is set after a write that succeeds. *)
Definition send_owned (Outputs Owner : Z) (cmd : list Z) (s : output) : bool * output :=
  let '(result, s) := send cmd s in
  (result, if result then set_owners (for_outputs Outputs (fun _ => Owner) (Owners s)) s else s).

(** ** Commands *)

Definition OutputStop (Outputs : Z) (useBrake : bool) : output -> bool * output :=
  on_master Outputs (fun Outputs => send [opOutputStop; Outputs; Z.b2z useBrake]).

Definition ResetOutputs (s : output) : bool * output :=
  OutputStop OUT_ALL false (set_owners (replicate 4 OWNER_NONE) s).

Definition OutputOpen (s : output) : bool * output :=
  if negb (OutputInitialized s) then (false, s) else
  let '(result, s) := ResetOutputs s in
  if result then send [opProgramStart] s else (result, s).

(** [open] gives the two descriptors, [mapped] is the success of mmap. *)
Definition OutputInit (pwm motor : Z) (mapped : bool) (s : output) : bool * output :=
  if OutputInitialized s then (true, s) else
  let s := set_files pwm (MotorFile s) (set_pmotor Own s) in
  if 0 <=? pwm then
    let s := set_files pwm motor s in
    if 0 <=? motor then
      if mapped then OutputOpen (set_pmotor Shared s) else (false, set_files (-1) (-1) s)
    else (false, s)
  else (false, s).

Definition OutputClose (s : output) : bool * output :=
  if negb (OutputInitialized s) then (false, s) else ResetOutputs s.

Definition OutputExit (s : output) : bool * output :=
  if negb (OutputInitialized s) then (true, s) else
  let '(result, s) := ResetOutputs s in
  let s := if 0 <=? MotorFile s then set_files (PwmFile s) (-1) s else s in
  let s := if 0 <=? PwmFile s then set_files (-1) (MotorFile s) s else s in
  (result, s).

Definition OutputProgramStop (s : output) : bool * output :=
  if negb (OutputInitialized s) then (false, s) else send [opProgramStop] s.

Definition OutputSetTypes (OutputA OutputB OutputC OutputD : Z) (s : output) : bool * output :=
  if negb (OutputInitialized s) then (false, s) else
  let '(result, s) := send [opOutputSetType; OutputA; OutputB; OutputC; OutputD] s in
  (result, if result then set_types [OutputA; OutputB; OutputC; OutputD] s else s).
Definition OutputSetTypesArray (pTypes : list Z) : output -> bool * output :=
  OutputSetTypes (nth 0 pTypes 0) (nth 1 pTypes 0) (nth 2 pTypes 0) (nth 3 pTypes 0).
Definition OutputSetType (Output DeviceType : Z) : output -> bool * output :=
  on_master Output (fun Output s =>
    let Output := OutputToMotorNum Output in
    if Output <? NUM_OUTPUTS then
      if negb (nth (Z.to_nat Output) (OutputTypes s) 0 =? DeviceType) then
        let s := set_types (<[Z.to_nat Output := DeviceType]> (OutputTypes s)) s in
        OutputSetTypesArray (OutputTypes s) s
      else (false, s)
    else (false, s)).

Definition OutputReset (Outputs : Z) : output -> bool * output :=
  on_master Outputs (fun Outputs => send [opOutputReset; Outputs]).
Definition OutputSpeed (Outputs Speed : Z) : output -> bool * output :=
  on_master Outputs (fun Outputs => send [opOutputSpeed; Outputs; Speed]).
Definition OutputPower (Outputs Power : Z) : output -> bool * output :=
  on_master Outputs (fun Outputs => send [opOutputPower; Outputs; Power]).
Definition OutputPolarity (Outputs Polarity : Z) : output -> bool * output :=
  on_master Outputs (fun Outputs => send [opOutputPolarity; Outputs; Polarity]).
Definition OutputStartEx (Outputs Owner : Z) : output -> bool * output :=
  on_master Outputs (fun Outputs => send_owned Outputs Owner [opOutputStart; Outputs]).

(** The struct [StepOrTimePwrOrSpd] as the compiler lays it out. *)
Definition StepOrTimePwrOrSpd (Cmd Outputs PwrOrSpd StepOrTime1 StepOrTime2 StepOrTime3 : Z)
    (Brake : bool) : list Z :=
  [Cmd; Outputs; PwrOrSpd; pad 3] ++ le_bytes 4 StepOrTime1 ++ le_bytes 4 StepOrTime2
  ++ le_bytes 4 StepOrTime3 ++ [Z.b2z Brake; pad 17; pad 18; pad 19].
Definition StepOrTimeSync (Cmd Outputs Speed Turn StepOrTime : Z) (Brake : bool) : list Z :=
  [Cmd; Outputs; Speed; pad 3] ++ le_bytes 2 Turn ++ [pad 6; pad 7] ++ le_bytes 4 StepOrTime
  ++ [Z.b2z Brake; pad 13; pad 14; pad 15].

(** The four functions differ in the command. *)
Definition step_or_time (Cmd Outputs PwrOrSpd A B C : Z) (useBrake : bool) (Owner : Z)
    : output -> bool * output :=
  on_master Outputs (fun Outputs =>
    send_owned Outputs Owner (StepOrTimePwrOrSpd Cmd Outputs PwrOrSpd A B C useBrake)).
Definition OutputStepPowerEx : Z -> Z -> Z -> Z -> Z -> bool -> Z -> output -> bool * output :=
  step_or_time opOutputStepPower.
Definition OutputTimePowerEx : Z -> Z -> Z -> Z -> Z -> bool -> Z -> output -> bool * output :=
  step_or_time opOutputTimePower.
Definition OutputStepSpeedEx : Z -> Z -> Z -> Z -> Z -> bool -> Z -> output -> bool * output :=
  step_or_time opOutputStepSpeed.
Definition OutputTimeSpeedEx : Z -> Z -> Z -> Z -> Z -> bool -> Z -> output -> bool * output :=
  step_or_time opOutputTimeSpeed.

Definition is_pair (Outputs : Z) : bool :=
  (Outputs =? OUT_AB) || (Outputs =? OUT_AC) || (Outputs =? OUT_AD)
  || (Outputs =? OUT_BC) || (Outputs =? OUT_BD) || (Outputs =? OUT_CD).

(** The two functions differ in the command. *)
Definition sync (Cmd Outputs Speed Turn StepOrTime : Z) (useBrake : bool) (Owner : Z) (s : output)
    : bool * output :=
  if negb (OutputInitialized s) then (false, s) else
  let '(Outputs, Layer) := DecodeOutputs Outputs in
  if negb (is_pair Outputs) then (false, s) else
  if Layer =? LAYER_MASTER
  then send_owned Outputs Owner (StepOrTimeSync Cmd Outputs Speed Turn StepOrTime useBrake) s
  else (false, s).
Definition OutputStepSyncEx : Z -> Z -> Z -> Z -> bool -> Z -> output -> bool * output :=
  sync opOutputStepSync.
Definition OutputTimeSyncEx : Z -> Z -> Z -> Z -> bool -> Z -> output -> bool * output :=
  sync opOutputTimeSync.

Definition OutputClearCount (Outputs : Z) : output -> bool * output :=
  on_master Outputs (fun Outputs s =>
    let '(result, s) := send [opOutputClearCount; Outputs] s in
    (result, if result
             then set_motors (for_outputs Outputs (fun m => MkMotor (TachoCounts m) (Speed m) 0)
                                (motors s)) s
             else s)).

(** ** Reading *)

(** What is stored through the pointers: nothing before the initialization. *)
Definition OutputRead (Output : Z) (s : output) : bool * option MOTORDATA :=
  if negb (OutputInitialized s) then (false, None) else
  let '(Output, Layer) := DecodeOutputs Output in
  let none := MkMotor 0 0 0 in
  if Layer =? LAYER_MASTER then
    let Output := OutputToMotorNum Output in
    if Output <? NUM_OUTPUTS then (true, Some (nth (Z.to_nat Output) (motors s) none))
    else (false, Some none)
  else (false, Some none).
Definition OutputGetCount (Output : Z) (s : output) : bool * option Z :=
  let '(r, m) := OutputRead Output s in (r, TachoSensor <$> m).
Definition OutputGetTachoCount (Output : Z) (s : output) : bool * option Z :=
  let '(r, m) := OutputRead Output s in (r, TachoCounts <$> m).
Definition OutputGetActualSpeed (Output : Z) (s : output) : bool * option Z :=
  let '(r, m) := OutputRead Output s in (r, Speed <$> m).
Definition MotorTachoCount (Output : Z) (s : output) : Z := default 0 (OutputGetTachoCount Output s).2.
Definition MotorBlockTachoCount (Output : Z) (s : output) : Z :=
  default 0 (OutputGetTachoCount Output s).2.
Definition MotorPower (Output : Z) (s : output) : Z := default 0 (OutputGetActualSpeed Output s).2.
Definition MotorActualSpeed (Output : Z) (s : output) : Z :=
  default 0 (OutputGetActualSpeed Output s).2.
Definition MotorRotationCount (Output : Z) (s : output) : Z := default 0 (OutputGetCount Output s).2.

(** A conversion [%u]: the number saturates at 2^32 - 1 and may have a sign. *)
Definition scan_magnitude (neg : bool) (l : list Z) : option (Z * list Z) :=
  match scan_dec None l with
  | (Some v, l) => let v := Z.min v (2 ^ 32 - 1) in Some (if neg then u32 (- v) else v, l)
  | (None, _) => None
  end.
Definition scan_u (l : list Z) : option (Z * list Z) :=
  match skip_space l with
  | [] => None
  | c :: l =>
      if c =? 43 then scan_magnitude false l
      else if c =? 45 then scan_magnitude true l
      else scan_magnitude false (c :: l)
  end.

(** [sscanf(busyReturn, "%u %u", &test, &test2)] into variables that are 0. *)
Definition scan_busy (l : list Z) : Z * Z :=
  match scan_u l with
  | None => (0, 0)
  | Some (test, l) => (test, default 0 (fst <$> scan_u l))
  end.

(** The numbers read from the device; [None] is a scan that runs over the end of
    the buffer, which has no NUL of its own. *)
Definition read_busy (s : output) : option (Z * (Z * Z) * output) :=
  let '(n, bytes) := on_read (pwm_log s) in
  text ← cstr_of (splice 0 bytes stack);
  Some (n, scan_busy text, log_event Polled s).

(** [bytes_read] is a size_t: a failed read is greater than 0 too.  The flag is
    stored unless the library is not initialized. *)
Definition OutputTest (Outputs : Z) (s : output) : option (bool * option bool * output) :=
  if negb (OutputInitialized s) then Some (false, None, s) else
  let '(Outputs, Layer) := DecodeOutputs Outputs in
  if (Layer =? LAYER_MASTER) && (0 <=? PwmFile s) then
    '(n, (_, test2), s) ← read_busy s;
    Some (negb (n =? 0), Some (negb (Z.land Outputs (u8 test2) =? 0)), s)
  else Some (false, Some false, s).
Definition OutputState (Outputs : Z) (s : output) : option (bool * option Z * output) :=
  if negb (OutputInitialized s) then Some (false, None, s) else
  let '(Outputs, Layer) := DecodeOutputs Outputs in
  if (Layer =? LAYER_MASTER) && (0 <=? PwmFile s) then
    '(n, (_, test2), s) ← read_busy s;
    Some (negb (n =? 0), Some (u8 test2), s)
  else Some (false, Some 0, s).
Definition MotorBusy (Output : Z) (s : output) : option (bool * output) :=
  '(_, busy, s) ← OutputTest Output s; Some (default false busy, s).

(** ** The calls of the programs *)

Definition ResetTachoCount (Outputs : Z) (s : output) : output := (OutputReset Outputs s).2.
Definition ResetBlockTachoCount : Z -> output -> output := ResetTachoCount.
Definition ResetRotationCount (Outputs : Z) (s : output) : output := (OutputClearCount Outputs s).2.
Definition ResetAllTachoCounts (Outputs : Z) (s : output) : output :=
  (OutputClearCount Outputs (OutputReset Outputs s).2).2.
Definition ResetBlockAndTachoCount : Z -> output -> output := ResetTachoCount.
Definition ResetCount (Outputs reset : Z) (s : output) : output :=
  if reset =? RESET_COUNT then ResetTachoCount Outputs s
  else if reset =? RESET_BLOCK_COUNT then ResetBlockTachoCount Outputs s
  else if reset =? RESET_ROTATION_COUNT then ResetRotationCount Outputs s
  else if reset =? RESET_BLOCKANDTACHO then ResetBlockAndTachoCount Outputs s
  else if reset =? RESET_ALL then ResetAllTachoCounts Outputs s
  else s.

Definition SetOutputEx (Outputs Mode reset : Z) (s : output) : output :=
  if Mode =? OUT_FLOAT then ResetCount Outputs reset (OutputStop Outputs false s).2
  else if Mode =? OUT_OFF then ResetCount Outputs reset (OutputStop Outputs true s).2
  else if Mode =? OUT_ON then (OutputStartEx Outputs OWNER_NONE (ResetCount Outputs reset s)).2
  else s.
Definition SetDirection (Outputs Dir : Z) (s : output) : output :=
  let Polarity := if Dir =? OUT_REV then u8 (-1) else if Dir =? OUT_TOGGLE then 0 else 1 in
  (OutputPolarity Outputs Polarity s).2.
Definition SetPower (Outputs Power : Z) (s : output) : output := (OutputPower Outputs Power s).2.
Definition SetSpeed (Outputs Speed : Z) (s : output) : output := (OutputSpeed Outputs Speed s).2.
Definition OnEx (Outputs : Z) : Z -> output -> output := SetOutputEx Outputs OUT_ON.
Definition OffEx (Outputs : Z) : Z -> output -> output := SetOutputEx Outputs OUT_OFF.
Definition FloatEx (Outputs : Z) : Z -> output -> output := SetOutputEx Outputs OUT_FLOAT.
Definition Toggle (Outputs : Z) : output -> output := SetDirection Outputs OUT_TOGGLE.
Definition Fwd (Outputs : Z) : output -> output := SetDirection Outputs OUT_FWD.
Definition Rev (Outputs : Z) : output -> output := SetDirection Outputs OUT_REV.

(** [if (Power != OUT_POWER_DEFAULT) SetPower(Outputs, Power);] *)
Definition power_unless_default (Outputs Power : Z) (s : output) : output :=
  if negb (Power =? OUT_POWER_DEFAULT) then SetPower Outputs Power s else s.
Definition OnFwdEx (Outputs Power reset : Z) (s : output) : output :=
  OnEx Outputs reset (power_unless_default Outputs Power (Fwd Outputs s)).
Definition OnRevEx (Outputs Power reset : Z) (s : output) : output :=
  OnEx Outputs reset (power_unless_default Outputs Power (Rev Outputs s)).
Definition OnFwdRegEx (Outputs Speed RegMode reset : Z) (s : output) : output :=
  OnEx Outputs reset (SetSpeed Outputs Speed (Fwd Outputs s)).
Definition OnRevRegEx (Outputs Speed RegMode reset : Z) (s : output) : output :=
  OnEx Outputs reset (SetSpeed Outputs Speed (Rev Outputs s)).
Definition OnFwdSyncEx (Outputs Speed Turn reset : Z) (s : output) : output :=
  (OutputStepSyncEx Outputs Speed Turn INT_MAX false OWNER_NONE (ResetCount Outputs reset s)).2.
Definition OnRevSyncEx (Outputs Speed Turn reset : Z) : output -> output :=
  OnFwdSyncEx Outputs (u8 (Speed * -1)) Turn reset.
Definition OnForSyncEx (Outputs Time Speed Turn : Z) (Stop : bool) (s : output) : output :=
  (OutputTimeSyncEx Outputs Speed Turn Time Stop OWNER_NONE s).2.
(** The sleep of [Time] is between the two. *)
Definition OnForEx (Outputs Time Power reset : Z) (s : output) : output :=
  OffEx Outputs reset (OnEx Outputs reset (power_unless_default Outputs Power s)).

(** The steps of the two ramps and those between them. *)
Definition ramp_steps (Angle : Z) : Z * Z * Z :=
  let s3 := Z.min (Z.quot Angle RAMP_DOWN_PCT) RAMP_DOWN_DEGREES in
  let s1 := Z.min (Z.quot Angle RAMP_UP_PCT) RAMP_UP_DEGREES in
  (s1, Angle - s3 - s1, s3).
Definition RotateMotorNoWaitEx (Outputs Speed Angle Turn : Z) (Sync Stop : bool) (s : output)
    : output :=
  if Sync && is_pair (DecodeOutputs Outputs).1 then
    (OutputStepSyncEx Outputs Speed Turn Angle Stop OWNER_NONE s).2
  else
    let '(s1, s2, s3) := ramp_steps Angle in
    (OutputStepSpeedEx Outputs Speed s1 s2 s3 Stop OWNER_NONE s).2.

(** [n] looks at the busy outputs; the flag is false when the test leaves it.
    The second result is whether the loop ended. *)
Fixpoint wait_motor (n : nat) (Outputs : Z) (s : output) : option (bool * output) :=
  match n with
  | O => Some (false, s)
  | S n =>
      '(_, busy, s) ← OutputTest Outputs s;
      if default false busy then wait_motor n Outputs s else Some (true, s)
  end.
Definition RotateMotorEx (n : nat) (Outputs Speed Angle Turn : Z) (Sync Stop : bool) (s : output)
    : option (bool * output) :=
  wait_motor n Outputs (RotateMotorNoWaitEx Outputs Speed Angle Turn Sync Stop s).

(** *** The macros of ev3_output.h *)

Definition OutputStart (outputs : Z) : output -> bool * output := OutputStartEx outputs OWNER_NONE.
Definition OutputStepPower (outputs power step1 step2 step3 : Z) : output -> bool * output :=
  OutputStepPowerEx outputs power step1 step2 step3 true OWNER_NONE.
Definition OutputTimePower (outputs power time1 time2 time3 : Z) : output -> bool * output :=
  OutputTimePowerEx outputs power time1 time2 time3 true OWNER_NONE.
Definition OutputStepSpeed (outputs speed step1 step2 step3 : Z) : output -> bool * output :=
  OutputStepSpeedEx outputs speed step1 step2 step3 true OWNER_NONE.
Definition OutputTimeSpeed (outputs speed time1 time2 time3 : Z) : output -> bool * output :=
  OutputTimeSpeedEx outputs speed time1 time2 time3 true OWNER_NONE.
Definition OutputStepSync (outputs speed turn step : Z) : output -> bool * output :=
  OutputStepSyncEx outputs speed turn step true OWNER_NONE.
Definition OutputTimeSync (outputs speed turn time : Z) : output -> bool * output :=
  OutputTimeSyncEx outputs speed turn time true OWNER_NONE.
Definition SetOutput (outputs mode : Z) : output -> output := SetOutputEx outputs mode RESET_NONE.
Definition On (outputs : Z) : output -> output := OnEx outputs RESET_NONE.
Definition Off (outputs : Z) : output -> output := OffEx outputs RESET_NONE.
Definition Float (outputs : Z) : output -> output := FloatEx outputs RESET_NONE.
Definition Coast (outputs : Z) : output -> output := FloatEx outputs RESET_NONE.
(** The power is converted to [char]. *)
Definition OnFwd (outputs : Z) : output -> output := OnFwdEx outputs (u8 OUT_POWER_DEFAULT) RESET_NONE.
Definition OnRev (outputs : Z) : output -> output := OnRevEx outputs (u8 OUT_POWER_DEFAULT) RESET_NONE.
Definition OnFwdReg (outputs speed : Z) : output -> output :=
  OnFwdRegEx outputs speed OUT_REGMODE_SPEED RESET_NONE.
Definition OnRevReg (outputs speed : Z) : output -> output :=
  OnRevRegEx outputs speed OUT_REGMODE_SPEED RESET_NONE.
Definition OnFwdSync (outputs speed : Z) : output -> output := OnFwdSyncEx outputs speed 0 RESET_NONE.
Definition OnRevSync (outputs speed : Z) : output -> output := OnRevSyncEx outputs speed 0 RESET_NONE.
Definition RotateMotorNoWait (outputs speed angle : Z) : output -> output :=
  RotateMotorNoWaitEx outputs speed angle 0 true true.
Definition RotateMotor (n : nat) (outputs speed angle : Z) : output -> option (bool * output) :=
  RotateMotorEx n outputs speed angle 0 true true.
Definition OnForSync (outputs time speed : Z) : output -> output :=
  OnForSyncEx outputs time speed 0 true.
Definition OnFor (outputs time : Z) : output -> output :=
  OnForEx outputs time (u8 OUT_POWER_DEFAULT) RESET_NONE.
End device.
