(* ===== verification/OutputSpec.v ===== *)
(** * OutputSpec: what the motor library asks the kernel to do

    [decode] reads a command the way the PWM driver does, by the opcode and the
    offsets of the struct behind it. *)

From S2P Require Import Prelude IO Cstr Output.

(** ** Commands of the driver *)

Inductive command :=
| CmdStop (outputs : Z) (brake : bool)
| CmdReset (outputs : Z)
| CmdSpeed (outputs speed : Z)
| CmdPower (outputs power : Z)
| CmdPolarity (outputs polarity : Z)
| CmdStart (outputs : Z)
| CmdClearCount (outputs : Z)
| CmdRamp (op outputs level up run down : Z) (brake : bool)
| CmdSync (op outputs speed turn run : Z) (brake : bool).

Definition decode (p : list Z) : option command :=
  match p with
  | op :: outputs :: rest =>
      if op =? opOutputStop then b ← head rest; Some (CmdStop outputs (negb (b =? 0)))
      else if op =? opOutputReset then Some (CmdReset outputs)
      else if op =? opOutputSpeed then CmdSpeed outputs <$> head rest
      else if op =? opOutputPower then CmdPower outputs <$> head rest
      else if op =? opOutputPolarity then CmdPolarity outputs <$> head rest
      else if op =? opOutputStart then Some (CmdStart outputs)
      else if op =? opOutputClearCount then Some (CmdClearCount outputs)
      else
        v ← head rest;
        if (length p =? 20)%nat then
          Some (CmdRamp op outputs v (i32 (le_val (slice 4 4 p))) (i32 (le_val (slice 8 4 p)))
                  (i32 (le_val (slice 12 4 p))) (negb (nth 16 p 0 =? 0)))
        else if (length p =? 16)%nat then
          Some (CmdSync op outputs v (i16 (le_val (slice 4 2 p))) (i32 (le_val (slice 8 4 p)))
                  (negb (nth 12 p 0 =? 0)))
        else None
  | _ => None
  end.

(** ** Calls of the library *)

Inductive call :=
| Stop (Outputs : Z) (useBrake : bool)
| Reset (Outputs : Z)
| SetSpeedOf (Outputs Speed : Z)
| SetPowerOf (Outputs Power : Z)
| SetPolarity (Outputs Polarity : Z)
| Start (Outputs Owner : Z)
| ClearCount (Outputs : Z)
| StepPower (Outputs Power A B C : Z) (useBrake : bool) (Owner : Z)
| TimePower (Outputs Power A B C : Z) (useBrake : bool) (Owner : Z)
| StepSpeed (Outputs Speed A B C : Z) (useBrake : bool) (Owner : Z)
| TimeSpeed (Outputs Speed A B C : Z) (useBrake : bool) (Owner : Z)
| StepSync (Outputs Speed Turn Step : Z) (useBrake : bool) (Owner : Z)
| TimeSync (Outputs Speed Turn Time : Z) (useBrake : bool) (Owner : Z).

Definition call_outputs (c : call) : Z :=
  match c with
  | Stop o _ | Reset o | SetSpeedOf o _ | SetPowerOf o _ | SetPolarity o _ | Start o _
  | ClearCount o | StepPower o _ _ _ _ _ _ | TimePower o _ _ _ _ _ _ | StepSpeed o _ _ _ _ _ _
  | TimeSpeed o _ _ _ _ _ _ | StepSync o _ _ _ _ _ | TimeSync o _ _ _ _ _ => o
  end.

(** The owner a call gives to its outputs. *)
Definition call_owner (c : call) : option Z :=
  match c with
  | Start _ w | StepPower _ _ _ _ _ _ w | TimePower _ _ _ _ _ _ w | StepSpeed _ _ _ _ _ _ w
  | TimeSpeed _ _ _ _ _ _ w | StepSync _ _ _ _ _ w | TimeSync _ _ _ _ _ w => Some w
  | _ => None
  end.

(** What the call asks for, on the outputs without the layer. *)
Definition meaning (c : call) : command :=
  let outputs := Z.land (call_outputs c) OUT_MASK in
  match c with
  | Stop _ b => CmdStop outputs b
  | Reset _ => CmdReset outputs
  | SetSpeedOf _ v => CmdSpeed outputs v
  | SetPowerOf _ v => CmdPower outputs v
  | SetPolarity _ v => CmdPolarity outputs v
  | Start _ _ => CmdStart outputs
  | ClearCount _ => CmdClearCount outputs
  | StepPower _ v x y z b _ => CmdRamp opOutputStepPower outputs v x y z b
  | TimePower _ v x y z b _ => CmdRamp opOutputTimePower outputs v x y z b
  | StepSpeed _ v x y z b _ => CmdRamp opOutputStepSpeed outputs v x y z b
  | TimeSpeed _ v x y z b _ => CmdRamp opOutputTimeSpeed outputs v x y z b
  | StepSync _ v t r b _ => CmdSync opOutputStepSync outputs v t r b
  | TimeSync _ v t r b _ => CmdSync opOutputTimeSync outputs v t r b
  end.

Definition int32 (z : Z) : Prop := - 2 ^ 31 <= z < 2 ^ 31.

(** The arguments are in their types. *)
Definition args_ok (c : call) : Prop :=
  match c with
  | StepPower _ _ x y z _ _ | TimePower _ _ x y z _ _ | StepSpeed _ _ x y z _ _
  | TimeSpeed _ _ x y z _ _ => int32 x /\ int32 y /\ int32 z
  | StepSync _ _ t r _ _ | TimeSync _ _ t r _ _ => - 2 ^ 15 <= t < 2 ^ 15 /\ int32 r
  | _ => True
  end.

(** The outputs are on this brick, and two for a synchronized run. *)
Definition accepted_call (c : call) : bool :=
  (Z.land (call_outputs c) LAYER_MASK =? 0)
  && match c with
     | StepSync o _ _ _ _ _ | TimeSync o _ _ _ _ _ => is_pair (Z.land o OUT_MASK)
     | _ => true
     end.

Section device.
Context (on_write : list pwm_event -> list Z -> Z) (on_read : list pwm_event -> Z * list Z).
Context (pad : nat -> Z) (stack : list Z).

Definition perform (c : call) : output -> bool * output :=
  match c with
  | Stop o b => OutputStop on_write o b
  | Reset o => OutputReset on_write o
  | SetSpeedOf o v => OutputSpeed on_write o v
  | SetPowerOf o v => OutputPower on_write o v
  | SetPolarity o v => OutputPolarity on_write o v
  | Start o w => OutputStartEx on_write o w
  | ClearCount o => OutputClearCount on_write o
  | StepPower o v x y z b w => OutputStepPowerEx on_write pad o v x y z b w
  | TimePower o v x y z b w => OutputTimePowerEx on_write pad o v x y z b w
  | StepSpeed o v x y z b w => OutputStepSpeedEx on_write pad o v x y z b w
  | TimeSpeed o v x y z b w => OutputTimeSpeedEx on_write pad o v x y z b w
  | StepSync o v t r b w => OutputStepSyncEx on_write pad o v t r b w
  | TimeSync o v t r b w => OutputTimeSyncEx on_write pad o v t r b w
  end.

(** The device has been opened. *)
Definition ready (s : output) : Prop := OutputInitialized s = true /\ 0 <= PwmFile s.

(** ** One command *)

(** A write of a command that means [m], with the owner [w] of [outputs] if any,
    and its result. *)
Definition commanded (m : command) (outputs : Z) (w : option Z) (s : output) (r : bool * output)
    : Prop :=
  exists bytes, decode bytes = Some m
    /\ r.1 = (0 <=? on_write (pwm_log s) bytes)
    /\ pwm_log r.2 = Wrote bytes (on_write (pwm_log s) bytes) :: pwm_log s
    /\ Owners r.2 = (match w with
                     | Some w => if r.1 then for_outputs outputs (fun _ => w) (Owners s) else Owners s
                     | None => Owners s
                     end).

Lemma send_spec cmd s : 0 <= PwmFile s -> 0 < zlen cmd ->
  send on_write cmd s = (0 <=? on_write (pwm_log s) cmd,
                         log_event (Wrote cmd (on_write (pwm_log s) cmd)) s).
Proof.
  intros Hp Hc. unfold send, WriteToPWMDevice. rewrite (proj2 (Z.leb_le _ _)) by done.
  destruct (Z.leb_spec 0 (on_write (pwm_log s) cmd)); [by rewrite Z.eqb_refl|].
  rewrite (proj2 (Z.eqb_neq _ _)) by lia. done.
Qed.

Lemma sent m outputs cmd s :
  0 <= PwmFile s -> decode cmd = Some m -> commanded m outputs None s (send on_write cmd s).
Proof.
  intros Hp Hd. destruct cmd as [|c cmd]; [done|].
  rewrite send_spec by (unfold zlen; simpl; lia). exists (c :: cmd). by split_and!.
Qed.
Lemma sent_owned m outputs w cmd s :
  0 <= PwmFile s -> decode cmd = Some m ->
  commanded m outputs (Some w) s (send_owned on_write outputs w cmd s).
Proof.
  intros Hp Hd. destruct cmd as [|c cmd]; [done|]. unfold send_owned.
  rewrite send_spec by (unfold zlen; simpl; lia). exists (c :: cmd).
  destruct (0 <=? _); cbn [fst snd]; by split_and!.
Qed.

(** The structs are read back. *)
Lemma i32_mod z : int32 z -> i32 (z mod 2 ^ 32) = z.
Proof. unfold int32, i32. intros H. rewrite Zplus_mod_idemp_l, Z.mod_small; lia. Qed.
Lemma i16_mod z : - 2 ^ 15 <= z < 2 ^ 15 -> i16 (z mod 2 ^ 16) = z.
Proof. unfold i16. intros H. rewrite Zplus_mod_idemp_l, Z.mod_small; lia. Qed.
Lemma le4 z : int32 z -> i32 (le_val (le_bytes 4 z)) = z.
Proof. intros H. rewrite le_val_le_bytes. by apply i32_mod. Qed.
Lemma le2 z : - 2 ^ 15 <= z < 2 ^ 15 -> i16 (le_val (le_bytes 2 z)) = z.
Proof. intros H. rewrite le_val_le_bytes. by apply i16_mod. Qed.
Lemma b2z_nonzero b : negb (Z.b2z b =? 0) = b.
Proof. by destruct b. Qed.

Lemma decode_ramp op outputs v x y z b :
  op = opOutputStepPower \/ op = opOutputTimePower \/ op = opOutputStepSpeed \/ op = opOutputTimeSpeed ->
  int32 x -> int32 y -> int32 z ->
  decode (StepOrTimePwrOrSpd pad op outputs v x y z b) = Some (CmdRamp op outputs v x y z b).
Proof.
  intros Hop Hx Hy Hz. rewrite <- (le4 x Hx), <- (le4 y Hy), <- (le4 z Hz) at 2.
  rewrite <- (b2z_nonzero b) at 2. destruct Hop as [->|[->|[->| ->]]]; reflexivity.
Qed.
Lemma decode_sync op outputs v t r b :
  op = opOutputStepSync \/ op = opOutputTimeSync -> - 2 ^ 15 <= t < 2 ^ 15 -> int32 r ->
  decode (StepOrTimeSync pad op outputs v t r b) = Some (CmdSync op outputs v t r b).
Proof.
  intros Hop Ht Hr. rewrite <- (le2 t Ht), <- (le4 r Hr) at 2.
  rewrite <- (b2z_nonzero b) at 2. destruct Hop as [->| ->]; reflexivity.
Qed.

(** ** The frame of the calls *)

Lemma on_master_spec o k s :
  ready s -> on_master o k s = if Z.land o LAYER_MASK =? 0 then k (Z.land o OUT_MASK) s else (false, s).
Proof. intros [Hi _]. unfold on_master. by rewrite Hi. Qed.

Lemma sync_spec op o v t r b w s :
  ready s ->
  sync on_write pad op o v t r b w s =
    if (Z.land o LAYER_MASK =? 0) && is_pair (Z.land o OUT_MASK)
    then send_owned on_write (Z.land o OUT_MASK) w
           (StepOrTimeSync pad op (Z.land o OUT_MASK) v t r b) s
    else (false, s).
Proof.
  intros [Hi _]. unfold sync. rewrite Hi. cbn [negb DecodeOutputs].
  destruct (is_pair _); cbn [negb]; [|by rewrite andb_false_r]. by rewrite andb_true_r.
Qed.

(** Clearing the counts leaves the rest of the state alone. *)
Lemma cleared o s :
  0 <= PwmFile s ->
  commanded (CmdClearCount o) o None s
    (let '(result, s) := send on_write [opOutputClearCount; o] s in
     (result, if result
              then set_motors (for_outputs o (fun m => MkMotor (TachoCounts m) (Speed m) 0)
                                 (motors s)) s
              else s)).
Proof.
  intros Hp. destruct (sent (CmdClearCount o) o [opOutputClearCount; o] s Hp) as (p & Hd & Hr & Hl & Ho);
    [done|].
  exists p. revert Hd Hr Hl Ho. destruct (send _ _ _) as [r s']. cbn [fst snd].
  intros Hd Hr Hl Ho. split_and!; try done; destruct r; try done; by destruct (pMotor s') eqn:E;
    unfold set_motors; rewrite E.
Qed.

(** C32: Each of the 13 calls that drive motors, on an opened device, either is refused
    without an effect (outputs of another layer, or no pair for a synchronized run) or
    writes one command that the driver's reading of the struct decodes to what was asked
    for; it reports the success of the write, and gives exactly the named outputs to the new
    owner when it succeeded. *)
Theorem calls_command_driver c s :
  ready s -> args_ok c ->
  if accepted_call c
  then commanded (meaning c) (Z.land (call_outputs c) OUT_MASK) (call_owner c) s (perform c s)
  else perform c s = (false, s).
Proof.
  intros Hs Hargs. pose proof Hs as [_ Hp]. unfold accepted_call.
  destruct c; cbn [perform call_outputs call_owner meaning args_ok] in *;
    unfold OutputStop, OutputReset, OutputSpeed, OutputPower, OutputPolarity, OutputStartEx,
      OutputClearCount, OutputStepPowerEx, OutputTimePowerEx, OutputStepSpeedEx, OutputTimeSpeedEx,
      OutputStepSyncEx, OutputTimeSyncEx, step_or_time;
    first [rewrite on_master_spec by done; rewrite andb_true_r | rewrite sync_spec by done];
    match goal with |- if ?b then _ else _ => destruct b end; try done;
    try (apply sent; [done|]); try (apply sent_owned; [done|]); try done.
  - by destruct useBrake.
  - by apply cleared.
  - apply decode_ramp; [tauto|apply Hargs..].
  - apply decode_ramp; [tauto|apply Hargs..].
  - apply decode_ramp; [tauto|apply Hargs..].
  - apply decode_ramp; [tauto|apply Hargs..].
  - apply decode_sync; [tauto|apply Hargs..].
  - apply decode_sync; [tauto|apply Hargs..].
Qed.

(** ** The initialization *)

(** When the second device cannot be opened the initialization fails, but the
    library counts as initialized from then on. *)
Lemma failed_init_initialized pwm mapped s :
  OutputInitialized s = false -> 0 <= pwm ->
  (OutputInit on_write pwm (-1) mapped s).1 = false
  /\ OutputInitialized (OutputInit on_write pwm (-1) mapped s).2 = true.
Proof.
  intros Hi Hp. unfold OutputInit. rewrite Hi, (proj2 (Z.leb_le _ _)) by done.
  change (0 <=? -1) with false. split; [done|]. unfold OutputInitialized. cbn.
  by rewrite (proj2 (Z.eqb_neq _ _)) by lia.
Qed.

(** The default power, a negative number, is no value of an unsigned [char]: it
    is written as a power. *)
Lemma default_power_written o s :
  power_unless_default on_write o (u8 OUT_POWER_DEFAULT) s = SetPower on_write o 129 s.
Proof. reflexivity. Qed.

(** ** Waiting for a motor *)

(** What the driver gives to read: the ready and the busy outputs. *)
Definition busy_text (ready busy : Z) : list Z := digits 10 ready ++ [32] ++ digits 10 busy ++ [0].

Lemma digits_start n : 0 <= n < 10 ^ 64 ->
  exists d ds, digits 10 n = d :: ds /\ isspace d = false /\ d <> 43 /\ d <> 45 /\ d <> 0.
Proof.
  intros Hn. destruct (digits_word n Hn) as [Hne Hd]. destruct (digits 10 n) as [|d ds]; [done|].
  exists d, ds. split; [done|]. apply Forall_cons in Hd as [Hd _]. revert Hd. unfold isdigit, isspace.
  intros Hd. split; lia.
Qed.
Lemma scan_u_number n l : 0 <= n < 2 ^ 32 ->
  (match l with [] => true | b :: _ => negb (isdigit b) end = true) ->
  scan_u (digits 10 n ++ l) = Some (n, l).
Proof.
  intros Hn Hl. assert (n < 10 ^ 64) by lia.
  pose proof (scan_dec_fmt n l ltac:(lia) Hl) as Hscan.
  destruct (digits_start n ltac:(lia)) as (d & ds & Hd & Hsp & Hp & Hm & _).
  unfold scan_u. rewrite Hd in *. cbn [app skip_space]. rewrite Hsp.
  rewrite (proj2 (Z.eqb_neq d 43)), (proj2 (Z.eqb_neq d 45)) by done.
  cbn [app] in Hscan. unfold scan_magnitude. rewrite Hscan. by rewrite Z.min_l by lia.
Qed.
Lemma scan_busy_text a b : 0 <= a < 2 ^ 32 -> 0 <= b < 2 ^ 32 ->
  scan_busy (digits 10 a ++ [32] ++ digits 10 b) = (a, b).
Proof.
  intros Ha Hb. unfold scan_busy. rewrite scan_u_number by done. cbn [app].
  destruct (digits_start b ltac:(lia)) as (d & ds & Hd & Hsp & _).
  assert (scan_u (32 :: digits 10 b) = scan_u (digits 10 b)) as ->.
  { unfold scan_u. by cbn [skip_space isspace Z.eqb Pos.eqb orb]. }
  rewrite <- (app_nil_r (digits 10 b)), scan_u_number by done. done.
Qed.

Lemma cstr_of_busy a b rest : 0 <= a < 2 ^ 32 -> 0 <= b < 2 ^ 32 ->
  cstr_of (busy_text a b ++ rest) = Some (digits 10 a ++ [32] ++ digits 10 b).
Proof.
  intros Ha Hb. unfold busy_text. rewrite <- !app_assoc. cbn [app].
  assert (forall n, 0 <= n < 2 ^ 32 -> Forall (fun c => 0 < c < 256) (digits 10 n)) as Hd.
  { intros n Hn. eapply Forall_impl; [apply digits_word; lia|]. unfold isdigit. simpl. lia. }
  replace (digits 10 a ++ 32 :: digits 10 b ++ 0 :: rest)
    with ((digits 10 a ++ 32 :: digits 10 b) ++ 0 :: rest) by by rewrite <- app_assoc.
  apply cstr_of_app. apply Forall_app. split; [by apply Hd|]. constructor; [lia|by apply Hd].
Qed.

(** The state after [n] polls. *)
Fixpoint polled (n : nat) (s : output) : output :=
  match n with O => s | S n => polled n (log_event Polled s) end.

(** The driver reports that [busy i] are busy at the i-th poll from [s] on. *)
Definition reports (busy : nat -> Z) (n : nat) (s : output) : Prop :=
  forall i, (i < n)%nat ->
    0 <= busy i < 16
    /\ on_read (pwm_log (polled i s)) = (zlen (busy_text 15 (busy i)), busy_text 15 (busy i)).

Lemma polled_ready n s : ready s -> ready (polled n s).
Proof. revert s. induction n as [|n IH]; intros s Hs; [done|]. by apply IH. Qed.

Lemma test_reports o b s :
  ready s -> Z.land o LAYER_MASK = 0 -> 0 <= b < 16 ->
  on_read (pwm_log s) = (zlen (busy_text 15 b), busy_text 15 b) ->
  OutputTest on_read stack o s
    = Some (true, Some (negb (Z.land (Z.land o OUT_MASK) b =? 0)), log_event Polled s).
Proof.
  intros [Hi Hp] Ho Hb Hr. unfold OutputTest. rewrite Hi. cbn [negb DecodeOutputs].
  rewrite Ho, (proj2 (Z.leb_le _ _)) by done. cbn [andb Z.eqb].
  unfold read_busy. rewrite Hr.
  assert (splice 0 (busy_text 15 b) stack
    = busy_text 15 b ++ drop (length (busy_text 15 b)) stack) as -> by done.
  rewrite cstr_of_busy by lia. cbn [mbind option_bind]. rewrite scan_busy_text by lia.
  rewrite u8_id by lia.
  assert (0 < zlen (busy_text 15 b)) as Hz.
  { unfold busy_text, zlen. rewrite !length_app. simpl. lia. }
  by rewrite (proj2 (Z.eqb_neq _ _)) by lia.
Qed.

(** The wait ends at the first poll at which none of the outputs is busy. *)
Lemma wait_ends o busy n k s :
  ready s -> Z.land o LAYER_MASK = 0 -> reports busy (S k) s -> (k < n)%nat ->
  (forall i, (i < k)%nat -> Z.land (Z.land o OUT_MASK) (busy i) <> 0) ->
  Z.land (Z.land o OUT_MASK) (busy k) = 0 ->
  wait_motor on_read stack n o s = Some (true, polled (S k) s).
Proof.
  revert busy k s. induction n as [|n IH]; intros busy k s Hs Ho Hrep Hn Hbusy Hfree; [lia|].
  destruct (Hrep 0%nat ltac:(lia)) as [Hb Hr]. cbn [wait_motor].
  rewrite (test_reports o (busy 0%nat) s Hs Ho Hb Hr). cbn [mbind option_bind default].
  destruct k as [|k].
  - rewrite Hfree. done.
  - rewrite (proj2 (Z.eqb_neq _ _)) by (apply Hbusy; lia). cbn [negb].
    apply (IH (fun i => busy (S i)) k); [exact Hs|exact Ho| |lia| |exact Hfree].
    + intros i Hi. apply (Hrep (S i)). lia.
    + intros i Hi. apply (Hbusy (S i)). lia.
Qed.

Lemma ramp_steps_forward Angle : 0 <= Angle -> ramp_steps Angle = (0, Angle, 0).
Proof.
  intros H. unfold ramp_steps, RAMP_DOWN_PCT, RAMP_UP_PCT, RAMP_DOWN_DEGREES, RAMP_UP_DEGREES.
  pose proof (Z.quot_pos Angle 10 H ltac:(lia)). rewrite Z.min_r by lia.
  by rewrite !Z.sub_0_r.
Qed.

Lemma polled_log n s : pwm_log (polled n s) = replicate n Polled ++ pwm_log s.
Proof.
  revert s. induction n as [|n IH]; intros s; [done|]. cbn [polled]. rewrite IH. cbn [pwm_log log_event].
  change (replicate (S n) Polled) with ([Polled] ++ replicate n Polled).
  rewrite (replicate_cons_app n Polled : [Polled] ++ _ = _), <- app_assoc. done.
Qed.

Lemma rotated m outputs cmd s :
  ready s -> decode cmd = Some m ->
  exists bytes r, decode bytes = Some m
    /\ pwm_log (send_owned on_write outputs OWNER_NONE cmd s).2 = Wrote bytes r :: pwm_log s
    /\ ready (send_owned on_write outputs OWNER_NONE cmd s).2.
Proof.
  intros [Hi Hp] Hd. destruct cmd as [|c cmd]; [done|]. unfold send_owned.
  rewrite send_spec by (unfold zlen; simpl; lia).
  exists (c :: cmd), (on_write (pwm_log s) (c :: cmd)).
  split; [done|]. destruct (0 <=? _); by split_and!.
Qed.

(** The command of a rotation: synchronized for two outputs, if asked for. *)
Definition rotation (o v Angle Turn : Z) (Sync Stop : bool) : command :=
  let outputs := Z.land o OUT_MASK in
  if Sync && is_pair outputs then CmdSync opOutputStepSync outputs v Turn Angle Stop
  else CmdRamp opOutputStepSpeed outputs v 0 Angle 0 Stop.

(** C33: On the opened device, for outputs of the brick itself (its layer 0), an angle from
    0 to 2^31 and a turn ratio of 16 bits, a rotation sends one command over the whole
    angle, synchronized if that is asked for and two outputs are named, and returns at the
    first poll of the driver at which none of its outputs is busy, however many polls that
    takes. The driver reports the busy and tested outputs as the two numbers that OutputTest
    scans. *)
Theorem rotation_waits n k busy o v Angle Turn Sync Stop s :
  ready s -> Z.land o LAYER_MASK = 0 -> 0 <= Angle < 2 ^ 31 -> - 2 ^ 15 <= Turn < 2 ^ 15 ->
  reports busy (S k) (RotateMotorNoWaitEx on_write pad o v Angle Turn Sync Stop s) -> (k < n)%nat ->
  (forall i, (i < k)%nat -> Z.land (Z.land o OUT_MASK) (busy i) <> 0) ->
  Z.land (Z.land o OUT_MASK) (busy k) = 0 ->
  exists s' bytes r,
    RotateMotorEx on_write on_read pad stack n o v Angle Turn Sync Stop s = Some (true, s')
    /\ decode bytes = Some (rotation o v Angle Turn Sync Stop)
    /\ pwm_log s' = replicate (S k) Polled ++ Wrote bytes r :: pwm_log s.
Proof.
  intros Hs Ho HA HT Hrep Hn Hbusy Hfree. unfold RotateMotorEx.
  assert (exists bytes r, decode bytes = Some (rotation o v Angle Turn Sync Stop)
    /\ pwm_log (RotateMotorNoWaitEx on_write pad o v Angle Turn Sync Stop s)
       = Wrote bytes r :: pwm_log s
    /\ ready (RotateMotorNoWaitEx on_write pad o v Angle Turn Sync Stop s))
    as (bytes & r & Hd & Hl & Hs').
  { unfold RotateMotorNoWaitEx, rotation. cbn [DecodeOutputs fst].
    destruct (Sync && is_pair (Z.land o OUT_MASK)) eqn:E.
    - apply andb_true_iff in E as [_ E]. unfold OutputStepSyncEx. rewrite sync_spec by exact Hs.
      rewrite Ho, E. cbn [Z.eqb andb]. apply rotated; [exact Hs|]. apply decode_sync; [tauto|exact HT|]. unfold int32. lia.
    - rewrite ramp_steps_forward by lia. unfold OutputStepSpeedEx, step_or_time.
      rewrite on_master_spec by exact Hs. rewrite Ho. cbn [Z.eqb].
      apply rotated; [exact Hs|]. apply decode_ramp; [tauto|unfold int32; lia..]. }
  exists (polled (S k) (RotateMotorNoWaitEx on_write pad o v Angle Turn Sync Stop s)), bytes, r.
  split; [exact (wait_ends o busy n k _ Hs' Ho Hrep Hn Hbusy Hfree)|]. split; [exact Hd|]. by rewrite polled_log, Hl.
Qed.
End device.
