(* ===== verification/Sound.v ===== *)
(** * Sound: tones and sound files on the brick (src/util/cat/ev3_sound.c)

    The library writes commands and samples to the sound device.  A file is the
    bytes that are left of it; reads of a file do not fail.  What a variable
    holds that nothing has been read into is given by [junk].  A loop that waits
    for the device or for data takes a number of rounds; [None] is undefined
    behaviour or a loop that is not finished after them. *)

From S2P Require Import Prelude Cstr.

Definition STEP_SIZE_TABLE_ENTRIES : Z := 89.
Definition SOUND_CMD_BREAK : Z := 0.
Definition SOUND_CMD_TONE : Z := 1.
Definition SOUND_CMD_PLAY : Z := 2.
Definition SOUND_CMD_SERVICE : Z := 4.
Definition SOUND_ADPCM_INIT_VALPREV : Z := 0x7F.
Definition SOUND_ADPCM_INIT_INDEX : Z := 20.
Definition SOUND_CHUNK : Z := 250.
Definition SOUND_ADPCM_CHUNK : Z := 125.
Definition SOUND_FILE_BUFFER_SIZE : Z := SOUND_CHUNK + 2.
Definition SOUND_FILE_FORMAT_RAW_SOUND : Z := 0x0100.
Definition SOUND_FILE_FORMAT_ADPCM_SOUND : Z := 0x0101.
Definition SOUND_STATE_IDLE : Z := 0.
Definition SOUND_STATE_SETUP_FILE : Z := 1.
Definition SOUND_STATE_FILE : Z := 2.
Definition SOUND_STATE_FILE_LOOPING : Z := 3.
Definition SOUND_STATE_TONE : Z := 4.
Definition SOUND_CLICK : Z := 0.
Definition SOUND_DOUBLE_BEEP : Z := 1.
Definition SOUND_DOWN : Z := 2.
Definition SOUND_UP : Z := 3.
Definition SOUND_LOW_BEEP : Z := 4.
Definition SOUND_FAST_UP : Z := 5.
Definition TONE_C5 : Z := 523.
Definition FILENAME_SIZE : Z := 120.

Definition StepSizeTable : list Z :=
  [
   7; 8; 9; 10; 11; 12; 13; 14; 16; 17;
   19; 21; 23; 25; 28; 31; 34; 37; 41; 45;
   50; 55; 60; 66; 73; 80; 88; 97; 107; 118;
   130; 143; 157; 173; 190; 209; 230; 253; 279; 307;
   337; 371; 408; 449; 494; 544; 598; 658; 724; 796;
   876; 963; 1060; 1166; 1282; 1411; 1552; 1707; 1878; 2066;
   2272; 2499; 2749; 3024; 3327; 3660; 4026; 4428; 4871; 5358;
   5894; 6484; 7132; 7845; 8630; 9493; 10442; 11487; 12635; 13899;
   15289; 16818; 18500; 20350; 22385; 24623; 27086; 29794; 32767
  ].
Definition IndexTable : list Z := [-1; -1; -1; -1; 2; 4; 6; 8; -1; -1; -1; -1; 2; 4; 6; 8].

(** ** The state *)

(** [pSound]: NULL, the flag of the process, or the one shared with the device. *)
Inductive busy_pointer := NullBusy | OwnBusy | SharedBusy.

(** What the library did, the latest first. *)
Inductive sound_event :=
| Written (bytes : list Z) (result : Z)
| Slept (ms : Z)
| Opened (path : list Z)
| Closed.

Record sound := MkSound {
  pSound : busy_pointer;
  Busy : Z;                 (* of [*pSound] *)
  hSoundFile : Z;
  SoundState : Z;
  SoundMuted : bool;
  SoundFileFormat : Z;
  SoundDataLength : Z;
  SoundSampleRate : Z;
  SoundPlayMode : Z;
  ValPrev : Z;
  Index : Z;
  Step : Z;
  StopLoop : Z;
  SoundData : list Z;
  sound_log : list sound_event;
}.

Definition set_busy (b : Z) (s : sound) : sound :=
  MkSound (pSound s) b (hSoundFile s) (SoundState s) (SoundMuted s) (SoundFileFormat s)
    (SoundDataLength s) (SoundSampleRate s) (SoundPlayMode s) (ValPrev s) (Index s) (Step s)
    (StopLoop s) (SoundData s) (sound_log s).
Definition set_psound (p : busy_pointer) (s : sound) : sound :=
  MkSound p (Busy s) (hSoundFile s) (SoundState s) (SoundMuted s) (SoundFileFormat s)
    (SoundDataLength s) (SoundSampleRate s) (SoundPlayMode s) (ValPrev s) (Index s) (Step s)
    (StopLoop s) (SoundData s) (sound_log s).
Definition set_handle (h : Z) (s : sound) : sound :=
  MkSound (pSound s) (Busy s) h (SoundState s) (SoundMuted s) (SoundFileFormat s)
    (SoundDataLength s) (SoundSampleRate s) (SoundPlayMode s) (ValPrev s) (Index s) (Step s)
    (StopLoop s) (SoundData s) (sound_log s).
Definition set_state (x : Z) (s : sound) : sound :=
  MkSound (pSound s) (Busy s) (hSoundFile s) x (SoundMuted s) (SoundFileFormat s)
    (SoundDataLength s) (SoundSampleRate s) (SoundPlayMode s) (ValPrev s) (Index s) (Step s)
    (StopLoop s) (SoundData s) (sound_log s).
Definition set_muted (m : bool) (s : sound) : sound :=
  MkSound (pSound s) (Busy s) (hSoundFile s) (SoundState s) m (SoundFileFormat s)
    (SoundDataLength s) (SoundSampleRate s) (SoundPlayMode s) (ValPrev s) (Index s) (Step s)
    (StopLoop s) (SoundData s) (sound_log s).
(** The fields that come from the header of a file. *)
Definition set_header (fmt len rate mode : Z) (s : sound) : sound :=
  MkSound (pSound s) (Busy s) (hSoundFile s) (SoundState s) (SoundMuted s) fmt len rate mode
    (ValPrev s) (Index s) (Step s) (StopLoop s) (SoundData s) (sound_log s).
Definition set_length (len : Z) (s : sound) : sound :=
  set_header (SoundFileFormat s) len (SoundSampleRate s) (SoundPlayMode s) s.
Definition set_adpcm (v i st : Z) (s : sound) : sound :=
  MkSound (pSound s) (Busy s) (hSoundFile s) (SoundState s) (SoundMuted s) (SoundFileFormat s)
    (SoundDataLength s) (SoundSampleRate s) (SoundPlayMode s) v i st (StopLoop s) (SoundData s)
    (sound_log s).
Definition set_data (d : list Z) (s : sound) : sound :=
  MkSound (pSound s) (Busy s) (hSoundFile s) (SoundState s) (SoundMuted s) (SoundFileFormat s)
    (SoundDataLength s) (SoundSampleRate s) (SoundPlayMode s) (ValPrev s) (Index s) (Step s)
    (StopLoop s) d (sound_log s).
Definition log_sound (e : sound_event) (s : sound) : sound :=
  MkSound (pSound s) (Busy s) (hSoundFile s) (SoundState s) (SoundMuted s) (SoundFileFormat s)
    (SoundDataLength s) (SoundSampleRate s) (SoundPlayMode s) (ValPrev s) (Index s) (Step s)
    (StopLoop s) (SoundData s) (e :: sound_log s).

Definition sound0 : sound :=
  MkSound NullBusy 0 0 0 false 0 0 0 0 0 0 0 0 (replicate 253 0) [].

Definition SoundInitialized (s : sound) : bool :=
  match pSound s with SharedBusy => true | _ => false end.

(** ** ADPCM *)

Definition soundInitAdPcm (s : sound) : sound :=
  set_adpcm SOUND_ADPCM_INIT_VALPREV SOUND_ADPCM_INIT_INDEX
    (nth (Z.to_nat SOUND_ADPCM_INIT_INDEX) StepSizeTable 0) s.

(** [x] between [lo] and [hi]; the tests are in the order of the code. *)
Definition limit (lo hi x : Z) : Z := if x <? lo then lo else if hi <? x then hi else x.

(** The variables are shorts. *)
Definition soundGetAdPcmValue (Delta : Z) (s : sound) : Z * sound :=
  let Step := nth (Z.to_nat (Index s)) StepSizeTable 0 in
  let Index := limit 0 (STEP_SIZE_TABLE_ENTRIES - 1) (i16 (Index s + nth (Z.to_nat Delta) IndexTable 0)) in
  let Sign := Z.land Delta 8 in
  let Delta := Z.land Delta 7 in
  let VpDiff := Z.shiftr Step 3 in
  let VpDiff := if negb (Z.land Delta 4 =? 0) then i16 (VpDiff + Step) else VpDiff in
  let VpDiff := if negb (Z.land Delta 2 =? 0) then i16 (VpDiff + Z.shiftr Step 1) else VpDiff in
  let VpDiff := if negb (Z.land Delta 1 =? 0) then i16 (VpDiff + Z.shiftr Step 2) else VpDiff in
  let ValPrev := if negb (Sign =? 0) then i16 (ValPrev s - VpDiff) else i16 (ValPrev s + VpDiff) in
  let ValPrev := limit 0 255 ValPrev in
  (u8 ValPrev, set_adpcm ValPrev Index (nth (Z.to_nat Index) StepSizeTable 0) s).

(** ** The device *)

Section device.
(** The result of opening the device, writing to it and closing it again. *)
Context (on_write : list sound_event -> list Z -> Z).
(** The files by name, and the indeterminate values of variables. *)
Context (files : list Z -> option (list Z)) (junk : nat -> Z).

Definition WriteToSoundDevice (bytes : list Z) (s : sound) : Z * sound :=
  let result := on_write (sound_log s) bytes in (result, log_sound (Written bytes result) s).

(** [sndHandle] is the result of open, [mapped] the success of mmap. *)
Definition SoundCloseDevices (s : sound) : sound :=
  if negb (SoundInitialized s) then s else set_psound NullBusy s.
Definition SoundInit (sndHandle : Z) (mapped : bool) (s : sound) : bool * sound :=
  if SoundInitialized s then (true, s) else
  let s := set_psound OwnBusy (set_handle (-1) s) in
  if negb (sndHandle =? -1) then
    if mapped then (true, set_psound SharedBusy s) else (false, SoundCloseDevices s)
  else (false, s).
Definition SoundOpen : bool := true.

Definition StopSound (s : sound) : sound :=
  if negb (SoundInitialized s) then s else
  let s := set_state SOUND_STATE_IDLE s in
  let s := if 0 <=? hSoundFile s then set_handle (-1) (log_sound Closed s) else s in
  (WriteToSoundDevice [SOUND_CMD_BREAK] s).2.
Definition SoundClose (s : sound) : bool * sound := (true, StopSound s).
Definition SoundExit (s : sound) : bool * sound := (true, SoundCloseDevices (SoundClose s).2).
Definition SoundTest (s : sound) : bool := if SoundInitialized s then Busy s =? 1 else false.
(** [busy] is what the device shows at each look at the flag. *)
Fixpoint SoundReady (busy : list Z) (s : sound) : option sound :=
  if negb (SoundInitialized s) then Some s else
  match busy with
  | [] => None
  | b :: busy => if b =? 0 then Some (set_busy b s) else SoundReady busy (log_sound (Slept 10) s)
  end.
Definition get_SoundState (s : sound) : Z :=
  if SoundInitialized s then SoundState s else SOUND_STATE_IDLE.
Definition MuteSound (s : sound) : sound := set_muted true (StopSound s).
Definition UnmuteSound (s : sound) : sound := set_muted false s.
Definition ClearSound (s : sound) : sound := StopSound s.

(** ** Tones *)

Definition PlayToneEx (frequency duration volume : Z) (s : sound) : sound :=
  if negb (SoundInitialized s) || SoundMuted s then s else
  let cmd := [SOUND_CMD_TONE; u8 (volume * 13 / 100); u8 frequency; u8 (Z.shiftr frequency 8);
              u8 duration; u8 (Z.shiftr duration 8)] in
  (WriteToSoundDevice cmd (set_state SOUND_STATE_TONE (set_busy 1 s))).2.
Definition PlayTone (frequency duration : Z) : sound -> sound :=
  PlayToneEx (u16 frequency) (u16 duration) 100.
Definition Wait (ms : Z) (s : sound) : sound := log_sound (Slept ms) s.
(** Tones with a pause after each. *)
Definition tones (l : list (Z * Z * Z)) (s : sound) : sound :=
  foldl (fun s '(f, d, w) => Wait w (PlayTone f d s)) s l.

Definition PlaySound (aCode : Z) (s : sound) : sound :=
  if negb (SoundInitialized s) || SoundMuted s then s else
  if aCode =? SOUND_CLICK then PlayTone 600 200 s
  else if aCode =? SOUND_DOUBLE_BEEP then tones [(600, 150, 200); (600, 150, 150)] s
  else if aCode =? SOUND_UP then
    tones (map (fun i => (TONE_C5 * i / 4, 100, 100)) [4; 5; 6; 7]) s
  else if aCode =? SOUND_DOWN then
    tones (map (fun i => (TONE_C5 * i / 4, 100, 100)) [7; 6; 5; 4]) s
  else if aCode =? SOUND_LOW_BEEP then tones [(100, 500, 500)] s
  else if aCode =? SOUND_FAST_UP then
    tones (map (fun i => (TONE_C5 * i / 4, 50, 50)) [4; 5; 6; 7]) s
  else s.
Definition PlayTonesEx (l : list (Z * Z)) (s : sound) : sound :=
  if negb (SoundInitialized s) || SoundMuted s then s else
  tones (map (fun '(f, d) => (f, d, d)) l) s.

(** ** Reading files *)

(** [read(fd, &v, 1)]: at the end of the file [v] stays. *)
Definition read1 (v : Z) (file : list Z) : Z * list Z :=
  match file with [] => (v, []) | b :: file => (b, file) end.

(** The bytes are read in the order of the file, into variables that hold
    [junk] before. *)
Definition readInt (lsb : bool) (file : list Z) : Z * list Z :=
  let '(p, q, r, t) := if lsb then (1, 2, 3, 4)%nat else (4, 3, 2, 1)%nat in
  let '(v1, file) := read1 (junk p) file in
  let '(v2, file) := read1 (junk q) file in
  let '(v3, file) := read1 (junk r) file in
  let '(v4, file) := read1 (junk t) file in
  let bytes := if lsb then [v1; v2; v3; v4] else [v4; v3; v2; v1] in
  (i32 (le_val bytes), file).
Definition readShort (lsb : bool) (file : list Z) : Z * list Z :=
  let '(p, q) := if lsb then (1, 2)%nat else (2, 1)%nat in
  let '(v1, file) := read1 (junk p) file in
  let '(v2, file) := read1 (junk q) file in
  (i16 (le_val (if lsb then [v1; v2] else [v2; v1])), file).

(** Two bytes into [msb] and [lsb]. *)
Definition read_pair (msb lsb : Z) (file : list Z) : Z * Z * list Z :=
  let '(msb, file) := read1 msb file in
  let '(lsb, file) := read1 lsb file in
  (msb, lsb, file).

(** ** Streaming samples *)

(** Two samples per byte, the high half first. *)
Fixpoint decode_bytes (data : list Z) (s : sound) : list Z * sound :=
  match data with
  | [] => ([], s)
  | b :: data =>
      let '(v1, s) := soundGetAdPcmValue (Z.land (Z.shiftr b 4) 0x0F) s in
      let '(v2, s) := soundGetAdPcmValue (Z.land b 0x0F) s in
      let '(vs, s) := decode_bytes data s in
      (v1 :: v2 :: vs, s)
  end.

(** The next samples behind the command byte, and the rest of the file. *)
Definition next_samples (file : list Z) (s : sound) : list Z * list Z * sound :=
  if SoundFileFormat s =? SOUND_FILE_FORMAT_ADPCM_SOUND then
    let n := Z.to_nat (if SOUND_ADPCM_CHUNK <? SoundDataLength s then SOUND_ADPCM_CHUNK
                       else SoundDataLength s) in
    let '(vs, s) := decode_bytes (take n file) s in (vs, drop n file, s)
  else
    let n := Z.to_nat (if SOUND_CHUNK <? SoundDataLength s then SOUND_CHUNK
                       else SoundDataLength s) in
    (take n file, drop n file, s).

(** The write is repeated until its result, as an unsigned short, is not 0. *)
Fixpoint write_samples (n : nat) (bytes : list Z) (s : sound) : option (Z * sound) :=
  match n with
  | O => None
  | S n =>
      let '(result, s) := WriteToSoundDevice bytes s in
      if u16 result =? 0 then write_samples n bytes (log_sound (Slept 1) s)
      else Some (u16 result, s)
  end.

(** [n] rounds at most, and [m] attempts for each write. *)
Fixpoint stream (m n : nat) (file : list Z) (s : sound) : option sound :=
  if negb (0 <? SoundDataLength s) then Some s else
  match n with
  | O => None
  | S n =>
      let '(samples, file, s) := next_samples file s in
      let s := set_data (splice 0 (SOUND_CMD_SERVICE :: samples) (SoundData s)) s in
      let BytesToWrite := u8 (1 + zlen samples) in
      '(BytesWritten, s) ← write_samples m (take (Z.to_nat BytesToWrite) (SoundData s)) s;
      if 1 <? BytesWritten then
        let Delta := if SoundFileFormat s =? SOUND_FILE_FORMAT_ADPCM_SOUND then BytesWritten / 2
                     else BytesWritten in
        stream m n file (set_length (SoundDataLength s - Delta) s)
      else stream m n file s
  end.

(** ** Sound files *)

(** [sprintf(PathBuffer, "%s", name)] and the open; the old descriptor is
    overwritten, [fd] is the new one. *)
Definition open_sound (fd : Z) (name : list Z) (s : sound) : option (option (list Z) * sound) :=
  if FILENAME_SIZE <=? zlen name then None else
  match files name with
  | Some file => Some (Some file, set_handle fd (log_sound (Opened name) s))
  | None => Some (None, set_handle (-1) s)
  end.
(** The state while the file is opened. *)
Definition start_file (s : sound) : sound := set_busy 1 (set_state SOUND_STATE_IDLE s).
Definition file_state (loop : bool) : Z := if loop then SOUND_STATE_FILE_LOOPING else SOUND_STATE_FILE.
(** The volume, then the samples. *)
Definition play_samples (m n : nat) (volume : Z) (loop : bool) (file : list Z) (s : sound)
    : option sound :=
  let s := (WriteToSoundDevice [SOUND_CMD_PLAY; u8 (volume * 8 / 100)] s).2 in
  stream m n file (set_state (file_state loop) s).

Definition MELODY_FMT : Z := 0x0600.

(** The tones of a melody; [dataBytes] is a multiple of 4. *)
Fixpoint melody (n : nat) (msb lsb volume : Z) (file : list Z) (s : sound) : sound :=
  match n with
  | O => s
  | S n =>
      let '(msb, lsb, file) := read_pair msb lsb file in
      let freq := u16 (msb * 256 + lsb) in
      let '(msb, lsb, file) := read_pair msb lsb file in
      let dur := u16 (msb * 256 + lsb) in
      melody n msb lsb volume file (log_sound (Slept dur) (PlayToneEx freq dur volume s))
  end.

Definition playRMDFile (fd : Z) (name : list Z) (volume : Z) (loop : bool) (s : sound)
    : option sound :=
  '(content, s) ← open_sound fd name (start_file s);
  match content with
  | None => Some s
  | Some file =>
      if 8 <=? zlen file then
        let '(msb, lsb, file) := read_pair (junk 1) (junk 2) file in
        if msb * 256 + lsb =? MELODY_FMT then
          let '(msb, lsb, file) := read_pair msb lsb file in
          let dataBytes := u16 (msb * 256 + lsb) in
          if (0 <? dataBytes) && (dataBytes mod 4 =? 0) then
            let '(msb, lsb, file) := read_pair msb lsb file in
            let '(msb, lsb, file) := read_pair msb lsb file in
            Some (melody (Z.to_nat (dataBytes / 4)) msb lsb volume file
                    (set_state (file_state loop) s))
          else Some s
        else Some s
      else Some s
  end.

Definition RIFF_HDR_SIZE : Z := 44.
Definition RIFF_RIFF_SIG : Z := 0x52494646.
Definition RIFF_WAVE_SIG : Z := 0x57415645.
Definition RIFF_FMT_SIG : Z := 0x666d7420.
Definition RIFF_FMT_PCM : Z := 0x0100.
Definition RIFF_FMT_1CHAN : Z := 0x0100.
Definition RIFF_FMT_8BITS : Z := 0x0800.
Definition RIFF_DATA_SIG : Z := 0x64617461.

(** [while (sz-- > 0) read(fd, &Tmp1, 1);]: the last decrement may overflow. *)
Definition skip_bytes (sz : Z) (file : list Z) : option (list Z) :=
  if sz <=? - 2 ^ 31 then None else Some (drop (Z.to_nat sz) file).

(** The chunks up to the samples: their length and the file behind. *)
Fixpoint find_data (n : nat) (file : list Z) : option (Z * list Z) :=
  match n with
  | O => None
  | S n =>
      let '(chunk, file) := readInt false file in
      let '(dataLen, file) := readInt true file in
      if chunk =? RIFF_DATA_SIG then Some (dataLen, file)
      else file ← skip_bytes dataLen file; find_data n file
  end.

(** The header of a WAV file, up to the fields behind the length of the format;
    [None] is an early return. *)
Definition wav_header (file : list Z) : option (Z * list Z) :=
  let '(v, file) := readInt false file in
  if negb (v =? RIFF_RIFF_SIG) then None else
  let '(_, file) := readInt true file in
  let '(v, file) := readInt false file in
  if negb (v =? RIFF_WAVE_SIG) then None else
  let '(v, file) := readInt false file in
  if negb (v =? RIFF_FMT_SIG) then None else
  let '(sz, file) := readInt true file in
  let '(v, file) := readShort false file in
  if negb (v =? RIFF_FMT_PCM) then None else
  let '(v, file) := readShort false file in
  if negb (v =? RIFF_FMT_1CHAN) then None else
  let '(_, file) := readInt true file in
  let '(_, file) := readInt true file in
  let '(_, file) := readShort true file in
  let '(v, file) := readShort false file in
  if negb (v =? RIFF_FMT_8BITS) then None else Some (sz, file).

Definition playWAVFile (m n : nat) (fd : Z) (name : list Z) (volume : Z) (loop : bool) (s : sound)
    : option sound :=
  '(content, s) ← open_sound fd name (start_file s);
  match content with
  | None => Some s
  | Some file =>
      if zlen file <? RIFF_HDR_SIZE then Some s else
      match wav_header file with
      | None => Some s
      | Some (sz, file) =>
          file ← skip_bytes (sz - 16) file;
          '(dataLen, file) ← find_data n file;
          let s := set_header SOUND_FILE_FORMAT_RAW_SOUND dataLen (SoundSampleRate s)
                     (SoundPlayMode s) s in
          play_samples m n volume loop file (set_state SOUND_STATE_SETUP_FILE s)
      end
  end.

Definition playRSOFile (m n : nat) (fd : Z) (name : list Z) (volume : Z) (loop : bool) (s : sound)
    : option sound :=
  '(content, s) ← open_sound fd name (start_file s);
  match content with
  | None => Some s
  | Some file =>
      let '(t1, t2, file) := read_pair (junk 1) (junk 2) file in
      let fmt := Z.lor (Z.shiftl t1 8) t2 in
      let '(t1, t2, file) := read_pair t1 t2 file in
      let len := Z.lor (Z.shiftl t1 8) t2 in
      let '(t1, t2, file) := read_pair t1 t2 file in
      let rate := Z.lor (Z.shiftl t1 8) t2 in
      let '(t1, t2, file) := read_pair t1 t2 file in
      let mode := Z.lor (Z.shiftl t1 8) t2 in
      let s := set_state SOUND_STATE_SETUP_FILE (set_header fmt len rate mode s) in
      let s := if SoundFileFormat s =? SOUND_FILE_FORMAT_ADPCM_SOUND then soundInitAdPcm s else s in
      play_samples m n volume loop file s
  end.

Definition play_file (m n : nat) (fd : Z) (name : list Z) (volume : Z) (loop : bool)
    : sound -> option sound :=
  if contains (str ".rmd") name then playRMDFile fd name volume loop
  else if contains (str ".wav") name then playWAVFile m n fd name volume loop
  else playRSOFile m n fd name volume loop.

(** [k] repetitions at most. *)
Fixpoint repeat_file (k m n : nat) (fd : Z) (name : list Z) (volume : Z) (loop : bool) (s : sound)
    : option sound :=
  match k with
  | O => None
  | S k =>
      s ← play_file m n fd name volume loop s;
      if loop && negb (StopLoop s =? 1) then repeat_file k m n fd name volume loop s else Some s
  end.
Definition PlayFileEx (k m n : nat) (fd : Z) (name : list Z) (volume : Z) (loop : bool) (s : sound)
    : option sound :=
  if negb (SoundInitialized s) || SoundMuted s then Some s else
  repeat_file k m n fd name volume loop s.
(** Macros of ev3_sound.h: a file once at full volume, an array of tones. *)
Definition PlayFile (k m n : nat) (fd : Z) (name : list Z) : sound -> option sound :=
  PlayFileEx k m n fd name 100 false.
Definition PlayTones (l : list (Z * Z)) : sound -> sound := PlayTonesEx l.
End device.
