(* ===== verification/SoundSpec.v ===== *)
(** * SoundSpec: what the sound library plays *)

From S2P Require Import Prelude Cstr Sound.

(** ** The ADPCM decoder *)

Definition step (i : Z) : Z := nth (Z.to_nat i) StepSizeTable 0.
Definition bit (d k x : Z) : Z := if Z.testbit d k then x else 0.

(** One step of the IMA decoder on 8-bit samples, without overflow. *)
Definition ima_diff (i d : Z) : Z :=
  step i / 8 + bit d 2 (step i) + bit d 1 (step i / 2) + bit d 0 (step i / 4).
Definition ima_value (v i d : Z) : Z :=
  Z.max 0 (Z.min 255 (if Z.testbit d 3 then v - ima_diff i d else v + ima_diff i d)).
Definition ima_index (i d : Z) : Z := Z.max 0 (Z.min 88 (i + nth (Z.to_nat d) IndexTable 0)).

Definition adpcm_ok (s : sound) : Prop := 0 <= ValPrev s <= 255 /\ 0 <= Index s <= 88.

Lemma step_range i : 0 <= i <= 88 -> 7 <= step i <= 32767 /\ (i <= 81 -> step i <= 17000).
Proof.
  intros Hi. assert (forallb (fun i => let x := step (Z.of_nat i) in
    (7 <=? x) && (x <=? 32767) && ((81 <? Z.of_nat i) || (x <=? 17000))) (seq 0 89) = true) as H
    by (vm_compute; reflexivity).
  rewrite forallb_forall in H. assert (In (Z.to_nat i) (seq 0 89)) as Hin by (apply in_seq; lia).
  specialize (H _ Hin). cbv beta zeta in H. rewrite Z2Nat.id in H by lia.
  apply andb_true_iff in H as [H H2]. apply andb_true_iff in H as [H0 H1].
  apply orb_true_iff in H2. apply Z.leb_le in H0, H1. rewrite Z.ltb_lt, Z.leb_le in H2. lia.
Qed.
Lemma limit_spec lo hi x : lo <= hi -> limit lo hi x = Z.max lo (Z.min hi x).
Proof. unfold limit. destruct (Z.ltb_spec x lo), (Z.ltb_spec hi x); lia. Qed.
Lemma index_step_range d : -1 <= nth (Z.to_nat d) IndexTable 0 <= 8.
Proof.
  destruct (nth_in_or_default (Z.to_nat d) IndexTable 0) as [H|H]; [|lia].
  assert (Forall (fun x => -1 <= x <= 8) IndexTable) as Ht by (repeat constructor; done).
  rewrite List.Forall_forall in Ht. by apply Ht.
Qed.

(** The masks are tests of bits. *)
Lemma mask_bit d k : 0 <= k -> negb (Z.land d (2 ^ k) =? 0) = Z.testbit d k.
Proof.
  intros Hk. destruct (Z.testbit d k) eqn:E.
  - destruct (Z.eqb_spec (Z.land d (2 ^ k)) 0) as [H|]; [|done].
    assert (Z.testbit (Z.land d (2 ^ k)) k = false) as H' by (rewrite H; apply Z.bits_0).
    by rewrite Z.land_spec, E, Z.pow2_bits_true in H'.
  - replace (Z.land d (2 ^ k)) with 0; [done|]. symmetry. apply Z.bits_inj'. intros j Hj.
    rewrite Z.land_spec, Z.bits_0. destruct (decide (j = k)) as [->|]; [by rewrite E|].
    rewrite Z.pow2_bits_false by done. apply andb_false_r.
Qed.
Lemma low_mask_bit d k : 0 <= k < 3 -> negb (Z.land (Z.land d 7) (2 ^ k) =? 0) = Z.testbit d k.
Proof.
  intros Hk. rewrite mask_bit by lia. rewrite Z.land_spec. change 7 with (Z.ones 3).
  rewrite Z.ones_spec_low by lia. apply andb_true_r.
Qed.

(** Removes the conversions of sums that fit, the inner ones first. *)
Ltac unwrap_i16 :=
  repeat match goal with
  | |- context [i16 ?e] =>
      lazymatch e with context [i16 _] => fail | _ => rewrite (i16_id e) by lia end
  end.

(** C35: The ADPCM decoder keeps its sample in a byte and its index in the table, computes
    the IMA index, and computes the IMA sample for every step below 17000, where its 16-bit
    sums do not overflow. *)
Theorem adpcm_decodes d s :
  adpcm_ok s ->
  let '(v, s') := soundGetAdPcmValue d s in
  adpcm_ok s' /\ v = ValPrev s' /\ Index s' = ima_index (Index s) d
  /\ (Index s <= 81 -> v = ima_value (ValPrev s) (Index s) d).
Proof.
  intros [Hv Hi]. unfold soundGetAdPcmValue. rewrite !limit_spec by done.
  pose proof (index_step_range d) as Hd. rewrite (i16_id (Index s + _)) by lia.
  change (negb (Z.land d 8 =? 0)) with (negb (Z.land d (2 ^ 3) =? 0)).
  change (negb (Z.land (Z.land d 7) 4 =? 0)) with (negb (Z.land (Z.land d 7) (2 ^ 2) =? 0)).
  change (negb (Z.land (Z.land d 7) 2 =? 0)) with (negb (Z.land (Z.land d 7) (2 ^ 1) =? 0)).
  change (negb (Z.land (Z.land d 7) 1 =? 0)) with (negb (Z.land (Z.land d 7) (2 ^ 0) =? 0)).
  rewrite mask_bit, !low_mask_bit by lia. rewrite !Z.shiftr_div_pow2 by lia.
  fold (step (Index s)). change (2 ^ 3) with 8. change (2 ^ 2) with 4. change (2 ^ 1) with 2.
  change (STEP_SIZE_TABLE_ENTRIES - 1) with 88.
  cbn [ValPrev Index set_adpcm]. rewrite u8_id by lia.
  split; [unfold adpcm_ok; cbn [ValPrev Index set_adpcm]; lia|].
  split; [done|]. split; [done|]. intros Hlow. unfold ima_value. do 2 f_equal.
  destruct (step_range (Index s) Hi) as [Hs Hs']. specialize (Hs' Hlow).
  unfold ima_diff, bit. revert Hs Hs'. generalize (step (Index s)). intros x Hx Hx'.
  assert (0 <= x / 8 <= 2125 /\ 0 <= x / 4 <= 4250 /\ 0 <= x / 2 <= 8500) as Hq
    by (Z.div_mod_to_equations; lia).
  revert Hq. generalize (x / 8), (x / 4), (x / 2). intros x8 x4 x2 Hq.
  destruct (Z.testbit d 2), (Z.testbit d 1), (Z.testbit d 0), (Z.testbit d 3); unwrap_i16; lia.
Qed.

(** With the largest step a positive difference wraps around to a negative one. *)
Lemma adpcm_wraps : (soundGetAdPcmValue 7 (set_adpcm 100 88 32767 sound0)).1 = 0
  /\ ima_value 100 88 7 = 255.
Proof. by vm_compute. Qed.

(** ** Streaming *)

(** A message that is refused [k] times: a write of nothing, and a pause. *)
Definition refusals (k : nat) (msg : list Z) : list sound_event :=
  concat (replicate k [Written msg 0; Slept 1]).
Definition attempts (k : nat) (msg : list Z) : list sound_event :=
  refusals k msg ++ [Written msg (zlen msg)].
Definition log_all (evs : list sound_event) (s : sound) : sound :=
  foldl (fun s e => log_sound e s) s evs.

Lemma log_all_log evs s : sound_log (log_all evs s) = rev evs ++ sound_log s.
Proof.
  revert s. induction evs as [|e evs IH]; intros s; [done|]. unfold log_all in *. cbn [foldl rev].
  by rewrite IH, <- app_assoc.
Qed.
Lemma log_all_fields evs s :
  SoundFileFormat (log_all evs s) = SoundFileFormat s /\ SoundData (log_all evs s) = SoundData s
  /\ SoundDataLength (log_all evs s) = SoundDataLength s /\ ValPrev (log_all evs s) = ValPrev s
  /\ Index (log_all evs s) = Index s.
Proof.
  revert s. induction evs as [|e evs IH]; intros s; [done|]. unfold log_all in *. cbn [foldl].
  destruct (IH (log_sound e s)) as (-> & -> & -> & -> & ->). done.
Qed.

(** A device on which every write takes nothing is written to forever. *)
Lemma silent_device_stalls on_write m n file s :
  (forall log bytes, on_write log bytes = 0) -> 0 < SoundDataLength s ->
  stream on_write m n file s = None.
Proof.
  intros H0 HL. destruct n as [|n]; cbn [stream]; rewrite (proj2 (Z.ltb_lt _ _)) by done; [done|].
  cbn [negb]. destruct (next_samples file s) as [[samples file'] s1].
  generalize (take (Z.to_nat (u8 (1 + zlen samples)))
    (SoundData (set_data (splice 0 (SOUND_CMD_SERVICE :: samples) (SoundData s1)) s1))).
  generalize (set_data (splice 0 (SOUND_CMD_SERVICE :: samples) (SoundData s1)) s1).
  intros s2 bytes. assert (forall s2, write_samples on_write m bytes s2 = None) as ->; [|done].
  induction m as [|m IH]; intros s3; [done|]. cbn [write_samples WriteToSoundDevice].
  rewrite H0. apply IH.
Qed.

Section device.
Context (on_write : list sound_event -> list Z -> Z).
(** A device that takes whatever is written, after it has returned 0 for it at most [M]
    times. *)
Context (M : nat) (Hdev : forall log bytes, exists k, (k <= M)%nat
  /\ (forall j, (j < k)%nat -> on_write (rev (refusals j bytes) ++ log) bytes = 0)
  /\ on_write (rev (refusals k bytes) ++ log) bytes = zlen bytes).

(** The samples in messages, each behind the command byte and refused some times. *)
Definition messages (chunks : list (nat * list Z)) : list sound_event :=
  concat (map (fun '(k, c) => attempts k (SOUND_CMD_SERVICE :: c)) chunks).
Definition message_ok (m : nat * list Z) : Prop := (m.1 <= M)%nat /\ 0 < zlen m.2 <= SOUND_CHUNK.

Lemma write_delivers k m bytes s :
  (k < m)%nat -> 0 < zlen bytes < 65536 ->
  (forall j, (j < k)%nat -> on_write (rev (refusals j bytes) ++ sound_log s) bytes = 0) ->
  on_write (rev (refusals k bytes) ++ sound_log s) bytes = zlen bytes ->
  write_samples on_write m bytes s = Some (zlen bytes, log_all (attempts k bytes) s).
Proof.
  intros Hk Hb. revert m s Hk. induction k as [|k IH]; intros m s Hk Href Hacc;
    (destruct m as [|m]; [lia|]); cbn [write_samples WriteToSoundDevice].
  - cbn in Hacc. rewrite Hacc, u16_id by lia. by rewrite (proj2 (Z.eqb_neq _ _)) by lia.
  - pose proof (Href 0%nat ltac:(lia)) as H0. cbn in H0. rewrite H0. change (u16 0 =? 0) with true.
    cbv iota. rewrite IH; [done|lia|..].
    + intros j Hj. specialize (Href (S j) ltac:(lia)). unfold refusals in Href. cbn [replicate concat] in Href.
      rewrite rev_app_distr, <- app_assoc in Href. exact Href.
    + unfold refusals in Hacc. cbn [replicate concat] in Hacc.
      rewrite rev_app_distr, <- app_assoc in Hacc. exact Hacc.
Qed.

(** The fields that streaming does not touch. *)
Definition same_setup (s s' : sound) : Prop :=
  SoundFileFormat s' = SoundFileFormat s /\ zlen (SoundData s') = zlen (SoundData s).

Lemma write_accepted m samples s :
  (M < m)%nat -> zlen samples <= 250 -> zlen (SoundData s) = 253 ->
  let s' := set_data (splice 0 (SOUND_CMD_SERVICE :: samples) (SoundData s)) s in
  exists k, (k <= M)%nat /\
  write_samples on_write m (take (Z.to_nat (u8 (1 + zlen samples))) (SoundData s')) s'
    = Some (1 + zlen samples, log_all (attempts k (SOUND_CMD_SERVICE :: samples)) s').
Proof.
  intros Hm Hl Hd s'. pose proof (Nat2Z.is_nonneg (length samples)) as H0. fold (zlen samples) in H0.
  rewrite u8_id by lia.
  assert (take (Z.to_nat (1 + zlen samples)) (SoundData s') = SOUND_CMD_SERVICE :: samples) as ->.
  { cbn [SoundData s' set_data]. unfold splice. rewrite take_0, app_nil_l.
    apply take_app_length'. unfold zlen. cbn [length]. lia. }
  assert (zlen (SOUND_CMD_SERVICE :: samples) = 1 + zlen samples) as Hz by (unfold zlen; cbn [length]; lia).
  destruct (Hdev (sound_log s') (SOUND_CMD_SERVICE :: samples)) as (k & Hk & Href & Hacc).
  exists k. split; [done|]. rewrite <- Hz. apply write_delivers; [lia|lia|done|done].
Qed.
Lemma zlen_data samples s :
  zlen samples <= 250 -> zlen (SoundData s) = 253 ->
  zlen (splice 0 (SOUND_CMD_SERVICE :: samples) (SoundData s)) = 253.
Proof. intros Hl Hd. rewrite zlen_splice; [done|]. unfold zlen in *. cbn [length]. lia. Qed.

(** *** Raw samples *)

(** One byte of every 251 is counted but not read. *)
Definition raw_played (L : Z) : Z := L - L / 251.

Lemma raw_round m n file s :
  (M < m)%nat -> SoundFileFormat s <> SOUND_FILE_FORMAT_ADPCM_SOUND -> zlen (SoundData s) = 253 ->
  0 < SoundDataLength s -> 0 < zlen file ->
  let c := take (Z.to_nat (Z.min SOUND_CHUNK (SoundDataLength s))) file in
  exists k s', stream on_write m (S n) file s
      = stream on_write m n (drop (Z.to_nat (Z.min SOUND_CHUNK (SoundDataLength s))) file) s'
    /\ SoundFileFormat s' = SoundFileFormat s /\ zlen (SoundData s') = 253
    /\ SoundDataLength s' = SoundDataLength s - (1 + zlen c) /\ message_ok (k, c)
    /\ sound_log s' = rev (messages [(k, c)]) ++ sound_log s.
Proof.
  intros Hm Hf Hd HL Hfile c. cbn [stream]. rewrite (proj2 (Z.ltb_lt _ _)) by done. cbn [negb].
  unfold next_samples. rewrite (proj2 (Z.eqb_neq _ _)) by done.
  assert ((if SOUND_CHUNK <? SoundDataLength s then SOUND_CHUNK else SoundDataLength s)
    = Z.min SOUND_CHUNK (SoundDataLength s)) as ->.
  { destruct (Z.ltb_spec SOUND_CHUNK (SoundDataLength s)); lia. }
  fold c. assert (0 < zlen c <= 250) as Hc.
  { unfold c, zlen in *. rewrite length_take. unfold SOUND_CHUNK. lia. }
  destruct (write_accepted m c s Hm ltac:(lia) Hd) as (k & Hk & Hw). rewrite Hw.
  cbn [mbind option_bind]. rewrite (proj2 (Z.ltb_lt 1 (1 + zlen c))) by lia.
  match goal with |- context [log_all ?evs ?x] =>
    destruct (log_all_fields evs x) as (E1 & E2 & E3 & _); pose proof (log_all_log evs x) as E4;
    set (s1 := log_all evs x) in * end.
  rewrite E1. cbn [SoundFileFormat set_data]. rewrite (proj2 (Z.eqb_neq _ _)) by done.
  exists k. eexists. split; [reflexivity|]. cbn [SoundFileFormat SoundData SoundDataLength sound_log set_length
    set_header]. rewrite E1, E2, E3, E4. cbn [SoundFileFormat SoundData SoundDataLength sound_log set_data].
  split_and!; [done|apply zlen_data; [lia|done]|done|split; [exact Hk|exact Hc]|].
  unfold messages. cbn [map concat]. by rewrite app_nil_r.
Qed.

Lemma messages_cons m ms : messages (m :: ms) = messages [m] ++ messages ms.
Proof. unfold messages. cbn [map concat]. by rewrite app_nil_r. Qed.
Lemma messages_log m ms s1 s2 s :
  sound_log s1 = rev (messages [m]) ++ sound_log s ->
  sound_log s2 = rev (messages ms) ++ sound_log s1 ->
  sound_log s2 = rev (messages (m :: ms)) ++ sound_log s.
Proof. intros H1 H2. by rewrite H2, H1, (messages_cons m ms), rev_app_distr, <- app_assoc. Qed.

Lemma raw_stream m n file s :
  (M < m)%nat -> SoundFileFormat s <> SOUND_FILE_FORMAT_ADPCM_SOUND -> zlen (SoundData s) = 253 ->
  SoundDataLength s < Z.of_nat n -> SoundDataLength s <= zlen file ->
  exists s' chunks, stream on_write m n file s = Some s'
    /\ sound_log s' = rev (messages chunks) ++ sound_log s /\ Forall message_ok chunks
    /\ concat (map snd chunks) = take (Z.to_nat (raw_played (SoundDataLength s))) file.
Proof.
  intros Hm. revert file s. induction n as [|n IH]; intros file s Hf Hd Hn Hfile.
  - exists s, []. cbn [stream]. rewrite (proj2 (Z.ltb_ge _ _)) by lia. split; [done|].
    split; [done|]. split; [constructor|]. unfold raw_played.
    replace (Z.to_nat _) with 0%nat by (Z.div_mod_to_equations; lia). done.
  - destruct (Z.ltb_spec 0 (SoundDataLength s)) as [HL|HL].
    2:{ exists s, []. cbn [stream]. rewrite (proj2 (Z.ltb_ge _ _)) by lia. split; [done|].
        split; [done|]. split; [constructor|]. unfold raw_played.
        replace (Z.to_nat _) with 0%nat by (Z.div_mod_to_equations; lia). done. }
    destruct (raw_round m n file s Hm Hf Hd HL ltac:(lia))
      as (j & s1 & -> & Hf1 & Hd1 & HL1 & Hok & Hl1).
    set (k := Z.min SOUND_CHUNK (SoundDataLength s)) in *.
    assert (zlen (take (Z.to_nat k) file) = k) as Hk.
    { unfold zlen in *. rewrite length_take. unfold k, SOUND_CHUNK. lia. }
    rewrite Hk in HL1. assert (0 < k) as Hk0 by (unfold k, SOUND_CHUNK; lia).
    destruct (IH (drop (Z.to_nat k) file) s1) as (s2 & chunks & -> & Hl2 & Hoks & Hc2);
      [by rewrite Hf1|done|lia|unfold zlen in *; rewrite length_drop; lia|].
    exists s2, ((j, take (Z.to_nat k) file) :: chunks). split; [done|].
    split; [by eapply messages_log|]. split; [by constructor|].
    + cbn [map concat snd]. rewrite Hc2, HL1.
      replace (Z.to_nat (raw_played (SoundDataLength s)))
        with (Z.to_nat k + Z.to_nat (raw_played (SoundDataLength s - (1 + k))))%nat.
      { by rewrite take_take_drop. }
      unfold raw_played, k, SOUND_CHUNK. Z.div_mod_to_equations. lia.
Qed.

(** *** Compressed samples *)

(** The decoder looks at two fields and changes them and the step. *)
Definition adpcm_same (s s' : sound) : Prop := ValPrev s' = ValPrev s /\ Index s' = Index s.

Lemma decode_value_same d s s' : adpcm_same s s' ->
  (soundGetAdPcmValue d s').1 = (soundGetAdPcmValue d s).1
  /\ adpcm_same (soundGetAdPcmValue d s).2 (soundGetAdPcmValue d s').2.
Proof. intros [Hv Hi]. unfold soundGetAdPcmValue. rewrite Hv, Hi. by split. Qed.
Lemma decode_same data s s' : adpcm_same s s' ->
  (decode_bytes data s').1 = (decode_bytes data s).1
  /\ adpcm_same (decode_bytes data s).2 (decode_bytes data s').2.
Proof.
  revert s s'. induction data as [|b data IH]; intros s s' Hs; [done|]. cbn [decode_bytes].
  destruct (decode_value_same (Z.land (Z.shiftr b 4) 0x0F) s s' Hs) as [H1 Hs1].
  destruct (soundGetAdPcmValue (Z.land (Z.shiftr b 4) 0x0F) s) as [v1 s1],
    (soundGetAdPcmValue (Z.land (Z.shiftr b 4) 0x0F) s') as [v1' s1']. cbn [fst snd] in *.
  destruct (decode_value_same (Z.land b 0x0F) s1 s1' Hs1) as [H2 Hs2].
  destruct (soundGetAdPcmValue (Z.land b 0x0F) s1) as [v2 s2],
    (soundGetAdPcmValue (Z.land b 0x0F) s1') as [v2' s2']. cbn [fst snd] in *.
  destruct (IH s2 s2' Hs2) as [H3 Hs3].
  destruct (decode_bytes data s2) as [vs s3], (decode_bytes data s2') as [vs' s3'].
  cbn [fst snd] in *. by subst.
Qed.
Lemma decode_bytes_app l1 l2 s :
  decode_bytes (l1 ++ l2) s =
    ((decode_bytes l1 s).1 ++ (decode_bytes l2 (decode_bytes l1 s).2).1,
     (decode_bytes l2 (decode_bytes l1 s).2).2).
Proof.
  revert s. induction l1 as [|b l1 IH]; intros s; cbn [app decode_bytes fst snd].
  { by destruct (decode_bytes l2 s). }
  destruct (soundGetAdPcmValue (Z.land (Z.shiftr b 4) 0x0F) s) as [v1 s1].
  destruct (soundGetAdPcmValue (Z.land b 0x0F) s1) as [v2 s2].
  rewrite IH. by destruct (decode_bytes l1 s2) as [vs s3].
Qed.

(** What the decoder leaves alone. *)
Definition kept (s s' : sound) : Prop :=
  SoundFileFormat s' = SoundFileFormat s /\ SoundDataLength s' = SoundDataLength s
  /\ SoundData s' = SoundData s /\ sound_log s' = sound_log s.
Lemma value_keeps d s : kept s (soundGetAdPcmValue d s).2.
Proof. done. Qed.
Lemma kept_trans s1 s2 s3 : kept s1 s2 -> kept s2 s3 -> kept s1 s3.
Proof. unfold kept. intuition congruence. Qed.
Lemma decode_keeps data s :
  kept s (decode_bytes data s).2 /\ length (decode_bytes data s).1 = (2 * length data)%nat.
Proof.
  revert s. induction data as [|b data IH]; intros s; [done|]. cbn [decode_bytes].
  pose proof (value_keeps (Z.land (Z.shiftr b 4) 0x0F) s) as H1.
  destruct (soundGetAdPcmValue (Z.land (Z.shiftr b 4) 0x0F) s) as [v1 s1].
  pose proof (value_keeps (Z.land b 0x0F) s1) as H2.
  destruct (soundGetAdPcmValue (Z.land b 0x0F) s1) as [v2 s2].
  destruct (IH s2) as [H3 Hl]. destruct (decode_bytes data s2) as [vs s3]. cbn [fst snd] in *.
  split; [exact (kept_trans _ _ _ (kept_trans _ _ _ H1 H2) H3)|cbn [length]; lia].
Qed.

Lemma adpcm_round m n file s :
  (M < m)%nat -> SoundFileFormat s = SOUND_FILE_FORMAT_ADPCM_SOUND -> zlen (SoundData s) = 253 ->
  0 < SoundDataLength s -> 0 < zlen file ->
  let piece := take (Z.to_nat (Z.min SOUND_ADPCM_CHUNK (SoundDataLength s))) file in
  exists k s', stream on_write m (S n) file s
      = stream on_write m n (drop (Z.to_nat (Z.min SOUND_ADPCM_CHUNK (SoundDataLength s))) file) s'
    /\ SoundFileFormat s' = SoundFileFormat s /\ zlen (SoundData s') = 253
    /\ SoundDataLength s' = SoundDataLength s - zlen piece
    /\ adpcm_same (decode_bytes piece s).2 s' /\ message_ok (k, (decode_bytes piece s).1)
    /\ sound_log s' = rev (messages [(k, (decode_bytes piece s).1)]) ++ sound_log s.
Proof.
  intros Hm Hf Hd HL Hfile piece. cbn [stream]. rewrite (proj2 (Z.ltb_lt _ _)) by done. cbn [negb].
  unfold next_samples. rewrite Hf, Z.eqb_refl.
  assert ((if SOUND_ADPCM_CHUNK <? SoundDataLength s then SOUND_ADPCM_CHUNK else SoundDataLength s)
    = Z.min SOUND_ADPCM_CHUNK (SoundDataLength s)) as ->.
  { destruct (Z.ltb_spec SOUND_ADPCM_CHUNK (SoundDataLength s)); lia. }
  fold piece. assert (0 < zlen piece <= 125) as Hc.
  { unfold piece, zlen in *. rewrite length_take. unfold SOUND_ADPCM_CHUNK. lia. }
  destruct (decode_keeps piece s) as [(Hk1 & Hk2 & Hk3 & Hk4) Hlen].
  destruct (decode_bytes piece s) as [vs s1]. cbn [fst snd] in *.
  assert (zlen vs = 2 * zlen piece) as Hvs by (unfold zlen; lia).
  destruct (write_accepted m vs s1 Hm ltac:(lia) ltac:(congruence)) as (k & Hk & Hw). rewrite Hw.
  cbn [mbind option_bind]. rewrite (proj2 (Z.ltb_lt 1 (1 + zlen vs))) by lia.
  match goal with |- context [log_all ?evs ?x] =>
    destruct (log_all_fields evs x) as (E1 & E2 & E3 & E5 & E6); pose proof (log_all_log evs x) as E4;
    set (s2 := log_all evs x) in * end.
  rewrite E1. cbn [SoundFileFormat set_data]. rewrite Hk1, Hf, Z.eqb_refl.
  exists k. eexists. split; [reflexivity|]. unfold adpcm_same. cbn [SoundFileFormat SoundData
    SoundDataLength sound_log ValPrev Index set_length set_header]. rewrite E1, E2, E3, E4, E5, E6.
  cbn [SoundFileFormat SoundData SoundDataLength sound_log ValPrev Index set_data].
  split_and!; [congruence|apply zlen_data; [lia|congruence]| |done|done| |].
  - rewrite Hk2, Hvs. f_equal. Z.div_mod_to_equations. lia.
  - split; [exact Hk|]. unfold SOUND_CHUNK. cbn [snd]. lia.
  - rewrite Hk4. unfold messages. cbn [map concat]. by rewrite app_nil_r.
Qed.

Lemma adpcm_stream m n file s :
  (M < m)%nat -> SoundFileFormat s = SOUND_FILE_FORMAT_ADPCM_SOUND -> zlen (SoundData s) = 253 ->
  SoundDataLength s < Z.of_nat n -> SoundDataLength s <= zlen file ->
  exists s' chunks, stream on_write m n file s = Some s'
    /\ sound_log s' = rev (messages chunks) ++ sound_log s /\ Forall message_ok chunks
    /\ concat (map snd chunks) = (decode_bytes (take (Z.to_nat (SoundDataLength s)) file) s).1.
Proof.
  intros Hm. revert file s. induction n as [|n IH]; intros file s Hf Hd Hn Hfile.
  - exists s, []. cbn [stream]. rewrite (proj2 (Z.ltb_ge _ _)) by lia. split; [done|].
    split; [done|]. split; [constructor|]. by replace (Z.to_nat _) with 0%nat by lia.
  - destruct (Z.ltb_spec 0 (SoundDataLength s)) as [HL|HL].
    2:{ exists s, []. cbn [stream]. rewrite (proj2 (Z.ltb_ge _ _)) by lia. split; [done|].
        split; [done|]. split; [constructor|]. by replace (Z.to_nat _) with 0%nat by lia. }
    destruct (adpcm_round m n file s Hm Hf Hd HL ltac:(lia))
      as (j & s1 & -> & Hf1 & Hd1 & HL1 & Hsame & Hok & Hl1).
    set (k := Z.min SOUND_ADPCM_CHUNK (SoundDataLength s)) in *.
    assert (zlen (take (Z.to_nat k) file) = k) as Hk.
    { unfold zlen in *. rewrite length_take. unfold k, SOUND_ADPCM_CHUNK. lia. }
    rewrite Hk in HL1. assert (0 < k <= SoundDataLength s) as Hk0 by (unfold k, SOUND_ADPCM_CHUNK; lia).
    destruct (IH (drop (Z.to_nat k) file) s1) as (s2 & chunks & -> & Hl2 & Hoks & Hc2);
      [congruence|done|lia|unfold zlen in *; rewrite length_drop; lia|].
    exists s2, ((j, (decode_bytes (take (Z.to_nat k) file) s).1) :: chunks). split; [done|].
    split; [by eapply messages_log|]. split; [by constructor|].
    + cbn [map concat snd]. rewrite Hc2, HL1.
      replace (Z.to_nat (SoundDataLength s))
        with (Z.to_nat k + Z.to_nat (SoundDataLength s - k))%nat by lia.
      rewrite <- take_take_drop, decode_bytes_app. cbn [fst]. f_equal.
      by apply decode_same.
Qed.

(** *** A file that is too short *)

(** Behind the end of the file the loop makes no progress and never ends. *)
Lemma stream_stalls m n s :
  (M < m)%nat -> zlen (SoundData s) = 253 -> 0 < SoundDataLength s ->
  stream on_write m n [] s = None.
Proof.
  intros Hm. revert s. induction n as [|n IH]; intros s Hd HL; cbn [stream];
    rewrite (proj2 (Z.ltb_lt _ _)) by done; [done|]. cbn [negb].
  assert (next_samples [] s = ([], [], s)) as ->.
  { unfold next_samples. rewrite !take_nil, !drop_nil. by case_match. }
  destruct (write_accepted m [] s Hm ltac:(done) Hd) as (k & _ & Hw). rewrite Hw.
  cbn [mbind option_bind]. change (1 <? 1 + zlen []) with false. cbv iota.
  match goal with |- context [log_all ?evs ?x] =>
    destruct (log_all_fields evs x) as (_ & E2 & E3 & _) end.
  apply IH; [rewrite E2; by apply zlen_data|by rewrite E3].
Qed.

(** ** Sound files *)

Context (files : list Z -> option (list Z)) (junk : nat -> Z).

Definition be16 (x : Z) : list Z := [x / 256; x mod 256].
Lemma be16_or x : 0 <= x < 65536 -> Z.lor (Z.shiftl (x / 256) 8) (x mod 256) = x.
Proof.
  intros Hx. change 256 with (2 ^ 8). rewrite <- Z.shiftr_div_pow2, <- Z.land_ones by lia.
  apply Z.bits_inj'. intros i Hi. rewrite Z.lor_spec, Z.land_spec, Z.testbit_ones_nonneg by lia.
  destruct (Z.ltb_spec i 8).
  - rewrite Z.shiftl_spec_low by lia. cbn [orb]. apply andb_true_r.
  - rewrite Z.shiftl_spec_high by lia. rewrite Z.shiftr_spec by lia. rewrite andb_false_r, orb_false_r.
    f_equal. lia.
Qed.

(** An .rso file. *)
Definition rso (fmt len rate mode : Z) (data : list Z) : list Z :=
  be16 fmt ++ be16 len ++ be16 rate ++ be16 mode ++ data.

(** The samples of a file that are sent to the device. *)
Definition audible (fmt len : Z) (data : list Z) (s : sound) : list Z :=
  if fmt =? SOUND_FILE_FORMAT_ADPCM_SOUND
  then (decode_bytes (take (Z.to_nat len) data) (soundInitAdPcm s)).1
  else take (Z.to_nat (raw_played len)) data.

(** The search for the samples does not end at the end of the file. *)
Lemma find_data_stalls n :
  (readInt junk false []).1 <> RIFF_DATA_SIG -> - 2 ^ 31 < (readInt junk true []).1 ->
  find_data junk n [] = None.
Proof.
  intros Hc Hl. induction n as [|n IH]; [done|]. cbn [find_data].
  destruct (readInt junk false []) as [chunk f1] eqn:E1.
  assert (f1 = []) as -> by (by injection E1). cbn [fst] in Hc.
  destruct (readInt junk true []) as [len f2] eqn:E2.
  assert (f2 = []) as -> by (by injection E2). cbn [fst] in Hl.
  rewrite (proj2 (Z.eqb_neq _ _)) by done. unfold skip_bytes.
  rewrite (proj2 (Z.leb_gt _ _)) by done. cbn [mbind option_bind]. by rewrite drop_nil.
Qed.

(** The descriptor of an earlier file is lost without being closed. *)
Lemma handle_overwritten fd fd' name name' file s :
  zlen name < 120 -> zlen name' < 120 -> files name = Some file -> files name' = Some file ->
  exists s1 s2, open_sound files fd name s = Some (Some file, s1)
    /\ open_sound files fd' name' s1 = Some (Some file, s2)
    /\ sound_log s2 = [Opened name'; Opened name] ++ sound_log s /\ hSoundFile s2 = fd'.
Proof.
  intros Hn Hn' Hf Hf'. unfold open_sound, FILENAME_SIZE.
  rewrite (proj2 (Z.leb_gt 120 (zlen name))), (proj2 (Z.leb_gt 120 (zlen name'))) by done.
  rewrite Hf, Hf'. eexists _, _. split_and!; reflexivity.
Qed.

End device.
