(* ===== verification/Button.v ===== *)
(** * Button: the buttons and lights of the brick (src/util/cat/ev3_button.c)

    The kernel driver shows the state of the six buttons in shared memory; each
    look at it is one snapshot of the input, and each look at the clock one of
    its readings in milliseconds.  [None] is a call that still waits when the
    input is used up.  The lights are switched by writes to the same device. *)

From Stdlib Require Import SpecFloat.
From S2P Require Import Prelude IO Cstr.

Definition NUM_BUTTONS : nat := 6.
Definition WAITFOR_RELEASE_SHIFT : Z := 8.
Definition LED_BLACK : Z := 0.
Definition LED_ORANGE : Z := 3.
Definition LED_GREEN_FLASH : Z := 4.
Definition LED_RED_FLASH : Z := 5.
Definition LED_ORANGE_FLASH : Z := 6.
Definition LED_GREEN_PULSE : Z := 7.
Definition LED_RED_PULSE : Z := 8.
Definition LED_ORANGE_PULSE : Z := 9.
Definition NUM_LED_PATTERNS : Z := 10.
Definition BTNSTATE_PRESSED_EV : Z := 0x01.
Definition BTNSTATE_PRESSED_STATE : Z := 0x80.
Definition BTNSTATE_NONE : Z := 0x10.

(** ** The state *)

(** [pButton]: NULL, the array of the process, or the shared memory. *)
Inductive button_pointer := NullButton | SafeButton | SharedButton.

Record button := MkButton {
  pButton : button_pointer;
  ButtonLedFile : Z;
  LedPattern : Z;
  WarnLight : bool;
  curButtonsS : Z;
  curButtonsE : Z;
  led_log : list (list Z);      (* what was written, the latest first *)
}.

(** The snapshots of the buttons and the readings of the clock to come. *)
Record input := MkInput { snapshots : list (list Z); clock : list Z }.

Definition set_pbutton (p : button_pointer) (s : button) : button :=
  MkButton p (ButtonLedFile s) (LedPattern s) (WarnLight s) (curButtonsS s) (curButtonsE s) (led_log s).
Definition set_led_file (f : Z) (s : button) : button :=
  MkButton (pButton s) f (LedPattern s) (WarnLight s) (curButtonsS s) (curButtonsE s) (led_log s).
Definition set_pattern (p : Z) (s : button) : button :=
  MkButton (pButton s) (ButtonLedFile s) p (WarnLight s) (curButtonsS s) (curButtonsE s) (led_log s).
Definition set_warn (w : bool) (s : button) : button :=
  MkButton (pButton s) (ButtonLedFile s) (LedPattern s) w (curButtonsS s) (curButtonsE s) (led_log s).
Definition set_current (b : Z) (s : button) : button :=
  MkButton (pButton s) (ButtonLedFile s) (LedPattern s) (WarnLight s) b (curButtonsE s) (led_log s).
Definition set_events (b : Z) (s : button) : button :=
  MkButton (pButton s) (ButtonLedFile s) (LedPattern s) (WarnLight s) (curButtonsS s) b (led_log s).
Definition log_led (bytes : list Z) (s : button) : button :=
  MkButton (pButton s) (ButtonLedFile s) (LedPattern s) (WarnLight s) (curButtonsS s) (curButtonsE s)
    (bytes :: led_log s).

Definition button0 : button := MkButton NullButton 0 0 false 0 0 [].

(** ** Reading the buttons *)

Fixpoint pressed_mask (i : Z) (Pressed : list Z) : Z :=
  match Pressed with
  | [] => 0
  | p :: Pressed => Z.lor (if p =? 0 then 0 else Z.shiftl 1 i) (pressed_mask (i + 1) Pressed)
  end.
(** The six bytes of the shared memory are taken at one moment, where the C code reads one
    after the other. *)
Definition checkButtons (Pressed : list Z) : Z := u16 (pressed_mask 0 (take NUM_BUTTONS Pressed)).

(** Two looks until they agree. *)
Fixpoint get_stable (snaps : list (list Z)) : option (Z * list (list Z)) :=
  match snaps with
  | p :: q :: snaps =>
      if checkButtons p =? checkButtons q then Some (checkButtons p, snaps) else get_stable snaps
  | _ => None
  end.
Definition getButtons (i : input) : option (Z * input) :=
  '(b, snaps) ← get_stable (snapshots i); Some (b, MkInput snaps (clock i)).

Definition buttonClear (s : button) (i : input) : option (button * input) :=
  '(b, i) ← getButtons i; Some (set_events b (set_current b s), i).
Definition readButtons (s : button) (i : input) : option (Z * button * input) :=
  '(b, i) ← getButtons i; Some (b, set_current b s, i).

Definition ButtonLedInitialized (s : button) : bool :=
  negb (ButtonLedFile s =? -1) && (match pButton s with NullButton => false | _ => true end).

(** ** The lights *)

Definition WriteToButtonLedDevice (bytes : list Z) (s : button) : button :=
  if 0 <=? ButtonLedFile s then log_led bytes s else s.

Definition MappedPattern (Pattern : Z) (s : button) : Z :=
  if WarnLight s then
    if (Pattern =? LED_GREEN_FLASH) || (Pattern =? LED_RED_FLASH) || (Pattern =? LED_ORANGE_FLASH)
    then LED_ORANGE_FLASH
    else if (Pattern =? LED_GREEN_PULSE) || (Pattern =? LED_RED_PULSE)
            || (Pattern =? LED_ORANGE_PULSE)
    then LED_ORANGE_PULSE
    else LED_ORANGE
  else Pattern.
Definition UpdateLed (Pattern : Z) (s : button) : button :=
  if negb (ButtonLedInitialized s) then s else
  if Pattern <? NUM_LED_PATTERNS then
    let s := set_pattern Pattern s in
    WriteToButtonLedDevice [u8 (48 + MappedPattern Pattern s); 0] s
  else s.
Definition SetLedWarning (Value : bool) (s : button) : button :=
  if negb (ButtonLedInitialized s) then s else
  if negb (Bool.eqb Value (WarnLight s)) then
    let s := set_warn Value s in UpdateLed (LedPattern s) s
  else s.
Definition LedWarning (s : button) : bool := if negb (ButtonLedInitialized s) then false else WarnLight s.
Definition SetLedPattern (Pattern : Z) (s : button) : button :=
  if negb (ButtonLedInitialized s) then s else
  if negb (Pattern =? LedPattern s) then UpdateLed Pattern s else s.
Definition get_LedPattern (s : button) : Z :=
  if negb (ButtonLedInitialized s) then LED_BLACK else MappedPattern (LedPattern s) s.

(** ** The version of the hardware

    [HwVers], an array of 6 bytes; [data] is what a read of the device delivers,
    [None] if it fails, which is not noticed. *)

Definition HWVERS_SIZE : nat := 6.
Definition read_version (data : option (list Z)) (HwVers : list Z) : list Z :=
  splice 0 (take HWVERS_SIZE (default [] data)) HwVers.

(** The string is the array, which a read of 6 bytes leaves without its NUL:
    [None]. *)
Definition HardwareVersionString (data : option (list Z)) (s : button) (HwVers : list Z)
    : option (list Z) * list Z :=
  if negb (ButtonLedInitialized s) then (Some [], HwVers) else
  let HwVers := read_version data HwVers in (cstr_of HwVers, HwVers).

(** A float of 32 bits, rounded from [m] times a power of ten; both are exact
    before the division as long as they have fewer than 24 bits. *)
Definition float_of (m : Z) : spec_float := binary_normalize 24 128 m 0 false.
Definition decimal (neg : bool) (m e : Z) : spec_float :=
  let f := if 0 <=? e then SFmul 24 128 (float_of m) (float_of (10 ^ e))
           else SFdiv 24 128 (float_of m) (float_of (10 ^ (- e))) in
  if neg then SFopp f else f.

(** The exponent of a number; [None]: the letter without digits. *)
Definition scan_exponent (l : list Z) : option Z :=
  match l with
  | c :: l =>
      if (c =? 101) || (c =? 69) then
        let '(neg, l) :=
          match l with 45 :: l => (true, l) | 43 :: l => (false, l) | _ => (false, l) end in
        (fun v => if neg : bool then - v else v) <$> (scan_dec None l).1
      else Some 0
  | [] => Some 0
  end.

(** "%f" for decimal numbers: a sign, digits with a point, an exponent.  (Names
    of special values and hexadecimal numbers are no versions.) *)
Definition scan_float (l : list Z) : option spec_float :=
  let '(neg, l) :=
    match skip_space l with 45 :: l => (true, l) | 43 :: l => (false, l) | l => (false, l) end in
  let '(int, l1) := scan_dec None l in
  let '(all, l2) := match l1 with 46 :: l1 => scan_dec int l1 | _ => (int, l1) end in
  let places := match l1 with 46 :: l1 => Z.of_nat (length l1 - length l2) | _ => 0 end in
  m ← all; e ← scan_exponent l2; Some (decimal neg m (e - places)).

(** The number behind the first character, times ten. *)
Definition HardwareVersion (data : option (list Z)) (s : button) (HwVers : list Z)
    : option (spec_float * list Z) :=
  let Result := float_of 0 in
  if negb (ButtonLedInitialized s) then Some (Result, HwVers) else
  let HwVers := read_version data HwVers in
  text ← cstr_of (tail HwVers);
  Some (SFmul 24 128 (default Result (scan_float text)) (float_of 10), HwVers).

(** ** Opening and closing *)

Definition ButtonLedCloseDevices (s : button) : button :=
  if negb (ButtonLedInitialized s) then s else
  let s := set_warn false s in
  let s := if 0 <=? ButtonLedFile s then SetLedPattern LED_BLACK s else s in
  set_pbutton NullButton (set_led_file (-1) s).

(** [file] is the result of open, [mapped] the success of mmap. *)
Definition ButtonLedInit (file : Z) (mapped : bool) (s : button) (i : input)
    : option (bool * button * input) :=
  if ButtonLedInitialized s then Some (true, s, i) else
  let s := set_led_file file (set_pbutton SafeButton s) in
  if file <? 0 then Some (false, ButtonLedCloseDevices s, i) else
  if negb mapped then Some (false, ButtonLedCloseDevices s, i) else
  '(s, i) ← buttonClear (set_pbutton SharedButton s) i;
  Some (true, SetLedPattern LED_BLACK (set_pattern NUM_LED_PATTERNS (set_warn false s)), i).
Definition ButtonLedOpen (s : button) (i : input) : option (bool * button * input) :=
  if negb (ButtonLedInitialized s) then Some (false, s, i) else
  '(s, i) ← buttonClear s i; Some (true, s, i).
Definition ButtonLedClose (s : button) (i : input) : option (bool * button * input) :=
  ButtonLedOpen s i.
Definition ButtonLedExit (s : button) : bool * button :=
  if negb (ButtonLedInitialized s) then (true, s) else (true, ButtonLedCloseDevices s).

(** ** Waiting *)

(** The end of the wait, and the readings that are left. *)
Definition end_of_wait (timeout : Z) (i : input) : option (Z * input) :=
  if timeout =? 0 then Some (0x7fffffffffffffff, i)
  else match clock i with
       | [] => None
       | now :: c => Some (u64 (now + timeout), MkInput (snapshots i) c)
       end.

(** The loops; [react oldDown newDown] is the result, or the next [oldDown]. *)
Fixpoint wait_loop (react : Z -> Z -> Z + Z) (endms oldDown : Z) (c : list Z)
    (snaps : list (list Z)) (s : button) : option (Z * button * input) :=
  match c with
  | [] => None
  | curTime :: c =>
      if endms <=? curTime then Some (0, s, MkInput snaps c) else
      '(newDown, snaps) ← get_stable snaps;
      let s := set_events newDown (set_current newDown s) in
      match react oldDown newDown with
      | inl result => Some (result, s, MkInput snaps c)
      | inr oldDown => wait_loop react endms oldDown c snaps s
      end
  end.

(** Releases in the high byte, presses in the low one. *)
Definition any_event (oldDown newDown : Z) : Z + Z :=
  if negb (newDown =? oldDown) then
    inl (u16 (Z.lor (Z.shiftl (Z.land oldDown (Z.lnot newDown)) WAITFOR_RELEASE_SHIFT)
                (Z.land newDown (Z.lnot oldDown))))
  else inr oldDown.
Definition any_press (oldDown newDown : Z) : Z + Z :=
  let pressed := u16 (Z.land newDown (Z.lnot oldDown)) in
  if negb (pressed =? 0) then inl pressed else inr newDown.

Definition button_wait (react : Z -> Z -> Z + Z) (timeout : Z) (s : button) (i : input)
    : option (Z * button * input) :=
  if negb (ButtonLedInitialized s) then Some (0, s, i) else
  '(endms, i) ← end_of_wait timeout i;
  wait_loop react endms (curButtonsE s) (clock i) (snapshots i) s.
Definition ButtonWaitForAnyEvent : Z -> button -> input -> option (Z * button * input) :=
  button_wait any_event.
Definition ButtonWaitForAnyPress : Z -> button -> input -> option (Z * button * input) :=
  button_wait any_press.

Definition ButtonIsUp (Button : Z) (s : button) (i : input) : option (bool * button * input) :=
  '(b, s, i) ← readButtons s i; Some (Z.land b Button =? 0, s, i).
Definition ButtonIsDown (Button : Z) (s : button) (i : input) : option (bool * button * input) :=
  '(up, s, i) ← ButtonIsUp Button s i; Some (negb up, s, i).

(** [while ((wait & mask) == 0);], at most [n] times. *)
Fixpoint wait_for (wait : button -> input -> option (Z * button * input)) (n : nat) (mask : Z)
    (s : button) (i : input) : option (button * input) :=
  match n with
  | O => None
  | S n =>
      '(e, s, i) ← wait s i;
      if Z.land e mask =? 0 then wait_for wait n mask s i else Some (s, i)
  end.
Definition ButtonWaitForPress (n : nat) (Button : Z) : button -> input -> option (button * input) :=
  wait_for (ButtonWaitForAnyPress 0) n Button.
Definition ButtonWaitForPressAndReleae (n : nat) (Button : Z) (s : button) (i : input)
    : option (button * input) :=
  '(s, i) ← ButtonWaitForPress n Button s i;
  wait_for (ButtonWaitForAnyEvent 0) n (u16 (Z.shiftl Button WAITFOR_RELEASE_SHIFT)) s i.

Definition ButtonPressedEx (btn : Z) : button -> input -> option (bool * button * input) :=
  ButtonIsDown btn.
(** A macro of ev3_button.h. *)
Definition ButtonPressed (btn : Z) : button -> input -> option (bool * button * input) :=
  ButtonPressedEx btn.
(** The result and what is stored in [pressed] and [count]. *)
Definition ReadButtonEx (btn : Z) (s : button) (i : input) : option (Z * bool * Z * button * input) :=
  '(down, s, i) ← ButtonIsDown btn s i; Some (0, down, 0, s, i).
Definition ButtonState (btn : Z) (s : button) (i : input) : option (Z * button * input) :=
  '(down, s, i) ← ButtonIsDown btn s i;
  Some (if down : bool then Z.lor BTNSTATE_PRESSED_STATE BTNSTATE_PRESSED_EV else BTNSTATE_NONE, s, i).

(** ** Properties *)

(** A bit of the mask is a button that is down. *)
Lemma pressed_mask_bit k i l : 0 <= i <= k ->
  Z.testbit (pressed_mask i l) k = match l !! Z.to_nat (k - i) with
                                   | Some p => negb (p =? 0)
                                   | None => false
                                   end.
Proof.
  revert i. induction l as [|p l IH]; intros i Hi; cbn [pressed_mask].
  { by rewrite Z.bits_0, lookup_nil. }
  rewrite Z.lor_spec.
  assert (Z.testbit (if p =? 0 then 0 else Z.shiftl 1 i) k = negb (p =? 0) && (k =? i)) as ->.
  { destruct (p =? 0); [apply Z.bits_0|]. rewrite Z.shiftl_1_l. cbn [negb andb].
    destruct (Z.eqb_spec k i) as [->|]; [apply Z.pow2_bits_true; lia|].
    by apply Z.pow2_bits_false. }
  destruct (Z.eqb_spec k i) as [->|Hne].
  - rewrite Z.sub_diag. cbn [Z.to_nat lookup list_lookup]. rewrite andb_true_r.
    assert (forall j l, i < j -> Z.testbit (pressed_mask j l) i = false) as Hlow.
    { clear. intros j l. revert j. induction l as [|q l IH]; intros j Hj; [apply Z.bits_0|].
      cbn [pressed_mask]. rewrite Z.lor_spec, IH by lia.
      destruct (q =? 0); [by rewrite Z.bits_0|]. rewrite Z.shiftl_1_l.
      by rewrite Z.pow2_bits_false by lia. }
    rewrite Hlow by lia. apply orb_false_r.
  - rewrite andb_false_r, IH by lia.
    replace (Z.to_nat (k - i)) with (S (Z.to_nat (k - (i + 1)))) by lia. done.
Qed.

Lemma checkButtons_bit Pressed k : 0 <= k < 6 ->
  Z.testbit (checkButtons Pressed) k = match Pressed !! Z.to_nat k with
                                       | Some p => negb (p =? 0)
                                       | None => false
                                       end.
Proof.
  intros Hk. unfold checkButtons, u16. rewrite Z.mod_pow2_bits_low by lia.
  rewrite pressed_mask_bit by lia. rewrite Z.sub_0_r. by rewrite lookup_take_lt by (unfold NUM_BUTTONS; lia).
Qed.

(** Successive looks at the buttons and what they find. *)
Inductive looks : list (list Z) -> list Z -> list (list Z) -> Prop :=
| looks_nil snaps : looks snaps [] snaps
| looks_cons snaps b snaps1 bs snaps2 :
    get_stable snaps = Some (b, snaps1) -> looks snaps1 bs snaps2 -> looks snaps (b :: bs) snaps2.

Lemma get_stable_range snaps b rest : get_stable snaps = Some (b, rest) -> 0 <= b < 65536.
Proof.
  assert (forall n snaps, (length snaps <= n)%nat ->
    get_stable snaps = Some (b, rest) -> 0 <= b < 65536) as H.
  { intros n. induction n as [|n IH]; intros [|p [|q l]] Hl; cbn [get_stable length] in *;
      try done; try lia.
    destruct (_ =? _); [|by apply IH; lia]. intros [= <- _]. apply u16_range. }
  by eapply H.
Qed.

(** None of the buttons of [bs] went down since the look before. *)
Fixpoint no_press (old : Z) (bs : list Z) : Prop :=
  match bs with
  | [] => True
  | b :: bs => Z.land b (Z.lnot old) = 0 /\ no_press b bs
  end.

(** The last look. *)
Fixpoint latest (old : Z) (bs : list Z) : Z :=
  match bs with [] => old | b :: bs => latest b bs end.

Lemma any_press_spec old b : 0 <= b < 65536 ->
  any_press old b = if Z.land b (Z.lnot old) =? 0 then inr b else inl (Z.land b (Z.lnot old)).
Proof.
  intros Hb. unfold any_press.
  assert (u16 (Z.land b (Z.lnot old)) = Z.land b (Z.lnot old)) as ->.
  { unfold u16. rewrite <- Z.land_ones by lia.
    rewrite <- Z.land_assoc, (Z.land_comm (Z.lnot old)), Z.land_assoc, Z.land_ones by lia.
    by rewrite Z.mod_small. }
  cbv zeta. by destruct (Z.land b (Z.lnot old) =? 0).
Qed.

Lemma wait_loop_press e old bs b times times' snaps rest s :
  looks snaps (bs ++ [b]) rest -> length times = S (length bs) -> Forall (fun t => t < e) times ->
  no_press old bs -> Z.land b (Z.lnot (latest old bs)) <> 0 ->
  exists s', wait_loop any_press e old (times ++ times') snaps s
      = Some (Z.land b (Z.lnot (latest old bs)), s', MkInput rest times')
    /\ curButtonsE s' = b /\ curButtonsS s' = b.
Proof.
  revert old times snaps s. induction bs as [|b1 bs IH]; intros old times snaps s Hl Hn Ht Hno Hb.
  - destruct times as [|t [|]]; [done| |done]. apply Forall_cons in Ht as [Ht _].
    inversion Hl as [|? ? snaps1 ? ? Hg Hl1]; subst. inversion Hl1; subst.
    cbn [app wait_loop]. rewrite (proj2 (Z.leb_gt _ _)) by done. rewrite Hg. cbn [mbind option_bind].
    rewrite any_press_spec by (by eapply get_stable_range). cbn [latest] in *.
    rewrite (proj2 (Z.eqb_neq _ _)) by done. eexists. split; [reflexivity|done].
  - destruct times as [|t times]; [done|]. apply Forall_cons in Ht as [Ht Hts].
    inversion Hl as [|? ? snaps1 ? ? Hg Hl1]; subst. destruct Hno as [H0 Hno].
    cbn [app wait_loop]. rewrite (proj2 (Z.leb_gt _ _)) by done. rewrite Hg. cbn [mbind option_bind].
    rewrite any_press_spec by (by eapply get_stable_range). rewrite H0. cbn [Z.eqb].
    cbn [latest] in *.
    apply IH; [done|cbn in Hn; lia|done..].
Qed.

(** C36: `ButtonWaitForAnyPress` returns, at the first debounced look at which a button went
    down since the look before, exactly the buttons that did, and remembers the look;
    earlier looks, at which buttons are only released or held, do not end it. *)
Theorem first_press_reported timeout s i e i1 bs b times times' rest :
  ButtonLedInitialized s = true -> end_of_wait timeout i = Some (e, i1) ->
  clock i1 = times ++ times' -> length times = S (length bs) -> Forall (fun t => t < e) times ->
  looks (snapshots i1) (bs ++ [b]) rest ->
  no_press (curButtonsE s) bs -> Z.land b (Z.lnot (latest (curButtonsE s) bs)) <> 0 ->
  exists s', ButtonWaitForAnyPress timeout s i
      = Some (Z.land b (Z.lnot (latest (curButtonsE s) bs)), s', MkInput rest times')
    /\ curButtonsE s' = b.
Proof.
  intros Hi He Hc Hn Ht Hl Hno Hb. unfold ButtonWaitForAnyPress, button_wait. rewrite Hi, He.
  cbn [negb mbind option_bind]. rewrite Hc.
  destruct (wait_loop_press e (curButtonsE s) bs b times times' (snapshots i1) rest s)
    as (s' & Hw & Hs' & _); [done..|]. by exists s'.
Qed.

(** The wait ends with 0 at the first reading of the clock that is late. *)
Lemma wait_times_out timeout s i e i1 t c :
  ButtonLedInitialized s = true -> end_of_wait timeout i = Some (e, i1) -> clock i1 = t :: c -> e <= t ->
  ButtonWaitForAnyPress timeout s i = Some (0, s, MkInput (snapshots i1) c)
  /\ ButtonWaitForAnyEvent timeout s i = Some (0, s, MkInput (snapshots i1) c).
Proof.
  intros Hi He Hc Ht. unfold ButtonWaitForAnyPress, ButtonWaitForAnyEvent, button_wait.
  rewrite Hi, He. cbn [negb mbind option_bind]. rewrite Hc. cbn [wait_loop].
  by rewrite (proj2 (Z.leb_le _ _)).
Qed.

(** ** Versions *)

Example version_060 : HardwareVersion (Some (str "V0.60" ++ [0])) (set_pbutton SharedButton button0)
    (replicate 6 0) = Some (float_of 6, str "V0.60" ++ [0]).
Proof. vm_compute. reflexivity. Qed.

(** A driver that delivers six characters leaves no room for the NUL of the string. *)
Theorem version_unterminated c data s HwVers :
  ButtonLedInitialized s = true -> cstr_ok (c :: data) -> length data = 5%nat ->
  length HwVers = HWVERS_SIZE ->
  (HardwareVersionString (Some (c :: data)) s HwVers).1 = None
  /\ HardwareVersion (Some (c :: data)) s HwVers = None.
Proof.
  intros Hi Hok Hl Hw. unfold HardwareVersionString, HardwareVersion. rewrite Hi. cbn [negb fst].
  assert (read_version (Some (c :: data)) HwVers = c :: data) as ->.
  { unfold read_version, splice, HWVERS_SIZE in *. cbn [default].
    rewrite take_0, take_ge, drop_ge, app_nil_r by (simpl; lia). done. }
  assert (forall l, cstr_ok l -> cstr_of l = None) as Hnone.
  { intros l. induction 1 as [|b l Hb _ IH]; [done|]. cbn. rewrite IH. destruct b; [lia|done..]. }
  cbn [tail]. rewrite !Hnone; [done| |done]. by inversion Hok.
Qed.
