(* ===== verification/Timer.v ===== *)
(** * Timer: elapsed time and periodic callbacks (src/util/cat/ev3_timer.c)

    The display program of src/util/cat runs on the brick, whose [unsigned
    long] has 32 bits while the registers of the timers have 64.  What
    gettimeofday returns is an argument; a callback is a value of a type [cb],
    and what it does to the rest of the program is the argument [call] of the
    signal handler. *)

From S2P Require Import Prelude.

Definition NUM_CS_TIMERS : Z := 4.
Definition NUM_MS_TIMERS : Z := 4.
Definition NUM_US_TIMERS : Z := 4.
Definition MAX_CALLBACKS : nat := 4.

Inductive TimerInterval := ti10ms | ti50ms | ti100ms | ti250ms | ti500ms | ti1sec.
#[export] Instance TimerInterval_eq_dec : EqDecision TimerInterval.
Proof. solve_decision. Defined.

(** [TIMER_10MS] ... [TIMER_1SEC], in ticks. *)
Definition period (ti : TimerInterval) : Z :=
  match ti with
  | ti10ms => 1 | ti50ms => 5 | ti100ms => 10 | ti250ms => 25 | ti500ms => 50 | ti1sec => 100
  end.

(** [struct timeval]. *)
Record timeval := MkTime { tv_sec : Z; tv_usec : Z }.

Definition TimerGetUS (now : timeval) : Z := u64 (u64 (tv_sec now) * 1000000 + tv_usec now).
Definition TimerGetMS (now : timeval) : Z :=
  u64 (u64 (tv_sec now) * 1000 + Z.quot (tv_usec now) 1000).
Definition TimerGetCS (now : timeval) : Z := TimerGetMS now / 10.

(** The file's variables; [callBacks ti] is the array of the interval up to its
    count. *)
Record timers (cb : Type) := MkTimers {
  csTimers : list Z;
  msTimers : list Z;
  usTimers : list Z;
  callBacks : TimerInterval -> list cb;
  counter : Z;
}.
Arguments MkTimers {_}.
Arguments csTimers {_}.
Arguments msTimers {_}.
Arguments usTimers {_}.
Arguments callBacks {_}.
Arguments counter {_}.

Section timer.
Context {cb : Type}.
Implicit Type t : timers cb.

(** ** Waiting *)

Definition TimerWait (Time : Z) (now : timeval) : Z := u32 (TimerGetMS now + Time).

(** One reading of the clock per check of the condition: the readings that are
    left, or [None] when it still waits after the last one. *)
Fixpoint TimerReady (Timer : Z) (clock : list timeval) : option (list timeval) :=
  match clock with
  | [] => None
  | now :: clock => if TimerGetMS now <? Timer then TimerReady Timer clock else Some clock
  end.

(** ** The registers *)

(** [if (Timer < n) return tick - reg[Timer]; return 0;] *)
Definition timer_read (reg : list Z) (n Timer tick : Z) : Z :=
  if Timer <? n then u32 (u64 (tick - nth (Z.to_nat Timer) reg 0)) else 0.
(** [if (Timer < n) reg[Timer] = v;] *)
Definition timer_write (reg : list Z) (n Timer v : Z) : list Z :=
  if Timer <? n then <[Z.to_nat Timer := u64 v]> reg else reg.

Definition FastTimer t (Timer : Z) (now : timeval) : Z :=
  timer_read (csTimers t) NUM_CS_TIMERS Timer (TimerGetCS now).
Definition Timer t (Timer : Z) (now : timeval) : Z := FastTimer t Timer now / 10.
Definition SetTimer t (Timer Value : Z) (now : timeval) : timers cb :=
  MkTimers (timer_write (csTimers t) NUM_CS_TIMERS Timer (TimerGetCS now - Value))
    (msTimers t) (usTimers t) (callBacks t) (counter t).
Definition ClearTimer t (Timer : Z) (now : timeval) : timers cb :=
  MkTimers (timer_write (csTimers t) NUM_CS_TIMERS Timer (TimerGetCS now))
    (msTimers t) (usTimers t) (callBacks t) (counter t).

Definition TimerMS t (Timer : Z) (now : timeval) : Z :=
  timer_read (msTimers t) NUM_MS_TIMERS Timer (TimerGetMS now).
Definition SetTimerMS t (Timer Value : Z) (now : timeval) : timers cb :=
  MkTimers (csTimers t)
    (timer_write (msTimers t) NUM_MS_TIMERS Timer (TimerGetMS now - Value))
    (usTimers t) (callBacks t) (counter t).
Definition ClearTimerMS t (Timer : Z) (now : timeval) : timers cb :=
  MkTimers (csTimers t) (timer_write (msTimers t) NUM_MS_TIMERS Timer (TimerGetMS now))
    (usTimers t) (callBacks t) (counter t).

Definition TimerUS t (Timer : Z) (now : timeval) : Z :=
  timer_read (usTimers t) NUM_US_TIMERS Timer (TimerGetUS now).
Definition SetTimerUS t (Timer Value : Z) (now : timeval) : timers cb :=
  MkTimers (csTimers t) (msTimers t)
    (timer_write (usTimers t) NUM_US_TIMERS Timer (TimerGetUS now - Value))
    (callBacks t) (counter t).
Definition ClearTimerUS t (Timer : Z) (now : timeval) : timers cb :=
  MkTimers (csTimers t) (msTimers t)
    (timer_write (usTimers t) NUM_US_TIMERS Timer (TimerGetUS now))
    (callBacks t) (counter t).

(** ** Callbacks *)

(** The array has no room behind [MAX_CALLBACKS]: [None] is a store behind it. *)
Definition SetTimerCallback t (interval : TimerInterval) (callback : option cb)
    : option (timers cb) :=
  match callback with
  | None => Some t
  | Some c =>
      if (MAX_CALLBACKS <=? length (callBacks t interval))%nat then None else
      Some (MkTimers (csTimers t) (msTimers t) (usTimers t)
              (fun ti => if decide (ti = interval) then callBacks t ti ++ [c] else callBacks t ti)
              (counter t))
  end.

(** The handler and the timer signal are installed; [counter] is not reset. *)
Definition timerCallbackInit t : timers cb :=
  MkTimers (csTimers t) (msTimers t) (usTimers t) (fun _ => []) (counter t).

Definition TimerInit t (now : timeval) : timers cb :=
  let usTick := TimerGetUS now in
  let msTick := usTick / 1000 in
  let csTick := msTick / 10 in
  timerCallbackInit
    (MkTimers (replicate (Z.to_nat NUM_CS_TIMERS) csTick)
       (replicate (Z.to_nat NUM_MS_TIMERS) msTick)
       (replicate (Z.to_nat NUM_US_TIMERS) usTick) (callBacks t) (counter t)).

Definition intervals : list TimerInterval := [ti10ms; ti50ms; ti100ms; ti250ms; ti500ms; ti1sec].

(** The callbacks of a tick, in the order they are called. *)
Definition due t : list cb :=
  concat (map (fun ti => if counter t mod period ti =? 0 then callBacks t ti else []) intervals).

Definition timerSigHandler {S} (call : cb -> S -> S) (t : timers cb) (s : S) : timers cb * S :=
  (MkTimers (csTimers t) (msTimers t) (usTimers t) (callBacks t) (u32 (counter t + 1)),
   foldl (fun s c => call c s) s (due t)).

(** [n] signals. *)
Fixpoint ticks {S} (call : cb -> S -> S) (n : nat) (t : timers cb) (s : S) : timers cb * S :=
  match n with
  | O => (t, s)
  | Datatypes.S n => let '(t, s) := timerSigHandler call t s in ticks call n t s
  end.

(** *** Properties *)

Lemma lookup_timer_write reg n i v :
  0 <= i < n -> zlen reg = n -> nth (Z.to_nat i) (timer_write reg n i v) 0 = u64 v.
Proof.
  intros Hi Hl. unfold timer_write. rewrite (proj2 (Z.ltb_lt _ _)) by lia.
  apply nth_lookup_Some. apply list_lookup_insert_eq. unfold zlen in Hl. lia.
Qed.

Lemma timer_read_write reg n i tick v tick' :
  0 <= i < n -> zlen reg = n ->
  timer_read (timer_write reg n i (tick - v)) n i tick' = u32 (tick' - tick + v).
Proof.
  intros Hi Hl. unfold timer_read. rewrite (proj2 (Z.ltb_lt _ _)) by lia.
  rewrite lookup_timer_write by done. unfold u32, u64.
  rewrite <- (Z.mod_mod_divide _ (2 ^ 64) (2 ^ 32)) by (exists (2 ^ 32); lia).
  rewrite Z.mod_mod by lia. rewrite Zminus_mod_idemp_r.
  rewrite <- (Z.mod_mod_divide (tick' - tick + v) (2 ^ 64) (2 ^ 32)) by (exists (2 ^ 32); lia).
  do 2 f_equal. lia.
Qed.

Lemma timer_read_other reg n i j tick v :
  0 <= i -> 0 <= j -> i <> j -> timer_read (timer_write reg n i v) n j tick = timer_read reg n j tick.
Proof.
  intros Hi Hj Hne. unfold timer_read, timer_write. destruct (i <? n); [|done].
  destruct (j <? n); [|done]. do 3 f_equal. rewrite !nth_lookup.
  by rewrite list_lookup_insert_ne by lia.
Qed.

Definition registers_ok t : Prop :=
  zlen (csTimers t) = NUM_CS_TIMERS /\ zlen (msTimers t) = NUM_MS_TIMERS
  /\ zlen (usTimers t) = NUM_US_TIMERS.

(** Each software timer reads the clock ticks since it was set plus the value it was set to,
    modulo 2^32, in hundredths, milliseconds and microseconds, and setting one timer does
    not disturb the others. *)
Theorem timers_measure t i v now now' :
  registers_ok t -> 0 <= i < 4 ->
  FastTimer (SetTimer t i v now) i now' = u32 (TimerGetCS now' - TimerGetCS now + v)
  /\ TimerMS (SetTimerMS t i v now) i now' = u32 (TimerGetMS now' - TimerGetMS now + v)
  /\ TimerUS (SetTimerUS t i v now) i now' = u32 (TimerGetUS now' - TimerGetUS now + v)
  /\ forall j, 0 <= j -> i <> j ->
       FastTimer (SetTimer t i v now) j now' = FastTimer t j now'
       /\ TimerMS (SetTimerMS t i v now) j now' = TimerMS t j now'
       /\ TimerUS (SetTimerUS t i v now) j now' = TimerUS t j now'.
Proof.
  intros (Hc & Hm & Hu) Hi. repeat split; try by apply timer_read_write.
  all: apply timer_read_other; lia.
Qed.

(** On ARM, where unsigned long has 32 bits, `TimerReady` returns at its first look at the
    clock for every time TimerWait gives: the milliseconds since 1970 do not fit 32 bits. *)
Theorem timer_never_waits Time now clock :
  0 <= Time -> (match clock with now' :: _ => 2 ^ 32 <= TimerGetMS now' | [] => False end) ->
  TimerReady (TimerWait Time now) clock = Some (tail clock).
Proof.
  intros _ H. destruct clock as [|now' clock]; [done|]. simpl.
  pose proof (u32_range (TimerGetMS now + Time)). unfold TimerWait.
  by rewrite (proj2 (Z.ltb_ge _ _)) by lia.
Qed.

(** *** The schedule *)

Context `{!EqDecision cb}.

Definition count (c : cb) (l : list cb) : Z := zlen (filter (eq c) l).

Lemma count_app c l k : count c (l ++ k) = count c l + count c k.
Proof. unfold count. by rewrite filter_app, zlen_app. Qed.

(** The calls up to now, in order. *)
Definition logged (c : cb) (log : list cb) : list cb := log ++ [c].

Lemma foldl_logged l log : foldl (fun s c => logged c s) log l = log ++ l.
Proof.
  revert log. induction l as [|c l IH]; intros log; simpl; [by rewrite app_nil_r|].
  rewrite IH. unfold logged. by rewrite <- app_assoc.
Qed.

(** The ticks [m, m + n) at which an interval is due. *)
Definition times (ti : TimerInterval) (m n : nat) : Z :=
  (Z.of_nat (m + n) + period ti - 1) / period ti - (Z.of_nat m + period ti - 1) / period ti.

Lemma times_S ti m n :
  times ti m (S n) = (if Z.of_nat m mod period ti =? 0 then 1 else 0) + times ti (S m) n.
Proof.
  assert (0 < period ti) as Hp by by destruct ti.
  unfold times. rewrite Nat.add_succ_r. change (S (m + n)) with (S m + n)%nat.
  pose proof (Z.div_mod (Z.of_nat m) (period ti) ltac:(lia)) as Hm.
  pose proof (Z.mod_pos_bound (Z.of_nat m) (period ti) Hp) as Hb.
  set (q := Z.of_nat m / period ti) in *. set (r := Z.of_nat m mod period ti) in *.
  assert ((Z.of_nat (S m) + period ti - 1) / period ti = q + 1) as ->.
  { symmetry. apply (Z.div_unique _ _ _ r); [lia|]. lia. }
  destruct (Z.eqb_spec r 0).
  - assert ((Z.of_nat m + period ti - 1) / period ti = q) as ->; [|lia].
    symmetry. apply (Z.div_unique _ _ _ (period ti - 1)); lia.
  - assert ((Z.of_nat m + period ti - 1) / period ti = q + 1) as ->; [|lia].
    symmetry. apply (Z.div_unique _ _ _ (r - 1)); lia.
Qed.

Definition total (f : TimerInterval -> Z) : Z :=
  f ti10ms + f ti50ms + f ti100ms + f ti250ms + f ti500ms + f ti1sec.

Lemma count_due c t :
  count c (due t) =
  total (fun ti => (if counter t mod period ti =? 0 then 1 else 0) * count c (callBacks t ti)).
Proof.
  assert (forall ti, count c (if counter t mod period ti =? 0 then callBacks t ti else [])
    = (if counter t mod period ti =? 0 then 1 else 0) * count c (callBacks t ti)) as H.
  { intros ti. destruct (_ =? 0); [lia|done]. }
  unfold due, intervals. cbn [map concat]. rewrite !count_app, !H. unfold total.
  change (count c []) with 0. lia.
Qed.

Lemma ticks_count n t log c :
  counter t = Z.of_nat (Z.to_nat (counter t)) -> counter t + Z.of_nat n < 2 ^ 32 ->
  count c (ticks logged n t log).2 =
  count c log
    + total (fun ti => times ti (Z.to_nat (counter t)) n * count c (callBacks t ti)).
Proof.
  revert t log. induction n as [|n IH]; intros t log Hc Hn.
  - assert (forall ti, times ti (Z.to_nat (counter t)) 0 = 0) as H.
    { intros ti. unfold times. rewrite Nat.add_0_r. lia. }
    unfold total. rewrite !H. cbn [ticks snd]. lia.
  - cbn [ticks]. unfold timerSigHandler at 1. rewrite foldl_logged.
    assert (u32 (counter t + 1) = counter t + 1) as Hu by (apply u32_id; lia).
    rewrite IH; cbn [counter callBacks]; rewrite Hu; [|lia..].
    rewrite count_app, count_due. unfold total.
    replace (Z.to_nat (counter t + 1)) with (S (Z.to_nat (counter t))) by lia.
    rewrite !times_S, <- !Hc. lia.
Qed.

(** C31: In the first n ticks of the timer signal every registered callback is called once
    per period that has begun, for each of the six intervals, as often as it is registered
    there. *)
Theorem callbacks_on_schedule n t c :
  counter t = 0 -> Z.of_nat n < 2 ^ 32 ->
  count c (ticks logged n t []).2 =
  total (fun ti => (Z.of_nat n + period ti - 1) / period ti * count c (callBacks t ti)).
Proof.
  intros Hc Hn. rewrite ticks_count by (rewrite Hc; lia). rewrite Hc.
  assert (forall ti, times ti (Z.to_nat 0) n = (Z.of_nat n + period ti - 1) / period ti) as H.
  { intros ti. unfold times. change (Z.of_nat (Z.to_nat 0 + n)) with (Z.of_nat n).
    assert ((Z.of_nat (Z.to_nat 0) + period ti - 1) / period ti = 0) as -> by by destruct ti.
    lia. }
  unfold total. by rewrite !H.
Qed.
End timer.
