(* ===== verification/Lcd.v ===== *)
(** * Lcd: the display buffer of the brick (src/util/cat/ev3_lcd.c)

    The display has 178 x 128 pixels.  The library draws into a buffer of 128
    rows of 23 bytes, one bit per pixel, and shows it by converting it into the
    frame buffer of the kernel driver, 128 rows of 60 bytes with three pixels
    each.  A store or load outside of a buffer is [None].  The program is
    compiled for ARM, where [char] is unsigned.  The definitions take the
    bitmaps of the fonts and icons as parameters; LcdFonts.v has those of the
    program. *)

From S2P Require Import Prelude Timer.

Definition LCD_WIDTH : Z := 178.
Definition LCD_HEIGHT : Z := 128.
Definition LCD_BYTE_WIDTH : Z := (LCD_WIDTH + 7) / 8.
Definition LCD_BUFFER_SIZE : Z := LCD_BYTE_WIDTH * LCD_HEIGHT.
Definition LCD_MEM_WIDTH : Z := 60.
Definition LCD_BUFFER_LENGTH : Z := LCD_MEM_WIDTH * LCD_HEIGHT.

Definition PixelTab : list Z := [0x00; 0xE0; 0x1C; 0xFC; 0x03; 0xE3; 0x1F; 0xFF].
Definition UnPixelTab : list Z :=
  [
   0; 0; 0; 4; 0; 0; 0; 0; 0; 0; 0; 0; 0; 0; 0; 0;
   0; 0; 0; 0; 0; 0; 0; 0; 0; 0; 0; 0; 2; 0; 0; 6;
   0; 0; 0; 0; 0; 0; 0; 0; 0; 0; 0; 0; 0; 0; 0; 0;
   0; 0; 0; 0; 0; 0; 0; 0; 0; 0; 0; 0; 0; 0; 0; 0;
   0; 0; 0; 0; 0; 0; 0; 0; 0; 0; 0; 0; 0; 0; 0; 0;
   0; 0; 0; 0; 0; 0; 0; 0; 0; 0; 0; 0; 0; 0; 0; 0;
   0; 0; 0; 0; 0; 0; 0; 0; 0; 0; 0; 0; 0; 0; 0; 0;
   0; 0; 0; 0; 0; 0; 0; 0; 0; 0; 0; 0; 0; 0; 0; 0;
   0; 0; 0; 0; 0; 0; 0; 0; 0; 0; 0; 0; 0; 0; 0; 0;
   0; 0; 0; 0; 0; 0; 0; 0; 0; 0; 0; 0; 0; 0; 0; 0;
   0; 0; 0; 0; 0; 0; 0; 0; 0; 0; 0; 0; 0; 0; 0; 0;
   0; 0; 0; 0; 0; 0; 0; 0; 0; 0; 0; 0; 0; 0; 0; 0;
   0; 0; 0; 0; 0; 0; 0; 0; 0; 0; 0; 0; 0; 0; 0; 0;
   0; 0; 0; 0; 0; 0; 0; 0; 0; 0; 0; 0; 0; 0; 0; 0;
   1; 0; 0; 5; 0; 0; 0; 0; 0; 0; 0; 0; 0; 0; 0; 0;
   0; 0; 0; 0; 0; 0; 0; 0; 0; 0; 0; 0; 3; 0; 0; 7
  ].

(** ** Memory *)

Definition peek (p : list Z) (i : Z) : option Z := if i <? 0 then None else p !! Z.to_nat i.
Definition poke (p : list Z) (i v : Z) : option (list Z) :=
  if (i <? 0) || (zlen p <=? i) then None else Some (<[Z.to_nat i := u8 v]> p).
(** [memset(&p[i], v, n)]. *)
Definition fill (p : list Z) (i v n : Z) : option (list Z) :=
  if (i <? 0) || (n <? 0) || (zlen p <? i + n) then None
  else Some (splice (Z.to_nat i) (replicate (Z.to_nat n) (u8 v)) p).
(** [memmove(&p[dst], &p[src], n)]. *)
Definition move (p : list Z) (dst src n : Z) : option (list Z) :=
  if (dst <? 0) || (src <? 0) || (n <? 0) || (zlen p <? dst + n) || (zlen p <? src + n) then None
  else Some (splice (Z.to_nat dst) (slice (Z.to_nat src) (Z.to_nat n) p) p).

(** [for (i = from; n times; i++)]. *)
Fixpoint loop {S} (n : nat) (body : Z -> S -> option S) (i : Z) (s : S) : option S :=
  match n with
  | O => Some s
  | Datatypes.S n => s ← body i s; loop n body (i + 1) s
  end.

(** ** The frame buffer *)

Definition unpixel (b : Z) : Z := nth (Z.to_nat b) UnPixelTab 0.
Definition pixels_of (Pixels : Z) : Z := nth (Z.to_nat (Z.land Pixels 0x07)) PixelTab 0.

(** [Pixels |= UnPixelTab[*pSrc] << sh], [sh] in steps of three. *)
Fixpoint gather (src : list Z) (sh : Z) : Z :=
  match src with
  | [] => 0
  | b :: src => Z.lor (Z.shiftl (unpixel b) sh) (gather src (sh + 3))
  end.

(** A row of the frame buffer: [X] groups of 8 bytes and 4 bytes; the rest of
    the source comes second. *)
Fixpoint fb_row (X : nat) (pSrc : list Z) : option (list Z * list Z) :=
  match X with
  | O =>
      match pSrc with
      | a :: b :: c :: d :: pSrc =>
          let Pixels := gather [a; b; c; d] 0 in
          Some ([u8 Pixels; u8 (Z.shiftr Pixels 8)], pSrc)
      | _ => None
      end
  | S X =>
      match pSrc with
      | a :: b :: c :: d :: e :: f :: g :: h :: pSrc =>
          let Pixels := gather [a; b; c; d; e; f; g; h] 0 in
          '(pDst, pSrc) ← fb_row X pSrc;
          Some (u8 Pixels :: u8 (Z.shiftr Pixels 8) :: u8 (Z.shiftr Pixels 16) :: pDst, pSrc)
      | _ => None
      end
  end.

(** [n] times: the next three bits, then [Pixels >>= 3]. *)
Fixpoint spread (n : nat) (Pixels : Z) : list Z :=
  match n with
  | O => []
  | S n => pixels_of Pixels :: spread n (Z.shiftr Pixels 3)
  end.

Fixpoint lcd_row (X : nat) (pSrc : list Z) : option (list Z * list Z) :=
  match X with
  | O =>
      match pSrc with
      | a :: b :: pSrc => Some (spread 4 (Z.lor a (Z.shiftl b 8)), pSrc)
      | _ => None
      end
  | S X =>
      match pSrc with
      | a :: b :: c :: pSrc =>
          '(pDst, pSrc) ← lcd_row X pSrc;
          Some (spread 8 (Z.lor (Z.lor a (Z.shiftl b 8)) (Z.shiftl c 16)) ++ pDst, pSrc)
      | _ => None
      end
  end.

(** [Y] rows. *)
Fixpoint rows (row : list Z -> option (list Z * list Z)) (Y : nat) (pSrc : list Z)
    : option (list Z) :=
  match Y with
  | O => Some []
  | S Y => '(r, pSrc) ← row pSrc; l ← rows row Y pSrc; Some (r ++ l)
  end.

Definition frameBufferToLcd (pSrc : list Z) : option (list Z) :=
  rows (fb_row 7) (Z.to_nat LCD_HEIGHT) pSrc.
Definition lcdToFrameBuffer (pSrc : list Z) : option (list Z) :=
  rows (lcd_row 7) (Z.to_nat LCD_HEIGHT) pSrc.

(** ** Pixels *)

Definition pixel_offset (X0 Y0 : Z) : Z := Z.shiftr X0 3 + Y0 * LCD_BYTE_WIDTH.
Definition on_screen (X0 Y0 : Z) : bool :=
  (0 <=? X0) && (X0 <? LCD_WIDTH) && (0 <=? Y0) && (Y0 <? LCD_HEIGHT).

Definition dLcdDrawPixel (pImage : list Z) (Color X0 Y0 : Z) : option (list Z) :=
  if on_screen X0 Y0 then
    let i := pixel_offset X0 Y0 in
    let m := Z.shiftl 1 (Z.rem X0 8) in
    b ← peek pImage i;
    poke pImage i (if Color =? 0 then Z.land b (Z.lnot m) else Z.lor b m)
  else Some pImage.

Definition dLcdReadPixel (pImage : list Z) (X0 Y0 : Z) : option Z :=
  if on_screen X0 Y0 then
    b ← peek pImage (pixel_offset X0 Y0);
    Some (if Z.land b (Z.shiftl 1 (Z.rem X0 8)) =? 0 then 0 else 1)
  else Some 0.

(** ** Fonts *)

Definition FONTTYPE_NORMAL : Z := 0.
Definition FONTTYPE_SMALL : Z := 1.
Definition FONTTYPE_LARGE : Z := 2.
Definition FONTTYPE_TINY : Z := 3.
Definition NUM_FONTTYPES : Z := 4.

Record FONTINFO := MkFont {
  FontHeight : Z;
  FontWidth : Z;
  FontHorz : Z;
  FontFirst : Z;
  FontLast : Z;
}.
Definition FontInfo : list FONTINFO :=
  [MkFont 9 8 16 0x20 0x7F; MkFont 8 8 16 0x20 0x7F; MkFont 16 16 16 0x20 0x7F;
   MkFont 7 5 16 0x20 0x7F].

Definition font_info (Font : Z) : option FONTINFO :=
  if Font <? 0 then None else FontInfo !! Z.to_nat Font.
Definition dLcdGetFontWidth (Font : Z) : option Z := FontWidth <$> font_info Font.
Definition dLcdGetFontHeight (Font : Z) : option Z := FontHeight <$> font_info Font.

(** ** Icons *)

Record ICONINFO := MkIcon { IconSize : Z; IconHeight : Z; IconWidth : Z }.
Definition IconInfo : list ICONINFO :=
  [MkIcon 420 12 24; MkIcon 176 8 16; MkIcon 616 22 24; MkIcon 132 12 16; MkIcon 36 12 8].
Definition icon_info (Icon : Z) : option ICONINFO :=
  if Icon <? 0 then None else IconInfo !! Z.to_nat Icon.
Definition dLcdGetIconWidth (Icon : Z) : option Z := IconWidth <$> icon_info Icon.
Definition dLcdGetIconHeight (Icon : Z) : option Z := IconHeight <$> icon_info Icon.
Definition dLcdGetNumIcons (Icon : Z) : option Z :=
  (fun i => Z.quot (IconSize i) (IconHeight i)) <$> icon_info Icon.

(** ** Drawing into an image *)

(** At most [n] bits of a byte from [TmpX] up to [MaxX], the lowest one first. *)
Fixpoint draw_bits (n : nat) (bC1 bC2 CharByte TmpX MaxX Y0 : Z) (pImage : list Z)
    : option (list Z * Z) :=
  match n with
  | O => Some (pImage, TmpX)
  | S n =>
      if TmpX <? MaxX then
        pImage ← dLcdDrawPixel pImage (if Z.land CharByte 1 =? 0 then bC2 else bC1) TmpX Y0;
        draw_bits n bC1 bC2 (Z.shiftr CharByte 1) (i16 (TmpX + 1)) MaxX Y0 pImage
      else Some (pImage, TmpX)
  end.

(** The bytes of a row at [i], each drawn by [draw_bits]. *)
Definition draw_bytes (n : Z) (bits : list Z) (i Color X0 MaxX Y0 : Z) (pImage : list Z)
    : option (list Z) :=
  let '(bC1, bC2) := if Color =? 0 then (0, 1) else (1, 0) in
  fst <$> loop (Z.to_nat n)
    (fun X '(pImage, TmpX) =>
       b ← peek bits (i + X); draw_bits 8 bC1 bC2 (u8 b) TmpX MaxX Y0 pImage)
    0 (pImage, X0).

(** A byte of the bitmap or its complement. *)
Definition ink (Color b : Z) : Z := if Color =? 0 then u8 (Z.lnot b) else u8 b.

Section bitmaps.
Context (font_bits icon_bits : Z -> list Z).

(** The lines of a character that are byte aligned. *)
Fixpoint char_aligned (CharHeight : nat) (Color Font : Z) (f : FONTINFO)
    (CharByteIndex LcdByteIndex : Z) (pImage : list Z) : option (list Z) :=
  match CharHeight with
  | O => Some pImage
  | S CharHeight =>
      pImage ← loop (Z.to_nat (Z.max 1 (FontWidth f / 8)))
        (fun Tmp pImage =>
           if LcdByteIndex <? LCD_BUFFER_SIZE then
             b ← peek (font_bits Font) (CharByteIndex + Tmp);
             poke pImage (LcdByteIndex + Tmp) (ink Color b)
           else Some pImage) 0 pImage;
      char_aligned CharHeight Color Font f
        (i16 (CharByteIndex + FontWidth f * FontHorz f / 8))
        (i16 (LcdByteIndex + LCD_BYTE_WIDTH)) pImage
  end.

(** The lines of a character that are not. *)
Fixpoint char_unaligned (CharHeight : nat) (Color Font : Z) (f : FONTINFO)
    (CharByteIndex X0 Y0 : Z) (pImage : list Z) : option (list Z) :=
  match CharHeight with
  | O => Some pImage
  | S CharHeight =>
      pImage ← draw_bytes ((FontWidth f + 7) / 8) (font_bits Font) CharByteIndex Color X0
        (i16 (X0 + FontWidth f)) Y0 pImage;
      char_unaligned CharHeight Color Font f
        (i16 (CharByteIndex + (FontWidth f + 7) / 8 * FontHorz f)) X0 (i16 (Y0 + 1)) pImage
  end.

Definition char_byte_index (f : FONTINFO) (Char : Z) : Z :=
  i16 (i16 (Char mod FontHorz f * ((FontWidth f + 7) / 8))
       + Char / FontHorz f * ((FontWidth f + 7) / 8) * FontHeight f * FontHorz f).

Definition dLcdDrawChar (pImage : list Z) (Color X0 Y0 Font Char : Z) : option (list Z) :=
  f ← font_info Font;
  if (FontFirst f <=? Char) && (Char <=? FontLast f) then
    let i := char_byte_index f (Char - FontFirst f) in
    let h := Z.to_nat (FontHeight f) in
    if (FontWidth f mod 8 =? 0) && (Z.rem X0 8 =? 0) then
      let X0 := Z.shiftl (Z.shiftr X0 3) 3 in
      char_aligned h Color Font f i (i16 (Z.shiftr X0 3 + Y0 * LCD_BYTE_WIDTH)) pImage
    else char_unaligned h Color Font f i X0 Y0 pImage
  else Some pImage.

(** [pText] without its NUL. *)
Fixpoint dLcdDrawText (pImage : list Z) (Color X0 Y0 Font : Z) (pText : list Z)
    : option (list Z) :=
  match pText with
  | [] => Some pImage
  | c :: pText =>
      w ← dLcdGetFontWidth Font;
      if X0 <? LCD_WIDTH - w then
        pImage ← dLcdDrawChar pImage Color X0 Y0 Font c;
        dLcdDrawText pImage Color (i16 (X0 + w)) Y0 Font pText
      else dLcdDrawText pImage Color X0 Y0 Font pText
  end.

(** [IconHeight] lines; the caller passes a height of the table. *)
Fixpoint picture_lines (IconHeight : nat) (Color IconWidth : Z) (pIconBits : list Z)
    (IconByteIndex LcdByteIndex : Z) (pImage : list Z) : option (list Z) :=
  match IconHeight with
  | O => Some pImage
  | S IconHeight =>
      pImage ← loop (Z.to_nat (IconWidth / 8))
        (fun Tmp pImage =>
           b ← peek pIconBits (IconByteIndex + Tmp);
           poke pImage (LcdByteIndex + Tmp) (ink Color b)) 0 pImage;
      picture_lines IconHeight Color IconWidth pIconBits
        (i16 (IconByteIndex + IconWidth / 8)) (i16 (LcdByteIndex + LCD_BYTE_WIDTH)) pImage
  end.
Definition dLcdDrawPicture (pImage : list Z) (Color X0 Y0 IconWidth IconHeight : Z)
    (pIconBits : list Z) : option (list Z) :=
  let X0 := Z.shiftl (Z.shiftr X0 3) 3 in
  picture_lines (Z.to_nat IconHeight) Color IconWidth pIconBits 0
    (i16 (Z.shiftr X0 3 + Y0 * LCD_BYTE_WIDTH)) pImage.

Definition dLcdDrawIcon (pImage : list Z) (Color X0 Y0 Icon Num : Z) : option (list Z) :=
  IconHeight ← dLcdGetIconHeight Icon;
  IconWidth ← dLcdGetIconWidth Icon;
  n ← dLcdGetNumIcons Icon;
  if (0 <=? Num) && (Num <=? n) then
    let IconByteIndex := i16 (Z.quot (Num * IconWidth * IconHeight) 8) in
    dLcdDrawPicture pImage Color X0 Y0 IconWidth IconHeight
      (drop (Z.to_nat IconByteIndex) (icon_bits Icon))
  else Some pImage.
End bitmaps.

Definition dLcdGetBitmapSize (pBitmap : option (list Z)) : option (Z * Z) :=
  match pBitmap with
  | None => Some (0, 0)
  | Some p => w ← peek p 0; h ← peek p 1; Some (i16 w, i16 h)
  end.

(** The lines of a bitmap that is not byte aligned. *)
Definition bitmap_unaligned (Color X0 Y0 BitmapWidth BitmapHeight : Z) (bytes pImage : list Z)
    : option (list Z) :=
  let MaxX := i16 (X0 + BitmapWidth) in
  let BitmapWidth := Z.shiftl (Z.shiftr (BitmapWidth + 7) 3) 3 in
  fst <$> loop (Z.to_nat BitmapHeight)
    (fun Y '(pImage, Y0) =>
       pImage ← draw_bytes (BitmapWidth / 8) bytes (i16 (Y * BitmapWidth / 8)) Color X0 MaxX Y0
         pImage;
       Some (pImage, i16 (Y0 + 1))) 0 (pImage, Y0).

Fixpoint bitmap_aligned (BitmapHeight : nat) (Color X0 BitmapWidth : Z) (bytes : list Z)
    (BitmapByteIndex LcdByteIndex : Z) (pImage : list Z) : option (list Z) :=
  match BitmapHeight with
  | O => Some pImage
  | S BitmapHeight =>
      '(pImage, _) ← loop (Z.to_nat (BitmapWidth / 8))
        (fun Tmp '(pImage, X) =>
           pImage ← (if (LcdByteIndex + Tmp <? LCD_BUFFER_SIZE) && (X <? LCD_WIDTH) && (0 <=? X)
             then b ← peek bytes (BitmapByteIndex + Tmp);
                  poke pImage (LcdByteIndex + Tmp) (ink Color b)
             else Some pImage);
           Some (pImage, i16 (X + 8))) 0 (pImage, X0);
      bitmap_aligned BitmapHeight Color X0 BitmapWidth bytes
        (i16 (BitmapByteIndex + BitmapWidth / 8)) (i16 (LcdByteIndex + LCD_BYTE_WIDTH)) pImage
  end.

Definition dLcdDrawBitmap (pImage : list Z) (Color X0 Y0 : Z) (pBitmap : option (list Z))
    : option (list Z) :=
  match pBitmap with
  | None => Some pImage
  | Some p =>
      BitmapWidth ← peek p 0;
      BitmapHeight ← peek p 1;
      let bytes := drop 2 p in
      if (0 <=? BitmapWidth) && (0 <=? BitmapHeight) then
        if negb (Z.rem X0 8 =? 0) || negb (BitmapWidth mod 8 =? 0) then
          bitmap_unaligned Color X0 Y0 BitmapWidth BitmapHeight bytes pImage
        else
          bitmap_aligned (Z.to_nat BitmapHeight) Color X0 BitmapWidth bytes 0
            (i16 (Z.shiftr X0 3 + Y0 * LCD_BYTE_WIDTH)) pImage
      else Some pImage
  end.

(** ** The state *)

(** [LCDInstance] and [hwBuffer].  [pFB0] is the mapped frame buffer, [pLcd]
    whether the pointer is set (it only ever points to [displayBuf]). *)
Record lcd := MkLcd {
  Dirty : bool;
  DispFile : Z;
  pFB0 : option (list Z);
  displayBuf : list Z;
  pLcd : bool;
  currentFont : Z;
  autoRefresh : bool;
  hwBuffer : list Z;
}.

Definition set_dirty (d : bool) (s : lcd) : lcd :=
  MkLcd d (DispFile s) (pFB0 s) (displayBuf s) (pLcd s) (currentFont s) (autoRefresh s) (hwBuffer s).
Definition set_fb (fb : option (list Z)) (s : lcd) : lcd :=
  MkLcd (Dirty s) (DispFile s) fb (displayBuf s) (pLcd s) (currentFont s) (autoRefresh s) (hwBuffer s).
Definition set_file (fd : Z) (s : lcd) : lcd :=
  MkLcd (Dirty s) fd (pFB0 s) (displayBuf s) (pLcd s) (currentFont s) (autoRefresh s) (hwBuffer s).
Definition set_display (b : list Z) (s : lcd) : lcd :=
  MkLcd (Dirty s) (DispFile s) (pFB0 s) b (pLcd s) (currentFont s) (autoRefresh s) (hwBuffer s).
Definition set_plcd (p : bool) (s : lcd) : lcd :=
  MkLcd (Dirty s) (DispFile s) (pFB0 s) (displayBuf s) p (currentFont s) (autoRefresh s) (hwBuffer s).
Definition set_font (f : Z) (s : lcd) : lcd :=
  MkLcd (Dirty s) (DispFile s) (pFB0 s) (displayBuf s) (pLcd s) f (autoRefresh s) (hwBuffer s).
Definition LcdSetAutoRefresh (bOn : bool) (s : lcd) : lcd :=
  MkLcd (Dirty s) (DispFile s) (pFB0 s) (displayBuf s) (pLcd s) (currentFont s) bOn (hwBuffer s).
Definition set_hw (b : list Z) (s : lcd) : lcd :=
  MkLcd (Dirty s) (DispFile s) (pFB0 s) (displayBuf s) (pLcd s) (currentFont s) (autoRefresh s) b.

(** Static storage: all zero. *)
Definition lcd0 : lcd :=
  MkLcd false 0 None (replicate (Z.to_nat LCD_BUFFER_SIZE) 0) false 0 false
    (replicate (Z.to_nat LCD_BUFFER_LENGTH) 0).

Definition LcdInitialized (s : lcd) : bool := negb (DispFile s =? -1) && bool_decide (is_Some (pFB0 s)).

Definition doUpdateScreen (s : lcd) : option lcd :=
  match pFB0 s with
  | Some _ =>
      if Dirty s && pLcd s then
        fb ← lcdToFrameBuffer (displayBuf s);
        Some (set_dirty false (set_fb (Some fb) (set_hw fb s)))
      else Some s
  | None => Some s
  end.

(** The callback registered with the timer. *)
Definition LcdUpdateHandler (s : lcd) : option lcd :=
  if autoRefresh s then doUpdateScreen s else Some s.

Definition LcdCloseDevices (s : lcd) : lcd :=
  if negb (LcdInitialized s) then s else
  if 0 <=? DispFile s then set_file (-1) (set_fb None s) else s.

Inductive callback := CbLcdUpdateHandler.
#[export] Instance callback_eq_dec : EqDecision callback.
Proof. solve_decision. Defined.

(** [open] gives [fd], [mmap] the frame buffer or [None].  Behind a failed
    [open] the function ends without a value, which is [None] here, as is the
    store of the callback behind its array. *)
Definition LcdInit (fd : Z) (mapped : option (list Z)) (now : timeval)
    (st : lcd * timers callback) : option (bool * (lcd * timers callback)) :=
  let '(s, t) := st in
  if LcdInitialized s then Some (true, (s, t)) else
  let s := MkLcd false fd None (displayBuf s) false FONTTYPE_NORMAL true (hwBuffer s) in
  if fd =? -1 then None else
  match mapped with
  | None => Some (false, (LcdCloseDevices s, t))
  | Some fb =>
      t ← SetTimerCallback (TimerInit t now) ti250ms (Some CbLcdUpdateHandler);
      Some (true, (set_plcd true (set_fb (Some fb) s), t))
  end.

Definition LcdOpen : bool := true.
Definition LcdClose : bool := true.
Definition LcdExit (s : lcd) : bool * lcd :=
  if negb (LcdInitialized s) then (true, s) else (true, set_plcd false (LcdCloseDevices s)).

(** [pImage] of the drawing functions is [LCDInstance.pLcd]; a store through
    NULL is [None]. *)
Definition on_display (draw : list Z -> option (list Z)) (s : lcd) : option lcd :=
  if pLcd s then b ← draw (displayBuf s); Some (set_display b s) else None.

(** [if (!LcdInitialized()) return false; draw; Dirty = true; return true;] *)
Definition drawing (draw : list Z -> option (list Z)) (s : lcd) : option (bool * lcd) :=
  if negb (LcdInitialized s) then Some (false, s) else
  s ← on_display draw s; Some (true, set_dirty true s).

Definition LcdRefresh (s : lcd) : option lcd :=
  if negb (LcdInitialized s) then Some s else doUpdateScreen s.
Definition LcdUpdate (s : lcd) : option (bool * lcd) :=
  if negb (LcdInitialized s) then Some (false, s) else
  s ← doUpdateScreen s; Some (true, set_dirty false s).
Definition LcdClean (s : lcd) : option (bool * lcd) :=
  if negb (LcdInitialized s) then Some (false, s) else
  s ← on_display (fun p => fill p 0 0 LCD_BUFFER_SIZE) (set_font FONTTYPE_NORMAL s);
  Some (true, set_dirty true s).
Definition LcdClearDisplay (s : lcd) : option lcd :=
  '(_, s) ← LcdClean s; Some (set_dirty true s).

Definition scroll (Y : Z) (p : list Z) : option (list Z) :=
  if (0 <? Y) && (Y <? LCD_HEIGHT) then
    p ← move p 0 (LCD_BYTE_WIDTH * Y) ((LCD_HEIGHT - Y) * LCD_BYTE_WIDTH);
    fill p ((LCD_HEIGHT - Y) * LCD_BYTE_WIDTH) 0 (LCD_BYTE_WIDTH * Y)
  else if (Y <? 0) && (- LCD_HEIGHT <? Y) then
    let Y := - Y in
    p ← move p (LCD_BYTE_WIDTH * Y) 0 ((LCD_HEIGHT - Y) * LCD_BYTE_WIDTH);
    fill p 0 0 (LCD_BYTE_WIDTH * Y)
  else Some p.
Definition LcdScroll (Y : Z) (s : lcd) : option (bool * lcd) :=
  if LcdInitialized s then s ← on_display (scroll Y) s; Some (true, s) else Some (false, s).

Definition LcdSelectFont (FontType : Z) (s : lcd) : bool * lcd :=
  if negb (LcdInitialized s) then (false, s) else
  (true, set_font (if NUM_FONTTYPES <=? FontType then FONTTYPE_NORMAL else FontType) s).

(** The display as a pointer: [Some None] is NULL. *)
Definition LcdGetDisplay (s : lcd) : option (list Z) :=
  if LcdInitialized s && pLcd s then Some (displayBuf s) else None.

(** [hwBuffer] is loaded from the frame buffer and converted back. *)
Definition LcdGetFrameBuffer (s : lcd) : option lcd :=
  match pFB0 s with
  | Some fb =>
      if negb (LcdInitialized s) then Some s else
      if pLcd s then
        b ← frameBufferToLcd fb; Some (set_display b (set_hw fb s))
      else None
  | None => Some s
  end.

(** The two-valued colours: a band of the display; other colours: alternating
    lines. [Color] is a [char]. *)
Fixpoint stripes (n : nat) (Tmp Color : Z) (p : list Z) : option (list Z) :=
  match n with
  | O => Some p
  | S n =>
      p ← fill p (i16 (Tmp * LCD_BYTE_WIDTH)) Color LCD_BYTE_WIDTH;
      stripes n (Tmp + 1) (u8 (Z.lnot Color)) p
  end.
Definition fill_window (Color Y Y1 : Z) (p : list Z) : option (list Z) :=
  if Y + Y1 <? LCD_HEIGHT then
    if (Color =? 0) || (Color =? 1) then
      let Y := i16 (Y * LCD_BYTE_WIDTH) in
      let Y1 := if Y1 =? 0 then i16 (LCD_BUFFER_SIZE - Y) else i16 (Y1 * LCD_BYTE_WIDTH) in
      fill p Y (if Color =? 0 then 0 else 255) Y1
    else
      let Y1 := if Y1 =? 0 then LCD_HEIGHT else Y1 in
      stripes (Z.to_nat (Y1 - Y)) Y Color p
  else Some p.
Definition LcdFillWindow (Color Y Y1 : Z) (s : lcd) : option (bool * lcd) :=
  if negb (LcdInitialized s) then Some (false, s) else
  s ← on_display (fill_window Color Y Y1) (set_font FONTTYPE_NORMAL s);
  Some (true, set_dirty true s).

Section api.
Context (font_bits icon_bits : Z -> list Z).

Definition LcdText (Color X Y : Z) (Text : list Z) (s : lcd) : option (bool * lcd) :=
  drawing (fun p => dLcdDrawText font_bits p Color X Y (currentFont s) Text) s.
Definition LcdIcon (Color X Y IconType IconNum : Z) (s : lcd) : option (bool * lcd) :=
  drawing (fun p => dLcdDrawIcon icon_bits p Color X Y IconType IconNum) s.
Definition LcdPicture (Color X Y : Z) (pBitmap : option (list Z)) (s : lcd)
    : option (bool * lcd) :=
  drawing (fun p => dLcdDrawBitmap p Color X Y pBitmap) s.

(** The file's contents, or [None] if it cannot be opened; what the buffer
    holds behind a short file is indeterminate ([junk]). *)
Definition LcdBmpFile (junk : list Z) (Color X Y : Z) (file : option (list Z)) (s : lcd)
    : option (bool * lcd) :=
  if LcdInitialized s then
    match file with
    | None => Some (false, s)
    | Some data =>
        let pBmp := take (Z.to_nat LCD_BUFFER_SIZE) (data ++ junk) in
        drawing (fun p => dLcdDrawBitmap p Color X Y (Some pBmp)) s
    end
  else Some (false, s).
End api.
