(* ===== verification/LcdFrame.v ===== *)
(** * LcdFrame: what the frame buffer shows of the display buffer

    A row of 23 bytes is a number of 184 bits, pixel [x] its bit [x]; the frame
    buffer carries the bits below 180, three in a byte. *)

From S2P Require Import Prelude Timer Lcd.

(** ** Reading a buffer *)

Lemma peek_nth p i : 0 <= i < zlen p -> peek p i = Some (nth (Z.to_nat i) p 0).
Proof.
  intros Hi. unfold peek. rewrite (proj2 (Z.ltb_ge _ _)) by lia.
  destruct (lookup_lt_is_Some_2 p (Z.to_nat i)) as [x Hx]; [unfold zlen in Hi; lia|].
  rewrite Hx. by erewrite nth_lookup_Some.
Qed.

(** ** Bits of little-endian numbers *)

Lemma bytes_zrange b : byte_ok b -> 0 <= b < 2 ^ 8.
Proof. done. Qed.

Lemma lor_low_high a b n : 0 <= a < 2 ^ n -> 0 <= n -> Z.lor a (Z.shiftl b n) = a + 2 ^ n * b.
Proof.
  intros Ha Hn. rewrite Z.lor_comm. rewrite Z.shiftl_mul_pow2 by lia.
  rewrite <- Z.lxor_lor, <- Z.add_nocarry_lxor; [lia| |].
  all: apply Z.bits_inj'; intros i Hi; rewrite Z.land_spec, Z.bits_0;
    destruct (Z.ltb_spec i n);
    [rewrite Z.mul_pow2_bits_low by lia; done|
     rewrite (testbit_above a n) by lia; by rewrite andb_false_r].
Qed.

Lemma le_val_app l k : le_val (l ++ k) = le_val l + 2 ^ (8 * Z.of_nat (length l)) * le_val k.
Proof.
  induction l as [|b l IH]; cbn [app le_val length]; [lia|].
  rewrite IH. replace (8 * Z.of_nat (S (length l))) with (8 + 8 * Z.of_nat (length l)) by lia.
  rewrite Z.pow_add_r by lia. lia.
Qed.

Lemma le_bytes_app n m z :
  le_bytes (n + m) z = le_bytes n z ++ le_bytes m (z / 2 ^ (8 * Z.of_nat n)).
Proof.
  revert z. induction n as [|n IH]; intros z; cbn [Nat.add le_bytes app].
  { by rewrite Z.div_1_r. }
  rewrite IH. rewrite Z.div_div by lia. do 4 f_equal.
  replace (8 * Z.of_nat (S n)) with (8 + 8 * Z.of_nat n) by lia.
  rewrite Z.pow_add_r by lia. done.
Qed.

Lemma le_bytes_low n z q : le_bytes n (z + 2 ^ (8 * Z.of_nat n) * q) = le_bytes n z.
Proof.
  revert z q. induction n as [|n IH]; intros z q; [done|]. cbn [le_bytes].
  replace (8 * Z.of_nat (S n)) with (8 + 8 * Z.of_nat n) by lia.
  rewrite Z.pow_add_r by lia. change (2 ^ 8) with 256.
  rewrite <- Z.mul_assoc, (Z.mul_comm 256), Z.mod_add, Z.div_add by lia. by rewrite IH.
Qed.

Lemma testbit_le_val l x :
  bytes_ok l -> 0 <= x < 8 * Z.of_nat (length l) ->
  Z.testbit (le_val l) x = Z.testbit (nth (Z.to_nat (x / 8)) l 0) (x mod 8).
Proof.
  intros Hl. revert x. induction Hl as [|b l Hb Hl IH]; intros x Hx; [simpl in Hx; lia|].
  cbn [le_val]. change 256 with (2 ^ 8).
  destruct (decide (x < 8)).
  - rewrite Z.div_small, Z.mod_small by lia. cbn [nth Z.to_nat].
    rewrite <- (lor_low_high b (le_val l) 8) by (done || lia).
    rewrite Z.lor_spec, Z.shiftl_spec_low by lia. apply orb_false_r.
  - rewrite <- (lor_low_high b (le_val l) 8) by (done || lia).
    rewrite Z.lor_spec, Z.shiftl_spec by lia. rewrite (testbit_above b 8) by (done || lia).
    cbn [orb length] in *. rewrite IH by lia.
    replace (Z.to_nat (x / 8)) with (S (Z.to_nat ((x - 8) / 8))).
    2: { replace (x / 8) with ((x - 8) / 8 + 1) by (rewrite <- Z.div_add by lia; f_equal; lia).
         pose proof (Z.div_pos (x - 8) 8). lia. }
    cbn [nth]. f_equal. by rewrite <- (Z.mod_add x (-1)) by lia.
Qed.

(** ** Three pixels in a byte *)

Lemma unpixel_pixels P : unpixel (pixels_of P) = P mod 2 ^ 3.
Proof.
  unfold pixels_of. change 0x07 with (Z.ones 3). rewrite Z.land_ones by lia.
  pose proof (Z.mod_pos_bound P (2 ^ 3) ltac:(lia)) as H. revert H.
  generalize (P mod 2 ^ 3). intros v Hv.
  assert (v = 0 \/ v = 1 \/ v = 2 \/ v = 3 \/ v = 4 \/ v = 5 \/ v = 6 \/ v = 7) as Hc by lia.
  by destruct Hc as [->|[->|[->|[->|[->|[->|[->| ->]]]]]]].
Qed.

Lemma unpixel_range b : 0 <= unpixel b < 8.
Proof.
  unfold unpixel. assert (Forall (fun v => 0 <= v < 8) UnPixelTab) as H.
  { apply (bool_decide_unpack _). vm_compute. exact I. }
  destruct (nth_in_or_default (Z.to_nat b) UnPixelTab 0) as [Hi| ->]; [|lia].
  by apply list_elem_of_In, (proj1 (Forall_forall _ _) H) in Hi.
Qed.

Lemma gather_shift l sh : 0 <= sh -> gather l sh = Z.shiftl (gather l 0) sh.
Proof.
  revert sh. induction l as [|b l IH]; intros sh Hsh; cbn [gather]; [by rewrite Z.shiftl_0_l|].
  rewrite (IH (sh + 3)), (IH (0 + 3)) by lia. rewrite Z.shiftl_lor, Z.shiftl_0_r.
  rewrite Z.shiftl_shiftl by lia. do 2 f_equal. lia.
Qed.

Lemma gather_cons b l : gather (b :: l) 0 = unpixel b + 2 ^ 3 * gather l 0.
Proof.
  cbn [gather]. rewrite Z.shiftl_0_r, gather_shift by lia.
  apply lor_low_high; [apply unpixel_range|lia].
Qed.

Lemma gather_range l : 0 <= gather l 0 < 2 ^ (3 * Z.of_nat (length l)).
Proof.
  induction l as [|b l IH]; [done|]. rewrite gather_cons. cbn [length].
  pose proof (unpixel_range b).
  replace (3 * Z.of_nat (S (length l))) with (3 + 3 * Z.of_nat (length l)) by lia.
  rewrite Z.pow_add_r by lia. lia.
Qed.

Lemma gather_app l k :
  gather (l ++ k) 0 = gather l 0 + 2 ^ (3 * Z.of_nat (length l)) * gather k 0.
Proof.
  induction l as [|b l IH].
  - change (gather [] 0) with 0. cbn [app length]. lia.
  - rewrite <- app_comm_cons, !gather_cons, IH. cbn [length].
    replace (3 * Z.of_nat (S (length l))) with (3 + 3 * Z.of_nat (length l)) by lia.
    rewrite Z.pow_add_r by lia. lia.
Qed.

Lemma length_spread n P : length (spread n P) = n.
Proof. revert P. induction n as [|n IH]; intros P; simpl; auto. Qed.

Lemma gather_spread n P : gather (spread n P) 0 = P mod 2 ^ (3 * Z.of_nat n).
Proof.
  revert P. induction n as [|n IH]; intros P; [by rewrite Z.mod_1_r|].
  cbn [spread]. rewrite gather_cons, IH, unpixel_pixels, Z.shiftr_div_pow2 by lia.
  replace (3 * Z.of_nat (S n)) with (3 + 3 * Z.of_nat n) by lia.
  rewrite Z.pow_add_r by lia. by rewrite Z.rem_mul_r by lia.
Qed.

Lemma spread_app n m P :
  spread (n + m) P = spread n P ++ spread m (P / 2 ^ (3 * Z.of_nat n)).
Proof.
  revert P. induction n as [|n IH]; intros P; cbn [Nat.add spread app].
  { by rewrite Z.div_1_r. }
  rewrite IH, Z.shiftr_div_pow2, Z.div_div by lia. do 4 f_equal.
  replace (3 * Z.of_nat (S n)) with (3 + 3 * Z.of_nat n) by lia.
  rewrite Z.pow_add_r by lia. done.
Qed.

Lemma spread_low n P Q : spread n (P + 2 ^ (3 * Z.of_nat n) * Q) = spread n P.
Proof.
  revert P Q. induction n as [|n IH]; intros P Q; [done|]. cbn [spread].
  replace (3 * Z.of_nat (S n)) with (3 + 3 * Z.of_nat n) by lia.
  rewrite Z.pow_add_r, !Z.shiftr_div_pow2 by lia. f_equal.
  - unfold pixels_of. change 0x07 with (Z.ones 3). rewrite !Z.land_ones by lia. do 2 f_equal.
    rewrite <- Z.mul_assoc, (Z.mul_comm (2 ^ 3)). by rewrite Z.mod_add by lia.
  - rewrite <- Z.mul_assoc, (Z.mul_comm (2 ^ 3)), Z.div_add by lia. apply IH.
Qed.

(** ** Rows *)

Lemma lor2 a b : byte_ok a -> Z.lor a (Z.shiftl b 8) = le_val [a; b].
Proof. intros Ha. rewrite lor_low_high by (done || lia). cbn [le_val]. lia. Qed.
Lemma lor3 a b c :
  byte_ok a -> byte_ok b -> Z.lor (Z.lor a (Z.shiftl b 8)) (Z.shiftl c 16) = le_val [a; b; c].
Proof.
  intros Ha Hb. rewrite (lor_low_high a b 8) by (done || lia).
  unfold byte_ok in *. rewrite lor_low_high by (change (2 ^ 16) with 65536; lia).
  cbn [le_val]. lia.
Qed.

Lemma lcd_row_eq X l p :
  bytes_ok l -> length l = (3 * X + 2)%nat ->
  lcd_row X (l ++ p) = Some (spread (8 * X + 4) (le_val l), p).
Proof.
  intros Hl. revert l Hl. induction X as [|X IH]; intros l Hl Hlen.
  - destruct l as [|a [|b [|? l]]]; try discriminate. apply Forall_cons in Hl as [Ha _].
    cbn [app lcd_row]. by rewrite lor2.
  - destruct l as [|a [|b [|c l]]]; try (simpl in Hlen; lia).
    apply Forall_cons in Hl as [Ha Hl]. apply Forall_cons in Hl as [Hb Hl].
    apply Forall_cons in Hl as [Hc Hl]. cbn [app lcd_row].
    rewrite IH; [|done|simpl in Hlen; lia]. cbn [mbind option_bind].
    rewrite lor3 by done. do 2 f_equal.
    replace (8 * S X + 4)%nat with (8 + (8 * X + 4))%nat by lia.
    change (a :: b :: c :: l) with ([a; b; c] ++ l). rewrite le_val_app, (spread_app 8).
    change (8 * Z.of_nat (length [a; b; c])) with 24. change (3 * Z.of_nat 8) with 24. f_equal.
    + symmetry. apply (spread_low 8).
    + f_equal. rewrite (Z.mul_comm (2 ^ 24)), Z.div_add by lia.
      rewrite Z.div_small; [lia|]. apply (le_val_range [a; b; c]). auto using Forall_cons_2, Forall_nil_2.
Qed.

Lemma fb_row_eq X l p :
  length l = (8 * X + 4)%nat -> fb_row X (l ++ p) = Some (le_bytes (3 * X + 2) (gather l 0), p).
Proof.
  revert l. induction X as [|X IH]; intros l Hlen.
  - destruct l as [|a [|b [|c [|d [|? l]]]]]; try discriminate. cbn [app fb_row].
    by rewrite Z.shiftr_div_pow2 by lia.
  - destruct l as [|a [|b [|c [|d [|e [|f [|g [|h l]]]]]]]]; try (simpl in Hlen; lia).
    cbn [app fb_row]. rewrite IH by (simpl in Hlen; lia). cbn [mbind option_bind].
    do 2 f_equal. replace (3 * S X + 2)%nat with (3 + (3 * X + 2))%nat by lia.
    rewrite (le_bytes_app 3).
    change (a :: b :: c :: d :: e :: f :: g :: h :: l) with ([a; b; c; d; e; f; g; h] ++ l).
    rewrite gather_app. change (3 * Z.of_nat (length [a; b; c; d; e; f; g; h])) with 24.
    change (8 * Z.of_nat 3) with 24.
    pose proof (gather_range [a; b; c; d; e; f; g; h]) as Hr.
    change (3 * Z.of_nat (length [a; b; c; d; e; f; g; h])) with 24 in Hr.
    set (v := gather [a; b; c; d; e; f; g; h] 0) in *.
    rewrite (le_bytes_low 3 v). rewrite (Z.mul_comm (2 ^ 24)), Z.div_add, (Z.div_small v) by lia.
    rewrite Z.add_0_l, !Z.shiftr_div_pow2 by lia. cbn [le_bytes app].
    change (2 ^ 16) with (256 * 256). by rewrite <- Z.div_div by lia.
Qed.

(** ** Whole buffers *)

(** Row [y] of [m] bytes. *)
Definition row_of (m y : nat) (p : list Z) : list Z := slice (m * y) m p.

Lemma rows_eq f m conv Y p :
  (forall l q, bytes_ok l -> length l = m -> conv (l ++ q) = Some (f l, q)) ->
  bytes_ok p -> (m * Y <= length p)%nat ->
  rows conv Y p = Some (concat (map (fun y => f (row_of m y p)) (seq 0 Y))).
Proof.
  intros Hconv. revert p. induction Y as [|Y IH]; intros p Hp Hlen; [done|]. cbn [rows].
  rewrite <- (take_drop m p) at 1.
  rewrite Hconv; [|by apply Forall_take|rewrite length_take; lia]. cbn [mbind option_bind].
  rewrite IH; [|by apply Forall_drop|rewrite length_drop; lia]. cbn [mbind option_bind].
  rewrite <- (cons_seq Y 0), <- seq_shift, map_cons, map_map. cbn [concat]. do 2 f_equal.
  - unfold row_of. by rewrite Nat.mul_0_r, slice_0.
  - f_equal. apply map_ext. intros y. unfold row_of, slice.
    rewrite drop_drop. do 3 f_equal. lia.
Qed.

Lemma nth_rows (f : nat -> list Z) m Y i y d :
  (forall y, length (f y) = m) -> (i < m)%nat -> (y < Y)%nat ->
  nth (i + m * y) (concat (map f (seq 0 Y))) d = nth i (f y) d.
Proof.
  intros Hf Hi. revert f y Hf. induction Y as [|Y IH]; intros f y Hf Hy; [lia|].
  rewrite <- (cons_seq Y 0), <- seq_shift, map_cons, map_map. cbn [concat].
  destruct y as [|y].
  - rewrite Nat.mul_0_r, Nat.add_0_r. apply app_nth1. by rewrite Hf.
  - rewrite app_nth2 by (rewrite Hf; lia). rewrite Hf.
    replace (i + m * S y - m)%nat with (i + m * y)%nat by lia.
    by rewrite (IH (fun y => f (S y))) by (done || lia).
Qed.

Lemma length_rows (f : nat -> list Z) m Y :
  (forall y, length (f y) = m) -> length (concat (map f (seq 0 Y))) = (m * Y)%nat.
Proof.
  intros Hf. rewrite length_concat, map_map, (map_ext _ (fun _ => m)) by done.
  generalize 0%nat. induction Y as [|Y IH]; intros k; cbn; [lia|]. rewrite IH. lia.
Qed.

Lemma row_of_rows (f : nat -> list Z) m Y y :
  (forall y, length (f y) = m) -> (y < Y)%nat ->
  row_of m y (concat (map f (seq 0 Y))) = f y.
Proof.
  revert f y. induction Y as [|Y IH]; intros f y Hf Hy; [lia|].
  rewrite <- (cons_seq Y 0), <- seq_shift, map_cons, map_map. cbn [concat]. unfold row_of.
  destruct y as [|y].
  - rewrite Nat.mul_0_r, slice_0. apply take_app_length'. symmetry. apply Hf.
  - rewrite slice_app_r by (rewrite Hf; lia). rewrite Hf.
    replace (m * S y - m)%nat with (m * y)%nat by lia.
    by apply (IH (fun y => f (S y))); [|lia].
Qed.

(** *** Pixels of a buffer *)

Definition pixel (p : list Z) (x y : Z) : bool :=
  Z.testbit (nth (Z.to_nat (x / 8 + y * LCD_BYTE_WIDTH)) p 0) (x mod 8).

(** The three bits a pixel has in its byte of the frame buffer. *)
Definition hw_mask (x : Z) : Z := nth (Z.to_nat (x mod 3)) [0xE0; 0x1C; 0x03] 0.
Definition hw_field (fb : list Z) (x y : Z) : Z :=
  Z.land (nth (Z.to_nat (x / 3 + y * LCD_MEM_WIDTH)) fb 0) (hw_mask x).

Definition image_ok (p : list Z) : Prop := bytes_ok p /\ zlen p = LCD_BUFFER_SIZE.

Definition hw_ok (p : list Z) : Prop := zlen p = LCD_BUFFER_LENGTH.

Lemma length_row_of m y p : (m * y + m <= length p)%nat -> length (row_of m y p) = m.
Proof. intros. by apply length_slice. Qed.

Lemma bytes_ok_row_of m y p : bytes_ok p -> bytes_ok (row_of m y p).
Proof. apply bytes_ok_slice. Qed.

Lemma bytes_ok_spread n P : bytes_ok (spread n P).
Proof.
  revert P. induction n as [|n IH]; intros P; constructor; [|apply IH].
  unfold pixels_of. assert (bytes_ok PixelTab) as H.
  { apply (bool_decide_unpack _). vm_compute. exact I. }
  destruct (nth_in_or_default (Z.to_nat (Z.land P 7)) PixelTab 0) as [Hi| ->]; [|done].
  by apply list_elem_of_In, (proj1 (Forall_forall _ _) H) in Hi.
Qed.

(** The frame buffer of an image, row by row. *)
Definition shown (p : list Z) : list Z :=
  concat (map (fun y => spread 60 (le_val (row_of 23 y p))) (seq 0 128)).

Lemma lcdToFrameBuffer_eq p : image_ok p -> lcdToFrameBuffer p = Some (shown p).
Proof.
  intros [Hb Hl]. unfold lcdToFrameBuffer. change (Z.to_nat LCD_HEIGHT) with 128%nat.
  apply (rows_eq (fun l => spread 60 (le_val l)) 23).
  - intros l q Hl' Hlen. by apply (lcd_row_eq 7).
  - done.
  - unfold zlen in Hl. change LCD_BUFFER_SIZE with 2944 in Hl. lia.
Qed.

Lemma bytes_ok_shown p : bytes_ok (shown p).
Proof.
  unfold shown. generalize (seq 0 128). induction l as [|y l IH]; [constructor|].
  cbn [map concat]. apply Forall_app. split; [apply bytes_ok_spread|exact IH].
Qed.

Lemma length_shown p : length (shown p) = 7680%nat.
Proof. unfold shown. by rewrite (length_rows _ 60) by (intros; apply length_spread). Qed.

Lemma fb_to_lcd_shown p :
  frameBufferToLcd (shown p) =
  Some (concat (map (fun y => le_bytes 23 (le_val (row_of 23 y p) mod 2 ^ 180)) (seq 0 128))).
Proof.
  unfold frameBufferToLcd. change (Z.to_nat LCD_HEIGHT) with 128%nat.
  rewrite (rows_eq (fun l => le_bytes 23 (gather l 0)) 60).
  - do 2 f_equal. apply map_ext_in. intros y [_ Hy]%in_seq. unfold shown.
    rewrite row_of_rows by (intros; apply length_spread || lia). by rewrite gather_spread.
  - intros l q _ Hlen. by apply (fb_row_eq 7).
  - apply bytes_ok_shown.
  - by rewrite length_shown.
Qed.

Lemma screen_spec x y :
  on_screen x y = true -> 0 <= x < 178 /\ 0 <= y < 128.
Proof. unfold on_screen, LCD_WIDTH, LCD_HEIGHT. lia. Qed.

Lemma nth_slice (p : list Z) o n i : (i < n)%nat -> nth i (slice o n p) 0 = nth (o + i) p 0.
Proof. intros Hi. rewrite !nth_lookup. unfold slice. by rewrite lookup_take_lt, lookup_drop. Qed.

Lemma offset_nat w x y k : 0 <= x -> 0 <= y -> 0 < k -> 0 <= w ->
  Z.to_nat (x / k + y * w) = (Z.to_nat (x / k) + Z.to_nat w * Z.to_nat y)%nat.
Proof. intros. pose proof (Z.div_pos x k). rewrite Z2Nat.inj_add, Z2Nat.inj_mul by lia. lia. Qed.

Lemma pixel_row p x y :
  image_ok p -> 0 <= x < 184 -> 0 <= y < 128 ->
  pixel p x y = Z.testbit (le_val (row_of 23 (Z.to_nat y) p)) x.
Proof.
  intros [Hb Hl] Hx Hy. unfold zlen in Hl. change LCD_BUFFER_SIZE with 2944 in Hl.
  assert (length (row_of 23 (Z.to_nat y) p) = 23%nat) as Hlen by (apply length_row_of; lia).
  rewrite testbit_le_val by (apply bytes_ok_row_of, Hb || lia).
  unfold pixel, row_of. rewrite offset_nat by (lia || done).
  change (Z.to_nat LCD_BYTE_WIDTH) with 23%nat. rewrite nth_slice; [do 2 f_equal; lia|].
  assert (x / 8 < 23) by (apply Z.div_lt_upper_bound; lia). lia.
Qed.

Lemma pixel_rows (g : nat -> Z) x y :
  0 <= x < 184 -> 0 <= y < 128 ->
  pixel (concat (map (fun y => le_bytes 23 (g y)) (seq 0 128))) x y
  = Z.testbit (g (Z.to_nat y)) x.
Proof.
  intros Hx Hy. assert (0 <= x / 8 < 23) by (split; [apply Z.div_pos|apply Z.div_lt_upper_bound]; lia).
  unfold pixel. rewrite offset_nat by (lia || done).
  change (Z.to_nat LCD_BYTE_WIDTH) with 23%nat.
  rewrite (nth_rows (fun y => le_bytes 23 (g y)) 23) by (intros; apply length_le_bytes || lia).
  rewrite <- testbit_le_val by (apply le_bytes_ok || (rewrite length_le_bytes; lia)).
  rewrite le_val_le_bytes. apply Z.mod_pow2_bits_low. lia.
Qed.

Lemma nth_spread n P i :
  (i < n)%nat -> nth i (spread n P) 0 = pixels_of (P / 2 ^ (3 * Z.of_nat i)).
Proof.
  revert n P. induction i as [|i IH]; intros [|n] P Hi; try lia; cbn [spread nth].
  { by rewrite Z.div_1_r. }
  rewrite IH, Z.shiftr_div_pow2, Z.div_div by lia. do 2 f_equal.
  replace (3 * Z.of_nat (S i)) with (3 + 3 * Z.of_nat i) by lia. by rewrite Z.pow_add_r by lia.
Qed.

Lemma pixels_mask P x :
  Z.land (pixels_of P) (hw_mask x) = if Z.testbit P (x mod 3) then hw_mask x else 0.
Proof.
  assert (pixels_of P = pixels_of (P mod 2 ^ 3)) as ->.
  { unfold pixels_of. change 7 with (Z.ones 3). rewrite !Z.land_ones by lia.
    by rewrite Z.mod_mod by lia. }
  pose proof (Z.mod_pos_bound x 3 ltac:(lia)) as Hx.
  rewrite <- (Z.mod_pow2_bits_low P 3) by lia. unfold hw_mask. revert Hx.
  pose proof (Z.mod_pos_bound P (2 ^ 3) ltac:(lia)) as Hv. revert Hv.
  generalize (P mod 2 ^ 3), (x mod 3). intros v r Hv Hr.
  assert (r = 0 \/ r = 1 \/ r = 2) as Hc by lia.
  assert (v = 0 \/ v = 1 \/ v = 2 \/ v = 3 \/ v = 4 \/ v = 5 \/ v = 6 \/ v = 7) as Hd by lia.
  by destruct Hc as [->|[->| ->]]; destruct Hd as [->|[->|[->|[->|[->|[->|[->| ->]]]]]]].
Qed.

Lemma hw_field_shown p x y :
  image_ok p -> on_screen x y = true ->
  hw_field (shown p) x y = if pixel p x y then hw_mask x else 0.
Proof.
  intros Hp [Hx Hy]%screen_spec. rewrite pixel_row by (done || lia).
  assert (0 <= x / 3 < 60) as Hq
    by (split; [apply Z.div_pos|apply Z.div_lt_upper_bound]; lia).
  unfold hw_field, shown. rewrite offset_nat by (lia || done).
  change (Z.to_nat LCD_MEM_WIDTH) with 60%nat.
  rewrite (nth_rows (fun y => spread 60 (le_val (row_of 23 y p))) 60)
    by (intros; apply length_spread || lia).
  rewrite nth_spread by lia. rewrite pixels_mask.
  pose proof (Z.div_mod x 3 ltac:(lia)). pose proof (Z.mod_pos_bound x 3 ltac:(lia)).
  rewrite Z.div_pow2_bits by lia.
  by replace (x mod 3 + 3 * Z.of_nat (Z.to_nat (x / 3))) with x by lia.
Qed.

(** A bit by its mask. *)
Lemma land_bit b k : 0 <= k -> (Z.land b (Z.shiftl 1 k) =? 0) = negb (Z.testbit b k).
Proof.
  intros Hk. rewrite Z.shiftl_1_l. destruct (Z.testbit b k) eqn:Et.
  - apply Z.eqb_neq. intros E. apply (f_equal (fun z => Z.testbit z k)) in E.
    by rewrite Z.bits_0, Z.land_spec, Et, Z.pow2_bits_true in E.
  - apply Z.eqb_eq, Z.bits_inj'. intros i Hi. rewrite Z.land_spec, Z.bits_0.
    destruct (decide (i = k)) as [->|]; [by rewrite Et|].
    rewrite Z.pow2_bits_false by lia. apply andb_false_r.
Qed.

(** [dLcdReadPixel] on a buffer of the right size. *)
Lemma read_pixel p x y :
  image_ok p -> on_screen x y = true ->
  dLcdReadPixel p x y = Some (if pixel p x y then 1 else 0).
Proof.
  intros [Hb Hl] Hs. unfold dLcdReadPixel. rewrite Hs. apply screen_spec in Hs as [Hx Hy].
  unfold peek, pixel_offset. rewrite Z.shiftr_div_pow2 by lia. change (2 ^ 3) with 8.
  assert (0 <= x / 8 < 23) by (split; [apply Z.div_pos|apply Z.div_lt_upper_bound]; lia).
  unfold zlen in Hl. change LCD_BUFFER_SIZE with 2944 in Hl.
  assert (0 <= x / 8 + y * LCD_BYTE_WIDTH < 2944) as Ho
    by (change LCD_BYTE_WIDTH with 23; lia).
  rewrite (proj2 (Z.ltb_ge _ _)) by lia.
  destruct (p !! Z.to_nat (x / 8 + y * LCD_BYTE_WIDTH)) as [b|] eqn:Eb.
  2: { apply lookup_ge_None in Eb. lia. }
  cbn [mbind option_bind]. f_equal. unfold pixel.
  rewrite (nth_lookup_Some _ _ _ _ Eb). rewrite Z.rem_mod_nonneg by lia.
  pose proof (Z.mod_pos_bound x 8 ltac:(lia)). rewrite land_bit by lia.
  by destruct (Z.testbit b (x mod 8)).
Qed.

(** ** The theorems *)

(** What an update of a changed display does. *)
Lemma update_paints s fb :
  image_ok (displayBuf s) -> pLcd s = true -> pFB0 s = Some fb -> Dirty s = true ->
  exists s' fb', doUpdateScreen s = Some s' /\ pFB0 s' = Some fb' /\ hw_ok fb'
    /\ Dirty s' = false /\ displayBuf s' = displayBuf s
    /\ (forall x y, on_screen x y = true ->
         hw_field fb' x y = if pixel (displayBuf s) x y then hw_mask x else 0)
    /\ s' = set_dirty false (set_fb (Some fb') (set_hw fb' s)).
Proof.
  intros Hp Hl Hf Hd. unfold doUpdateScreen. rewrite Hf, Hd, Hl, lcdToFrameBuffer_eq by done.
  cbn [andb mbind option_bind]. eexists _, _. split; [done|]. split; [done|].
  split; [unfold hw_ok, zlen; by rewrite length_shown|]. do 2 (split; [done|]). split; [|done].
  intros x y Hs. by apply hw_field_shown.
Qed.

Lemma fb_roundtrip p :
  image_ok p ->
  exists fb q, lcdToFrameBuffer p = Some fb /\ frameBufferToLcd fb = Some q /\ image_ok q
    /\ forall x y, on_screen x y = true -> dLcdReadPixel q x y = dLcdReadPixel p x y.
Proof.
  intros Hp. exists (shown p). eexists. split; [by apply lcdToFrameBuffer_eq|].
  split; [apply fb_to_lcd_shown|]. set (q := concat _).
  assert (image_ok q) as Hq.
  { split.
    - unfold q. generalize (seq 0 128). induction l as [|y l IH]; [constructor|].
      cbn [map concat]. apply Forall_app. split; [apply le_bytes_ok|exact IH].
    - unfold zlen, q. by rewrite (length_rows _ 23) by (intros; apply length_le_bytes). }
  split; [done|]. intros x y Hs. rewrite !read_pixel by done. do 2 f_equal.
  apply screen_spec in Hs as [Hx Hy]. unfold q.
  rewrite (pixel_rows (fun y => le_val (row_of 23 y p) mod 2 ^ 180)) by lia.
  rewrite Z.mod_pow2_bits_low by lia. by rewrite pixel_row by (done || lia).
Qed.

(** C27: Converting a display buffer for the frame buffer of the kernel, three pixels in a
    byte, and back gives a display buffer with the same pixels. *)
Theorem frame_buffer_roundtrip p :
  image_ok p ->
  exists fb q, lcdToFrameBuffer p = Some fb /\ frameBufferToLcd fb = Some q /\ image_ok q
    /\ forall x y, on_screen x y = true -> dLcdReadPixel q x y = dLcdReadPixel p x y.
Proof. apply fb_roundtrip. Qed.
