(* ===== verification/LcdImage.v ===== *)
(** * LcdImage: writing the display to an image file (src/util/cat/ev3_lcd.c)

    The image writer of the display library: the name of the file, its plain
    and raw PBM and XBM formats, and the two functions that store the display
    and the frame buffer.  The formats are checked against a reader of their
    own. *)

From S2P Require Import Prelude IO Cstr Timer Lcd LcdFrame.

(** ** The order of the bits *)

Definition reverse_bits_table : list Z :=
  [0x00; 0x80; 0x40; 0xc0; 0x20; 0xa0; 0x60; 0xe0; 0x10; 0x90; 0x50; 0xd0; 0x30; 0xb0; 0x70; 0xf0;
   0x08; 0x88; 0x48; 0xc8; 0x28; 0xa8; 0x68; 0xe8; 0x18; 0x98; 0x58; 0xd8; 0x38; 0xb8; 0x78; 0xf8;
   0x04; 0x84; 0x44; 0xc4; 0x24; 0xa4; 0x64; 0xe4; 0x14; 0x94; 0x54; 0xd4; 0x34; 0xb4; 0x74; 0xf4;
   0x0c; 0x8c; 0x4c; 0xcc; 0x2c; 0xac; 0x6c; 0xec; 0x1c; 0x9c; 0x5c; 0xdc; 0x3c; 0xbc; 0x7c; 0xfc;
   0x02; 0x82; 0x42; 0xc2; 0x22; 0xa2; 0x62; 0xe2; 0x12; 0x92; 0x52; 0xd2; 0x32; 0xb2; 0x72; 0xf2;
   0x0a; 0x8a; 0x4a; 0xca; 0x2a; 0xaa; 0x6a; 0xea; 0x1a; 0x9a; 0x5a; 0xda; 0x3a; 0xba; 0x7a; 0xfa;
   0x06; 0x86; 0x46; 0xc6; 0x26; 0xa6; 0x66; 0xe6; 0x16; 0x96; 0x56; 0xd6; 0x36; 0xb6; 0x76; 0xf6;
   0x0e; 0x8e; 0x4e; 0xce; 0x2e; 0xae; 0x6e; 0xee; 0x1e; 0x9e; 0x5e; 0xde; 0x3e; 0xbe; 0x7e; 0xfe;
   0x01; 0x81; 0x41; 0xc1; 0x21; 0xa1; 0x61; 0xe1; 0x11; 0x91; 0x51; 0xd1; 0x31; 0xb1; 0x71; 0xf1;
   0x09; 0x89; 0x49; 0xc9; 0x29; 0xa9; 0x69; 0xe9; 0x19; 0x99; 0x59; 0xd9; 0x39; 0xb9; 0x79; 0xf9;
   0x05; 0x85; 0x45; 0xc5; 0x25; 0xa5; 0x65; 0xe5; 0x15; 0x95; 0x55; 0xd5; 0x35; 0xb5; 0x75; 0xf5;
   0x0d; 0x8d; 0x4d; 0xcd; 0x2d; 0xad; 0x6d; 0xed; 0x1d; 0x9d; 0x5d; 0xdd; 0x3d; 0xbd; 0x7d; 0xfd;
   0x03; 0x83; 0x43; 0xc3; 0x23; 0xa3; 0x63; 0xe3; 0x13; 0x93; 0x53; 0xd3; 0x33; 0xb3; 0x73; 0xf3;
   0x0b; 0x8b; 0x4b; 0xcb; 0x2b; 0xab; 0x6b; 0xeb; 0x1b; 0x9b; 0x5b; 0xdb; 0x3b; 0xbb; 0x7b; 0xfb;
   0x07; 0x87; 0x47; 0xc7; 0x27; 0xa7; 0x67; 0xe7; 0x17; 0x97; 0x57; 0xd7; 0x37; 0xb7; 0x77; 0xf7;
   0x0f; 0x8f; 0x4f; 0xcf; 0x2f; 0xaf; 0x6f; 0xef; 0x1f; 0x9f; 0x5f; 0xdf; 0x3f; 0xbf; 0x7f; 0xff].
Definition reverse_bits (b : Z) : option Z := peek reverse_bits_table b.

(** ** File names: strrchr, dirname and basename of the C library *)

Fixpoint strrchr (c : Z) (s : list Z) : option nat :=
  match s with
  | [] => None
  | b :: s =>
      match strrchr c s with
      | Some n => Some (S n)
      | None => if b =? c then Some O else None
      end
  end.

(** Without the slashes at its end. *)
Fixpoint strip_slashes (s : list Z) : list Z :=
  match s with
  | [] => []
  | b :: s =>
      match strip_slashes s with
      | [] => if b =? 47 then [] else [b]
      | t => b :: t
      end
  end.

Definition basename (s : list Z) : list Z :=
  match s with
  | [] => str "."
  | _ =>
      let t := strip_slashes s in
      match t with
      | [] => str "/"
      | _ => match strrchr 47 t with Some i => drop (S i) t | None => t end
      end
  end.

(** Two slashes at the start stay two. *)
Definition root_dir (last : nat) : list Z := if (last =? 1)%nat then str "//" else str "/".
Definition dirname (s : list Z) : list Z :=
  let t := strip_slashes s in
  match s, t with
  | [], _ => str "."
  | _, [] => root_dir (length s - 1)
  | _, _ =>
      match strrchr 47 t with
      | None => str "."
      | Some i => match strip_slashes (take i t) with [] => root_dir i | d => d end
      end
  end.

(** ** The formats *)

Inductive ImageFormat := ifRAW_FB0 | ifRAW_BUF | ifXBM | ifP1 | ifP4 | ifBMP | ifPNG.
#[export] Instance ImageFormat_eq_dec : EqDecision ImageFormat.
Proof. solve_decision. Defined.

Definition extension (fmt : ImageFormat) : list Z :=
  match fmt with
  | ifP1 | ifP4 => str ".pbm"
  | ifBMP => str ".bmp"
  | ifPNG => str ".png"
  | _ => str ".xbm"
  end.

(** [fullname], an array of 128 bytes. *)
Definition fullname (fmt : ImageFormat) (filename : list Z) : option (list Z) :=
  let path := dirname filename in
  let base := basename filename in
  let len := match strrchr 46 base with
             | Some i => u8 (Z.of_nat i)
             | None => u8 (zlen base)
             end in
  let name := path ++ str "/" ++ take (Z.to_nat len) base ++ extension fmt in
  if (length name <? 128)%nat then Some name else None.

(** The bits [k], [k - 1], ... of [b], [n] of them. *)
Fixpoint print_bits (n : nat) (b k : Z) : list Z :=
  match n with
  | O => []
  | S n => (if Z.land b (Z.shiftl 1 k) =? 0 then 48 else 49) :: 32 :: print_bits n b (k - 1)
  end.

(** A loop that reads one byte of the image a time and prints. *)
Definition print_bytes_of (data : list Z) (print : Z -> Z -> option (list Z)) (i : Z) (out : list Z)
    : option (list Z) :=
  b ← peek data i; l ← print i b; Some (out ++ l).

Definition p1_row (data : list Z) (bw width i : Z) (out : list Z) : option (list Z) :=
  out ← loop (Z.to_nat (bw - 1))
    (fun j => print_bytes_of data (fun _ b => b ← reverse_bits b; Some (print_bits 8 b 7)) (i * bw + j))
    0 out;
  let cnt := bw * 8 - width in
  out ← print_bytes_of data (fun _ b => b ← reverse_bits b; Some (print_bits (Z.to_nat (8 - cnt)) b 7))
    (i * bw + (bw - 1)) out;
  Some (out ++ [10]).

(** "%2.2X" of a byte. *)
Definition hex_upper (d : Z) : Z := if d <? 10 then 48 + d else 55 + d.
Definition fmt_2_2X (b : Z) : list Z := [hex_upper (b / 16); hex_upper (b mod 16)].

Definition define_line (base : list Z) (what : string) (v : Z) : list Z :=
  str "#define " ++ base ++ str what ++ str " " ++ digits 10 v ++ [10].

(** What goes into the file, and to the standard output. *)
Definition image_bytes (fmt : ImageFormat) (data base : list Z) (width height : Z)
    : option (list Z * list Z) :=
  let bw := (width + 7) / 8 in
  let header magic := str magic ++ [10] ++ digits 10 width ++ str " " ++ digits 10 height ++ [10] in
  match fmt with
  | ifP1 =>
      out ← loop (Z.to_nat height) (p1_row data bw width) 0 (header "P1"); Some (out, [])
  | ifP4 =>
      out ← loop (Z.to_nat (bw * height))
        (print_bytes_of data (fun _ b => b ← reverse_bits b; Some [b])) 0 (header "P4");
      Some (out, [])
  | ifBMP | ifPNG => Some ([], str "BMP and PNG image formats are not yet supported" ++ [10])
  | _ =>
      out ← loop (Z.to_nat (bw * height))
        (print_bytes_of data (fun i b =>
           Some (str "0x" ++ fmt_2_2X b ++ str "," ++ (if (i + 1) mod 12 =? 0 then [10] else []))))
        0 (define_line base "_width" width ++ define_line base "_height" height
           ++ str "static char " ++ base ++ str "_bits[] = {" ++ [10]);
      Some (out ++ str " };" ++ [10], [])
  end.

(** The files that are written, and the standard output. *)
Record saved := MkSaved { files : gmap (list Z) (list Z); stdout : list Z }.

Section writer.
(** Whether [fopen(name, "w")] succeeds. *)
Variable fopen_w : list Z -> bool.

(** [None]: [fullname] overflows, or the image is read outside of its bytes.
    Slashes at the end of [filename] are cut off by [basename], in place. *)
Definition _lcdWriteBytesToFile (fmt : ImageFormat) (data filename : list Z) (width height : Z)
    (w : saved) : option saved :=
  name ← fullname fmt filename;
  if fopen_w name then
    '(bytes, out) ← image_bytes fmt data (basename filename) width height;
    Some (MkSaved (<[name := bytes]> (files w)) (stdout w ++ out))
  else Some w.

Definition LcdWriteDisplayToFile (filename : list Z) (fmt : ImageFormat) (s : lcd) (w : saved)
    : option saved :=
  if negb (LcdInitialized s) then Some w else
  pSrc ← LcdGetDisplay s;
  _lcdWriteBytesToFile fmt pSrc filename 178 128 w.

(** The frame buffer is read into the display first. *)
Definition LcdWriteFrameBufferToFile (filename : list Z) (fmt : ImageFormat) (s : lcd) (w : saved)
    : option (lcd * saved) :=
  if negb (LcdInitialized s) then Some (s, w) else
  s ← LcdGetFrameBuffer s;
  pSrc ← LcdGetDisplay s;
  w ← _lcdWriteBytesToFile fmt pSrc filename 178 128 w; Some (s, w).
End writer.

(** [WriteToLcdDevice]: [write] gives the result of the call. *)
Definition WriteToLcdDevice (write : Z) (num_bytes : Z) (s : lcd) : Z :=
  if 0 <=? DispFile s then if 0 <=? write then num_bytes else write else -1.

(** ** A reader of the formats

    The width, the height and the rows of pixels of an image file. *)

Definition picture := list (list bool).

(** The pixels of rows of [bw] bytes; [pos] is where a byte has its pixels. *)
Definition raster (pos : Z -> Z) (bw width height : Z) (l : list Z) : picture :=
  map (fun y => map (fun x => Z.testbit (nth (Z.to_nat (y * bw + x / 8)) l 0) (pos (x mod 8)))
    (seqZ 0 width)) (seqZ 0 height).
Definition lsb_first (k : Z) : Z := k.
Definition msb_first (k : Z) : Z := 7 - k.

Definition read_number (l : list Z) : option (Z * list Z) :=
  match scan_dec None (skip_space l) with (Some v, l) => Some (v, l) | (None, _) => None end.

(** The characters 0 and 1, in any white space. *)
Fixpoint read_bits (n : nat) (l : list Z) : option (list bool * list Z) :=
  match n with
  | O => Some ([], l)
  | S n =>
      match l with
      | c :: l =>
          if (c =? 48) || (c =? 49) then
            '(bs, l) ← read_bits n (skip_space l); Some ((c =? 49) :: bs, l)
          else None
      | [] => None
      end
  end.
Fixpoint read_rows (h w : nat) (l : list Z) : option picture :=
  match h with
  | O => Some []
  | S h => '(r, l) ← read_bits w l; rs ← read_rows h w l; Some (r :: rs)
  end.

Definition read_pbm (magic : string) (raw : bool) (l : list Z) : option (Z * Z * picture) :=
  l ← match_lit (str magic) l;
  '(w, l) ← read_number l;
  '(h, l) ← read_number l;
  match l with
  | c :: l =>
      if negb (isspace c) then None else
      if raw then
        let bw := (w + 7) / 8 in
        if zlen l <? bw * h then None else Some (w, h, raster msb_first bw w h l)
      else p ← read_rows (Z.to_nat h) (Z.to_nat w) (skip_space l); Some (w, h, p)
  | [] => None
  end.

Fixpoint read_hexes (n : nat) (l : list Z) : option (list Z * list Z) :=
  match n with
  | O => Some ([], l)
  | S n =>
      l ← match_lit (str "0x") (skip_space l);
      match l with
      | a :: b :: l =>
          a ← hex_digit a; b ← hex_digit b; l ← match_lit (str ",") l;
          '(bs, l) ← read_hexes n l; Some (16 * a + b :: bs, l)
      | _ => None
      end
  end.
(** An identifier of C, and what is in front of [what] in one. *)
Definition is_ident_char (b : Z) : bool :=
  isdigit b || (b =? 95) || ((65 <=? b) && (b <=? 90)) || ((97 <=? b) && (b <=? 122)).
Fixpoint span_ident (l : list Z) : list Z * list Z :=
  match l with
  | b :: l' => if is_ident_char b then let '(w, r) := span_ident l' in (b :: w, r) else ([], l)
  | [] => ([], [])
  end.
Definition read_ident (l : list Z) : option (list Z * list Z) :=
  match span_ident l with
  | (b :: w, r) => if isdigit b then None else Some (b :: w, r)
  | ([], _) => None
  end.
Definition before_suffix (what : string) (w : list Z) : option (list Z) :=
  let n := (length w - length (str what))%nat in
  if decide (drop n w = str what) then Some (take n w) else None.

(** "#define <name><what> <number>". *)
Definition read_define (what : string) (l : list Z) : option (list Z * Z * list Z) :=
  l ← match_lit (str "#define ") l;
  '(w, l) ← read_ident l;
  name ← before_suffix what w;
  '(v, l) ← read_number l;
  Some (name, v, skip_space l).

(** A fragment of C: the identifiers say which number is the width and which the height,
    and all three belong to one image. *)
Definition read_xbm (l : list Z) : option (Z * Z * picture) :=
  '(name, w, l) ← read_define "_width" l;
  '(name2, h, l) ← read_define "_height" l;
  l ← match_lit (str "static char ") l;
  '(id, l) ← read_ident l;
  name3 ← before_suffix "_bits" id;
  if negb (bool_decide (name2 = name /\ name3 = name)) then None else
  l ← match_lit (str "[] = {") l;
  let bw := (w + 7) / 8 in
  '(bs, l) ← read_hexes (Z.to_nat (bw * h)) l;
  l ← match_lit (str "};") (skip_space l);
  Some (w, h, raster lsb_first bw w h bs).

Definition read_image (fmt : ImageFormat) (l : list Z) : option (Z * Z * picture) :=
  match fmt with
  | ifP1 => read_pbm "P1" false l
  | ifP4 => read_pbm "P4" true l
  | ifBMP | ifPNG => None
  | _ => read_xbm l
  end.

(** The image in memory. *)
Definition shown_picture (data : list Z) (width height : Z) : picture :=
  raster lsb_first ((width + 7) / 8) width height data.

(** ** Bits and characters *)

Definition reversed (b : Z) : Z := nth (Z.to_nat b) reverse_bits_table 0.

Lemma reverse_bits_eq b : byte_ok b -> reverse_bits b = Some (reversed b).
Proof.
  intros Hb. unfold reverse_bits, peek, reversed. unfold byte_ok in Hb. rewrite (proj2 (Z.ltb_ge _ _)) by lia.
  destruct (lookup_lt_is_Some_2 reverse_bits_table (Z.to_nat b)) as [x Hx].
  { change (length reverse_bits_table) with 256%nat. lia. }
  rewrite Hx. by erewrite nth_lookup_Some.
Qed.

Lemma reverse_table_ok :
  forallb (fun b => forallb (fun k => eqb (Z.testbit (reversed b) (7 - k)) (Z.testbit b k)) (seqZ 0 8))
    (seqZ 0 256) = true.
Proof. vm_compute. reflexivity. Qed.

(** The table reverses the bits of a byte. *)
Lemma testbit_rev b k : byte_ok b -> 0 <= k < 8 -> Z.testbit (reversed b) (7 - k) = Z.testbit b k.
Proof.
  intros Hb Hk. pose proof reverse_table_ok as H. rewrite forallb_forall in H.
  specialize (H b). rewrite forallb_forall in H. apply eqb_prop, H;
    apply list_elem_of_In, elem_of_seqZ; unfold byte_ok in Hb; lia.
Qed.

Definition bit_char (b : bool) : Z := if b then 49 else 48.
Definition plain (bs : list bool) : list Z := concat (map (fun b => [bit_char b; 32]) bs).

Lemma plain_app a b : plain (a ++ b) = plain a ++ plain b.
Proof. unfold plain. by rewrite map_app, concat_app. Qed.

Lemma map_seqZ_shift {A} (f : Z -> A) m n : map f (seqZ m n) = map (fun j => f (m + j)) (seqZ 0 n).
Proof.
  pose proof (fmap_add_seqZ m 0 n) as E. rewrite Z.add_0_r in E. rewrite <- E.
  apply (map_map (Z.add m) f).
Qed.

Lemma print_bits_plain n b k :
  Z.of_nat n <= k + 1 ->
  print_bits n b k = plain (map (fun j => Z.testbit b (k - j)) (seqZ 0 (Z.of_nat n))).
Proof.
  revert k. induction n as [|n IH]; intros k Hk; [done|]. cbn [print_bits].
  rewrite seqZ_cons by lia. replace (Z.pred (Z.of_nat (S n))) with (Z.of_nat n) by lia.
  cbn [map]. unfold plain at 1. cbn [map concat]. fold (plain (map (fun j => Z.testbit b (k - j)) (seqZ (Z.succ 0) (Z.of_nat n)))).
  rewrite IH by lia. rewrite Z.sub_0_r. cbn [app]. f_equal.
  - rewrite land_bit by lia. by destruct (Z.testbit b k).
  - f_equal. rewrite (map_seqZ_shift _ (Z.succ 0)). unfold plain. do 2 f_equal. apply map_ext.
    intros j. f_equal. lia.
Qed.

(** ** What the loops print *)

Lemma loop_appends (f : Z -> list Z) n (body : Z -> list Z -> option (list Z)) i out :
  (forall k out, i <= k < i + Z.of_nat n -> body k out = Some (out ++ f k)) ->
  loop n body i out = Some (out ++ concat (map f (seqZ i (Z.of_nat n)))).
Proof.
  revert i out. induction n as [|n IH]; intros i out Hf; cbn [loop].
  { cbn. by rewrite app_nil_r. }
  rewrite Hf by lia. cbn [mbind option_bind]. rewrite IH by (intros; apply Hf; lia).
  rewrite (seqZ_cons i (Z.of_nat (S n))) by lia.
  replace (Z.pred (Z.of_nat (S n))) with (Z.of_nat n) by lia.
  cbn [map concat]. by rewrite <- app_assoc.
Qed.

Lemma concat_map_concat {A B C} (g : B -> list C) (f : A -> list B) l :
  concat (map g (concat (map f l))) = concat (map (fun a => concat (map g (f a))) l).
Proof.
  induction l as [|a l IH]; [done|]. cbn [map concat]. by rewrite map_app, concat_app, IH.
Qed.

Lemma concat_singletons {A B} (g : A -> B) l : concat (map (fun a => [g a]) l) = map g l.
Proof. induction l as [|a l IH]; [done|]. cbn [map concat]. by rewrite IH. Qed.

Lemma seqZ_end m n : 0 <= n -> seqZ m (n + 1) = seqZ m n ++ [m + n].
Proof. intros. rewrite seqZ_app by lia. by rewrite (seqZ_cons (m + n) 1). Qed.

(** The bits of a row, byte by byte. *)
Lemma bits_bytewise {A} (h : Z -> Z -> A) m n :
  0 <= n <= 8 ->
  map (fun x => h (x / 8) (x mod 8)) (seqZ 0 (8 * Z.of_nat m + n))
  = concat (map (fun j => map (h j) (seqZ 0 8)) (seqZ 0 (Z.of_nat m)))
    ++ map (h (Z.of_nat m)) (seqZ 0 n).
Proof.
  assert (forall m n, 0 <= n <= 8 ->
    map (fun x => h (x / 8) (x mod 8)) (seqZ (8 * Z.of_nat m) n) = map (h (Z.of_nat m)) (seqZ 0 n))
    as Hrow.
  { intros m' n' Hn'. rewrite map_seqZ_shift. apply map_ext_in.
    intros x Hx%list_elem_of_In%elem_of_seqZ. f_equal; Z.div_mod_to_equations; lia. }
  intros Hn. rewrite seqZ_app by lia. rewrite map_app, Z.add_0_l, Hrow by done. f_equal.
  clear n Hn. induction m as [|m IH]; [done|].
  replace (8 * Z.of_nat (S m)) with (8 * Z.of_nat m + 8) by lia.
  rewrite seqZ_app by lia. rewrite map_app, Z.add_0_l, Hrow, IH by lia.
  replace (Z.of_nat (S m)) with (Z.of_nat m + 1) by lia.
  rewrite seqZ_end, map_app, concat_app, Z.add_0_l by lia. cbn [map concat]. by rewrite app_nil_r.
Qed.

Section image.
Variables (data base : list Z) (width height : Z).
Let bw := (width + 7) / 8.
Hypotheses (Hw : 0 < width < 256) (Hh : 0 <= height < 256).
Hypotheses (Hd : bytes_ok data) (Hl : bw * height <= zlen data).

Lemma bw_range : 0 < bw <= 32 /\ 0 <= width - 8 * (bw - 1) <= 8.
Proof. unfold bw. Z.div_mod_to_equations. lia. Qed.

Definition row_pixels (y : Z) : list bool :=
  map (fun x => Z.testbit (nth (Z.to_nat (y * bw + x / 8)) data 0) (x mod 8)) (seqZ 0 width).

Lemma index_ok y j : 0 <= y < height -> 0 <= j < bw -> 0 <= y * bw + j < zlen data.
Proof. pose proof bw_range. nia. Qed.

Lemma plain_byte i n : 0 <= i < zlen data -> 0 <= n <= 8 ->
  print_bits (Z.to_nat n) (reversed (nth (Z.to_nat i) data 0)) 7
  = plain (map (Z.testbit (nth (Z.to_nat i) data 0)) (seqZ 0 n)).
Proof.
  intros Hi Hn. rewrite print_bits_plain by lia. rewrite Z2Nat.id by lia. f_equal.
  apply map_ext_in. intros j Hj%list_elem_of_In%elem_of_seqZ.
  apply testbit_rev; [by apply nth_byte|lia].
Qed.

Lemma p1_row_eq y out :
  0 <= y < height -> p1_row data bw width y out = Some (out ++ plain (row_pixels y) ++ [10]).
Proof.
  intros Hy. pose proof bw_range as [Hb Hc]. unfold p1_row.
  rewrite (loop_appends (fun j => plain (map (Z.testbit (nth (Z.to_nat (y * bw + j)) data 0)) (seqZ 0 8)))).
  2: { intros j out' Hj. unfold print_bytes_of. rewrite peek_nth by (apply index_ok; lia).
       cbn [mbind option_bind]. rewrite reverse_bits_eq by by apply nth_byte.
       cbn [mbind option_bind]. change 8%nat with (Z.to_nat 8).
       by rewrite plain_byte by (apply index_ok || idtac; lia). }
  cbn [mbind option_bind]. cbv zeta. unfold print_bytes_of.
  rewrite peek_nth by (apply index_ok; lia). cbn [mbind option_bind].
  rewrite reverse_bits_eq by by apply nth_byte. cbn [mbind option_bind].
  rewrite plain_byte by (apply index_ok || idtac; lia). rewrite <- !app_assoc. f_equal. f_equal.
  unfold row_pixels. replace width with (8 * Z.of_nat (Z.to_nat (bw - 1)) + (8 - (bw * 8 - width))) at 2 by lia.
  rewrite (bits_bytewise (fun q => Z.testbit (nth (Z.to_nat (y * bw + q)) data 0))) by lia.
  rewrite plain_app, <- app_assoc. f_equal.
  - unfold plain. by rewrite concat_map_concat.
  - by rewrite Z2Nat.id by lia.
Qed.

Definition pbm_header (magic : string) : list Z :=
  str magic ++ [10] ++ digits 10 width ++ str " " ++ digits 10 height ++ [10].

Lemma p1_bytes :
  image_bytes ifP1 data base width height =
    Some (pbm_header "P1" ++ concat (map (fun y => plain (row_pixels y) ++ [10]) (seqZ 0 height)), []).
Proof.
  unfold image_bytes. cbv zeta. fold bw.
  rewrite (loop_appends (fun y => plain (row_pixels y) ++ [10])).
  2: { intros y out Hy. apply p1_row_eq. lia. }
  cbn [mbind option_bind]. by rewrite Z2Nat.id by lia.
Qed.

Lemma size_nonneg : 0 <= bw * height.
Proof. pose proof bw_range. nia. Qed.

Lemma p4_bytes :
  image_bytes ifP4 data base width height =
    Some (pbm_header "P4" ++ map (fun i => reversed (nth (Z.to_nat i) data 0)) (seqZ 0 (bw * height)), []).
Proof.
  pose proof size_nonneg. unfold image_bytes. cbv zeta. fold bw.
  rewrite (loop_appends (fun i => [reversed (nth (Z.to_nat i) data 0)])).
  2: { intros i out Hi. unfold print_bytes_of. rewrite peek_nth by lia. cbn [mbind option_bind].
       by rewrite reverse_bits_eq by by apply nth_byte. }
  cbn [mbind option_bind]. by rewrite Z2Nat.id, concat_singletons by lia.
Qed.

(** An entry of the array of an XBM file, with the end of its line. *)
Definition xbm_entry (i b : Z) : list Z :=
  str "0x" ++ fmt_2_2X b ++ str "," ++ (if (i + 1) mod 12 =? 0 then [10] else []).
Definition xbm_header : list Z :=
  define_line base "_width" width ++ define_line base "_height" height
  ++ str "static char " ++ base ++ str "_bits[] = {" ++ [10].

Lemma xbm_bytes fmt : extension fmt = str ".xbm" ->
  image_bytes fmt data base width height =
    Some ((xbm_header ++ concat (map (fun i => xbm_entry i (nth (Z.to_nat i) data 0)) (seqZ 0 (bw * height))))
          ++ str " };" ++ [10], []).
Proof.
  intros Hf. pose proof size_nonneg.
  assert (forall out, loop (Z.to_nat (bw * height))
        (print_bytes_of data (fun i b => Some (xbm_entry i b))) 0 out =
     Some (out ++ concat (map (fun i => xbm_entry i (nth (Z.to_nat i) data 0)) (seqZ 0 (bw * height))))) as E.
  { intros out. rewrite (loop_appends (fun i => xbm_entry i (nth (Z.to_nat i) data 0))).
    - by rewrite Z2Nat.id by lia.
    - intros i out' Hi. unfold print_bytes_of. by rewrite peek_nth by lia. }
  destruct fmt; try done; unfold image_bytes; cbv zeta; fold bw; unfold xbm_header, xbm_entry in *;
    by rewrite E.
Qed.
End image.

(** ** Reading it back *)

Lemma read_number_digits v sp c l :
  0 <= v < 256 -> isspace sp = true -> isdigit c = false ->
  read_number (sp :: digits 10 v ++ c :: l) = Some (v, c :: l).
Proof.
  intros Hv Hs Hc. unfold read_number. cbn [skip_space]. rewrite Hs.
  destruct (digits_word v) as [Hne Hall]; [lia|]. rewrite skip_space_word.
  - rewrite scan_dec_fmt; [done|lia|by rewrite Hc].
  - split; [done|]. eapply Forall_impl; [exact Hall|]. intros b Hb.
    unfold isdigit in Hb. unfold isspace. lia.
Qed.

Lemma read_bits_plain bs l :
  read_bits (length bs) (skip_space (plain bs ++ l)) =
    match bs with [] => Some ([], skip_space l) | _ => Some (bs, skip_space l) end.
Proof.
  induction bs as [|b bs IH]; [done|]. unfold plain in *. cbn [map concat length app].
  cbn [skip_space]. replace (isspace (bit_char b)) with false by (by destruct b).
  cbn [read_bits]. replace ((bit_char b =? 48) || (bit_char b =? 49)) with true by (by destruct b).
  cbn [skip_space]. change (isspace 32) with true. cbn match. rewrite IH.
  replace (bit_char b =? 49) with b by (by destruct b). by destruct bs.
Qed.

Lemma read_rows_plain w rows :
  Forall (fun r => length r = w) rows ->
  read_rows (length rows) w (skip_space (concat (map (fun r => plain r ++ [10]) rows))) = Some rows.
Proof.
  induction 1 as [|r rows Hr _ IH]; [done|]. cbn [map concat length read_rows].
  rewrite <- app_assoc, <- Hr, read_bits_plain.
  replace (match r with [] => _ | _ => _ end)
    with (Some (r, skip_space ([10] ++ concat (map (fun r => plain r ++ [10]) rows)))) by (by destruct r).
  cbn [mbind option_bind app skip_space]. change (isspace 10) with true. cbn match.
  by rewrite Hr, IH.
Qed.

Lemma hex_digit_upper d : 0 <= d < 16 -> hex_digit (hex_upper d) = Some d.
Proof.
  intros Hd. unfold hex_upper, hex_digit. destruct (Z.ltb_spec d 10).
  - rewrite (proj2 (Z.leb_le 48 _)), (proj2 (Z.leb_le _ 57)) by lia. cbn [andb]. f_equal. lia.
  - rewrite (proj2 (Z.leb_gt _ 57)), andb_false_r by lia.
    rewrite (proj2 (Z.leb_gt 97 _)), (proj2 (Z.leb_le 65 _)), (proj2 (Z.leb_le _ 70)) by lia.
    cbn [andb]. f_equal. lia.
Qed.

(** White space that the reader skips does not change what it reads. *)
Lemma skip_space_idem l : skip_space (skip_space l) = skip_space l.
Proof. induction l as [|b l IH]; [done|]. cbn [skip_space]. destruct (isspace b) eqn:E; [done|]. cbn [skip_space]. by rewrite E. Qed.

Lemma read_hexes_skip n l l' :
  skip_space l = skip_space l' -> (0 < n)%nat -> read_hexes n l = read_hexes n l'.
Proof. intros E Hn. destruct n as [|n]; [lia|]. cbn [read_hexes]. by rewrite E. Qed.

Lemma read_hexes_entries (f : Z -> Z) m n l :
  (forall i, byte_ok (f i)) ->
  exists l', read_hexes n (concat (map (fun i => xbm_entry i (f i)) (seqZ m (Z.of_nat n))) ++ l)
    = Some (map f (seqZ m (Z.of_nat n)), l') /\ skip_space l' = skip_space l.
Proof.
  intros Hf. revert m. induction n as [|n IH]; intros m; [by exists l|].
  rewrite (seqZ_cons m) by lia. replace (Z.pred (Z.of_nat (S n))) with (Z.of_nat n) by lia.
  destruct (IH (Z.succ m)) as (l' & Hr & Hl). clear IH.
  cbn [map concat read_hexes]. unfold xbm_entry at 1, fmt_2_2X.
  pose proof (Hf m) as Hb. unfold byte_ok in Hb.
  rewrite <- !app_assoc. change (str "0x") with [48; 120]. cbn [app skip_space].
  change (isspace 48) with false. cbn match.
  change (48 :: 120 :: ?t) with ([48; 120] ++ t). rewrite match_lit_app.
  cbn [mbind option_bind]. rewrite !hex_digit_upper by (Z.div_mod_to_equations; lia).
  cbn [mbind option_bind]. change (str ",") with [44]. cbn [app].
  change (44 :: ?t) with ([44] ++ t). rewrite match_lit_app. cbn [mbind option_bind].
  replace (16 * (f m / 16) + f m mod 16) with (f m) by (Z.div_mod_to_equations; lia).
  destruct ((m + 1) mod 12 =? 0); cbn [app]; [|rewrite Hr; by exists l'].
  destruct n as [|n].
  - cbn in Hr |- *. exists (10 :: l). done.
  - rewrite (read_hexes_skip (S n) (10 :: _) (concat (map (fun i => xbm_entry i (f i)) (seqZ (Z.succ m) (Z.of_nat (S n)))) ++ l)) by (done || lia).
    rewrite Hr. by exists l'.
Qed.

Lemma lookup_map_seqZ {A} (g : Z -> A) n i :
  0 <= i < n -> map g (seqZ 0 n) !! Z.to_nat i = Some (g i).
Proof.
  intros Hi. change (map g (seqZ 0 n)) with (g <$> seqZ 0 n).
  rewrite list_lookup_fmap, lookup_seqZ_lt by lia. cbn. do 2 f_equal. lia.
Qed.
Lemma nth_map_seqZ {A} (g : Z -> A) n i d : 0 <= i < n -> nth (Z.to_nat i) (map g (seqZ 0 n)) d = g i.
Proof. intros Hi. by apply nth_lookup_Some, lookup_map_seqZ. Qed.

Lemma raster_ext pos bw width height l f :
  0 < width -> bw = (width + 7) / 8 ->
  (forall i k, 0 <= i < bw * height -> 0 <= k < 8 ->
    Z.testbit (nth (Z.to_nat i) l 0) (pos k) = Z.testbit (f i) k) ->
  raster pos bw width height l
  = map (fun y => map (fun x => Z.testbit (f (y * bw + x / 8)) (x mod 8)) (seqZ 0 width)) (seqZ 0 height).
Proof.
  intros Hw Hbw Hf. unfold raster. apply map_ext_in. intros y Hy%list_elem_of_In%elem_of_seqZ.
  apply map_ext_in. intros x Hx%list_elem_of_In%elem_of_seqZ.
  assert (0 <= x / 8 < bw) by (subst bw; Z.div_mod_to_equations; lia).
  apply Hf; [nia|Z.div_mod_to_equations; lia].
Qed.

Section read_back.
Variables (data base : list Z) (width height : Z).
Let bw := (width + 7) / 8.
Hypotheses (Hw : 0 < width < 256) (Hh : 0 <= height < 256).
Hypotheses (Hd : bytes_ok data) (Hl : bw * height <= zlen data).

Lemma read_pbm_header magic raw l :
  read_pbm magic raw (pbm_header width height magic ++ l) =
    (if raw then
       if zlen l <? bw * height then None else Some (width, height, raster msb_first bw width height l)
     else p ← read_rows (Z.to_nat height) (Z.to_nat width) (skip_space l); Some (width, height, p)).
Proof.
  unfold read_pbm, pbm_header. rewrite <- !app_assoc, match_lit_app. cbn [mbind option_bind app].
  change (str " ") with [32]. cbn [app].
  rewrite read_number_digits by (done || lia). cbn [mbind option_bind].
  rewrite read_number_digits by (done || lia). cbn [mbind option_bind]. done.
Qed.

Lemma read_p1 : exists bytes,
  image_bytes ifP1 data base width height = Some (bytes, [])
  /\ read_image ifP1 bytes = Some (width, height, shown_picture data width height).
Proof.
  eexists. split; [by apply p1_bytes|]. cbn [read_image].
  rewrite read_pbm_header.
  rewrite <- (map_map (row_pixels data width) (fun r => plain r ++ [10])).
  assert (length (map (row_pixels data width) (seqZ 0 height)) = Z.to_nat height) as E
    by (by rewrite length_map, length_seqZ).
  rewrite <- E at 1. rewrite read_rows_plain; [done|].
  apply Forall_map, Forall_true. intros y. unfold row_pixels. by rewrite length_map, length_seqZ.
Qed.

Lemma read_p4 : exists bytes,
  image_bytes ifP4 data base width height = Some (bytes, [])
  /\ read_image ifP4 bytes = Some (width, height, shown_picture data width height).
Proof.
  pose proof (size_nonneg width height Hw Hh) as Hs. fold bw in Hs.
  eexists. split; [by apply p4_bytes|]. cbn [read_image].
  rewrite read_pbm_header. fold bw. rewrite (proj2 (Z.ltb_ge _ _)).
  2: { unfold zlen. rewrite length_map, length_seqZ. lia. }
  do 2 f_equal. unfold shown_picture, raster at 2. unfold lsb_first. fold bw.
  apply (raster_ext _ _ _ _ _ (fun i => nth (Z.to_nat i) data 0)); [lia|done|]. intros i k Hi Hk. unfold msb_first.
  rewrite nth_map_seqZ by done. apply testbit_rev; [by apply nth_byte|lia].
Qed.

(** A name that can be the front of an identifier. *)
Definition ident_ok (w : list Z) : Prop :=
  Forall (fun b => is_ident_char b = true) w /\ (match w with b :: _ => isdigit b | [] => true end) = false.

Lemma span_ident_app w l :
  Forall (fun b => is_ident_char b = true) w ->
  (match l with [] => false | b :: _ => is_ident_char b end) = false -> span_ident (w ++ l) = (w, l).
Proof.
  intros Hid Hnl. induction Hid as [|b w Hb _ IH]; cbn [app span_ident].
  - destruct l as [|b l]; [done|]. cbn [span_ident]. by rewrite Hnl.
  - by rewrite Hb, IH.
Qed.

Lemma read_ident_app w what l :
  ident_ok w -> forallb is_ident_char (str what) = true ->
  (match l with [] => false | b :: _ => is_ident_char b end) = false ->
  (match str what with b :: _ => isdigit b | [] => true end) = false ->
  read_ident (w ++ str what ++ l) = Some (w ++ str what, l).
Proof.
  intros [Hid Hfirst] Hs Hnl Hd2. unfold read_ident.
  rewrite (app_assoc w), span_ident_app; [|apply Forall_app|done].
  - destruct w as [|b w]; [|cbn [app]; by rewrite Hfirst]. cbn [app].
    destruct (str what) as [|b ws]; [done|]. by rewrite Hd2.
  - split; [done|]. apply Forall_forall. intros b Hb. rewrite forallb_forall in Hs.
    by apply Hs, list_elem_of_In.
Qed.

Lemma before_suffix_app what w : before_suffix what (w ++ str what) = Some w.
Proof.
  unfold before_suffix. rewrite length_app, Nat.add_sub, drop_app_length, take_app_length.
  by rewrite decide_True.
Qed.

Lemma read_define_line what v l :
  ident_ok base -> forallb is_ident_char (str what) = true ->
  (match str what with b :: _ => isdigit b | [] => true end) = false ->
  0 <= v < 256 -> (match l with [] => false | b :: _ => negb (isspace b) end = true) ->
  read_define what (define_line base what v ++ l) = Some (base, v, l).
Proof.
  intros Hb Hwh Hwd Hv Hnl. unfold read_define, define_line.
  rewrite <- !app_assoc, match_lit_app. cbn [mbind option_bind].
  rewrite read_ident_app by done. cbn [mbind option_bind]. rewrite before_suffix_app.
  change (str " ") with [32]. cbn [app mbind option_bind]. rewrite read_number_digits by done.
  cbn [mbind option_bind skip_space]. change (isspace 10) with true. cbn match.
  destruct l as [|b l]; [done|]. cbn [skip_space]. by destruct (isspace b).
Qed.

Lemma read_xbm_bytes fmt :
  extension fmt = str ".xbm" -> ident_ok base -> exists bytes,
  image_bytes fmt data base width height = Some (bytes, [])
  /\ read_image fmt bytes = Some (width, height, shown_picture data width height).
Proof.
  intros Hf Hb. pose proof (size_nonneg width height Hw Hh) as Hs. fold bw in Hs.
  eexists. split; [by apply xbm_bytes|].
  match goal with |- read_image _ ?l = _ => assert (read_image fmt l = read_xbm l) as -> by (by destruct fmt) end.
  unfold read_xbm, xbm_header. rewrite <- !app_assoc.
  do 2 (rewrite read_define_line by (done || lia); cbn [mbind option_bind]).
  rewrite match_lit_app. cbn [mbind option_bind].
  change (str "_bits[] = {") with (str "_bits" ++ str "[] = {"). rewrite <- !app_assoc.
  rewrite read_ident_app by done. cbn [mbind option_bind]. rewrite before_suffix_app.
  cbn [mbind option_bind]. rewrite bool_decide_eq_true_2 by done. cbn [negb].
  rewrite match_lit_app. cbn [mbind option_bind]. cbv zeta. fold bw.
  set (tail := str " };" ++ [10]).
  destruct (read_hexes_entries (fun i => nth (Z.to_nat i) data 0) 0 (Z.to_nat (bw * height)) tail)
    as (l' & Hr & Hl'); [intros; by apply nth_byte|]. rewrite Z2Nat.id in Hr by lia.
  assert (exists l'', read_hexes (Z.to_nat (bw * height)) ([10] ++
    concat (map (fun i => xbm_entry i (nth (Z.to_nat i) data 0)) (seqZ 0 (bw * height))) ++ tail)
    = Some (map (fun i => nth (Z.to_nat i) data 0) (seqZ 0 (bw * height)), l'')
    /\ skip_space l'' = skip_space tail) as (l'' & -> & Hl'').
  { destruct (Z.to_nat (bw * height)) as [|n] eqn:E.
    - replace (bw * height) with 0 by lia. by eexists.
    - rewrite (read_hexes_skip (S n) _ (concat (map (fun i => xbm_entry i (nth (Z.to_nat i) data 0))
        (seqZ 0 (bw * height))) ++ tail)) by (done || lia). rewrite Hr. by exists l'. }
  cbn [mbind option_bind]. rewrite Hl''. change (skip_space tail) with (str "};" ++ [10]).
  rewrite match_lit_app. cbn [mbind option_bind]. do 2 f_equal.
  unfold shown_picture, raster at 2. fold bw.
  apply (raster_ext _ _ _ _ _ (fun i => nth (Z.to_nat i) data 0)); [lia|done|].
  intros i k Hi Hk. by rewrite nth_map_seqZ.
Qed.
End read_back.

(** ** The theorems *)

Section theorems.
Variable fopen_w : list Z -> bool.

(** For XBM the last component of the name, which the writer puts in front of its
    identifiers as it is, has to be an identifier itself: "shot", and not "shot.xbm". *)
Definition name_ok (fmt : ImageFormat) (filename : list Z) : Prop :=
  extension fmt = str ".xbm" -> ident_ok (basename filename).

Lemma written_image fmt data filename width height name w :
  0 < width < 256 -> 0 <= height < 256 -> bytes_ok data ->
  (width + 7) / 8 * height <= zlen data -> fmt <> ifBMP -> fmt <> ifPNG ->
  name_ok fmt filename -> fullname fmt filename = Some name -> fopen_w name = true ->
  exists bytes,
    _lcdWriteBytesToFile fopen_w fmt data filename width height w
      = Some (MkSaved (<[name := bytes]> (files w)) (stdout w))
    /\ read_image fmt bytes = Some (width, height, shown_picture data width height).
Proof.
  intros Hw Hh Hd Hl H1 H2 Hn Hname Hop. unfold _lcdWriteBytesToFile. rewrite Hname.
  cbn [mbind option_bind]. rewrite Hop.
  assert (exists bytes, image_bytes fmt data (basename filename) width height = Some (bytes, [])
    /\ read_image fmt bytes = Some (width, height, shown_picture data width height))
    as (bytes & -> & Hr).
  { destruct fmt; try done; [apply (read_xbm_bytes _ _ _ _ Hw Hh Hd Hl); by auto..| |].
    - by apply read_p1.
    - by apply read_p4. }
  exists bytes. cbn [mbind option_bind]. by rewrite app_nil_r.
Qed.

Lemma shown_picture_pixel p x y :
  image_ok p -> on_screen x y = true ->
  exists row b, shown_picture p 178 128 !! Z.to_nat y = Some row /\ row !! Z.to_nat x = Some b
    /\ dLcdReadPixel p x y = Some (if b : bool then 1 else 0).
Proof.
  intros Hp Hs. pose proof (screen_spec _ _ Hs) as [Hx Hy]. unfold shown_picture, raster.
  do 2 eexists. split; [by apply lookup_map_seqZ|]. split; [by apply lookup_map_seqZ|].
  rewrite read_pixel by done. unfold pixel, lsb_first. by rewrite Z.add_comm.
Qed.

(** C15: Saving the open display as a PBM file, plain or raw, or as an XBM file, and reading
    that file as its format says gives 178 by 128 pixels, each the one `dLcdReadPixel` reads
    from the display; nothing else is written. The name of the file fits its array of 128
    bytes and can be opened; for XBM its last component is a C identifier (`shot`; not
    `shot.xbm`, whose identifiers no reader accepts: LcdImage.xbm_identifier_has_dot). *)
Theorem display_saved fmt filename name s w :
  LcdInitialized s = true -> pLcd s = true -> image_ok (displayBuf s) ->
  fmt <> ifBMP -> fmt <> ifPNG -> name_ok fmt filename -> fullname fmt filename = Some name ->
  fopen_w name = true ->
  exists bytes rows,
    LcdWriteDisplayToFile fopen_w filename fmt s w
      = Some (MkSaved (<[name := bytes]> (files w)) (stdout w))
    /\ read_image fmt bytes = Some (178, 128, rows)
    /\ forall x y, on_screen x y = true -> exists row b,
         rows !! Z.to_nat y = Some row /\ row !! Z.to_nat x = Some b
         /\ dLcdReadPixel (displayBuf s) x y = Some (if b : bool then 1 else 0).
Proof.
  intros Hi Hp Hok H1 H2 Hn Hname Hop. unfold LcdWriteDisplayToFile, LcdGetDisplay. rewrite Hi, Hp.
  cbn [negb andb mbind option_bind].
  destruct (written_image fmt (displayBuf s) filename 178 128 name w) as (bytes & -> & Hr);
    try done; [apply Hok|destruct Hok as [_ ->]; by apply Z.leb_le|].
  exists bytes, (shown_picture (displayBuf s) 178 128). split; [done|]. split; [done|].
  intros x y. by apply shown_picture_pixel.
Qed.

(** Saving the frame buffer while it shows an image writes that image, and leaves the display
    buffer with its pixels: the frame buffer is read back into the display. *)
Theorem frame_buffer_saved fmt filename name s p fb w :
  LcdInitialized s = true -> pLcd s = true -> image_ok p -> lcdToFrameBuffer p = Some fb ->
  pFB0 s = Some fb -> fmt <> ifBMP -> fmt <> ifPNG -> name_ok fmt filename ->
  fullname fmt filename = Some name -> fopen_w name = true ->
  exists s' bytes rows,
    LcdWriteFrameBufferToFile fopen_w filename fmt s w
      = Some (s', MkSaved (<[name := bytes]> (files w)) (stdout w))
    /\ read_image fmt bytes = Some (178, 128, rows)
    /\ forall x y, on_screen x y = true ->
         dLcdReadPixel (displayBuf s') x y = dLcdReadPixel p x y
         /\ exists row b, rows !! Z.to_nat y = Some row /\ row !! Z.to_nat x = Some b
              /\ dLcdReadPixel p x y = Some (if b : bool then 1 else 0).
Proof.
  intros Hi Hp Hok Hfb HFB H1 H2 Hn Hname Hop.
  destruct (fb_roundtrip p Hok) as (fb' & q & Hfb' & Hq & Hqok & Hpix). simplify_eq.
  unfold LcdWriteFrameBufferToFile, LcdGetFrameBuffer. rewrite Hi, HFB, Hp, Hq.
  cbn [negb mbind option_bind]. set (s' := set_display q (set_hw fb s)).
  assert (LcdGetDisplay s' = Some q) as Hg.
  { unfold LcdGetDisplay. change (LcdInitialized s') with (LcdInitialized s).
    change (pLcd s') with (pLcd s). by rewrite Hi, Hp. }
  rewrite Hg. cbn [mbind option_bind].
  destruct (written_image fmt q filename 178 128 name w) as (bytes & -> & Hr);
    try done; [apply Hqok|destruct Hqok as [_ ->]; by apply Z.leb_le|].
  cbn [mbind option_bind]. exists s', bytes, (shown_picture q 178 128).
  split; [done|]. split; [done|]. intros x y Hs. split; [by apply Hpix|].
  rewrite <- Hpix by done. by apply shown_picture_pixel.
Qed.

(** BMP and PNG are refused after the file was opened: an empty file is left. *)
Theorem unsupported_leaves_empty fmt filename name s w :
  fmt = ifBMP \/ fmt = ifPNG -> LcdInitialized s = true -> pLcd s = true ->
  fullname fmt filename = Some name -> fopen_w name = true ->
  exists out, LcdWriteDisplayToFile fopen_w filename fmt s w
    = Some (MkSaved (<[name := []]> (files w)) (stdout w ++ out)).
Proof.
  intros Hf Hi Hp Hname Hop. unfold LcdWriteDisplayToFile, LcdGetDisplay, _lcdWriteBytesToFile.
  rewrite Hi, Hp, Hname. cbn [negb andb mbind option_bind]. rewrite Hop.
  destruct Hf as [-> | ->]; by eexists.
Qed.

(** The path is copied into an array of 128 bytes without a check. *)
Theorem long_name_overflows fmt filename s w :
  LcdInitialized s = true -> pLcd s = true -> (128 <= length (dirname filename))%nat ->
  LcdWriteDisplayToFile fopen_w filename fmt s w = None.
Proof.
  intros Hi Hp Hl. unfold LcdWriteDisplayToFile, LcdGetDisplay, _lcdWriteBytesToFile, fullname.
  rewrite Hi, Hp. cbn [negb andb mbind option_bind]. cbv zeta.
  rewrite (proj2 (Nat.ltb_ge _ _)); [done|]. rewrite length_app. lia.
Qed.
End theorems.

Example fullname_plain : fullname ifP4 (str "shot.png") = Some (str "./shot.pbm").
Proof. reflexivity. Qed.
Example fullname_dir : fullname ifXBM (str "/media/card/shot") = Some (str "/media/card/shot.xbm").
Proof. reflexivity. Qed.
Example dirname_root : (dirname (str "//shot"), dirname (str "a//b/"), basename (str "a//b/"))
  = (str "//", str "a", str "b").
Proof. reflexivity. Qed.

(** The identifiers of an XBM file keep the extension of the name, and then are none: the
    file cannot be read. *)
Definition dotted_xbm : list Z :=
  str "#define shot.xbm_width 8" ++ [10] ++ str "#define shot.xbm_height 1" ++ [10]
  ++ str "static char shot.xbm_bits[] = {" ++ [10] ++ str "0xA5, };" ++ [10].
Example xbm_identifier_has_dot :
  image_bytes ifXBM [165] (basename (str "shot.xbm")) 8 1 = Some (dotted_xbm, [])
  /\ read_image ifXBM dotted_xbm = None.
Proof. by vm_compute. Qed.
