(* ===== verification/LcdDraw.v ===== *)
(** * LcdDraw: lines, rectangles and ellipses (src/util/cat/ev3_lcd.c)

    The [Display] functions work on the display buffer with coordinates of one
    byte, row 0 on top; the [Cmd] functions have [int] coordinates, row 0 at the
    bottom, and clip.  An [int] that overflows is [None]. *)

From S2P Require Import Prelude Timer Lcd.

Definition DRAW_PIXELS_SET : Z := 0x00.
Definition DRAW_PIXELS_CLEAR : Z := 0x01.
Definition DRAW_PIXELS_INVERT : Z := 0x02.
Definition DRAW_SHAPE_HOLLOW : Z := 0x00.
Definition DRAW_SHAPE_FILLED : Z := 0x01.

Definition int (z : Z) : option Z :=
  if (- 2 ^ 31 <=? z) && (z <? 2 ^ 31) then Some z else None.
Definition ABS (a : Z) : Z := if a <? 0 then - a else a.
Definition SGN (a : Z) : Z := if a <? 0 then -1 else 1.
Definition TRANSLATE_Y (Y : Z) : Z := LCD_HEIGHT - 1 - Y.

Definition Masks : list Z := [0x00; 0x01; 0x03; 0x07; 0x0f; 0x1f; 0x3f; 0x7f; 0xff].
Definition mask (i : Z) : Z := nth (Z.to_nat i) Masks 0.

(** ** The display *)

(** [switch (PixelMode)]: invert, clear or set the bits of [M] in [b]. *)
Definition apply_mode (PixelMode b M : Z) : Z :=
  if PixelMode =? DRAW_PIXELS_INVERT then Z.lxor b M
  else if PixelMode =? DRAW_PIXELS_CLEAR then Z.land b (Z.lnot M)
  else Z.lor b M.
Definition mask_at (PixelMode i M : Z) (p : list Z) : option (list Z) :=
  b ← peek p i; poke p i (apply_mode PixelMode b M).

(** [draw; LCDInstance.Dirty = true;] *)
Definition display (draw : list Z -> option (list Z)) (s : lcd) : option lcd :=
  s ← on_display draw s; Some (set_dirty true s).

Definition DisplayLineHeight (s : lcd) : option Z := dLcdGetFontHeight (currentFont s).
Definition DisplayEraseLine (Line : Z) (s : lcd) : option lcd :=
  h ← DisplayLineHeight s;
  let cnt := h * LCD_BYTE_WIDTH in
  display (fun p => fill p (Line * cnt) 0 cnt) s.
Definition DisplayErase : lcd -> option lcd := display (fun p => fill p 0 0 LCD_BUFFER_SIZE).

(** The three pixel functions differ in the operator. *)
Definition display_pixel (PixelMode X Y : Z) (s : lcd) : option lcd :=
  if (X <? LCD_WIDTH) && (Y <? LCD_HEIGHT) then
    display (mask_at PixelMode (X / 8 + LCD_BYTE_WIDTH * Y) (Z.shiftl 1 (X mod 8))) s
  else Some s.
Definition DisplaySetPixel : Z -> Z -> lcd -> option lcd := display_pixel DRAW_PIXELS_SET.
Definition DisplayClrPixel : Z -> Z -> lcd -> option lcd := display_pixel DRAW_PIXELS_CLEAR.
Definition DisplayXorPixel : Z -> Z -> lcd -> option lcd := display_pixel DRAW_PIXELS_INVERT.

(** The bits of the byte at [X] between [X1] and [X2]. *)
Definition column_mask (X X1 X2 : Z) : Z :=
  let M := 0xff in
  let M := if X <? X1 then Z.land M (Z.lnot (mask (X1 mod 8))) else M in
  if X2 - X <? 8 then Z.land M (mask (X2 mod 8 + 1)) else M.

(** [for (Y = Y1; Y <= Y2; Y++)] in the byte column [c]. *)
Definition fill_column (PixelMode c M Y1 Y2 : Z) : list Z -> option (list Z) :=
  loop (Z.to_nat (Y2 - Y1 + 1)) (fun Y => mask_at PixelMode (c + LCD_BYTE_WIDTH * Y) M) Y1.

(** [while (X <= X2)]: there are 23 byte columns. *)
Fixpoint fill_columns (fuel : nat) (PixelMode X X1 X2 Y1 Y2 : Z) (p : list Z)
    : option (list Z) :=
  match fuel with
  | O => None
  | S fuel =>
      if X <=? X2 then
        p ← fill_column PixelMode (X / 8) (column_mask X X1 X2) Y1 Y2 p;
        fill_columns fuel PixelMode (u8 (X + 8)) X1 X2 Y1 Y2 p
      else Some p
  end.
Definition fill_region (PixelMode X1 X2 Y1 Y2 : Z) : list Z -> option (list Z) :=
  fill_columns 24 PixelMode (X1 / 8 * 8) X1 X2 Y1 Y2.

Definition DisplayFillScreen (StartX StartY PixelsX PixelsY PixelMode : Z) : lcd -> option lcd :=
  let X2 := u8 (StartX + PixelsX - 1) in
  let Y2 := u8 (StartY + PixelsY - 1) in
  let X2 := if LCD_WIDTH - 1 <? X2 then LCD_WIDTH - 1 else X2 in
  let Y2 := if LCD_HEIGHT - 1 <? Y2 then LCD_HEIGHT - 1 else Y2 in
  display (fill_region PixelMode StartX X2 StartY Y2).

(** The columns of one row; row 128 is not refused. *)
Definition DisplayLineX (X1 X2 Y PixelMode : Z) (s : lcd) : option lcd :=
  if LCD_HEIGHT <? Y then Some s else
  let '(X1, X2) := if X2 <? X1 then (X2, X1) else (X1, X2) in
  let X2 := if LCD_WIDTH - 1 <? X2 then LCD_WIDTH - 1 else X2 in
  display (fill_region PixelMode X1 X2 Y Y) s.

Definition DisplayLineY (X Y1 Y2 PixelMode : Z) (s : lcd) : option lcd :=
  if LCD_WIDTH <? X then Some s else
  let '(Y1, Y2) := if Y2 <? Y1 then (Y2, Y1) else (Y1, Y2) in
  let Y2 := if LCD_HEIGHT - 1 <? Y2 then LCD_HEIGHT - 1 else Y2 in
  display (fill_column PixelMode (X / 8) (Z.shiftl 1 (X mod 8)) Y1 Y2) s.

Definition DisplayFrame (StartX StartY PixelsX PixelsY PixelMode : Z) (s : lcd) : option lcd :=
  s ← DisplayLineX StartX (u8 (StartX + PixelsX - 1)) StartY PixelMode s;
  s ← (if 1 <? PixelsY then
         s ← DisplayLineY StartX (u8 (StartY + 1)) (u8 (StartY + PixelsY - 1)) PixelMode s;
         DisplayLineY (u8 (StartX + PixelsX - 1)) (u8 (StartY + 1)) (u8 (StartY + PixelsY - 1))
           PixelMode s
       else Some s);
  Some (set_dirty true s).

Inductive DISPLAY :=
| DISPLAY_ERASE_ALL | DISPLAY_PIXEL | DISPLAY_HORIZONTAL_LINE | DISPLAY_VERTICAL_LINE
| DISPLAY_CHAR | DISPLAY_ERASE_LINE | DISPLAY_FILL_REGION | DISPLAY_FRAME.

Definition DisplayDraw (Cmd : DISPLAY) (PixelMode X1 Y1 X2 Y2 : Z) (s : lcd) : option lcd :=
  if negb (LcdInitialized s) then Some s else
  match Cmd with
  | DISPLAY_ERASE_ALL => DisplayErase s
  | DISPLAY_PIXEL =>
      if PixelMode =? DRAW_PIXELS_INVERT then DisplayXorPixel X1 Y1 s
      else if PixelMode =? DRAW_PIXELS_CLEAR then DisplayClrPixel X1 Y1 s
      else DisplaySetPixel X1 Y1 s
  | DISPLAY_HORIZONTAL_LINE => DisplayLineX X1 X2 Y1 PixelMode s
  | DISPLAY_VERTICAL_LINE => DisplayLineY X1 Y1 Y2 PixelMode s
  | DISPLAY_CHAR => Some s
  | DISPLAY_ERASE_LINE => DisplayEraseLine X1 s
  | DISPLAY_FILL_REGION => DisplayFillScreen X1 Y1 X2 Y2 PixelMode s
  | DISPLAY_FRAME => DisplayFrame X1 Y1 X2 Y2 PixelMode s
  end.

(** ** Options *)

Definition DRAW_OPT_INVERT : Z := 0x0004.
Definition DRAW_OPT_LOGICAL_COPY : Z := 0x0000.
Definition DRAW_OPT_LOGICAL_AND : Z := 0x0008.
Definition DRAW_OPT_LOGICAL_OR : Z := 0x0010.
Definition DRAW_OPT_LOGICAL_XOR : Z := 0x0018.
Definition DRAW_OPT_FILL_SHAPE : Z := 0x0020.
Definition DRAW_OPT_LOGICAL_OPERATIONS : Z := 0x0018.

(** The pixel mode, the fill mode and whether there is something to draw. *)
Definition CmdResolveDrawingMode (DrawingOptions : Z) : Z * Z * bool :=
  let fillMode := if Z.land DrawingOptions DRAW_OPT_FILL_SHAPE =? 0
                  then DRAW_SHAPE_HOLLOW else DRAW_SHAPE_FILLED in
  let op := Z.land DrawingOptions DRAW_OPT_LOGICAL_OPERATIONS in
  let nothing := (DRAW_PIXELS_SET, DRAW_SHAPE_HOLLOW, false) in
  if negb (Z.land DrawingOptions DRAW_OPT_INVERT =? 0) then
    if (op =? DRAW_OPT_LOGICAL_COPY) || (op =? DRAW_OPT_LOGICAL_AND)
    then (DRAW_PIXELS_CLEAR, fillMode, true) else nothing
  else if (op =? DRAW_OPT_LOGICAL_COPY) || (op =? DRAW_OPT_LOGICAL_OR)
  then (DRAW_PIXELS_SET, fillMode, true)
  else if op =? DRAW_OPT_LOGICAL_XOR then (DRAW_PIXELS_INVERT, fillMode, true)
  else nothing.

(** ** Drawing with clipping *)

Definition CmdSetPixel (X Y PixelMode : Z) (s : lcd) : option lcd :=
  Y ← int (TRANSLATE_Y Y);
  if on_screen X Y then DisplayDraw DISPLAY_PIXEL PixelMode (u8 X) (u8 Y) 0 0 s else Some s.

(** [(k * p) / q], or 0 on a line along an axis. *)
Definition scaled (k p q : Z) : option Z :=
  if negb (p =? 0) && negb (q =? 0) then k ← int k; m ← int (k * p); int (Z.quot m q)
  else Some 0.

(** The loops of a line that is not along an axis; [fuel] is the number of its
    points. *)
Definition line_pixel (PixelMode x y : Z) (s : lcd) : option lcd :=
  Y ← int (TRANSLATE_Y y); DisplayDraw DISPLAY_PIXEL PixelMode (u8 x) (u8 Y) 0 0 s.

Fixpoint line_x (fuel : nat) (PixelMode x y d x2 ax ay sx sy : Z) (s : lcd) : option lcd :=
  match fuel with
  | O => None
  | S fuel =>
      s ← line_pixel PixelMode x y s;
      if x =? x2 then Some s else
      let '(y, d) := if 0 <=? d then (y + sy, d - ax) else (y, d) in
      line_x fuel PixelMode (x + sx) y (d + ay) x2 ax ay sx sy s
  end.
Fixpoint line_y (fuel : nat) (PixelMode x y d y2 ax ay sx sy : Z) (s : lcd) : option lcd :=
  match fuel with
  | O => None
  | S fuel =>
      s ← line_pixel PixelMode x y s;
      if y =? y2 then Some s else
      let '(x, d) := if 0 <=? d then (x + sx, d - ay) else (x, d) in
      line_y fuel PixelMode x (y + sy) (d + ax) y2 ax ay sx sy s
  end.

(** From the clipped end points on. *)
Definition draw_clipped (x1 y1 x2 y2 PixelMode : Z) (s : lcd) : option lcd :=
  if x1 =? x2 then
    if y1 =? y2 then line_pixel PixelMode x1 y1 s
    else
      Y1 ← int (TRANSLATE_Y y1);
      Y2 ← int (TRANSLATE_Y y2);
      DisplayDraw DISPLAY_VERTICAL_LINE PixelMode (u8 x1) (u8 Y1) 0 (u8 Y2) s
  else if y1 =? y2 then
    Y1 ← int (TRANSLATE_Y y1);
    DisplayDraw DISPLAY_HORIZONTAL_LINE PixelMode (u8 x1) (u8 Y1) (u8 x2) 0 s
  else
    dx ← int (x2 - x1);
    dy ← int (y2 - y1);
    ax ← int (2 * ABS dx);
    ay ← int (2 * ABS dy);
    if ay <? ax then
      line_x (S (Z.to_nat (ABS dx))) PixelMode x1 y1 (ay - Z.shiftr ax 1) x2 ax ay (SGN dx)
        (SGN dy) s
    else
      line_y (S (Z.to_nat (ABS dy))) PixelMode x1 y1 (ax - Z.shiftr ay 1) y2 ax ay (SGN dx)
        (SGN dy) s.

Definition CmdDrawLine (x1 y1 x2 y2 PixelMode : Z) (s : lcd) : option lcd :=
  dx ← int (x2 - x1);
  dy ← int (y2 - y1);
  let '(x1, y1, x2, y2) := if y2 <? y1 then (x2, y2, x1, y1) else (x1, y1, x2, y2) in
  if (y2 <? 0) || (LCD_HEIGHT <=? y1) then Some s else
  x1 ← (if y1 <? 0 then k ← scaled (0 - y1) dx dy; int (x1 + k) else Some x1);
  let y1 := Z.max 0 y1 in
  x2 ← (if LCD_HEIGHT - 1 <? y2 then k ← scaled (y2 - (LCD_HEIGHT - 1)) dx dy; int (x2 - k)
        else Some x2);
  let y2 := Z.min (LCD_HEIGHT - 1) y2 in
  let '(x1, y1, x2, y2) := if x2 <? x1 then (x2, y2, x1, y1) else (x1, y1, x2, y2) in
  if (x2 <? 0) || (LCD_WIDTH <=? x1) then Some s else
  y1 ← (if x1 <? 0 then k ← scaled (0 - x1) dy dx; int (y1 + k) else Some y1);
  let x1 := Z.max 0 x1 in
  y2 ← (if LCD_WIDTH - 1 <? x2 then k ← scaled (x2 - (LCD_WIDTH - 1)) dy dx; int (y2 - k)
        else Some y2);
  let x2 := Z.min (LCD_WIDTH - 1) x2 in
  draw_clipped x1 y1 x2 y2 PixelMode s.

Definition CmdDrawRect (left bottom width height PixelMode FillMode : Z) (s : lcd) : option lcd :=
  x2 ← int (left + width);
  y2 ← int (bottom + height);
  let '(x1, x2) := if x2 <? left then (x2, left) else (left, x2) in
  let '(y1, y2) := if y2 <? bottom then (y2, bottom) else (bottom, y2) in
  if (y2 =? y1) || (x2 =? x1) then CmdDrawLine x1 y1 x2 y2 PixelMode s
  else if FillMode =? DRAW_SHAPE_FILLED then
    if (x2 <? 0) || (y2 <? 0) || (LCD_WIDTH - 1 <? x1) || (LCD_HEIGHT - 1 <? y1) then Some s else
    let x1 := if x1 <? 0 then 0 else x1 in
    let y1 := if y1 <? 0 then 0 else y1 in
    let x2 := if LCD_WIDTH - 1 <? x2 then LCD_WIDTH - 1 else x2 in
    let y2 := if LCD_HEIGHT - 1 <? y2 then LCD_HEIGHT - 1 else y2 in
    DisplayDraw DISPLAY_FILL_REGION PixelMode (u8 x1) (u8 (TRANSLATE_Y y2)) (u8 (x2 - x1 + 1))
      (u8 (y2 - y1 + 1)) s
  else
    s ← CmdDrawLine x1 y1 x2 y1 PixelMode s;
    if y1 <? y2 then
      s ← CmdDrawLine x1 y2 x2 y2 PixelMode s;
      if y1 + 1 <? y2 then
        s ← CmdDrawLine x2 (y1 + 1) x2 (y2 - 1) PixelMode s;
        if x1 <? x2 then CmdDrawLine x1 (y1 + 1) x1 (y2 - 1) PixelMode s else Some s
      else Some s
    else Some s.

(** The variables of the ellipse loop: shorts, unsigned shorts and ints. *)
Record ellipse := MkEllipse {
  e_x : Z; e_y : Z; e_rx : Z; e_ry : Z;
  e_width : Z; e_height : Z;
  e_t : Z; e_dxt : Z; e_dyt : Z;
}.

Section ellipse.
Context (xc yc a b PixelMode FillMode : Z).
Let a2 : Z := a * a.
Let b2 : Z := b * b.
Let crit1 : Z := - (Z.quot a2 4 + Z.rem a 2 + b2).
Let crit2 : Z := - (Z.quot b2 4 + Z.rem b 2 + a2).
Let crit3 : Z := - (Z.quot b2 4 + Z.rem b 2).

Definition ellipse_points (e : ellipse) (s : lcd) : option lcd :=
  let x := e_x e in
  let y := e_y e in
  s ← CmdSetPixel (xc + x) (yc + y) PixelMode s;
  s ← (if negb (x =? 0) || negb (y =? 0) then CmdSetPixel (xc - x) (yc - y) PixelMode s
       else Some s);
  if negb (x =? 0) && negb (y =? 0) then
    s ← CmdSetPixel (xc + x) (yc - y) PixelMode s;
    CmdSetPixel (xc - x) (yc + y) PixelMode s
  else Some s.

(** A band above and one below the centre. *)
Definition ellipse_bands (e : ellipse) (s : lcd) : option lcd :=
  s ← CmdDrawRect (xc - e_rx e) (yc - e_ry e) (e_width e - 1) (e_height e - 1) PixelMode FillMode s;
  CmdDrawRect (xc - e_rx e) (yc + e_ry e) (e_width e - 1) (- (e_height e - 1)) PixelMode FillMode s.
(** One band across the centre. *)
Definition ellipse_band (e : ellipse) (s : lcd) : option lcd :=
  CmdDrawRect (xc - e_rx e) (yc - e_ry e) (e_width e - 1) (e_ry e * 2) PixelMode FillMode s.

Definition incx (e : ellipse) : option ellipse :=
  dxt ← int (e_dxt e + 2 * b2);
  t ← int (e_t e + dxt);
  Some (MkEllipse (i16 (e_x e + 1)) (e_y e) (e_rx e) (e_ry e) (e_width e) (e_height e)
    t dxt (e_dyt e)).
Definition incy (e : ellipse) : option ellipse :=
  dyt ← int (e_dyt e + 2 * a2);
  t ← int (e_t e + dyt);
  Some (MkEllipse (e_x e) (i16 (e_y e - 1)) (e_rx e) (e_ry e) (e_width e) (e_height e)
    t (e_dxt e) dyt).
(** The next band: its half width, offset, width and height. *)
Definition set_band (rx ry width height : Z) (e : ellipse) : ellipse :=
  MkEllipse (e_x e) (e_y e) (i16 rx) (i16 ry) (u16 width) (u16 height) (e_t e) (e_dxt e) (e_dyt e).

Definition filled : bool := FillMode =? DRAW_SHAPE_FILLED.

(** The branch that moves right. *)
Definition ellipse_right (e : ellipse) (s : lcd) : option (ellipse * lcd) :=
  if filled then
    let h := e_height e in
    '(ry, h, s) ← (
      if h =? 1 then Some (e_ry e, h, s)
      else if (h - 1) * 2 <? e_ry e * 2 + 1 then
        s ← ellipse_bands e s; Some (e_ry e - (h - 1), 1, s)
      else s ← ellipse_band e s; Some (e_ry e - e_ry e, 1, s));
    e ← incx (set_band (e_rx e + 1) ry (e_width e + 2) h e); Some (e, s)
  else e ← incx e; Some (e, s).

(** The branch that moves down. *)
Definition ellipse_down (e : ellipse) (s : lcd) : option (ellipse * lcd) :=
  e ← incy e;
  Some (if filled then set_band (e_rx e) (e_ry e) (e_width e) (e_height e + 1) e else e, s).

(** The branch that moves both ways. *)
Definition ellipse_diagonal (e : ellipse) (s : lcd) : option (ellipse * lcd) :=
  if filled then
    let h := e_height e in
    s ← (if h * 2 <? e_ry e * 2 + 1 then ellipse_bands e s else ellipse_band e s);
    e ← incx (set_band (e_rx e + 1) (e_ry e - h) (e_width e + 2) 1 e);
    e ← incy e; Some (e, s)
  else e ← incx e; e ← incy e; Some (e, s).

(** The conditions of the first two branches. *)
Definition goes_right (e : ellipse) : option bool :=
  m ← int (b2 * e_x e);
  l ← int (e_t e + m);
  if l <=? crit1 then Some true else
  m ← int (a2 * e_y e);
  l ← int (e_t e + m);
  Some (l <=? crit3).
Definition goes_down (e : ellipse) : option bool :=
  m ← int (a2 * e_y e);
  l ← int (e_t e - m);
  Some (crit2 <? l).

Fixpoint ellipse_loop (fuel : nat) (e : ellipse) (s : lcd) : option (ellipse * lcd) :=
  match fuel with
  | O => None
  | S fuel =>
      if (0 <=? e_y e) && (e_x e <=? a) then
        s ← (if filled then Some s else ellipse_points e s);
        right ← goes_right e;
        '(e, s) ← (
          if right : bool then ellipse_right e s
          else
            down ← goes_down e;
            if down : bool then ellipse_down e s else ellipse_diagonal e s);
        ellipse_loop fuel e s
      else Some (e, s)
  end.

(** Each iteration moves right or down: [a + b + 2] are enough. *)
Definition CmdDrawEllipse (s : lcd) : option lcd :=
  t ← int (- a2 * b);
  d2xt ← int (2 * b2);
  d2yt ← int (2 * a2);
  dyt ← int (- d2yt * b);
  if b =? 0 then CmdDrawRect (xc - a) yc (2 * a) 0 PixelMode FillMode s
  else if a =? 0 then CmdDrawRect xc (yc - b) 0 (2 * b) PixelMode FillMode s
  else
    '(e, s) ← ellipse_loop (Z.to_nat (a + b + 2) + 1)
      (MkEllipse 0 b 0 b 1 1 t (d2xt * 0) dyt) s;
    if filled then
      if e_height e <? e_ry e then ellipse_bands e s else ellipse_band e s
    else Some s.
End ellipse.

Definition CmdDrawCircle (cx cy radius PixelMode FillMode : Z) : lcd -> option lcd :=
  CmdDrawEllipse (i16 cx) (i16 cy) (i16 radius) (i16 radius) PixelMode FillMode.

(** ** The calls of the programs *)

(** [1] unless the display is open; the drawing if the options ask for one. *)
Definition out_ex (options : Z) (draw : Z -> Z -> lcd -> option lcd) (s : lcd) : option (Z * lcd) :=
  if negb (LcdInitialized s) then Some (1, s) else
  let '(pixelMode, fillMode, ok) := CmdResolveDrawingMode (u16 options) in
  s ← (if ok : bool then draw pixelMode fillMode s else Some s); Some (0, s).

Definition CircleOutEx (x y radius options : Z) : lcd -> option (Z * lcd) :=
  out_ex options (CmdDrawCircle x y radius).
Definition LineOutEx (x1 y1 x2 y2 options : Z) : lcd -> option (Z * lcd) :=
  out_ex options (fun pixelMode _ => CmdDrawLine x1 y1 x2 y2 pixelMode).
Definition PointOutEx (x y options : Z) : lcd -> option (Z * lcd) :=
  out_ex options (fun pixelMode _ => CmdSetPixel x y pixelMode).
Definition RectOutEx (x y width height options : Z) : lcd -> option (Z * lcd) :=
  out_ex options (CmdDrawRect x y width height).
Definition TextOutEx (s : lcd) : Z := if negb (LcdInitialized s) then 1 else 0.
Definition NumOutEx (s : lcd) : Z := if negb (LcdInitialized s) then 1 else 0.
Definition EllipseOutEx (x y radiusX radiusY options : Z) : lcd -> option (Z * lcd) :=
  out_ex options (CmdDrawEllipse (i16 x) (i16 y) radiusX radiusY).
Definition PolyOutEx (s : lcd) : Z := 0.
Definition GraphicOutEx (s : lcd) : Z := 0.
Definition GraphicArrayOutEx (s : lcd) : Z := 0.

(** The macros of ev3_lcd.h; that of the rectangle passes its second argument for
    the height. *)
Definition DRAW_OPT_NORMAL : Z := 0x0000.
Definition CircleOut (x y r : Z) : lcd -> option (Z * lcd) := CircleOutEx x y r DRAW_OPT_NORMAL.
Definition LineOut (x1 y1 x2 y2 : Z) : lcd -> option (Z * lcd) :=
  LineOutEx x1 y1 x2 y2 DRAW_OPT_NORMAL.
Definition PointOut (x y : Z) : lcd -> option (Z * lcd) := PointOutEx x y DRAW_OPT_NORMAL.
Definition RectOut (x y w h : Z) : lcd -> option (Z * lcd) := RectOutEx x y w y DRAW_OPT_NORMAL.
Definition EllipseOut (x y rx ry : Z) : lcd -> option (Z * lcd) :=
  EllipseOutEx x y rx ry DRAW_OPT_NORMAL.

(** [RectOut] draws the same rectangle for every height. *)
Lemma rect_out_ignores_height x y w h h' s : RectOut x y w h s = RectOut x y w h' s.
Proof. reflexivity. Qed.
