(* ===== verification/LcdPaint.v ===== *)
(** * LcdPaint: what the drawing functions do to the pixels

    [painted mode inside p q]: the buffer [q] is [p] with the mode applied to
    the pixels of [inside].  The functions that write bytes through masks, and
    the incremental loops for lines, are shown to paint sets of pixels that are
    given by a formula. *)

From S2P Require Import Prelude Timer Lcd LcdFrame LcdDraw.

(** ** Sets of pixels *)

Definition mode_op (PixelMode : Z) (b : bool) : bool :=
  if PixelMode =? DRAW_PIXELS_INVERT then negb b
  else if PixelMode =? DRAW_PIXELS_CLEAR then false else true.

Definition painted (PixelMode : Z) (inside : Z -> Z -> bool) (p q : list Z) : Prop :=
  image_ok q /\ forall x y, 0 <= x < 184 -> 0 <= y < 128 ->
    pixel q x y = if inside x y then mode_op PixelMode (pixel p x y) else pixel p x y.

Lemma painted_none pm p inside :
  image_ok p -> (forall x y, 0 <= x < 184 -> 0 <= y < 128 -> inside x y = false) ->
  painted pm inside p p.
Proof. intros Hp Hn. split; [done|]. intros x y Hx Hy. by rewrite Hn. Qed.

Lemma painted_ext pm A B p q :
  (forall x y, 0 <= x < 184 -> 0 <= y < 128 -> A x y = B x y) ->
  painted pm A p q -> painted pm B p q.
Proof. intros He [Hq H]. split; [done|]. intros x y Hx Hy. by rewrite H, He. Qed.

(** Two disjoint sets one after the other. *)
Lemma painted_union pm A B p q r :
  painted pm A p q -> painted pm B q r ->
  (forall x y, 0 <= x < 184 -> 0 <= y < 128 -> A x y = true -> B x y = false) ->
  painted pm (fun x y => A x y || B x y) p r.
Proof.
  intros [Hq HA] [Hr HB] Hd. split; [done|]. intros x y Hx Hy.
  rewrite HB, HA by done. destruct (A x y) eqn:E; [by rewrite Hd|done].
Qed.

(** ** A byte *)

Lemma testbit_apply_mode pm b M k :
  0 <= k ->
  Z.testbit (apply_mode pm b M) k =
    if Z.testbit M k then mode_op pm (Z.testbit b k) else Z.testbit b k.
Proof.
  intros Hk. unfold apply_mode, mode_op. repeat case_match.
  all: rewrite ?Z.lxor_spec, ?Z.land_spec, ?Z.lor_spec, ?Z.lnot_spec by done.
  all: repeat match goal with H : Z.testbit _ _ = _ |- _ => rewrite H end.
  all: by destruct (Z.testbit b k).
Qed.

Lemma image_length p : image_ok p -> length p = 2944%nat.
Proof. intros [_ Hl]. unfold zlen in Hl. change LCD_BUFFER_SIZE with 2944 in Hl. lia. Qed.

Lemma mask_at_paints pm c y0 M p :
  image_ok p -> 0 <= c < 23 -> 0 <= y0 < 128 ->
  exists q, mask_at pm (c + LCD_BYTE_WIDTH * y0) M p = Some q
    /\ painted pm (fun x y => (x / 8 =? c) && (y =? y0) && Z.testbit M (x mod 8)) p q.
Proof.
  intros Hp Hc Hy0. pose proof (image_length p Hp) as Hlen. change LCD_BYTE_WIDTH with 23.
  unfold mask_at, peek. rewrite (proj2 (Z.ltb_ge _ _)) by lia.
  destruct (p !! Z.to_nat (c + 23 * y0)) as [b|] eqn:Eb.
  2: { apply lookup_ge_None in Eb. lia. }
  cbn [mbind option_bind]. unfold poke.
  rewrite (proj2 (Z.ltb_ge _ _)) by lia. rewrite (proj2 (Z.leb_gt _ _)) by (unfold zlen; lia).
  cbn [orb]. eexists. split; [done|]. destruct Hp as [Hb Hl]. split.
  { split; [|unfold zlen; by rewrite length_insert]. apply Forall_insert; [done|].
    apply Z.mod_pos_bound. lia. }
  intros x y Hx Hy. unfold pixel. change LCD_BYTE_WIDTH with 23.
  assert (0 <= x / 8 < 23) as Hq by (split; [apply Z.div_pos|apply Z.div_lt_upper_bound]; lia).
  pose proof (Z.mod_pos_bound x 8 ltac:(lia)) as Hm. rewrite !nth_lookup.
  destruct (decide (x / 8 = c /\ y = y0)) as [[Hxc ->]|Hne].
  - replace (x / 8 + y0 * 23) with (c + 23 * y0) by lia.
    rewrite list_lookup_insert_eq by lia. rewrite Eb. cbn [from_option id].
    rewrite Hxc, !Z.eqb_refl. cbn [andb]. unfold u8. rewrite Z.mod_pow2_bits_low by lia.
    rewrite testbit_apply_mode by lia. done.
  - rewrite list_lookup_insert_ne by lia.
    replace ((x / 8 =? c) && (y =? y0)) with false; [done|]. symmetry.
    apply andb_false_iff. lia.
Qed.

(** ** Columns and regions *)

Lemma fill_column_paints pm c M Y1 Y2 p :
  image_ok p -> 0 <= c < 23 -> 0 <= Y1 -> Y2 < 128 ->
  exists q, fill_column pm c M Y1 Y2 p = Some q
    /\ painted pm (fun x y => (x / 8 =? c) && (Y1 <=? y) && (y <=? Y2) && Z.testbit M (x mod 8)) p q.
Proof.
  intros Hp Hc HY1 HY2. unfold fill_column.
  remember (Z.to_nat (Y2 - Y1 + 1)) as n eqn:Hn. revert Y1 p Hp HY1 Hn.
  induction n as [|n IH]; intros Y1 p Hp HY1 Hn; cbn [loop].
  - exists p. split; [done|]. apply painted_none; [done|]. intros x y Hx Hy.
    destruct (Z.leb_spec Y1 y), (Z.leb_spec y Y2); rewrite ?andb_false_r; lia || done.
  - destruct (mask_at_paints pm c Y1 M p) as (q & -> & Hq); [done..|lia|].
    cbn [mbind option_bind].
    destruct (IH (Y1 + 1) q) as (r & -> & Hr); [apply Hq|lia..|].
    exists r. split; [done|]. eapply painted_ext; [|apply (painted_union _ _ _ _ _ _ Hq Hr)].
    + intros x y Hx Hy. cbv beta. destruct (x / 8 =? c), (Z.testbit M _);
        rewrite ?andb_false_r, ?andb_true_r; cbn [andb]; lia || done.
    + intros x y Hx Hy. cbv beta. intros Ht. apply andb_true_iff in Ht as [Ht _].
      destruct (Z.leb_spec (Y1 + 1) y); [|by rewrite andb_false_r]. lia.
Qed.

Lemma testbit_mask i k : 0 <= i <= 8 -> 0 <= k < 8 -> Z.testbit (mask i) k = (k <? i).
Proof.
  intros Hi Hk. unfold mask.
  assert (i = 0 \/ i = 1 \/ i = 2 \/ i = 3 \/ i = 4 \/ i = 5 \/ i = 6 \/ i = 7 \/ i = 8) as Hc by lia.
  assert (k = 0 \/ k = 1 \/ k = 2 \/ k = 3 \/ k = 4 \/ k = 5 \/ k = 6 \/ k = 7) as Hd by lia.
  by destruct Hc as [->|[->|[->|[->|[->|[->|[->|[->| ->]]]]]]]];
     destruct Hd as [->|[->|[->|[->|[->|[->|[->| ->]]]]]]].
Qed.

Lemma testbit_column_mask c X1 X2 x :
  0 <= X1 -> X1 / 8 <= c -> 8 * c <= X2 -> x / 8 = c ->
  Z.testbit (column_mask (8 * c) X1 X2) (x mod 8) = (X1 <=? x) && (x <=? X2).
Proof.
  intros H1 Hc H2 Hx.
  pose proof (Z.mod_pos_bound x 8 ltac:(lia)). pose proof (Z.mod_pos_bound X1 8 ltac:(lia)).
  pose proof (Z.mod_pos_bound X2 8 ltac:(lia)).
  pose proof (Z.div_mod x 8 ltac:(lia)). pose proof (Z.div_mod X1 8 ltac:(lia)).
  pose proof (Z.div_mod X2 8 ltac:(lia)).
  unfold column_mask. change 255 with (Z.ones 8).
  destruct (Z.ltb_spec (8 * c) X1), (Z.ltb_spec (X2 - 8 * c) 8).
  all: rewrite ?Z.land_spec, ?Z.lnot_spec, Z.ones_spec_low by lia.
  all: rewrite ?testbit_mask by lia. all: cbn [andb]. all: lia.
Qed.

Definition in_rect (X1 X2 Y1 Y2 x y : Z) : bool :=
  (X1 <=? x) && (x <=? X2) && (Y1 <=? y) && (y <=? Y2).

Lemma fill_columns_paints pm fuel c X1 X2 Y1 Y2 p :
  image_ok p -> 0 <= X1 -> X1 / 8 <= c -> X2 < 178 -> 0 <= Y1 -> Y2 < 128 ->
  (23 - c < Z.of_nat fuel) -> c < 32 -> 0 < Z.of_nat fuel ->
  exists q, fill_columns fuel pm (8 * c) X1 X2 Y1 Y2 p = Some q
    /\ painted pm (fun x y => (8 * c <=? x) && in_rect X1 X2 Y1 Y2 x y) p q.
Proof.
  revert c p. induction fuel as [|fuel IH]; intros c p Hp H1 Hc H2 HY1 HY2 Hf Hc32 Hpos; [lia|].
  cbn [fill_columns]. destruct (Z.leb_spec (8 * c) X2).
  2: { exists p. split; [done|]. apply painted_none; [done|]. intros x y Hx Hy.
       unfold in_rect. lia. }
  assert (0 <= X1 / 8) by (apply Z.div_pos; lia).
  rewrite Z.mul_comm, Z.div_mul by lia. rewrite Z.mul_comm.
  destruct (fill_column_paints pm c (column_mask (8 * c) X1 X2) Y1 Y2 p) as (q & -> & Hq);
    [done|lia..|].
  cbn [mbind option_bind]. rewrite u8_id by lia. replace (8 * c + 8) with (8 * (c + 1)) by lia.
  destruct (IH (c + 1) q) as (r & -> & Hr); [apply Hq|lia..|].
  exists r. split; [done|].
  eapply painted_ext; [|apply (painted_union _ _ _ _ _ _ Hq Hr)].
  - intros x y Hx Hy. cbv beta. unfold in_rect.
    pose proof (Z.div_mod x 8 ltac:(lia)). pose proof (Z.mod_pos_bound x 8 ltac:(lia)).
    destruct (Z.eqb_spec (x / 8) c) as [E|E].
    + rewrite testbit_column_mask by lia. lia.
    + lia.
  - intros x y Hx Hy. cbv beta.
    pose proof (Z.div_mod x 8 ltac:(lia)). pose proof (Z.mod_pos_bound x 8 ltac:(lia)). lia.
Qed.

Lemma fill_region_paints pm X1 X2 Y1 Y2 p :
  image_ok p -> 0 <= X1 < 256 -> X2 < 178 -> 0 <= Y1 -> Y2 < 128 ->
  exists q, fill_region pm X1 X2 Y1 Y2 p = Some q /\ painted pm (in_rect X1 X2 Y1 Y2) p q.
Proof.
  intros Hp H1 H2 HY1 HY2. unfold fill_region. rewrite Z.mul_comm.
  assert (0 <= X1 / 8 < 32) by (split; [apply Z.div_pos|apply Z.div_lt_upper_bound]; lia).
  destruct (fill_columns_paints pm 24 (X1 / 8) X1 X2 Y1 Y2 p) as (q & -> & Hq); [done|lia..|].
  exists q. split; [done|]. eapply painted_ext; [|exact Hq].
  intros x y Hx Hy. cbv beta. pose proof (Z.mul_div_le X1 8). unfold in_rect.
  destruct (Z.leb_spec (8 * (X1 / 8)) x); [done|]. cbn [andb]. lia.
Qed.

(** ** The display *)

Definition display_ready (s : lcd) : Prop :=
  LcdInitialized s = true /\ pLcd s = true /\ image_ok (displayBuf s).

(** Only the buffer and the mark that it has changed. *)
Definition draws (PixelMode : Z) (inside : Z -> Z -> bool) (s s' : lcd) : Prop :=
  painted PixelMode inside (displayBuf s) (displayBuf s')
  /\ s' = set_dirty (Dirty s') (set_display (displayBuf s') s).

Lemma draws_ready pm A s s' : display_ready s -> draws pm A s s' -> display_ready s'.
Proof. intros (H1 & H2 & _) [[Hq _] ->]. by split_and!. Qed.

Lemma draws_none pm A s :
  display_ready s -> (forall x y, 0 <= x < 184 -> 0 <= y < 128 -> A x y = false) -> draws pm A s s.
Proof. intros (_ & _ & Hp) HA. split; [by apply painted_none|by destruct s]. Qed.

Lemma draws_ext pm A B s s' :
  (forall x y, 0 <= x < 184 -> 0 <= y < 128 -> A x y = B x y) -> draws pm A s s' -> draws pm B s s'.
Proof. intros He [Hp Hk]. split; [|done]. by apply (painted_ext _ A). Qed.

Lemma draws_union pm A B s s1 s2 :
  draws pm A s s1 -> draws pm B s1 s2 ->
  (forall x y, 0 <= x < 184 -> 0 <= y < 128 -> A x y = true -> B x y = false) ->
  draws pm (fun x y => A x y || B x y) s s2.
Proof.
  intros [HA Hk1] [HB Hk2] Hd. split.
  - by eapply painted_union.
  - rewrite Hk2 at 1. rewrite Hk1. done.
Qed.

Lemma display_draws pm A draw s :
  display_ready s -> (exists q, draw (displayBuf s) = Some q /\ painted pm A (displayBuf s) q) ->
  exists s', display draw s = Some s' /\ draws pm A s s' /\ Dirty s' = true.
Proof.
  intros (_ & Hl & _) (q & Hd & Hq). unfold display, on_display. rewrite Hl, Hd.
  cbn [mbind option_bind]. eexists. split; [done|]. by split.
Qed.

Lemma display_pixel_draws pm X Y s :
  display_ready s -> 0 <= X -> 0 <= Y ->
  exists s', display_pixel pm X Y s = Some s'
    /\ draws pm (fun x y => (x =? X) && (y =? Y) && on_screen X Y) s s'.
Proof.
  intros Hs HX HY. unfold display_pixel. unfold on_screen, LCD_WIDTH, LCD_HEIGHT.
  destruct (Z.ltb_spec X 178), (Z.ltb_spec Y 128); cbn [andb].
  2-4: exists s; split; [done|]; apply draws_none; [done|]; intros x y _ _; lia.
  assert (0 <= X / 8 < 23) by (split; [apply Z.div_pos|apply Z.div_lt_upper_bound]; lia).
  destruct (display_draws pm (fun x y => (x / 8 =? X / 8) && (y =? Y)
      && Z.testbit (Z.shiftl 1 (X mod 8)) (x mod 8))
    (mask_at pm (X / 8 + LCD_BYTE_WIDTH * Y) (Z.shiftl 1 (X mod 8))) s) as (s' & -> & Hd & _);
    [done|apply mask_at_paints; [apply Hs|lia..]|].
  exists s'. split; [done|]. eapply draws_ext; [|exact Hd]. intros x y Hx Hy. cbv beta.
  pose proof (Z.div_mod x 8 ltac:(lia)). pose proof (Z.mod_pos_bound x 8 ltac:(lia)).
  pose proof (Z.div_mod X 8 ltac:(lia)). pose proof (Z.mod_pos_bound X 8 ltac:(lia)).
  rewrite Z.shiftl_1_l, Z.pow2_bits_eqb by lia. lia.
Qed.

(** One pixel through [DisplayDraw]; outside of the screen there is none. *)
Lemma draw_pixel pm X Y s :
  display_ready s -> 0 <= X -> 0 <= Y ->
  exists s', DisplayDraw DISPLAY_PIXEL pm X Y 0 0 s = Some s'
    /\ draws pm (fun x y => (x =? X) && (y =? Y) && on_screen X Y) s s'.
Proof.
  intros Hs HX HY. unfold DisplayDraw. rewrite (proj1 Hs). cbn [negb].
  assert (forall k, mode_op pm = mode_op k ->
    exists s', display_pixel k X Y s = Some s'
      /\ draws pm (fun x y => (x =? X) && (y =? Y) && on_screen X Y) s s') as Hk.
  { intros k Hk. destruct (display_pixel_draws k X Y s) as (s' & -> & [[Hq Hp] Hd]); [done..|].
    exists s'. split; [done|]. split; [|done]. split; [done|]. by rewrite Hk. }
  destruct (Z.eqb_spec pm DRAW_PIXELS_INVERT) as [->|E1]; [by apply Hk|].
  destruct (Z.eqb_spec pm DRAW_PIXELS_CLEAR) as [->|E2]; [by apply Hk|].
  apply Hk. unfold mode_op. apply Z.eqb_neq in E1, E2. by rewrite E1, E2.
Qed.

Lemma fill_screen_draws pm X1 Y1 PX PY s :
  display_ready s -> 0 <= X1 < 256 -> 0 <= Y1 -> 0 < PX -> 0 < PY -> X1 + PX <= 178 ->
  Y1 + PY <= 128 ->
  exists s', DisplayDraw DISPLAY_FILL_REGION pm X1 Y1 PX PY s = Some s'
    /\ draws pm (in_rect X1 (X1 + PX - 1) Y1 (Y1 + PY - 1)) s s' /\ Dirty s' = true.
Proof.
  intros Hs H1 HY1 HPX HPY H2 HY2. unfold DisplayDraw. rewrite (proj1 Hs). cbn [negb].
  unfold DisplayFillScreen. rewrite !u8_id by lia. unfold LCD_WIDTH, LCD_HEIGHT.
  rewrite !(proj2 (Z.ltb_ge _ _)) by lia. apply display_draws; [done|].
  apply fill_region_paints; [apply Hs|lia..].
Qed.

(** ** Lines *)

(** [k * b / a], rounded to the nearest integer. *)
Definition rounded (a b k : Z) : Z := (2 * b * k + a) / (2 * a).

Lemma rounded_spec a b k :
  0 < a -> 2 * a * rounded a b k <= 2 * b * k + a < 2 * a * rounded a b k + 2 * a.
Proof.
  intros Ha. unfold rounded.
  pose proof (Z.div_mod (2 * b * k + a) (2 * a) ltac:(lia)).
  pose proof (Z.mod_pos_bound (2 * b * k + a) (2 * a) ltac:(lia)). lia.
Qed.

Lemma rounded_unique a b k j :
  0 < a -> 2 * a * j <= 2 * b * k + a < 2 * a * j + 2 * a -> rounded a b k = j.
Proof.
  intros Ha Hj. unfold rounded. symmetry.
  apply (Z.div_unique _ _ _ (2 * b * k + a - 2 * a * j)); lia.
Qed.

(** The error term of the loops decides the next step. *)
Lemma rounded_next a b k :
  0 < a -> 0 <= b <= a ->
  rounded a b (k + 1) =
    rounded a b k + (if 0 <=? 2 * b * (k + 1) - 2 * a * rounded a b k - a then 1 else 0).
Proof.
  intros Ha Hb. pose proof (rounded_spec a b k Ha). apply rounded_unique; [done|].
  destruct (Z.leb_spec 0 (2 * b * (k + 1) - 2 * a * rounded a b k - a)); lia.
Qed.

Lemma rounded_bounds a b k : 0 < a -> 0 <= b -> 0 <= k <= a -> 0 <= rounded a b k <= b.
Proof.
  intros Ha Hb Hk. pose proof (rounded_spec a b k Ha) as Hr.
  assert (2 * b * k <= 2 * b * a) by (apply Z.mul_le_mono_nonneg_l; lia).
  assert (0 <= 2 * b * k) by lia.
  split.
  - assert (-1 < rounded a b k); [|lia]. apply (Z.mul_lt_mono_pos_l (2 * a)); lia.
  - assert (rounded a b k < b + 1); [|lia]. apply (Z.mul_lt_mono_pos_l (2 * a)); lia.
Qed.

Lemma rounded_ends a b : 0 < a -> rounded a b 0 = 0 /\ rounded a b a = b.
Proof. intros Ha. split; apply rounded_unique; lia. Qed.

Lemma int_id z : -2 ^ 31 <= z < 2 ^ 31 -> int z = Some z.
Proof.
  intros H. unfold int. by rewrite (proj2 (Z.leb_le _ _)), (proj2 (Z.ltb_lt _ _)) by lia.
Qed.

(** Row 0 of a line is at the bottom. *)
Lemma line_pixel_draws pm x y s :
  display_ready s -> 0 <= x < 178 -> 0 <= y < 128 ->
  exists s', line_pixel pm x y s = Some s'
    /\ draws pm (fun x' y' => (x' =? x) && (127 - y' =? y)) s s'.
Proof.
  intros Hs Hx Hy. unfold line_pixel, TRANSLATE_Y, LCD_HEIGHT.
  rewrite int_id by lia. cbn [mbind option_bind]. rewrite !u8_id by lia.
  destruct (draw_pixel pm x (128 - 1 - y) s) as (s' & -> & Hd); [done|lia..|].
  exists s'. split; [done|]. eapply draws_ext; [|exact Hd]. intros x' y' _ _. cbv beta.
  unfold on_screen, LCD_WIDTH, LCD_HEIGHT. lia.
Qed.

Lemma line_x_S fuel pm x y d x2 ax ay sx sy s :
  line_x (S fuel) pm x y d x2 ax ay sx sy s =
  (s ← line_pixel pm x y s;
   if x =? x2 then Some s else
   let '(y, d) := if 0 <=? d then (y + sy, d - ax) else (y, d) in
   line_x fuel pm (x + sx) y (d + ay) x2 ax ay sx sy s).
Proof. done. Qed.
Lemma line_y_S fuel pm x y d y2 ax ay sx sy s :
  line_y (S fuel) pm x y d y2 ax ay sx sy s =
  (s ← line_pixel pm x y s;
   if y =? y2 then Some s else
   let '(x, d) := if 0 <=? d then (x + sx, d - ay) else (x, d) in
   line_y fuel pm x (y + sy) (d + ax) y2 ax ay sx sy s).
Proof. done. Qed.

(** The points of the loop that steps in [x], from [k] on. *)
Definition points_x (xl yl a b sy k x y : Z) : bool :=
  (k <=? x - xl) && (x - xl <=? a) && (y =? yl + sy * rounded a b (x - xl)).

Lemma line_x_draws pm xl yl a b sy k fuel s :
  display_ready s -> 0 < a -> 0 <= b <= a -> 0 <= k <= a -> fuel = S (Z.to_nat (a - k)) ->
  0 <= xl -> xl + a < 178 -> sy = 1 \/ sy = -1 -> 0 <= yl < 128 -> 0 <= yl + sy * b < 128 ->
  exists s', line_x fuel pm (xl + k) (yl + sy * rounded a b k)
               (2 * b * (k + 1) - 2 * a * rounded a b k - a) (xl + a) (2 * a) (2 * b) 1 sy s = Some s'
    /\ draws pm (fun x y => points_x xl yl a b sy k x (127 - y)) s s'.
Proof.
  intros Hs Ha Hb Hk Hf Hxl Hxr Hsy Hyl Hyr.
  remember (Z.to_nat (a - k)) as n eqn:Hn. revert k fuel s Hs Hk Hf Hn.
  induction n as [|n IH]; intros k fuel s Hs Hk -> Hn.
  all: pose proof (rounded_bounds a b k Ha ltac:(lia) Hk) as Hj.
  all: destruct (line_pixel_draws pm (xl + k) (yl + sy * rounded a b k) s) as (s1 & Hp & Hd1);
    [done|lia|destruct Hsy as [-> | ->]; lia|].
  all: rewrite line_x_S, Hp; cbn [mbind option_bind].
  - rewrite (proj2 (Z.eqb_eq _ _)) by lia. exists s1. split; [done|].
    eapply draws_ext; [|exact Hd1]. intros x y _ _. cbv beta. unfold points_x.
    destruct (Z.eqb_spec x (xl + k)) as [->|]; [|lia].
    replace (xl + k - xl) with k by lia. lia.
  - rewrite (proj2 (Z.eqb_neq _ _)) by lia.
    pose proof (rounded_next a b k Ha Hb) as Hnext.
    destruct (IH (k + 1) (S n) s1) as (s2 & H2 & Hd2);
      [by eapply draws_ready|lia|done|lia|].
    exists s2. split.
    + rewrite <- H2, Hnext. destruct (0 <=? _); f_equal; lia.
    + eapply draws_ext; [|apply (draws_union _ _ _ _ _ _ Hd1 Hd2)].
      * intros x y _ _. cbv beta. unfold points_x.
        destruct (Z.eqb_spec x (xl + k)) as [->|]; [|lia].
        replace (xl + k - xl) with k by lia. lia.
      * intros x y _ _. cbv beta. unfold points_x. lia.
Qed.

(** The points of the loop that steps in [y]. *)
Definition points_y (xl yl a b sy k x y : Z) : bool :=
  (k <=? sy * (y - yl)) && (sy * (y - yl) <=? a) && (x =? xl + rounded a b (sy * (y - yl))).

Lemma line_y_draws pm xl yl a b sy k fuel s :
  display_ready s -> 0 < a -> 0 <= b <= a -> 0 <= k <= a -> fuel = S (Z.to_nat (a - k)) ->
  0 <= xl -> xl + b < 178 -> sy = 1 \/ sy = -1 -> 0 <= yl < 128 -> 0 <= yl + sy * a < 128 ->
  exists s', line_y fuel pm (xl + rounded a b k) (yl + sy * k)
               (2 * b * (k + 1) - 2 * a * rounded a b k - a) (yl + sy * a) (2 * b) (2 * a) 1 sy s
             = Some s'
    /\ draws pm (fun x y => points_y xl yl a b sy k x (127 - y)) s s'.
Proof.
  intros Hs Ha Hb Hk Hf Hxl Hxr Hsy Hyl Hyr.
  remember (Z.to_nat (a - k)) as n eqn:Hn. revert k fuel s Hs Hk Hf Hn.
  induction n as [|n IH]; intros k fuel s Hs Hk -> Hn.
  all: pose proof (rounded_bounds a b k Ha ltac:(lia) Hk) as Hj.
  all: assert (forall y, sy * (y - yl) = k <-> y = yl + sy * k) as Hy
    by (destruct Hsy as [-> | ->]; lia).
  all: destruct (line_pixel_draws pm (xl + rounded a b k) (yl + sy * k) s) as (s1 & Hp & Hd1);
    [done|lia|destruct Hsy as [-> | ->]; lia|].
  all: rewrite line_y_S, Hp; cbn [mbind option_bind].
  - replace k with a by lia. rewrite Z.eqb_refl. exists s1. split; [done|].
    replace a with k in Hd1 at 3 by lia.
    eapply draws_ext; [|exact Hd1]. intros x y _ _. cbv beta. unfold points_y.
    destruct (decide (sy * (127 - y - yl) = k)) as [E|E].
    + rewrite E. apply Hy in E. lia.
    + assert (127 - y <> yl + sy * k) by (intros Hc; apply E, Hy, Hc). lia.
  - rewrite (proj2 (Z.eqb_neq _ _)) by (destruct Hsy as [-> | ->]; lia).
    pose proof (rounded_next a b k Ha Hb) as Hnext.
    destruct (IH (k + 1) (S n) s1) as (s2 & H2 & Hd2);
      [by eapply draws_ready|lia|done|lia|].
    exists s2. split.
    + rewrite <- H2, Hnext. destruct (0 <=? _); f_equal; lia.
    + eapply draws_ext; [|apply (draws_union _ _ _ _ _ _ Hd1 Hd2)].
      * intros x y _ _. cbv beta. unfold points_y.
        destruct (decide (sy * (127 - y - yl) = k)) as [E|E].
        -- rewrite E. apply Hy in E. lia.
        -- assert (127 - y <> yl + sy * k) by (intros Hc; apply E, Hy, Hc). lia.
      * intros x y _ _. cbv beta. unfold points_y.
        destruct (decide (sy * (127 - y - yl) = k)) as [E|E]; [rewrite E; lia|].
        assert (127 - y <> yl + sy * k) by (intros Hc; apply E, Hy, Hc). lia.
Qed.

Lemma vertical_draws pm X Y1 Y2 s :
  display_ready s -> 0 <= X < 178 -> 0 <= Y1 < 128 -> 0 <= Y2 < 128 ->
  exists s', DisplayDraw DISPLAY_VERTICAL_LINE pm X Y1 0 Y2 s = Some s'
    /\ draws pm (in_rect X X (Z.min Y1 Y2) (Z.max Y1 Y2)) s s'.
Proof.
  intros Hs HX H1 H2. unfold DisplayDraw. rewrite (proj1 Hs). cbn [negb].
  unfold DisplayLineY, LCD_WIDTH, LCD_HEIGHT. rewrite (proj2 (Z.ltb_ge _ _)) by lia.
  assert ((if Y2 <? Y1 then (Y2, Y1) else (Y1, Y2)) = (Z.min Y1 Y2, Z.max Y1 Y2)) as ->
    by (destruct (Z.ltb_spec Y2 Y1); f_equal; lia).
  rewrite (proj2 (Z.ltb_ge _ _)) by lia.
  assert (0 <= X / 8 < 23) by (split; [apply Z.div_pos|apply Z.div_lt_upper_bound]; lia).
  pose proof (Z.div_mod X 8 ltac:(lia)). pose proof (Z.mod_pos_bound X 8 ltac:(lia)).
  destruct (display_draws pm (in_rect X X (Z.min Y1 Y2) (Z.max Y1 Y2))
    (fill_column pm (X / 8) (Z.shiftl 1 (X mod 8)) (Z.min Y1 Y2) (Z.max Y1 Y2)) s)
    as (s' & -> & Hd & _); [done| |by exists s'].
  destruct (fill_column_paints pm (X / 8) (Z.shiftl 1 (X mod 8)) (Z.min Y1 Y2) (Z.max Y1 Y2)
    (displayBuf s)) as (q & -> & Hq); [apply Hs|lia..|].
  exists q. split; [done|]. eapply painted_ext; [|exact Hq]. intros x y Hx Hy. cbv beta.
  pose proof (Z.div_mod x 8 ltac:(lia)). pose proof (Z.mod_pos_bound x 8 ltac:(lia)).
  rewrite Z.shiftl_1_l, Z.pow2_bits_eqb by lia. unfold in_rect. lia.
Qed.

Lemma horizontal_draws pm X1 X2 Y s :
  display_ready s -> 0 <= X1 < 178 -> 0 <= X2 < 178 -> 0 <= Y < 128 ->
  exists s', DisplayDraw DISPLAY_HORIZONTAL_LINE pm X1 Y X2 0 s = Some s'
    /\ draws pm (in_rect (Z.min X1 X2) (Z.max X1 X2) Y Y) s s'.
Proof.
  intros Hs H1 H2 HY. unfold DisplayDraw. rewrite (proj1 Hs). cbn [negb].
  unfold DisplayLineX, LCD_WIDTH, LCD_HEIGHT. rewrite (proj2 (Z.ltb_ge _ _)) by lia.
  assert ((if X2 <? X1 then (X2, X1) else (X1, X2)) = (Z.min X1 X2, Z.max X1 X2)) as ->
    by (destruct (Z.ltb_spec X2 X1); f_equal; lia).
  rewrite (proj2 (Z.ltb_ge _ _)) by lia.
  destruct (display_draws pm (in_rect (Z.min X1 X2) (Z.max X1 X2) Y Y)
    (fill_region pm (Z.min X1 X2) (Z.max X1 X2) Y Y) s) as (s' & -> & Hd & _);
    [done|apply fill_region_paints; [apply Hs|lia..]|by exists s'].
Qed.

(** The points of the line between two points, [xl <= xr]: one in each column
    when it is flat, one in each row when it is steep, each the nearest to the
    line. *)
Definition on_segment (xl yl xr yr x y : Z) : bool :=
  let a := xr - xl in
  let b := Z.abs (yr - yl) in
  if b <? a then points_x xl yl a b (SGN (yr - yl)) 0 x y
  else points_y xl yl b a (SGN (yr - yl)) 0 x y.
Definition on_line (x1 y1 x2 y2 x y : Z) : bool :=
  if x2 <? x1 then on_segment x2 y2 x1 y1 x y else on_segment x1 y1 x2 y2 x y.

Lemma ABS_abs a : ABS a = Z.abs a.
Proof. unfold ABS. destruct (Z.ltb_spec a 0); lia. Qed.

Lemma rounded_flat a k : 0 <= a -> rounded a 0 k = 0.
Proof.
  intros Ha. destruct (decide (a = 0)) as [->|]; [unfold rounded; by rewrite Zdiv_0_r|].
  apply rounded_unique; lia.
Qed.

Lemma draw_clipped_draws pm xl yl xr yr s :
  display_ready s -> 0 <= xl <= xr -> xr < 178 -> 0 <= yl < 128 -> 0 <= yr < 128 ->
  exists s', draw_clipped xl yl xr yr pm s = Some s'
    /\ draws pm (fun x y => on_segment xl yl xr yr x (127 - y)) s s'.
Proof.
  intros Hs Hx Hxr Hyl Hyr. unfold draw_clipped, on_segment, TRANSLATE_Y, LCD_HEIGHT.
  destruct (Z.eqb_spec xl xr) as [<-|Hne]; [destruct (Z.eqb_spec yl yr) as [<-|Hyne]|
    destruct (Z.eqb_spec yl yr) as [<-|Hyne]].
  - destruct (line_pixel_draws pm xl yl s) as (s' & -> & Hd); [done|lia..|].
    exists s'. split; [done|]. eapply draws_ext; [|exact Hd]. intros x y _ _. cbv beta.
    rewrite !Z.sub_diag. change (SGN 0) with 1. unfold points_y. change (Z.abs 0) with 0.
    change (0 <? 0) with false. cbn match. rewrite rounded_flat by lia. lia.
  - rewrite !int_id by lia. cbn [mbind option_bind]. rewrite !u8_id by lia.
    destruct (vertical_draws pm xl (128 - 1 - yl) (128 - 1 - yr) s) as (s' & -> & Hd); [done|lia..|].
    exists s'. split; [done|]. eapply draws_ext; [|exact Hd]. intros x y _ _. cbv beta.
    rewrite Z.sub_diag, (proj2 (Z.ltb_ge _ _)) by lia. unfold points_y, in_rect.
    rewrite rounded_flat by lia. unfold SGN. destruct (Z.ltb_spec (yr - yl) 0); lia.
  - rewrite !int_id by lia. cbn [mbind option_bind]. rewrite !u8_id by lia.
    destruct (horizontal_draws pm xl xr (128 - 1 - yl) s) as (s' & -> & Hd); [done|lia..|].
    exists s'. split; [done|]. eapply draws_ext; [|exact Hd]. intros x y _ _. cbv beta.
    rewrite Z.sub_diag, (proj2 (Z.ltb_lt _ _)) by lia. unfold points_x, in_rect.
    change (Z.abs 0) with 0. rewrite rounded_flat by lia. change (SGN 0) with 1. lia.
  - rewrite !int_id by (rewrite ?ABS_abs; lia). cbn [mbind option_bind].
    rewrite !int_id by (rewrite ?ABS_abs; lia). cbn [mbind option_bind].
    rewrite !ABS_abs. replace (Z.abs (xr - xl)) with (xr - xl) by lia.
    assert (SGN (xr - xl) = 1) as -> by (unfold SGN; by rewrite (proj2 (Z.ltb_ge _ _)) by lia).
    set (a := xr - xl). set (b := Z.abs (yr - yl)). set (sy := SGN (yr - yl)).
    assert (sy = 1 \/ sy = -1) as Hsy by (unfold sy, SGN; destruct (_ <? _); lia).
    assert (yr = yl + sy * b) as Hyb by (unfold sy, b, SGN; destruct (Z.ltb_spec (yr - yl) 0); lia).
    rewrite !Z.shiftr_div_pow2 by lia. change (2 ^ 1) with 2.
    rewrite !(Z.mul_comm 2), !Z.div_mul by lia.
    destruct (Z.ltb_spec (b * 2) (a * 2)); destruct (Z.ltb_spec b a); try lia.
    + destruct (line_x_draws pm xl yl a b sy 0 (S (Z.to_nat a)) s) as (s' & Hl & Hd);
        [done|lia|unfold b; lia|lia|f_equal; lia|lia|unfold a; lia|done|done|lia|].
      exists s'. split; [|exact Hd]. rewrite <- Hl.
      rewrite (proj1 (rounded_ends a b ltac:(lia))). f_equal; unfold a; lia.
    + destruct (line_y_draws pm xl yl b a sy 0 (S (Z.to_nat b)) s) as (s' & Hl & Hd);
        [done|unfold b; lia|unfold a; lia|unfold b; lia|f_equal; lia|lia|unfold a; lia|done|done|lia|].
      exists s'. split; [|exact Hd]. rewrite <- Hl.
      rewrite (proj1 (rounded_ends b a ltac:(unfold b; lia))). f_equal; lia.
Qed.

Lemma on_segment_vertical x y1 y2 x' y' : on_segment x y1 x y2 x' y' = on_segment x y2 x y1 x' y'.
Proof.
  unfold on_segment. rewrite Z.sub_diag, !(proj2 (Z.ltb_ge _ _)) by lia.
  unfold points_y, SGN. rewrite !rounded_flat by lia.
  destruct (Z.ltb_spec (y2 - y1) 0), (Z.ltb_spec (y1 - y2) 0); lia.
Qed.

(** Between points of the screen nothing is clipped. *)
Lemma CmdDrawLine_inside pm x1 y1 x2 y2 s :
  0 <= x1 < 178 -> 0 <= x2 < 178 -> 0 <= y1 < 128 -> 0 <= y2 < 128 ->
  CmdDrawLine x1 y1 x2 y2 pm s =
    if (x2 <? x1) || ((x2 =? x1) && (y2 <? y1)) then draw_clipped x2 y2 x1 y1 pm s
    else draw_clipped x1 y1 x2 y2 pm s.
Proof.
  intros H1 H2 H3 H4. unfold CmdDrawLine. rewrite !int_id by lia. cbn [mbind option_bind].
  change (LCD_HEIGHT - 1) with 127. change (LCD_WIDTH - 1) with 177.
  change LCD_HEIGHT with 128. change LCD_WIDTH with 178.
  assert (forall z, 0 <= z -> (z <? 0) = false) as Hneg by (intros; lia).
  assert (forall a z, z < a -> (a <=? z) = false) as Hle by (intros; lia).
  assert (forall a z, z <= a -> (a <? z) = false) as Hlt by (intros; lia).
  assert (forall z, 0 <= z -> Z.max 0 z = z) as Hmax by (intros; lia).
  assert (forall a z, z <= a -> Z.min a z = z) as Hmin by (intros; lia).
  destruct (Z.ltb_spec y2 y1); cbn match.
  all: rewrite !Hneg, !Hle by lia; cbn match; rewrite !(Hlt 127) by lia; cbn [orb mbind option_bind].
  all: rewrite !Hmax, !Hmin by lia.
  - destruct (Z.ltb_spec x1 x2); cbn match; rewrite !Hneg, !Hle by lia; cbn match;
      rewrite !(Hlt 177) by lia; cbn [orb mbind option_bind]; rewrite !Hmax, !Hmin by lia.
    + rewrite (Hlt x2 x1), (proj2 (Z.eqb_neq _ _)) by lia. done.
    + destruct (Z.ltb_spec x2 x1); [done|]. by rewrite (proj2 (Z.eqb_eq _ _)) by lia.
  - destruct (Z.ltb_spec x2 x1); cbn match; rewrite !Hneg, !Hle by lia; cbn match;
      rewrite !(Hlt 177) by lia; cbn [orb mbind option_bind]; rewrite !Hmax, !Hmin by lia; [done|].
    by rewrite andb_false_r.
Qed.

(** C16: A line between two points of the screen draws exactly the pixels that are nearest
    to the ideal line in every column (or row, for a steep one), in any pixel mode, and no
    other pixel: the incremental error of the loop is the division it stands for. *)
Theorem line_draws_nearest pm x1 y1 x2 y2 s :
  display_ready s -> 0 <= x1 < 178 -> 0 <= x2 < 178 -> 0 <= y1 < 128 -> 0 <= y2 < 128 ->
  exists s', CmdDrawLine x1 y1 x2 y2 pm s = Some s'
    /\ draws pm (fun x y => on_line x1 y1 x2 y2 x (127 - y)) s s'.
Proof.
  intros Hs H1 H2 H3 H4. rewrite CmdDrawLine_inside by done. unfold on_line.
  destruct (Z.ltb_spec x2 x1); [by apply draw_clipped_draws; [|lia..]|].
  destruct (Z.eqb_spec x2 x1) as [->|]; cbn [orb andb]; [|by apply draw_clipped_draws; [|lia..]].
  destruct (Z.ltb_spec y2 y1); [|by apply draw_clipped_draws; [|lia..]].
  destruct (draw_clipped_draws pm x1 y2 x1 y1 s) as (s' & -> & Hd); [done|lia..|].
  exists s'. split; [done|]. eapply draws_ext; [|exact Hd]. intros x y _ _.
  apply on_segment_vertical.
Qed.

(** ** Rectangles *)

Lemma filled_rect_paints pm left bottom width height s :
  display_ready s -> width <> 0 -> height <> 0 ->
  - 2 ^ 31 <= left < 2 ^ 31 -> - 2 ^ 31 <= bottom < 2 ^ 31 ->
  - 2 ^ 31 <= left + width < 2 ^ 31 -> - 2 ^ 31 <= bottom + height < 2 ^ 31 ->
  exists s', CmdDrawRect left bottom width height pm DRAW_SHAPE_FILLED s = Some s'
    /\ draws pm (fun x y => (x <? 178)
         && in_rect (Z.min left (left + width)) (Z.max left (left + width))
              (Z.min bottom (bottom + height)) (Z.max bottom (bottom + height)) x (127 - y)) s s'.
Proof.
  intros Hs Hw Hh Hl Hb Hlw Hbh. unfold CmdDrawRect. rewrite !int_id by lia.
  cbn [mbind option_bind].
  assert (forall a b, (if b <? a then (b, a) else (a, b)) = (Z.min a b, Z.max a b)) as Hsort.
  { intros a b. destruct (Z.ltb_spec b a); f_equal; lia. }
  rewrite !Hsort. clear Hsort.
  assert (Z.min left (left + width) < Z.max left (left + width)) as Hx by lia.
  assert (Z.min bottom (bottom + height) < Z.max bottom (bottom + height)) as Hy by lia.
  revert Hx Hy. generalize (Z.min left (left + width)), (Z.max left (left + width)),
    (Z.min bottom (bottom + height)), (Z.max bottom (bottom + height)).
  intros x1 x2 y1 y2 Hx Hy.
  rewrite !(proj2 (Z.eqb_neq _ _)) by lia. cbn [orb]. change (_ =? DRAW_SHAPE_FILLED) with true.
  cbn match. change (LCD_HEIGHT - 1) with 127. change (LCD_WIDTH - 1) with 177.
  destruct (_ || _) eqn:E.
  { exists s. split; [done|]. apply draws_none; [done|]. intros x y Hx' Hy'. unfold in_rect. lia. }
  assert (forall z, (if z <? 0 then 0 else z) = Z.max 0 z) as Hmax.
  { intros z. destruct (Z.ltb_spec z 0); lia. }
  assert (forall a z, (if a <? z then a else z) = Z.min a z) as Hmin.
  { intros a z. destruct (Z.ltb_spec a z); lia. }
  rewrite !Hmax, !Hmin. unfold TRANSLATE_Y, LCD_HEIGHT. rewrite !u8_id by lia.
  destruct (fill_screen_draws pm (Z.max 0 x1) (128 - 1 - Z.min 127 y2)
    (Z.min 177 x2 - Z.max 0 x1 + 1) (Z.min 127 y2 - Z.max 0 y1 + 1) s)
    as (s' & -> & Hd & _); [done|lia..|].
  exists s'. split; [done|]. eapply draws_ext; [|exact Hd]. intros x y Hx' Hy'. cbv beta.
  unfold in_rect. lia.
Qed.

(** C28: A filled rectangle, given by any corner and signed extents, draws exactly its
    pixels that are on the screen, each once, through the byte masks of the fill. *)
Theorem filled_rect_draws pm left bottom width height s :
  display_ready s -> width <> 0 -> height <> 0 ->
  - 2 ^ 31 <= left < 2 ^ 31 -> - 2 ^ 31 <= bottom < 2 ^ 31 ->
  - 2 ^ 31 <= left + width < 2 ^ 31 -> - 2 ^ 31 <= bottom + height < 2 ^ 31 ->
  exists s', CmdDrawRect left bottom width height pm DRAW_SHAPE_FILLED s = Some s'
    /\ draws pm (fun x y => (x <? 178)
         && in_rect (Z.min left (left + width)) (Z.max left (left + width))
              (Z.min bottom (bottom + height)) (Z.max bottom (bottom + height)) x (127 - y)) s s'.
Proof. apply filled_rect_paints. Qed.

(** ** Ellipses *)

(** The call ends without leaving the buffer. *)
Definition drawn (r : option lcd) : Prop := exists s', r = Some s' /\ display_ready s'.

Lemma drawn_bind r k :
  drawn r -> (forall s', display_ready s' -> drawn (k s')) -> drawn (r ≫= k).
Proof. intros (s' & -> & Hs) Hk. by apply Hk. Qed.

Lemma drawn_ret s : display_ready s -> drawn (Some s).
Proof. intros Hs. by exists s. Qed.

(** Follows the calls of a drawing function. *)
Ltac drawn_steps :=
  repeat match goal with
  | |- drawn (Some _) => by apply drawn_ret
  | |- drawn (_ ≫= _) => apply drawn_bind; [|intros ? ?]
  | |- drawn (if ?b then _ else _) => destruct b eqn:?
  end.

Lemma drawn_clipped pm x1 y1 x2 y2 s :
  display_ready s -> 0 <= x1 <= x2 -> x2 < 178 -> 0 <= y1 < 128 -> 0 <= y2 < 128 ->
  drawn (draw_clipped x1 y1 x2 y2 pm s).
Proof.
  intros Hs ? ? ? ?. destruct (draw_clipped_draws pm x1 y1 x2 y2 s) as (s' & -> & Hd); [done..|].
  exists s'. split; [done|]. by eapply draws_ready.
Qed.

Lemma scaled_axis k p q : p = 0 \/ q = 0 -> scaled k p q = Some 0.
Proof. intros [-> | ->]; unfold scaled; cbn [Z.eqb negb andb]; [done|by rewrite andb_false_r]. Qed.

(** Trimming an end of a line along an axis does not move it sideways. *)
Lemma trim_plus (b : bool) k p q v :
  p = 0 \/ q = 0 -> -2 ^ 31 <= v < 2 ^ 31 ->
  (if b then k ← scaled k p q; int (v + k) else Some v) = Some v.
Proof.
  intros Hpq Hv. destruct b; [|done]. rewrite scaled_axis by done. cbn [mbind option_bind].
  rewrite Z.add_0_r. by apply int_id.
Qed.
Lemma trim_minus (b : bool) k p q v :
  p = 0 \/ q = 0 -> -2 ^ 31 <= v < 2 ^ 31 ->
  (if b then k ← scaled k p q; int (v - k) else Some v) = Some v.
Proof.
  intros Hpq Hv. destruct b; [|done]. rewrite scaled_axis by done. cbn [mbind option_bind].
  rewrite Z.sub_0_r. by apply int_id.
Qed.

(** A line along an axis is clipped to the screen. *)
Lemma drawn_axis pm x1 y1 x2 y2 s :
  display_ready s -> x1 = x2 \/ y1 = y2 ->
  - 2 ^ 30 <= x1 < 2 ^ 30 -> - 2 ^ 30 <= x2 < 2 ^ 30 ->
  - 2 ^ 30 <= y1 < 2 ^ 30 -> - 2 ^ 30 <= y2 < 2 ^ 30 ->
  drawn (CmdDrawLine x1 y1 x2 y2 pm s).
Proof.
  intros Hs Hax Hx1 Hx2 Hy1 Hy2. unfold CmdDrawLine. rewrite !int_id by lia.
  cbn [mbind option_bind].
  assert (exists a b c d, (if y2 <? y1 then (x2, y2, x1, y1) else (x1, y1, x2, y2)) = (a, b, c, d)
    /\ b <= d /\ (a = c \/ b = d) /\ -2 ^ 30 <= a < 2 ^ 30 /\ -2 ^ 30 <= c < 2 ^ 30)
    as (a & b & c & d & -> & Hbd & Hax' & Ha & Hc).
  { destruct (Z.ltb_spec y2 y1); do 4 eexists; (split; [done|]); lia. }
  cbn match. change LCD_HEIGHT with 128. change (128 - 1) with 127.
  destruct ((d <? 0) || (128 <=? b)) eqn:E; [by apply drawn_ret|].
  rewrite trim_plus by lia. cbn [mbind option_bind].
  rewrite trim_minus by lia. cbn [mbind option_bind].
  assert (0 <= Z.max 0 b < 128 /\ 0 <= Z.min 127 d < 128) as [Hb' Hd'] by lia.
  assert (exists e f g h, (if c <? a then (c, Z.min 127 d, a, Z.max 0 b)
      else (a, Z.max 0 b, c, Z.min 127 d)) = (e, f, g, h)
    /\ e <= g /\ 0 <= f < 128 /\ 0 <= h < 128) as (e & f & g & h & -> & Heg & Hf & Hh).
  { destruct (Z.ltb_spec c a); do 4 eexists; (split; [done|]); lia. }
  cbn match. change LCD_WIDTH with 178. change (178 - 1) with 177.
  destruct ((g <? 0) || (178 <=? e)) eqn:E2; [by apply drawn_ret|].
  rewrite trim_plus by lia. cbn [mbind option_bind].
  rewrite trim_minus by lia. cbn [mbind option_bind]. apply drawn_clipped; [done|lia..].
Qed.

Lemma drawn_line pm x1 y1 x2 y2 s :
  display_ready s -> 0 <= x1 < 178 -> 0 <= x2 < 178 -> 0 <= y1 < 128 -> 0 <= y2 < 128 ->
  drawn (CmdDrawLine x1 y1 x2 y2 pm s).
Proof.
  intros Hs Hx1 Hx2 Hy1 Hy2. rewrite CmdDrawLine_inside by done.
  destruct (_ || _) eqn:E; apply drawn_clipped; try done; lia.
Qed.

Lemma drawn_rect pm fm left bottom width height s :
  display_ready s -> - 2 ^ 20 <= left < 2 ^ 20 -> - 2 ^ 20 <= bottom < 2 ^ 20 ->
  - 2 ^ 20 <= width < 2 ^ 20 -> - 2 ^ 20 <= height < 2 ^ 20 ->
  drawn (CmdDrawRect left bottom width height pm fm s).
Proof.
  intros Hs Hl Hb Hw Hh.
  destruct (decide (fm = DRAW_SHAPE_FILLED /\ width <> 0 /\ height <> 0)) as [(-> & Hw0 & Hh0)|Hn].
  { destruct (filled_rect_paints pm left bottom width height s) as (s' & Hr & Hd); [done|lia..|].
    exists s'. split; [exact Hr|]. by eapply draws_ready. }
  unfold CmdDrawRect. rewrite !int_id by lia. cbn [mbind option_bind].
  assert (forall a b, (if b <? a then (b, a) else (a, b)) = (Z.min a b, Z.max a b)) as Hsort.
  { intros a b. destruct (Z.ltb_spec b a); f_equal; lia. }
  rewrite !Hsort.
  match goal with |- drawn (if ?b then _ else _) => destruct b eqn:E end;
    [apply drawn_axis; try done; lia|].
  destruct (Z.eqb_spec fm DRAW_SHAPE_FILLED) as [->|]; [destruct Hn; split_and!; [done|lia..]|].
  drawn_steps; apply drawn_axis; try done; lia.
Qed.

Lemma drawn_pixel X Y pm s :
  display_ready s -> - 2 ^ 20 <= Y < 2 ^ 20 -> drawn (CmdSetPixel X Y pm s).
Proof.
  intros Hs HY. unfold CmdSetPixel, TRANSLATE_Y. change LCD_HEIGHT with 128.
  rewrite int_id by lia. cbn [mbind option_bind]. destruct (on_screen _ _) eqn:E; [|by apply drawn_ret].
  apply screen_spec in E as [HX HY']. rewrite !u8_id by lia.
  destruct (draw_pixel pm X (128 - 1 - Y) s) as (s' & -> & Hd); [done|lia..|].
  exists s'. split; [done|]. by eapply draws_ready.
Qed.

Section ellipse.
Context (xc yc a b pm fm : Z).
Context (Hxc : - 2 ^ 15 <= xc < 2 ^ 15) (Hyc : - 2 ^ 15 <= yc < 2 ^ 15).
Context (Ha : 0 <= a <= 200) (Hb : 0 <= b <= 200).

(** The decision variable at the point [x], [y]: b^2 x (x + 1) + a^2 (y (y - 1) - b^2),
    and what is added to it in the comparisons. *)
Definition decision (x y : Z) : Z := b * b * (x * (x + 1)) + a * a * (y * (y - 1) - b * b).

Lemma square_range c : 0 <= c <= 200 -> 0 <= c * c <= 40000.
Proof. nia. Qed.
Lemma decision_range x y :
  0 <= x <= a + 1 -> -1 <= y <= b -> -1600000000 <= decision x y <= 1700000000.
Proof.
  intros Hx Hy. unfold decision. pose proof (square_range a Ha). pose proof (square_range b Hb).
  assert (0 <= x * (x + 1) <= 201 * 202) by nia.
  assert (0 <= y * (y - 1) <= b * b + 2).
  { destruct (Z.eq_dec y (-1)) as [->|]; [nia|]. assert (y * y <= b * b) by nia.
    destruct (Z.eq_dec y 0) as [->|]; nia. }
  assert (0 <= b * b * (x * (x + 1)) <= 40000 * (201 * 202)) by nia.
  assert (a * a * (b * b) <= 40000 * 40000) by nia.
  assert (- (a * a * (b * b)) <= a * a * (y * (y - 1) - b * b) <= a * a * 2) by nia.
  lia.
Qed.
Lemma scaled_range c k : 0 <= c <= 200 -> -1 <= k <= 201 -> -40000 <= c * c * k <= 8040000.
Proof. intros Hc Hk. pose proof (square_range c Hc). nia. Qed.

(** The variables of the loop stay in their types and the point in the box. *)
Definition ellipse_ok (e : ellipse) : Prop :=
  0 <= e_x e <= a + 1 /\ -1 <= e_y e <= b
  /\ - 2 ^ 15 <= e_rx e < 2 ^ 15 /\ - 2 ^ 15 <= e_ry e < 2 ^ 15
  /\ 0 <= e_width e < 2 ^ 16 /\ 0 <= e_height e < 2 ^ 16
  /\ e_t e = decision (e_x e) (e_y e)
  /\ e_dxt e = 2 * (b * b) * e_x e /\ e_dyt e = - 2 * (a * a) * e_y e.

(** The steps left for the point. *)
Definition steps_left (e : ellipse) : Z := (a + 1 - e_x e) + (e_y e + 1).

Lemma i16_range z : - 2 ^ 15 <= i16 z < 2 ^ 15.
Proof. unfold i16. pose proof (Z.mod_pos_bound (z + 2 ^ 15) (2 ^ 16)). lia. Qed.

Lemma incx_ok e : ellipse_ok e -> e_x e <= a ->
  exists e', incx b e = Some e' /\ ellipse_ok e' /\ steps_left e' = steps_left e - 1
    /\ e_y e' = e_y e.
Proof.
  intros (H1 & H2 & H3 & H4 & H5 & H6 & Ht & Hdx & Hdy) Hx. unfold incx.
  pose proof (scaled_range b (e_x e + 1) Hb ltac:(lia)).
  replace (e_dxt e + 2 * (b * b)) with (2 * (b * b) * (e_x e + 1)) by lia.
  rewrite int_id by lia. cbn [mbind option_bind].
  replace (e_t e + 2 * (b * b) * (e_x e + 1)) with (decision (e_x e + 1) (e_y e))
    by (rewrite Ht; unfold decision; ring).
  pose proof (decision_range (e_x e + 1) (e_y e) ltac:(lia) H2).
  rewrite int_id by lia. cbn [mbind option_bind].
  eexists. split; [done|]. unfold ellipse_ok, steps_left.
  cbn [e_x e_y e_rx e_ry e_width e_height e_t e_dxt e_dyt]. rewrite i16_id by lia.
  split_and!; try done; lia.
Qed.
Lemma incy_ok e : ellipse_ok e -> 0 <= e_y e ->
  exists e', incy a e = Some e' /\ ellipse_ok e' /\ steps_left e' = steps_left e - 1
    /\ e_x e' = e_x e.
Proof.
  intros (H1 & H2 & H3 & H4 & H5 & H6 & Ht & Hdx & Hdy) Hy. unfold incy.
  pose proof (scaled_range a (e_y e - 1) Ha ltac:(lia)).
  replace (e_dyt e + 2 * (a * a)) with (- 2 * (a * a) * (e_y e - 1)) by lia.
  rewrite int_id by lia. cbn [mbind option_bind].
  replace (e_t e + - 2 * (a * a) * (e_y e - 1)) with (decision (e_x e) (e_y e - 1))
    by (rewrite Ht; unfold decision; ring).
  pose proof (decision_range (e_x e) (e_y e - 1) H1 ltac:(lia)).
  rewrite int_id by lia. cbn [mbind option_bind].
  eexists. split; [done|]. unfold ellipse_ok, steps_left.
  cbn [e_x e_y e_rx e_ry e_width e_height e_t e_dxt e_dyt]. rewrite i16_id by lia.
  split_and!; try done; lia.
Qed.
Lemma set_band_ok rx ry w h e : ellipse_ok e ->
  ellipse_ok (set_band rx ry w h e) /\ steps_left (set_band rx ry w h e) = steps_left e.
Proof.
  intros (H1 & H2 & _ & _ & _ & _ & H). unfold ellipse_ok, steps_left, set_band.
  cbn [e_x e_y e_rx e_ry e_width e_height e_t e_dxt e_dyt].
  pose proof (i16_range rx). pose proof (i16_range ry).
  pose proof (u16_range w). pose proof (u16_range h).
  split; [|lia]. split_and!; try done; try lia; apply H.
Qed.

Lemma drawn_bands e s : display_ready s -> ellipse_ok e -> drawn (ellipse_bands xc yc pm fm e s).
Proof.
  intros Hs (H1 & H2 & H3 & H4 & H5 & H6 & _). unfold ellipse_bands.
  drawn_steps; apply drawn_rect; try done; lia.
Qed.
Lemma drawn_band e s : display_ready s -> ellipse_ok e -> drawn (ellipse_band xc yc pm fm e s).
Proof. intros Hs (H1 & H2 & H3 & H4 & H5 & H6 & _). apply drawn_rect; try done; lia. Qed.
Lemma drawn_points e s : display_ready s -> ellipse_ok e -> drawn (ellipse_points xc yc pm e s).
Proof.
  intros Hs (H1 & H2 & _). unfold ellipse_points. drawn_steps; apply drawn_pixel; try done; lia.
Qed.

(** A branch of the loop ends and brings the point closer to the axis. *)
Definition advances (e : ellipse) (r : option (ellipse * lcd)) : Prop :=
  exists e' s', r = Some (e', s') /\ display_ready s' /\ ellipse_ok e'
    /\ steps_left e' < steps_left e.

Lemma drawn_advances e r (k : lcd -> option (ellipse * lcd)) :
  drawn r -> (forall s', display_ready s' -> advances e (k s')) -> advances e (r ≫= k).
Proof. intros (s' & -> & Hs) Hk. by apply Hk. Qed.

(** The four ends of the branches. *)
Lemma incx_advances e e0 s :
  display_ready s -> ellipse_ok e -> e_x e <= a -> steps_left e = steps_left e0 ->
  advances e0 (e ← incx b e; Some (e, s)).
Proof.
  intros Hs He Hx Hst. destruct (incx_ok e He Hx) as (e' & -> & He' & Hst' & _).
  cbn [mbind option_bind]. exists e', s. split_and!; [done..|lia].
Qed.
Lemma both_advance e e0 s :
  display_ready s -> ellipse_ok e -> e_x e <= a -> 0 <= e_y e -> steps_left e = steps_left e0 ->
  advances e0 (e ← incx b e; e ← incy a e; Some (e, s)).
Proof.
  intros Hs He Hx Hy Hst. destruct (incx_ok e He Hx) as (e1 & -> & He1 & Hst1 & Hy1).
  cbn [mbind option_bind]. destruct (incy_ok e1 He1 ltac:(lia)) as (e2 & -> & He2 & Hst2 & _).
  cbn [mbind option_bind]. exists e2, s. split_and!; [done..|lia].
Qed.

Lemma right_advances e s :
  display_ready s -> ellipse_ok e -> e_x e <= a -> advances e (ellipse_right xc yc b pm fm e s).
Proof.
  intros Hs He Hx.
  assert (forall rx ry w h s', display_ready s' ->
    advances e (e ← incx b (set_band rx ry w h e); Some (e, s'))) as Hband.
  { intros rx ry w h s' Hs'. destruct (set_band_ok rx ry w h e He) as [Hok Hst].
    by apply incx_advances. }
  unfold ellipse_right. destruct (filled fm); [|by apply incx_advances].
  destruct (_ =? 1); cbn [mbind option_bind]; [by apply Hband|].
  destruct (_ <? _).
  - destruct (drawn_bands e s Hs He) as (s' & -> & Hs'). cbn [mbind option_bind]. by apply Hband.
  - destruct (drawn_band e s Hs He) as (s' & -> & Hs'). cbn [mbind option_bind]. by apply Hband.
Qed.

Lemma down_advances e s :
  display_ready s -> ellipse_ok e -> 0 <= e_y e -> advances e (ellipse_down a fm e s).
Proof.
  intros Hs He Hy. destruct (incy_ok e He Hy) as (e' & Hi & Hok & Hst & _).
  unfold ellipse_down. rewrite Hi. cbn [mbind option_bind].
  eexists _, _. split; [done|]. destruct (filled fm); [|split_and!; [done..|lia]].
  destruct (set_band_ok (e_rx e') (e_ry e') (e_width e') (e_height e' + 1) e' Hok) as [Hok' Hst'].
  split_and!; [done..|lia].
Qed.

Lemma diagonal_advances e s :
  display_ready s -> ellipse_ok e -> e_x e <= a -> 0 <= e_y e ->
  advances e (ellipse_diagonal xc yc a b pm fm e s).
Proof.
  intros Hs He Hx Hy. unfold ellipse_diagonal. destruct (filled fm); [|by apply both_advance].
  destruct (set_band_ok (e_rx e + 1) (e_ry e - e_height e) (e_width e + 2) 1 e He) as [Hok Hst].
  apply drawn_advances; [|intros s' Hs'; by apply both_advance].
  destruct (_ <? _); [by apply drawn_bands|by apply drawn_band].
Qed.

(** The comparisons do not overflow. *)
Lemma goes_right_defined e : ellipse_ok e -> is_Some (goes_right a b e).
Proof.
  intros (H1 & H2 & H3 & H4 & H5 & H6 & Ht & _). unfold goes_right.
  pose proof (decision_range _ _ H1 H2). pose proof (scaled_range b (e_x e) Hb ltac:(lia)).
  pose proof (scaled_range a (e_y e) Ha ltac:(lia)).
  rewrite (int_id (b * b * e_x e)), (int_id (a * a * e_y e)) by lia. cbn [mbind option_bind].
  rewrite (int_id (e_t e + b * b * e_x e)) by lia. cbn [mbind option_bind].
  case_match; [done|]. rewrite int_id by lia. done.
Qed.
Lemma goes_down_defined e : ellipse_ok e -> is_Some (goes_down a b e).
Proof.
  intros (H1 & H2 & H3 & H4 & H5 & H6 & Ht & _). unfold goes_down.
  pose proof (decision_range _ _ H1 H2). pose proof (scaled_range a (e_y e) Ha ltac:(lia)).
  rewrite (int_id (a * a * e_y e)) by lia. cbn [mbind option_bind].
  rewrite int_id by lia. done.
Qed.

Lemma ellipse_loop_ends fuel e s :
  display_ready s -> ellipse_ok e -> steps_left e < Z.of_nat fuel ->
  exists e' s', ellipse_loop xc yc a b pm fm fuel e s = Some (e', s')
    /\ display_ready s' /\ ellipse_ok e'.
Proof.
  revert e s. induction fuel as [|fuel IH]; intros e s Hs He Hf.
  { destruct He as (H1 & H2 & _). unfold steps_left in Hf. lia. }
  cbn [ellipse_loop]. destruct (_ && _) eqn:E; [|by exists e, s].
  assert (drawn (if filled fm then Some s else ellipse_points xc yc pm e s)) as (s1 & -> & Hs1).
  { destruct (filled fm); [by apply drawn_ret|by apply drawn_points]. }
  cbn [mbind option_bind]. destruct (goes_right_defined e He) as [right ->].
  cbn [mbind option_bind].
  match goal with |- context [mbind (M := option) _ ?r] => assert (advances e r) as Hadv end.
  { destruct right; [apply right_advances; [done..|lia]|].
    destruct (goes_down_defined e He) as [down ->]. cbn [mbind option_bind].
    destruct down; [apply down_advances; [done..|lia]|apply diagonal_advances; [done..|lia|lia]]. }
  destruct Hadv as (e' & s' & -> & Hs' & He' & Hst). cbn [mbind option_bind].
  apply IH; [done..|lia].
Qed.

Lemma drawn_ellipse s : display_ready s -> drawn (CmdDrawEllipse xc yc a b pm fm s).
Proof.
  intros Hs. unfold CmdDrawEllipse.
  pose proof (scaled_range a b Ha ltac:(lia)). pose proof (square_range a Ha).
  pose proof (square_range b Hb).
  rewrite (int_id (- (a * a) * b)), (int_id (2 * (b * b))), (int_id (2 * (a * a))) by lia.
  cbn [mbind option_bind]. rewrite (int_id (- (2 * (a * a)) * b)) by lia.
  cbn [mbind option_bind].
  destruct (Z.eqb_spec b 0); [apply drawn_rect; [done|lia..]|].
  destruct (Z.eqb_spec a 0); [apply drawn_rect; [done|lia..]|].
  match goal with |- context [ellipse_loop _ _ _ _ _ _ ?f ?e s] =>
    destruct (ellipse_loop_ends f e s) as (e' & s' & -> & Hs' & He') end;
    [done|unfold ellipse_ok, decision; cbn; lia|unfold steps_left; cbn [e_x e_y]; lia|].
  cbn [mbind option_bind].
  destruct (filled fm); [|by apply drawn_ret].
  destruct (_ <? _); [by apply drawn_bands|by apply drawn_band].
Qed.

(** C30: The ellipse with radii of at most 200 and any centre and mode is drawn in at most a
    + b + 2 rounds; its 32-bit decision variable does not overflow and no store leaves the
    display buffer. *)
Theorem ellipse_terminates s :
  display_ready s ->
  exists s', CmdDrawEllipse xc yc a b pm fm s = Some s' /\ display_ready s'.
Proof. apply drawn_ellipse. Qed.
End ellipse.

(** ** A row too many *)

(** A horizontal line in row 128 is not refused and leaves the buffer. *)
Lemma line_x_below pm s : display_ready s -> DisplayLineX 0 7 128 pm s = None.
Proof.
  intros (Hi & Hl & Hp). unfold DisplayLineX.
  change (LCD_HEIGHT <? 128) with false. change (7 <? 0) with false.
  change (LCD_WIDTH - 1 <? 7) with false. cbn match. unfold display, on_display. rewrite Hl.
  assert (forall c M, 0 <= c -> mask_at pm (c + LCD_BYTE_WIDTH * 128) M (displayBuf s) = None) as Hm.
  { intros c M Hc. unfold mask_at, peek. change (LCD_BYTE_WIDTH * 128) with 2944.
    rewrite (proj2 (Z.ltb_ge _ _)) by lia.
    rewrite lookup_ge_None_2; [done|]. rewrite (image_length _ Hp). lia. }
  assert (forall c M, 0 <= c -> fill_column pm c M 128 128 (displayBuf s) = None) as Hcol.
  { intros c M Hc. unfold fill_column. change (Z.to_nat (128 - 128 + 1)) with 1%nat. cbn [loop].
    by rewrite Hm. }
  unfold fill_region, fill_columns. change (0 / 8 * 8 <=? 7) with true. cbv iota.
  by rewrite Hcol.
Qed.
