(* ===== verification/LcdWindow.v ===== *)
(** * LcdWindow: scrolling and filling rows (src/util/cat/ev3_lcd.c)

    LcdScroll and LcdFillWindow write whole rows with memmove and memset; here
    is what they do to the pixels. *)

From S2P Require Import Prelude.
From S2P Require Import Timer.
From S2P Require Import Lcd.
From S2P Require Import LcdFrame.
From S2P Require Import LcdDraw.
From S2P Require Import LcdPaint.

(** ** Bytes *)

Definition byte_at (p : list Z) (j : Z) : Z := nth (Z.to_nat j) p 0.

Lemma splice_byte o (new p : list Z) j :
  0 <= o -> o + zlen new <= zlen p -> 0 <= j ->
  byte_at (splice (Z.to_nat o) new p) j
  = if (o <=? j) && (j <? o + zlen new) then byte_at new (j - o) else byte_at p j.
Proof.
  intros Ho Hl Hj. unfold byte_at, splice, zlen in *.
  assert (length (take (Z.to_nat o) p) = Z.to_nat o) as Ht by (rewrite length_take; lia).
  destruct (Z.leb_spec o j); cbn [andb].
  - rewrite app_nth2 by lia. rewrite Ht. destruct (Z.ltb_spec j (o + Z.of_nat (length new))).
    + rewrite app_nth1 by lia. f_equal. lia.
    + rewrite app_nth2 by lia. rewrite !nth_lookup, lookup_drop. do 2 f_equal. lia.
  - rewrite app_nth1 by lia. rewrite !nth_lookup, lookup_take_lt by lia. done.
Qed.

Lemma splice_image o (new p : list Z) :
  image_ok p -> bytes_ok new -> 0 <= o -> o + zlen new <= 2944 ->
  image_ok (splice (Z.to_nat o) new p).
Proof.
  intros [Hb Hz] Hn Ho Hl. change LCD_BUFFER_SIZE with 2944 in *. split.
  - by apply bytes_ok_splice.
  - rewrite zlen_splice; [done|]. unfold zlen in *. lia.
Qed.

Lemma fill_bytes p i v n :
  image_ok p -> 0 <= i -> 0 <= n -> i + n <= 2944 ->
  exists q, fill p i v n = Some q /\ image_ok q
    /\ forall j, 0 <= j -> byte_at q j = if (i <=? j) && (j <? i + n) then u8 v else byte_at p j.
Proof.
  intros Hp Hi Hn Hl. pose proof Hp as [_ Hz]. change LCD_BUFFER_SIZE with 2944 in Hz. unfold fill.
  replace ((i <? 0) || (n <? 0) || (zlen p <? i + n)) with false by lia.
  assert (zlen (replicate (Z.to_nat n) (u8 v)) = n) as Hr by (unfold zlen; rewrite length_replicate; lia).
  eexists. split; [done|]. split.
  - apply splice_image; [done| |lia|lia]. apply Forall_replicate. apply Z.mod_pos_bound. lia.
  - intros j Hj. rewrite splice_byte, Hr by lia.
    destruct ((i <=? j) && (j <? i + n)) eqn:E; [|done]. unfold byte_at.
    apply nth_lookup_Some, lookup_replicate_2. lia.
Qed.

Lemma move_bytes p dst src n :
  image_ok p -> 0 <= dst -> 0 <= src -> 0 <= n -> dst + n <= 2944 -> src + n <= 2944 ->
  exists q, move p dst src n = Some q /\ image_ok q
    /\ forall j, 0 <= j ->
         byte_at q j = if (dst <=? j) && (j <? dst + n) then byte_at p (j - dst + src) else byte_at p j.
Proof.
  intros Hp Hd Hs Hn Hl1 Hl2. pose proof Hp as [Hb Hz]. change LCD_BUFFER_SIZE with 2944 in Hz.
  unfold move.
  replace ((dst <? 0) || (src <? 0) || (n <? 0) || (zlen p <? dst + n) || (zlen p <? src + n))
    with false by lia.
  assert (zlen (slice (Z.to_nat src) (Z.to_nat n) p) = n) as Hr
    by (unfold zlen in *; rewrite length_slice; lia).
  eexists. split; [done|]. split; [apply splice_image; [done|by apply bytes_ok_slice|lia|lia]|].
  intros j Hj. rewrite splice_byte, Hr by lia.
  destruct ((dst <=? j) && (j <? dst + n)) eqn:E; [|done]. unfold byte_at, slice.
  rewrite !nth_lookup, lookup_take_lt, lookup_drop by lia. do 2 f_equal. lia.
Qed.

(** The byte of a pixel is in the rows from [a] to [b]. *)
Lemma row_byte x y a b : 0 <= x < 184 ->
  (23 * a <=? x / 8 + y * 23) && (x / 8 + y * 23 <? 23 * b) = (a <=? y) && (y <? b).
Proof.
  intros Hx. assert (0 <= x / 8 < 23) by (split; [apply Z.div_pos|apply Z.div_lt_upper_bound]; lia).
  lia.
Qed.

Lemma pixel_byte p x y : pixel p x y = Z.testbit (byte_at p (x / 8 + y * 23)) (x mod 8).
Proof. done. Qed.

Lemma byte_index x y : 0 <= x < 184 -> 0 <= y -> 0 <= x / 8 + y * 23.
Proof. intros Hx Hy. pose proof (Z.div_pos x 8). lia. Qed.

(** ** Scrolling *)

Lemma scroll_moves Y p :
  image_ok p ->
  exists q, scroll Y p = Some q /\ image_ok q
    /\ forall x y, 0 <= x < 184 -> 0 <= y < 128 ->
         pixel q x y = if (-128 <? Y) && (Y <? 128)
           then (0 <=? y + Y) && (y + Y <? 128) && pixel p x (y + Y) else pixel p x y.
Proof.
  intros Hp. unfold scroll. change LCD_BYTE_WIDTH with 23. change (- LCD_HEIGHT) with (-128).
  change LCD_HEIGHT with 128.
  destruct ((0 <? Y) && (Y <? 128)) eqn:E1; [|destruct ((Y <? 0) && (-128 <? Y)) eqn:E2].
  - destruct (move_bytes p 0 (23 * Y) ((128 - Y) * 23)) as (q & -> & Hq & Hqb); [done|lia..|].
    cbn [mbind option_bind].
    destruct (fill_bytes q ((128 - Y) * 23) 0 (23 * Y)) as (r & -> & Hr & Hrb); [done|lia..|].
    exists r. split; [done|]. split; [done|]. intros x y Hx Hy.
    pose proof (byte_index x y Hx ltac:(lia)). rewrite !pixel_byte, Hrb, Hqb by done.
    pose proof (row_byte x y (128 - Y) 128 Hx) as R1. pose proof (row_byte x y 0 (128 - Y) Hx) as R2.
    replace ((128 - Y) * 23 + 23 * Y) with (23 * 128) by lia.
    rewrite (Z.mul_comm (128 - Y) 23), R1. replace (0 + 23 * (128 - Y)) with (23 * (128 - Y)) by lia.
    change (23 * 0) with 0 in R2. rewrite R2.
    replace ((-128 <? Y) && (Y <? 128)) with true by lia.
    destruct (Z.leb_spec (128 - Y) y).
    + replace (y <? 128) with true by lia. replace (y + Y <? 128) with false by lia.
      rewrite andb_false_r. apply Z.testbit_0_l.
    + cbn [andb]. replace ((0 <=? y) && (y <? 128 - Y)) with true by lia.
      replace ((0 <=? y + Y) && (y + Y <? 128)) with true by lia. cbn [andb]. do 2 f_equal. lia.
  - destruct (move_bytes p (23 * - Y) 0 ((128 - - Y) * 23)) as (q & -> & Hq & Hqb); [done|lia..|].
    cbn [mbind option_bind].
    destruct (fill_bytes q 0 0 (23 * - Y)) as (r & -> & Hr & Hrb); [done|lia..|].
    exists r. split; [done|]. split; [done|]. intros x y Hx Hy.
    pose proof (byte_index x y Hx ltac:(lia)). rewrite !pixel_byte, Hrb, Hqb by done.
    pose proof (row_byte x y 0 (- Y) Hx) as R1. pose proof (row_byte x y (- Y) 128 Hx) as R2.
    change (23 * 0) with 0 in R1. rewrite Z.add_0_l, R1.
    replace (23 * - Y + (128 - - Y) * 23) with (23 * 128) by lia. rewrite R2.
    replace ((-128 <? Y) && (Y <? 128)) with true by lia.
    destruct (Z.ltb_spec y (- Y)).
    + replace (0 <=? y) with true by lia. replace (0 <=? y + Y) with false by lia.
      apply Z.testbit_0_l.
    + rewrite andb_false_r. replace ((- Y <=? y) && (y <? 128)) with true by lia.
      replace ((0 <=? y + Y) && (y + Y <? 128)) with true by lia. cbn [andb]. do 2 f_equal. lia.
  - exists p. split; [done|]. split; [done|]. intros x y Hx Hy.
    destruct (Z.eq_dec Y 0) as [->|].
    + rewrite Z.add_0_r. change ((-128 <? 0) && (0 <? 128)) with true. cbn match.
      by replace ((0 <=? y) && (y <? 128)) with true by lia.
    + by replace ((-128 <? Y) && (Y <? 128)) with false by lia.
Qed.

(** LcdScroll moves the display by less than its height up, or down for negative arguments,
    clears the rows that become free, and does nothing for larger distances. *)
Theorem scroll_shifts Y s :
  display_ready s ->
  exists q, LcdScroll Y s = Some (true, set_display q s) /\ image_ok q
    /\ forall x y, 0 <= x < 184 -> 0 <= y < 128 ->
         pixel q x y = if (-128 <? Y) && (Y <? 128)
           then (0 <=? y + Y) && (y + Y <? 128) && pixel (displayBuf s) x (y + Y)
           else pixel (displayBuf s) x y.
Proof.
  intros (Hi & Hl & Hp). destruct (scroll_moves Y (displayBuf s) Hp) as (q & Hs & Hq).
  exists q. split; [|done]. unfold LcdScroll, on_display. by rewrite Hi, Hl, Hs.
Qed.

(** ** Filling *)

(** Rows of one byte. *)
Lemma fill_rows p a b v :
  image_ok p -> 0 <= a <= b -> b <= 128 ->
  exists q, fill p (23 * a) v (23 * (b - a)) = Some q /\ image_ok q
    /\ forall x y, 0 <= x < 184 -> 0 <= y < 128 ->
         pixel q x y = if (a <=? y) && (y <? b) then Z.testbit (u8 v) (x mod 8) else pixel p x y.
Proof.
  intros Hp Ha Hb. destruct (fill_bytes p (23 * a) v (23 * (b - a))) as (q & Hf & Hq & Hqb);
    [done|lia..|].
  exists q. split; [done|]. split; [done|]. intros x y Hx Hy.
  rewrite !pixel_byte, Hqb by (apply byte_index; lia).
  replace (23 * a + 23 * (b - a)) with (23 * b) by lia. rewrite row_byte by done.
  by destruct (_ && _).
Qed.

Lemma testbit_u8 v k : 0 <= k < 8 -> Z.testbit (u8 v) k = Z.testbit v k.
Proof. intros Hk. unfold u8. by rewrite Z.mod_pow2_bits_low by lia. Qed.

(** Rows that alternate between a byte and its complement. *)
Lemma stripes_rows n T Color p :
  image_ok p -> 0 <= T -> T + Z.of_nat n <= 128 ->
  exists q, stripes n T Color p = Some q /\ image_ok q
    /\ forall x y, 0 <= x < 184 -> 0 <= y < 128 ->
         pixel q x y = if (T <=? y) && (y <? T + Z.of_nat n)
           then xorb (Z.odd (y - T)) (Z.testbit Color (x mod 8)) else pixel p x y.
Proof.
  revert T Color p. induction n as [|n IH]; intros T Color p Hp HT Hn; cbn [stripes].
  { exists p. split; [done|]. split; [done|]. intros x y _ _. change (Z.of_nat 0) with 0.
    by replace ((T <=? y) && (y <? T + 0)) with false by lia. }
  rewrite Nat2Z.inj_succ in *. unfold Z.succ in *.
  change LCD_BYTE_WIDTH with 23. rewrite i16_id by lia.
  destruct (fill_rows p T (T + 1) Color) as (q & Hf & Hq & Hqp); [done|lia..|].
  replace (23 * (T + 1 - T)) with 23 in Hf by lia. rewrite Z.mul_comm, Hf. cbn [mbind option_bind].
  destruct (IH (T + 1) (u8 (Z.lnot Color)) q Hq) as (r & -> & Hr & Hrp); [lia..|].
  exists r. split; [done|]. split; [done|]. intros x y Hx Hy. rewrite Hrp, Hqp by done.
  pose proof (Z.mod_pos_bound x 8 ltac:(lia)). set (m := Z.of_nat n) in *.
  destruct (Z.eqb_spec y T) as [->|Hy0].
  - replace ((T + 1 <=? T) && (T <? T + 1 + m)) with false by lia.
    replace ((T <=? T) && (T <? T + 1)) with true by lia.
    replace ((T <=? T) && (T <? T + (m + 1))) with true by lia.
    rewrite Z.sub_diag. by rewrite testbit_u8 by lia.
  - replace ((T <=? y) && (y <? T + 1)) with false by lia.
    replace ((T + 1 <=? y) && (y <? T + 1 + m)) with ((T <=? y) && (y <? T + (m + 1))) by lia.
    destruct ((T <=? y) && (y <? T + (m + 1))); [|done].
    rewrite testbit_u8, Z.lnot_spec by lia. replace (y - T) with (Z.succ (y - (T + 1))) by lia.
    rewrite Z.odd_succ, <- Z.negb_odd. by destruct (Z.odd _), (Z.testbit _ _).
Qed.

(** The rows LcdFillWindow fills; [Y1] is a number of rows for the colours 0 and
    1, and the row behind the last one for a pattern. *)
Definition window_end (Color Y Y1 : Z) : Z :=
  if Y1 =? 0 then 128 else if (Color =? 0) || (Color =? 1) then Y + Y1 else Y1.
Definition window_pixel (Color Y x y : Z) : bool :=
  if (Color =? 0) || (Color =? 1) then Color =? 1
  else xorb (Z.odd (y - Y)) (Z.testbit Color (x mod 8)).

Lemma fill_window_rows Color Y Y1 p :
  image_ok p -> 0 <= Y -> 0 <= Y1 -> Y + Y1 < 128 ->
  exists q, fill_window Color Y Y1 p = Some q /\ image_ok q
    /\ forall x y, 0 <= x < 184 -> 0 <= y < 128 ->
         pixel q x y = if (Y <=? y) && (y <? window_end Color Y Y1)
           then window_pixel Color Y x y else pixel p x y.
Proof.
  intros Hp HY HY1 Hs. unfold fill_window, window_end, window_pixel. change LCD_HEIGHT with 128.
  change LCD_BYTE_WIDTH with 23. change LCD_BUFFER_SIZE with 2944. rewrite (proj2 (Z.ltb_lt _ _)) by lia.
  destruct ((Color =? 0) || (Color =? 1)) eqn:Ec.
  - set (e := if Y1 =? 0 then 128 else Y + Y1).
    assert (Y <= e <= 128) as He by (unfold e; destruct (Z.eqb_spec Y1 0); lia).
    destruct (fill_rows p Y e (if Color =? 0 then 0 else 255)) as (q & Hf & Hq & Hqp); [done|lia..|].
    exists q. split.
    { rewrite <- Hf, (Z.mul_comm Y), (Z.mul_comm Y1). unfold e.
      destruct (Z.eqb_spec Y1 0); rewrite !i16_id by lia; f_equal; lia. }
    split; [done|]. intros x y Hx Hy. rewrite Hqp by done.
    destruct ((Y <=? y) && (y <? e)); [|done]. pose proof (Z.mod_pos_bound x 8 ltac:(lia)).
    destruct (Z.eqb_spec Color 0) as [->|]; [by rewrite testbit_u8, Z.testbit_0_l by lia|].
    rewrite testbit_u8 by lia. change 255 with (Z.ones 8). rewrite Z.ones_spec_low by lia. lia.
  - set (e := if Y1 =? 0 then 128 else Y1).
    assert (0 <= e <= 128) as He by (unfold e; destruct (Z.eqb_spec Y1 0); lia).
    destruct (Z.leb_spec e Y).
    + replace (Z.to_nat (e - Y)) with 0%nat by lia. exists p. split; [done|]. split; [done|].
      intros x y _ _. by replace ((Y <=? y) && (y <? e)) with false by lia.
    + destruct (stripes_rows (Z.to_nat (e - Y)) Y Color p) as (q & Hf & Hq & Hqp); [done|lia|lia|].
      exists q. split; [done|]. split; [done|]. intros x y Hx Hy. rewrite Hqp by done.
      rewrite Z2Nat.id by lia. by replace (Y + (e - Y)) with e by lia.
Qed.

(** LcdFillWindow fills rows in the colours 0 and 1 and with a pattern of eight pixels that
    is complemented from row to row; when the rows would reach below the display it fills
    nothing. *)
Theorem window_fills Color Y Y1 s :
  display_ready s -> 0 <= Y -> 0 <= Y1 ->
  exists q, LcdFillWindow Color Y Y1 s
      = Some (true, set_dirty true (set_display q (set_font FONTTYPE_NORMAL s)))
    /\ image_ok q
    /\ forall x y, 0 <= x < 184 -> 0 <= y < 128 ->
         pixel q x y = if (Y + Y1 <? 128) && (Y <=? y) && (y <? window_end Color Y Y1)
           then window_pixel Color Y x y else pixel (displayBuf s) x y.
Proof.
  intros (Hi & Hl & Hp) HY HY1. unfold LcdFillWindow, on_display. rewrite Hi.
  cbn [negb pLcd set_font displayBuf]. rewrite Hl. destruct (Z.ltb_spec (Y + Y1) 128) as [Hs|Hs].
  - destruct (fill_window_rows Color Y Y1 (displayBuf s) Hp HY HY1 Hs) as (q & -> & Hq).
    by exists q.
  - unfold fill_window. change LCD_HEIGHT with 128. rewrite (proj2 (Z.ltb_ge _ _)) by lia.
    by exists (displayBuf s).
Qed.

(** Ten rows from row 20 on in colour 1, and none in any pattern: there the second argument
    is the row behind the last. *)
Theorem window_rows_differ :
  window_end 1 20 10 = 30 /\ forall Color, 1 < Color -> window_end Color 20 10 < 20.
Proof.
  split; [done|]. intros Color HC. unfold window_end. cbn [Z.eqb].
  by replace ((Color =? 0) || (Color =? 1)) with false by lia.
Qed.
