(* ===== verification/LcdText.v ===== *)
(** * LcdText: the pixels of text and bitmaps

    [replaced img p q]: the buffer [q] shows the image [img] where that is
    defined and [p] elsewhere.  The library writes characters and bitmaps whole
    bytes at a time where they are byte aligned and pixel by pixel where they
    are not; both are shown to draw the same image, given by a formula over the
    bits of the font or the bitmap. *)

From S2P Require Import Prelude.
From S2P Require Import Timer.
From S2P Require Import Lcd.
From S2P Require Import LcdFrame.
From S2P Require Import LcdDraw.
From S2P Require Import LcdPaint.

(** ** Images *)

Definition image : Type := Z -> Z -> option bool.

(** [a] in front of [b]. *)
Definition over (a b : image) : image :=
  fun x y => match a x y with Some v => Some v | None => b x y end.

(** A box of [w] x [h] pixels; [Color] 0 shows the complement. *)
Definition picture (bit : Z -> Z -> bool) (Color X Y w h : Z) : image := fun x y =>
  if (X <=? x) && (x <? X + w) && (Y <=? y) && (y <? Y + h)
  then Some (xorb (Color =? 0) (bit (x - X) (y - Y))) else None.

(** Bit [k] of the bytes from [i]. *)
Definition bit_at (bits : list Z) (i k : Z) : bool :=
  Z.testbit (nth (Z.to_nat (i + k / 8)) bits 0) (k mod 8).

(** Of the pixels on the screen. *)
Definition replaced (img : image) (p q : list Z) : Prop :=
  image_ok q /\ forall x y, 0 <= x < 178 -> 0 <= y < 128 ->
    pixel q x y = default (pixel p x y) (img x y).

Lemma replaced_none img p :
  image_ok p -> (forall x y, 0 <= x < 178 -> 0 <= y < 128 -> img x y = None) -> replaced img p p.
Proof. intros Hp Hn. split; [done|]. intros x y Hx Hy. by rewrite Hn. Qed.

Lemma replaced_ext a b p q :
  (forall x y, 0 <= x < 178 -> 0 <= y < 128 ->
     default (pixel p x y) (a x y) = default (pixel p x y) (b x y)) ->
  replaced a p q -> replaced b p q.
Proof. intros He [Hq H]. split; [done|]. intros x y Hx Hy. by rewrite H, He. Qed.

Lemma replaced_over a b p q r : replaced b p q -> replaced a q r -> replaced (over a b) p r.
Proof.
  intros [Hq HA] [Hr HB]. split; [done|]. intros x y Hx Hy. rewrite HB by done. unfold over.
  destruct (a x y); [done|]. cbn. by apply HA.
Qed.

(** ** A byte and a pixel *)

Lemma poke_replaces c y0 v p :
  image_ok p -> 0 <= c < 23 -> 0 <= y0 < 128 ->
  exists q, poke p (c + y0 * LCD_BYTE_WIDTH) v = Some q
    /\ replaced (fun x y => if (x / 8 =? c) && (y =? y0) then Some (Z.testbit v (x mod 8)) else None)
         p q.
Proof.
  intros Hp Hc Hy0. pose proof (image_length p Hp) as Hlen. change LCD_BYTE_WIDTH with 23.
  unfold poke. rewrite (proj2 (Z.ltb_ge _ _)) by lia.
  rewrite (proj2 (Z.leb_gt _ _)) by (unfold zlen; lia). cbn [orb].
  eexists. split; [done|]. destruct Hp as [Hb Hl]. split.
  { split; [|unfold zlen; by rewrite length_insert]. apply Forall_insert; [done|].
    apply Z.mod_pos_bound. lia. }
  intros x y Hx Hy. unfold pixel. change LCD_BYTE_WIDTH with 23.
  assert (0 <= x / 8 < 23) as Hq by (split; [apply Z.div_pos|apply Z.div_lt_upper_bound]; lia).
  pose proof (Z.mod_pos_bound x 8 ltac:(lia)) as Hm. rewrite !nth_lookup.
  destruct (decide (x / 8 = c /\ y = y0)) as [[<- ->]|Hne].
  - rewrite list_lookup_insert_eq by lia. rewrite !Z.eqb_refl. cbn [from_option id andb].
    unfold u8. by rewrite Z.mod_pow2_bits_low by lia.
  - rewrite list_lookup_insert_ne by lia.
    by replace ((x / 8 =? c) && (y =? y0)) with false by lia.
Qed.

Lemma peek_image p c y0 :
  image_ok p -> 0 <= c < 23 -> 0 <= y0 < 128 ->
  peek p (c + y0 * LCD_BYTE_WIDTH) = Some (nth (Z.to_nat (c + y0 * LCD_BYTE_WIDTH)) p 0).
Proof.
  intros Hp Hc Hy0. pose proof (image_length p Hp) as Hlen. change LCD_BYTE_WIDTH with 23.
  apply peek_nth. unfold zlen. lia.
Qed.

Lemma div8_range x : 0 <= x < 178 -> 0 <= x / 8 < 23.
Proof. split; [apply Z.div_pos|apply Z.div_lt_upper_bound]; lia. Qed.

Lemma draw_pixel_replaces Color X0 Y0 p :
  image_ok p ->
  exists q, dLcdDrawPixel p Color X0 Y0 = Some q
    /\ replaced (fun x y => if (x =? X0) && (y =? Y0) then Some (negb (Color =? 0)) else None) p q.
Proof.
  intros Hp. unfold dLcdDrawPixel, on_screen. change LCD_WIDTH with 178. change LCD_HEIGHT with 128.
  match goal with |- context [if ?b then _ else _] => destruct b eqn:E end.
  2: { exists p. split; [done|]. apply replaced_none; [done|]. intros x y Hx Hy.
       by replace ((x =? X0) && (y =? Y0)) with false by lia. }
  assert (0 <= X0 < 178 /\ 0 <= Y0 < 128) as [HX HY] by lia.
  pose proof (div8_range X0 HX) as HX8. pose proof (Z.mod_pos_bound X0 8 ltac:(lia)) as Hm.
  unfold pixel_offset. rewrite Z.shiftr_div_pow2 by lia. change (2 ^ 3) with 8.
  rewrite peek_image by done. cbn [mbind option_bind]. rewrite Z.rem_mod_nonneg by lia.
  match goal with |- context [poke _ _ ?v] =>
    destruct (poke_replaces (X0 / 8) Y0 v p) as (q & -> & Hq); [done..|] end.
  exists q. split; [done|]. revert Hq. apply replaced_ext. intros x y Hx Hy. cbv beta.
  pose proof (Z.mod_pos_bound x 8 ltac:(lia)).
  destruct (Z.eqb_spec (x / 8) (X0 / 8)) as [Hd|Hd]; cbn [andb].
  2: { by replace ((x =? X0) && (y =? Y0)) with false by (destruct (Z.eqb_spec x X0); [subst; done|done]). }
  destruct (Z.eqb_spec y Y0) as [->|?]; [|by rewrite andb_false_r]. rewrite andb_true_r. cbn [default from_option id].
  assert (Z.testbit (Z.shiftl 1 (X0 mod 8)) (x mod 8) = (x =? X0)) as Hbit.
  { rewrite Z.shiftl_1_l, Z.pow2_bits_eqb by lia.
    pose proof (Z.div_mod x 8). pose proof (Z.div_mod X0 8). lia. }
  unfold pixel. rewrite Hd.
  destruct (Color =? 0).
  - rewrite Z.land_spec, Z.lnot_spec, Hbit by lia.
    destruct (x =? X0); cbn; by rewrite ?andb_false_r, ?andb_true_r.
  - rewrite Z.lor_spec, Hbit. destruct (x =? X0); cbn; by rewrite ?orb_false_r, ?orb_true_r.
Qed.

(** ** Bytes pixel by pixel *)

Lemma draw_bits_replaces n (flip : bool) c T MaxX y0 p :
  image_ok p -> - 2 ^ 15 <= T -> MaxX < 2 ^ 15 -> 0 <= c < 256 ->
  exists q, draw_bits n (if flip then 0 else 1) (if flip then 1 else 0) c T MaxX y0 p
      = Some (q, if T <? MaxX then Z.min (T + Z.of_nat n) MaxX else T)
    /\ replaced (fun x y => if (T <=? x) && (x <? T + Z.of_nat n) && (x <? MaxX) && (y =? y0)
         then Some (xorb flip (Z.testbit c (x - T))) else None) p q.
Proof.
  revert c T p. induction n as [|n IH]; intros c T p Hp HT HM Hc; cbn [draw_bits].
  { exists p. split; [destruct (Z.ltb_spec T MaxX); [do 2 f_equal; lia|done]|].
    apply replaced_none; [done|]. intros x y _ _.
    change (Z.of_nat 0) with 0. by replace ((T <=? x) && (x <? T + 0)) with false by lia. }
  rewrite !Nat2Z.inj_succ. unfold Z.succ. pose proof (Nat2Z.is_nonneg n) as Hn. set (m := Z.of_nat n) in *.
  destruct (Z.ltb_spec T MaxX) as [Hlt|Hge].
  2: { exists p. split; [done|]. apply replaced_none; [done|]. intros x y _ _.
       by replace ((T <=? x) && (x <? T + (m + 1)) && (x <? MaxX)) with false by lia. }
  destruct (draw_pixel_replaces (if Z.land c 1 =? 0 then if flip then 1 else 0
      else if flip then 0 else 1) T y0 p Hp) as (q & -> & Hq).
  cbn [mbind option_bind]. rewrite i16_id by lia.
  destruct (IH (Z.shiftr c 1) (T + 1) q) as (r & -> & Hr); [apply Hq|lia|lia| |].
  { rewrite Z.shiftr_div_pow2 by lia. change (2 ^ 1) with 2.
    split; [apply Z.div_pos|apply Z.div_lt_upper_bound]; lia. }
  exists r. split.
  { do 2 f_equal. destruct (Z.ltb_spec (T + 1) MaxX); lia. }
  eapply replaced_ext; [|exact (replaced_over _ _ _ _ _ Hq Hr)].
  intros x y Hx Hy. cbv beta. unfold over. f_equal.
  destruct (Z.eqb_spec y y0) as [->|Hy0]; [|by rewrite !andb_false_r]. rewrite !andb_true_r.
  destruct (Z.eqb_spec x T) as [->|HxT].
  - replace ((T + 1 <=? T) && (T <? T + 1 + m) && (T <? MaxX)) with false by lia.
    replace ((T <=? T) && (T <? T + (m + 1)) && (T <? MaxX)) with true by lia.
    f_equal. rewrite Z.sub_diag.
    change 1 with (Z.ones 1) at 1. rewrite Z.land_ones, <- Z.bit0_mod by lia.
    by destruct flip, (Z.testbit c 0).
  - replace ((T + 1 <=? x) && (x <? T + 1 + m) && (x <? MaxX))
      with ((T <=? x) && (x <? T + (m + 1)) && (x <? MaxX)) by lia.
    destruct (_ && _) eqn:E; [|done]. rewrite Z.shiftr_spec by lia. do 3 f_equal. lia.
Qed.

(** The bytes from the [k]th on. *)
Lemma draw_bytes_loop m (flip : bool) bits i k X0 MaxX y0 T p :
  image_ok p -> bytes_ok bits -> 0 <= i -> 0 <= k -> i + k + Z.of_nat m <= zlen bits ->
  - 2 ^ 15 <= X0 -> MaxX < 2 ^ 15 -> X0 + 8 * (k + Z.of_nat m) < MaxX + 8 ->
  (m <> O -> T = X0 + 8 * k) ->
  exists q T', loop m (fun X '(p, T) => b ← peek bits (i + X);
        draw_bits 8 (if flip then 0 else 1) (if flip then 1 else 0) (u8 b) T MaxX y0 p) k (p, T)
      = Some (q, T')
    /\ replaced (fun x y => if (X0 + 8 * k <=? x) && (x <? X0 + 8 * (k + Z.of_nat m))
           && (x <? MaxX) && (y =? y0)
         then Some (xorb flip (bit_at bits i (x - X0))) else None) p q.
Proof.
  intros Hp Hb Hi. revert k T p Hp.
  induction m as [|m IH]; intros k T p Hp Hk Hlen HX HM Hfit HT; cbn [loop].
  { exists p, T. split; [done|]. apply replaced_none; [done|]. intros x y _ _.
    change (Z.of_nat 0) with 0.
    by replace ((X0 + 8 * k <=? x) && (x <? X0 + 8 * (k + 0))) with false by lia. }
  rewrite !Nat2Z.inj_succ in *. unfold Z.succ in *. pose proof (Nat2Z.is_nonneg m) as Hn.
  set (n := Z.of_nat m) in *.
  rewrite (HT ltac:(done)). rewrite peek_nth by lia. cbn [mbind option_bind].
  pose proof (nth_byte bits (Z.to_nat (i + k)) Hb) as Hbyte. rewrite u8_id by done.
  destruct (draw_bits_replaces 8 flip (nth (Z.to_nat (i + k)) bits 0) (X0 + 8 * k) MaxX y0 p)
    as (q & -> & Hq); [done|lia..|]. cbn [mbind option_bind].
  change (Z.of_nat 8) with 8 in *.
  destruct (IH (k + 1) (if X0 + 8 * k <? MaxX then Z.min (X0 + 8 * k + 8) MaxX
      else X0 + 8 * k) q) as (r & T' & -> & Hr); [apply Hq|lia..| |].
  { intros Hm. assert (0 < n) by (subst n; lia).
    destruct (Z.ltb_spec (X0 + 8 * k) MaxX); lia. }
  exists r, T'. split; [done|].
  eapply replaced_ext; [|exact (replaced_over _ _ _ _ _ Hq Hr)].
  intros x y Hx Hy. cbv beta. unfold over. f_equal.
  destruct (Z.eqb_spec y y0) as [->|Hy0]; [|by rewrite !andb_false_r]. rewrite !andb_true_r.
  destruct (Z.ltb_spec x (X0 + 8 * (k + 1))) as [Hl|Hg].
  - replace ((X0 + 8 * (k + 1) <=? x) && (x <? X0 + 8 * (k + 1 + n)) && (x <? MaxX))
      with false by lia.
    replace ((X0 + 8 * k <=? x) && (x <? X0 + 8 * k + 8) && (x <? MaxX))
      with ((X0 + 8 * k <=? x) && (x <? X0 + 8 * (k + (n + 1))) && (x <? MaxX)) by lia.
    destruct (_ && _) eqn:E; [|done]. unfold bit_at. do 2 f_equal.
    assert ((x - X0) / 8 = k /\ (x - X0) mod 8 = x - (X0 + 8 * k)) as [-> ->]; [|done].
    replace (x - X0) with (x - (X0 + 8 * k) + k * 8) by lia.
    rewrite Z.div_add, Z.mod_add, Z.div_small, Z.mod_small by lia. lia.
  - replace ((X0 + 8 * (k + 1) <=? x) && (x <? X0 + 8 * (k + 1 + n)) && (x <? MaxX))
      with ((X0 + 8 * k <=? x) && (x <? X0 + 8 * (k + (n + 1))) && (x <? MaxX)) by lia.
    destruct ((X0 + 8 * k <=? x) && (x <? X0 + 8 * (k + (n + 1))) && (x <? MaxX)); [done|].
    by replace ((X0 + 8 * k <=? x) && (x <? X0 + 8 * k + 8) && (x <? MaxX))
      with false by lia.
Qed.

Lemma ceil8 w : 0 <= w -> w <= 8 * ((w + 7) / 8) < w + 8.
Proof. intros Hw. pose proof (Z.div_mod (w + 7) 8). pose proof (Z.mod_pos_bound (w + 7) 8). lia. Qed.

(** A row of [w] pixels. *)
Lemma draw_bytes_replaces Color bits i X0 w y0 p :
  image_ok p -> bytes_ok bits -> 0 <= i -> i + (w + 7) / 8 <= zlen bits -> 0 <= w ->
  - 2 ^ 15 <= X0 -> X0 + w < 2 ^ 15 ->
  exists q, draw_bytes ((w + 7) / 8) bits i Color X0 (X0 + w) y0 p = Some q
    /\ replaced (picture (fun cx _ => bit_at bits i cx) Color X0 y0 w 1) p q.
Proof.
  intros Hp Hb Hi Hlen Hw HX HM. pose proof (ceil8 w Hw) as Hc. unfold draw_bytes.
  destruct (draw_bytes_loop (Z.to_nat ((w + 7) / 8)) (Color =? 0) bits i 0 X0 (X0 + w) y0 X0 p)
    as (q & T' & Hl & Hq); [done|done|lia..|].
  exists q. split.
  { destruct (Color =? 0); rewrite Hl; done. }
  rewrite Z2Nat.id in Hq by lia. revert Hq. apply replaced_ext. intros x y Hx Hy. unfold picture.
  f_equal.
  replace ((X0 <=? x) && (x <? X0 + w) && (y0 <=? y) && (y <? y0 + 1))
    with ((X0 + 8 * 0 <=? x) && (x <? X0 + 8 * (0 + (w + 7) / 8))
      && (x <? X0 + w) && (y =? y0)) by lia.
  done.
Qed.

(** ** Whole bytes *)

Lemma testbit_ink Color b k : 0 <= k < 8 ->
  Z.testbit (ink Color b) k = xorb (Color =? 0) (Z.testbit b k).
Proof.
  intros Hk. unfold ink, u8. destruct (Color =? 0).
  - rewrite Z.mod_pow2_bits_low, Z.lnot_spec by lia. by destruct (Z.testbit b k).
  - rewrite Z.mod_pow2_bits_low by lia. by destruct (Z.testbit b k).
Qed.

(** A rule for the counting loops. *)
Lemma loop_rule {S} (Q : Z -> S -> Prop) n (body : Z -> S -> option S) a s :
  Q a s ->
  (forall k s, a <= k < a + Z.of_nat n -> Q k s -> exists s', body k s = Some s' /\ Q (k + 1) s') ->
  exists s', loop n body a s = Some s' /\ Q (a + Z.of_nat n) s'.
Proof.
  revert a s. induction n as [|n IH]; intros a s H0 Hstep; cbn [loop].
  { exists s. by rewrite Z.add_0_r. }
  destruct (Hstep a s) as (s' & -> & Hs'); [lia|done|]. cbn [mbind option_bind].
  destruct (IH (a + 1) s' Hs') as (s'' & -> & Hs''); [intros; apply Hstep; [lia|done]|].
  exists s''. split; [done|]. by replace (a + Z.of_nat (Datatypes.S n)) with (a + 1 + Z.of_nat n) by lia.
Qed.

(** The first [k] bytes of a row at byte column [c]. *)
Definition row_image (bits : list Z) (i Color c y0 k : Z) : image :=
  picture (fun cx _ => bit_at bits i cx) Color (8 * c) y0 (8 * k) 1.

Lemma row_step bits i Color c y0 k b p0 p :
  replaced (row_image bits i Color c y0 k) p0 p -> b = nth (Z.to_nat (i + k)) bits 0 ->
  0 <= k -> 0 <= y0 ->
  exists q, (if (0 <=? c + k) && (c + k <? 23) && (y0 <? 128)
             then poke p (c + k + y0 * LCD_BYTE_WIDTH) (ink Color b) else Some p) = Some q
    /\ replaced (row_image bits i Color c y0 (k + 1)) p0 q.
Proof.
  intros Hp -> Hk Hy0.
  assert (forall x y, 0 <= x < 178 -> 0 <= y < 128 ->
    row_image bits i Color c y0 (k + 1) x y =
    over (fun x y => if (x / 8 =? c + k) && (y =? y0)
       then Some (Z.testbit (ink Color (nth (Z.to_nat (i + k)) bits 0)) (x mod 8)) else None)
      (row_image bits i Color c y0 k) x y) as Himg.
  { intros x y Hx Hy. unfold over, row_image, picture.
    pose proof (Z.div_mod x 8 ltac:(lia)) as Hdm. pose proof (Z.mod_pos_bound x 8 ltac:(lia)) as Hm.
    destruct (Z.eqb_spec (x / 8) (c + k)) as [Hd|Hd]; cbn [andb].
    - replace ((8 * c <=? x) && (x <? 8 * c + 8 * (k + 1)) && (y0 <=? y) && (y <? y0 + 1))
        with (y =? y0) by lia.
      destruct (y =? y0) eqn:Ey.
      + rewrite testbit_ink by lia. do 2 f_equal. unfold bit_at.
        replace (x - 8 * c) with (x mod 8 + k * 8) by lia.
        rewrite Z.div_add, Z.mod_add, Z.div_small, Z.mod_small by lia. done.
      + by replace ((8 * c <=? x) && (x <? 8 * c + 8 * k) && (y0 <=? y) && (y <? y0 + 1))
          with false by lia.
    - by replace ((8 * c <=? x) && (x <? 8 * c + 8 * (k + 1)) && (y0 <=? y) && (y <? y0 + 1))
        with ((8 * c <=? x) && (x <? 8 * c + 8 * k) && (y0 <=? y) && (y <? y0 + 1)) by lia. }
  match goal with |- context [if ?g then _ else _] => destruct g eqn:E end.
  - destruct (poke_replaces (c + k) y0 (ink Color (nth (Z.to_nat (i + k)) bits 0)) p)
      as (q & -> & Hq); [apply Hp|lia|lia|].
    exists q. split; [done|]. eapply replaced_ext; [|exact (replaced_over _ _ _ _ _ Hp Hq)].
    intros x y Hx Hy. by rewrite Himg.
  - exists p. split; [done|]. revert Hp. apply replaced_ext. intros x y Hx Hy.
    rewrite Himg by done. unfold over. pose proof (div8_range x Hx).
    by replace ((x / 8 =? c + k) && (y =? y0)) with false by lia.
Qed.

Lemma row_none bits i Color c y0 p : image_ok p -> replaced (row_image bits i Color c y0 0) p p.
Proof.
  intros Hp. apply replaced_none; [done|]. intros x y _ _. unfold row_image, picture.
  by replace ((8 * c <=? x) && (x <? 8 * c + 8 * 0)) with false by lia.
Qed.

(** A row in front of the rows below it. *)
Lemma picture_row bits i stride Color X Y w h x y :
  0 <= h ->
  over (picture (fun cx cy => bit_at bits (i + stride + cy * stride) cx) Color X (Y + 1) w h)
    (picture (fun cx _ => bit_at bits i cx) Color X Y w 1) x y
  = picture (fun cx cy => bit_at bits (i + cy * stride) cx) Color X Y w (h + 1) x y.
Proof.
  intros Hh. unfold over, picture.
  destruct ((X <=? x) && (x <? X + w)); cbn [andb]; [|done].
  destruct (Z.eqb_spec y Y) as [->|Hy].
  - replace ((Y + 1 <=? Y) && (Y <? Y + 1 + h)) with false by lia.
    replace ((Y <=? Y) && (Y <? Y + 1)) with true by lia.
    replace ((Y <=? Y) && (Y <? Y + (h + 1))) with true by lia.
    do 3 f_equal. lia.
  - replace ((Y <=? y) && (y <? Y + 1)) with false by lia.
    replace ((Y + 1 <=? y) && (y <? Y + 1 + h)) with ((Y <=? y) && (y <? Y + (h + 1))) by lia.
    destruct ((Y <=? y) && (y <? Y + (h + 1))); [|done]. do 3 f_equal. lia.
Qed.

Lemma picture_empty bit Color X Y w p : image_ok p -> replaced (picture bit Color X Y w 0) p p.
Proof.
  intros Hp. apply replaced_none; [done|]. intros x y _ _. unfold picture.
  by replace ((X <=? x) && (x <? X + w) && (Y <=? y) && (y <? Y + 0)) with false by lia.
Qed.

(** ** Characters *)

Definition font_bytes (f : FONTINFO) : Z := (FontWidth f + 7) / 8.

(** Pixel ([cx], [cy]) of a character: the bitmap has the characters in rows of
    [FontHorz], each in a cell of whole bytes. *)
Definition glyph (bits : list Z) (f : FONTINFO) (Char cx cy : Z) : bool :=
  let k := Char - FontFirst f in
  bit_at bits
    (k mod FontHorz f * font_bytes f
     + (k / FontHorz f * FontHeight f + cy) * (FontHorz f * font_bytes f)) cx.

(** The six rows of characters of each bitmap. *)
Definition fonts_ok (font_bits : Z -> list Z) : Prop := forall Font f,
  font_info Font = Some f ->
  bytes_ok (font_bits Font) /\ zlen (font_bits Font) = 6 * FontHeight f * (FontHorz f * font_bytes f).

Lemma font_info_cases Font f : font_info Font = Some f ->
  Font = 0 /\ f = MkFont 9 8 16 0x20 0x7F \/ Font = 1 /\ f = MkFont 8 8 16 0x20 0x7F
  \/ Font = 2 /\ f = MkFont 16 16 16 0x20 0x7F \/ Font = 3 /\ f = MkFont 7 5 16 0x20 0x7F.
Proof.
  unfold font_info. destruct (Z.ltb_spec Font 0); [done|]. intros H0.
  pose proof (lookup_lt_Some _ _ _ H0) as Hl. cbn in Hl.
  assert (Font = 0 \/ Font = 1 \/ Font = 2 \/ Font = 3) as [->|[->|[->| ->]]] by lia;
    cbn in H0; injection H0 as <-; naive_solver.
Qed.

Section characters.
Context (font_bits : Z -> list Z).

Lemma char_aligned_replaces n Color Font f i c y0 p :
  image_ok p -> bytes_ok (font_bits Font) -> 0 < FontWidth f -> FontWidth f mod 8 = 0 ->
  FontHorz f = 16 -> FontWidth f <= 64 ->
  0 <= i -> i + (Z.of_nat n - 1) * (2 * FontWidth f) + FontWidth f / 8 <= zlen (font_bits Font) ->
  zlen (font_bits Font) < 2 ^ 14 -> 0 <= c -> c + FontWidth f / 8 <= 23 ->
  0 <= y0 -> y0 + Z.of_nat n <= 1400 ->
  exists q, char_aligned font_bits n Color Font f i (c + y0 * LCD_BYTE_WIDTH) p = Some q
    /\ replaced (picture (fun cx cy => bit_at (font_bits Font) (i + cy * (2 * FontWidth f)) cx)
         Color (8 * c) y0 (FontWidth f) (Z.of_nat n)) p q.
Proof.
  intros Hp Hb Hw Hw8 Hh Hw64. pose proof (Z.div_mod (FontWidth f) 8 ltac:(lia)) as Hdm.
  rewrite Hw8 in Hdm. set (m := FontWidth f / 8) in *.
  revert i y0 p Hp. induction n as [|n IH]; intros i y0 p Hp Hi Hlen Hsz Hc Hc2 Hy Hy2;
    cbn [char_aligned].
  { exists p. split; [done|]. by apply picture_empty. }
  rewrite Hh. change LCD_BYTE_WIDTH with 23.
  assert (FontWidth f * 16 / 8 = 2 * FontWidth f) as ->.
  { replace (FontWidth f * 16) with (2 * FontWidth f * 8) by lia. by rewrite Z.div_mul by lia. }
  fold m. rewrite Z.max_r by lia. rewrite !i16_id by lia.
  destruct (loop_rule (fun k => replaced (row_image (font_bits Font) i Color c y0 k) p) (Z.to_nat m)
    (fun Tmp pImage => if c + y0 * 23 <? LCD_BUFFER_SIZE
       then b ← peek (font_bits Font) (i + Tmp);
            poke pImage (c + y0 * 23 + Tmp) (ink Color b)
       else Some pImage) 0 p) as (q & -> & Hq).
  { by apply row_none. }
  { intros k s Hk Hs. rewrite Z2Nat.id in Hk by lia.
    destruct (row_step _ _ _ _ _ _ _ _ _ Hs eq_refl) as (q & Hd & Hq); [lia|lia|].
    exists q. split; [|done]. rewrite <- Hd. change LCD_BUFFER_SIZE with 2944.
    rewrite peek_nth by nia. cbn [mbind option_bind].
    replace (c + y0 * 23 + k) with (c + k + y0 * LCD_BYTE_WIDTH) by (change LCD_BYTE_WIDTH with 23; lia).
    replace (c + y0 * 23 <? 2944) with ((0 <=? c + k) && (c + k <? 23) && (y0 <? 128)) by lia.
    done. }
  cbn [mbind option_bind].
  replace (c + y0 * 23 + 23) with (c + (y0 + 1) * LCD_BYTE_WIDTH) by (change LCD_BYTE_WIDTH with 23; lia).
  destruct (IH (i + 2 * FontWidth f) (y0 + 1) q) as (r & -> & Hr); [apply Hq|lia..|].
  exists r. split; [done|]. eapply replaced_ext; [|exact (replaced_over _ _ _ _ _ Hq Hr)].
  intros x y Hx Hy'. f_equal. rewrite Nat2Z.inj_succ. unfold row_image.
  rewrite Z2Nat.id by lia. replace (8 * (0 + m)) with (FontWidth f) by lia.
  by rewrite picture_row by lia.
Qed.

Lemma char_unaligned_replaces n Color Font f i X0 y0 p :
  image_ok p -> bytes_ok (font_bits Font) -> 0 <= FontWidth f -> FontHorz f = 16 ->
  0 <= i -> i + (Z.of_nat n - 1) * (16 * font_bytes f) + font_bytes f <= zlen (font_bits Font) ->
  zlen (font_bits Font) + 16 * font_bytes f < 2 ^ 15 -> - 2 ^ 15 <= X0 -> X0 + FontWidth f < 2 ^ 15 ->
  - 2 ^ 15 <= y0 -> y0 + Z.of_nat n < 2 ^ 15 ->
  exists q, char_unaligned font_bits n Color Font f i X0 y0 p = Some q
    /\ replaced (picture (fun cx cy => bit_at (font_bits Font) (i + cy * (16 * font_bytes f)) cx)
         Color X0 y0 (FontWidth f) (Z.of_nat n)) p q.
Proof.
  intros Hp Hb Hw Hh. pose proof (ceil8 (FontWidth f) Hw) as Hc. fold (font_bytes f) in Hc.
  revert i y0 p Hp. induction n as [|n IH]; intros i y0 p Hp Hi Hlen Hsz HX HX2 Hy Hy2;
    cbn [char_unaligned].
  { exists p. split; [done|]. by apply picture_empty. }
  rewrite Hh. rewrite (i16_id (X0 + _)) by lia.
  destruct (draw_bytes_replaces Color (font_bits Font) i X0 (FontWidth f) y0 p)
    as (q & -> & Hq); [done|done|lia|fold (font_bytes f); nia|lia..|].
  fold (font_bytes f). rewrite (Z.mul_comm (font_bytes f)), !i16_id by nia. cbn [mbind option_bind].
  destruct (IH (i + 16 * font_bytes f) (y0 + 1) q) as (r & -> & Hr); [apply Hq|lia..|].
  exists r. split; [done|]. eapply replaced_ext; [|exact (replaced_over _ _ _ _ _ Hq Hr)].
  intros x y Hx Hy'. f_equal. rewrite Nat2Z.inj_succ. by rewrite picture_row by lia.
Qed.

End characters.

(** The index of a character, and what the table says of the fonts. *)
Lemma char_index Font f Char :
  font_info Font = Some f -> FontFirst f <= Char <= FontLast f ->
  let k := Char - FontFirst f in
  char_byte_index f k
    = k mod FontHorz f * font_bytes f + k / FontHorz f * FontHeight f * (FontHorz f * font_bytes f)
  /\ 0 <= char_byte_index f k
  /\ char_byte_index f k + (FontHeight f - 1) * (16 * font_bytes f) + font_bytes f
     <= 6 * FontHeight f * (FontHorz f * font_bytes f).
Proof.
  intros Hi HC k. unfold char_byte_index, font_bytes.
  apply font_info_cases in Hi as [[-> ->]|[[-> ->]|[[-> ->]|[-> ->]]]];
    cbn [FontFirst FontLast FontWidth FontHeight FontHorz] in *.
  all: pose proof (Z.mod_pos_bound k 16 ltac:(lia)).
  all: assert (0 <= k / 16 < 6) by (split; [apply Z.div_pos|apply Z.div_lt_upper_bound]; lia).
  all: repeat match goal with |- context [(?a + 7) / 8] =>
         let v := eval compute in ((a + 7) / 8) in change ((a + 7) / 8) with v end.
  all: rewrite (i16_id (_ * _)), i16_id by lia; lia.
Qed.

Lemma font_facts Font f : font_info Font = Some f ->
  FontHorz f = 16 /\ 0 < FontWidth f <= 16 /\ 0 < FontHeight f <= 16 /\ 0 < font_bytes f <= 2
  /\ (FontWidth f mod 8 = 0 -> 2 * FontWidth f = 16 * font_bytes f /\ font_bytes f = FontWidth f / 8).
Proof.
  intros Hi. by apply font_info_cases in Hi as [[-> ->]|[[-> ->]|[[-> ->]|[-> ->]]]].
Qed.

Section text.
Context (font_bits : Z -> list Z) (Hfonts : fonts_ok font_bits).

Lemma glyph_rows Font f Color X0 y0 Char p q :
  font_info Font = Some f -> FontFirst f <= Char <= FontLast f ->
  replaced (picture (fun cx cy => bit_at (font_bits Font)
    (char_byte_index f (Char - FontFirst f) + cy * (16 * font_bytes f)) cx)
    Color X0 y0 (FontWidth f) (Z.of_nat (Z.to_nat (FontHeight f)))) p q ->
  replaced (picture (glyph (font_bits Font) f Char) Color X0 y0 (FontWidth f) (FontHeight f)) p q.
Proof.
  intros Hi HC. destruct (font_facts Font f Hi) as (Hh & _ & Hht & _).
  destruct (char_index Font f Char Hi HC) as [-> _]. rewrite Z2Nat.id by lia.
  apply replaced_ext. intros x y _ _. f_equal. unfold picture, glyph.
  match goal with |- (if ?b then _ else _) = _ => destruct b end; [|done].
  rewrite Hh. do 3 f_equal. lia.
Qed.

(** A character at a column that leaves room for it. *)
Lemma draw_char_replaces Color Font f X0 y0 Char p :
  image_ok p -> font_info Font = Some f ->
  0 <= X0 -> X0 + FontWidth f < 178 -> 0 <= y0 <= 1384 ->
  FontFirst f <= Char <= FontLast f ->
  exists q, dLcdDrawChar font_bits p Color X0 y0 Font Char = Some q
    /\ replaced (picture (glyph (font_bits Font) f Char) Color X0 y0 (FontWidth f) (FontHeight f)) p q.
Proof.
  intros Hp Hi HX HX2 Hy HC. unfold dLcdDrawChar. rewrite Hi. cbn [mbind option_bind].
  destruct (Hfonts Font f Hi) as [Hb Hlen]. destruct (font_facts Font f Hi) as (Hh & Hw & Hht & Hfb & H8).
  destruct (char_index Font f Char Hi HC) as (_ & Hi0 & Hi1). rewrite Hh in Hlen, Hi1.
  replace ((FontFirst f <=? Char) && (Char <=? FontLast f)) with true by lia.
  rewrite Z.rem_mod_nonneg, Z.shiftl_mul_pow2, !Z.shiftr_div_pow2 by lia. change (2 ^ 3) with 8.
  rewrite Z.div_mul by lia. assert (zlen (font_bits Font) <= 3072) as Hsz by nia.
  pose proof (Z.div_mod X0 8 ltac:(lia)) as HdX. pose proof (Z.div_pos X0 8 HX ltac:(lia)).
  match goal with |- context [if ?b then _ else _] => destruct b eqn:E end.
  - destruct H8 as [H16 Hfb8]; [lia|]. change LCD_BYTE_WIDTH with 23. rewrite i16_id by lia.
    destruct (char_aligned_replaces font_bits (Z.to_nat (FontHeight f)) Color Font f
      (char_byte_index f (Char - FontFirst f)) (X0 / 8) y0 p) as (q & Hd & Hq); try lia; try done.
    exists q. split; [done|]. replace (8 * (X0 / 8)) with X0 in Hq by lia. rewrite H16 in Hq.
    by apply glyph_rows.
  - destruct (char_unaligned_replaces font_bits (Z.to_nat (FontHeight f)) Color Font f
      (char_byte_index f (Char - FontFirst f)) X0 y0 p) as (q & Hd & Hq); try lia; try done.
    exists q. split; [done|]. by apply glyph_rows.
Qed.

(** ** Text *)

(** Character [k] starts [k] widths to the right.  Characters without a glyph
    are blanks, and a character that does not end before the last column is not
    drawn. *)
Definition text_image (Font : Z) (f : FONTINFO) (Color X Y : Z) (text : list Z) : image :=
  fun x y =>
    let k := (x - X) / FontWidth f in
    if x <? X then None else
    c ← text !! Z.to_nat k;
    if (FontFirst f <=? c) && (c <=? FontLast f) && (X + FontWidth f * k <? 178 - FontWidth f)
    then picture (glyph (font_bits Font) f c) Color (X + FontWidth f * k) Y (FontWidth f)
           (FontHeight f) x y
    else None.

Lemma text_image_full Font f Color X Y text x y :
  0 < FontWidth f -> 178 - FontWidth f <= X -> text_image Font f Color X Y text x y = None.
Proof.
  intros Hw HX. unfold text_image. destruct (Z.ltb_spec x X); [done|].
  pose proof (Z.div_pos (x - X) (FontWidth f) ltac:(lia) Hw).
  destruct (text !! _); [|done]. cbn [mbind option_bind].
  rewrite (proj2 (Z.ltb_ge (X + _) _)) by nia. by rewrite andb_false_r.
Qed.

Lemma text_image_cons Font f Color X Y c text x y :
  0 < FontWidth f -> X < 178 - FontWidth f ->
  text_image Font f Color X Y (c :: text) x y =
  over (text_image Font f Color (X + FontWidth f) Y text)
    (fun x y => if (FontFirst f <=? c) && (c <=? FontLast f)
       then picture (glyph (font_bits Font) f c) Color X Y (FontWidth f) (FontHeight f) x y
       else None) x y.
Proof.
  intros Hw HX. unfold over, text_image. destruct (Z.ltb_spec x (X + FontWidth f)) as [Hl|Hg].
  - destruct (Z.ltb_spec x X) as [Hl'|Hg'].
    + destruct (_ && _); [|done]. unfold picture. by replace (X <=? x) with false by lia.
    + rewrite Z.div_small by lia. change ((c :: text) !! Z.to_nat 0) with (Some c).
      cbn [mbind option_bind]. rewrite Z.mul_0_r, Z.add_0_r. replace (X <? 178 - FontWidth f) with true by lia.
      by rewrite andb_true_r.
  - rewrite (proj2 (Z.ltb_ge x X)) by lia.
    replace (x - X) with (x - (X + FontWidth f) + 1 * FontWidth f) by lia. rewrite Z.div_add by lia.
    pose proof (Z.div_pos (x - (X + FontWidth f)) (FontWidth f) ltac:(lia) Hw) as Hk.
    set (k := (x - (X + FontWidth f)) / FontWidth f) in *.
    replace (Z.to_nat (k + 1)) with (S (Z.to_nat k)) by lia.
    change ((c :: text) !! S (Z.to_nat k)) with (text !! Z.to_nat k).
    replace (X + FontWidth f * (k + 1)) with (X + FontWidth f + FontWidth f * k) by lia.
    assert ((if (FontFirst f <=? c) && (c <=? FontLast f)
      then picture (glyph (font_bits Font) f c) Color X Y (FontWidth f) (FontHeight f) x y
      else None) = None) as ->.
    { destruct (_ && _); [|done]. unfold picture. replace (x <? X + FontWidth f) with false by lia.
      by rewrite andb_false_r. }
    by match goal with |- ?a = _ => destruct a end.
Qed.

Lemma draw_text_replaces Color Font f Y text X p :
  image_ok p -> font_info Font = Some f -> 0 <= X -> 0 <= Y <= 1384 ->
  exists q, dLcdDrawText font_bits p Color X Y Font text = Some q
    /\ replaced (text_image Font f Color X Y text) p q.
Proof.
  intros Hp Hi HX HY. destruct (font_facts Font f Hi) as (_ & Hw & _).
  revert X p Hp HX. induction text as [|c text IH]; intros X p Hp HX; cbn [dLcdDrawText].
  { exists p. split; [done|]. apply replaced_none; [done|]. intros x y _ _. unfold text_image.
    by destruct (x <? X). }
  unfold dLcdGetFontWidth. rewrite Hi. cbn [fmap option_fmap option_map mbind option_bind].
  change LCD_WIDTH with 178. destruct (Z.ltb_spec X (178 - FontWidth f)) as [Hl|Hg].
  2: { destruct (IH X p) as (q & -> & Hq); [done..|]. exists q. split; [done|].
       revert Hq. apply replaced_ext. intros x y _ _. by rewrite !text_image_full by lia. }
  assert (exists q, dLcdDrawChar font_bits p Color X Y Font c = Some q
    /\ replaced (fun x y => if (FontFirst f <=? c) && (c <=? FontLast f)
         then picture (glyph (font_bits Font) f c) Color X Y (FontWidth f) (FontHeight f) x y
         else None) p q) as (q & -> & Hq).
  { destruct ((FontFirst f <=? c) && (c <=? FontLast f)) eqn:E.
    - apply draw_char_replaces; [done|done|lia..].
    - exists p. unfold dLcdDrawChar. rewrite Hi. cbn [mbind option_bind]. rewrite E.
      split; [done|]. by apply replaced_none. }
  cbn [mbind option_bind]. rewrite i16_id by lia.
  destruct (IH (X + FontWidth f) q) as (r & -> & Hr); [apply Hq|lia|].
  exists r. split; [done|]. eapply replaced_ext; [|exact (replaced_over _ _ _ _ _ Hq Hr)].
  intros x y _ _. by rewrite text_image_cons by lia.
Qed.

Lemma drawing_replaces img draw s :
  display_ready s ->
  (exists q, draw (displayBuf s) = Some q /\ replaced img (displayBuf s) q) ->
  exists q, drawing draw s = Some (true, set_dirty true (set_display q s))
    /\ replaced img (displayBuf s) q.
Proof.
  intros (Hi & Hl & _) (q & Hd & Hq). exists q. split; [|done].
  unfold drawing, on_display. by rewrite Hi, Hl, Hd.
Qed.

(** C18: On an open display, for X from 0 on and Y from 0 to 1384, LcdText draws each
    character of the string at its place and nothing else: the same pixels whether the font
    and the column let it write whole bytes or it sets the pixels one by one. Characters
    below the display are cut off (further down the 16-bit byte index would wrap, and above
    or to the left of the display the byte-wise path does not look). *)
Theorem text_draws Color X Y text f s :
  display_ready s -> font_info (currentFont s) = Some f -> 0 <= X -> 0 <= Y <= 1384 ->
  exists q, LcdText font_bits Color X Y text s = Some (true, set_dirty true (set_display q s))
    /\ image_ok q
    /\ forall x y, 0 <= x < 178 -> 0 <= y < 128 ->
         pixel q x y
         = default (pixel (displayBuf s) x y) (text_image (currentFont s) f Color X Y text x y).
Proof.
  intros Hs Hf HX HY. apply drawing_replaces; [done|].
  apply draw_text_replaces; [apply Hs|done..].
Qed.
End text.

(** ** Bitmaps *)

Lemma bitmap_unaligned_replaces Color X0 Y0 w h bytes p :
  image_ok p -> bytes_ok bytes -> 0 <= w < 256 -> 0 <= h < 256 -> (w + 7) / 8 * h <= zlen bytes ->
  - 2 ^ 15 <= X0 -> X0 + w < 2 ^ 15 -> - 2 ^ 15 <= Y0 -> Y0 + h < 2 ^ 15 ->
  exists q, bitmap_unaligned Color X0 Y0 w h bytes p = Some q
    /\ replaced (picture (fun cx cy => bit_at bytes (cy * ((w + 7) / 8)) cx) Color X0 Y0 w h) p q.
Proof.
  intros Hp Hb Hw Hh Hlen HX HX2 HY HY2. unfold bitmap_unaligned.
  pose proof (ceil8 w ltac:(lia)) as Hc. set (n := (w + 7) / 8) in *.
  rewrite Z.shiftl_mul_pow2, Z.shiftr_div_pow2 by lia. change (2 ^ 3) with 8. fold n.
  rewrite Z.div_mul by lia. rewrite (i16_id (X0 + w)) by lia.
  destruct (loop_rule (fun k '(q, Y) => Y = Y0 + k /\ replaced
      (picture (fun cx cy => bit_at bytes (cy * n) cx) Color X0 Y0 w k) p q) (Z.to_nat h)
    (fun Y '(pImage, Y0) =>
       pImage ← draw_bytes n bytes (i16 (Y * (n * 8) / 8)) Color X0 (X0 + w) Y0 pImage;
       Some (pImage, i16 (Y0 + 1))) 0 (p, Y0)) as ((q & Y') & -> & _ & Hq).
  { split; [lia|]. by apply picture_empty. }
  - intros k [q Y] Hk [-> Hq]. rewrite Z2Nat.id in Hk by lia. cbv beta iota.
    replace (k * (n * 8)) with (k * n * 8) by lia. rewrite Z.div_mul, (i16_id (k * n)) by nia.
    destruct (draw_bytes_replaces Color bytes (k * n) X0 w (Y0 + k) q) as (r & Hd & Hr);
      [apply Hq|done|nia|fold n; nia|lia..|].
    fold n in Hd. rewrite Hd. cbn [mbind option_bind]. rewrite i16_id by lia. eexists. split; [done|].
    split; [lia|]. eapply replaced_ext; [|exact (replaced_over _ _ _ _ _ Hq Hr)].
    intros x y _ _. f_equal. unfold over, picture.
    destruct ((X0 <=? x) && (x <? X0 + w)); cbn [andb]; [|done].
    destruct (Z.eqb_spec y (Y0 + k)) as [->|Hy].
    + replace ((Y0 + k <=? Y0 + k) && (Y0 + k <? Y0 + k + 1)) with true by lia.
      replace ((Y0 <=? Y0 + k) && (Y0 + k <? Y0 + (k + 1))) with true by lia.
      do 3 f_equal. lia.
    + replace ((Y0 + k <=? y) && (y <? Y0 + k + 1)) with false by lia.
      by replace ((Y0 <=? y) && (y <? Y0 + (k + 1))) with ((Y0 <=? y) && (y <? Y0 + k)) by lia.
  - exists q. split; [done|]. by rewrite Z2Nat.id in Hq by lia.
Qed.

Lemma bitmap_aligned_replaces n Color c y0 w bytes i p :
  image_ok p -> bytes_ok bytes -> 0 <= w < 256 -> w mod 8 = 0 ->
  - 2 ^ 15 <= 8 * c -> 8 * c + w < 2 ^ 15 ->
  0 <= i -> i + Z.of_nat n * (w / 8) <= zlen bytes -> i + Z.of_nat n * (w / 8) < 2 ^ 15 ->
  0 <= y0 -> y0 + Z.of_nat n <= 1200 ->
  exists q, bitmap_aligned n Color (8 * c) w bytes i (c + y0 * LCD_BYTE_WIDTH) p = Some q
    /\ replaced (picture (fun cx cy => bit_at bytes (i + cy * (w / 8)) cx) Color (8 * c) y0 w
         (Z.of_nat n)) p q.
Proof.
  intros Hp Hb Hw Hw8 Hc Hc2. pose proof (Z.div_mod w 8 ltac:(lia)) as Hdm.
  rewrite Hw8 in Hdm. set (m := w / 8) in *.
  revert i y0 p Hp. induction n as [|n IH]; intros i y0 p Hp Hi Hlen Hi2 Hy Hy2;
    cbn [bitmap_aligned].
  { exists p. split; [done|]. by apply picture_empty. }
  rewrite Nat2Z.inj_succ, Z.mul_succ_l in *. fold m. change LCD_BYTE_WIDTH with 23.
  rewrite (i16_id (i + m)), (i16_id (_ + 23)) by nia.
  destruct (loop_rule (fun k '(q, X) => X = 8 * (c + k) /\ replaced (row_image bytes i Color c y0 k) p q)
    (Z.to_nat m)
    (fun Tmp '(pImage, X) =>
       pImage ← (if (c + y0 * 23 + Tmp <? LCD_BUFFER_SIZE) && (X <? LCD_WIDTH) && (0 <=? X)
         then b ← peek bytes (i + Tmp); poke pImage (c + y0 * 23 + Tmp) (ink Color b)
         else Some pImage);
       Some (pImage, i16 (X + 8))) 0 (p, 8 * c)) as ((q & X') & -> & _ & Hq).
  { split; [lia|]. by apply row_none. }
  { intros k [q X] Hk [-> Hq]. rewrite Z2Nat.id in Hk by lia. cbv beta iota.
    destruct (row_step _ _ _ _ _ _ _ _ _ Hq eq_refl) as (r & Hd & Hr); [lia|lia|].
    exists (r, 8 * (c + (k + 1))). split; [|done].
    rewrite peek_nth by nia. cbn [mbind option_bind].
    replace (c + y0 * 23 + k) with (c + k + y0 * LCD_BYTE_WIDTH) by (change LCD_BYTE_WIDTH with 23; lia).
    change LCD_WIDTH with 178. change LCD_BUFFER_SIZE with 2944.
    replace ((c + k + y0 * LCD_BYTE_WIDTH <? 2944) && (8 * (c + k) <? 178) && (0 <=? 8 * (c + k)))
      with ((0 <=? c + k) && (c + k <? 23) && (y0 <? 128)) by (change LCD_BYTE_WIDTH with 23; lia).
    rewrite Hd. cbn [option_bind]. rewrite i16_id by lia.
    by replace (8 * (c + k) + 8) with (8 * (c + (k + 1))) by lia. }
  cbn [mbind option_bind].
  replace (c + y0 * 23 + 23) with (c + (y0 + 1) * LCD_BYTE_WIDTH) by (change LCD_BYTE_WIDTH with 23; lia).
  destruct (IH (i + m) (y0 + 1) q) as (r & -> & Hr); [apply Hq|lia..|].
  exists r. split; [done|]. eapply replaced_ext; [|exact (replaced_over _ _ _ _ _ Hq Hr)].
  intros x y Hx Hy'. f_equal. unfold row_image.
  rewrite Z2Nat.id by lia. replace (8 * (0 + m)) with w by lia. by rewrite picture_row by lia.
Qed.

(** A bitmap: its width, its height and its rows of whole bytes. *)
Lemma draw_bitmap_replaces Color X Y w h bytes p :
  image_ok p -> bytes_ok bytes -> 0 <= w < 256 -> 0 <= h < 256 -> (w + 7) / 8 * h <= zlen bytes ->
  - 2 ^ 15 <= X -> X + w < 2 ^ 15 -> 0 <= Y -> Y + h <= 1200 ->
  exists q, dLcdDrawBitmap p Color X Y (Some (w :: h :: bytes)) = Some q
    /\ replaced (picture (fun cx cy => bit_at bytes (cy * ((w + 7) / 8)) cx) Color X Y w h) p q.
Proof.
  intros Hp Hb Hw Hh Hlen HX HX2 HY HY2. unfold dLcdDrawBitmap.
  change (peek (w :: h :: bytes) 0) with (Some w). change (peek (w :: h :: bytes) 1) with (Some h).
  change (drop 2 (w :: h :: bytes)) with bytes. cbn [mbind option_bind].
  replace ((0 <=? w) && (0 <=? h)) with true by lia.
  match goal with |- context [if ?b then _ else _] => destruct b eqn:E end.
  { apply bitmap_unaligned_replaces; done || lia. }
  apply orb_false_iff in E as [EX Ew]. apply negb_false_iff, Z.eqb_eq in EX, Ew.
  apply Z.rem_divide in EX as [c ->]; [|lia]. rewrite Z.shiftr_div_pow2 by lia. change (2 ^ 3) with 8.
  rewrite Z.div_mul by lia. pose proof (Z.div_mod w 8 ltac:(lia)) as Hdm. rewrite Ew in Hdm.
  assert ((w + 7) / 8 = w / 8) as Hce by (pose proof (ceil8 w ltac:(lia)); lia).
  rewrite Hce in *. change LCD_BYTE_WIDTH with 23. rewrite i16_id by lia.
  destruct (bitmap_aligned_replaces (Z.to_nat h) Color c Y w bytes 0 p) as (q & Hd & Hq);
    rewrite ?Z2Nat.id in * by lia; try done; try nia.
  exists q. replace (c * 8) with (8 * c) by lia. done.
Qed.

(** C19: On an open display, for a bitmap whose rows are at Y from 0 on and end by 1200 and
    whose columns fit 16 bits, LcdPicture draws the part of it that is on the display,
    wherever its columns are, to the left of the display too, and nothing else; the bytes it
    writes whole and the pixels it sets one by one follow the same formula. (Above the
    display the byte-wise path stores in front of the buffer: LcdText.bitmap_above_display.)
    *)
Theorem picture_draws Color X Y w h bytes s :
  display_ready s -> bytes_ok bytes -> 0 <= w < 256 -> 0 <= h < 256 ->
  (w + 7) / 8 * h <= zlen bytes -> - 2 ^ 15 <= X -> X + w < 2 ^ 15 -> 0 <= Y -> Y + h <= 1200 ->
  exists q, LcdPicture Color X Y (Some (w :: h :: bytes)) s
      = Some (true, set_dirty true (set_display q s))
    /\ image_ok q
    /\ forall x y, 0 <= x < 178 -> 0 <= y < 128 ->
         pixel q x y = default (pixel (displayBuf s) x y)
           (picture (fun cx cy => bit_at bytes (cy * ((w + 7) / 8)) cx) Color X Y w h x y).
Proof.
  intros Hs Hb Hw Hh Hlen HX HX2 HY HY2. apply drawing_replaces; [done|].
  by apply draw_bitmap_replaces; [apply Hs|..].
Qed.

(** A byte-aligned bitmap above the display is stored in front of the buffer, where one that
    is not aligned is cut off. *)
Theorem bitmap_above_display Color Y b p :
  image_ok p -> byte_ok b -> - 1000 <= Y < 0 ->
  dLcdDrawBitmap p Color 0 Y (Some [8; 1; b]) = None
  /\ exists q, dLcdDrawBitmap p Color 1 Y (Some [8; 1; b]) = Some q /\ image_ok q.
Proof.
  intros Hp Hb HY. split.
  - change (bitmap_aligned 1 Color 0 8 [b] 0 (i16 (0 + Y * 23)) p = None).
    rewrite i16_id by lia. cbn [bitmap_aligned]. change (Z.to_nat (8 / 8)) with 1%nat. cbn [loop].
    change LCD_BUFFER_SIZE with 2944. replace (0 + Y * 23 + 0 <? 2944) with true by lia.
    change (peek [b] (0 + 0)) with (Some b). cbn [mbind option_bind]. unfold poke.
    by replace (0 + Y * 23 + 0 <? 0) with true by lia.
  - destruct (bitmap_unaligned_replaces Color 1 Y 8 1 [b] p) as (q & Hd & Hq & _);
      [done|by constructor|lia|lia|done|lia..|].
    exists q. split; [|done]. exact Hd.
Qed.

(** ** Icons *)

Lemma picture_lines_replaces n Color w bits i c y0 p :
  image_ok p -> bytes_ok bits -> 0 <= w < 256 -> w mod 8 = 0 -> 0 <= i ->
  i + Z.of_nat n * (w / 8) <= zlen bits -> i + Z.of_nat n * (w / 8) < 2 ^ 15 ->
  0 <= c -> c + w / 8 <= 23 -> 0 <= y0 -> y0 + Z.of_nat n <= 128 ->
  exists q, picture_lines n Color w bits i (c + y0 * LCD_BYTE_WIDTH) p = Some q
    /\ replaced (picture (fun cx cy => bit_at bits (i + cy * (w / 8)) cx) Color (8 * c) y0 w
         (Z.of_nat n)) p q.
Proof.
  intros Hp Hb Hw Hw8. pose proof (Z.div_mod w 8 ltac:(lia)) as Hdm.
  rewrite Hw8 in Hdm. set (m := w / 8) in *.
  revert i y0 p Hp. induction n as [|n IH]; intros i y0 p Hp Hi Hlen Hi2 Hc Hc2 Hy Hy2;
    cbn [picture_lines].
  { exists p. split; [done|]. by apply picture_empty. }
  rewrite Nat2Z.inj_succ, Z.mul_succ_l in *. fold m. change LCD_BYTE_WIDTH with 23.
  rewrite (i16_id (i + m)), (i16_id (_ + 23)) by nia.
  destruct (loop_rule (fun k => replaced (row_image bits i Color c y0 k) p) (Z.to_nat m)
    (fun Tmp pImage => b ← peek bits (i + Tmp); poke pImage (c + y0 * 23 + Tmp) (ink Color b)) 0 p)
    as (q & -> & Hq).
  { by apply row_none. }
  { intros k s Hk Hs. rewrite Z2Nat.id in Hk by lia.
    destruct (row_step _ _ _ _ _ _ _ _ _ Hs eq_refl) as (q & Hd & Hq); [lia|lia|].
    exists q. split; [|done]. rewrite <- Hd. rewrite peek_nth by nia. cbn [mbind option_bind].
    replace (c + y0 * 23 + k) with (c + k + y0 * LCD_BYTE_WIDTH) by (change LCD_BYTE_WIDTH with 23; lia).
    by replace ((0 <=? c + k) && (c + k <? 23) && (y0 <? 128)) with true by lia. }
  cbn [mbind option_bind].
  replace (c + y0 * 23 + 23) with (c + (y0 + 1) * LCD_BYTE_WIDTH) by (change LCD_BYTE_WIDTH with 23; lia).
  destruct (IH (i + m) (y0 + 1) q) as (r & -> & Hr); [apply Hq|lia..|].
  exists r. split; [done|]. eapply replaced_ext; [|exact (replaced_over _ _ _ _ _ Hq Hr)].
  intros x y Hx Hy'. f_equal. unfold row_image.
  rewrite Z2Nat.id by lia. replace (8 * (0 + m)) with w by lia. by rewrite picture_row by lia.
Qed.

Lemma bit_at_drop bits j i k : 0 <= j -> 0 <= i -> 0 <= k ->
  bit_at (drop (Z.to_nat j) bits) i k = bit_at bits (j + i) k.
Proof.
  intros Hj Hi Hk. pose proof (Z.div_pos k 8 Hk ltac:(lia)). unfold bit_at.
  rewrite !nth_lookup, lookup_drop. do 3 f_equal. lia.
Qed.

Definition icons_ok (icon_bits : Z -> list Z) : Prop := forall Icon t,
  icon_info Icon = Some t ->
  bytes_ok (icon_bits Icon) /\ zlen (icon_bits Icon) = IconSize t * (IconWidth t / 8).

Lemma icon_info_cases Icon t : icon_info Icon = Some t ->
  Icon = 0 /\ t = MkIcon 420 12 24 \/ Icon = 1 /\ t = MkIcon 176 8 16
  \/ Icon = 2 /\ t = MkIcon 616 22 24 \/ Icon = 3 /\ t = MkIcon 132 12 16
  \/ Icon = 4 /\ t = MkIcon 36 12 8.
Proof.
  unfold icon_info. destruct (Z.ltb_spec Icon 0); [done|]. intros H0.
  pose proof (lookup_lt_Some _ _ _ H0) as Hl. cbn in Hl.
  assert (Icon = 0 \/ Icon = 1 \/ Icon = 2 \/ Icon = 3 \/ Icon = 4) as [->|[->|[->|[->| ->]]]] by lia;
    cbn in H0; injection H0 as <-; naive_solver.
Qed.

(** What the table says of the icons. *)
Lemma icon_facts Icon t : icon_info Icon = Some t ->
  0 < IconHeight t <= 22 /\ 0 < IconWidth t <= 24 /\ IconWidth t mod 8 = 0
  /\ IconSize t = IconHeight t * (IconSize t / IconHeight t) /\ 0 < IconSize t <= 616.
Proof.
  intros Hi. by apply icon_info_cases in Hi as [[-> ->]|[[-> ->]|[[-> ->]|[[-> ->]|[-> ->]]]]].
Qed.

(** LcdIcon draws icon `Num` of a bitmap, complemented for colour 0, at the byte its column
    is in, and nothing else. *)
Theorem icon_draws icon_bits Color X Y Icon t Num s :
  display_ready s -> icons_ok icon_bits -> icon_info Icon = Some t ->
  0 <= Num < IconSize t / IconHeight t -> 0 <= X -> X / 8 + IconWidth t / 8 <= 23 ->
  0 <= Y -> Y + IconHeight t <= 128 ->
  exists q, LcdIcon icon_bits Color X Y Icon Num s = Some (true, set_dirty true (set_display q s))
    /\ image_ok q
    /\ forall x y, 0 <= x < 178 -> 0 <= y < 128 ->
         pixel q x y = default (pixel (displayBuf s) x y)
           (picture (fun cx cy => bit_at (icon_bits Icon)
              ((Num * IconHeight t + cy) * (IconWidth t / 8)) cx)
              Color (8 * (X / 8)) Y (IconWidth t) (IconHeight t) x y).
Proof.
  intros Hs Hicons Hi HN HX HX2 HY HY2. apply drawing_replaces; [done|].
  destruct (Hicons Icon t Hi) as [Hb Hlen]. destruct (icon_facts Icon t Hi) as (Hh & Hw & Hw8 & Hsz & Hsz2).
  pose proof (Z.div_mod (IconWidth t) 8 ltac:(lia)) as Hdm. rewrite Hw8 in Hdm.
  pose proof (Z.div_pos X 8 HX ltac:(lia)).
  unfold dLcdDrawIcon, dLcdGetIconHeight, dLcdGetIconWidth, dLcdGetNumIcons. rewrite Hi.
  cbn [fmap option_fmap option_map mbind option_bind]. rewrite !Z.quot_div_nonneg by nia.
  replace ((0 <=? Num) && (Num <=? IconSize t / IconHeight t)) with true by lia.
  unfold dLcdDrawPicture. rewrite Z.shiftl_mul_pow2, !Z.shiftr_div_pow2 by lia. change (2 ^ 3) with 8.
  rewrite Z.div_mul by lia. change LCD_BYTE_WIDTH with 23. rewrite (i16_id (_ + Y * 23)) by lia.
  set (m := IconWidth t / 8) in *. set (n := IconSize t / IconHeight t) in *.
  assert (Num * IconHeight t * m + IconHeight t * m <= IconSize t * m) as Hfit by nia.
  assert (IconSize t * m <= 616 * 3) as Hmax by nia.
  replace (Num * IconWidth t * IconHeight t) with (Num * IconHeight t * m * 8) by lia.
  rewrite Z.div_mul, i16_id by nia. set (j := Num * IconHeight t * m) in *.
  assert (0 <= j) by (unfold j; nia).
  destruct (picture_lines_replaces (Z.to_nat (IconHeight t)) Color (IconWidth t)
    (drop (Z.to_nat j) (icon_bits Icon)) 0 (X / 8) Y (displayBuf s)) as (q & Hd & Hq);
    rewrite ?Z2Nat.id in * by lia; fold m; try lia; try apply Hs.
  { by apply Forall_drop. }
  { unfold zlen in *. rewrite length_drop. lia. }
  exists q. split; [exact Hd|]. revert Hq. apply replaced_ext. intros x y Hx Hy. f_equal.
  unfold picture. match goal with |- (if ?b then _ else _) = _ => destruct b eqn:E end; [|done].
  do 2 f_equal. rewrite bit_at_drop by nia. fold m. f_equal. unfold j. lia.
Qed.
