(* ===== verification/LcdFonts.v ===== *)
(** * LcdFonts: the bitmaps of the fonts and icons (src/util/cat/*.xbm)

    The arrays that ev3_lcd.c includes, byte for byte, two hexadecimal digits for
    each and a string for each line of the file, and the functions of
    the font and icon number that the display functions take them as. *)

From S2P Require Import Prelude.
From S2P Require Import Cstr.
From S2P Require Import Lcd.
From S2P Require Import LcdText.

Fixpoint hex_pairs (l : list Z) : list Z :=
  match l with
  | a :: b :: l => default 0 (hex_digit a) * 16 + default 0 (hex_digit b) :: hex_pairs l
  | _ => []
  end.
Definition unhex (lines : list string) : list Z := concat (map (fun l => hex_pairs (str l)) lines).

Definition normal_font_width : Z := 128.
Definition normal_font_height : Z := 54.
Definition normal_font_bits : list Z := unhex [
  "0010484810801C2020080000"; "0000004000104848F84E2220"; "1010101000000040001024FC";
  "142A22100820541000000020"; "001000281C2E220008203810"; "000000200010002870109C00";
  "082054FE007C00100010007E"; "90E8A2000820101000000010"; "0010002490A8420008200010";
  "00000010000000247CE44200"; "101000101000100800100000"; "1002BC002008000018001008";
  "7810787840F870FC78780000"; "00000038841C848460080880"; "848400008000044484108480";
  "500804408484101060FE1840"; "8410808048087C4084841010"; "180060208410407044788420";
  "788400000400801084103080"; "FC80842084F8000018FE6010"; "841008804080841084801010";
  "600018108410048440848410"; "8440101080000400787CFC78"; "407878087838000800000010";
  "38103C783EFCFC7882383884"; "04C686384410448442040484"; "8210204404C6864482284402";
  "820404028210202404AA8A82"; "BA2844028204040282102014"; "04AA8A82B2447C0282FC7C02";
  "FE10200C04AA9282AA448402"; "820404E2821020140492A282"; "727C84028204048282102024";
  "0492A2820482848442040484"; "821020440492C244F8827C78"; "3EFC04F882381C84FC82C238";
  "7C383E7CFE8282828282FE38"; "083810008444428210828292"; "824480080820280084824202";
  "108282924444400810204400"; "848242021082449228282008"; "102082008482227C108244AA";
  "10281008202000007C921E80"; "108228AA2810080820200000"; "04642280108228AA44100408";
  "202000000478428210441044"; "821002084020000004C0827C"; "103810448210FE38403800FE";
  "100004008000700004000004"; "100000001000040080000800"; "041020041000000020780478";
  "807808F804000044104A7478"; "00807484F8843C8474103024"; "10B68C8400808C0484840884";
  "8C1020141092848400F88404"; "84FC08C48410200C10928484"; "00848404840408B884102014";
  "1092848400848484C4840880"; "841020241092848400F87C78"; "B878087884101C4410928478";
  "000000000000000000000020"; "10084C000000000008000000"; "000000101010320074F86878";
  "3C84849244847C1010100000"; "8C8418040884849244484010"; "1010000084C40804088448AA";
  "28482008102000007CB80838"; "088448AA1030101010100000"; "04800840088448AA28300810";
  "101000000480084008C43044"; "44100410101000920480083C"; "30B8304444087C2010080092"]%string.

Definition small_font_width : Z := 128.
Definition small_font_height : Z := 48.
Definition small_font_bits : list Z := unhex [
  "00186C5020001C3060180000"; "0000006000186C50788E3630"; "3030101000000060001824FC";
  "2C4A36101860541000000030"; "00180028782E9C0018603810"; "0000003000180028D010B600";
  "186054FE007C00180018007E"; "D4E866001860101000000018"; "0000001478A4C60030300010";
  "6000180C0018001410E2BC00"; "601800107000180C7C307C7C"; "60FC78FE7C7C000000000038";
  "C63CC6C6700C0CC0C6C63030"; "60000C64C630C6C6680C0660"; "C6C6303018FE3060C6306030";
  "647C7E607CC600000600C030"; "C63030C062C0C630C6FC0000"; "0600C018C63018C6FEC6C630";
  "C6C0303018FE3018C6300CC6"; "60C6C618C660303060000C00"; "7CFCFE7C607C7C187C3C0010";
  "0000001878183E783EFEFE78"; "C6787CC606C66638841866CC"; "660606CCC630606606EE6E6C";
  "B23C66C6C60606C6C6306036"; "06EE6EC6AA247E06C6FEFE06"; "C630601E06EE7EC6AA66C606";
  "C60606E6FE30603606D676C6"; "727EC6C6C60606C6C6306066"; "06D676C60466C6CC660606CC";
  "C63060C606D6666C78667E78"; "3EFE06F8C6783E86FEC66638"; "7E187E7CFCC6C6C66666FE78";
  "0C783000C63CC6C630C6C6C6"; "666660180C607800C666C60E"; "30C66CD63C2430181860CC00";
  "C6667E7C30C66CD6183C3018"; "186000007E6636E030C638D6"; "1818181830600000067666C6";
  "30C6387C3C18181830600000"; "063CC6C630C6107C66180C18"; "6060000006D8867C307C106C";
  "6618FE78607800FE30000600"; "C00070000618180618000000"; "307C067CC07C18FC061818C6";
  "18EE767C20C076C6FCC618C6"; "7600006618FECEC600FCCE06"; "C6C67CC6CE181C3618D6C6C6";
  "00C6C606C6FE18E6C618181E"; "18D6C6C600C6C606C60618DC"; "C618183618D6C6C600C6C6C6";
  "E6C618C0C618186618D6C6C6"; "00FC7E7CDC7C187CC6180EC6"; "18D6C67C0000000018000000";
  "000000703038980076FC6CF8"; "7CC6C6C6C6C6FC183060FC00"; "CEC67C0C18C6C6D6C6C6C018";
  "30606400C6E60C1C18C6C6D6"; "6C6C6030303000007EDC0C78"; "18C66CD6386C303030300000";
  "06C00CE018C66C7C6C381818"; "3060000006C00CC018E6386C"; "C6300C183060009206C00C7C";
  "70DC386CC61CFC7030380092"]%string.

Definition large_font_width : Z := 256.
Definition large_font_height : Z := 96.
Definition large_font_bits : list Z := unhex [
  "00008003E03800630003000C"; "E00100070006C00080010000"; "000000000000001800008003";
  "E03800630003000CF0070007"; "0007C0018001000300000000"; "0000001800008003E0388031";
  "E01F380E380E000780038003"; "98190003000000000000001C"; "00008003701C8031F87F7C06";
  "180C800380038003B00D0003"; "000000000000000C00008003"; "701CF0FF3C736C06180C8003";
  "C0010007E007000300000000"; "0000000C00008003300CF0FF"; "3C636C0738068001C0010007";
  "C0030003000000000000000E"; "000080030000C01878037C03"; "F0030000E000000EE0070003";
  "000000000000000600008003"; "0000C018F01F3803F0310000"; "E000000EB00DFCFF0000F01F";
  "00000006000080030000600C"; "C07F8003B8330000E000000E"; "9819FCFF0000F01F00000003";
  "000080030000600C00FB8039"; "1C370000E000000E80010003"; "000000000000000300000000";
  "0000FC3F0CE3807D0C3E0000"; "C00100078001000300000000"; "00008003000000000000FC3F";
  "1CF3C06D0C3C0000C0010007"; "000000030007000000008001"; "0000000000003006FC7FC06C";
  "1C3800008003800300000003"; "000700000007800100008003"; "00003006F03FC07C3C7C0000";
  "800380030000000300070000"; "0007C0010000800300001803"; "0003E038F8EF00000007C001";
  "00000003C00300000007C000"; "000080030000180300036000"; "F0C700000006C00000000000";
  "C00300000007C000C01F8003"; "E01FE01F0038F07F807FF8FF"; "C01FC01F0000000000000000";
  "0000F01FE03FC003F83FF83F"; "003CF07FC07FF8FFE03FE03F"; "00000000000000000000F83F";
  "F078F803387C387C003E7000"; "E07300E0F078F07800070007"; "00700000380038787070F803";
  "38703870003F7000F00000E0"; "707078F000070007007C0000"; "F800007078F0800300700070";
  "803B7000F0000070707038E0"; "00070007001FFCFFE0030070"; "38E0800300700038C0397000";
  "38000078E07038E000070007"; "C003FCFF000F007838E08003"; "0078001CE038F00F381F003C";
  "E03B78F000000000F0000000"; "003C003E38E08003003C800F"; "7038F01FF83F001C801FF0F8";
  "00000000380000000070001F"; "38E08003001E800F3838003C"; "F878000EE01FE0FF00000000";
  "380000000070800738E08003"; "000F003C1838007878F00007"; "707CC0E700000000F0000000";
  "003C800338E0800380070078"; "F8FF007038E0000778F000E0"; "00070007C003FCFF000F8003";
  "78F08003C0030070F8FF0070"; "38E0800338E000F800070007"; "001FFCFFE003000070708003";
  "E00138780038387878F0C003"; "38E0007800078007007C0000"; "F8000000F0788003F000383C";
  "0038383CF078C00178F0703E"; "000780030070000038008003"; "E03FF83FF87FF81F0038F81F";
  "E03FE000F07FF01F00008001"; "0000000000008003C01FF83F"; "F87FE00F0038E00FC01FE000";
  "E03FF00F0000000000000000"; "00008003800F8003FC0F803F"; "FC07F8FFF8FFC03F38E0F01F";
  "C01F380038001EF0F8E08007"; "E03F8003FC1FE0FFFC1FF8FF"; "F8FFE07F38E0F01FC01F3800";
  "38003EF8F8E0E01FF078C007"; "1C3CF0E11C3E38003800F0F0"; "38E08003001C387838003EF8";
  "F8E1F03F3860C0071C3878C0"; "1C783800380078E038E08003"; "001C383C38007EFCF8E17878";
  "1CEFE00E1C3838001C703800"; "3800380038E08003001C381E"; "38006EECF8E138709CCFE00E";
  "1C1C3C001CE0380038003C00"; "38E08003001C380F38006EEC"; "B8E33CF0CCCC701CFC0F1C00";
  "1CE0380038001C0038E08003"; "001C38073800CEE6B8E71CE0"; "CCCC783CFC3F1C001CE0F8FF";
  "F87F1CFEF8FF8003001CB803"; "3800CEE638E71CE0CCCC3838"; "1C781C001CE0F8FFF87F1CFE";
  "F8FF8003001CF8073800CEE7"; "38E71CE0CCCCF83F1CF03C00"; "1CE0380038001CE038E08003";
  "001CF80738008EE338EF1CE0"; "9C7FFC7F1CE038001C703800"; "38003CE038E08003001C780F";
  "38008EE338EC3CF0187F1C70"; "1CE078001C703800380038E0"; "38E08003001C381E38008EE3";
  "38FC387038001C701CF0F0C0"; "1C383800380078E038E08003"; "001C383C38000EE138F87878";
  "F0380CE01C78E0E11C3E3800"; "3800F0F138E08003701E3878"; "38000EE038F8F03FE03F0CE0";
  "FC3FC0FFFC1FF8FF3800E07F"; "38E0F01FF00F38F0F87F0EE0"; "38F0E01F803F0CE0FC0F003F";
  "FC07F8FF3800803F38E0F01F"; "F00738E0F87F0EE038F08007"; "F80FC00FFC1FE03FFEFF1CE0";
  "38E038E038E038E0FCFFE00F"; "6000E00F00030000F81FE01F"; "FC3FF8FFFEFF1CE038E038E0";
  "78F078F0FCFFE00F6000E00F"; "80070000383CF03C1C783CF0"; "80031CE038E038E0F0787070";
  "00E0E000E000000EC00F0000"; "387878781CF01CC080031CE0"; "38E038E7E038E03800F8E000";
  "C000000EC00C000038703870"; "1CE01C0080031CE078F038E7"; "C01DE038007CE000C000000E";
  "6018000038701CE01CE01C00"; "80031CE0707038E7800FC01D"; "001EE000C001000E70380000";
  "38701CE01C703C0080031CE0"; "707038E7800FC01D000FE000"; "8001000E3870000038781CE0";
  "1C38F80F80031CE0E038B8EF"; "0007800F8007E0008001000E"; "00000000383C9CE3FC1FF07F";
  "80031CE0E038B8EF800F0007"; "C003E0000003000E00000000"; "F81F9CE7FC0F80FF80031CE0";
  "E038B8ED800D0007E001E000"; "0003000E00000000F80F9CEF"; "1C1E00F080031CE0C01DB8ED";
  "C01D0007F000E0000007000E"; "00000000380038FF1C1C00E0"; "80033870C01DB8FDE0380007";
  "7800E0000006000E00000000"; "3800787E1C380CE080033870"; "C01DF07DE03800073C00E000";
  "0006000E000000003800F07C"; "1C783CF08003F03C800FF078"; "707000073C00E000000E000E";
  "000000003800E0FF1CF0FC7F"; "8003E01F800FF07878F00007"; "FCFFE00F000CE00F0000FCFF";
  "380080EF1CE0F01F8003C00F"; "800FF07838E00007FCFFE00F"; "000CE00F0000FCFF00070000";
  "3800000000700000003E0000"; "00000000001C380080030000"; "000000000007000038000000";
  "00700000803F000038008003"; "001C38008003000000000000"; "0007E01F3800003F0070800F";
  "8003807738008003001C3800"; "8003EE38381FC01F000EF03F"; "3800C07F0070E03FC001E07F";
  "38000000000038788003FE7D"; "B83FE03F000C70783800E071"; "0070F078C001F07C38000000";
  "0000383C8003FEFFF879F078"; "000000E0B80F706080777070"; "C0017878B81F8003801F381E";
  "80039EE7F8707070000000E0"; "F81F7000E07F38E0F01F3870"; "F83F8003801F380F80038EE3";
  "387078F0000000E0F83C3800"; "F07C38E0F01F3870F8388003"; "001CB80780038EE3387038E0";
  "0000C0FF387838007870F8FF"; "C001387878708003001CF803"; "80038EE3387038E00000F0FF";
  "387038003870F8FFC001787C"; "38708003001CF80180038EE3"; "387038E00000F8E138703800";
  "38703800C001F07738708003"; "001CF80780038EE3387038E0"; "000078E03870700038703800";
  "C001C07338708003001C380F"; "80038EE3387078F0000038E0"; "38707060387078E0C0010038";
  "38708003001C381E80038EE3"; "38707070000078F8F838E071"; "787CF0F0C001383C38708003";
  "601E383C80038EE33870F078"; "0000F0FFF81FC07FF07FE0FF"; "C001F81F38708003E00F3878";
  "80038EE33870E03F0000E0E7"; "B80F003FC073803FC001F80F"; "38708003E00738F080038EE3";
  "3870C01F0000000000000000"; "C00100000000000000000000"; "0000003E8003F800E0C10000";
  "0000000000000000C0010000"; "00000000000000000000803F"; "8003F801F0C30000B81FC0EF";
  "E03EC01FC001383838E038E0"; "38E038E0F87F800380038003"; "30670000F83FE0FFE03FF07F";
  "C001383838E038E078F078F0"; "F87FC00180030007187E0000"; "F87870F8E0037870F01F3838";
  "38E038E2707070700070C001"; "80030007183C0000387038E0"; "E0013860F01F3838707038E7";
  "E038E0380078C00180030007"; "00000000387038E0E0003800"; "C0013838707038E7E03DE038";
  "003CF0008003001E00000000"; "387038E0E000F800C0013838"; "E03838E7C01FC01D001E3800";
  "8003003800000000F838F8F8"; "E000F00FC0013838E03838E7"; "800FC01D000F380080030038";
  "00000000F81FF0FFE000C03F"; "C0013838C018B8EF800F800F"; "8007F0008003001E00000000";
  "B80FC0E7E000007CC0013838"; "C01DB06DC01D800FC003C001"; "8003000700000000380000E0";
  "E0000070C0013838C01DB06D"; "E0388007E001C00180030007"; "00000000380000E0E0001870";
  "C001783C800DF07DE038C003"; "F000C00180030007000038E7"; "380000E0E0003838C01B783E";
  "800FF0787070C00178008003"; "80038003000038E7380000E0"; "E000F81FC01FF03F0007E038";
  "78F0F001F87F003F8003F803"; "000038E7380000E0E000E00F"; "801FE03B0007E03838E0F000";
  "F87F003E8003F800000038E7"]%string.

Definition tiny_font_width : Z := 125.
Definition tiny_font_height : Z := 42.
Definition tiny_font_bits : list Z := unhex [
  "00020A0A0400060404010000"; "0000000000020A0F0E0A0904"; "02020200000000080002000A";
  "020809020104070400000008"; "0002000F0E0406000104020E"; "000F00040002000A08040900";
  "010400040000000400000000"; "0E0205000202000004000402"; "00020000040A0A0004010000";
  "0600040206040606040E060F"; "060600000000000609060909"; "060209080909000000000009";
  "090508080507010409090000"; "04000108090404060F090704"; "060E04040207020409040208";
  "040809020908000001000404"; "090401090409090209090404"; "0207020006040F0604060602";
  "060600020400010400060706"; "070F0F06090E0709011B0906"; "0E0909090901010109040409";
  "01150B090909090109010101"; "0904040501150B090D0F0701"; "090F030D0F04040301150D09";
  "050909010901010909040405"; "01110D090109090909010109"; "09040409011109090E090706";
  "070F0106090E03090F110906"; "070607060709091109090F0E"; "000E04000909090902090911";
  "0909080202080A0009090901"; "020909110609040202080000"; "090B090602090A1106060402";
  "040800000705070802090A15"; "060202020408000001090509"; "020D04150902010208080000";
  "01060906020A041B09020F0E"; "080E000F0400010008000C00"; "010008010400000002000100";
  "0800020E0104000104000000"; "000E01060806020901000C01"; "040B0706000907090E090709";
  "070408090415090900090901"; "090F020E0904080504150909"; "000D09090D01020809040903";
  "04150909000A07060A060206"; "0904060D0C15090600000000"; "000000000000000804021400";
  "070E00000000000000000004"; "04040A000909050E02091115"; "11090F040404000009090B01";
  "0F0911150A09080204080000"; "070E010602090A15040E0604"; "040400000108010802090A15";
  "0A0801040404000001080107"; "0C0E040A11060F0804020005"]%string.

Definition normal_icons_width : Z := 24.
Definition normal_icons_height : Z := 420.
Definition normal_icons_bits : list Z := unhex [
  "00F000000801000402003204"; "00F10800F10900F10900F108"; "00320400040200080100F000";
  "00000080010040FE01200001"; "20000120FF0F200108A00004"; "A00004600002200001E0FF00";
  "00000080010040FE01200001"; "20000120FF0F200108A08804"; "A04404602202200001E0FF00";
  "000000F0FF0310000210003E"; "506D2250A52A506D2250A92A"; "D06D2210003E100002F0FF03";
  "000000E0FF0320000420800F"; "A00D08A0140FA0150820150F"; "A00D0820000F200008E0FF0F";
  "000000004008806710805412"; "804C14804414804414804C14"; "805412806710004008000000";
  "00000000F000000A0100670E"; "009108000909000909009108"; "00610800010800FF0F000000";
  "000000000003008001008008"; "00800D00C00700E000007C00"; "003600002200003000001800";
  "00200000A80000AC01002603"; "002306002104000104000104"; "000306000603008C0100F800";
  "003C00004200008D00800C01"; "800001800001800001008100"; "00C20300BC0700800F00000F";
  "00000000000000FE01000102"; "00FC00000201007800008400"; "003000003000000000000000";
  "00000000000000001C800317"; "800E1D800B0100F801000001"; "001C0100F401001C00000000";
  "00000000F800008C01002603"; "00230600210400FD05002104"; "002306002603008C0100F800";
  "808B0100EC01000E07400000"; "50F107E01004F05105E05005"; "50510540500500100400E003";
  "00000000000000F800000401"; "00720200E90400F904007202"; "00040100F800000000000000";
  "000000000000800300400400"; "40040040F90F400110405C0B"; "40A404800300000000000000";
  "002000007E00002000008E03"; "008B06C0891CC0891C008B06"; "008E0300200000F003002000";
  "00240100A800002000008E03"; "008B06C0891CC0891C008B06"; "008E0300200000A800002401";
  "000000000000000000002000"; "00700000F80000FC01007000"; "007000007000007000000000";
  "000000000000000000007000"; "00700000700000700000FC01"; "00F800007000002000000000";
  "00000000FF0700FF07000202"; "000401008800008800008800"; "00040100020200FF0700FF07";
  "000000000306000707008B06"; "007306000306000306000306"; "007306008B06000707000306";
  "00200000600000A400002801"; "00B00000600000B000002801"; "00A400006000002000000000";
  "00FC00008601003303803106"; "800004803004803004803004"; "80310600330300860100FC00";
  "00000000FF00000101000103"; "00010400DD0400550500DD04"; "00550500D50400010400FF07";
  "00000000FF00000101000103"; "00010400DD05005505005D04"; "00450500C50500010400FF07";
  "00000000FF00000101000103"; "00010400D90400FD05000505"; "00050500FD0500010400FF07";
  "00000000FF00000101003903"; "006D04006104003904001904"; "00010400190400010400FF07";
  "00000000FF00000101003103"; "000104003904003104003104"; "00310400790400010400FF07";
  "80FF03805405806C09807409"; "80FC0980000880FE0B80020A"; "80520A80AA0A80020A80FF0F";
  "00000000000000000000FC01"; "002603C0231EC0231E002603"; "00FC01000000000000000000";
  "C0FF0720000820FF09200109"; "20FF0960010D60F10D201109"; "20110920FF08200008C0FF07";
  "C0FF0720000820400F206008"; "20300F20100820170FA00D08"; "E0000D60000D200008C0FF07";
  "00000000C00300800300C303"; "80EC0240700040FE03400101"; "C08000404000C03F00000000";
  "007F0000410000410080C100"; "80C10080FF00808A00809C00"; "808800808000007F00007F00"]%string.

Definition small_icons_width : Z := 16.
Definition small_icons_height : Z := 176.
Definition small_icons_bits : list Z := unhex [
  "FF7F0140E1D0F19BD98F0DC7"; "0140FF7FFF7F0140FDDFFD9F"; "FD9FFDDF0140FF7FFF7F0140";
  "FDDFFD8FFD87FDC30140FF7F"; "FF7F0140FDC3FD81FD807DC0"; "0140FF7FFF7F01403DC01D80";
  "0D8005C00140FF7FFF7F0140"; "01C00180018001C00140FF7F"; "300C700EB00D300C300CB00D";
  "700E300CF00FF00F20044002"; "40022004F00FF00F08001A00"; "2C0018002C001A0008000000";
  "08001A022C0198002C011A02"; "0800000008009A002C011802"; "2C019A000800000008001A0A";
  "2C1198202C111A0A08000000"; "FE010102FC00020178008400"; "3000300000000000FC000201";
  "780084003000300000000000"; "000000007800840030003000"; "FE010112FCF80211784084F8";
  "30403000FE210172FC700271"; "782084003020302020007004"; "20022001A0002004E00F0004";
  "2000700020022001A0002004"; "E00F00042000700020002001"; "A0002004E00F000420007000";
  "20002000A0002004E00F0004"; "00000000C91D2924E91D0925"; "E61C0000"]%string.

Definition large_icons_width : Z := 24.
Definition large_icons_height : Z := 616.
Definition large_icons_bits : list Z := unhex [
  "000000000000000000FCFF3F"; "020040010080010087018083"; "01C08101E080617080E13880";
  "C13D80811F80010F80010680"; "010080020040FCFF3F000000"; "000000000000000000000000";
  "000000FCFF3F020040F9FF9F"; "FDFFB8FD7FBCFD3FBEFD1FBF"; "9D8FBF1DC7BF3DC2BF7DE0BF";
  "FDF0BFFDF9BFF9FF9F020040"; "FCFF3F000000000000000000"; "000000000000000000FCFF3F";
  "020040010080810183018381"; "01C680016C80013880013880"; "016C8001C680018381810183";
  "010080020040FCFF3F000000"; "000000000000000000000000"; "000000FCFF3F020040F9FF9F";
  "7DFEBCFD7CBEFD39BFFD93BF"; "FDC7BFFDC7BFFD93BFFD39BF"; "FD7CBE7DFEBCF9FF9F020040";
  "FCFF3F000000000000000000"; "001800003C00003C0080BD01"; "C0BD03E0BD07F03C0F783C1E";
  "383C1C1C3C381C18381C0038"; "1C00381C00381C003838001C"; "38001C70000EE08107C0FF03";
  "80FF01007E00000000E0FF03"; "300006E0FF03400001400001"; "40550180AA00005500002A00";
  "001400002200004900808000"; "400801401401402A01E0FF03"; "300006E0FF03000000000000";
  "000000000000000000080008"; "1C001CF48017144114942214"; "141516940A1514A516940A15";
  "141516942214144114F48017"; "1C001C080008000000000000"; "000000000000000000F00300";
  "180600CC0C00C6180002100F"; "C2D008C21010C21016C69811"; "CC0C28182627F0A32000204C";
  "10264330A860E02038102346"; "E08C3900FF07007000000000"; "003C00007E0000660000C300";
  "00C300808101809901C01803"; "C0180360180660180630180C"; "30180C1818181800180C1830";
  "0C1830060060060060FEFF7F"; "FCFF3F000000000000000000"; "000000000000000000FCFF1F";
  "040010740070740040340040"; "340040140040140070040010"; "FCFF1F000000000000000000";
  "000000000000000000000000"; "00000000FF00E0A80718501F"; "06A87E02507F02A87E02507F";
  "02FF7EE2007F1C0038000000"; "00C00700000700800700C005"; "00E004007000003C00001400";
  "001C00000000000000000006"; "FC1F09041009F4170914142F"; "16340F16342FF6370F86302F";
  "FE3F0FB2202F82200FC2212F"; "A2220FC6310604100FFC9F1F"; "04901FFC1F0F000006000000";
  "E01F00102000C00F00201000"; "800700400800000300000300"; "000000306000767007E238FC";
  "C21D84820FA4020784820FA4"; "C21D84E238FC767007306000"; "000000000000000000000000";
  "000000003C0000E700808101"; "C00003600406200C04303C0C"; "107C08107C08303C0C200C04";
  "600406C0000380810100E700"; "003C00000000000000000000"; "00000000000078FC07FC0004";
  "DEF5058E070500070D84070D"; "0EF00D84210C80FF0F802C08"; "80200880700880A80880710C";
  "00010400FF0700010400FF07"; "000000000000000000000000"; "780000FC0000DE05008E0700";
  "00070084F70F0E001084003E"; "80002080363C80522080563C"; "80542080363C80002080FF3F";
  "000000000000000000000000"; "0000000000003C00007E0000"; "EF0200C70300800300C2FB07";
  "0700042200FC200084A0DAA4"; "A04A85A0DAA4A05285A0DBFC"; "200004E0FF07000000000000";
  "000000000000000000000000"; "780000FC0000DE05008E0700"; "0007008417000E3000045200";
  "009400005800003000005800"; "009400005200003000001000"; "000000000000000000000000";
  "000000000000780000FC0000"; "DE05008E0700000700840700"; "0E000004FE0100010200FC00";
  "000201007800008400003000"; "003000000000000000000000"; "00000000000000000000D801";
  "F07801F8E101BC8B071C0F06"; "000E0000EF07000004002505"; "002505002505002505002505";
  "002505002505002505002505"; "00010400FE03000000000000"; "00000000FC03000405000409";
  "F80711080A1F081210082210"; "08BE1008A01108FF1308FF13"; "08A01108A01008201008E01F";
  "082000082000F83F00000000"; "000000000000000000000000"; "000000000000E0FF03201605";
  "202A09203609203A0920FE09"; "200008200008A0FF0BA0000A"; "A0FE0AA0000AA0FE0AA0000A";
  "E0FF0F000000000000000000"; "000000480840487C27FC0A15"; "280E172838087E4874244854";
  "243E72000801000000700000"; "88100004550074397E645500"; "541100E4007E080000F00100";
  "00000000000000000000F00F"; "001014001024E01F4420287C"; "20484020884020F842208046";
  "26EC4F0EEE4F1C8746B88342"; "F08140E0807FF08100B88300"; "1CE7000E0E00060C00000000";
  "000000000000000000000000"; "8FFF03555505DAAAC6DFFFC7"; "5000C45000C47000CC500004";
  "5000C45000C4500004500004"; "8FFF03000000000000000000"; "000000000000000000000000";
  "000000000000001000009200"; "00540000100000C701804503"; "F8443EF8443E80450300C701";
  "001000005400009200000000"; "000000000000000000000000"; "000000000000000000000000";
  "00C00000E00180F10340C200"; "20DC0220C00420C00420C004"; "A0FF0FA00008A00008600004";
  "600004200002E0FF03000000"; "000000000000000000000000"; "FEFF1F020020020040020080";
  "92F7849A948A9294A4929490"; "9294889294849294929294A8"; "BAF790020080020080020080";
  "FEFFFF48292578EF3D000000"]%string.

Definition menu_icons_width : Z := 16.
Definition menu_icons_height : Z := 132.
Definition menu_icons_bits : list Z := unhex [
  "000000000008002A001C003E"; "001C002A0008000000000000"; "000000000000080E2A111C11";
  "BE3F9C31AA3B88318031001F"; "000000000000000E00110011"; "803F8031803B80318031001F";
  "FC0702080208020802080208"; "060CF803FC07560DAB1AFF1F"; "0003F0030804080408040804";
  "F8075807B8065807F807F003"; "F803080208020C060C06FC07"; "5404E40444040404F803F803";
  "0000080E181B291B4A182C0C"; "18062C064A00290618060800"; "000000F000E0C0F020BB101C";
  "90FF504030201010F00F0000"; "0000FF070104010401040104"; "0104010401040104FF070000";
  "0000FF07010401058105C504"; "6D04390411040104FF070000"; "0000FF0701048D05D9047104";
  "7104D9048D050104FF070000"]%string.

Definition arrow_icons_width : Z := 8.
Definition arrow_icons_height : Z := 36.
Definition arrow_icons_bits : list Z := unhex [
  "0000082A1C3E1C2A08000000"; "0000406070787C7870604000"; "0000040C1C3C7C3C1C0C0400"]%string.

(** [FontInfo[Font].pFontBits]. *)
Definition pFontBits (Font : Z) : list Z :=
  if Font =? FONTTYPE_NORMAL then normal_font_bits
  else if Font =? FONTTYPE_SMALL then small_font_bits
  else if Font =? FONTTYPE_LARGE then large_font_bits
  else if Font =? FONTTYPE_TINY then tiny_font_bits
  else [].

(** [dLcdGetIconBits(Icon)]. *)
Definition dLcdGetIconBits (Icon : Z) : list Z :=
  if Icon =? 0 then normal_icons_bits
  else if Icon =? 1 then small_icons_bits
  else if Icon =? 2 then large_icons_bits
  else if Icon =? 3 then menu_icons_bits
  else if Icon =? 4 then arrow_icons_bits
  else [].

Definition byte_list (l : list Z) : bool := forallb (fun b => (0 <=? b) && (b <? 256)) l.

Lemma byte_list_ok l : byte_list l = true -> bytes_ok l.
Proof.
  unfold byte_list. intros H. apply Forall_forall. intros b Hb.
  apply list_elem_of_In in Hb. rewrite forallb_forall in H. specialize (H b Hb). unfold byte_ok. lia.
Qed.

(** Each array has the size that its table entry promises. *)
Lemma fonts_complete : fonts_ok pFontBits.
Proof.
  intros Font f Hf. apply font_info_cases in Hf as [[-> ->]|[[-> ->]|[[-> ->]|[-> ->]]]].
  all: split; [apply byte_list_ok|]; by vm_compute.
Qed.

Lemma icons_complete : icons_ok dLcdGetIconBits.
Proof.
  intros Icon t Ht. apply icon_info_cases in Ht as [[-> ->]|[[-> ->]|[[-> ->]|[[-> ->]|[-> ->]]]]].
  all: split; [apply byte_list_ok|]; by vm_compute.
Qed.

Lemma bitmap_sizes :
  IconInfo = [MkIcon normal_icons_height 12 normal_icons_width;
    MkIcon small_icons_height 8 small_icons_width; MkIcon large_icons_height 22 large_icons_width;
    MkIcon menu_icons_height 12 menu_icons_width; MkIcon arrow_icons_height 12 arrow_icons_width]
  /\ map (fun '(w, h) => (w + 7) / 8 * h)
       [(normal_font_width, normal_font_height); (small_font_width, small_font_height);
        (large_font_width, large_font_height); (tiny_font_width, tiny_font_height)]
     = map zlen [normal_font_bits; small_font_bits; large_font_bits; tiny_font_bits].
Proof. split; by vm_compute. Qed.
