(* ===== verification/LcdCat.v ===== *)
(** * LcdCat: cat(1) for the display of the brick (src/util/cat/cat.c)

    The program prints its input to the display with [LcdPrintf] of
    src/util/cat/ev3_lcd.c, while a timer signal shows the display buffer four
    times a second.  The signal is delivered between two calls of the library. *)

From S2P Require Import Prelude IO Timer Lcd LcdFrame LcdPaint.

Definition TAB_SIZE : Z := 2.

(** The static variables of [LcdPrintf]. *)
Record cursor := MkCursor { X0 : Z; Y0 : Z; indent : Z }.
Definition cursor0 : cursor := MkCursor 0 0 0.

Section printf.
Context (font_bits : Z -> list Z).

(** The character at the cursor, which has been put on the screen. *)
Definition printf_switch (color width height font c : Z) (cur : cursor) (p : list Z)
    : option (cursor * list Z) :=
  let '(MkCursor X0 Y0 indent) := cur in
  if c =? 10 then Some (MkCursor 0 (i16 (Y0 + (height + 2))) indent, p)
  else if c =? 13 then Some (MkCursor 0 Y0 indent, p)
  else if c =? 8 then Some (MkCursor (i16 (X0 - width)) Y0 indent, p)
  else if c =? 11 then Some (MkCursor X0 (i16 (Y0 + (height + 1))) indent, p)
  else if c =? 12 then Some (MkCursor 0 0 indent, p)
  else if c =? 9 then Some (MkCursor (i16 (X0 + width * (TAB_SIZE - indent))) Y0 indent, p)
  else
    p ← dLcdDrawChar font_bits p color X0 Y0 font c;
    Some (MkCursor (i16 (X0 + width)) Y0 (i16 (indent + 1)), p).

Definition printf_char (color width height font c : Z) (cur : cursor) (p : list Z)
    : option (cursor * list Z) :=
  let i := if indent cur =? TAB_SIZE then 0 else indent cur in
  let cur :=
    if negb ((0 <=? X0 cur) && (X0 cur <? LCD_WIDTH - width))
    then MkCursor 0 (i16 (Y0 cur + height)) i else MkCursor (X0 cur) (Y0 cur) i in
  '(cur, p) ← printf_switch color width height font c cur p;
  Some (MkCursor (X0 cur) (Y0 cur) (i16 (indent cur + 1)), p).

Fixpoint printf_loop (color width height font : Z) (buf : list Z) (cur : cursor) (p : list Z)
    : option (cursor * list Z) :=
  match buf with
  | [] => Some (cur, p)
  | c :: buf =>
      '(cur, p) ← printf_char color width height font c cur p;
      printf_loop color width height font buf cur p
  end.

(** [vasprintf]: what [vsnprintf] makes of the format and its arguments, [None]
    when it fails, and whether [malloc] gives memory; the result and the string
    that [*buf] is set to, if it is. *)
Definition vasprintf (malloc : bool) (formatted : option (list Z)) : Z * option (list Z) :=
  match formatted with
  | None => (-1, None)
  | Some text => if malloc then (zlen text, Some text) else (-1, None)
  end.
Definition asprintf (malloc : bool) (formatted : option (list Z)) : Z * option (list Z) :=
  vasprintf malloc formatted.

(** [buf] is the text that [vasprintf] has set it to; the result is -1 or its
    length. *)
Definition LcdPrintf (color : Z) (buf : list Z) (st : cursor * lcd)
    : option (Z * (cursor * lcd)) :=
  let '(cur, s) := st in
  if negb (LcdInitialized s) then Some (-1, (cur, s)) else
  f ← font_info (currentFont s);
  if pLcd s then
    '(cur, p) ← printf_loop color (FontWidth f) (FontHeight f) (currentFont s) buf cur
      (displayBuf s);
    Some (zlen buf, (cur, set_dirty true (set_display p s)))
  else match buf with [] => Some (0, (cur, set_dirty true s)) | _ => None end.

Definition LcdTextf (Color X Y : Z) (buf : list Z) (s : lcd) : option (bool * lcd) :=
  LcdText font_bits Color X Y buf s.

(** ** The program *)

Definition call_back (c : callback) (s : option lcd) : option lcd :=
  match c with CbLcdUpdateHandler => s ≫= LcdUpdateHandler end.

(** While [fgets] waits: a line arrives, or the timer signal does. *)
Inductive event := Line (buffer : list Z) | Tick.

Record process := MkProcess { p_cursor : cursor; p_lcd : lcd; p_timers : timers callback }.

Definition print (text : list Z) (st : process) : option process :=
  '(_, (cur, s)) ← LcdPrintf 1 text (p_cursor st, p_lcd st); Some (MkProcess cur s (p_timers st)).

Definition on_event (e : event) (st : process) : option process :=
  match e with
  | Line buffer => print buffer st
  | Tick =>
      let '(t, s) := timerSigHandler call_back (p_timers st) (Some (p_lcd st)) in
      s ← s; Some (MkProcess (p_cursor st) s t)
  end.

Fixpoint run_events (es : list event) (st : process) : option process :=
  match es with
  | [] => Some st
  | e :: es => st ← on_event e st; run_events es st
  end.

(** Up to the greeting. *)
Definition cat_start (fd : Z) (mapped : option (list Z)) (now : timeval) (st : process)
    : option process :=
  '(_, (s, t)) ← LcdInit fd mapped now (p_lcd st, p_timers st);
  '(_, s) ← LcdClean s;
  st ← print (str ":)") (MkProcess (p_cursor st) s t);
  print (str ":)") st.

(** [es] is what happens between the greeting and the last line, the sleep
    included.  The copy on the standard output is left out. *)
Definition cat_main (fd : Z) (mapped : option (list Z)) (now : timeval) (es : list event)
    (st : process) : option process :=
  st ← cat_start fd mapped now st;
  st ← run_events es st;
  st ← print (str "-----") st;
  Some (MkProcess (p_cursor st) (LcdExit (p_lcd st)).2 (p_timers st)).

(** [run], which is not called: the lines of a command, and what it returned.  The
    result [None] in the pair is the exit after a failed [popen]. *)
Fixpoint run_lines (lines : list (list Z)) (count : Z) (st : cursor * lcd)
    : option (Z * (cursor * lcd)) :=
  match lines with
  | [] => Some (count, st)
  | l :: lines => '(n, st) ← LcdPrintf 1 l st; run_lines lines (count + n) st
  end.
Definition run_report (count ret errno : Z) : list Z :=
  [10] ++ str "--- " ++ fmt_d count ++ str " characters read. return value = " ++ fmt_d ret
  ++ str ". errno=" ++ fmt_d errno ++ [10] ++ str "---" ++ [10].
Definition run (output : option (list (list Z))) (ret errno : Z) (st : cursor * lcd)
    : option (option Z * (cursor * lcd)) :=
  match output with
  | None => '(_, st) ← LcdPrintf 1 (str "Error popen " ++ [10]) st; Some (None, st)
  | Some lines =>
      '(count, st) ← run_lines lines 0 st;
      '(_, st) ← LcdPrintf 1 (run_report count ret errno) st;
      Some (Some ret, st)
  end.

(** *** Printing stays inside of the buffer *)

Context (Hbits : zlen (font_bits FONTTYPE_NORMAL) = 864).

Lemma poke_ok p i v : image_ok p -> 0 <= i < 2944 -> exists q, poke p i v = Some q /\ image_ok q.
Proof.
  intros Hp Hi. pose proof (image_length p Hp) as Hl. unfold poke.
  rewrite (proj2 (Z.ltb_ge _ _)) by lia. rewrite (proj2 (Z.leb_gt _ _)) by (unfold zlen; lia).
  eexists. split; [done|]. destruct Hp as [Hb Hz]. split.
  - apply Forall_insert; [done|]. apply Z.mod_pos_bound. lia.
  - unfold zlen. by rewrite length_insert.
Qed.

Definition normal_font : FONTINFO := MkFont 9 8 16 0x20 0x7F.

Lemma char_aligned_ok n color i L p :
  image_ok p -> 0 <= i -> i + 16 * Z.of_nat n < 880 -> 0 <= L -> L + 23 * Z.of_nat n < 2 ^ 15 ->
  exists q, char_aligned font_bits n color FONTTYPE_NORMAL normal_font i L p = Some q /\ image_ok q.
Proof.
  revert i L p. induction n as [|n IH]; intros i L p Hp Hi Hi2 HL HL2; [by exists p|].
  cbn [char_aligned].
  change (Z.to_nat (Z.max 1 (FontWidth normal_font / 8))) with 1%nat.
  change (FontWidth normal_font * FontHorz normal_font / 8) with 16.
  change LCD_BYTE_WIDTH with 23. rewrite !i16_id by lia. cbn [loop].
  assert (exists q, (if L <? LCD_BUFFER_SIZE
      then b ← peek (font_bits FONTTYPE_NORMAL) (i + 0); poke p (L + 0) (ink color b)
      else Some p) = Some q /\ image_ok q) as (q & -> & Hq).
  { change LCD_BUFFER_SIZE with 2944. destruct (Z.ltb_spec L 2944); [|by exists p].
    unfold peek. rewrite (proj2 (Z.ltb_ge _ _)) by lia.
    destruct (_ !! _) as [b|] eqn:Eb.
    - cbn [mbind option_bind]. apply poke_ok; [done|lia].
    - apply lookup_ge_None in Eb. unfold zlen in Hbits. lia. }
  cbn [mbind option_bind]. apply IH; [done|lia..].
Qed.

(** The cells of the screen, and 1414 rows. *)
Lemma draw_char_ok p color x y c :
  image_ok p -> 0 <= x < 178 -> x mod 8 = 0 -> 0 <= y <= 1414 -> 0 <= c < 256 ->
  exists q, dLcdDrawChar font_bits p color x y FONTTYPE_NORMAL c = Some q /\ image_ok q.
Proof.
  intros Hp Hx Hx8 Hy Hc. unfold dLcdDrawChar.
  change (font_info FONTTYPE_NORMAL) with (Some normal_font). cbn [mbind option_bind].
  change (FontFirst normal_font) with 32. change (FontLast normal_font) with 127.
  destruct ((32 <=? c) && (c <=? 127)) eqn:E; [|by exists p].
  change (FontWidth normal_font mod 8 =? 0) with true.
  rewrite Z.rem_mod_nonneg, Hx8 by lia. cbn [Z.eqb andb].
  rewrite Z.shiftl_mul_pow2, !Z.shiftr_div_pow2 by lia. change (2 ^ 3) with 8.
  rewrite Z.div_mul by lia. change LCD_BYTE_WIDTH with 23.
  assert (0 <= x / 8 < 23) by (split; [apply Z.div_pos|apply Z.div_lt_upper_bound]; lia).
  unfold char_byte_index. change (FontHorz normal_font) with 16.
  change ((FontWidth normal_font + 7) / 8) with 1. change (FontHeight normal_font) with 9.
  pose proof (Z.mod_pos_bound (c - 32) 16 ltac:(lia)).
  assert (0 <= (c - 32) / 16 < 6) by (split; [apply Z.div_pos|apply Z.div_lt_upper_bound]; lia).
  rewrite !i16_id by (rewrite ?i16_id by lia; lia).
  apply char_aligned_ok; [done|lia..].
Qed.

(** The cursor is on a cell boundary and [Y0] at most [y]. *)
Definition cursor_ok (y : Z) (cur : cursor) : Prop := X0 cur mod 8 = 0 /\ 0 <= Y0 cur <= y.

Lemma i16_mod8 z : i16 z mod 8 = z mod 8.
Proof.
  unfold i16. rewrite Zminus_mod.
  rewrite (Z.mod_mod_divide _ (2 ^ 16) 8) by (exists 8192; lia).
  rewrite <- Zminus_mod. f_equal. lia.
Qed.

Lemma printf_char_ok color c y cur p :
  image_ok p -> 0 <= c < 256 -> cursor_ok y cur -> y + 20 <= 1414 ->
  exists cur' p', printf_char color 8 9 FONTTYPE_NORMAL c cur p = Some (cur', p')
    /\ cursor_ok (y + 20) cur' /\ image_ok p'.
Proof.
  intros Hp Hc [HX HY] Hy. unfold printf_char. change (LCD_WIDTH - 8) with 170.
  set (i := if indent cur =? TAB_SIZE then 0 else indent cur).
  set (cur1 := if negb _ then _ else _).
  assert (0 <= X0 cur1 < 170 /\ X0 cur1 mod 8 = 0 /\ 0 <= Y0 cur1 <= y + 9) as (H1 & H2 & H3).
  { unfold cur1. destruct (negb _) eqn:E; cbn [X0 Y0]; [rewrite i16_id by lia; change (0 mod 8) with 0|]; lia. }
  destruct cur1 as [x1 y1 i1]. cbn [X0 Y0] in *.
  assert (forall x2 y2 i2 q, x2 mod 8 = 0 -> 0 <= y2 <= y + 20 -> image_ok q ->
    exists cur' p', ('(cur, p) ← Some (MkCursor x2 y2 i2, q);
      Some (MkCursor (X0 cur) (Y0 cur) (i16 (indent cur + 1)), p)) = Some (cur', p')
      /\ cursor_ok (y + 20) cur' /\ image_ok p') as Hret.
  { intros x2 y2 i2 q Hx2 Hy2 Hq. do 2 eexists. split; [done|]. by split_and!. }
  unfold printf_switch. repeat case_match; try (apply Hret; [|lia|done]; done).
  - apply Hret; [done| |done]. rewrite i16_id by lia. lia.
  - apply Hret; [|lia|done]. rewrite i16_mod8. rewrite <- H2, <- (Z.mod_add x1 (-1)) by lia. done.
  - apply Hret; [done| |done]. rewrite i16_id by lia. lia.
  - apply Hret; [|lia|done]. rewrite i16_mod8, (Z.mul_comm 8), Z.mod_add by lia. done.
  - destruct (draw_char_ok p color x1 y1 c) as (q & -> & Hq); [done|lia|done|lia|done|].
    cbn [mbind option_bind]. apply (Hret _ _ _ q); [|lia|done].
    rewrite i16_mod8. rewrite <- H2, <- (Z.mod_add x1 1) by lia. done.
Qed.

Lemma printf_loop_ok color buf y cur p :
  image_ok p -> bytes_ok buf -> cursor_ok y cur -> y + 20 * zlen buf <= 1414 ->
  exists cur' p', printf_loop color 8 9 FONTTYPE_NORMAL buf cur p = Some (cur', p')
    /\ cursor_ok (y + 20 * zlen buf) cur' /\ image_ok p'.
Proof.
  intros Hp Hb. revert y cur p Hp. induction Hb as [|c buf Hc Hb IH]; intros y cur p Hp Hcur Hy.
  { exists cur, p. split; [done|]. split; [|done]. by rewrite Z.mul_0_r, Z.add_0_r. }
  unfold zlen in *. cbn [length printf_loop] in *.
  destruct (printf_char_ok color c y cur p) as (cur1 & p1 & -> & Hcur1 & Hp1); [done..|lia|].
  cbn [mbind option_bind].
  destruct (IH (y + 20) cur1 p1) as (cur2 & p2 & -> & Hcur2 & Hp2); [done..|lia|].
  exists cur2, p2. split; [done|]. split; [|done]. replace (_ + _) with
    (y + 20 + 20 * Z.of_nat (length buf)) by lia. done.
Qed.

Lemma printf_ok color buf y cur s :
  display_ready s -> currentFont s = FONTTYPE_NORMAL -> bytes_ok buf ->
  cursor_ok y cur -> y + 20 * zlen buf <= 1414 ->
  exists cur' s', LcdPrintf color buf (cur, s) = Some (zlen buf, (cur', s'))
    /\ cursor_ok (y + 20 * zlen buf) cur' /\ display_ready s' /\ Dirty s' = true
    /\ currentFont s' = FONTTYPE_NORMAL.
Proof.
  intros (Hi & Hl & Hp) Hf Hb Hcur Hy. unfold LcdPrintf. rewrite Hi, Hf, Hl. cbn [negb].
  change (font_info FONTTYPE_NORMAL) with (Some normal_font). cbn [mbind option_bind].
  change (FontWidth normal_font) with 8. change (FontHeight normal_font) with 9.
  destruct (printf_loop_ok color buf y cur (displayBuf s)) as (cur' & p' & -> & Hcur' & Hp');
    [done..|]. cbn [mbind option_bind]. do 2 eexists. split; [done|]. by split_and!.
Qed.

(** The column count skips [TAB_SIZE] once it is odd: the second tab goes back. *)
Lemma tab_goes_back color p :
  printf_loop color 8 9 FONTTYPE_NORMAL [9; 1; 9] cursor0 p = Some (MkCursor 16 0 4, p).
Proof. reflexivity. Qed.

(** Line feeds move the cursor down without end. *)
Lemma printf_feeds color n y i p :
  0 <= y -> y + 11 * Z.of_nat n < 2 ^ 15 ->
  exists i', printf_loop color 8 9 FONTTYPE_NORMAL (replicate n 10) (MkCursor 0 y i) p
    = Some (MkCursor 0 (y + 11 * Z.of_nat n) i', p).
Proof.
  revert y i. induction n as [|n IH]; intros y i Hy Hn.
  { exists i. cbn [replicate printf_loop]. do 3 f_equal. lia. }
  cbn [replicate printf_loop]. unfold printf_char at 1. change (LCD_WIDTH - 8) with 170.
  cbn [X0 Y0 indent negb andb Z.leb Z.ltb Z.compare printf_switch Z.eqb Pos.eqb mbind option_bind].
  change (9 + 2) with 11. rewrite i16_id by lia.
  destruct (IH (y + 11) (i16 ((if i =? TAB_SIZE then 0 else i) + 1))) as (i' & Hi); [lia..|].
  exists i'. rewrite Hi. do 3 f_equal. lia.
Qed.

Lemma printf_loop_app color w h f l k cur p :
  printf_loop color w h f (l ++ k) cur p =
  ('(cur, p) ← printf_loop color w h f l cur p; printf_loop color w h f k cur p).
Proof.
  revert cur p. induction l as [|c l IH]; intros cur p; [done|]. cbn [app printf_loop].
  destruct (printf_char _ _ _ _ _ _ _) as [[cur' p']|]; [apply IH|done].
Qed.

Lemma char_aligned_below n color i L p :
  L < 0 -> char_aligned font_bits (S n) color FONTTYPE_NORMAL normal_font i L p = None.
Proof.
  intros HL. cbn [char_aligned].
  change (Z.to_nat (Z.max 1 (FontWidth normal_font / 8))) with 1%nat. cbn [loop].
  rewrite (proj2 (Z.ltb_lt L _)) by (change LCD_BUFFER_SIZE with 2944; lia).
  destruct (peek _ _); [|done]. cbn [mbind option_bind]. unfold poke.
  by rewrite (proj2 (Z.ltb_lt _ _)) by lia.
Qed.

Lemma printf_char_below color i p :
  printf_char color 8 9 FONTTYPE_NORMAL 97 (MkCursor 0 1441 i) p = None.
Proof.
  unfold printf_char, printf_switch. cbn [X0 Y0 indent].
  change (negb ((0 <=? 0) && (0 <? LCD_WIDTH - 8))) with false. cbn match.
  change (97 =? 10) with false. change (97 =? 13) with false. change (97 =? 8) with false.
  change (97 =? 11) with false. change (97 =? 12) with false. change (97 =? 9) with false.
  cbn match. unfold dLcdDrawChar. change (font_info FONTTYPE_NORMAL) with (Some normal_font).
  cbn [mbind option_bind].
  change ((FontFirst normal_font <=? 97) && (97 <=? FontLast normal_font)) with true. cbn match.
  change ((FontWidth normal_font mod 8 =? 0) && (Z.rem 0 8 =? 0)) with true. cbn match.
  change (i16 (_ + 1441 * LCD_BYTE_WIDTH)) with (-32393).
  change (Z.to_nat (FontHeight normal_font)) with 9%nat. by rewrite char_aligned_below by lia.
Qed.

(** 131 line feeds and a character: the row index wraps and the character is stored outside
    of the buffer. *)
Theorem printf_runs_off color s :
  display_ready s -> currentFont s = FONTTYPE_NORMAL ->
  LcdPrintf color (replicate 131 10 ++ [97]) (cursor0, s) = None.
Proof.
  intros (Hi & Hl & Hp) Hf. unfold LcdPrintf. rewrite Hi, Hf, Hl.
  change (font_info FONTTYPE_NORMAL) with (Some normal_font).
  change (FontWidth normal_font) with 8. change (FontHeight normal_font) with 9.
  enough (printf_loop color 8 9 FONTTYPE_NORMAL (replicate 131 10 ++ [97]) cursor0
    (displayBuf s) = None) as H.
  { generalize dependent (replicate 131 10 ++ [97]). intros buf H. cbn [negb mbind option_bind].
    change (FontWidth normal_font) with 8. change (FontHeight normal_font) with 9. by rewrite H. }
  destruct (printf_feeds color 131 0 0 (displayBuf s)) as (i' & Hfeeds); [lia..|].
  rewrite printf_loop_app. unfold cursor0. revert Hfeeds. generalize (replicate 131 10).
  intros feeds ->. cbn [mbind option_bind printf_loop].
  change (0 + 11 * Z.of_nat 131) with 1441. by rewrite printf_char_below.
Qed.
End printf.

(** ** The display is refreshed *)

(** As [LcdInit] leaves the timers. *)
Definition timers_refresh (t : timers callback) : Prop :=
  callBacks t ti250ms = [CbLcdUpdateHandler]
  /\ forall ti, ti <> ti250ms -> callBacks t ti = [].

Lemma due_refresh t :
  timers_refresh t -> due t = if counter t mod 25 =? 0 then [CbLcdUpdateHandler] else [].
Proof.
  intros [H1 H2]. unfold due, intervals. cbn [map concat].
  rewrite H1, !H2 by done. change (period ti250ms) with 25.
  repeat match goal with |- context [if ?b then @nil callback else []] =>
    replace (if b then @nil callback else []) with (@nil callback) by by destruct b end.
  by destruct (_ mod 25 =? 0).
Qed.

(** The frame buffer shows the display buffer. *)
Definition shows (s : lcd) : Prop :=
  exists fb, pFB0 s = Some fb /\ forall x y, on_screen x y = true ->
    hw_field fb x y = if pixel (displayBuf s) x y then hw_mask x else 0.

Definition refreshing (s : lcd) : Prop :=
  display_ready s /\ autoRefresh s = true /\ (Dirty s = true \/ shows s).

Lemma update_refreshes s :
  refreshing s -> exists s', LcdUpdateHandler s = Some s' /\ refreshing s' /\ shows s'
    /\ displayBuf s' = displayBuf s /\ currentFont s' = currentFont s.
Proof.
  intros ((Hi & Hl & Hp) & Ha & Hd). unfold LcdUpdateHandler. rewrite Ha.
  pose proof Hi as Hfb. unfold LcdInitialized in Hfb. apply andb_true_iff in Hfb as [Hfd Hfb].
  apply bool_decide_eq_true in Hfb as [fb Hfb]. destruct (Dirty s) eqn:Ed.
  - destruct (update_paints s fb Hp Hl Hfb Ed) as (s' & fb' & Hu & Hf' & Hok & Hd' & Hb & Hpix & Hk).
    exists s'. split; [done|].
    assert (shows s') as Hs' by (exists fb'; split; [done|]; by rewrite Hb).
    split; [|split; [done|split; [done|by rewrite Hk]]].
    split; [|split; [by rewrite Hk|by right]].
    split; [|split; [by rewrite Hk|by rewrite Hb]].
    rewrite Hk. unfold LcdInitialized. cbn. by rewrite Hfd.
  - destruct Hd as [Hd|Hd]; [done|]. exists s. unfold doUpdateScreen. rewrite Hfb, Ed. cbn [andb].
    split; [done|]. split; [|done]. split_and!; [done..|by right].
Qed.

Lemma call_back_refreshes c s :
  refreshing s -> exists s', call_back c (Some s) = Some s' /\ refreshing s' /\ shows s'
    /\ displayBuf s' = displayBuf s /\ currentFont s' = currentFont s.
Proof. destruct c. apply update_refreshes. Qed.

(** A tick keeps the display; at every 25th the frame buffer shows it. *)
Lemma tick_refreshes t s :
  timers_refresh t -> refreshing s ->
  exists t' s', timerSigHandler call_back t (Some s) = (t', Some s')
    /\ timers_refresh t' /\ counter t' = u32 (counter t + 1)
    /\ refreshing s' /\ displayBuf s' = displayBuf s /\ currentFont s' = currentFont s
    /\ (shows s \/ counter t mod 25 = 0 -> shows s').
Proof.
  intros Ht Hs. unfold timerSigHandler. rewrite due_refresh by done.
  destruct (Z.eqb_spec (counter t mod 25) 0) as [E|E]; cbn [foldl].
  - destruct (call_back_refreshes CbLcdUpdateHandler s Hs) as (s' & -> & Hs' & Hsh & Hb & Hf).
    do 2 eexists. split; [done|]. by split_and!.
  - do 2 eexists. split; [done|]. split_and!; try done. by intros [?|?].
Qed.

(** ** From the start of the program *)

Lemma init_refreshing fd fb now s t :
  fd <> -1 -> LcdInitialized s = false -> image_ok (displayBuf s) ->
  exists s' t', LcdInit fd (Some fb) now (s, t) = Some (true, (s', t'))
    /\ display_ready s' /\ autoRefresh s' = true /\ currentFont s' = FONTTYPE_NORMAL
    /\ timers_refresh t' /\ counter t' = counter t.
Proof.
  intros Hfd Hi Hb. unfold LcdInit. rewrite Hi, (proj2 (Z.eqb_neq _ _)) by done.
  cbn -[TimerInit]. do 2 eexists. split; [done|]. split_and!; try done.
  - split; [|by split]. unfold LcdInitialized. cbn [DispFile pFB0 set_plcd set_fb].
    by rewrite (proj2 (Z.eqb_neq _ _)) by done.
  - split; [done|]. cbn. intros ti Hne. by rewrite decide_False.
Qed.

Section cat.
Context (font_bits : Z -> list Z) (Hbits : zlen (font_bits FONTTYPE_NORMAL) = 864).

Definition process_refreshes (st : process) : Prop :=
  refreshing (p_lcd st) /\ currentFont (p_lcd st) = FONTTYPE_NORMAL
  /\ timers_refresh (p_timers st) /\ 0 <= counter (p_timers st) < 2 ^ 32.
Definition process_ok (y : Z) (st : process) : Prop :=
  cursor_ok y (p_cursor st) /\ process_refreshes st.

Lemma printf_keeps color buf cur s r cur' s' :
  LcdPrintf font_bits color buf (cur, s) = Some (r, (cur', s')) -> autoRefresh s' = autoRefresh s.
Proof.
  unfold LcdPrintf. destruct (LcdInitialized s); cbn [negb]; [|by intros [= _ _ <-]].
  destruct (font_info _) as [f|]; [|done]. cbn [mbind option_bind]. destruct (pLcd s).
  - destruct (printf_loop _ _ _ _ _ _ _) as [[c p]|]; [|done]. by intros [= _ _ <-].
  - destruct buf; [|done]. by intros [= _ _ <-].
Qed.

Lemma print_ok y text st :
  process_ok y st -> bytes_ok text -> y + 20 * zlen text <= 1414 ->
  exists st', print font_bits text st = Some st' /\ process_ok (y + 20 * zlen text) st'
    /\ p_timers st' = p_timers st.
Proof.
  intros (Hcur & (Hr & Ha & Hd) & Hf & Ht & Hc) Hb Hy. unfold print.
  destruct (printf_ok font_bits Hbits 1 text y (p_cursor st) (p_lcd st))
    as (cur' & s' & Hp & Hcur' & Hr' & Hd' & Hf'); [done..|].
  rewrite Hp. cbn [mbind option_bind]. eexists. split; [done|]. split; [|done].
  split; [done|]. split; [|by split]. split; [done|]. split; [|by left].
  cbn [p_lcd]. by rewrite (printf_keeps _ _ _ _ _ _ _ Hp).
Qed.

Lemma tick_ok st :
  process_refreshes st -> counter (p_timers st) + 1 < 2 ^ 32 ->
  exists st', on_event font_bits Tick st = Some st' /\ process_refreshes st'
    /\ p_cursor st' = p_cursor st
    /\ counter (p_timers st') = counter (p_timers st) + 1
    /\ displayBuf (p_lcd st') = displayBuf (p_lcd st)
    /\ (shows (p_lcd st) \/ counter (p_timers st) mod 25 = 0 -> shows (p_lcd st')).
Proof.
  intros (Hr & Hf & Ht & Hc) Hn. cbn [on_event].
  destruct (tick_refreshes (p_timers st) (p_lcd st) Ht Hr)
    as (t' & s' & Hs & Ht' & Hc' & Hr' & Hb' & Hf' & Hsh).
  rewrite Hs. cbn [mbind option_bind]. rewrite u32_id in Hc' by lia.
  eexists. split; [done|]. split; [|done]. split; [done|].
  split; [by rewrite <- Hf|]. split; [done|]. cbn [p_timers]. lia.
Qed.

(** Enough ticks show the display. *)
Lemma ticks_ok n st :
  process_refreshes st -> counter (p_timers st) + Z.of_nat n < 2 ^ 32 ->
  exists st', run_events font_bits (replicate n Tick) st = Some st'
    /\ displayBuf (p_lcd st') = displayBuf (p_lcd st)
    /\ (shows (p_lcd st)
        \/ (exists k, 0 <= k < Z.of_nat n /\ (counter (p_timers st) + k) mod 25 = 0) ->
        shows (p_lcd st')).
Proof.
  revert st. induction n as [|n IH]; intros st Hst Hn.
  { exists st. split; [done|]. split; [done|]. intros [?|(k & ? & _)]; [done|lia]. }
  cbn [replicate run_events].
  destruct (tick_ok st Hst ltac:(lia)) as (st1 & -> & Hst1 & _ & Hc1 & Hb1 & Hsh1).
  cbn [mbind option_bind].
  destruct (IH st1 Hst1 ltac:(lia)) as (st2 & -> & Hb2 & Hsh2). exists st2. split; [done|].
  split; [congruence|]. intros Hor. apply Hsh2.
  destruct Hor as [?|(k & Hk & Hk0)]; [left; by apply Hsh1; left|].
  destruct (decide (k = 0)) as [->|].
  - left. apply Hsh1. right. by rewrite Z.add_0_r in Hk0.
  - right. exists (k - 1). split; [lia|]. rewrite Hc1, <- Hk0. f_equal. lia.
Qed.

(** Whatever the count, 25 ticks are enough. *)
Lemma quarter_second_shows st :
  process_refreshes st -> counter (p_timers st) + 25 < 2 ^ 32 ->
  exists st', run_events font_bits (replicate 25 Tick) st = Some st'
    /\ displayBuf (p_lcd st') = displayBuf (p_lcd st) /\ shows (p_lcd st').
Proof.
  intros Hst Hn. destruct (ticks_ok 25 st Hst Hn) as (st' & Hrun & Hb & Hsh).
  exists st'. split; [done|]. split; [done|]. apply Hsh. right.
  exists ((- counter (p_timers st)) mod 25).
  split; [apply Z.mod_pos_bound; lia|]. by rewrite Zplus_mod_idemp_r, Z.add_opp_diag_r.
Qed.

Definition line_length (e : event) : Z := match e with Line b => zlen b | Tick => 0 end.
Definition line_bytes (e : event) : Prop := match e with Line b => bytes_ok b | Tick => True end.
Definition printed (es : list event) : Z := foldr (fun e n => line_length e + n) 0 es.

Lemma printed_nonneg es : 0 <= printed es.
Proof.
  induction es as [|[b|] es IH]; [done| |done]. unfold printed, line_length, zlen in *.
  cbn [foldr]. lia.
Qed.

Lemma run_events_ok es y st :
  process_ok y st -> Forall line_bytes es -> y + 20 * printed es <= 1414 ->
  counter (p_timers st) + zlen es < 2 ^ 32 ->
  exists st', run_events font_bits es st = Some st' /\ process_ok (y + 20 * printed es) st'
    /\ counter (p_timers st') <= counter (p_timers st) + zlen es.
Proof.
  revert y st. induction es as [|e es IH]; intros y st Hst Hes Hy Hn.
  { exists st. split; [done|]. cbn [printed foldr]. rewrite Z.mul_0_r, Z.add_0_r.
    split; [done|]. unfold zlen. cbn [length]. lia. }
  apply Forall_cons in Hes as [He Hes]. pose proof (printed_nonneg es) as Hpos.
  change (printed (e :: es)) with (line_length e + printed es) in *.
  unfold zlen in *. cbn [length run_events] in *.
  assert (exists st1, on_event font_bits e st = Some st1 /\ process_ok (y + 20 * line_length e) st1
    /\ counter (p_timers st1) <= counter (p_timers st) + 1) as (st1 & -> & Hst1 & Hc1).
  { destruct e as [b|]; cbn [line_length line_bytes] in *.
    - destruct (print_ok y b st Hst He ltac:(lia)) as (st1 & H1 & Hst1 & Ht1).
      exists st1. split; [done|]. split; [done|]. rewrite Ht1. lia.
    - destruct (tick_ok st (proj2 Hst) ltac:(lia)) as (st1 & H1 & Hst1 & Hcu1 & Hc1 & _).
      exists st1. split; [done|]. rewrite Z.mul_0_r, Z.add_0_r. split; [|lia].
      split; [rewrite Hcu1; apply Hst|done]. }
  cbn [mbind option_bind].
  destruct (IH (y + 20 * line_length e) st1 Hst1 Hes) as (st2 & -> & Hst2 & Hc2); [lia..|].
  exists st2. split; [done|]. split; [|lia].
  by replace (y + _) with (y + 20 * line_length e + 20 * printed es) by lia.
Qed.

Lemma clean_ok s :
  display_ready s ->
  exists s', LcdClean s = Some (true, s') /\ display_ready s' /\ autoRefresh s' = autoRefresh s
    /\ Dirty s' = true /\ currentFont s' = FONTTYPE_NORMAL.
Proof.
  intros (Hi & Hl & Hp). unfold LcdClean. rewrite Hi. cbn [negb]. unfold on_display.
  cbn [pLcd set_font displayBuf]. rewrite Hl. pose proof (image_length _ Hp) as Hlen.
  unfold fill. change LCD_BUFFER_SIZE with 2944.
  rewrite (proj2 (Z.ltb_ge (zlen _) _)) by (unfold zlen; lia). cbn [Z.ltb Z.compare orb mbind option_bind].
  eexists. split; [done|]. split_and!; try done. split; [done|]. split; [done|].
  cbn [displayBuf set_dirty set_display]. destruct Hp as [Hb Hz]. split.
  - apply bytes_ok_splice; [|done]. by apply Forall_replicate.
  - rewrite zlen_splice; [done|]. rewrite length_replicate. lia.
Qed.

(** From any state in which the display is closed, the start of `cat`, the printing of its
    lines (of at most 66 bytes in all) and 25 further timer ticks end without leaving a
    buffer, do not change what was printed, and leave the frame buffer showing the display
    buffer. *)
Theorem cat_shows_display fd fb now es st :
  fd <> -1 -> LcdInitialized (p_lcd st) = false -> image_ok (displayBuf (p_lcd st)) ->
  cursor_ok 0 (p_cursor st) -> 0 <= counter (p_timers st) ->
  Forall line_bytes es -> 20 * (4 + printed es) <= 1414 ->
  counter (p_timers st) + zlen es + 25 < 2 ^ 32 ->
  exists st1 st2 st3,
    cat_start font_bits fd (Some fb) now st = Some st1 /\ run_events font_bits es st1 = Some st2
    /\ run_events font_bits (replicate 25 Tick) st2 = Some st3
    /\ displayBuf (p_lcd st3) = displayBuf (p_lcd st2) /\ shows (p_lcd st3).
Proof.
  intros Hfd Hi Hb Hcur Hc Hes Hlen Hn. unfold cat_start.
  destruct (init_refreshing fd fb now (p_lcd st) (p_timers st) Hfd Hi Hb)
    as (s1 & t1 & -> & Hr1 & Ha1 & Hf1 & Ht1 & Hc1). cbn [mbind option_bind].
  destruct (clean_ok s1 Hr1) as (s2 & -> & Hr2 & Ha2 & Hd2 & Hf2). cbn [mbind option_bind].
  assert (process_ok 0 (MkProcess (p_cursor st) s2 t1)) as H0.
  { pose proof (zlen_nonneg es). split; [done|]. split; [|split; [done|split; [done|cbn; lia]]].
    split; [done|]. cbn [p_lcd]. split; [by rewrite Ha2|by left]. }
  pose proof (printed_nonneg es).
  assert (bytes_ok (str ":)")) as Hgr by (apply (bool_decide_unpack _); vm_compute; exact I).
  destruct (print_ok 0 (str ":)") _ H0 Hgr) as (p1 & -> & H1 & E1); [change (zlen (str ":)")) with 2; lia|].
  cbn [mbind option_bind]. change (zlen (str ":)")) with 2 in H1.
  destruct (print_ok _ (str ":)") _ H1 Hgr) as (p2 & -> & H2 & E2); [change (zlen (str ":)")) with 2; lia|].
  change (zlen (str ":)")) with 2 in H2.
  assert (counter (p_timers p2) = counter (p_timers st)) as Hcp by by rewrite E2, E1.
  destruct (run_events_ok es _ p2 H2 Hes) as (p3 & Hp3 & H3 & Hc3); [lia|lia|].
  destruct (quarter_second_shows p3 (proj2 H3) ltac:(lia)) as (p4 & Hp4 & Hb4 & Hsh).
  by exists p2, p3, p4.
Qed.

(** What [run] counts are the characters of the lines. *)
Theorem run_counts lines y cur s :
  display_ready s -> currentFont s = FONTTYPE_NORMAL -> Forall bytes_ok lines ->
  cursor_ok y cur -> y + 20 * zlen (concat lines) <= 1414 ->
  forall count, exists cur' s',
    run_lines font_bits lines count (cur, s) = Some (count + zlen (concat lines), (cur', s'))
    /\ cursor_ok (y + 20 * zlen (concat lines)) cur' /\ display_ready s'.
Proof.
  intros Hs Hf Hb. revert y cur s Hs Hf.
  induction Hb as [|l lines Hl _ IH]; intros y cur s Hs Hf Hcur Hy count; cbn [concat run_lines].
  { exists cur, s. change (zlen (@nil Z)) with 0. by rewrite Z.mul_0_r, !Z.add_0_r. }
  cbn [concat] in Hy. rewrite zlen_app in *. pose proof (zlen_nonneg (concat lines)).
  destruct (printf_ok font_bits Hbits 1 l y cur s) as (cur1 & s1 & -> & Hcur1 & Hs1 & _ & Hf1);
    [done..|lia|]. cbn [mbind option_bind].
  destruct (IH (y + 20 * zlen l) cur1 s1) with (count := count + zlen l) as (cur2 & s2 & -> & Hcur2 & Hs2);
    [done|done|done|lia|].
  exists cur2, s2. split; [by rewrite Z.add_assoc|]. split; [|done].
  by replace (y + 20 * (zlen l + zlen (concat lines)))
    with (y + 20 * zlen l + 20 * zlen (concat lines)) by lia.
Qed.

(** C29: `LcdPrintf` in the normal font stores inside the display buffer as long as the row
    of the cursor and 20 rows for every byte still to print stay below 1414, beyond which
    its 16-bit byte index would wrap; it returns the length of the text, whatever control
    characters are in it. *)
Theorem printf_in_bounds color buf y cur s :
  display_ready s -> currentFont s = FONTTYPE_NORMAL -> bytes_ok buf ->
  cursor_ok y cur -> y + 20 * zlen buf <= 1414 ->
  exists cur' s', LcdPrintf font_bits color buf (cur, s) = Some (zlen buf, (cur', s'))
    /\ cursor_ok (y + 20 * zlen buf) cur' /\ display_ready s' /\ Dirty s' = true.
Proof.
  intros Hs Hf Hb Hcur Hy.
  destruct (printf_ok font_bits Hbits color buf y cur s) as (cur' & s' & H & ? & ? & ? & _); [done..|].
  by exists cur', s'.
Qed.
End cat.
