(* ===== verification/LcdPrint.v ===== *)
(** * LcdPrint: the layout of LcdPrintf (src/util/cat/ev3_lcd.c)

    In the normal font the display is a grid of cells of 8 x 9 pixels with 22
    columns.  A text without control characters fills the cells from the cursor
    on, row by row, whatever the cells held before. *)

From S2P Require Import Prelude.
From S2P Require Import Timer.
From S2P Require Import Lcd.
From S2P Require Import LcdFrame.
From S2P Require Import LcdPaint.
From S2P Require Import LcdText.
From S2P Require Import LcdCat.

Definition COLUMNS : Z := 22.

(** Backspace, tab, line feed, vertical tab, form feed, carriage return. *)
Definition control (c : Z) : bool := (8 <=? c) && (c <=? 13).

Section grid.
Context (font_bits : Z -> list Z) (Hfonts : fonts_ok font_bits).

(** The texts' character [i] is in cell [k + i], the first row is at [Y]. *)
Definition grid_image (Color Y k : Z) (text : list Z) : image := fun x y =>
  let cell := (y - Y) / 9 * COLUMNS + x / 8 in
  if (Y <=? y) && (x / 8 <? COLUMNS) && (k <=? cell) then
    c ← text !! Z.to_nat (cell - k);
    if (FontFirst normal_font <=? c) && (c <=? FontLast normal_font)
    then Some (xorb (Color =? 0)
           (glyph (font_bits FONTTYPE_NORMAL) normal_font c (x mod 8) ((y - Y) mod 9)))
    else None
  else None.

(** The cursor is at cell [k]; behind the last cell of a row it stays there. *)
Definition cursor_cell (Y k : Z) (cur : cursor) : Prop :=
  X0 cur = 8 * (k mod COLUMNS) /\ Y0 cur = Y + 9 * (k / COLUMNS)
  \/ k mod COLUMNS = 0 /\ X0 cur = 176 /\ Y0 cur = Y + 9 * (k / COLUMNS) - 9.

Lemma cursor_cell_next Y k x y i :
  0 <= k -> x = 8 * (k mod COLUMNS) -> y = Y + 9 * (k / COLUMNS) ->
  cursor_cell Y (k + 1) (MkCursor (x + 8) y i).
Proof.
  intros Hk -> ->. unfold cursor_cell, COLUMNS. cbn [X0 Y0].
  pose proof (Z.div_mod k 22 ltac:(lia)). pose proof (Z.mod_pos_bound k 22 ltac:(lia)).
  pose proof (Z.div_mod (k + 1) 22 ltac:(lia)). pose proof (Z.mod_pos_bound (k + 1) 22 ltac:(lia)).
  destruct (Z.eq_dec (k mod 22) 21); [right|left]; nia.
Qed.

(** One character of its text, in cell [k]. *)
Lemma grid_image_cons Color Y k c text x y :
  0 <= x -> 0 <= k ->
  grid_image Color Y k (c :: text) x y =
  over (grid_image Color Y (k + 1) text)
    (fun x y => if (FontFirst normal_font <=? c) && (c <=? FontLast normal_font)
       then picture (glyph (font_bits FONTTYPE_NORMAL) normal_font c) Color (8 * (k mod COLUMNS))
              (Y + 9 * (k / COLUMNS)) 8 9 x y
       else None) x y.
Proof.
  intros Hx Hk. unfold over, grid_image, picture, COLUMNS.
  pose proof (Z.div_mod x 8 ltac:(lia)) as Hdx. pose proof (Z.mod_pos_bound x 8 ltac:(lia)) as Hmx.
  pose proof (Z.div_mod (y - Y) 9 ltac:(lia)) as Hdy.
  pose proof (Z.mod_pos_bound (y - Y) 9 ltac:(lia)) as Hmy.
  pose proof (Z.div_mod k 22 ltac:(lia)) as Hdk. pose proof (Z.mod_pos_bound k 22 ltac:(lia)) as Hmk.
  pose proof (Z.div_pos k 22 Hk ltac:(lia)) as Hqk.
  assert (0 <= x / 8) as Hq by (apply Z.div_pos; lia).
  set (cx := x / 8) in *. set (cy := (y - Y) / 9) in *.
  set (kx := k mod 22) in *. set (ky := k / 22) in *.
  destruct ((Y <=? y) && (cx <? 22)) eqn:E; cbn [andb].
  2: { destruct ((FontFirst _ <=? c) && _); [|done].
       by replace ((8 * kx <=? x) && (x <? 8 * kx + 8) && (Y + 9 * ky <=? y) && (y <? Y + 9 * ky + 9))
         with false by lia. }
  assert (0 <= cy) by lia.
  destruct (Z.eqb_spec (cy * 22 + cx) k) as [He|Hne].
  - assert (cx = kx /\ cy = ky) as [Ex Ey] by lia.
    replace (k <=? cy * 22 + cx) with true by lia. replace (k + 1 <=? cy * 22 + cx) with false by lia.
    rewrite He, Z.sub_diag. change ((c :: text) !! Z.to_nat 0) with (Some c).
    cbn [mbind option_bind]. destruct ((FontFirst _ <=? c) && _); [|done].
    replace ((8 * kx <=? x) && (x <? 8 * kx + 8) && (Y + 9 * ky <=? y) && (y <? Y + 9 * ky + 9))
      with true by lia.
    do 3 f_equal; lia.
  - assert ((if (FontFirst normal_font <=? c) && (c <=? FontLast normal_font)
      then if (8 * kx <=? x) && (x <? 8 * kx + 8) && (Y + 9 * ky <=? y) && (y <? Y + 9 * ky + 9)
        then Some (xorb (Color =? 0) (glyph (font_bits FONTTYPE_NORMAL) normal_font c (x - 8 * kx)
          (y - (Y + 9 * ky)))) else None else None) = None) as ->.
    { destruct ((FontFirst _ <=? c) && _); [|done].
      by replace ((8 * kx <=? x) && (x <? 8 * kx + 8) && (Y + 9 * ky <=? y) && (y <? Y + 9 * ky + 9))
        with false by nia. }
    destruct (Z.leb_spec k (cy * 22 + cx)) as [Hl|Hl].
    + replace (k + 1 <=? cy * 22 + cx) with true by lia.
      replace (Z.to_nat (cy * 22 + cx - k)) with (S (Z.to_nat (cy * 22 + cx - (k + 1)))) by lia.
      change ((c :: text) !! S (Z.to_nat (cy * 22 + cx - (k + 1))))
        with (text !! Z.to_nat (cy * 22 + cx - (k + 1))).
      by match goal with |- ?a = _ => destruct a end.
    + by replace (k + 1 <=? cy * 22 + cx) with false by lia.
Qed.

Lemma draw_cell Color Y k c x0 y0 p :
  image_ok p -> 0 <= k -> 0 <= Y -> x0 = 8 * (k mod COLUMNS) -> y0 = Y + 9 * (k / COLUMNS) ->
  y0 <= 1384 ->
  exists q, dLcdDrawChar font_bits p Color x0 y0 FONTTYPE_NORMAL c = Some q
    /\ replaced (fun x y => if (FontFirst normal_font <=? c) && (c <=? FontLast normal_font)
         then picture (glyph (font_bits FONTTYPE_NORMAL) normal_font c) Color (8 * (k mod COLUMNS))
                (Y + 9 * (k / COLUMNS)) 8 9 x y
         else None) p q.
Proof.
  intros Hp Hk HY -> -> Hy. unfold COLUMNS in *.
  pose proof (Z.mod_pos_bound k 22 ltac:(lia)). pose proof (Z.div_pos k 22 Hk ltac:(lia)).
  destruct ((FontFirst normal_font <=? c) && (c <=? FontLast normal_font)) eqn:E.
  - apply (draw_char_replaces font_bits Hfonts Color FONTTYPE_NORMAL normal_font); try done; try lia.
    change (FontWidth normal_font) with 8. lia.
  - exists p. unfold dLcdDrawChar. change (font_info FONTTYPE_NORMAL) with (Some normal_font).
    cbn [mbind option_bind]. rewrite E. split; [done|]. by apply replaced_none.
Qed.

(** Before a character the cursor leaves a full row. *)
Lemma cursor_normal Y k cur i :
  0 <= k -> 0 <= Y -> cursor_cell Y k cur -> Y + 9 * (k / COLUMNS) <= 1384 ->
  (if negb ((0 <=? X0 cur) && (X0 cur <? LCD_WIDTH - 8))
   then MkCursor 0 (i16 (Y0 cur + 9)) i else MkCursor (X0 cur) (Y0 cur) i)
  = MkCursor (8 * (k mod COLUMNS)) (Y + 9 * (k / COLUMNS)) i.
Proof.
  intros Hk HY Hcur Hy. change (LCD_WIDTH - 8) with 170. unfold cursor_cell, COLUMNS in *.
  pose proof (Z.mod_pos_bound k 22 ltac:(lia)). pose proof (Z.div_pos k 22 Hk ltac:(lia)).
  destruct Hcur as [[-> ->]|(E & -> & ->)].
  - by replace ((0 <=? 8 * (k mod 22)) && (8 * (k mod 22) <? 170)) with true by lia.
  - change ((0 <=? 176) && (176 <? 170)) with false. cbn [negb]. rewrite E, i16_id by lia.
    f_equal. lia.
Qed.

Lemma print_cell Color Y k c cur p :
  image_ok p -> 0 <= k -> 0 <= Y -> cursor_cell Y k cur -> Y + 9 * (k / COLUMNS) <= 1384 ->
  control c = false ->
  exists cur' q, printf_char font_bits Color 8 9 FONTTYPE_NORMAL c cur p = Some (cur', q)
    /\ cursor_cell Y (k + 1) cur'
    /\ replaced (fun x y => if (FontFirst normal_font <=? c) && (c <=? FontLast normal_font)
         then picture (glyph (font_bits FONTTYPE_NORMAL) normal_font c) Color (8 * (k mod COLUMNS))
                (Y + 9 * (k / COLUMNS)) 8 9 x y
         else None) p q.
Proof.
  intros Hp Hk HY Hcur Hy Hc. unfold printf_char. rewrite cursor_normal with (Y := Y) (k := k) by done.
  unfold control in Hc. unfold printf_switch.
  replace (c =? 10) with false by lia. replace (c =? 13) with false by lia.
  replace (c =? 8) with false by lia. replace (c =? 11) with false by lia.
  replace (c =? 12) with false by lia. replace (c =? 9) with false by lia.
  destruct (draw_cell Color Y k c _ _ p Hp Hk HY eq_refl eq_refl Hy) as (q & -> & Hq).
  cbn [mbind option_bind X0 Y0 indent]. do 2 eexists. split; [done|]. split; [|exact Hq].
  unfold COLUMNS in *. pose proof (Z.mod_pos_bound k 22 ltac:(lia)).
  rewrite i16_id by lia. by apply cursor_cell_next.
Qed.

(** A line feed starts a row, two pixels below the current one. *)
Lemma print_feed Color Y k cur p :
  0 <= k -> 0 <= Y -> cursor_cell Y k cur -> Y + 9 * (k / COLUMNS) <= 1384 ->
  exists cur', printf_char font_bits Color 8 9 FONTTYPE_NORMAL 10 cur p = Some (cur', p)
    /\ cursor_cell (Y + 9 * (k / COLUMNS) + 11) 0 cur'.
Proof.
  intros Hk HY Hcur Hy. unfold printf_char. rewrite cursor_normal with (Y := Y) (k := k) by done.
  unfold printf_switch. change (10 =? 10) with true. cbn match. cbn [mbind option_bind X0 Y0 indent].
  change (9 + 2) with 11. pose proof (Z.div_pos k COLUMNS Hk ltac:(unfold COLUMNS; lia)).
  rewrite i16_id by lia. eexists. split; [done|]. left. cbn [X0 Y0].
  change (0 mod COLUMNS) with 0. change (0 / COLUMNS) with 0. lia.
Qed.

Lemma printf_loop_prints Color Y text k cur p :
  image_ok p -> 0 <= k -> 0 <= Y -> cursor_cell Y k cur ->
  Y + 9 * ((k + zlen text) / COLUMNS) <= 1384 -> Forall (fun c => control c = false) text ->
  exists cur' q, printf_loop font_bits Color 8 9 FONTTYPE_NORMAL text cur p = Some (cur', q)
    /\ cursor_cell Y (k + zlen text) cur' /\ replaced (grid_image Color Y k text) p q.
Proof.
  intros Hp Hk HY Hcur Hlen Hc. revert k cur p Hp Hk Hcur Hlen.
  induction Hc as [|c text Hc _ IH]; intros k cur p Hp Hk Hcur Hlen; cbn [printf_loop].
  { exists cur, p. change (zlen (@nil Z)) with 0. rewrite Z.add_0_r. split_and!; [done..|].
    apply replaced_none; [done|]. intros x y _ _. unfold grid_image. by case_match. }
  assert (zlen (c :: text) = 1 + zlen text) as Hz by (unfold zlen; simpl length; lia).
  rewrite Hz in *. pose proof (zlen_nonneg text).
  assert (k / COLUMNS <= (k + (1 + zlen text)) / COLUMNS) as Hmono
    by (apply Z.div_le_mono; unfold COLUMNS; lia).
  destruct (print_cell Color Y k c cur p) as (cur1 & q & -> & Hcur1 & Hq); [done..|lia|done|].
  cbn [mbind option_bind]. rewrite Z.add_assoc in *.
  destruct (IH (k + 1) cur1 q) as (cur2 & r & -> & Hcur2 & Hr); [apply Hq|lia|done|done|].
  exists cur2, r. split; [done|]. split; [done|].
  eapply replaced_ext; [|exact (replaced_over _ _ _ _ _ Hq Hr)].
  intros x y Hx Hy. by rewrite grid_image_cons by lia.
Qed.

(** C22: On an open display, LcdPrintf in the normal font writes a text without control
    characters into the cells that follow the cursor, 22 to a row, and changes no other
    pixel, for a cursor in a cell from which the text ends by row 1384; rows between 128 and
    there are cut off (beyond, the 16-bit byte index would wrap: LcdCat.printf_runs_off). *)
Theorem printf_prints Color Y k text cur s :
  display_ready s -> currentFont s = FONTTYPE_NORMAL -> 0 <= k -> 0 <= Y ->
  cursor_cell Y k cur -> Y + 9 * ((k + zlen text) / COLUMNS) <= 1384 ->
  Forall (fun c => control c = false) text ->
  exists cur' q, LcdPrintf font_bits Color text (cur, s)
      = Some (zlen text, (cur', set_dirty true (set_display q s)))
    /\ cursor_cell Y (k + zlen text) cur' /\ image_ok q
    /\ forall x y, 0 <= x < 178 -> 0 <= y < 128 ->
         pixel q x y = default (pixel (displayBuf s) x y) (grid_image Color Y k text x y).
Proof.
  intros (Hi & Hl & Hp) Hf Hk HY Hcur Hlen Hc. unfold LcdPrintf. rewrite Hi, Hf, Hl. cbn [negb].
  change (font_info FONTTYPE_NORMAL) with (Some normal_font). cbn [mbind option_bind].
  change (FontWidth normal_font) with 8. change (FontHeight normal_font) with 9.
  destruct (printf_loop_prints Color Y text k cur (displayBuf s)) as (cur' & q & -> & Hcur' & Hq & Hpix);
    [done..|]. cbn [mbind option_bind]. by exists cur', q.
Qed.
End grid.
