(* ===== verification/LcdType.v ===== *)
(** * LcdType: every call of the display library keeps its state well typed

    A state is well typed when the display is a buffer of 2944 bytes, the frame
    buffers have 7680 bytes and the font is one of the table.  [typed] says it
    of the values the operations of Lcd.v, LcdDraw.v and LcdCat.v thread through,
    [yields] of what they return; one rule per construct, in the hint database
    [typed], types a definition by its structure.  [lcd_call] names the calls a
    program makes and [run_calls] runs a list of them: what is returned is well
    typed whatever the arguments, and the calls that [fits] describes return. *)

From S2P Require Import Prelude IO Timer Lcd LcdFrame LcdImage LcdDraw LcdPaint LcdCat.

(** ** Well-typed values *)

Class Typed (A : Type) := typed : A -> Prop.
#[export] Hint Mode Typed ! : typeclass_instances.

Definition frame_ok (p : list Z) : Prop := bytes_ok p /\ zlen p = LCD_BUFFER_LENGTH.

Record lcd_typed (s : lcd) : Prop := {
  lt_display : image_ok (displayBuf s);
  lt_hw : frame_ok (hwBuffer s);
  lt_fb : forall fb, pFB0 s = Some fb -> frame_ok fb;
  lt_font : 0 <= currentFont s < NUM_FONTTYPES;
}.

#[export] Instance typed_lcd : Typed lcd := lcd_typed.
#[export] Instance typed_image : Typed (list Z) := image_ok.
#[export] Instance typed_Z : Typed Z := fun _ => True.
#[export] Instance typed_bool : Typed bool := fun _ => True.
#[export] Instance typed_ellipse : Typed ellipse := fun _ => True.
#[export] Instance typed_cursor : Typed cursor := fun _ => True.
#[export] Instance typed_font : Typed FONTINFO := fun _ => True.
#[export] Instance typed_saved : Typed saved := fun _ => True.
#[export] Instance typed_prod {A B} `{!Typed A, !Typed B} : Typed (A * B) :=
  fun p => typed p.1 /\ typed p.2.

(** What is returned is well typed. *)
Definition yields {A} `{!Typed A} (m : option A) : Prop := forall a, m = Some a -> typed a.

Create HintDb typed.

Section rules.
Context {A : Type} `{!Typed A}.

Lemma yields_some (a : A) : typed a -> yields (Some a).
Proof. by intros H ? [= <-]. Qed.
Lemma yields_none : yields (A := A) None.
Proof. done. Qed.
Lemma yields_bind {B} `{!Typed B} (m : option B) (k : B -> option A) :
  yields m -> (forall b, typed b -> yields (k b)) -> yields (m ≫= k).
Proof. intros Hm Hk a. destruct m as [b|]; [|done]. apply Hk. by apply Hm. Qed.
Lemma yields_any {B} (m : option B) (k : B -> option A) :
  (forall b, yields (k b)) -> yields (m ≫= k).
Proof. intros Hk a. destruct m as [b|]; [|done]. apply Hk. Qed.
Lemma yields_if (b : bool) (m n : option A) : yields m -> yields n -> yields (if b then m else n).
Proof. by destruct b. Qed.
Lemma yields_loop n (body : Z -> A -> option A) i a :
  (forall i a, typed a -> yields (body i a)) -> typed a -> yields (loop n body i a).
Proof.
  intros Hb. revert i a. induction n as [|n IH]; intros i a Ha; cbn [loop].
  - by apply yields_some.
  - apply yields_bind; [by apply Hb|]. intros. by apply IH.
Qed.
Lemma yields_fst {B} `{!Typed B} (m : option (A * B)) : yields m -> yields (fst <$> m).
Proof. intros Hm a. destruct m as [p|]; [|done]. intros [= <-]. by apply (Hm p). Qed.
Lemma yields_snd {B} `{!Typed B} (m : option (B * A)) : yields m -> yields (snd <$> m).
Proof. intros Hm a. destruct m as [p|]; [|done]. intros [= <-]. by apply (Hm p). Qed.
End rules.

Lemma yields_Z (m : option Z) : yields m.
Proof. done. Qed.
Lemma yields_font (m : option FONTINFO) : yields m.
Proof. done. Qed.
Lemma yields_ellipse (m : option ellipse) : yields m.
Proof. done. Qed.
Lemma yields_bool (m : option bool) : yields m.
Proof. done. Qed.
Lemma typed_trivial (z : Z) : typed z.
Proof. exact I. Qed.
#[export] Hint Resolve yields_none yields_Z yields_font yields_ellipse yields_bool typed_trivial : typed.
#[export] Hint Extern 0 (typed (A := bool) _) => exact I : typed.
#[export] Hint Extern 0 (typed (A := ellipse) _) => exact I : typed.
#[export] Hint Extern 0 (typed (A := cursor) _) => exact I : typed.
#[export] Hint Extern 0 (typed (A := saved) _) => exact I : typed.

(** One rule per construct of the definitions. *)
Ltac typed_step :=
  match goal with
  | |- yields (Some _) => apply yields_some
  | |- yields (_ ≫= _) => apply yields_bind; [|intros ? ?]
  | |- yields (loop _ _ _ _) => apply yields_loop; [intros ? ? ?|]
  | |- yields (fst <$> _) => apply yields_fst
  | |- yields (if _ then _ else _) => apply yields_if
  | |- yields (let '(_, _) := ?p in _) => destruct p
  | |- yields (match ?x with _ => _ end) => destruct x
  | |- typed (_, _) => split; cbn [fst snd]
  | H : typed (_, _) |- _ => destruct H; cbn [fst snd] in *
  end.
Ltac typed_auto := cbv zeta; repeat first [solve [eauto with typed] | progress cbv zeta | typed_step].

(** ** Images *)

Lemma u8_ok v : byte_ok (u8 v).
Proof. apply Z.mod_pos_bound. lia. Qed.

Lemma poke_typed (p : list Z) i v : typed p -> yields (poke p i v).
Proof.
  intros [Hb Hl] q. unfold poke. destruct (_ || _); [done|]. intros [= <-]. split.
  - apply Forall_insert; [done|apply u8_ok].
  - unfold zlen in *. by rewrite length_insert.
Qed.
Lemma fill_typed (p : list Z) i v n : typed p -> yields (fill p i v n).
Proof.
  intros [Hb Hl] q. unfold fill. destruct (_ || _) eqn:E; [done|]. intros [= <-]. split.
  - apply bytes_ok_splice; [|done]. apply Forall_replicate, u8_ok.
  - unfold zlen in *. rewrite length_splice; [done|]. rewrite length_replicate. lia.
Qed.
Lemma move_typed (p : list Z) dst src n : typed p -> yields (move p dst src n).
Proof.
  intros [Hb Hl] q. unfold move. destruct (_ || _) eqn:E; [done|]. intros [= <-]. split.
  - apply bytes_ok_splice; [|done]. unfold slice. by apply Forall_take, Forall_drop.
  - unfold zlen in *. rewrite length_splice; [done|]. unfold slice.
    rewrite length_take, length_drop. lia.
Qed.
#[export] Hint Resolve poke_typed fill_typed move_typed : typed.

Lemma pixel_typed (p : list Z) Color X Y : typed p -> yields (dLcdDrawPixel p Color X Y).
Proof. intros. unfold dLcdDrawPixel. typed_auto. Qed.
#[export] Hint Resolve pixel_typed : typed.

Lemma draw_bits_typed n bC1 bC2 c TmpX MaxX Y (p : list Z) :
  typed p -> yields (draw_bits n bC1 bC2 c TmpX MaxX Y p).
Proof.
  revert c TmpX p. induction n as [|n IH]; intros c TmpX p Hp; cbn [draw_bits]; typed_auto.
Qed.
#[export] Hint Resolve draw_bits_typed : typed.

Lemma draw_bytes_typed n bits i Color X MaxX Y (p : list Z) :
  typed p -> yields (draw_bytes n bits i Color X MaxX Y p).
Proof.
  intros. unfold draw_bytes. destruct (if Color =? 0 then (0, 1) else (1, 0)) as [c1 c2].
  typed_auto.
Qed.
#[export] Hint Resolve draw_bytes_typed : typed.

Section bitmaps.
Context (font_bits icon_bits : Z -> list Z).

Lemma char_aligned_typed h Color Font f i L (p : list Z) :
  typed p -> yields (char_aligned font_bits h Color Font f i L p).
Proof. revert i L p. induction h as [|h IH]; intros i L p Hp; cbn [char_aligned]; typed_auto. Qed.
Lemma char_unaligned_typed h Color Font f i X Y (p : list Z) :
  typed p -> yields (char_unaligned font_bits h Color Font f i X Y p).
Proof. revert i Y p. induction h as [|h IH]; intros i Y p Hp; cbn [char_unaligned]; typed_auto. Qed.
#[local] Hint Resolve char_aligned_typed char_unaligned_typed : typed.

Lemma char_typed (p : list Z) Color X Y Font c :
  typed p -> yields (dLcdDrawChar font_bits p Color X Y Font c).
Proof. intros. unfold dLcdDrawChar. typed_auto. Qed.
#[local] Hint Resolve char_typed : typed.

Lemma text_typed (p : list Z) Color X Y Font text :
  typed p -> yields (dLcdDrawText font_bits p Color X Y Font text).
Proof. revert X p. induction text as [|c text IH]; intros X p Hp; cbn [dLcdDrawText]; typed_auto. Qed.

Lemma picture_lines_typed h Color W bits i L (p : list Z) :
  typed p -> yields (picture_lines h Color W bits i L p).
Proof. revert i L p. induction h as [|h IH]; intros i L p Hp; cbn [picture_lines]; typed_auto. Qed.
#[local] Hint Resolve picture_lines_typed : typed.
Lemma icon_typed (p : list Z) Color X Y Icon Num :
  typed p -> yields (dLcdDrawIcon icon_bits p Color X Y Icon Num).
Proof. intros. unfold dLcdDrawIcon, dLcdDrawPicture. typed_auto. Qed.
End bitmaps.

Lemma bitmap_aligned_typed h Color X W bytes i L (p : list Z) :
  typed p -> yields (bitmap_aligned h Color X W bytes i L p).
Proof. revert i L p. induction h as [|h IH]; intros i L p Hp; cbn [bitmap_aligned]; typed_auto. Qed.
#[export] Hint Resolve text_typed icon_typed char_typed bitmap_aligned_typed : typed.
Lemma bitmap_typed (p : list Z) Color X Y b : typed p -> yields (dLcdDrawBitmap p Color X Y b).
Proof. intros. unfold dLcdDrawBitmap, bitmap_unaligned. typed_auto. Qed.
Lemma scroll_typed Y (p : list Z) : typed p -> yields (scroll Y p).
Proof. intros. unfold scroll. typed_auto. Qed.
Lemma stripes_typed n T Color (p : list Z) : typed p -> yields (stripes n T Color p).
Proof. revert T Color p. induction n as [|n IH]; intros T Color p Hp; cbn [stripes]; typed_auto. Qed.
#[export] Hint Resolve bitmap_typed scroll_typed stripes_typed : typed.
Lemma window_typed Color Y Y1 (p : list Z) : typed p -> yields (fill_window Color Y Y1 p).
Proof. intros. unfold fill_window. typed_auto. Qed.

Lemma mask_at_typed pm i M (p : list Z) : typed p -> yields (mask_at pm i M p).
Proof. intros. unfold mask_at. typed_auto. Qed.
#[export] Hint Resolve window_typed mask_at_typed : typed.
Lemma fill_column_typed pm c M Y1 Y2 (p : list Z) : typed p -> yields (fill_column pm c M Y1 Y2 p).
Proof. intros. unfold fill_column. typed_auto. Qed.
#[export] Hint Resolve fill_column_typed : typed.
Lemma fill_columns_typed n pm X X1 X2 Y1 Y2 (p : list Z) :
  typed p -> yields (fill_columns n pm X X1 X2 Y1 Y2 p).
Proof. revert X p. induction n as [|n IH]; intros X p Hp; cbn [fill_columns]; typed_auto. Qed.
#[export] Hint Resolve fill_columns_typed : typed.

(** ** The frame buffer *)

Lemma rows_typed row m Y pSrc q :
  (forall src r rest, row src = Some (r, rest) -> bytes_ok r /\ length r = m) ->
  rows row Y pSrc = Some q -> bytes_ok q /\ length q = (Y * m)%nat.
Proof.
  intros Hrow. revert pSrc q. induction Y as [|Y IH]; intros pSrc q; cbn [rows].
  { intros [= <-]. by split. }
  destruct (row pSrc) as [[r rest]|] eqn:Er; [|done]. cbn [mbind option_bind].
  destruct (rows row Y rest) as [l|] eqn:El; [|done]. intros [= <-].
  destruct (Hrow _ _ _ Er) as [H1 H2]. destruct (IH _ _ El) as [H3 H4].
  split; [by apply Forall_app|]. rewrite length_app. lia.
Qed.

Lemma fb_row_typed X src r rest :
  fb_row X src = Some (r, rest) -> bytes_ok r /\ length r = (3 * X + 2)%nat.
Proof.
  revert src r. induction X as [|X IH]; intros src r; cbn [fb_row].
  - destruct src as [|a [|b [|c [|d src]]]]; try done. intros [= <- <-].
    split; [repeat constructor; apply u8_ok|done].
  - destruct src as [|a [|b [|c [|d [|e [|f [|g [|h src]]]]]]]]; try done.
    destruct (fb_row X src) as [[l rest']|] eqn:E; [|done]. cbn [mbind option_bind].
    intros [= <- <-]. destruct (IH _ _ E) as [H1 H2].
    split; [repeat (constructor; [apply u8_ok|]); done|cbn [length]; lia].
Qed.
Lemma lcd_row_typed X src r rest :
  lcd_row X src = Some (r, rest) -> bytes_ok r /\ length r = (8 * X + 4)%nat.
Proof.
  revert src r. induction X as [|X IH]; intros src r; cbn [lcd_row].
  - destruct src as [|a [|b src]]; try done. remember (spread 4 _) as row eqn:Er.
    intros [= <- <-]. subst row. split; [apply bytes_ok_spread|apply length_spread].
  - destruct src as [|a [|b [|c src]]]; try done.
    destruct (lcd_row X src) as [[l rest']|] eqn:E; [|done]. cbn [mbind option_bind].
    remember (spread 8 _) as row eqn:Er. intros [= <- <-]. subst row. destruct (IH _ _ E) as [H1 H2].
    split; [apply Forall_app; split; [apply bytes_ok_spread|done]|].
    rewrite length_app, length_spread. lia.
Qed.

Lemma to_frame_typed src fb : lcdToFrameBuffer src = Some fb -> frame_ok fb.
Proof.
  intros H. unfold lcdToFrameBuffer in H.
  destruct (rows_typed (lcd_row 7) 60 _ _ _ (lcd_row_typed 7) H) as [H1 H2].
  split; [done|]. unfold zlen. rewrite H2. done.
Qed.
Lemma from_frame_typed src p : frameBufferToLcd src = Some p -> image_ok p.
Proof.
  intros H. unfold frameBufferToLcd in H.
  destruct (rows_typed (fb_row 7) 23 _ _ _ (fb_row_typed 7) H) as [H1 H2].
  split; [done|]. unfold zlen. rewrite H2. done.
Qed.

(** ** The state *)

Lemma display_typed p s : lcd_typed s -> image_ok p -> lcd_typed (set_display p s).
Proof. by intros [H1 H2 H3 H4] Hp. Qed.
Lemma dirty_typed d s : typed s -> typed (set_dirty d s).
Proof. by intros [H1 H2 H3 H4]. Qed.
Lemma hw_typed fb s : lcd_typed s -> frame_ok fb -> lcd_typed (set_hw fb s).
Proof. by intros [H1 H2 H3 H4] Hf. Qed.
Lemma fb_typed fb s : lcd_typed s -> frame_ok fb -> lcd_typed (set_fb (Some fb) s).
Proof. intros [H1 H2 H3 H4] Hf. split; try done. by intros ? [= <-]. Qed.
Lemma font_typed f s : typed s -> 0 <= f < NUM_FONTTYPES -> typed (set_font f s).
Proof. by intros [H1 H2 H3 H4] Hf. Qed.
Lemma select_typed f s : typed s -> typed (LcdSelectFont (u8 f) s).2.
Proof.
  intros Hs. unfold LcdSelectFont. destruct (negb _); [done|]. apply font_typed; [done|].
  pose proof (u8_ok f) as Hf. unfold byte_ok in Hf.
  destruct (Z.leb_spec NUM_FONTTYPES (u8 f)); [done|]. lia.
Qed.
#[export] Hint Resolve dirty_typed : typed.

Lemma on_display_typed draw s :
  (forall p, image_ok p -> yields (draw p)) -> typed s -> yields (on_display draw s).
Proof.
  intros Hd Hs. unfold on_display. destruct (pLcd s); [|done].
  apply yields_bind; [apply Hd, Hs|]. intros p Hp. apply yields_some. by apply display_typed.
Qed.
Lemma drawing_typed draw s :
  (forall p, image_ok p -> yields (draw p)) -> typed s -> yields (drawing draw s).
Proof.
  intros Hd Hs. unfold drawing. destruct (negb _); [by apply yields_some|].
  apply yields_bind; [by apply on_display_typed|]. intros. typed_auto.
Qed.
Lemma display_draw_typed draw s :
  (forall p, image_ok p -> yields (draw p)) -> typed s -> yields (display draw s).
Proof.
  intros Hd Hs. unfold display. apply yields_bind; [by apply on_display_typed|]. intros. typed_auto.
Qed.
#[export] Hint Extern 2 (yields (on_display _ _)) => apply on_display_typed; [intros|] : typed.
#[export] Hint Extern 2 (yields (drawing _ _)) => apply drawing_typed; [intros|] : typed.
#[export] Hint Extern 2 (yields (display _ _)) => apply display_draw_typed; [intros|] : typed.
#[export] Hint Extern 1 (image_ok _) => assumption : typed.

Lemma update_typed s : typed s -> yields (doUpdateScreen s).
Proof.
  intros Hs. unfold doUpdateScreen. destruct (pFB0 s) as [fb|]; [|by apply yields_some].
  destruct (_ && _); [|by apply yields_some].
  destruct (lcdToFrameBuffer (displayBuf s)) as [q|] eqn:E; [|done]. apply yields_some.
  apply to_frame_typed in E.
  apply dirty_typed, fb_typed; [by apply hw_typed|done].
Qed.
Lemma get_frame_typed s : typed s -> yields (LcdGetFrameBuffer s).
Proof.
  intros Hs. unfold LcdGetFrameBuffer. destruct (pFB0 s) as [fb|] eqn:Hf; [|by apply yields_some].
  destruct (negb _); [by apply yields_some|]. destruct (pLcd s); [|done].
  destruct (frameBufferToLcd fb) as [q|] eqn:E; [|done]. apply yields_some.
  apply display_typed; [|by eapply from_frame_typed]. apply hw_typed; [done|]. by apply Hs.
Qed.
Lemma close_typed s : typed s -> typed (LcdExit s).2.
Proof.
  intros [H1 H2 H3 H4]. unfold LcdExit, LcdCloseDevices. destruct (negb _); [by split|].
  by destruct (0 <=? DispFile s).
Qed.
#[export] Hint Resolve update_typed get_frame_typed : typed.

(** ** Drawing *)

Lemma display_pixel_typed pm X Y s : typed s -> yields (display_pixel pm X Y s).
Proof. intros. unfold display_pixel. typed_auto. Qed.
Lemma fill_region_typed pm X1 X2 Y1 Y2 (p : list Z) : typed p -> yields (fill_region pm X1 X2 Y1 Y2 p).
Proof. intros. unfold fill_region. typed_auto. Qed.
#[export] Hint Resolve display_pixel_typed fill_region_typed : typed.
Lemma display_line_x_typed X1 X2 Y pm s : typed s -> yields (DisplayLineX X1 X2 Y pm s).
Proof. intros. unfold DisplayLineX. typed_auto. Qed.
Lemma display_line_y_typed X Y1 Y2 pm s : typed s -> yields (DisplayLineY X Y1 Y2 pm s).
Proof. intros. unfold DisplayLineY. typed_auto. Qed.
#[export] Hint Resolve display_line_x_typed display_line_y_typed : typed.
Lemma display_draw_cmd_typed c pm X1 Y1 X2 Y2 s : typed s -> yields (DisplayDraw c pm X1 Y1 X2 Y2 s).
Proof.
  intros. unfold DisplayDraw, DisplayErase, DisplayXorPixel, DisplayClrPixel, DisplaySetPixel,
    DisplayEraseLine, DisplayFillScreen, DisplayFrame. typed_auto.
Qed.
#[export] Hint Resolve display_draw_cmd_typed : typed.

Lemma set_pixel_typed X Y pm s : typed s -> yields (CmdSetPixel X Y pm s).
Proof. intros. unfold CmdSetPixel. typed_auto. Qed.
Lemma line_pixel_typed pm x y s : typed s -> yields (line_pixel pm x y s).
Proof. intros. unfold line_pixel. typed_auto. Qed.
#[export] Hint Resolve set_pixel_typed line_pixel_typed : typed.
Lemma line_x_typed n pm x y d x2 ax ay sx sy s : typed s -> yields (line_x n pm x y d x2 ax ay sx sy s).
Proof. revert x y d s. induction n as [|n IH]; intros x y d s Hs; cbn [line_x]; typed_auto. Qed.
Lemma line_y_typed n pm x y d y2 ax ay sx sy s : typed s -> yields (line_y n pm x y d y2 ax ay sx sy s).
Proof. revert x y d s. induction n as [|n IH]; intros x y d s Hs; cbn [line_y]; typed_auto. Qed.
#[export] Hint Resolve line_x_typed line_y_typed : typed.
Lemma clipped_typed x1 y1 x2 y2 pm s : typed s -> yields (draw_clipped x1 y1 x2 y2 pm s).
Proof. intros. unfold draw_clipped. typed_auto. Qed.
#[export] Hint Resolve clipped_typed : typed.
Lemma line_typed x1 y1 x2 y2 pm s : typed s -> yields (CmdDrawLine x1 y1 x2 y2 pm s).
Proof. intros. unfold CmdDrawLine. typed_auto. Qed.
#[export] Hint Resolve line_typed : typed.
Lemma rect_typed l b w h pm fm s : typed s -> yields (CmdDrawRect l b w h pm fm s).
Proof. intros. unfold CmdDrawRect. typed_auto. Qed.
#[export] Hint Resolve rect_typed : typed.
Lemma ellipse_loop_typed xc yc a b pm fm n e s :
  typed s -> yields (ellipse_loop xc yc a b pm fm n e s).
Proof.
  revert e s. induction n as [|n IH]; intros e s Hs; cbn [ellipse_loop]; [done|].
  unfold ellipse_points, ellipse_right, ellipse_down, ellipse_diagonal, ellipse_bands, ellipse_band.
  typed_auto.
Qed.
#[export] Hint Resolve ellipse_loop_typed : typed.
Lemma ellipse_typed xc yc a b pm fm s : typed s -> yields (CmdDrawEllipse xc yc a b pm fm s).
Proof. intros. unfold CmdDrawEllipse, ellipse_bands, ellipse_band. typed_auto. Qed.
#[export] Hint Resolve ellipse_typed : typed.

(** ** The calls of the library *)

Inductive lcd_call :=
| CallInit (fd : Z) (mapped : option (list Z)) (now : timeval)
| CallExit
| CallText (Color X Y : Z) (Text : list Z)
| CallPrintf (color : Z) (buf : list Z)
| CallIcon (Color X Y IconType IconNum : Z)
| CallPicture (Color X Y : Z) (pBitmap : option (list Z))
| CallBmpFile (junk : list Z) (Color X Y : Z) (file : option (list Z))
| CallClean | CallClearDisplay | CallRefresh | CallUpdate | CallUpdateHandler | CallGetFrameBuffer
| CallSetAutoRefresh (bOn : bool)
| CallSelectFont (FontType : Z)
| CallScroll (Y : Z)
| CallFillWindow (Color Y Y1 : Z)
| CallPoint (x y options : Z)
| CallLine (x1 y1 x2 y2 options : Z)
| CallRect (x y width height options : Z)
| CallCircle (x y radius options : Z)
| CallEllipse (x y radiusX radiusY options : Z).

(** What a call asks of the frame buffer that is mapped. *)
Definition maps_frame (c : lcd_call) : Prop :=
  match c with CallInit _ (Some fb) _ => frame_ok fb | _ => True end.

(** The calls that are shown to return on an open display. *)
Definition fits (c : lcd_call) : Prop :=
  match c with
  | CallExit | CallText _ _ _ _ | CallPrintf _ _ | CallIcon _ _ _ _ _ | CallPicture _ _ _ _
  | CallBmpFile _ _ _ _ _ => False
  | CallFillWindow _ Y Y1 => 0 <= Y /\ 0 <= Y1
  | CallPoint _ y _ => - 2 ^ 20 <= y < 2 ^ 20
  | CallLine x1 y1 x2 y2 _ => 0 <= x1 < 178 /\ 0 <= x2 < 178 /\ 0 <= y1 < 128 /\ 0 <= y2 < 128
  | CallRect x y w h _ => - 2 ^ 20 <= x < 2 ^ 20 /\ - 2 ^ 20 <= y < 2 ^ 20
      /\ - 2 ^ 20 <= w < 2 ^ 20 /\ - 2 ^ 20 <= h < 2 ^ 20
  | CallCircle _ _ r _ => 0 <= r <= 200
  | CallEllipse _ _ a b _ => 0 <= a <= 200 /\ 0 <= b <= 200
  | _ => True
  end.

Section calls.
Context (font_bits icon_bits : Z -> list Z).

Definition on_lcd (f : lcd -> option lcd) (st : process) : option process :=
  s ← f (p_lcd st); Some (MkProcess (p_cursor st) s (p_timers st)).

Definition exec_lcd (c : lcd_call) (s : lcd) : option lcd :=
  match c with
  | CallExit => Some (LcdExit s).2
  | CallText Color X Y Text => snd <$> LcdText font_bits Color X Y Text s
  | CallIcon Color X Y Type_ Num => snd <$> LcdIcon icon_bits Color X Y Type_ Num s
  | CallPicture Color X Y pBitmap => snd <$> LcdPicture Color X Y pBitmap s
  | CallBmpFile junk Color X Y file => snd <$> LcdBmpFile junk Color X Y file s
  | CallClean => snd <$> LcdClean s
  | CallClearDisplay => LcdClearDisplay s
  | CallRefresh => LcdRefresh s
  | CallUpdate => snd <$> LcdUpdate s
  | CallUpdateHandler => LcdUpdateHandler s
  | CallGetFrameBuffer => LcdGetFrameBuffer s
  | CallSetAutoRefresh bOn => Some (LcdSetAutoRefresh bOn s)
  | CallSelectFont FontType => Some (LcdSelectFont (u8 FontType) s).2
  | CallScroll Y => snd <$> LcdScroll Y s
  | CallFillWindow Color Y Y1 => snd <$> LcdFillWindow Color Y Y1 s
  | CallPoint x y options => snd <$> PointOutEx x y options s
  | CallLine x1 y1 x2 y2 options => snd <$> LineOutEx x1 y1 x2 y2 options s
  | CallRect x y w h options => snd <$> RectOutEx x y w h options s
  | CallCircle x y r options => snd <$> CircleOutEx x y r options s
  | CallEllipse x y a b options => snd <$> EllipseOutEx x y a b options s
  | CallInit _ _ _ | CallPrintf _ _ => Some s
  end.

Definition exec (c : lcd_call) (st : process) : option process :=
  match c with
  | CallInit fd mapped now =>
      '(_, (s, t)) ← LcdInit fd mapped now (p_lcd st, p_timers st);
      Some (MkProcess (p_cursor st) s t)
  | CallPrintf color buf =>
      '(_, (cur, s)) ← LcdPrintf font_bits color buf (p_cursor st, p_lcd st);
      Some (MkProcess cur s (p_timers st))
  | _ => on_lcd (exec_lcd c) st
  end.

Fixpoint run_calls (calls : list lcd_call) (st : process) : option process :=
  match calls with
  | [] => Some st
  | c :: calls => st ← exec c st; run_calls calls st
  end.

(** *** Every call keeps the state well typed *)

Lemma printf_loop_typed color w h f buf cur (p : list Z) :
  typed p -> yields (printf_loop font_bits color w h f buf cur p).
Proof.
  revert cur p. induction buf as [|c buf IH]; intros cur p Hp; cbn [printf_loop]; [typed_auto|].
  unfold printf_char, printf_switch. typed_auto.
Qed.

Lemma out_ex_typed options draw s :
  (forall pm fm s, typed s -> yields (draw pm fm s)) -> typed s -> yields (snd <$> out_ex options draw s).
Proof.
  intros Hd Hs. unfold out_ex. destruct (negb _); [by apply yields_some|].
  destruct (CmdResolveDrawingMode _) as [[pm fm] ok]. apply yields_snd, yields_bind.
  - destruct ok; [by apply Hd|by apply yields_some].
  - intros. typed_auto.
Qed.

Lemma drawing_snd_typed draw s :
  (forall p, image_ok p -> yields (draw p)) -> typed s -> yields (snd <$> drawing draw s).
Proof. intros. by apply yields_snd, drawing_typed. Qed.

Lemma normal_font_typed s : typed s -> typed (set_font FONTTYPE_NORMAL s).
Proof. intros. by apply font_typed. Qed.
Lemma auto_refresh_typed b s : typed s -> typed (LcdSetAutoRefresh b s).
Proof. by intros [H1 H2 H3 H4]. Qed.
#[local] Hint Resolve normal_font_typed auto_refresh_typed select_typed close_typed : typed.

Lemma clean_typed s : typed s -> yields (LcdClean s).
Proof. intros. unfold LcdClean. typed_auto. Qed.
#[local] Hint Resolve clean_typed : typed.

Lemma exec_lcd_typed c s : typed s -> yields (exec_lcd c s).
Proof.
  intros Hs. destruct c; cbn [exec_lcd]; try (apply drawing_snd_typed; [intros|done]);
    try (apply out_ex_typed; [intros|done]); try (apply yields_snd);
    unfold LcdBmpFile, LcdClearDisplay, LcdRefresh, LcdUpdate, LcdUpdateHandler, LcdScroll,
      LcdFillWindow, drawing; typed_auto.
Qed.

Lemma init_typed fd mapped now s t r s' t' :
  typed s -> maps_frame (CallInit fd mapped now) ->
  LcdInit fd mapped now (s, t) = Some (r, (s', t')) -> typed s'.
Proof.
  intros Hs Hm. pose proof Hs as [H1 H2 H3 H4]. unfold LcdInit.
  destruct (LcdInitialized s); [by intros [= <- <- <-]|]. destruct (fd =? -1); [done|].
  destruct mapped as [fb|].
  - destruct (SetTimerCallback _ _ _) as [t1|]; [|done]. intros [= <- <- <-].
    split; try done. by intros ? [= <-].
  - intros [= <- <- <-]. unfold LcdCloseDevices. by repeat case_match.
Qed.

Lemma printf_typed color buf cur s r cur' s' :
  typed s -> LcdPrintf font_bits color buf (cur, s) = Some (r, (cur', s')) -> typed s'.
Proof.
  intros Hs. unfold LcdPrintf. destruct (negb _); [by intros [= <- <- <-]|].
  destruct (font_info _) as [f|]; [|done]. cbn [mbind option_bind]. destruct (pLcd s).
  - destruct (printf_loop _ _ _ _ _ _ _ _) as [[cur1 p]|] eqn:E; [|done].
    intros [= <- <- <-]. apply dirty_typed, display_typed; [done|].
    eapply (printf_loop_typed _ _ _ _ _ _ _ ltac:(apply Hs) (_, _) E).
  - destruct buf; [|done]. intros [= <- <- <-]. by apply dirty_typed.
Qed.

(** *** The calls that return *)

Lemma drawn_display draw s :
  display_ready s -> (exists q, draw (displayBuf s) = Some q /\ image_ok q) -> drawn (on_display draw s).
Proof.
  intros (Hi & Hl & Hp) (q & Hq & Hok). unfold on_display. rewrite Hl, Hq.
  eexists. split; [done|]. by split_and!.
Qed.

Lemma fill_ok p i v n :
  image_ok p -> 0 <= i -> 0 <= n -> i + n <= 2944 -> exists q, fill p i v n = Some q /\ image_ok q.
Proof.
  intros Hp Hi Hn Hin. destruct (fill p i v n) as [q|] eqn:E.
  - exists q. split; [done|]. by eapply fill_typed.
  - exfalso. unfold fill in E. destruct Hp as [_ Hl]. change LCD_BUFFER_SIZE with 2944 in Hl.
    destruct (_ || _) eqn:E1 in E; [lia|done].
Qed.
Lemma move_ok p dst src n :
  image_ok p -> 0 <= dst -> 0 <= src -> 0 <= n -> dst + n <= 2944 -> src + n <= 2944 ->
  exists q, move p dst src n = Some q /\ image_ok q.
Proof.
  intros Hp Hd Hs Hn H1 H2. destruct (move p dst src n) as [q|] eqn:E.
  - exists q. split; [done|]. by eapply move_typed.
  - exfalso. unfold move in E. destruct Hp as [_ Hl]. change LCD_BUFFER_SIZE with 2944 in Hl.
    destruct (_ || _) eqn:E1 in E; [lia|done].
Qed.

Lemma scroll_ok Y p : image_ok p -> exists q, scroll Y p = Some q /\ image_ok q.
Proof.
  intros Hp. unfold scroll. change LCD_BYTE_WIDTH with 23. change LCD_HEIGHT with 128.
  destruct ((0 <? Y) && _) eqn:E1.
  { destruct (move_ok p 0 (23 * Y) ((128 - Y) * 23)) as (q & -> & Hq); [done|lia..|].
    by apply fill_ok; [|lia..]. }
  destruct ((Y <? 0) && _) eqn:E2; [|by exists p].
  destruct (move_ok p (23 * - Y) 0 ((128 - - Y) * 23)) as (q & -> & Hq); [done|lia..|].
  by apply fill_ok; [|lia..].
Qed.

Lemma stripes_ok n T Color p :
  image_ok p -> 0 <= T -> T + Z.of_nat n <= 128 -> exists q, stripes n T Color p = Some q /\ image_ok q.
Proof.
  revert T Color p. induction n as [|n IH]; intros T Color p Hp HT Hn; cbn [stripes]; [by exists p|].
  change LCD_BYTE_WIDTH with 23. rewrite i16_id by lia.
  destruct (fill_ok p (T * 23) Color 23) as (q & -> & Hq); [done|lia..|].
  apply IH; [done|lia..].
Qed.

Lemma fill_window_ok Color Y Y1 p :
  image_ok p -> 0 <= Y -> 0 <= Y1 -> exists q, fill_window Color Y Y1 p = Some q /\ image_ok q.
Proof.
  intros Hp HY HY1. unfold fill_window. change LCD_HEIGHT with 128. change LCD_BYTE_WIDTH with 23.
  change LCD_BUFFER_SIZE with 2944. destruct (Z.ltb_spec (Y + Y1) 128); [|by exists p].
  destruct (_ || _).
  - rewrite (i16_id (Y * 23)), (i16_id (2944 - Y * 23)), (i16_id (Y1 * 23)) by lia.
    destruct (Z.eqb_spec Y1 0); cbn match; apply fill_ok; first [assumption|lia].
  - destruct (Z.eqb_spec Y1 0); cbn match; apply stripes_ok; first [assumption|lia].
Qed.

Lemma drawn_dirty d r : drawn r -> drawn (s ← r; Some (set_dirty d s)).
Proof. intros Hr. apply drawn_bind; [done|]. by intros s' (H1 & H2 & H3); apply drawn_ret. Qed.

Lemma drawn_update s : display_ready s -> drawn (doUpdateScreen s).
Proof.
  intros Hs. unfold doUpdateScreen. destruct (pFB0 s) as [fb|] eqn:Ef; [|by apply drawn_ret].
  destruct (_ && _); [|by apply drawn_ret].
  destruct Hs as (Hi & Hl & Hp). rewrite lcdToFrameBuffer_eq by done. apply drawn_ret.
  split_and!; try done. unfold LcdInitialized in *. cbn. by rewrite Ef in Hi.
Qed.

Lemma drawn_frame s : display_ready s -> lcd_typed s -> drawn (LcdGetFrameBuffer s).
Proof.
  intros (Hi & Hl & Hp) Ht. unfold LcdGetFrameBuffer.
  destruct (pFB0 s) as [fb|] eqn:Ef; [|by apply drawn_ret]. rewrite Hi, Hl. cbn [negb].
  destruct (lt_fb _ Ht _ Ef) as [Hb Hz]. unfold frameBufferToLcd.
  assert (frameBufferToLcd fb = Some (concat (map (fun y => le_bytes 23 (gather (row_of 60 y fb) 0))
    (seq 0 128)))) as E.
  { unfold frameBufferToLcd. apply (rows_eq (fun l => le_bytes 23 (gather l 0))); [|done|].
    - intros l q _ Hlen. by apply (fb_row_eq 7).
    - unfold zlen in Hz. change LCD_BUFFER_LENGTH with 7680 in Hz. lia. }
  unfold frameBufferToLcd in E. rewrite E. apply drawn_ret. split_and!; try done.
  by eapply from_frame_typed.
Qed.

Lemma drawn_out options draw s :
  (forall pm fm, drawn (draw pm fm s)) -> display_ready s -> drawn (snd <$> out_ex options draw s).
Proof.
  intros Hd Hs. unfold out_ex. destruct (negb _); [by apply drawn_ret|].
  destruct (CmdResolveDrawingMode _) as [[pm fm] ok]. destruct ok; [|by apply drawn_ret].
  destruct (Hd pm fm) as (s' & -> & Hs'). by apply drawn_ret.
Qed.

Lemma drawn_snd {A} (a : A) r : drawn r -> drawn (snd <$> (s ← r; Some (a, s))).
Proof. by intros (s' & -> & Hs); apply drawn_ret. Qed.

Lemma drawn_clear s : display_ready s -> drawn (snd <$> LcdClean s).
Proof. intros Hs. destruct (clean_ok s Hs) as (s' & -> & Hs' & _). by apply drawn_ret. Qed.

Lemma exec_fits c s : display_ready s -> lcd_typed s -> fits c -> drawn (exec_lcd c s).
Proof.
  intros Hs Ht Hf. pose proof Hs as (Hi & Hl & Hp). destruct c; cbn [exec_lcd fits] in *; try done;
    try (apply drawn_out; [intros|done]).
  - by apply drawn_ret.
  - by apply drawn_clear.
  - unfold LcdClearDisplay. destruct (clean_ok s Hs) as (s' & -> & Hs' & _). by apply drawn_ret.
  - unfold LcdRefresh. rewrite Hi. by apply drawn_update.
  - unfold LcdUpdate. rewrite Hi. destruct (drawn_update s Hs) as (s' & -> & Hs'). by apply drawn_ret.
  - unfold LcdUpdateHandler. destruct (autoRefresh s); [by apply drawn_update|by apply drawn_ret].
  - by apply drawn_frame.
  - by apply drawn_ret.
  - unfold LcdSelectFont. rewrite Hi. by apply drawn_ret.
  - unfold LcdScroll. rewrite Hi. by apply drawn_snd, drawn_display, scroll_ok.
  - unfold LcdFillWindow. rewrite Hi. destruct Hf.
    destruct (drawn_display (fill_window Color Y Y1) (set_font FONTTYPE_NORMAL s)) as (s' & -> & Hs');
      [done|by apply fill_window_ok|by apply drawn_ret].
  - by apply drawn_pixel.
  - by apply drawn_line; [|lia..].
  - by apply drawn_rect; [|lia..].
  - unfold CmdDrawCircle. rewrite (i16_id radius) by lia.
    apply drawn_ellipse; [apply i16_range|apply i16_range|done|done|done].
  - apply drawn_ellipse; [apply i16_range|apply i16_range|lia|lia|done].
Qed.

Lemma exec_keeps c st st' :
  lcd_typed (p_lcd st) -> maps_frame c -> exec c st = Some st' -> lcd_typed (p_lcd st').
Proof.
  intros Ht Hm. destruct c; cbn [exec]; unfold on_lcd;
    try (match goal with |- context [exec_lcd ?c ?s] => destruct (exec_lcd c s) as [s'|] eqn:E end;
         [|done]; intros [= <-]; by eapply exec_lcd_typed).
  - destruct (LcdInit _ _ _ _) as [[r [s' t']]|] eqn:E; [|done]. intros [= <-].
    by eapply init_typed.
  - destruct (LcdPrintf _ _ _ _) as [[r [cur' s']]|] eqn:E; [|done]. intros [= <-].
    by eapply printf_typed.
Qed.

Lemma exec_returns c st :
  display_ready (p_lcd st) -> lcd_typed (p_lcd st) -> fits c ->
  exists st', exec c st = Some st' /\ display_ready (p_lcd st').
Proof.
  intros Hs Ht Hf. pose proof (exec_fits c (p_lcd st) Hs Ht Hf) as (s' & E & Hs').
  destruct c; cbn [exec]; unfold on_lcd; rewrite ?E; try (eexists; split; [done|exact Hs']); [|done].
  unfold LcdInit. rewrite (proj1 Hs). by eexists.
Qed.

(** C14: The state of the display library is well typed (a display of 2944 bytes, frame
    buffers of 7680 bytes, a font of the table) after every sequence of its calls, whatever
    their arguments, that returns; on an open display the calls to clear, scroll, fill,
    refresh, select a font and draw points, lines, rectangles and ellipses in their ranges
    do return. *)
Theorem lcd_calls_typed calls st :
  lcd_typed (p_lcd st) -> Forall maps_frame calls ->
  (forall st', run_calls calls st = Some st' -> lcd_typed (p_lcd st')) /\
  (display_ready (p_lcd st) -> Forall fits calls ->
   exists st', run_calls calls st = Some st' /\ display_ready (p_lcd st')).
Proof.
  revert st. induction calls as [|c calls IH]; intros st Ht Hm; cbn [run_calls].
  { split; [by intros ? [= <-]|]. intros. by exists st. }
  apply Forall_cons in Hm as [Hm1 Hm]. split.
  - intros st'. destruct (exec c st) as [st1|] eqn:E; [|done]. apply IH; [by eapply exec_keeps|done].
  - intros Hs Hf. apply Forall_cons in Hf as [Hf1 Hf].
    destruct (exec_returns c st Hs Ht Hf1) as (st1 & E & Hs1). rewrite E.
    apply IH; [by eapply exec_keeps|done..].
Qed.
End calls.
