(* ===== verification/LcdShow.v ===== *)
(** * LcdShow: what the display program shows (src/util/cat/cat.c)

    A text of several lines is laid out on the page of LcdPrint.v: a line feed
    starts a row two pixels below the last row of the line.  The program prints
    its greeting and its input as one such text, and the timer shows it. *)

From S2P Require Import Prelude.
From S2P Require Import IO.
From S2P Require Import Timer.
From S2P Require Import Lcd.
From S2P Require Import LcdFrame.
From S2P Require Import LcdPaint.
From S2P Require Import LcdText.
From S2P Require Import LcdCat.
From S2P Require Import LcdPrint.
From S2P Require Import LcdType.

(** ** Lines *)

(** Lines with a line feed between them. *)
Fixpoint unlines (lines : list (list Z)) : list Z :=
  match lines with
  | [] => []
  | [l] => l
  | l :: lines => l ++ 10 :: unlines lines
  end.

(** The row behind a line that starts in cell [k] of a page at [Y]. *)
Definition next_line (Y k : Z) (l : list Z) : Z := Y + 9 * ((k + zlen l) / COLUMNS) + 11.

Section page.
Context (font_bits : Z -> list Z) (Hfonts : fonts_ok font_bits).

Fixpoint page_image (Color Y k : Z) (lines : list (list Z)) : image :=
  match lines with
  | [] => fun _ _ => None
  | l :: lines =>
      over (page_image Color (next_line Y k l) 0 lines) (grid_image font_bits Color Y k l)
  end.

(** Every line ends above [bottom]. *)
Fixpoint page_fits (bottom Y k : Z) (lines : list (list Z)) : Prop :=
  match lines with
  | [] => True
  | l :: lines => next_line Y k l <= bottom /\ page_fits bottom (next_line Y k l) 0 lines
  end.

Definition line_ok (l : list Z) : Prop := Forall (fun c => control c = false) l.

Lemma printf_loop_page Color lines Y k cur p :
  image_ok p -> 0 <= k -> 0 <= Y -> cursor_cell Y k cur -> page_fits 1384 Y k lines ->
  Forall line_ok lines ->
  exists cur' q, printf_loop font_bits Color 8 9 FONTTYPE_NORMAL (unlines lines) cur p
      = Some (cur', q) /\ replaced (page_image Color Y k lines) p q.
Proof.
  intros Hp Hk HY Hcur Hfit Hl. revert Y k cur p Hp Hk HY Hcur Hfit.
  induction Hl as [|l lines Hl Hls IH]; intros Y k cur p Hp Hk HY Hcur Hfit.
  { exists cur, p. split; [done|]. by apply replaced_none. }
  cbn [page_fits] in Hfit. destruct Hfit as [Hfit Hrest]. unfold next_line in Hfit.
  pose proof (zlen_nonneg l).
  destruct (printf_loop_prints font_bits Hfonts Color Y l k cur p) as (cur1 & q & Hq1 & Hcur1 & Hq);
    [done..|lia|done|].
  destruct lines as [|l2 lines].
  { exists cur1, q. split; [done|]. cbn [page_image]. revert Hq. by apply replaced_ext. }
  change (unlines (l :: l2 :: lines)) with (l ++ [10] ++ unlines (l2 :: lines)).
  rewrite printf_loop_app, Hq1. cbn [mbind option_bind]. rewrite printf_loop_app. cbn [printf_loop].
  destruct (print_feed font_bits Color Y (k + zlen l) cur1 q) as (cur2 & -> & Hcur2);
    [lia|done|done|lia|]. cbn [mbind option_bind].
  pose proof (Z.div_pos (k + zlen l) COLUMNS ltac:(lia) ltac:(unfold COLUMNS; lia)).
  destruct (IH (next_line Y k l) 0 cur2 q) as (cur3 & r & -> & Hr); try done.
  { apply Hq. }
  { unfold next_line. lia. }
  exists cur3, r. split; [done|]. by apply (replaced_over _ _ _ _ _ Hq).
Qed.
End page.

(** ** The program *)

Definition blank_image : list Z := replicate (Z.to_nat LCD_BUFFER_SIZE) 0.

Lemma blank_image_ok : image_ok blank_image.
Proof. split; [by apply Forall_replicate|]. unfold zlen, blank_image. by rewrite length_replicate. Qed.

Lemma blank_pixel x y : pixel blank_image x y = false.
Proof.
  unfold pixel, blank_image. rewrite nth_lookup.
  destruct (replicate _ _ !! _) as [b|] eqn:E; [|by rewrite Z.testbit_0_l].
  apply lookup_replicate in E as [-> _]. apply Z.testbit_0_l.
Qed.

Lemma clean_blanks s s' :
  display_ready s -> LcdClean s = Some (true, s') -> displayBuf s' = blank_image.
Proof.
  intros (Hi & Hl & Hp) H. unfold LcdClean in H. rewrite Hi in H. cbn [negb] in H.
  unfold on_display in H. cbn [pLcd set_font displayBuf] in H. rewrite Hl in H.
  pose proof (image_length _ Hp) as Hlen. unfold fill in H. change LCD_BUFFER_SIZE with 2944 in H.
  rewrite (proj2 (Z.ltb_ge (zlen _) _)) in H by (unfold zlen; lia).
  cbn [Z.ltb Z.compare orb mbind option_bind] in H.
  apply (f_equal (fun o => match o with Some (_, s) => displayBuf s | None => [] end)) in H.
  cbn [displayBuf set_dirty set_display] in H. rewrite <- H. unfold splice, blank_image.
  rewrite take_0, drop_ge by (rewrite length_replicate; lia). cbn [app]. by rewrite app_nil_r.
Qed.

Section program.
Context (font_bits : Z -> list Z).

(** The program has printed [text] since it has cleaned the display. *)
Record has_printed (text : list Z) (st : process) : Prop := {
  hp_text : printf_loop font_bits 1 8 9 FONTTYPE_NORMAL text cursor0 blank_image
    = Some (p_cursor st, displayBuf (p_lcd st));
  hp_refreshes : process_refreshes st;
}.

(** The text can be printed. *)
Definition printable (text : list Z) : Prop :=
  is_Some (printf_loop font_bits 1 8 9 FONTTYPE_NORMAL text cursor0 blank_image).

Lemma printable_prefix a b : printable (a ++ b) -> printable a.
Proof.
  unfold printable. rewrite printf_loop_app.
  destruct (printf_loop _ _ _ _ _ a _ _) as [cp|]; [by eexists|by intros [? [=]]].
Qed.

Lemma print_adds text b st :
  has_printed text st -> printable (text ++ b) ->
  exists st', print font_bits b st = Some st' /\ has_printed (text ++ b) st'
    /\ p_timers st' = p_timers st.
Proof.
  intros [Ht ((Hr & Ha & Hd) & Hf & Htm & Hc)] Hb. unfold printable in Hb.
  rewrite printf_loop_app, Ht in Hb. cbn [mbind option_bind] in Hb. destruct Hb as [[cur q] Hq].
  destruct Hr as (Hi & Hl & Hp). unfold print, LcdPrintf. rewrite Hi, Hf, Hl. cbn [negb].
  change (font_info FONTTYPE_NORMAL) with (Some normal_font). cbn [mbind option_bind].
  change (FontWidth normal_font) with 8. change (FontHeight normal_font) with 9.
  rewrite Hq. cbn [mbind option_bind]. eexists. split; [done|]. split; [|done]. split.
  - rewrite printf_loop_app, Ht. exact Hq.
  - split; [|done]. split; [|by split; [|left]]. split; [done|]. split; [done|].
    by apply (printf_loop_typed font_bits _ _ _ _ _ _ _ Hp (cur, q) Hq).
Qed.

Lemma tick_keeps text st :
  has_printed text st -> counter (p_timers st) + 1 < 2 ^ 32 ->
  exists st', on_event font_bits Tick st = Some st' /\ has_printed text st'
    /\ counter (p_timers st') = counter (p_timers st) + 1.
Proof.
  intros [Ht Hr] Hn. destruct (tick_ok font_bits st Hr Hn) as (st' & He & Hr' & Hcu & Hc & Hb & _).
  exists st'. split; [done|]. split; [|done]. split; [by rewrite Hcu, Hb|done].
Qed.

(** What the lines among the events add. *)
Definition event_text (e : event) : list Z := match e with Line b => b | Tick => [] end.
Definition events_text (es : list event) : list Z := concat (map event_text es).

Lemma run_events_prints es text st :
  has_printed text st -> printable (text ++ events_text es) ->
  counter (p_timers st) + zlen es < 2 ^ 32 ->
  exists st', run_events font_bits es st = Some st' /\ has_printed (text ++ events_text es) st'
    /\ counter (p_timers st') <= counter (p_timers st) + zlen es.
Proof.
  revert text st. induction es as [|e es IH]; intros text st Hst Hp Hn.
  { exists st. unfold events_text. cbn [map concat]. rewrite app_nil_r. split; [done|].
    split; [done|]. change (zlen (@nil event)) with 0. lia. }
  change (events_text (e :: es)) with (event_text e ++ events_text es) in *.
  rewrite app_assoc in *. unfold zlen in *. cbn [length run_events] in *.
  assert (exists st1, on_event font_bits e st = Some st1 /\ has_printed (text ++ event_text e) st1
    /\ counter (p_timers st1) <= counter (p_timers st) + 1) as (st1 & -> & Hst1 & Hc1).
  { destruct e as [b|]; cbn [event_text] in *.
    - destruct (print_adds text b st Hst) as (st1 & H1 & Hst1 & E1); [by eapply printable_prefix|].
      exists st1. split; [done|]. split; [done|]. rewrite E1. lia.
    - rewrite app_nil_r. destruct (tick_keeps text st Hst ltac:(lia)) as (st1 & H1 & Hst1 & E1).
      exists st1. split; [done|]. split; [done|lia]. }
  cbn [mbind option_bind].
  destruct (IH _ st1 Hst1 Hp) as (st2 & -> & Hst2 & Hc2); [lia|].
  exists st2. split; [done|]. split; [done|lia].
Qed.

Definition greeting : list Z := str ":):)".

Lemma cat_start_prints fd fb now st :
  fd <> -1 -> LcdInitialized (p_lcd st) = false -> image_ok (displayBuf (p_lcd st)) ->
  p_cursor st = cursor0 -> 0 <= counter (p_timers st) < 2 ^ 32 -> printable greeting ->
  exists st', cat_start font_bits fd (Some fb) now st = Some st' /\ has_printed greeting st'
    /\ counter (p_timers st') = counter (p_timers st).
Proof.
  intros Hfd Hi Hb Hcur Hc Hp. unfold cat_start.
  destruct (init_refreshing fd fb now (p_lcd st) (p_timers st) Hfd Hi Hb)
    as (s1 & t1 & -> & Hr1 & Ha1 & Hf1 & Ht1 & Hc1). cbn [mbind option_bind].
  destruct (clean_ok s1 Hr1) as (s2 & Hs2 & Hr2 & Ha2 & Hd2 & Hf2). rewrite Hs2.
  cbn [mbind option_bind].
  assert (has_printed [] (MkProcess (p_cursor st) s2 t1)) as H0.
  { split; cbn [p_cursor p_lcd].
    - by rewrite (clean_blanks s1 s2 Hr1 Hs2), Hcur.
    - split; [|split; [done|split; [done|cbn; lia]]]. split; [done|]. cbn [p_lcd].
      split; [by rewrite Ha2|by left]. }
  change greeting with (([] ++ str ":)") ++ str ":)") in *.
  destruct (print_adds [] (str ":)") _ H0) as (p1 & -> & H1 & E1); [by eapply printable_prefix|].
  cbn [mbind option_bind].
  destruct (print_adds _ (str ":)") p1 H1 Hp) as (p2 & -> & H2 & E2).
  exists p2. split; [done|]. split; [done|]. by rewrite E2, E1, <- Hc1.
Qed.
End program.

