(* ===== verification/LcdTest.v ===== *)
(** * LcdTest: the frame buffer test (src/util/cat/lcdcat.c)

    The program reads a number and writes as many words of zeroes to
    [/dev/fb0].  What the device does with a write does not matter to it. *)

From S2P Require Import Prelude.
From S2P Require Import Cstr.

(** An optional sign. *)
Definition scan_sign (l : list Z) : bool * list Z :=
  match l with 43 :: l => (false, l) | 45 :: l => (true, l) | _ => (false, l) end.

(** [scanf] with "%d" into an [unsigned] that is zero. *)
Definition scan_zeroes (input : list Z) : Z :=
  let '(neg, l) := scan_sign (skip_space input) in
  match (scan_dec None l).1 with
  | Some v => u32 (if neg then - Z.min v (2 ^ 63) else Z.min v (2 ^ 63 - 1))
  | None => 0
  end.

(** [while (zeroes-->0) write(fd, &zero, sizeof(unsigned));]: the buffers of
    the writes, [None] when [fuel] does not do. *)
Fixpoint zero_loop (fuel : nat) (zeroes : Z) : option (list (list Z)) :=
  match fuel with
  | O => None
  | S fuel =>
      if 0 <? zeroes then
        ws ← zero_loop fuel (zeroes - 1); Some (le_bytes 4 0 :: ws)
      else Some []
  end.

Definition lcdcat_main (fuel : nat) (input : list Z) : option (list (list Z)) :=
  zero_loop fuel (scan_zeroes input).

Lemma zero_loop_writes fuel n :
  0 <= n < Z.of_nat fuel -> zero_loop fuel n = Some (replicate (Z.to_nat n) [0; 0; 0; 0]).
Proof.
  revert n. induction fuel as [|fuel IH]; intros n Hn; [lia|]. cbn [zero_loop].
  destruct (Z.ltb_spec 0 n).
  - rewrite IH by lia. cbn [mbind option_bind].
    by replace (Z.to_nat n) with (S (Z.to_nat (n - 1))) by lia.
  - by replace n with 0 by lia.
Qed.

Lemma scan_zeroes_range input : 0 <= scan_zeroes input < 2 ^ 32.
Proof.
  unfold scan_zeroes. destruct (scan_sign _) as [neg l].
  destruct (scan_dec None l).1; [apply Z.mod_pos_bound|]; lia.
Qed.

(** The program ends on every input: it writes one word of zeroes for each of the number it
    has read, as an unsigned number of 32 bits, and none when it has read no number. *)
Theorem lcdcat_writes input :
  lcdcat_main (Z.to_nat (2 ^ 32)) input
    = Some (replicate (Z.to_nat (scan_zeroes input)) [0; 0; 0; 0]).
Proof. apply zero_loop_writes. rewrite Z2Nat.id by lia. apply scan_zeroes_range. Qed.

Example scan_three : scan_zeroes (str " 3 ") = 3. Proof. reflexivity. Qed.
Example scan_minus_one : scan_zeroes (str "-1") = 2 ^ 32 - 1. Proof. reflexivity. Qed.
Example scan_nothing : scan_zeroes (str "x") = 0. Proof. reflexivity. Qed.
