(* ===== verification/Toy.v ===== *)
(** * Toy: concrete bricks

    The theorems about whole transfers are proved against interfaces
    ([FileReceiver], [FileSender], [StallingSender], [FirmwareBrick]).  The
    bricks of this file implement them, so the interfaces can be met, and the
    witnesses run the commands against them. *)

From S2P Require Import Prelude Packets IO Logic Cstr Up Dl Ls Crc32 Install BtUnix Bridge BridgeLoop.
From S2P Require Import BridgeRelay.

(** ** A device that answers each packet with one reply *)

Class Server (S : Type) := serve : list Z -> S -> S * list Z.

Record node (S : Type) := MkNode { n_state : S; n_reply : list Z }.
Arguments MkNode {S}. Arguments n_state {S}. Arguments n_reply {S}.

#[export] Instance node_transport {S} `{!Server S} : Transport (node S) := {
  tr_write p d := let '(s, rep) := serve p (n_state d) in (zlen p, MkNode s rep);
  tr_read n ms d :=
    let data := take (Z.to_nat n) (map u8 (n_reply d)) in
    (zlen data, data, MkNode (n_state d) []);
}.

Lemma bytes_ok_u8 l : bytes_ok (map u8 l).
Proof. apply Forall_map, Forall_true. intros. apply Z.mod_pos_bound. lia. Qed.

#[export] Instance node_ok {S} `{!Server S} : TransportOk (node S).
Proof.
  split.
  - intros n ms d res data d' [= <- <- <-]. split.
    + unfold zlen. rewrite length_take. lia.
    + apply Forall_take, bytes_ok_u8.
  - by intros n ms d res data d' [= <- <- <-].
Qed.

Lemma node_exchange {S} `{!Server S} ms p n rep s r s' :
  serve p s = (s', rep) -> bytes_ok rep -> 0 < zlen rep <= n ->
  exchange_in ms p n rep (MkNode s r) (MkNode s' []).
Proof.
  intros Hs Hb Hn. exists (zlen p), (MkNode s' rep), (zlen rep).
  assert (take (Z.to_nat n) (map u8 rep) = rep) as Ht.
  { rewrite take_ge by (rewrite length_map; unfold zlen in Hn; lia). clear -Hb.
    induction Hb as [|b l Hb _ IH]; [done|]. simpl. by rewrite IH, u8_id. }
  cbn [tr_write tr_read node_transport n_state n_reply]. rewrite Hs, Ht.
  repeat split; [apply zlen_nonneg|lia].
Qed.

(** The opcode of a system command. *)
Definition opcode (p : list Z) : Z := get_field SYSTEM_CMD "cmd" p.

(** ** A scripted device: one reply after the other *)

Definition script : Type := list (list Z).
#[export] Instance script_server : Server script := fun _ rs =>
  match rs with r :: rs => (rs, r) | [] => ([], []) end.

Definition world {D} (d : D) : World D := MkWorld d [] [] [] None 0 (fun _ _ => 0) 0.

(** ** A brick that stores a file *)

Record shelf := MkShelf { sh_path : list Z; sh_size : Z; sh_data : list Z }.

Definition stored : list Z := [6; 0; 0; 0; 3; 0x92; 0; 5].
#[export] Instance shelf_server : Server shelf := fun p s =>
  if opcode p =? 0x92 then
    (MkShelf (upto_nul (drop 11 p)) (get_field BEGIN_DOWNLOAD "fileSize" p) [], stored)
  else if opcode p =? 0x93 then
    (MkShelf (sh_path s) (sh_size s) (sh_data s ++ drop 8 p), stored)
  else (s, []).

Lemma upto_nul_app s : cstr_ok s -> upto_nul (s ++ [0]) = s.
Proof.
  induction 1 as [|b s Hb _ IH]; [done|]. simpl. rewrite IH. destruct b; [lia|done|lia].
Qed.

Lemma stored_ok : bytes_ok stored.
Proof. apply (bool_decide_unpack _). vm_compute. exact I. Qed.

#[export, refine] Instance shelf_receiver : FileReceiver (node shelf) := {
  rcv_ready dst size d := True;
  receiving dst size h acc d := h = 5 /\ n_state d = MkShelf dst size acc;
}.
Proof.
  - intros [s r] dst size _ Hdst Hsize.
    destruct (node_exchange (S := shelf) TIMEOUT (begin_download_request size dst) 8 stored s r
                (MkShelf dst size [])) as (r1 & d1 & r2 & Hw & H1 & Hr & H2).
    + unfold serve, shelf_server. change (opcode _) with 0x92. cbn match.
      change (drop 11 (begin_download_request size dst)) with (dst ++ [0]).
      rewrite upto_nul_app by done. unfold begin_download_request.
      rewrite get_field_app by (by apply Nat.leb_le). rewrite get_set_same by (by apply Nat.leb_le).
      by rewrite Z.mod_small.
    + apply stored_ok.
    + done.
    + eexists r1, d1, r2, stored, _. repeat split; try done.
  - intros [s r] dst size h acc chunk [-> Hs] Hc Hsz _. cbn in Hs.
    destruct (node_exchange (S := shelf) TIMEOUT (chunk_packet 5 chunk) 8 stored s r
                (MkShelf dst size (acc ++ chunk))) as (r1 & d1 & r2 & Hw & H1 & Hr & H2).
    + unfold serve, shelf_server. change (opcode _) with 0x93. cbn match.
      change (drop 8 (chunk_packet 5 chunk)) with chunk. by rewrite Hs.
    + apply stored_ok.
    + done.
    + eexists r1, d1, r2, stored, _. repeat split; try done.
Defined.

(** ** A brick that sends a file *)

Record source := MkSource { so_path : list Z; so_content : list Z; so_left : list Z }.

Definition begin_upload_reply (size : Z) (piece : list Z) : list Z :=
  set_field BEGIN_UPLOAD_REPLY "fileSize" size
    (set_field BEGIN_UPLOAD_REPLY "packetLen" (10 + zlen piece)
       (init_struct BEGIN_UPLOAD_REPLY [("type", VM_OK); ("cmd", 0x94); ("fileHandle", 7)]))
  ++ piece.
Definition continue_upload_reply (piece : list Z) : list Z :=
  set_field CONTINUE_UPLOAD_REPLY "packetLen" (6 + zlen piece)
    (init_struct CONTINUE_UPLOAD_REPLY [("type", VM_OK); ("cmd", 0x95); ("fileHandle", 7)])
  ++ piece.

Lemma begin_upload_reply_ok size piece :
  0 <= size < 2 ^ 32 -> zlen piece <= 1000 -> bytes_ok piece ->
  let rep := begin_upload_reply size piece in
  carries BEGIN_UPLOAD_REPLY piece rep /\ bytes_ok rep /\ zlen rep = 12 + zlen piece
  /\ get_field BEGIN_UPLOAD_REPLY "type" rep = VM_OK
  /\ get_field BEGIN_UPLOAD_REPLY "fileSize" rep = size
  /\ get_field BEGIN_UPLOAD_REPLY "fileHandle" rep = 7.
Proof.
  intros Hs Hp Hb rep. pose proof (zlen_nonneg piece).
  assert (zlen rep = 12 + zlen piece) as Hz by (unfold rep, begin_upload_reply; by rewrite zlen_app).
  split; [split; [done|]; split|].
  - unfold rep, begin_upload_reply. rewrite length_app. change (sizeof BEGIN_UPLOAD_REPLY) with 12%nat.
    cbn [length set_field]. change (length (set_field _ _ _ _)) with 12%nat. lia.
  - rewrite Hz. unfold rep, begin_upload_reply. rewrite get_field_app by (by apply Nat.leb_le).
    rewrite get_set_other by (done || by apply Nat.leb_le).
    rewrite get_set_same by (by apply Nat.leb_le).
    change (2 ^ (8 * Z.of_nat (widthof BEGIN_UPLOAD_REPLY "packetLen"))) with 65536.
    rewrite Z.mod_small; lia.
  - split; [unfold rep, begin_upload_reply; apply Forall_app; auto with ev3|].
    split; [done|]. split; [done|]. split; [|done].
    unfold rep, begin_upload_reply. rewrite get_field_app by (by apply Nat.leb_le).
    rewrite get_set_same by (by apply Nat.leb_le).
    change (2 ^ (8 * Z.of_nat (widthof BEGIN_UPLOAD_REPLY "fileSize"))) with (2 ^ 32).
    by rewrite Z.mod_small.
Qed.

Lemma continue_upload_reply_ok piece :
  zlen piece <= 1004 -> bytes_ok piece ->
  let rep := continue_upload_reply piece in
  carries CONTINUE_UPLOAD_REPLY piece rep /\ bytes_ok rep /\ zlen rep = 8 + zlen piece
  /\ get_field CONTINUE_UPLOAD_REPLY "type" rep = VM_OK
  /\ get_field CONTINUE_UPLOAD_REPLY "fileHandle" rep = 7.
Proof.
  intros Hp Hb rep. pose proof (zlen_nonneg piece).
  assert (zlen rep = 8 + zlen piece) as Hz
    by (unfold rep, continue_upload_reply; by rewrite zlen_app).
  split; [split; [done|]; split|].
  - unfold rep, continue_upload_reply. rewrite length_app.
    change (sizeof CONTINUE_UPLOAD_REPLY) with 8%nat.
    change (length (set_field _ _ _ _)) with 8%nat. lia.
  - rewrite Hz. unfold rep, continue_upload_reply. rewrite get_field_app by (by apply Nat.leb_le).
    rewrite get_set_same by (by apply Nat.leb_le).
    change (2 ^ (8 * Z.of_nat (widthof CONTINUE_UPLOAD_REPLY "packetLen"))) with 65536.
    rewrite Z.mod_small; lia.
  - split; [unfold rep, continue_upload_reply; apply Forall_app; auto with ev3|].
    split; [done|]. by split.
Qed.

#[export] Instance source_server : Server source := fun p s =>
  if opcode p =? 0x94 then
    if decide (upto_nul (drop 9 p) = so_path s) then
      (MkSource (so_path s) (so_content s) (drop 1000 (so_content s)),
       begin_upload_reply (zlen (so_content s)) (take 1000 (so_content s)))
    else (s, [])
  else if opcode p =? 0x95 then
    (MkSource (so_path s) (so_content s) (drop 1000 (so_left s)),
     continue_upload_reply (take 1000 (so_left s)))
  else (s, []).

Lemma zlen_take_le {A} n (l : list A) : zlen (take n l) <= Z.of_nat n.
Proof. unfold zlen. rewrite length_take. lia. Qed.

#[export, refine] Instance source_sender : FileSender (node source) := {
  snd_has path content d := cstr_ok path /\ bytes_ok content /\ zlen content < 2 ^ 32
    /\ so_path (n_state d) = path /\ so_content (n_state d) = content;
  sending h rest d := h = 7 /\ bytes_ok rest /\ so_left (n_state d) = rest;
}.
Proof.
  - intros [[sp sc sl] r] path content (Hp & Hb & Hz & E1 & E2). cbn in E1, E2. subst sp sc.
    pose proof (zlen_take_le 1000 content) as Ht. pose proof (zlen_nonneg content).
    pose proof (zlen_nonneg (take 1000 content)).
    destruct (begin_upload_reply_ok (zlen content) (take 1000 content)) as
      (Hc & Hrb & Hrz & Hty & Hfs & Hfh); [lia|done|by apply Forall_take|].
    destruct (node_exchange (S := source) TIMEOUT (begin_upload_request path) 1012
      (begin_upload_reply (zlen content) (take 1000 content)) (MkSource path content sl) r
      (MkSource path content (drop 1000 content))) as (r1 & d1 & r2 & Hw & H1 & Hr & H2).
    + unfold serve, source_server. change (opcode _) with 0x94. cbn match. cbn [so_path so_content].
      change (drop 9 (begin_upload_request path)) with (path ++ [0]).
      rewrite upto_nul_app by done. by rewrite decide_True.
    + done.
    + lia.
    + eexists r1, d1, r2, _, _, (take 1000 content), (drop 1000 content).
      split; [exact Hw|]. split; [done|]. split; [exact Hr|]. split; [done|]. split; [done|].
      split; [done|]. split; [by rewrite Hty|]. split; [done|]. split; [by rewrite take_drop|].
      split; [done|]. split; [by apply Forall_drop|done].
  - intros [[sp sc sl] r] h rest (-> & Hb & E) Hne. cbn in E. subst sl.
    pose proof (zlen_take_le 1000 rest) as Ht.
    assert (0 < zlen (take 1000 rest)) by (destruct rest; [done|unfold zlen; simpl; lia]).
    destruct (continue_upload_reply_ok (take 1000 rest)) as
      (Hc & Hrb & Hrz & Hty & Hfh); [lia|by apply Forall_take|].
    destruct (node_exchange (S := source) TIMEOUT (continue_upload_request 7) 1012
      (continue_upload_reply (take 1000 rest)) (MkSource sp sc rest) r
      (MkSource sp sc (drop 1000 rest))) as (r1 & d1 & r2 & Hw & H1 & Hr & H2).
    + done.
    + done.
    + lia.
    + eexists r1, d1, r2, _, _, (take 1000 rest), (drop 1000 rest).
      split; [exact Hw|]. split; [done|]. split; [exact Hr|]. split; [done|]. split; [done|].
      split; [lia|]. split; [by rewrite Hty|]. split; [by rewrite take_drop|].
      split; [done|]. split; [by apply Forall_drop|done].
Defined.

(** ** Replies that list a directory *)

Definition list_files_reply (size : Z) (piece : list Z) : list Z :=
  set_field LIST_FILES_REPLY "listSize" size
    (set_field LIST_FILES_REPLY "packetLen" (10 + zlen piece)
       (init_struct LIST_FILES_REPLY [("type", VM_OK); ("cmd", 0x99); ("handle", 7)]))
  ++ piece.
Definition continue_list_reply (piece : list Z) : list Z :=
  set_field CONTINUE_LIST_FILES_REPLY "packetLen" (6 + zlen piece)
    (init_struct CONTINUE_LIST_FILES_REPLY [("type", VM_OK); ("cmd", 0x9A); ("handle", 7)])
  ++ piece.

Lemma list_files_reply_ok size piece :
  0 <= size < 2 ^ 32 -> zlen piece <= 1012 -> bytes_ok piece ->
  let rep := list_files_reply size piece in
  carries LIST_FILES_REPLY piece rep /\ bytes_ok rep /\ zlen rep = 12 + zlen piece
  /\ get_field LIST_FILES_REPLY "type" rep = VM_OK
  /\ get_field LIST_FILES_REPLY "listSize" rep = size
  /\ get_field LIST_FILES_REPLY "handle" rep = 7.
Proof.
  intros Hs Hp Hb rep. pose proof (zlen_nonneg piece).
  assert (zlen rep = 12 + zlen piece) as Hz by (unfold rep, list_files_reply; by rewrite zlen_app).
  split; [split; [done|]; split|].
  - unfold rep, list_files_reply. rewrite length_app.
    change (sizeof LIST_FILES_REPLY) with 12%nat.
    cbn [length set_field]. change (length (set_field _ _ _ _)) with 12%nat. lia.
  - rewrite Hz. unfold rep, list_files_reply. rewrite get_field_app by (by apply Nat.leb_le).
    rewrite get_set_other by (done || by apply Nat.leb_le).
    rewrite get_set_same by (by apply Nat.leb_le).
    change (2 ^ (8 * Z.of_nat (widthof LIST_FILES_REPLY "packetLen"))) with 65536.
    rewrite Z.mod_small; lia.
  - split; [unfold rep, list_files_reply; apply Forall_app; auto with ev3|].
    split; [done|]. split; [done|]. split; [|done].
    unfold rep, list_files_reply. rewrite get_field_app by (by apply Nat.leb_le).
    rewrite get_set_same by (by apply Nat.leb_le).
    change (2 ^ (8 * Z.of_nat (widthof LIST_FILES_REPLY "listSize"))) with (2 ^ 32).
    by rewrite Z.mod_small.
Qed.

Lemma continue_list_reply_ok piece :
  zlen piece <= 1016 -> bytes_ok piece ->
  let rep := continue_list_reply piece in
  carries CONTINUE_LIST_FILES_REPLY piece rep /\ bytes_ok rep /\ zlen rep = 8 + zlen piece
  /\ get_field CONTINUE_LIST_FILES_REPLY "type" rep = VM_OK.
Proof.
  intros Hp Hb rep. pose proof (zlen_nonneg piece).
  assert (zlen rep = 8 + zlen piece) as Hz
    by (unfold rep, continue_list_reply; by rewrite zlen_app).
  split; [split; [done|]; split|].
  - unfold rep, continue_list_reply. rewrite length_app.
    change (sizeof CONTINUE_LIST_FILES_REPLY) with 8%nat.
    change (length (set_field _ _ _ _)) with 8%nat. lia.
  - rewrite Hz. unfold rep, continue_list_reply. rewrite get_field_app by (by apply Nat.leb_le).
    rewrite get_set_same by (by apply Nat.leb_le).
    change (2 ^ (8 * Z.of_nat (widthof CONTINUE_LIST_FILES_REPLY "packetLen"))) with 65536.
    rewrite Z.mod_small; lia.
  - split; [unfold rep, continue_list_reply; apply Forall_app; auto with ev3|]. by split.
Qed.

(** ** A brick that announces a byte and never sends it *)

#[export] Instance staller_server : Server bool := fun p s =>
  if opcode p =? 0x94 then (true, begin_upload_reply 1 []) else (true, continue_upload_reply []).

#[export, refine] Instance staller : StallingSender (D := node bool) := {
  stl_ready d := True;
  stalled d := True;
}.
Proof.
  - intros [s r] path _.
    destruct (begin_upload_reply_ok 1 []) as (Hc & Hrb & Hrz & Hty & Hfs & Hfh); [lia|done|done|].
    exists (begin_upload_reply 1 []), (MkNode true []), []. split.
    { by apply node_exchange; [|exact Hrb|]. }
    split; [done|]. split; [done|]. split; [by rewrite Hty|]. rewrite Hfs. split; [done|done].
  - intros [s r] h _.
    destruct (continue_upload_reply_ok []) as (Hc & Hrb & Hrz & Hty & Hfh); [done|done|].
    exists (continue_upload_reply []), (MkNode true []). split.
    { by apply node_exchange; [|exact Hrb|]. }
    split; [done|]. split; [by rewrite Hty|done].
Defined.

(** ** A brick in firmware update mode *)

Inductive flash_mode := FlIdle | FlErased | FlLoading | FlRunning.
Record flash := MkFlash { fl_mode : flash_mode; fl_image : list Z }.

Definition fl_ok : list Z := [5; 0; 0; 0; 3; 0; 0].
Definition crc_reply (crc : Z) : list Z :=
  set_field FW_GETCRC32_REPLY "crc32" crc [9; 0; 0; 0; 3; 0xF5; 0; 0; 0; 0; 0].

#[export] Instance flash_server : Server flash := fun p s =>
  match opcode p with
  | 0xF3 => (MkFlash FlErased [], fl_ok)
  | 0xF1 => (MkFlash FlLoading [], fl_ok)
  | 0xF2 => (MkFlash FlLoading (fl_image s ++ drop 7 p), fl_ok)
  | 0xF5 => (s, crc_reply (crc32 0 (fl_image s)))
  | 0xF4 => (MkFlash FlRunning (fl_image s), fl_ok)
  | _ => (s, [])
  end.

Lemma crc_reply_ok crc : 0 <= crc < 2 ^ 32 ->
  bytes_ok (crc_reply crc) /\ get_field FW_GETCRC32_REPLY "crc32" (crc_reply crc) = crc.
Proof.
  intros Hc. split.
  - apply bytes_ok_set_field, (bool_decide_unpack _). vm_compute. exact I.
  - unfold crc_reply. rewrite get_set_same by (by apply Nat.leb_le).
    change (2 ^ (8 * Z.of_nat (widthof FW_GETCRC32_REPLY "crc32"))) with (2 ^ 32).
    by rewrite Z.mod_small.
Qed.

(** An acknowledged request. *)
Lemma flash_acked ms pkt s r s' :
  serve pkt s = (s', fl_ok) -> acked (D := node flash) ms pkt fl_ok (MkNode s r) (MkNode s' []).
Proof.
  intros Hs. split; [|done]. apply node_exchange; [done| |done].
  apply (bool_decide_unpack _). vm_compute. exact I.
Qed.

#[export, refine] Instance flash_brick : FirmwareBrick (D := node flash) := {
  fb_idle d := fl_mode (n_state d) = FlIdle;
  fb_erased d := fl_mode (n_state d) = FlErased;
  fb_loading img d := n_state d = MkFlash FlLoading img;
  fb_running img d := n_state d = MkFlash FlRunning img;
}.
Proof.
  - intros [s r] _. exists fl_ok, (MkNode (MkFlash FlErased []) []).
    split; [by apply flash_acked|done].
  - intros [s r] _. exists fl_ok, (MkNode (MkFlash FlLoading []) []).
    split; [by apply flash_acked|done].
  - intros [s r] got block Hs _ _. cbn in Hs. subst s.
    exists fl_ok, (MkNode (MkFlash FlLoading (got ++ block)) []).
    split; [by apply flash_acked|done].
  - intros [s r] img Hs _. cbn in Hs. subst s.
    destruct (crc_reply_ok (crc32 0 img)) as [Hb Hf]; [by apply crc32_u32|].
    exists (crc_reply (crc32 0 img)), (MkNode (MkFlash FlLoading img) []).
    split; [by apply node_exchange|]. by repeat split.
  - intros [s r] img Hs _. cbn in Hs. subst s.
    exists fl_ok, (MkNode (MkFlash FlRunning img) []).
    split; [by apply flash_acked|done].
Defined.

(** ** The script as a brick behind the bridge *)

Definition packet_or_nothing (r : list Z) : Prop := r = [] \/ stream_packet r.

#[export, refine] Instance script_brick : Brick (node script) := {
  br_ok d := packet_or_nothing (n_reply d) /\ Forall packet_or_nothing (n_state d);
}.
Proof.
  - intros p [[|r rs] r0] res d' [Hr Hs]; cbn; intros [= <- <-]; cbn in *; (split; [|lia]).
    + split; [by left|done].
    + by apply Forall_cons in Hs.
  - intros [rs r] res data d' [Hr Hs] Hread. cbn [n_reply n_state tr_read node_transport] in Hr, Hs, Hread.
    assert (map u8 r = r) as Hm.
    { assert (bytes_ok r) as Hb by (destruct Hr as [-> |[Hb _]]; [constructor|done]).
      clear -Hb. induction Hb as [|b l Hb _ IH]; [done|]. simpl. by rewrite IH, u8_id. }
    rewrite Hm in Hread. destruct Hr as [-> |(Hb & Hl & Hz)].
    { rewrite take_nil in Hread. injection Hread as <- <- <-. cbn.
      split; [split; [by left|done]|]. split; [constructor|]. by repeat split. }
    assert (exists x y t, r = x :: y :: t) as (x & y & t & ->)
      by (destruct r as [|x [|y t]]; simpl in Hl; try lia; eauto).
    apply Forall_cons in Hb as [Hx Hb']. apply Forall_cons in Hb' as [Hy Hb'].
    cbn [take le_val] in Hz. rewrite take_0 in Hz. cbn [le_val] in Hz. unfold byte_ok in Hx, Hy.
    rewrite take_ge in Hread by (unfold zlen in Hz; lia).
    injection Hread as <- <- <-. cbn [n_reply n_state nth].
    split; [split; [by left|done]|]. split; [constructor; [done|by constructor]|].
    split; [lia|]. split; [lia|]. intros _. lia.
Defined.
