(* ===== verification/Witnesses.v ===== *)
(** * Witnesses: the theorems at concrete inputs

    Each lemma applies one theorem of the development where its hypotheses
    hold: to the bricks of Toy.v, to a scripted device, or to plain data. *)

From S2P Require Import Prelude Packets IO Logic Stdio Cstr Simple Up Dl Ls Crc32 Install Mkrbf.
From S2P Require Import Vm BtUnix Tcp Info Tunnel Uf2 Uf2Pack Uf2Unpack Uf2Roundtrip Bridge BridgeLoop Cli Sim Main MainSafe MainSelect Toy.
From S2P Require Import BridgeRelay.

(** Decides a closed proposition. *)

(** ** Commands on a scripted device *)

Definition dir_reply : list Z := [5; 0; 0; 0; 3; 0x9B; 0].
Lemma dir_reply_ok : zlen dir_reply <= 7.
Proof. vm_compute. discriminate. Qed.

Lemma mkdir_spec_witness :
  wp (mkdir_ (str "apps")) (fun code w' =>
    code = ERR_UNK /\ packets (w_trace w') = [mkdir_request (str "apps")])
    (world (MkNode (S := script) [dir_reply] [])).
Proof.
  eapply wp_mono.
  - eapply (mkdir_spec (str "apps") (world (MkNode (S := script) [dir_reply] [])));
      [done|reflexivity|reflexivity|apply dir_reply_ok|intros _; split; [done|by vm_compute]].
  - intros code w' (-> & _ & -> & _). done.
Defined.

Lemma closehnd_range_witness :
  wp (closehnd 254 300) (fun code w' =>
    exists k, k <= 2 /\ packets (w_trace w') = map close_request (seqZ 254 k))
    (world (MkNode (S := script) [[6; 0; 0; 0; 3; 0x98; 0; 254]; [6; 0; 0; 0; 5; 0x98; 1; 255]] [])).
Proof.
  eapply wp_mono.
  - apply (closehnd_range 254 300
      (world (MkNode (S := script) [[6; 0; 0; 0; 3; 0x98; 0; 254]; [6; 0; 0; 0; 5; 0x98; 1; 255]] []))).
  - intros code w' (k & evs & Ht & Hk & Hp & _). exists k. rewrite Ht. split; [exact Hk|exact Hp].
Defined.

(** A listing of ten bytes that is cut off behind four; the brick refuses to continue. *)
Definition cut_listing : script :=
  [list_files_reply 10 (str "mod/"); [5; 0; 0; 0; VM_ERROR; 0x9A; 6]].

Lemma ls_prints_witness :
  wp (ls 1 (str "/")) (fun code w' => code = ERR_VM /\ w_out w' = str "mod/")
    (world (MkNode cut_listing [])).
Proof.
  destruct (list_files_reply_ok 10 (str "mod/")) as (Hc & Hb & Hz & Hty & Hsize & Hh); [done|done|dec|].
  eapply wp_mono.
  - eapply (ls_prints 0 (str "/") (str "mod/") (list_files_reply 10 (str "mod/")) ERR_VM _
      (world (MkNode cut_listing []))).
    + done.
    + done.
    + apply node_exchange; [reflexivity|exact Hb|done].
    + exact Hc.
    + by rewrite Hty.
    + intros _. eapply reports_error; [apply node_exchange; [reflexivity|dec|done]|done|done|done].
  - intros code w' (Ho & Hcode). rewrite Hsize in Hcode. destruct Hcode as (-> & _). by split.
Defined.

Lemma ls_reassembles_witness :
  wp (ls 1 (str "/")) (fun code w' => code = ERR_UNK /\ w_out w' = str "mod/sys/")
    (world (MkNode (S := script) [list_files_reply 8 (str "mod/"); continue_list_reply (str "sys/")] [])).
Proof.
  destruct (list_files_reply_ok 8 (str "mod/")) as (Hc & Hb & Hz & Hty & Hsize & Hh); [done|done|dec|].
  destruct (continue_list_reply_ok (str "sys/")) as (Kc & Kb & Kz & Kty); [done|dec|].
  eapply wp_mono.
  - eapply (ls_reassembles (str "/") (str "mod/") [str "sys/"] (list_files_reply 8 (str "mod/")) _ _
      (world (MkNode (S := script) [list_files_reply 8 (str "mod/"); continue_list_reply (str "sys/")] []))).
    + done.
    + done.
    + apply node_exchange; [reflexivity|exact Hb|done].
    + exact Hc.
    + by rewrite Hty.
    + eapply continued_cons; [apply node_exchange; [reflexivity|exact Kb|done]|exact Kc|done|by rewrite Kty|].
      apply continued_nil.
    + by repeat constructor.
    + by rewrite Hsize.
    + done.
  - intros code w' (-> & ->). by split.
Defined.

Lemma run_spec_witness :
  wp (run false 5 (str "a.rbf") 0) (fun code w' =>
    code = ERR_UNK /\ w_errmsg w' = Some "`exec` has been successful."%string)
    (world (MkNode (S := script) [EXECUTE_FILE_REPLY_SUCCESS] [])).
Proof.
  eapply wp_mono.
  - eapply (run_spec (str "a.rbf") 0 5
      (world (MkNode (S := script) [EXECUTE_FILE_REPLY_SUCCESS] [])));
      [done|reflexivity|reflexivity|done].
  - intros code w' [_ H]. exact H.
Defined.

Lemma vm_request_fields_witness :
  framed (vm_request true 5 17 [1; 2; 3])
  /\ get_field EXECUTE_FILE "alloc" (vm_request true 5 17 [1; 2; 3]) / 1024 = 5.
Proof.
  destruct (vm_request_fields true 5 17 [1; 2; 3]) as (H1 & H2 & _); [lia|lia|done|].
  by split.
Defined.

Lemma vmexec_runs_witness :
  wp (vmexec (fopen_rb [1; 2; 3]) ToStdout 5 2 true) (fun r w' =>
    r.1 = ERR_UNK /\ w_out w' = [8; 9])
    (world (MkNode (S := script) [[5; 0; 0; 0; 2; 8; 9]] [])).
Proof.
  eapply wp_mono.
  - eapply (vmexec_runs (fopen_rb [1; 2; 3]) ToStdout 5 2 [1; 2; 3] [5; 0; 0; 0; 2; 8; 9] _
      (world (MkNode (S := script) [[5; 0; 0; 0; 2; 8; 9]] []))).
    + done.
    + done.
    + done.
    + by repeat split.
    + apply node_exchange; [reflexivity|dec|done].
    + done.
    + done.
  - intros r w' (H1 & _ & _ & _ & ->). by split.
Defined.

Lemma vmexec_rejects_witness :
  wp (vmexec (fopen_rb [1; 2; 3]) NoOut 64 0 true) (fun r w' =>
    (r.1 = ERR_ARG \/ r.1 = ERR_IO) /\ r.2 = NoOut /\ w_trace w' = [])
    (world (MkNode (S := script) [] [])).
Proof.
  apply (vmexec_rejects (fopen_rb [1; 2; 3]) NoOut 64 0 true [1; 2; 3]
    (world (MkNode (S := script) [] []))); [done|done|done|].
  intros (H & _). lia.
Defined.

Lemma info_spec_witness :
  wp (info ConnHid (MkHidStrings [] [] [] (str "5.4.0")) None) (fun code w' =>
    packets (w_trace w') = [tone] /\ code = ERR_UNK)
    (world (MkNode (S := script) [] [])).
Proof.
  eapply wp_mono.
  - apply (info_spec ConnHid (MkHidStrings [] [] [] (str "5.4.0")) None
      (world (MkNode (S := script) [] []))). exact I.
  - intros code w' [H1 H2]. split; [exact H1|exact H2].
Defined.


Lemma tunnel_hex_roundtrip_witness : line_packet (hex_text [1; 0xAB; 0]) = [1; 0xAB; 0].
Proof. apply tunnel_hex_roundtrip. dec. Defined.

Lemma crc32_matches_ref_witness : crc32 0 (str "123456789") = crc32_ref 0 (str "123456789").
Proof. apply crc32_matches_ref. dec. Defined.

Lemma mkrbf_roundtrip_witness : exists image,
  mkrbf (str "ls") = Some image /\ parse_program image = Some (launcher (str "ls")).
Proof.
  destruct (mkrbf_roundtrip (str "ls")) as (image & H1 & _ & _ & H2); [dec|done|].
  by exists image.
Defined.

(** ** Transfers with the bricks of Toy.v *)

Lemma up_transfers_witness : exists w',
  upload_sent (fopen_rb [1; 2; 3]) (str "a")
    (world (MkNode (MkShelf [] 0 []) [])) w'.
Proof.
  eexists. eapply (up_transfers (fopen_rb [1; 2; 3]) (str "a")
    (world (MkNode (MkShelf [] 0 []) []))); [done|done|done|].
  vm_compute. reflexivity.
Defined.

Lemma dl_delivers_witness :
  wp (dl 3 (str "a") fopen_wb) (fun r w' => r.1 = ERR_UNK /\ f_data r.2 = [7; 8; 9])
    (world (MkNode (MkSource (str "a") [7; 8; 9] []) [])).
Proof.
  eapply wp_mono.
  - apply (dl_delivers 3 (str "a") [7; 8; 9] fopen_wb
      (world (MkNode (MkSource (str "a") [7; 8; 9] []) []))); [done|done|done|done|].
    repeat split; [dec|dec].
  - intros r w' (H1 & H2 & _). by split.
Defined.

Lemma dl_stalls_witness :
  dl 1000 (str "a") fopen_wb (world (MkNode (S := bool) false [])) = Blocked.
Proof.
  apply (dl_stalls 1000 (str "a") fopen_wb (world (MkNode (S := bool) false []))); done.
Defined.

Definition brand_new : World (node flash) := world (MkNode (MkFlash FlIdle []) []).

Lemma install_flashes_witness :
  wp (bootloader_install (fopen_rb [1; 2; 3])) (fun code w' =>
    code = ERR_UNK /\ n_state (w_dev w') = MkFlash FlRunning (image flash_bytes [1; 2; 3]))
    brand_new.
Proof.
  eapply wp_mono.
  - apply (install_flashes (fopen_rb [1; 2; 3]) [1; 2; 3] brand_new);
      [exact eq_refl|exact eq_refl|exact eq_refl].
  - intros code w' [H1 H2]. split; [exact H1|exact H2].
Defined.

Lemma install_reboots_checked_witness :
  wp_ True False (bootloader_install (fopen_rb [1; 2; 3])) (update_guarded [1; 2; 3] brand_new)
    brand_new.
Proof.
  apply (install_reboots_checked (fopen_rb [1; 2; 3]) [1; 2; 3] brand_new);
    [exact eq_refl|exact eq_refl].
Defined.

(** ** Streams and sockets *)

(** Two packets, cut in the middle of the first length field. *)
Definition two_packets : fd_state :=
  MkFd [RdBytes [3]; RdDelay; RdBytes [0; 1; 2; 3; 2; 0; 8; 9]] [] [].

Lemma bt_reads_packets_witness : exists evs',
  bt_reads 2 10 two_packets = ([(5, [3; 0; 1; 2; 3]); (4, [2; 0; 8; 9])], fd_with_in evs' two_packets).
Proof.
  destruct (bt_reads_packets 10 [[3; 0; 1; 2; 3]; [2; 0; 8; 9]] two_packets []) as (evs' & H & _).
  - repeat constructor; try done; try lia; dec.
  - apply (delivers_bytes [3] _ [0; 1; 2; 3; 2; 0; 8; 9]), delivers_delay.
    apply (delivers_bytes [0; 1; 2; 3; 2; 0; 8; 9] [] []), delivers_nil.
  - exists evs'. exact H.
Defined.

Lemma bt_read_overruns_witness :
  ev3_read_timeout [0; 0; 0; 0] 4 (-1)
    (world (MkFd [RdBytes [3; 0; 1; 2; 3]] [] [])) = Undef "read: writes past the end of the buffer".
Proof.
  apply (bt_read_overruns 4 (MkFd [RdBytes [3; 0; 1; 2; 3]] [] []) [3; 0; 1; 2; 3] []
    (world (MkFd [RdBytes [3; 0; 1; 2; 3]] [] [])) [0; 0; 0; 0]).
  - done.
  - done.
  - apply (delivers_bytes [3; 0; 1; 2; 3] [] []), delivers_nil.
  - repeat split; [dec|simpl; lia].
  - done.
Defined.

Definition working_net (ds : list (list Z * addr)) : net :=
  MkNet true true ds true true (-1) 1 0 true (Some (str "Accept:EV340")).
Lemma working_net_works ds : net_works (working_net ds).
Proof. split; try done; [by right|]. exists (str "Accept:EV340"). split; [done|]. by apply Nat.ltb_lt. Qed.

Definition tcp_block : tcp_handle :=
  MkTcp (replicate 15 0) (replicate 48 0) 0 (replicate 96 0) (replicate 8 0).
Lemma tcp_block_ok : tcp_handle_ok tcp_block.
Proof. by repeat split. Qed.

Definition ev3_brick (serial : list Z) : brick :=
  MkBrick serial 5555 (str "EV3") (str "EV3") ([192; 168; 0; 7], 3015).
Definition dotted (a : list Z) : list Z := str "192.168.0.7".

Lemma tcp_finds_brick_witness : exists h' acts,
  tcp_open (fun _ => (0, [])) dotted (Some (str "00a2"))
    0 (working_net [datagram (ev3_brick (str "00a1")); datagram (ev3_brick (str "00a2"))]) tcp_block
  = (TcpOpen h', acts) /\ cstr_of (h_serial h') = Some (str "00a2").
Proof.
  assert (forall s, s = str "00a1" \/ s = str "00a2" -> brick_ok (ev3_brick s)) as Hb.
  { intros s [-> | ->]; split; try dec; try (split; [split; [done|dec]|split; [dec|dec]]). }
  destruct (tcp_finds_brick (fun _ => (0, [])) dotted (str "00a2") [ev3_brick (str "00a1")]
    (ev3_brick (str "00a2")) [] 0
    (working_net [datagram (ev3_brick (str "00a1")); datagram (ev3_brick (str "00a2"))]) tcp_block)
    as (h' & H1 & H2 & _).
  - done.
  - done.
  - apply working_net_works.
  - constructor; [|done]. split; [apply Hb; by left|done].
  - apply Hb. by right.
  - done.
  - apply tcp_block_ok.
  - exists h'. eexists. split; [exact H1|exact H2].
Defined.

Lemma tcp_direct_address_witness : exists h' acts,
  tcp_open (fun _ => (1, [192; 168; 0; 7])) dotted (Some (str "192.168.0.7")) 0 (working_net [])
    tcp_block = (TcpOpen h', acts) /\ cstr_of (h_ip h') = Some (str "192.168.0.7").
Proof.
  destruct (tcp_direct_address (fun _ => (1, [192; 168; 0; 7])) dotted (str "192.168.0.7")
    [192; 168; 0; 7] 0 (working_net []) tcp_block) as (h' & H1 & H2).
  - done.
  - done.
  - apply working_net_works.
  - apply tcp_block_ok.
  - exists h'. eexists. split; [exact H1|]. apply H2; [dec|by apply Nat.ltb_lt].
Defined.

(** ** The bridge *)

Definition bridge_at (st : TCP_CSTATE) (s : fd_state) : bridge :=
  MkBridge TCP_CONNECTED st (Some s) 0 0 0
    (replicate (Z.to_nat 65539) 0) (replicate (Z.to_nat 65540) 0) 0 0 5 0.

Lemma last_replicate n : (0 < n)%nat -> last (replicate n 0) = Some 0.
Proof.
  intros Hn. rewrite last_lookup, length_replicate. apply lookup_replicate_2. lia.
Qed.

Lemma bridge_at_ok st s : st <> TCP_WAIT_ON_ONLY_CHUNK -> rd_ok (bridge_at st s).
Proof.
  intros Hst. split; cbn [bridge_at ReadBuf TcpRead].
  - unfold zlen. rewrite length_replicate. lia.
  - apply Forall_replicate. unfold byte_ok. lia.
  - apply last_replicate. lia.
  - done.
Qed.

Definition split_stream : fd_state := MkFd [RdBytes [3; 0]; RdBytes [7; 8]; RdBytes [9]] [] [].
Lemma split_stream_delivers : delivers (fd_in split_stream) [3; 0; 7; 8; 9] [].
Proof.
  apply (delivers_bytes [3; 0] _ [7; 8; 9]), (delivers_bytes [7; 8] _ [9]).
  apply (delivers_bytes [9] [] []), delivers_nil.
Qed.

Lemma bridge_read_safe_witness : exists r b',
  cNetReadTcp (bridge_at TCP_WAIT_ON_LENGTH split_stream) = Some (r, b') /\ rd_ok b'.
Proof.
  destruct (bridge_read_safe (bridge_at TCP_WAIT_ON_LENGTH split_stream) split_stream)
    as (r & b' & H1 & H2 & _).
  - by apply bridge_at_ok.
  - done.
  - repeat constructor; unfold byte_ok; lia.
  - exists r, b'. split; [exact H1|exact H2].
Defined.

Lemma bridge_reassembles_witness : exists b',
  read_packet 5 (bridge_at TCP_WAIT_ON_LENGTH split_stream) = Some (5, b')
  /\ take 5 (ReadBuf b') = [3; 0; 7; 8; 9].
Proof.
  destruct (bridge_reassembles [3; 0; 7; 8; 9] [] (bridge_at TCP_WAIT_ON_LENGTH split_stream)
    split_stream) as (b' & H1 & H2 & _).
  - repeat split; [dec|simpl; lia].
  - simpl. lia.
  - done.
  - done.
  - apply bridge_at_ok. done.
  - done.
  - apply split_stream_delivers.
  - done.
  - exists b'. split; [exact H1|exact H2].
Defined.

Definition hello : list Z := target_request (str "00a2") (str "EV3").
Lemma bridge_accepts_request_witness : exists b' s',
  cNetReadTcp (bridge_at TCP_WAIT_ON_START (MkFd [RdBytes hello] [] [])) = Some (0, b')
  /\ TcpConnectionSocket b' = Some s' /\ fd_sent s' = ACCEPT.
Proof.
  destruct (bridge_accepts_request (bridge_at TCP_WAIT_ON_START (MkFd [RdBytes hello] [] []))
    (MkFd [RdBytes hello] [] []) (str "00a2") (str "EV3") []) as (b' & s' & H1 & _ & H2 & _ & H3).
  - by apply bridge_at_ok.
  - done.
  - done.
  - done.
  - done.
  - done.
  - dec.
  - by apply Nat.leb_le.
  - exists b', s'. split; [exact H1|]. split; [exact H2|exact H3].
Defined.

Definition draining : bridge :=
  MkBridge TCP_CONNECTED TCP_WAIT_ON_LENGTH (Some (MkFd [] [WrSome 1] [])) 0 0 0 []
    [3; 0; 7; 8; 9] 5 0 5 0.
Lemma bridge_drains_witness :
  wp (backward_n 5 draining) (fun b' w' => write_len b' = 0) (world (MkNode (S := script) [] [])).
Proof.
  eapply wp_mono.
  - apply (bridge_drains 5 draining (MkFd [] [WrSome 1] []) (world (MkNode (S := script) [] [])));
      [done|done| |done|done|done].
    intros Hin%list_elem_of_singleton. discriminate.
  - intros b' w' (_ & H & _). exact H.
Defined.

Definition quiet_net : bridge_net := MkBridgeNet 4 true 1700000000 true 5 true true.


(** Two packets of a client, in four pieces, to a brick that answers the first. *)
Definition client_pieces : list rd_event :=
  [RdBytes [3; 0; 7]; RdDelay; RdBytes [8; 9]; RdBytes [2; 0]; RdBytes [5; 6]].
Definition client_stream : fd_state := MkFd (RdBytes hello :: client_pieces) [WrSome 16; WrSome 2] [].

Lemma client_stream_sends : sends client_pieces [[3; 0; 7; 8; 9]; [2; 0; 5; 6]].
Proof.
  apply (sends_packet _ _ [RdBytes [2; 0]; RdBytes [5; 6]]).
  - repeat split; [dec|simpl; lia].
  - simpl. lia.
  - apply (delivers_bytes [3; 0; 7] _ [8; 9]), delivers_delay.
    apply (delivers_bytes [8; 9] _ []), delivers_nil.
  - done.
  - apply (sends_packet _ _ []).
    + repeat split; [dec|simpl; lia].
    + simpl. lia.
    + apply (delivers_bytes [2; 0] _ [5; 6]), (delivers_bytes [5; 6] _ []), delivers_nil.
    + done.
    + apply sends_end, delivers_nil.
Qed.

Definition idle_bridge : bridge := set_net TCP_NOT_CONNECTED bridge_init.
Lemma idle_bridge_ok : rd_ok idle_bridge /\ buf_ok idle_bridge.
Proof.
  destruct bridge_init_ok as [H1 _ _ H2 H3]. split; [by apply (rd_ok_keep bridge_init)|].
  by split.
Qed.

Lemma bridge_relays_witness :
  wp (bridge_loop (MkTick 1700000000 true (Some client_stream) false false
       :: MkTick 1700000000 true None true true
       :: replicate 9 (MkTick 1700000001 true None true true)) idle_bridge)
    (fun b' w' => packets (w_trace w') = [[0; 3; 0; 7; 8; 9]; [0; 2; 0; 5; 6]])
    (world (MkNode (S := script) [[3; 0; 1; 2; 2]] [])).
Proof.
  eapply wp_mono.
  - apply (bridge_relays _ _ _ _ client_stream (str "00a2") (str "EV3") client_pieces
      [[3; 0; 7; 8; 9]; [2; 0; 5; 6]]).
    + done.
    + apply idle_bridge_ok.
    + apply idle_bridge_ok.
    + done.
    + done.
    + by apply Forall_replicate.
    + done.
    + apply client_stream_sends.
    + dec.
    + by apply Nat.leb_le.
    + by apply Nat.leb_le.
    + intros Hin. apply list_elem_of_In in Hin. simpl in Hin. intuition discriminate.
    + split; [by left|]. constructor; [|constructor]. right. repeat split; [dec|simpl; lia].
  - intros b' w' (dn & todo & new & Hd & Hp & _ & Ht & _).
    rewrite (Ht ltac:(vm_compute; lia)), app_nil_r in Hd. by rewrite Hp, <- Hd.
Defined.

(** ** Archives *)

Definition members : list (path * list Z) :=
  [(str "src/a.txt", str "hello"); (str "b.bin", [1; 2; 3])].
Definition local (p : path) : option FILE :=
  if decide (p = str "src/a.txt") then Some (fopen_rb (str "hello"))
  else if decide (p = str "b.bin") then Some (fopen_rb [1; 2; 3]) else None.
Lemma members_readable : Forall (readable local) members.
Proof. by repeat constructor. Qed.

Lemma uf2_pack_blocks_witness : exists dst,
  uf2_pack local false fopen_wb (str "Projects") (map fst members) = (ERR_UNK, Some dst)
  /\ zlen (f_data dst) = 1024.
Proof.
  destruct (uf2_pack_blocks false local (str "Projects") members) as (dst & H1 & _ & H2).
  - done.
  - apply members_readable.
  - vm_compute. reflexivity.
  - exists dst. split; [exact H1|exact H2].
Defined.

Definition empty_fs : fs := MkFs {[str "out"]} ∅ (fun _ => false).

(** An archive whose member is to go to the parent of the destination. *)
Definition escaping_archive : list Z := mk_block (str "../x") (str "hi") 0 0 1 2.

Lemma unpack_confined_witness : exists f',
  uf2_unpack (fopen_rb escaping_archive) (str "out") true empty_fs = Unpacked ERR_UNK f'
  /\ fs_files f' = {[str "out/./x" := str "hi"]} /\ changes_only_below (str "out") empty_fs f'.
Proof.
  destruct (unpack_confined (fopen_rb escaping_archive) (str "out") true empty_fs)
    as (ret & f' & H1 & H2); [apply (bool_decide_unpack _); by vm_compute|by apply Nat.ltb_lt|].
  assert (match uf2_unpack (fopen_rb escaping_archive) (str "out") true empty_fs with
    | Unpacked r g => r = ERR_UNK /\ fs_files g = {[str "out/./x" := str "hi"]}
    | _ => False end) as H3 by (vm_compute; done).
  rewrite H1 in H3. destruct H3 as [-> H3]. exists f'. split; [exact H1|]. by split.
Defined.

Lemma empty_fs_ready : ready (str "out" ++ [slash] ++ str "Projects") empty_fs.
Proof.
  split; cbn [empty_fs fs_denied fs_files fs_dirs].
  - done.
  - intros k _. apply lookup_empty.
  - intros base Hin%elem_of_singleton. apply (f_equal length) in Hin. revert Hin.
    rewrite length_app. simpl. lia.
Qed.

Lemma uf2_roundtrip_witness : exists dst f',
  uf2_pack local false fopen_wb (str "Projects") (map fst members) = (ERR_UNK, Some dst)
  /\ uf2_unpack (fopen_rb (f_data dst)) (str "out") true empty_fs = Unpacked ERR_UNK f'
  /\ fs_files f' !! str "out/Projects/a.txt" = Some (str "hello").
Proof.
  destruct (uf2_roundtrip (str "out") (str "Projects")) with (BACKSLASH := false)
    (local_file := local) (members := members) (f := empty_fs) as (dst & f' & H1 & H2 & H3 & _).
  - split; dec.
  - apply members_readable.
  - repeat constructor; cbn; dec.
  - dec.
  - vm_compute. reflexivity.
  - apply empty_fs_ready.
  - exists dst, f'. split; [exact H1|]. split; [exact H2|].
    apply (H3 (str "src/a.txt", str "hello")). by left.
Defined.

(** ** The command line *)

Lemma parse_command_line_witness :
  parse_args (no_switches, no_params)
    (command_line [FTcp false (Some (str "192.168.0.7")); FTimeout false 30] true [str "ls"])
  = Parsed (foldl apply_flag (no_switches, no_params)
      [FTcp false (Some (str "192.168.0.7")); FTimeout false 30]) [str "ls"].
Proof.
  apply (parse_command_line [FTcp false (Some (str "192.168.0.7")); FTimeout false 30] true
    [str "ls"]).
  - repeat constructor; dec.
  - done.
Defined.

(** A machine with one device on USB. *)
Definition machine {H} (usb : option H) : host H :=
  MkHost H (fun _ => usb) (MkHidStrings [] [] [] (str "5.4.0")) (fun _ _ => false)
    (MkFd [] [] []) (working_net [datagram (ev3_brick (str "00a2"))]) (fun _ => (0, [])) dotted
    tcp_block (MkFd [] [] []) (fun _ => None) (str "Success") Some [] true quiet_net [] 100
    (str "1.0") (str "HIDAPI/hidraw") (str "Linux").
(** No terminal and no socket. *)
Definition calm : sys := MkSys None (MkTty ∅ ∅ 3 []) [].
Definition disk : fs := MkFs ∅ {[str "a.rbf" := [1; 2; 3]]} (fun _ => false).

Lemma select_first_witness :
  wp (select_transport (machine (H := node shelf) None) (no_switches, no_params)) (fun ok w' =>
    let '(tried, (l, s')) :=
      first_found (probes (machine (H := node shelf) None) (no_switches, no_params)) calm in
    ok = bool_decide (is_Some l) /\ w_dev w' = MkProc l tried 0 disk s') (world (start disk calm)).
Proof.
  apply (select_first (machine (H := node shelf) None) (no_switches, no_params) disk calm
    (world (start disk calm))).
  - vm_compute. split; by eexists.
  - done.
Defined.

Definition shelf_machine : host (node shelf) := machine (Some (MkNode (MkShelf [] 0 []) [])).

Lemma main_up_witness :
  wp (main shelf_machine (str "ev3duder") (str "--usb" :: [str "up"; str "a.rbf"; str "../a.rbf"]))
    (fun code w' => code = ERR_UNK /\ exists h' fd,
       w_dev w' = MkProc (Some (HidLink h')) [TryHid ProductID] 1 disk (usb_sys calm)
       /\ receiving (str "../a.rbf") 3 fd [1; 2; 3] h') (world (start disk calm)).
Proof.
  eapply wp_mono.
  - apply (main_up shelf_machine (str "ev3duder") [FUsb false None] (str "a.rbf") (str "../a.rbf")
      [1; 2; 3] (MkNode (MkShelf [] 0 []) []) disk calm (world (start disk calm)));
      [|done|done|done|exact I|done|done|done|dec|done].
    by repeat constructor.
  - intros code w' H. exact H.
Defined.

Lemma main_exec_witness : exists image (w1 w2 : World (node shelf)) (w' : World (proc (node shelf))),
  parse_program image = Some (launcher (str "ls" ++ EXEC_SUFFIX))
  /\ upload_sent (fopen_rb image) ExecName w1 w2
  /\ packets (w_trace w') = packets (w_trace w2) ++ [run_request ExecName]
  /\ p_closed (w_dev w') = 1%nat.
Proof.
  edestruct (main_exec shelf_machine (str "ev3duder") [] (str "ls")
    (MkNode (MkShelf [] 0 []) []) disk calm (world (start disk calm)))
    as (image & w1 & w2 & H1 & _ & _ & H2 & H3 & H4);
    [constructor|done|done|done|done|dec|done|vm_compute; reflexivity|].
  exists image, w1, w2. eexists. split; [exact H1|]. split; [exact H2|]. split; [exact H3|exact H4].
Defined.

Definition denied_reply : list Z := [5; 0; 0; 0; 5; 0x9C; 6].
Definition denying : host (node script) := machine (Some (MkNode [denied_reply] [])).

Lemma main_rm_witness :
  wp (main denying (str "ev3duder") [str "rm"; str "/etc"]) (fun code w' =>
    code = ERR_VM /\ w_out w' = str "ILLEGAL_PATH (`DELETE_FILE` was denied.)" ++ [10])
    (world (start disk calm)).
Proof.
  eapply wp_mono.
  - eapply (main_rm denying (str "ev3duder") [] (str "/etc") (MkNode (S := script) [denied_reply] [])
      disk calm (world (start disk calm)));
      [constructor|done|done|done|done|reflexivity|reflexivity|by vm_compute|dec|].
    intros _. split; [done|by vm_compute].
  - intros code w' (-> & _ & _ & _ & H). split; [done|].
    destruct (H eq_refl) as (err & He & ->). by injection He as <-.
Defined.

Lemma main_closes_witness : exists w' : World (proc (node shelf)),
  closed_once (w_dev w') /\ p_closed (w_dev w') = 1%nat.
Proof.
  eexists. split.
  - eapply (main_closes shelf_machine (str "ev3duder") [str "up"; str "a.rbf"; str "a"] disk calm
      (world (start disk calm))); [done|vm_compute; reflexivity].
  - reflexivity.
Defined.

Lemma main_offline_witness : exists w' : World (proc (node shelf)),
  w_trace w' = [] /\ p_attempts (w_dev w') = []
  /\ is_Some (fs_files (p_fs (w_dev w')) !! str "b.rbf").
Proof.
  edestruct (main_offline shelf_machine (str "ev3duder") [] (str "mkrbf") [str "ls"; str "b.rbf"]
    disk calm (world (start disk calm))) as (H1 & _ & H2 & _);
    [constructor|done|done|done|vm_compute; reflexivity|].
  eexists. split; [exact H1|]. split; [exact H2|]. vm_compute. by eexists.
Defined.
