(* ===== verification/StreamWitnesses.v ===== *)
(** * StreamWitnesses: runs over a serial device and over TCP at concrete inputs *)

From S2P Require Import Prelude Packets IO Logic Stdio Cstr Simple Up Dl Ls Crc32 Install Mkrbf.
From S2P Require Import Vm BtUnix Stream Tcp Info Tunnel Uf2 Bridge Cli Sim Main MainSafe MainSelect MainStream.
From S2P Require Import Toy Witnesses.

(** A machine without USB devices, whose files can all be opened. *)
Definition stream_machine (serial : fd_state) (bricks : list brick) (socket : fd_state)
    : host (node shelf) :=
  MkHost _ (fun _ => None) (MkHidStrings [] [] [] (str "5.4.0")) (fun _ _ => true)
    serial (working_net (map datagram bricks)) (fun _ => (0, [])) dotted
    tcp_block socket (fun _ => None) (str "Input/output error") Some [] true quiet_net [] 100
    (str "1.0") (str "HIDAPI/hidraw") (str "Linux").

Definition cooked : termios :=
  MkTermios 0x500 0x5 0xBF 0x8A3B (replicate 32 0) [0; 13; 13].
Definition rfcomm : list Z := str "/dev/rfcomm0".
Definition one_tty : sys := MkSys None (MkTty {[rfcomm := cooked]} ∅ 3 []) [].
Lemma one_tty_ok : tty_ok (s_tty one_tty).
Proof. split; [done|]. apply map_Forall_empty. Qed.

(** Two acknowledgements, cut in the middle. *)
Definition acks : fd_state := MkFd [RdBytes (stored ++ [6; 0; 0]); RdBytes [0; 3; 0x92; 0; 5]] [] [].
Lemma acks_come : acks_left 5 2 [] acks.
Proof.
  exists [stored; stored]. split; [done|]. split.
  - assert (upload_ack 5 stored) by (split; [split; [apply stored_ok|split; [dec|done]]|by split; [|split; [dec|]]]).
    by repeat constructor.
  - split; [split; apply not_elem_of_nil || (repeat (apply not_elem_of_cons; split; [done|]); apply not_elem_of_nil)|].
    apply (delivers_bytes (stored ++ [6; 0; 0]) _ [0; 3; 0x92; 0; 5]).
    apply (delivers_bytes [0; 3; 0x92; 0; 5] [] []), delivers_nil.
Qed.

Lemma main_up_serial_witness :
  wp (main (stream_machine acks [] acks) (str "ev3duder")
        [str "--serial=/dev/rfcomm0"; str "up"; str "a.rbf"; str "../a.rbf"])
    (fun code w' => code = ERR_UNK /\ released (s_tty one_tty) (s_tty (p_sys (w_dev w'))))
    (world (start disk one_tty)).
Proof.
  eapply wp_mono.
  - eapply (main_up_serial (stream_machine acks [] acks) (str "ev3duder")
      [FSerial false (Some (rfcomm, None))] (str "a.rbf") (str "../a.rbf") [1; 2; 3] disk one_tty
      _ _ _ 5 [] (world (start disk one_tty)));
      [|done|done|apply one_tty_ok|done|vm_compute; reflexivity|done|done|done|dec|done|apply acks_come].
    constructor; [|done]. split; [|done]. split; [done|dec].
  - intros code w' (H1 & _ & _ & _ & _ & H2). by split.
Defined.

(** A file in two pieces. *)
Definition two_replies : fd_state :=
  MkFd [RdBytes (begin_upload_reply 3 [7; 8]); RdBytes (take 4 (continue_upload_reply [9]));
        RdBytes (drop 4 (continue_upload_reply [9]))] [] [].

Lemma two_replies_serve :
  serves [7; 8; 9] (begin_upload_reply 3 [7; 8]) [7; 8] [continue_upload_reply [9]] [[9]].
Proof.
  split; [|split; [|done]].
  - assert (bytes_ok [7; 8]) as Hb by dec.
    destruct (begin_upload_reply_ok 3 [7; 8]) as (H1 & H2 & H3 & H4 & H5 & _); [done..|].
    split; [split; [exact H2|split; [dec|done]]|]. split; [exact H1|]. by repeat split.
  - constructor; [|done]. assert (bytes_ok [9]) as Hb by dec.
    destruct (continue_upload_reply_ok [9]) as (H1 & H2 & H3 & H4 & H5); [done..|].
    split; [split; [exact H2|split; [dec|done]]|]. split; [exact H1|]. by repeat split.
Qed.

Lemma ev3_brick_ok s : s = str "00a1" \/ s = str "00a2" -> brick_ok (ev3_brick s).
Proof. intros [-> | ->]; split; try dec; try (split; [split; [done|dec]|split; [dec|dec]]). Qed.

Lemma main_dl_tcp_witness :
  wp (main (stream_machine acks [ev3_brick (str "00a1"); ev3_brick (str "00a2")] two_replies)
        (str "ev3duder") [str "--tcp=00a2"; str "dl"; str "/x"; str "b.rbf"])
    (fun code w' => code = ERR_UNK
       /\ fs_files (p_fs (w_dev w')) = <[str "b.rbf" := [7; 8; 9]]> (fs_files disk)
       /\ live (s_net (p_sys (w_dev w'))) [] = Some []) (world (start disk calm)).
Proof.
  eapply wp_mono.
  - eapply (main_dl_tcp (stream_machine acks [ev3_brick (str "00a1"); ev3_brick (str "00a2")] two_replies)
      (str "ev3duder") [FTcp false (Some (str "00a2"))] (str "/x") (str "b.rbf") [7; 8; 9]
      (str "00a2") [ev3_brick (str "00a1")] (ev3_brick (str "00a2")) [] disk calm
      (begin_upload_reply 3 [7; 8]) [7; 8] [continue_upload_reply [9]] [[9]] []
      (world (start disk calm))); try done.
    + constructor; [|done]. split; [done|dec].
    + apply working_net_works.
    + constructor; [|done]. split; [apply ev3_brick_ok; by left|done].
    + apply ev3_brick_ok. by right.
    + cbn. lia.
    + apply two_replies_serve.
    + split; apply not_elem_of_nil || (repeat (apply not_elem_of_cons; split; [done|]); apply not_elem_of_nil).
    + apply (delivers_bytes (begin_upload_reply 3 [7; 8]) _ (concat [continue_upload_reply [9]])).
      apply (delivers_bytes (take 4 (continue_upload_reply [9])) _ (drop 4 (continue_upload_reply [9]))).
      apply (delivers_bytes (drop 4 (continue_upload_reply [9])) [] []), delivers_nil.
  - intros code w' (H1 & H2 & _ & _ & _ & _ & H3). by split.
Defined.

Lemma main_releases_witness : exists w',
  main (stream_machine acks [] acks) (str "ev3duder")
    [str "--serial=/dev/rfcomm0"; str "up"; str "a.rbf"; str "../a.rbf"] (world (start disk one_tty))
  = Done ERR_UNK w' /\ tty_modes (s_tty (p_sys (w_dev w'))) = tty_modes (s_tty one_tty).
Proof.
  eexists. split; [vm_compute; reflexivity|].
  eapply (main_releases (stream_machine acks [] acks) (str "ev3duder")
    [str "--serial=/dev/rfcomm0"; str "up"; str "a.rbf"; str "../a.rbf"] disk one_tty
    (world (start disk one_tty)));
    [vm_compute; reflexivity|done| |vm_compute; reflexivity|left; reflexivity].
  split; [done|]. split; [apply one_tty_ok|]. by split.
Defined.

(** The bridge is the exception: when it cannot listen, its two sockets stay open. *)
Definition deaf_machine : host (node shelf) :=
  MkHost _ (fun _ => None) (MkHidStrings [] [] [] (str "5.4.0")) (fun _ _ => true)
    acks (working_net []) (fun _ => (0, [])) dotted
    tcp_block (MkFd [] [] []) (fun _ => None) (str "Input/output error") Some [] true
    (MkBridgeNet 4 true 1700000000 true 5 true false) [] 100
    (str "1.0") (str "HIDAPI/hidraw") (str "Linux").

Example bridge_leaves_sockets : exists w',
  main deaf_machine (str "ev3duder") [str "--serial=/dev/rfcomm0"; str "bridge"]
    (world (start disk one_tty)) = Done ERR_IO w'
  /\ p_closed (w_dev w') = 1%nat
  /\ live (s_net (p_sys (w_dev w'))) [] = Some [Listener; Beacons].
Proof. eexists. split; [vm_compute; reflexivity|]. by vm_compute. Qed.

Lemma main_exit_leaves_raw_witness :
  wp (main (stream_machine acks [] acks) (str "ev3duder")
        [str "--serial=/dev/rfcomm0"; str "up"; str "b.rbf"; str "../b.rbf"])
    (fun code w' => code = ERR_IO
       /\ tty_modes (s_tty (p_sys (w_dev w'))) = {[rfcomm := raw_mode cooked]})
    (world (start disk one_tty)).
Proof.
  eapply wp_mono.
  - eapply (main_exit_leaves_raw (stream_machine acks [] acks) (str "ev3duder")
      [FSerial false (Some (rfcomm, None))] (str "b.rbf") (str "../b.rbf") disk one_tty
      _ _ _ (world (start disk one_tty)));
      [|done|done|apply one_tty_ok|done|vm_compute; reflexivity|done].
    constructor; [|done]. split; [|done]. split; [done|dec].
  - intros code w' (-> & _ & m & Hm & ->). split; [done|].
    vm_compute in Hm. injection Hm as <-. reflexivity.
Defined.

Lemma report_serial_undef_witness : exists why,
  report (stream_machine acks [] acks) ERR_COMM
    (world (MkProc (Some (BtLink acks)) [] 0 disk calm)) = Undef why.
Proof.
  eapply (report_serial_undef (stream_machine acks [] acks) acks [] 0 disk calm); [done|done|dec].
Defined.
