(* ===== verification/BrickWitnesses.v ===== *)
(** * BrickWitnesses: the theorems about src/util/cat at concrete inputs *)

From Stdlib Require Import String Ascii.
From S2P Require Import Prelude Cstr Output OutputSpec Sound SoundSpec Button.
From S2P Require Import Timer Lcd LcdFrame LcdImage LcdDraw LcdPaint LcdCat LcdType.
From S2P Require Import LcdWindow.
From S2P Require Import LcdText.
From S2P Require Import LcdFonts.
From S2P Require Import LcdPrint.
From S2P Require Import LcdShow.

Definition blank : list Z := replicate 2944 0.
Lemma blank_ok : image_ok blank.
Proof. split; [by apply Forall_replicate|by vm_compute]. Qed.

(** A display that has been opened. *)
Definition open_display : lcd :=
  MkLcd false 3 (Some (replicate 7680 0)) blank true FONTTYPE_NORMAL true (replicate 7680 0).
Lemma open_display_ready : display_ready open_display.
Proof. split; [done|]. split; [done|apply blank_ok]. Qed.

Definition blank_font (font : Z) : list Z := replicate 864 0.

Definition noon : timeval := MkTime 1700000000 250000.
Definition later : timeval := MkTime 1700000002 750000.

Lemma timers_measure_witness :
  let t := TimerInit (MkTimers [] [] [] (fun _ => @nil callback) 0) noon in
  FastTimer (SetTimer t 1 7 noon) 1 later = 257
  /\ TimerMS (SetTimerMS t 1 7 noon) 1 later = 2507.
Proof.
  intros t.
  destruct (timers_measure t 1 7 noon later) as (-> & -> & _); [done|lia|].
  split; by vm_compute.
Defined.

Lemma callbacks_on_schedule_witness :
  exists t, SetTimerCallback (TimerInit (MkTimers [] [] [] (fun _ => @nil callback) 0) noon)
              ti250ms (Some CbLcdUpdateHandler) = Some t
    /\ count CbLcdUpdateHandler (ticks logged 26 t []).2 = 2.
Proof.
  eexists. split; [reflexivity|].
  rewrite (callbacks_on_schedule 26 _ CbLcdUpdateHandler); by vm_compute.
Defined.

Lemma frame_buffer_roundtrip_witness :
  exists fb q, lcdToFrameBuffer blank = Some fb /\ frameBufferToLcd fb = Some q
    /\ dLcdReadPixel q 5 7 = dLcdReadPixel blank 5 7.
Proof.
  destruct (frame_buffer_roundtrip blank blank_ok) as (fb & q & H1 & H2 & _ & H3).
  exists fb, q. split; [exact H1|]. split; [exact H2|]. by apply H3.
Defined.

Lemma display_saved_witness : exists bytes rows,
  LcdWriteDisplayToFile (fun _ => true) (str "/media/card/shot") ifXBM open_display (MkSaved ∅ [])
    = Some (MkSaved {[str "/media/card/shot.xbm" := bytes]} [])
  /\ read_image ifXBM bytes = Some (178, 128, rows).
Proof.
  destruct (display_saved (fun _ => true) ifXBM (str "/media/card/shot")
    (str "/media/card/shot.xbm") open_display (MkSaved ∅ [])) as (bytes & rows & H1 & H2 & _);
    [reflexivity|reflexivity|apply blank_ok|discriminate|discriminate| |reflexivity|reflexivity|].
  - intros _. split; [by repeat constructor|done].
  - exists bytes, rows. split; [exact H1|exact H2].
Defined.

Lemma frame_buffer_saved_witness : exists s' bytes rows,
  LcdWriteFrameBufferToFile (fun _ => true) (str "/media/card/shot") ifXBM open_display (MkSaved ∅ [])
    = Some (s', MkSaved {[str "/media/card/shot.xbm" := bytes]} [])
  /\ read_image ifXBM bytes = Some (178, 128, rows).
Proof.
  destruct (frame_buffer_saved (fun _ => true) ifXBM (str "/media/card/shot")
    (str "/media/card/shot.xbm") open_display blank (replicate 7680 0)
    (MkSaved ∅ [])) as (s' & bytes & rows & H1 & H2 & _);
    [reflexivity|reflexivity|apply blank_ok| |reflexivity|discriminate|discriminate| |reflexivity|reflexivity|].
  - vm_compute. reflexivity.
  - intros _. split; [by repeat constructor|done].
  - exists s', bytes, rows. split; [exact H1|exact H2].
Defined.

Lemma line_draws_nearest_witness :
  exists s', CmdDrawLine 0 0 10 4 DRAW_PIXELS_SET open_display = Some s'
    /\ pixel (displayBuf s') 5 125 = true /\ pixel (displayBuf s') 5 126 = false.
Proof.
  destruct (line_draws_nearest DRAW_PIXELS_SET 0 0 10 4 open_display open_display_ready)
    as (s' & Hs & [[_ Hp] _]); [lia..|].
  exists s'. split; [exact Hs|]. split; rewrite Hp by lia; by vm_compute.
Defined.

Lemma filled_rect_draws_witness :
  exists s', CmdDrawRect (-5) 10 20 3 DRAW_PIXELS_INVERT DRAW_SHAPE_FILLED open_display = Some s'
    /\ pixel (displayBuf s') 15 115 = true /\ pixel (displayBuf s') 16 115 = false.
Proof.
  destruct (filled_rect_draws DRAW_PIXELS_INVERT (-5) 10 20 3 open_display open_display_ready)
    as (s' & Hs & [[_ Hp] _]); [lia..|].
  exists s'. split; [exact Hs|]. split; rewrite Hp by lia; by vm_compute.
Defined.

Lemma ellipse_terminates_witness :
  exists s', CmdDrawEllipse 170 (-3) 40 25 DRAW_PIXELS_SET DRAW_SHAPE_FILLED open_display = Some s'
    /\ display_ready s'.
Proof.
  apply (ellipse_terminates 170 (-3) 40 25 DRAW_PIXELS_SET DRAW_SHAPE_FILLED);
    [lia..|apply open_display_ready].
Defined.

Lemma printf_in_bounds_witness :
  exists cur' s', LcdPrintf blank_font 1 (str "hello") (cursor0, open_display) = Some (5, (cur', s'))
    /\ display_ready s'.
Proof.
  destruct (printf_in_bounds blank_font ltac:(done) 1 (str "hello") 0 cursor0 open_display)
    as (cur' & s' & H & _ & Hs & _);
    [apply open_display_ready|done|apply (bool_decide_unpack _); vm_compute; exact I|done|by vm_compute|].
  exists cur', s'. split; [exact H|exact Hs].
Defined.

Lemma cat_shows_display_witness :
  let st := MkProcess cursor0 lcd0 (MkTimers [] [] [] (fun _ => @nil callback) 0) in
  exists st1 st2 st3,
    cat_start blank_font 3 (Some (replicate 7680 0)) noon st = Some st1
    /\ run_events blank_font [Tick; Line (str "hi"); Tick] st1 = Some st2
    /\ run_events blank_font (replicate 25 Tick) st2 = Some st3
    /\ shows (p_lcd st3).
Proof.
  intros st.
  destruct (cat_shows_display blank_font ltac:(done) 3 (replicate 7680 0) noon
    [Tick; Line (str "hi"); Tick] st) as (st1 & st2 & st3 & H1 & H2 & H3 & _ & H4).
  - lia.
  - done.
  - apply blank_ok.
  - done.
  - done.
  - by repeat apply Forall_cons_2.
  - by vm_compute.
  - by vm_compute.
  - exists st1, st2, st3. split; [exact H1|]. split; [exact H2|]. split; [exact H3|exact H4].
Defined.

Lemma black_frame : frame_ok (replicate 7680 0).
Proof. split; [by apply Forall_replicate|by vm_compute]. Qed.
Lemma open_display_typed : lcd_typed open_display.
Proof.
  split; [apply blank_ok|exact black_frame| |done].
  intros fb Hfb. apply (f_equal (fun o => default [] o)) in Hfb. unfold open_display in Hfb.
  cbn -[replicate] in Hfb. subst fb. exact black_frame.
Qed.

Lemma lcd_calls_typed_witness :
  let st := MkProcess cursor0 open_display (MkTimers [] [] [] (fun _ => @nil callback) 0) in
  let calls := [CallSelectFont 7; CallFillWindow 5 10 0; CallLine 3 4 170 90 0; CallUpdateHandler;
    CallScroll (-20); CallCircle 400 3 150 32; CallGetFrameBuffer] in
  exists st', run_calls blank_font blank_font calls st = Some st' /\ lcd_typed (p_lcd st').
Proof.
  intros st calls.
  assert (Forall maps_frame calls) as Hm by (repeat apply Forall_cons_2; done).
  assert (Forall fits calls) as Hf by (repeat apply Forall_cons_2; cbn; lia || done).
  destruct (lcd_calls_typed blank_font blank_font calls st open_display_typed Hm) as [H1 H2].
  destruct (H2 open_display_ready Hf) as (st' & Hr & _).
  exists st'. split; [exact Hr|exact (H1 st' Hr)].
Defined.

(** ** Motors, sound and buttons *)

(** The driver takes every command; [pads] is what the stack leaves. *)
Definition takes_all (_ : list pwm_event) (_ : list Z) : Z := 0.
Definition pads (_ : nat) : Z := 0xAA.
Definition resting : MOTORDATA := MkMotor 0 0 0.
Definition opened : output :=
  MkOutput (replicate 4 0) (replicate 4 0) 5 6 (replicate 4 resting) (replicate 4 resting) Shared [].

Lemma calls_command_driver_witness :
  commanded takes_all (CmdRamp opOutputStepSpeed 5 50 10 (-20) 30 true) 5 (Some 3) opened
    (perform takes_all pads (StepSpeed 5 50 10 (-20) 30 true 3) opened)
  /\ perform takes_all pads (StepSync 7 50 0 90 false 3) opened = (false, opened).
Proof.
  split.
  - apply (calls_command_driver takes_all pads (StepSpeed 5 50 10 (-20) 30 true 3) opened);
      [done|unfold args_ok, int32; lia].
  - apply (calls_command_driver takes_all pads (StepSync 7 50 0 90 false 3) opened);
      [done|unfold args_ok, int32; lia].
Defined.

(** Output A is busy at the first two polls. *)
Definition busy_at (i : nat) : Z := match i with 0%nat | 1%nat => 3 | _ => 2 end.
Fixpoint polls (log : list pwm_event) : nat :=
  match log with Polled :: log => S (polls log) | _ => 0%nat end.
Definition reporting (log : list pwm_event) : Z * list Z :=
  let text := busy_text 15 (busy_at (polls log)) in (zlen text, text).

Lemma rotation_waits_witness :
  exists s' bytes r,
    RotateMotorEx takes_all reporting pads (replicate 20 0) 10 OUT_A 75 360 0 true true opened
      = Some (true, s')
    /\ decode bytes = Some (CmdRamp opOutputStepSpeed 1 75 0 360 0 true)
    /\ pwm_log s' = [Polled; Polled; Polled; Wrote bytes r].
Proof.
  apply (rotation_waits takes_all reporting pads (replicate 20 0) 10 2 busy_at OUT_A 75 360 0 true true
    opened); [done|done|lia|lia| |lia| |done].
  - intros i Hi. destruct i as [|[|[|]]]; [| | |lia]; (split; [unfold busy_at; lia|vm_compute; reflexivity]).
  - intros i Hi. destruct i as [|[|]]; [done|done|lia].
Defined.

Lemma adpcm_decodes_witness :
  exists s', soundGetAdPcmValue 0xB (soundInitAdPcm sound0) = (84, s') /\ adpcm_ok s'.
Proof.
  pose proof (adpcm_decodes 0xB (soundInitAdPcm sound0)) as H.
  destruct (soundGetAdPcmValue 0xB (soundInitAdPcm sound0)) as [v s'] eqn:E.
  destruct H as (Hok & Hv & _ & Hval); [split; by vm_compute|].
  exists s'. split; [|exact Hok]. f_equal. rewrite Hval by by vm_compute. by vm_compute.
Defined.

(** A device that refuses every message once, and a file of 300 raw samples. *)
Definition hesitating (log : list sound_event) (bytes : list Z) : Z :=
  match log with Slept _ :: _ => zlen bytes | _ => 0 end.
Definition beep : list Z := rso SOUND_FILE_FORMAT_RAW_SOUND 300 8000 0 (replicate 300 128).
Definition speaker : sound := set_psound SharedBusy sound0.

Lemma hesitating_ok log bytes : exists k, (k <= 1)%nat
  /\ (forall j, (j < k)%nat -> hesitating (rev (refusals j bytes) ++ log) bytes = 0)
  /\ hesitating (rev (refusals k bytes) ++ log) bytes = zlen bytes.
Proof.
  assert (forall e log, (forall ms, e <> Slept ms) -> hesitating (e :: log) bytes = 0) as H0
    by (intros [] log' He; [done|by destruct (He ms)|done..]).
  destruct log as [|[b r|ms|f|] log].
  2, 4, 5: exists 1%nat; split; [done|]; split; [|done]; intros [|j] Hj; [by apply H0|lia].
  - exists 1%nat. split; [done|]. split; [|done]. intros [|j] Hj; [done|lia].
  - exists 0%nat. split; [lia|]. split; [intros; lia|done].
Qed.


(** The up button goes down at the second look, after a bounce. *)
Definition none_down : list Z := [0; 0; 0; 0; 0; 0].
Definition up_down : list Z := [1; 0; 0; 0; 0; 0].

Lemma first_press_reported_witness :
  exists s', ButtonWaitForAnyPress 500 (MkButton SharedButton 4 0 false 0 0 [])
      (MkInput [none_down; none_down; none_down; up_down; up_down; up_down] [1000; 1000; 1050; 1100])
      = Some (1, s', MkInput [] [1100])
    /\ curButtonsE s' = 1.
Proof.
  apply (first_press_reported 500 (MkButton SharedButton 4 0 false 0 0 [])
    (MkInput [none_down; none_down; none_down; up_down; up_down; up_down] [1000; 1000; 1050; 1100])
    1500 (MkInput [none_down; none_down; none_down; up_down; up_down; up_down] [1000; 1050; 1100])
    [0] 1 [1000; 1050] [1100] []); try done.
  - repeat constructor; lia.
  - eapply looks_cons; [reflexivity|]. eapply looks_cons; [reflexivity|constructor].
Defined.

(** ** Text and bitmaps *)

(** The letters EV in two fonts, as the program draws them. *)
Definition rendered (Font : Z) (text : list Z) (w h : nat) : list string :=
  match font_info Font with
  | None => []
  | Some f => map (fun y => string_of_list_ascii (map (fun x =>
      if default false (text_image pFontBits Font f 1 0 0 text (Z.of_nat x) (Z.of_nat y))
      then "#"%char else "."%char) (seq 0 w))) (seq 0 h)
  end.

Example ev_normal : rendered FONTTYPE_NORMAL (str "EV") 16 9 =
  ["..######.#.....#"; "..#......#.....#"; "..#......#.....#"; "..#.......#...#."; "..######..#...#.";
   "..#........#.#.."; "..#........#.#.."; "..#.........#..."; "..######....#..."]%string.
Proof. vm_compute. reflexivity. Qed.

Example ev_tiny : rendered FONTTYPE_TINY (str "EV") 10 7 =
  ["####.#..#."; "#....#..#."; "#....#..#."; "####..#.#."; "#.....#.#."; "#......#.."; "####...#.."]%string.
Proof. vm_compute. reflexivity. Qed.

(** At column 3 the characters are not byte aligned, at column 8 they are. *)
Lemma text_draws_witness : exists q q',
  LcdText pFontBits 1 3 10 (str "EV3") open_display
    = Some (true, set_dirty true (set_display q open_display))
  /\ LcdText pFontBits 1 8 10 (str "EV3") open_display
    = Some (true, set_dirty true (set_display q' open_display))
  /\ pixel q 5 10 = true /\ pixel q' 10 10 = true.
Proof.
  destruct (text_draws pFontBits fonts_complete 1 3 10 (str "EV3") (MkFont 9 8 16 0x20 0x7F)
    open_display open_display_ready) as (q & H1 & _ & H2); [done|lia|lia|].
  destruct (text_draws pFontBits fonts_complete 1 8 10 (str "EV3") (MkFont 9 8 16 0x20 0x7F)
    open_display open_display_ready) as (q' & H1' & _ & H2'); [done|lia|lia|].
  exists q, q'. split; [exact H1|]. split; [exact H1'|].
  rewrite H2, H2' by lia. split; vm_compute; reflexivity.
Defined.

(** A bitmap of 5 x 2 pixels that hangs out of the display to the left. *)
Lemma picture_draws_witness : exists q,
  LcdPicture 1 (-2) 4 (Some [5; 2; 0x1D; 0x17]) open_display
    = Some (true, set_dirty true (set_display q open_display))
  /\ pixel q 0 4 = true /\ pixel q 1 5 = false.
Proof.
  destruct (picture_draws 1 (-2) 4 5 2 [0x1D; 0x17] open_display open_display_ready)
    as (q & H1 & _ & H2); try lia.
  { dec. }
  { vm_compute. discriminate. }
  exists q. split; [exact H1|]. rewrite !H2 by lia. split; vm_compute; reflexivity.
Defined.

Lemma icon_draws_witness : exists q,
  LcdIcon dLcdGetIconBits 1 16 20 4 1 open_display
    = Some (true, set_dirty true (set_display q open_display))
  /\ pixel q 22 22 = true.
Proof.
  destruct (icon_draws dLcdGetIconBits 1 16 20 4 (MkIcon 36 12 8) 1 open_display open_display_ready
    icons_complete) as (q & H1 & _ & H2);
    [done|by vm_compute|lia|by vm_compute|lia|by vm_compute|].
  exists q. split; [exact H1|]. rewrite H2 by lia. vm_compute. reflexivity.
Defined.

Lemma bitmap_above_display_witness :
  dLcdDrawBitmap blank 1 0 (-1) (Some [8; 1; 0xFF]) = None.
Proof. apply (bitmap_above_display 1 (-1) 0xFF blank blank_ok); [unfold byte_ok|]; lia. Defined.

Lemma printf_prints_witness : exists cur q,
  LcdPrintf pFontBits 1 (str "EV3") (cursor0, open_display)
    = Some (3, (cur, set_dirty true (set_display q open_display)))
  /\ pixel q 2 0 = true /\ pixel q 9 0 = true /\ pixel q 0 0 = false.
Proof.
  destruct (printf_prints pFontBits fonts_complete 1 0 0 (str "EV3") cursor0 open_display
    open_display_ready) as (cur & q & H1 & _ & _ & H2);
    [done|lia|lia|by left|vm_compute; discriminate|dec|].
  exists cur, q. split; [exact H1|]. rewrite !H2 by lia. split_and!; vm_compute; reflexivity.
Defined.

(** Two lines behind the greeting, the second in two pieces. *)
Definition hello_lines : list (list Z) := [str ":):)hi"; str "EV3"].

Lemma hello_ok : Forall line_ok hello_lines.
Proof. repeat constructor. Qed.
Lemma hello_fits : page_fits 1384 0 0 hello_lines.
Proof. vm_compute. repeat split; discriminate. Qed.

Example hello_shown :
  map (fun y => string_of_list_ascii (map (fun x =>
      if default false (page_image pFontBits 1 0 0 hello_lines (Z.of_nat x) (Z.of_nat y))
      then "#"%char else "."%char) (seq 0 24))) (seq 11 9)
  = ["..######.#.....#...####."; "..#......#.....#..#....#"; "..#......#.....#.......#";
     "..#.......#...#........#"; "..######..#...#.....###."; "..#........#.#.........#";
     "..#........#.#.........#"; "..#.........#.....#....#"; "..######....#......####."]%string.
Proof. vm_compute. reflexivity. Qed.


Lemma scroll_shifts_witness : exists q,
  LcdScroll (-20) open_display = Some (true, set_display q open_display) /\ pixel q 3 19 = false.
Proof.
  destruct (scroll_shifts (-20) open_display open_display_ready) as (q & H1 & _ & H2).
  exists q. split; [exact H1|]. rewrite H2 by lia. vm_compute. reflexivity.
Defined.

(** A pattern of alternating pixels: a chequerboard. *)
Lemma window_fills_witness : exists q,
  LcdFillWindow 0x55 20 0 open_display
    = Some (true, set_dirty true (set_display q (set_font FONTTYPE_NORMAL open_display)))
  /\ pixel q 4 20 = true /\ pixel q 4 21 = false /\ pixel q 5 21 = true /\ pixel q 4 19 = false.
Proof.
  destruct (window_fills 0x55 20 0 open_display open_display_ready) as (q & H1 & _ & H2); [lia|lia|].
  exists q. split; [exact H1|]. rewrite !H2 by lia. split_and!; vm_compute; reflexivity.
Defined.
